(* ===== verification/_CoqProject ===== *)
-Q . S2P
Prelude.v
Collections.v
Utf8.v
External.v
Errors.v
Detection.v
Chunk.v
Batcher.v
BatchStream.v
BatchGroups.v
Hostname.v
Config.v
Clients.v
Tls.v
OpenAi.v
Http.v
Args.v
Telemetry.v
CompletionState.v
Models.v
Utils.v
Tasks.v
OpenAiWire.v
DetectorWire.v
Serde.v
RequestJson.v
ResponseJson.v
GenerationWire.v
Streams.v
DetectionHandlers.v
Classification.v
Completions.v
Streaming.v
ChatStreaming.v
CompletionsStreaming.v
StreamingContent.v
StreamingClassification.v
Health.v
Routes.v
WireServices.v
Relay.v
Server.v
