(* ===== verification/Prelude.v ===== *)
(** * A verification development of the FMS guardrails orchestrator

    The orchestrator (src/src/, Rust) stands between a caller and a text
    generation model.  A request names detectors for its input, its output, or
    both; the orchestrator splits texts into chunks with chunker services,
    runs detector services on the chunks, keeps the detections whose score
    reaches the detector's threshold, and either blocks the request (input
    detections) or returns the model's answer annotated with the detections
    on it.  This library is a shallow embedding of that program with the
    theorems that make it correct.  Paths below are relative to src/src/.

    ** Files, in dependency order

    - [Prelude] (this file): the outcome type of a Rust call and its
      combinators, machine integers, orders as [Ord], hint databases, list
      lemmas.
    - [Collections]: [BTreeMap] as a strictly sorted association list, stable
      sorting ([sort_by_key]).
    - [Utf8]: Rust strings as UTF-8 bytes, [char] counting, byte and code-point
      slicing.
    - [External]: code outside the repository as type classes: [SerdeJson]
      (serde_json values), [Runtime] (hash-map order and the completion order
      of concurrent futures), with their laws and concrete instances;
      floating point by the Standard Library's [spec_float].
    - [Errors]: clients/errors.rs, orchestrator/errors.rs, server/errors.rs.
    - [Detection], [Chunk]: orchestrator/types/detection.rs, chunk.rs and the
      formats they are converted from and to.
    - [Batcher]: orchestrator/types/detection_batcher.rs and its two
      implementations.  The class [DetectionBatcher] is the trait;
      [BatcherSpec] is its contract (every implementation refines the log of
      unreturned pushes) against which the stream's theorems are proved.
    - [BatchStream]: orchestrator/types/detection_batch_stream.rs as a labelled
      transition system: the merging task and the batcher's actor.
      [BatchGroups]: what the batches it sends are made of, and a constructed
      schedule for interleaved inputs.
    - [Hostname]: [is_valid_hostname] of clients.rs.
    - [Config]: config.rs (after the YAML parser).
    - [Clients]: clients.rs and the state and decisions of clients/*.rs,
      and [create_clients] of orchestrator.rs.
    - [Tls]: utils/tls.rs, the TLS part of clients.rs, and [configure_tls] of
      server/tls.rs, over files and rustls ([Rustls]).
    - [OpenAi], [Models]: the wire types of clients/openai.rs and models.rs
      with validation and conversions.
    - [Utils]: orchestrator/common/utils.rs: slicing, masks, detector
      validation and grouping.
    - [Http]: clients/http.rs: URLs, header maps ([HttpHeaders]), JSON values
      and their serialisation ([Json], [Serialize], [Deserialize]), one request
      over a connection ([Transport]), the router's headers and envelope.
    - [Args]: args.rs: the arguments and the telemetry configuration derived
      from them.  [Telemetry]: utils/trace.rs and the clients' tracing layers:
      what is set up, and which metrics a request counts towards.
    - [Tasks]: orchestrator/common/client.rs and common/tasks.rs: one request
      to a service, and the concurrent chunk and detection tasks.  [Streams]:
      their streaming counterparts, from input channels through broadcast
      channels and chunkers to detection streams.
    - [OpenAiWire], [DetectorWire], [GenerationWire]: the requests of
      clients/openai.rs, detector.rs, generation.rs (over tgis.rs and nlp.rs)
      and chunker.rs as they go over the network, direct or over the router,
      and what is made of the answers.
    - [Serde]: serde's derived readers over JSON values ([JsonView]): fields
      that are required, optional, defaulted or flattened, untagged and tagged
      enums, numbers of a width; the class [RoundTrip] of types that are read
      as they are written.
    - [RequestJson]: what the callers' bodies are read as: the derived
      [Deserialize] of every endpoint's request.  [ResponseJson]: the derived
      [Serialize] and [Deserialize] of every answer, of the services and of the
      endpoints, and the lines of utils/json.rs.
    - [DetectionHandlers], [Classification], [Completions]: the unary handlers
      of orchestrator/handlers/.
    - [CompletionState]: orchestrator/types/completion_state.rs.
    - [Streaming]: what the streaming handlers share: tasks that send to a
      response channel, the consumer of a model's stream, its channels.
    - [ChatStreaming], [CompletionsStreaming]: streaming.rs of the chat and text
      completions, and the dispatch on [stream].
    - [StreamingContent], [StreamingClassification]: the handlers
      streaming_content_detection.rs and streaming_classification_with_gen.rs.
    - [Health]: the health of the clients and the orchestrator's start-up.
    - [Routes]: server/routes.rs: the endpoints of the server.
    - [WireServices]: the requests of the [..Wire] files as the [Services] the
      handlers call, and the whole server on top of them.
    - [Relay]: the unary completions endpoints from the caller's body to the
      model's answer and back, and the body of the content detection stream.
    - [Server]: main.rs, server.rs and the accept loop of server/tls.rs: the
      process from its arguments to its shutdown.

    A route filters the headers and validates the body of a request, makes a
    task of it and turns the handler's answer into a response.  A handler is a
    function of the orchestrator's [Context] (its loaded configuration and its
    client map) and a task; it calls the functions of [Tasks] and [Streams],
    which call the [Services] (what the remote servers answer) through the
    clients [Clients] built.

    ** Conventions

    - A Rust call returns an [outcome]: [Ok], [Err] or [Panic site].  Unwraps,
      slices and indexing that can unwind are written as such, and the
      [no_panic] theorems are about every one of them.
    - Integers keep their width ([wrap]); the release profile has overflow
      checks off, so arithmetic wraps.
    - A method on [&mut self] returns the new state.
    - Concurrency inside a task ([buffer_unordered]) is an arbitrary
      permutation given by [Runtime]; a [HashMap] is a [gmap] and its
      iteration order is [hash_iter], again arbitrary; theorems hold for every
      [Runtime] with its laws.  [try_join_all] on spawned tasks reports the
      first error in list order: which of several errors a caller sees can
      differ in the program, whether there is one cannot, and no theorem
      depends on which.
    - A stream is the list of its messages.  A spawned task with a response
      channel ([Streaming.Task]) is a function of what it has sent, of how many
      messages the client still takes, and of what it will observe of the
      tasks it runs beside.  The consumer of a model's stream is the list of
      its updates and sends in order; another task that reads the shared state
      sees a prefix of it, whose length is drawn from [Schedule.reads], and the
      batches it is handed are those [Schedule] makes of the detection
      streams - by [ScheduleLaws] ones that [BatchStream] can send.
    - Broadcast channels hold 128 messages; a receiver overtaken by more is told
      how many it lost ([broadcast_view]).  Channels that block the sender are
      read in order and lose nothing.
    - Parameters of the model: [SerdeJson], [Runtime], [Schedule], [Connector]
      (what the url crate reads, and opening a connection), [Services] (what the services answer; [Headers]
      is its abstract header type; [wire_services] is the instance made of
      requests), [Transport] and [Grpc] (what a server answers to a request on
      the wire, URLs, base64 and the splitting of a body into events),
      [Probes] (what the health calls answer), [HttpHeaders] (the http crate's
      header map), [Stamp] (the fresh id and the time), [UrlText] (parsing a
      URL), [Otel] (exporters), [Rustls] (files, PEM, what rustls accepts) and
      [Sockets] (binding a port).  The trace id of a task only labels log lines and is left out.

    ** Hypotheses of the theorems

    [chunkers_faithful] and [detectors_faithful]: a service reports spans that
    are slices of the text it was sent; [models_bounded]: a generated text has
    less than 2^32 characters; [services_no_panic], [answers_in_kind]: a call
    with a detector that has a client, or a model id that can be sent, returns
    or fails, and a unary request is not answered with a stream (both follow
    from [wire_healthy] when the services are reached over the wire);
    [forwards]: the router's sender answers an envelope whose fields and headers
    are those of the request as the server answers the request sent to it with
    the caller's headers, a stream wrapped in envelopes;
    [wire_healthy]: one condition for each place where the code unwraps what it
    gets from the network (URLs, bodies that end, statuses in range, the one
    answer of a TGIS batch) and fewer than [usize::MAX] retries;
    [clients_ready]: the clients of the configured services are present (what
    [create_clients_lookup] gives after start-up); [concurrency_positive]: the
    configured concurrency limits are not 0.  [healthy_pipeline] and
    [working_request]: the chunker and the detectors of a streaming request
    answer; [pushed_in_time], [causal]: a batch is observed after what it was
    made of - which only the theorems that promise delivery need; what must
    never happen is proved for every schedule.  JSON text is read back as it was
    written ([value_from_to_vec]) for values whose numbers are integers of 64
    bits or floats that serde_json's reader gives back ([exact]): without its
    [float_roundtrip] feature it does not promise that for every float.  Each is
    instantiated in the witnesses by concrete services.

    ** What the theorems show

    - Guarding ([Completions], [Classification]): a response is either blocked,
      with exactly the input detections and nothing from the model, or the
      model's own answer with exactly the detections on its choices and the
      warnings the code documents; and a request whose input detection reports
      something or fails has the same outcome whatever the model would answer
      (noninterference), so the model is not consulted.
    - Detection ([Tasks], [DetectionHandlers]): for every interleaving,
      detections are exact spans of the caller's text, above their detector's
      threshold, attributed to a requested detector, none lost and sorted.
    - Batching ([Batcher], [BatchStream]): both batchers refine the log of
      pushes; the batch stream conserves detections in every interleaving, and a
      batch has one report of each detector on its chunk; it
      may lose a batch when its pop is abandoned by [select!], and loses none
      in runs where that does not happen; it can deliver everything in order;
      a group reported too often, or not often enough, blocks it for good.
    - Streaming ([ChatStreaming], [CompletionsStreaming], [StreamingContent],
      [StreamingClassification]): in every schedule, text of the model reaches
      a client with chunked output detectors only as the text of a chunk, with
      the detections on it ([..._screened], [..._sound]) - but for one message,
      the one with the finish reason ([finish_message_unscreened]), and for the
      tokens listed with a guarded generation's text
      ([generation_stream_screened]); the detections sent are all that the
      detectors found on the chunk ([detection_streams_sound]); the answers do
      not depend on what is observed when, but for when that one message is sent
      ([..._answered]); working
      services have a schedule that delivers every chunk once, in order
      ([..._delivers]); a stream that does not panic ends with its end signal;
      and what can panic ([completions_stream_margins],
      [generation_stream_race]).
    - Requests on the wire ([OpenAiWire], [DetectorWire], [GenerationWire],
      [WireServices]): completions and detector requests have the same result
      over the router as directly ([..._routing_transparent]), chat
      completions lose their tools ([chat_router_drops_tools]); a generation
      is retried as long as the server is unavailable
      ([nlp_generation_retries]) and panics in exactly two cases
      ([generation_panics_exactly]); no request panics the server when the
      network keeps to [wire_healthy] ([wire_routes_always_answer]).
    - Bodies ([RequestJson], [ResponseJson], [Relay]): what a model is sent is
      the caller's object without its detectors, which are read or refused, and
      with its messages and tools as the program read them
      ([bodies_forwarded]); answers are read as they were written
      ([answers_round_trip]) and relayed as they were read, without the fields
      the program does not know ([answers_relayed]); the model's errors keep
      their status and message unless their code is a text
      ([model_errors_relayed]); the lines of a content detection stream can be
      read back ([content_body_reads_back]).
    - Start-up and connections ([Server], [Tls], [Args]): a process that starts
      serves what its arguments ask for, never in the clear when a TLS argument
      is given ([main_serves_as_asked]); its accept loop serves completed
      handshakes only, one at a time, and stops after the signal
      ([accept_loop_spec]); its clients verify the services' certificates
      unless told otherwise, and start-up panics exactly on the settings given
      there ([service_connections_verified]); telemetry goes
      to endpoints that fit their protocols ([tracing_config_endpoints]).
    - Endpoints ([Routes], [Health]): every request is answered, with one of
      the codes a caller can see; headers pass through as configured; streams
      end in [[DONE]]; start-up does not depend on the services' health, unless a
      health answer breaks off ([orchestrator_new_spec]); the
      generation endpoints panic when no generation service is configured.
    - Absence of panics ([..._no_panic]), the error statuses ([Errors]), and
      validation: requests, host names and configuration accept exactly what
      they should ([OpenAi], [Utils], [Hostname], [Config]).
    - Clients: settings, look-up after start-up, termination and bounds of the
      retries, which only [max_retries = usize::MAX] makes endless.

    ** Bounds and fuel

    [retry_loop] runs on fuel [max_retries + 1], the number of attempts the
    strategy allows, and [retry_function_spec] shows that it never runs out for
    [max_retries < usize::MAX], and that no fuel is enough for [usize::MAX], where
    the counter of attempts wraps.
    Draining a batcher runs on the number of its entries.  The batch stream
    needs no fuel: runs are lists of labels, and the delivering schedule is
    constructed.  The actor's mailbox holds 32 messages, as in the source.

    ** Not modelled

    What a connection, an RPC or a health probe answers, the text of a JSON
    value, the parsing of YAML, PEM and event streams, and clap: parameters.
    axum's routing and accept loops, sockets, log lines and span fields: library
    calls and I/O.  Memory that cannot be allocated aborts the process; only the
    sizes that the standard library refuses are modelled ([with_capacity]).  The
    reader of the batch channel is assumed to keep up, and a response channel's
    128 places are not a bound: its sender waits.  [extract_base_url]
    (clients/http.rs) and [GeneratedTextResult] and its like (models.rs), which
    the program does not use as JSON, are left out. *)
From Stdlib Require Import Ascii SpecFloat.
From stdpp Require Export base strings gmap fin_maps sorting option.
From stdpp Require Export list.

Create HintDb btree.
Create HintDb guardrails.
Create Rewrite HintDb guardrails.

(** ** Outcomes of a Rust call

    [Ok] and [Err] are the two constructors of [Result<A, E>]; [Panic] is an
    unwinding panic ([unwrap] on [None], slice out of range, ...), named after
    the site that raises it. *)
Inductive outcome (E A : Type) : Type :=
| Ok (a : A)
| Err (e : E)
| Panic (site : string).
Arguments Ok {E A} _.
Arguments Err {E A} _.
Arguments Panic {E A} _.

#[export] Instance outcome_ret {E} : MRet (outcome E) := fun A a => Ok a.
#[export] Instance outcome_bind {E} : MBind (outcome E) := fun A B k m =>
  match m with
  | Ok a => k a
  | Err e => Err e
  | Panic s => Panic s
  end.
#[export] Instance outcome_fmap {E} : FMap (outcome E) := fun A B f m =>
  match m with
  | Ok a => Ok (f a)
  | Err e => Err e
  | Panic s => Panic s
  end.

(** [opt.unwrap()] *)
Definition unwrap {E A} (site : string) (o : option A) : outcome E A :=
  match o with
  | Some a => Ok a
  | None => Panic site
  end.

(** [opt.ok_or_else(|| e)] *)
Definition ok_or {E A} (e : E) (o : option A) : outcome E A :=
  match o with
  | Some a => Ok a
  | None => Err e
  end.

(** [result.map_err(f)] *)
Definition map_err {E F A} (f : E -> F) (m : outcome E A) : outcome F A :=
  match m with
  | Ok a => Ok a
  | Err e => Err (f e)
  | Panic s => Panic s
  end.

(** [iter.collect::<Result<Vec<_>, _>>()]: the first error (or panic) in
    iteration order wins. *)
Fixpoint collect {E A} (l : list (outcome E A)) : outcome E (list A) :=
  match l with
  | [] => Ok []
  | m :: l => a ← m; r ← collect l; Ok (a :: r)
  end.

(** [for x in iter { body(x)?; }] *)
Fixpoint for_each {E A} (body : A -> outcome E ()) (l : list A) : outcome E () :=
  match l with
  | [] => Ok ()
  | a :: l => body a ≫= fun _ => for_each body l
  end.

Definition is_ok {E A} (m : outcome E A) : bool :=
  match m with Ok _ => true | _ => false end.

Definition no_panic {E A} (m : outcome E A) : Prop :=
  match m with Panic _ => False | _ => True end.

Section outcome_lemmas.
Context {E : Type}.

Lemma bind_Ok {A B} (m : outcome E A) (k : A -> outcome E B) b :
  m ≫= k = Ok b <-> exists a, m = Ok a /\ k a = Ok b.
Proof. destruct m; simpl; split; naive_solver. Qed.

Lemma bind_Err {A B} (m : outcome E A) (k : A -> outcome E B) e :
  m ≫= k = Err e <-> m = Err e \/ exists a, m = Ok a /\ k a = Err e.
Proof. destruct m; simpl; split; naive_solver. Qed.

Lemma fmap_Ok {A B} (f : A -> B) (m : outcome E A) b :
  f <$> m = Ok b <-> exists a, m = Ok a /\ b = f a.
Proof. destruct m; simpl; split; naive_solver. Qed.

Lemma no_panic_bind {A B} (m : outcome E A) (k : A -> outcome E B) :
  no_panic m -> (forall a, m = Ok a -> no_panic (k a)) -> no_panic (m ≫= k).
Proof. destruct m; simpl; naive_solver. Qed.

Lemma no_panic_map_err {F A} (f : E -> F) (m : outcome E A) :
  no_panic (map_err f m) <-> no_panic m.
Proof. by destruct m. Qed.

Lemma collect_Ok {A} (l : list (outcome E A)) r :
  collect l = Ok r <-> l = Ok <$> r.
Proof.
  revert r; induction l as [|m l IH]; intros r; simpl.
  - split; [by intros [= <-] | by destruct r].
  - rewrite bind_Ok. setoid_rewrite bind_Ok. setoid_rewrite IH. split.
    + by intros (a & -> & r' & -> & [= <-]).
    + destruct r as [|a r]; [done|]. intros [= -> ->]. eauto.
Qed.

Lemma for_each_Ok {A} (body : A -> outcome E ()) l :
  for_each body l = Ok () <-> forall a, a ∈ l -> body a = Ok ().
Proof.
  induction l as [|a l IH]; simpl; [split; [by intros _ a ?%elem_of_nil|done]|].
  rewrite bind_Ok. split.
  - intros ([] & Ha & Hl) a' [->|Hin]%elem_of_cons; [done|]. by apply IH.
  - intros H. exists (). split; [apply H; left|]. apply IH. intros a' ?. apply H. by right.
Qed.

Lemma for_each_no_panic {A} (body : A -> outcome E ()) l :
  (forall a, a ∈ l -> no_panic (body a)) -> no_panic (for_each body l).
Proof.
  induction l as [|a l IH]; simpl; [done|]. intros H.
  apply no_panic_bind; [apply H; left|]. intros _ _. apply IH. intros. apply H. by right.
Qed.

Lemma for_each_Err {A} (body : A -> outcome E ()) l e :
  for_each body l = Err e -> exists a, a ∈ l /\ body a = Err e.
Proof.
  induction l as [|a l IH]; simpl; [done|]. rewrite bind_Err.
  intros [?|(? & _ & (a' & ? & ?)%IH)]; [exists a|exists a']; split; try done; [left|by right].
Qed.

Lemma collect_no_panic {A} (l : list (outcome E A)) :
  Forall no_panic l -> no_panic (collect l).
Proof.
  induction 1 as [|m l Hm _ IH]; simpl; [done|].
  apply no_panic_bind; [done|]. intros a _. by apply no_panic_bind.
Qed.

Lemma collect_total {A B} (f : A -> outcome E B) (l : list A) :
  (forall a, a ∈ l -> exists b, f a = Ok b) -> exists r, collect (f <$> l) = Ok r.
Proof.
  induction l as [|a l IH]; intros H; [by exists []|].
  destruct IH as [r Er]; [intros a' Ha; apply H; by right|].
  destruct (H a (list_elem_of_here _ _)) as [b Hb]. exists (b :: r). by rewrite fmap_cons; simpl; rewrite Hb, Er.
Qed.

Lemma collect_Err_elem {A} (l : list (outcome E A)) e :
  collect l = Err e -> Err e ∈ l.
Proof.
  induction l as [|m l IH]; simpl; [done|].
  rewrite bind_Err. setoid_rewrite bind_Err.
  intros [->|(a & _ & [?|(r & _ & [=])])]; set_solver.
Qed.
End outcome_lemmas.

(** ** Machine integers

    [usize], [i64] and [u32] values are [Z]; every cast and every arithmetic
    operation the source performs at a fixed width is written with its
    wrap-around (the release profile of Cargo.toml keeps overflow checks
    off, so an overflowing operator wraps). *)
Definition wrap (w z : Z) : Z := z `mod` 2 ^ w.
Definition in_width (w z : Z) : Prop := (0 <= z < 2 ^ w)%Z.
(** [usize::MAX] *)
Definition usize_max : Z := (2 ^ 64 - 1)%Z.
(** [v as usize] and [v as u32] *)
Definition as_usize (z : Z) : Z := wrap 64 z.
Definition as_u32 (z : Z) : Z := wrap 32 z.
(** [v as i64] *)
Definition as_i64 (z : Z) : Z := (wrap 64 (z + 2 ^ 63) - 2 ^ 63)%Z.
(** [a + b] and [a - b] at type [usize] *)
Definition usize_add (a b : Z) : Z := wrap 64 (a + b).
Definition usize_sub (a b : Z) : Z := wrap 64 (a - b).
(** [a += b] at type [u32] *)
Definition u32_add (a b : Z) : Z := wrap 32 (a + b).

Section machine_lemmas.
#[local] Open Scope Z_scope.

Lemma wrap_bound w z : 0 <= w -> in_width w (wrap w z).
Proof. intros. apply Z.mod_pos_bound. lia. Qed.

Lemma wrap_id w z : in_width w z -> wrap w z = z.
Proof. apply Z.mod_small. Qed.

Lemma usize_add_small a b : 0 <= a + b < 2 ^ 64 -> usize_add a b = a + b.
Proof. apply wrap_id. Qed.

Lemma usize_sub_small a b : 0 <= b <= a -> a < 2 ^ 64 -> usize_sub a b = a - b.
Proof. intros. apply wrap_id. unfold in_width. lia. Qed.

(** An underflowing subtraction is far larger than any length in memory. *)
Lemma usize_sub_underflow a b :
  0 <= a < b -> b < 2 ^ 64 -> usize_sub a b = a - b + 2 ^ 64.
Proof.
  intros. unfold usize_sub, wrap. symmetry.
  apply Z.mod_unique with (q := -1); lia.
Qed.
End machine_lemmas.

(** ** Total orders as Rust's [Ord]

    [cmp] is [Ord::cmp]; the laws are those the trait's documentation asks
    for.  [cmp x y = Eq] is Rust's [==], which may be coarser than Leibniz
    equality (a chunk ignores its text). *)
Class OrdCmp (A : Type) := cmp : A -> A -> comparison.
#[global] Hint Mode OrdCmp ! : typeclass_instances.
Class OrdLaws (A : Type) {OA : OrdCmp A} := {
  cmp_opp : forall x y : A, cmp y x = CompOpp (cmp x y);
  cmp_lt_trans : forall x y z : A, cmp x y = Lt -> cmp y z = Lt -> cmp x z = Lt;
  cmp_eq_l : forall x y z : A, cmp x y = Eq -> cmp x z = cmp y z
}.

Definition key_eq {A} `{OrdCmp A} (x y : A) : Prop := cmp x y = Eq.

Section ord_lemmas.
Context {A : Type} `{OL : OrdLaws A}.

Lemma cmp_refl (x : A) : cmp x x = Eq.
Proof. pose proof (cmp_opp x x). by destruct (cmp x x). Qed.

Lemma cmp_eq_sym (x y : A) : cmp x y = Eq -> cmp y x = Eq.
Proof. intros E. by rewrite cmp_opp, E. Qed.

Lemma cmp_eq_r (x y z : A) : cmp y z = Eq -> cmp x y = cmp x z.
Proof. intros E. rewrite (cmp_opp y x), (cmp_opp z x). by rewrite (cmp_eq_l _ _ _ E). Qed.

Lemma cmp_gt_lt (x y : A) : cmp x y = Gt <-> cmp y x = Lt.
Proof. rewrite (cmp_opp x y). by destruct (cmp x y). Qed.

#[export] Instance key_eq_equivalence : Equivalence (key_eq (A := A)).
Proof.
  split; unfold key_eq.
  - intros x. apply cmp_refl.
  - intros x y. apply cmp_eq_sym.
  - intros x y z E1 E2. by rewrite (cmp_eq_l _ _ _ E1).
Qed.

#[export] Instance cmp_proper : Proper (key_eq ==> key_eq ==> eq) (cmp (A := A)).
Proof.
  intros x x' Ex y y' Ey. by rewrite (cmp_eq_l _ _ _ Ex), (cmp_eq_r _ _ _ Ey).
Qed.

Lemma cmp_le_trans (x y z : A) : cmp x y <> Gt -> cmp y z <> Gt -> cmp x z <> Gt.
Proof.
  destruct (cmp x y) eqn:E1; [|destruct (cmp y z) eqn:E2|]; try done; intros _ H.
  - by rewrite (cmp_eq_l _ _ _ E1).
  - by rewrite <- (cmp_eq_r _ _ _ E2), E1.
  - by rewrite (cmp_lt_trans _ _ _ E1 E2).
Qed.
End ord_lemmas.

(** Orders on integers, strings (bytewise), options ([None] first) and
    lexicographically on pairs; an order through a key. *)
#[export] Instance Z_ord : OrdCmp Z := Z.compare.
#[export] Instance string_ord : OrdCmp string := String.compare.
#[export] Instance option_ord {A} `{OrdCmp A} : OrdCmp (option A) := fun x y =>
  match x, y with
  | None, None => Eq
  | None, Some _ => Lt
  | Some _, None => Gt
  | Some a, Some b => cmp a b
  end.
#[export] Instance prod_ord {A B} `{OrdCmp A, OrdCmp B} : OrdCmp (A * B) := fun x y =>
  match cmp x.1 y.1 with
  | Eq => cmp x.2 y.2
  | c => c
  end.
Definition cmp_on {A B} `{OrdCmp B} (f : A -> B) : OrdCmp A := fun x y => cmp (f x) (f y).

#[export] Instance Z_ord_laws : OrdLaws Z.
Proof.
  split; unfold cmp, Z_ord.
  - intros. by rewrite Z.compare_antisym.
  - intros x y z. rewrite !Z.compare_lt_iff. lia.
  - intros x y z ->%Z.compare_eq_iff. done.
Qed.

Lemma string_compare_lt_trans (x y z : string) :
  String.compare x y = Lt -> String.compare y z = Lt -> String.compare x z = Lt.
Proof.
  revert y z; induction x as [|c x IH]; intros [|d y] [|e z]; simpl; try done.
  unfold Ascii.compare.
  destruct (N.compare_spec (N_of_ascii c) (N_of_ascii d)) as [E1|E1|E1];
    destruct (N.compare_spec (N_of_ascii d) (N_of_ascii e)) as [E2|E2|E2];
    intros H1 H2; try done;
    destruct (N.compare_spec (N_of_ascii c) (N_of_ascii e)); try lia; eauto.
Qed.

#[export] Instance string_ord_laws : OrdLaws string.
Proof.
  split; unfold cmp, string_ord.
  - intros. by rewrite String.compare_antisym.
  - exact string_compare_lt_trans.
  - intros x y z E%String.compare_eq_iff. by subst.
Qed.

#[export] Instance option_ord_laws {A} `{OrdLaws A} : OrdLaws (option A).
Proof.
  split.
  - intros [x|] [y|]; try done. apply (cmp_opp x y).
  - intros [x|] [y|] [z|]; try done. apply (cmp_lt_trans x y z).
  - intros [x|] [y|] [z|]; try done. apply (cmp_eq_l x y z).
Qed.

#[export] Instance prod_ord_laws {A B} `{OrdLaws A, OrdLaws B} : OrdLaws (A * B).
Proof.
  split; unfold cmp, prod_ord.
  - intros x y. rewrite (cmp_opp x.1 y.1), (cmp_opp x.2 y.2). by destruct (cmp x.1 y.1).
  - intros x y z. destruct (cmp x.1 y.1) eqn:E1; [| |done].
    + rewrite (cmp_eq_l _ _ z.1 E1). destruct (cmp y.1 z.1); try done. apply cmp_lt_trans.
    + destruct (cmp y.1 z.1) eqn:E2; [| |done]; intros _ _.
      * by rewrite <- (cmp_eq_r _ _ _ E2), E1.
      * by rewrite (cmp_lt_trans _ _ _ E1 E2).
  - intros x y z. destruct (cmp x.1 y.1) eqn:E1; [|done..]. intros E2.
    by rewrite (cmp_eq_l _ _ _ E1), (cmp_eq_l _ _ _ E2).
Qed.

Lemma cmp_on_laws {A B} `{OrdLaws B} (f : A -> B) : @OrdLaws A (cmp_on f).
Proof.
  split; unfold cmp, cmp_on; intros.
  - apply (cmp_opp (f x) (f y)).
  - by apply (cmp_lt_trans (f x) (f y) (f z)).
  - by apply (cmp_eq_l (f x) (f y) (f z)).
Qed.

(** ** Lists *)
Lemma filter_fmap_compose {A B} (f : A -> B) (P : B -> Prop) `{!forall b, Decision (P b)} (l : list A) :
  filter P (f <$> l) = f <$> filter (fun a => P (f a)) l.
Proof.
  induction l as [|a l IH]; [done|]. rewrite fmap_cons, !filter_cons, IH.
  by destruct (decide _).
Qed.

Lemma filter_all {A} (P : A -> Prop) `{!forall a, Decision (P a)} (l : list A) :
  Forall P l -> filter P l = l.
Proof. induction 1; [done|]. rewrite filter_cons_True by done. by f_equal. Qed.

Lemma filter_none {A} (P : A -> Prop) `{!forall a, Decision (P a)} (l : list A) :
  Forall (fun a => ~ P a) l -> filter P l = [].
Proof. induction 1; [done|]. by rewrite filter_cons_False. Qed.

Lemma Forall_choice {A B} (R : A -> B -> Prop) (l : list B) :
  Forall (fun b => exists a, R a b) l -> exists k, Forall2 R k l.
Proof.
  induction 1 as [|b l [a Ha] _ [k Hk]]; [by exists []|]. exists (a :: k). by constructor.
Qed.

Lemma StronglySorted_fmap_inv {A B} (f : A -> B) (R : B -> B -> Prop) (l : list A) :
  StronglySorted R (f <$> l) -> StronglySorted (fun a a' => R (f a) (f a')) l.
Proof.
  induction l as [|a l IH]; [constructor|]. rewrite fmap_cons. intros [H1 H2]%StronglySorted_cons.
  constructor; [by apply IH|]. rewrite Forall_fmap in H1. exact H1.
Qed.

Lemma StronglySorted_irrefl_NoDup {A} (R : A -> A -> Prop) (l : list A) :
  (forall a, ~ R a a) -> StronglySorted R l -> NoDup l.
Proof.
  intros HR. induction 1 as [|a l _ IH Hlt]; constructor; [|done].
  intros Hin. rewrite Forall_forall in Hlt. by apply (HR a), Hlt.
Qed.

Lemma Forall2_filter {A B} (P : A -> Prop) (Q : B -> Prop) `{!forall a, Decision (P a), !forall b, Decision (Q b)}
    (R : A -> B -> Prop) k l :
  (forall a b, R a b -> P a <-> Q b) -> Forall2 R k l -> Forall2 R (filter P k) (filter Q l).
Proof.
  intros HPQ. induction 1 as [|a b k l Hab _ IH]; [constructor|].
  destruct (decide (P a)) as [HP|HP].
  - rewrite !filter_cons_True; [by constructor|by apply (HPQ a b)|done].
  - rewrite !filter_cons_False; [done|by rewrite <- (HPQ a b)|done].
Qed.

Lemma Forall2_compose {A B C} (R : A -> B -> Prop) (S : B -> C -> Prop) (T : A -> C -> Prop) l k m :
  (forall a b c, R a b -> S b c -> T a c) -> Forall2 R l k -> Forall2 S k m -> Forall2 T l m.
Proof.
  intros H HR. revert m. induction HR as [|a b l k Hab _ IH]; intros m HS.
  - inversion HS; constructor.
  - inversion HS; subst. constructor; [by eapply H|by apply IH].
Qed.

(** Exchanging two nested iterations. *)
Lemma bind_fmap_swap {A B C} (g : A -> B -> C) (l : list A) (k : list B) :
  (l ≫= fun a => g a <$> k) ≡ₚ (k ≫= fun b => (fun a => g a b) <$> l).
Proof.
  induction l as [|a l IH]; simpl.
  - induction k as [|b k IHk]; [done|]. simpl. done.
  - rewrite IH. clear IH. induction k as [|b k IHk]; [done|]. simpl.
    rewrite <- IHk. apply perm_skip. rewrite !(assoc_L (++)).
    apply Permutation_app_tail, Permutation_app_comm.
Qed.

Lemma zip_fmap_l {A B C} (f : A -> C) (l : list A) (k : list B) :
  zip (f <$> l) k = (fun p => (f p.1, p.2)) <$> zip l k.
Proof. revert k; induction l as [|a l IH]; intros [|b k]; simpl; try done. by rewrite IH. Qed.

(** Checks a decidable statement for each element of a concrete list. *)
Ltac each_elem :=
  let x := fresh "x" in let Hx := fresh "Hx" in
  intros x Hx;
  repeat (apply elem_of_cons in Hx as [->|Hx]; [vm_compute; try reflexivity|]);
  try (by apply elem_of_nil in Hx).
