(* ===== verification/Collections.v ===== *)
(** * Ordered maps and stable sorting

    The standard-library containers the orchestrator is built on:
    [BTreeMap] as an association list kept strictly sorted by the key's
    [Ord] (keys are compared with [cmp], never with Leibniz equality, so a
    key type with a coarser [Eq], such as a chunk, behaves as it does in
    Rust), and [slice::sort_by_key] as a stable sort. *)
From Stdlib Require Import Sorted Permutation.
From S2P Require Import Prelude.

(** ** BTreeMap *)
Section btree_ops.
Context {K V : Type} `{OrdCmp K}.

(** [entry(k)]: [vacant] is inserted under [k] when no equal key is
    present; an occupied entry is updated in place and keeps its old key. *)
Fixpoint bt_entry (k : K) (vacant : V) (occupied : V -> V) (m : list (K * V)) : list (K * V) :=
  match m with
  | [] => [(k, vacant)]
  | (k', v') :: m' =>
      match cmp k k' with
      | Lt => (k, vacant) :: m
      | Eq => (k', occupied v') :: m'
      | Gt => (k', v') :: bt_entry k vacant occupied m'
      end
  end.

Definition bt_insert (k : K) (v : V) : list (K * V) -> list (K * V) :=
  bt_entry k v (fun _ => v).

Fixpoint bt_get (k : K) (m : list (K * V)) : option V :=
  match m with
  | [] => None
  | (k', v') :: m' => match cmp k k' with Eq => Some v' | _ => bt_get k m' end
  end.

Definition bt_first_key_value (m : list (K * V)) : option (K * V) := head m.
Definition bt_pop_first (m : list (K * V)) : option ((K * V) * list (K * V)) :=
  match m with
  | [] => None
  | kv :: m' => Some (kv, m')
  end.
Definition bt_is_empty (m : list (K * V)) : bool :=
  match m with [] => true | _ => false end.
Definition bt_last_key_value (m : list (K * V)) : option (K * V) := last m.
(** [keys().rev().nth(n)] *)
Definition bt_keys_rev_nth (n : nat) (m : list (K * V)) : option K := (reverse m.*1 !! n : option K).
(** [range(lo..=hi)], which panics when the bounds are in the wrong order. *)
Definition bt_range {E} (site : string) (lo hi : K) (m : list (K * V)) : outcome E (list (K * V)) :=
  match cmp lo hi with
  | Gt => Panic site
  | _ => Ok (filter (fun kv => cmp lo kv.1 <> Gt /\ cmp kv.1 hi <> Gt) m)
  end.
Definition bt_from_iter (l : list (K * V)) : list (K * V) :=
  foldl (fun m kv => bt_insert kv.1 kv.2 m) [] l.

Definition key_lt (p q : K * V) : Prop := cmp p.1 q.1 = Lt.
(** The representation invariant of a [BTreeMap]. *)
Definition bt_sorted : list (K * V) -> Prop := StronglySorted key_lt.
End btree_ops.

Section btree_lemmas.
Context {K V : Type} `{OL : OrdLaws K}.
Implicit Types (m : list (K * V)) (k : K).

Lemma bt_entry_Forall (P : K * V -> Prop) k v f m :
  P (k, v) -> (forall k' v', P (k', v') -> P (k', f v')) ->
  Forall P m -> Forall P (bt_entry k v f m).
Proof.
  intros Hv Hf. induction 1 as [|[k' v'] m' Hp Hm IH]; simpl; [by auto|].
  destruct (cmp k k'); auto.
Qed.

Lemma bt_entry_sorted k v f m : bt_sorted m -> bt_sorted (bt_entry k v f m).
Proof.
  induction 1 as [|[k' v'] m' Hm IH Hlt]; simpl; [by repeat constructor|].
  destruct (cmp k k') eqn:E.
  - constructor; [done|]. exact Hlt.
  - constructor; [by constructor|]. constructor; [done|].
    eapply Forall_impl; [exact Hlt|]. intros [k'' v''] L. by eapply cmp_lt_trans.
  - constructor; [done|]. apply bt_entry_Forall; [by apply cmp_gt_lt|done|done].
Qed.

Lemma bt_insert_sorted k v m : bt_sorted m -> bt_sorted (bt_insert k v m).
Proof. apply bt_entry_sorted. Qed.

Lemma bt_pop_first_sorted m kv m' :
  bt_pop_first m = Some (kv, m') -> bt_sorted m -> bt_sorted m' /\ Forall (key_lt kv) m'.
Proof. destruct m; simpl; [done|]. intros [= -> ->]. by inversion 1. Qed.

Lemma bt_get_below k m : Forall (fun p => cmp k p.1 = Lt) m -> bt_get k m = None.
Proof.
  induction 1 as [|[k' v'] m' E _ IH]; simpl in *; [done|]. by rewrite E.
Qed.

Lemma bt_get_proper k k' m : key_eq k k' -> bt_get k m = bt_get k' m.
Proof.
  intros E. induction m as [|[k0 v0] m IH]; simpl; [done|].
  rewrite (cmp_eq_l _ _ k0 E). by rewrite IH.
Qed.

(** Looking up the key an entry operation was applied to ... *)
Lemma bt_get_entry k v f m :
  bt_sorted m ->
  bt_get k (bt_entry k v f m) = Some (match bt_get k m with Some v' => f v' | None => v end).
Proof.
  induction 1 as [|[k' v'] m' Hm IH Hlt]; simpl; [by rewrite cmp_refl|].
  destruct (cmp k k') eqn:E; simpl.
  - by rewrite E.
  - rewrite cmp_refl. rewrite bt_get_below; [done|].
    eapply Forall_impl; [exact Hlt|]. intros p L. by eapply cmp_lt_trans.
  - by rewrite E.
Qed.

(** ... and any other key. *)
Lemma bt_get_entry_ne k k' v f m :
  cmp k' k <> Eq -> bt_get k' (bt_entry k v f m) = bt_get k' m.
Proof.
  intros N. induction m as [|[k0 v0] m IH]; simpl.
  - by destruct (cmp k' k).
  - destruct (cmp k k0) eqn:E; simpl.
    + rewrite <- (cmp_eq_r k' k k0 E). by destruct (cmp k' k).
    + by destruct (cmp k' k).
    + by rewrite IH.
Qed.

Lemma bt_get_Some_elem k m v : bt_get k m = Some v -> exists k', key_eq k k' /\ (k', v) ∈ m.
Proof.
  induction m as [|[k0 v0] m IH]; simpl; [done|]. destruct (cmp k k0) eqn:E.
  - intros [= ->]. exists k0. split; [done|left].
  - intros (k' & ? & ?)%IH. exists k'. split; [done|by right].
  - intros (k' & ? & ?)%IH. exists k'. split; [done|by right].
Qed.

Lemma bt_get_elem k m v : bt_sorted m -> (k, v) ∈ m -> bt_get k m = Some v.
Proof.
  induction 1 as [|[k0 v0] m' Hm IH Hlt]; [by intros ?%elem_of_nil|].
  rewrite elem_of_cons. intros [[= -> ->]|Hin]; simpl; [by rewrite cmp_refl|].
  rewrite Forall_forall in Hlt. specialize (Hlt _ Hin). unfold key_lt in Hlt; simpl in Hlt.
  rewrite (cmp_opp k0 k), Hlt. simpl. by apply IH.
Qed.

Lemma bt_entry_length k v f m :
  length (bt_entry k v f m) = (match bt_get k m with Some _ => 0 | None => 1 end + length m)%nat
  \/ ~ bt_sorted m.
Proof.
  induction m as [|[k' v'] m IH]; simpl; [by left|].
  destruct (cmp k k') eqn:E; simpl; [by left| |].
  - destruct (decide (bt_get k m = None)) as [->|N]; [by left|].
    right. intros HS. inversion HS as [|?? Hm Hlt]; subst. apply N, bt_get_below.
    eapply Forall_impl; [exact Hlt|]. intros p L. by eapply cmp_lt_trans.
  - destruct IH as [->|IH]; [left; lia|]. right. by inversion 1.
Qed.

Lemma bt_is_empty_spec m : bt_is_empty m = true <-> m = [].
Proof. by destruct m. Qed.
End btree_lemmas.

(** ** Stable sorting: [slice::sort_by_key] *)
Section sort_by_key.
Context {A K : Type} `{OL : OrdLaws K} (key : A -> K).

Fixpoint sort_insert (x : A) (l : list A) : list A :=
  match l with
  | [] => [x]
  | y :: l' => match cmp (key x) (key y) with
               | Gt => y :: sort_insert x l'
               | _ => x :: l
               end
  end.

Definition sort_by_key (l : list A) : list A := foldr sort_insert [] l.

Definition key_le (x y : A) : Prop := cmp (key x) (key y) <> Gt.

Lemma sort_insert_perm x l : sort_insert x l ≡ₚ x :: l.
Proof.
  induction l as [|y l IH]; simpl; [done|].
  destruct (cmp _ _); [done|done|]. rewrite IH. constructor.
Qed.

Lemma sort_by_key_perm l : sort_by_key l ≡ₚ l.
Proof. induction l as [|x l IH]; simpl; [done|]. by rewrite sort_insert_perm, IH. Qed.

Lemma sort_insert_sorted x l :
  StronglySorted key_le l -> StronglySorted key_le (sort_insert x l).
Proof.
  induction 1 as [|y l Hl IH Hle]; simpl; [by repeat constructor|].
  destruct (cmp (key x) (key y)) eqn:E.
  1,2: constructor; [by constructor|]; constructor;
    [by unfold key_le; rewrite E|];
    eapply Forall_impl; [exact Hle|]; intros z Hz;
    eapply cmp_le_trans; [|exact Hz]; by rewrite E.
  constructor; [done|]. rewrite sort_insert_perm. constructor; [|done].
  unfold key_le. apply cmp_gt_lt in E. by rewrite E.
Qed.

Lemma sort_by_key_sorted l : StronglySorted key_le (sort_by_key l).
Proof. induction l; simpl; [constructor|]. by apply sort_insert_sorted. Qed.

(** Elements with equal keys keep their relative order. *)
Lemma sort_insert_filter_ne k x l :
  cmp (key x) k <> Eq ->
  filter (fun y => cmp (key y) k = Eq) (sort_insert x l) =
  filter (fun y => cmp (key y) k = Eq) l.
Proof.
  intros N. induction l as [|y l IH]; simpl; [by rewrite filter_cons_False|].
  destruct (cmp (key x) (key y)); [by rewrite filter_cons_False..|].
  rewrite !(filter_cons _ y). by rewrite IH.
Qed.

Lemma sort_insert_filter_eq k x l :
  cmp (key x) k = Eq ->
  filter (fun y => cmp (key y) k = Eq) (sort_insert x l) =
  x :: filter (fun y => cmp (key y) k = Eq) l.
Proof.
  intros E. induction l as [|y l IH]; simpl; [by rewrite filter_cons_True|].
  destruct (cmp (key x) (key y)) eqn:Exy; [by rewrite filter_cons_True..|].
  rewrite !(filter_cons _ y), IH. destruct (decide _) as [E'|]; [|done].
  rewrite (cmp_eq_l _ _ (key y) E), (cmp_eq_sym _ _ E') in Exy. done.
Qed.

Lemma sort_by_key_stable k l :
  filter (fun y => cmp (key y) k = Eq) (sort_by_key l) =
  filter (fun y => cmp (key y) k = Eq) l.
Proof.
  induction l as [|x l IH]; simpl; [done|].
  destruct (decide (cmp (key x) k = Eq)) as [E|N].
  - by rewrite sort_insert_filter_eq, IH, filter_cons_True.
  - by rewrite sort_insert_filter_ne, IH, filter_cons_False.
Qed.

(** A sorted list is left as it is. *)
Lemma sort_by_key_id l : StronglySorted key_le l -> sort_by_key l = l.
Proof.
  induction 1 as [|x l Hl IH Hle]; simpl; [done|]. rewrite IH.
  destruct Hle as [|y l Hxy]; simpl; [done|].
  unfold key_le in Hxy. by destruct (cmp _ _).
Qed.
End sort_by_key.

#[export] Hint Resolve bt_entry_sorted bt_insert_sorted : btree.
