(* ===== verification/Utf8.v ===== *)
(** * UTF-8 strings

    A Rust [String] is a Rocq [string] of its UTF-8 bytes.  [chars] splits it
    into code points the way [str::chars] does: every byte that is not a
    continuation byte (10xxxxxx) starts a code point.  [takeZ] and [dropZ]
    are [Iterator::take] and [Iterator::skip] at a [usize] count. *)
From Stdlib Require Import Ascii.
From S2P Require Import Prelude.
#[local] Open Scope Z_scope.
#[local] Arguments String.append !s1 s2 : simpl nomatch.

(** [b & 0xC0 == 0x80] *)
Definition is_cont (c : ascii) : bool :=
  match c with Ascii _ _ _ _ _ _ b6 b7 => b7 && negb b6 end.

Definition starts_cont (s : string) : bool :=
  match s with EmptyString => false | String c _ => is_cont c end.

Fixpoint chars (s : string) : list string :=
  match s with
  | EmptyString => []
  | String c s' =>
      match chars s' with
      | [] => [String c ""]
      | ch :: chs => if starts_cont ch then String c ch :: chs else String c "" :: ch :: chs
      end
  end.

(** [iter.collect::<String>()] *)
Definition concat (l : list string) : string := foldr String.append "" l.

(** [str::len]: the length in bytes. *)
Definition byte_len (s : string) : Z := Z.of_nat (String.length s).
(** [s.chars().count()] *)
Definition char_count (s : string) : Z := Z.of_nat (length (chars s)).

Fixpoint takeZ {A} (n : Z) (l : list A) : list A :=
  match l with
  | [] => []
  | x :: l => if n <=? 0 then [] else x :: takeZ (n - 1) l
  end.
Fixpoint dropZ {A} (n : Z) (l : list A) : list A :=
  match l with
  | [] => []
  | x :: l' => if n <=? 0 then l else dropZ (n - 1) l'
  end.

Section take_drop.
Context {A : Type}.
Implicit Types l : list A.

Lemma takeZ_take n l : takeZ n l = take (Z.to_nat n) l.
Proof.
  revert n; induction l as [|x l IH]; intros n; simpl; [by rewrite take_nil|].
  destruct (Z.leb_spec n 0).
  - by replace (Z.to_nat n) with 0%nat by lia.
  - rewrite IH. by replace (Z.to_nat n) with (S (Z.to_nat (n - 1))) by lia.
Qed.

Lemma dropZ_drop n l : dropZ n l = drop (Z.to_nat n) l.
Proof.
  revert n; induction l as [|x l IH]; intros n; simpl; [by rewrite drop_nil|].
  destruct (Z.leb_spec n 0).
  - by replace (Z.to_nat n) with 0%nat by lia.
  - rewrite IH. by replace (Z.to_nat n) with (S (Z.to_nat (n - 1))) by lia.
Qed.

Lemma takeZ_ge n l : Z.of_nat (length l) <= n -> takeZ n l = l.
Proof. intros. rewrite takeZ_take. apply take_ge. lia. Qed.

Lemma takeZ_dropZ_slice a b c n l :
  0 <= a -> 0 <= b -> 0 <= c -> b + c <= n ->
  takeZ c (dropZ b (takeZ n (dropZ a l))) = takeZ c (dropZ (a + b) l).
Proof.
  intros. rewrite !takeZ_take, !dropZ_drop, skipn_firstn_comm, take_take, drop_drop.
  f_equal; [lia|]. f_equal. lia.
Qed.
End take_drop.

(** ** Code points *)

(** A code point: a lead byte followed by continuation bytes. *)
Fixpoint all_cont (s : string) : bool :=
  match s with EmptyString => true | String c s => is_cont c && all_cont s end.
Definition is_char (ch : string) : Prop :=
  exists c t, ch = String c t /\ is_cont c = false /\ all_cont t = true.

(** Every valid UTF-8 string starts with a lead byte (or is empty). *)
Definition aligned (s : string) : Prop := starts_cont s = false.

Lemma append_nil_r (s : string) : String.append s "" = s.
Proof. induction s as [|c s IH]; simpl; [done|]. by rewrite IH. Qed.

Lemma append_assoc (a b c : string) :
  String.append (String.append a b) c = String.append a (String.append b c).
Proof. induction a as [|x a IH]; simpl; [done|]. by rewrite IH. Qed.

Lemma concat_app l1 l2 : concat (l1 ++ l2) = String.append (concat l1) (concat l2).
Proof. induction l1 as [|s l1 IH]; simpl; [done|]. by rewrite IH, append_assoc. Qed.

Lemma concat_chars s : concat (chars s) = s.
Proof.
  induction s as [|c s IH]; simpl; [done|].
  destruct (chars s) as [|ch chs]; simpl in *; [by rewrite <- IH|].
  destruct (starts_cont ch); simpl; by rewrite IH.
Qed.

Lemma chars_nil s : chars s = [] <-> s = "".
Proof.
  split; [|by intros ->]. destruct s as [|c s]; simpl; [done|].
  destruct (chars s) as [|ch chs]; [done|]. by destruct (starts_cont ch).
Qed.

(** The head of [chars s] starts like [s], and every later element starts
    with a lead byte. *)
Lemma chars_cons_head c s : exists t chs,
  chars (String c s) = String c t :: chs /\ all_cont t = true /\ Forall is_char chs.
Proof.
  revert c; induction s as [|d s IH]; intros c; [by exists "", []|].
  destruct (IH d) as (t & chs & E & Ht & Hchs).
  change (chars (String c (String d s))) with
    (match chars (String d s) with
     | [] => [String c ""]
     | ch :: chs => if starts_cont ch then String c ch :: chs else String c "" :: ch :: chs
     end).
  rewrite E. simpl. destruct (is_cont d) eqn:Ed.
  - exists (String d t), chs. simpl. by rewrite Ed.
  - exists "", (String d t :: chs). split; [done|]. split; [done|].
    constructor; [by exists d, t|done].
Qed.

Lemma chars_is_char s : aligned s -> Forall is_char (chars s).
Proof.
  destruct s as [|c s]; [by constructor|]. intros Hc.
  destruct (chars_cons_head c s) as (t & chs & -> & Ht & Hchs).
  constructor; [by exists c, t|done].
Qed.

Lemma chars_char_app ch s : is_char ch -> aligned s -> chars (String.append ch s) = ch :: chars s.
Proof.
  intros (c & t & -> & Hc & Ht) Hs.
  revert c Hc; induction t as [|d t IH]; intros c Hc.
  - simpl. destruct s as [|e s]; [done|].
    destruct (chars_cons_head e s) as (t & chs & -> & _). unfold aligned in *; simpl in *.
    by rewrite Hs.
  - simpl in Ht. apply andb_true_iff in Ht as [Hd Ht].
    assert (Hcs : forall u, all_cont u = true ->
      exists chs, chars (String.append (String d u) s) = String d u :: chs /\ chs = chars s).
    { clear IH Ht t. intros u. revert d Hd. induction u as [|e u IHu]; intros d Hd Hu.
      - simpl. destruct s as [|e s]; [by eexists|].
        destruct (chars_cons_head e s) as (t & chs & -> & _). unfold aligned in *; simpl in *. rewrite Hs. by eexists.
      - simpl in Hu. apply andb_true_iff in Hu as [He Hu].
        destruct (IHu e He Hu) as (chs & E & ->).
        change (chars (String.append (String d (String e u)) s)) with
          (chars (String d (String.append (String e u) s))).
        simpl in *. rewrite E. simpl. rewrite He. by eexists. }
    destruct (Hcs t Ht) as (chs & E & ->).
    simpl in *. rewrite E. simpl. by rewrite Hd.
Qed.

Lemma concat_aligned l : Forall is_char l -> aligned (concat l).
Proof. destruct 1 as [|ch l (c & t & -> & Hc & _) _]; [done|]. exact Hc. Qed.

(** Splitting a concatenation of code points gives the code points back. *)
Lemma chars_concat l : Forall is_char l -> chars (concat l) = l.
Proof.
  induction 1 as [|ch l Hch Hl IH]; simpl; [done|].
  rewrite chars_char_app; [by rewrite IH|done|by apply concat_aligned].
Qed.

Lemma chars_app s1 s2 :
  aligned s1 -> aligned s2 -> chars (String.append s1 s2) = chars s1 ++ chars s2.
Proof.
  intros H1 H2. rewrite <- (concat_chars s1) at 1. rewrite <- (concat_chars s2) at 1.
  rewrite <- concat_app. apply chars_concat, Forall_app; split; by apply chars_is_char.
Qed.

Lemma takeZ_is_char n l : Forall is_char l -> Forall is_char (takeZ n l).
Proof. rewrite takeZ_take. by apply Forall_take. Qed.
Lemma dropZ_is_char n l : Forall is_char l -> Forall is_char (dropZ n l).
Proof. rewrite dropZ_drop. by apply Forall_drop. Qed.

#[export] Hint Resolve chars_is_char concat_aligned takeZ_is_char dropZ_is_char : guardrails.
#[export] Hint Rewrite concat_chars append_nil_r : guardrails.
