(* ===== verification/External.v ===== *)
(** * Code outside the repository

    Parameters of the model, as type classes: the JSON library
    ([serde_json]), and the iteration and completion orders the standard
    library's hash map and the async runtime are free to choose.  Laws state
    documented behaviour only; each class has a concrete instance the
    witnesses evaluate with.  Floating-point numbers are the Standard
    Library's [spec_float]. *)
From Stdlib Require Import SpecFloat.
From S2P Require Import Prelude.
#[local] Open Scope Z_scope.

(** ** Floating point

    [f64] and [f32] values with the casts and comparisons the source uses. *)
Definition f64 := spec_float.
Definition f32 := spec_float.

(** [a >= b] *)
Definition f64_ge (a b : f64) : bool := SFleb b a.

(** [v as f32] (round to nearest even) and [v as f64] (exact) *)
Definition f64_as_f32 (v : f64) : f32 :=
  match v with
  | S754_finite s m e => binary_normalize 24 128 (cond_Zopp s (Zpos m)) e s
  | _ => v
  end.
Definition f32_as_f64 (v : f32) : f64 :=
  match v with
  | S754_finite s m e => binary_normalize 53 1024 (cond_Zopp s (Zpos m)) e s
  | _ => v
  end.

(** [v as u32]: truncates towards zero, saturates, and maps NaN to 0. *)
Definition f64_as_u32 (v : f64) : Z :=
  match v with
  | S754_zero _ => 0
  | S754_infinity s => if s then 0 else 2 ^ 32 - 1
  | S754_nan => 0
  | S754_finite s m e =>
      if s then 0 else Z.min (Z.shiftl (Zpos m) e) (2 ^ 32 - 1)
  end.

(** A few literals. *)
Definition f64_zero : f64 := S754_zero false.
Definition f64_of_Z (z : Z) : f64 := binary_normalize 53 1024 z 0 false.
Definition f64_div (a b : f64) : f64 := SFdiv 53 1024 a b.

(** ** serde_json *)
Class SerdeJson := {
  Value : Type;
  (** [Value::is_number], [Value::as_f64] *)
  value_is_number : Value -> bool;
  value_as_f64 : Value -> option f64;
  (** [Value::as_i64] *)
  value_as_i64 : Value -> option Z
}.

(** "If the Value is a number, represent it as f64 if possible.  Returns
    None otherwise." *)
Class SerdeJsonLaws (SJ : SerdeJson) := {
  as_f64_is_number : forall v x, value_as_f64 v = Some x -> value_is_number v = true
}.

(** ** Scheduling

    [hash_iter m] is the order in which a hash map yields its entries, and
    [buffer_unordered n l] the order in which the results of the futures
    [l] are collected by [StreamExt::buffer_unordered(n)].
    [broadcast_recv r l] is what successive calls of [recv] give receiver [r]
    of a [tokio::sync::broadcast] channel on which the values [l] are sent
    while it is subscribed before the senders are dropped: the values in
    order, but a receiver that more than [capacity] values have overtaken
    skips to the oldest one retained and is told how many it missed. *)
Inductive RecvError := Closed | Lagged (n : nat).

Inductive broadcast_view {A} (capacity : nat) : list A -> list (A + RecvError) -> Prop :=
| view_closed : broadcast_view capacity [] [inr Closed]
| view_recv x l view : broadcast_view capacity l view -> broadcast_view capacity (x :: l) (inl x :: view)
| view_lagged skipped l view :
    skipped <> [] -> (capacity <= length l)%nat -> broadcast_view capacity l view ->
    broadcast_view capacity (skipped ++ l) (inr (Lagged (length skipped)) :: view).

(** [broadcast::channel(128)] (src/orchestrator/common/tasks.rs) *)
Definition broadcast_capacity : nat := 128.

Class Runtime := {
  hash_iter : forall {K V} `{Countable K}, gmap K V -> list (K * V);
  buffer_unordered : forall {A}, nat -> list A -> list A;
  broadcast_recv : forall {A}, Z * string -> list A -> list (A + RecvError)
}.
Class RuntimeLaws (RT : Runtime) := {
  hash_iter_perm : forall {K V} `{Countable K} (m : gmap K V), hash_iter m ≡ₚ map_to_list m;
  buffer_unordered_perm : forall {A} (n : nat) (l : list A),
    (0 < n)%nat -> buffer_unordered n l ≡ₚ l;
  broadcast_recv_view : forall {A} (receiver : Z * string) (l : list A),
    broadcast_view broadcast_capacity l (broadcast_recv receiver l)
}.

(** [HashMap::keys] and [collect::<HashMap<_, _>>()] *)
Definition hash_keys {RT : Runtime} {K V} `{Countable K} (m : gmap K V) : list K :=
  (hash_iter m).*1.
Definition hash_collect {K V} `{Countable K} (l : list (K * V)) : gmap K V :=
  foldl (fun m kv => <[kv.1 := kv.2]> m) ∅ l.

Section hash_lemmas.
Context {RT : Runtime} {RL : RuntimeLaws RT}.
Context {K V : Type} `{Countable K}.
Implicit Types m : gmap K V.

Lemma elem_of_hash_iter m k v : (k, v) ∈ hash_iter m <-> m !! k = Some v.
Proof. by rewrite hash_iter_perm, elem_of_map_to_list. Qed.

Lemma elem_of_hash_keys m k : k ∈ hash_keys m <-> is_Some (m !! k).
Proof.
  unfold hash_keys. rewrite list_elem_of_fmap. split.
  - intros ([k' v] & -> & ?%elem_of_hash_iter). by exists v.
  - intros [v Hv]. exists (k, v). by rewrite elem_of_hash_iter.
Qed.

Lemma hash_iter_nil m : hash_iter m = [] <-> m = ∅.
Proof.
  rewrite <- map_to_list_empty_iff. split; intros E.
  - apply Permutation_nil_r. rewrite <- E. symmetry. apply hash_iter_perm.
  - apply Permutation_nil_r. rewrite <- E. apply hash_iter_perm.
Qed.

Lemma hash_collect_lookup_Some (l : list (K * V)) k v :
  hash_collect l !! k = Some v -> (k, v) ∈ l.
Proof.
  unfold hash_collect. induction l as [|[k' v'] l IH] using rev_ind; [by cbn; intros ?%lookup_empty_Some|].
  rewrite foldl_app. simpl. rewrite lookup_insert_Some, elem_of_app.
  intros [[<- <-]|[_ ?%IH]]; [right|left]; [by left|done].
Qed.

Lemma hash_collect_is_Some (l : list (K * V)) k :
  k ∈ l.*1 -> is_Some (hash_collect l !! k).
Proof.
  unfold hash_collect. induction l as [|[k' v'] l IH] using rev_ind; [by intros ?%elem_of_nil|].
  rewrite foldl_app, fmap_app, elem_of_app. simpl. intros Hk.
  destruct (decide (k = k')) as [->|N]; [by rewrite lookup_insert_eq; eexists|].
  rewrite lookup_insert_ne by done. destruct Hk as [?|Hk]; [by apply IH|].
  by apply list_elem_of_singleton in Hk.
Qed.

Lemma hash_collect_nodup (l : list (K * V)) k v :
  NoDup l.*1 -> hash_collect l !! k = Some v <-> (k, v) ∈ l.
Proof.
  intros Hnd. split; [apply hash_collect_lookup_Some|]. intros Hin.
  destruct (hash_collect_is_Some l k) as [v' Hv']; [apply list_elem_of_fmap; by exists (k, v)|].
  rewrite Hv'. f_equal. apply hash_collect_lookup_Some in Hv'.
  apply list_elem_of_lookup in Hin as [i Hi]. apply list_elem_of_lookup in Hv' as [j Hj].
  assert (E : i = j).
  { eapply NoDup_lookup; [exact Hnd|..]; rewrite list_lookup_fmap; [by rewrite Hi|by rewrite Hj]. }
  subst. rewrite Hi in Hj. by injection Hj as ->.
Qed.
End hash_lemmas.

(** A receiver that keeps up sees every value, then the end of the channel ... *)
Lemma broadcast_view_in_time {A} capacity (l : list A) :
  broadcast_view capacity l ((inl <$> l) ++ [inr Closed]).
Proof. induction l; constructor; done. Qed.

(** ... and it does so whenever no more values are sent than are retained. *)
Lemma broadcast_view_short {A} capacity (l : list A) view :
  broadcast_view capacity l view -> (length l <= capacity)%nat ->
  view = (inl <$> l) ++ [inr Closed].
Proof.
  induction 1 as [|x l view _ IH|skipped l view Hs Hc]; simpl; [done| |].
  - intros Hl. rewrite IH by lia. done.
  - rewrite length_app. intros. destruct skipped; simpl in *; [done|lia].
Qed.

(** ** Concrete instances *)

(** The first-in first-out runtime. *)
Definition fifo_runtime : Runtime := {|
  hash_iter := fun _ _ _ _ m => map_to_list m;
  buffer_unordered := fun _ _ l => l;
  broadcast_recv := fun _ _ l => (inl <$> l) ++ [inr Closed]
|}.
Lemma fifo_runtime_laws : RuntimeLaws fifo_runtime.
Proof. split; [done|done|]. intros A r l. apply broadcast_view_in_time. Qed.

(** A JSON library whose values are null, floats, integers (with their float)
    and strings. *)
Inductive simple_value := VNull | VNumber (x : f64) | VInteger (z : Z) (x : f64) | VString (s : string).
Definition simple_json : SerdeJson := {|
  Value := simple_value;
  value_is_number v := match v with VNumber _ | VInteger _ _ => true | _ => false end;
  value_as_f64 v :=
    match v with VNumber x | VInteger _ x => Some x | _ => None end;
  value_as_i64 v := match v with VInteger z _ => Some z | _ => None end
|}.
Lemma simple_json_laws : SerdeJsonLaws simple_json.
Proof. split. by intros []. Qed.
