(* ===== verification/Errors.v ===== *)
(** * Error types

    The three layers of errors (src/clients/errors.rs,
    src/orchestrator/errors.rs, src/server/errors.rs), their texts, and the
    mapping to the HTTP status a caller sees. *)
From S2P Require Import Prelude External.
#[local] Open Scope string_scope.
#[local] Open Scope Z_scope.

(** ** HTTP status codes *)
Definition StatusCode := Z.
Definition OK : StatusCode := 200.
Definition BAD_REQUEST : StatusCode := 400.
Definition UNAUTHORIZED : StatusCode := 401.
Definition FORBIDDEN : StatusCode := 403.
Definition NOT_FOUND : StatusCode := 404.
Definition REQUEST_TIMEOUT : StatusCode := 408.
Definition UNPROCESSABLE_ENTITY : StatusCode := 422.
Definition INTERNAL_SERVER_ERROR : StatusCode := 500.
Definition NOT_IMPLEMENTED : StatusCode := 501.
Definition SERVICE_UNAVAILABLE : StatusCode := 503.

(** [StatusCode::from_u16]: codes outside 100..=999 are rejected. *)
Definition status_from_u16 (code : Z) : option StatusCode :=
  if (100 <=? code) && (code <=? 999) then Some code else None.

(** The gRPC status codes (tonic::Code). *)
Inductive GrpcCode :=
| CodeOk | CodeCancelled | CodeUnknown | CodeInvalidArgument | CodeDeadlineExceeded
| CodeNotFound | CodeAlreadyExists | CodePermissionDenied | CodeResourceExhausted
| CodeFailedPrecondition | CodeAborted | CodeOutOfRange | CodeUnimplemented
| CodeInternal | CodeUnavailable | CodeDataLoss | CodeUnauthenticated.

Definition grpc_to_http_code (value : GrpcCode) : StatusCode :=
  match value with
  | CodeInvalidArgument => BAD_REQUEST
  | CodeInternal => INTERNAL_SERVER_ERROR
  | CodeNotFound => NOT_FOUND
  | CodeDeadlineExceeded => REQUEST_TIMEOUT
  | CodeUnimplemented => NOT_IMPLEMENTED
  | CodeUnauthenticated => UNAUTHORIZED
  | CodePermissionDenied => FORBIDDEN
  | CodeUnavailable => SERVICE_UNAVAILABLE
  | CodeOk => OK
  | _ => INTERNAL_SERVER_ERROR
  end.

(** ** Client errors *)
Inductive ClientError :=
| Grpc (code : StatusCode) (message : string)
| Http (code : StatusCode) (message : string)
| ModelNotFound (model_id : string).

Definition client_error_to_string (e : ClientError) : string :=
  match e with
  | Grpc _ message | Http _ message => message
  | ModelNotFound model_id => "model not found: " +:+ model_id
  end.

Definition status_code (e : ClientError) : StatusCode :=
  match e with
  | Grpc code _ => code
  | Http code _ => code
  | ModelNotFound _ => NOT_FOUND
  end.

(** [From<hyper::Error>] (the error is its text) and [From<tonic::Status>] *)
Definition client_error_from_hyper (error : string) : ClientError :=
  Http INTERNAL_SERVER_ERROR error.
Definition client_error_from_tonic (code : GrpcCode) (message : string) : ClientError :=
  Grpc (grpc_to_http_code code) message.

(** The error body of a detector and its conversion, which unwraps. *)
Record DetectorError := { detector_error_code : Z; detector_error_message : string }.
Definition client_error_from_detector {E} (error : DetectorError) : outcome E ClientError :=
  code ← unwrap "clients/detector.rs:348" (status_from_u16 (detector_error_code error));
  Ok (Http code (detector_error_message error)).

(** ** Request validation errors (src/models.rs) *)
Inductive ValidationError :=
| Required (name : string)
| Invalid (message : string).

Definition validation_error_to_string (e : ValidationError) : string :=
  match e with
  | Required name => "`" +:+ name +:+ "` is required"
  | Invalid message => message
  end.

(** ** Orchestrator errors *)
Inductive OrchError :=
| Client (error : ClientError)
| DetectorNotFound (id : string)
| ChunkerNotFound (id : string)
| DetectorRequestFailed (id : string) (error : ClientError)
| ChunkerRequestFailed (id : string) (error : ClientError)
| GenerateRequestFailed (id : string) (error : ClientError)
| ChatCompletionRequestFailed (id : string) (error : ClientError)
| CompletionRequestFailed (id : string) (error : ClientError)
| TokenizeRequestFailed (id : string) (error : ClientError)
| Validation (message : string)
| Other (message : string)
| Cancelled
| JsonError (message : string).

Definition request_failed (what id : string) (e : ClientError) : string :=
  what +:+ " request failed for `" +:+ id +:+ "`: " +:+ client_error_to_string e.

Definition orch_error_to_string (e : OrchError) : string :=
  match e with
  | Client error => client_error_to_string error
  | DetectorNotFound id => "detector `" +:+ id +:+ "` not found"
  | ChunkerNotFound id => "chunker `" +:+ id +:+ "` not found"
  | DetectorRequestFailed id error => request_failed "detector" id error
  | ChunkerRequestFailed id error => request_failed "chunker" id error
  | GenerateRequestFailed id error => request_failed "generate" id error
  | ChatCompletionRequestFailed id error => request_failed "chat completion" id error
  | CompletionRequestFailed id error => request_failed "completion" id error
  | TokenizeRequestFailed id error => request_failed "tokenize" id error
  | Validation message => "validation error: " +:+ message
  | Other message => message
  | Cancelled => "cancelled"
  | JsonError message => "json deserialization error: " +:+ message
  end.

(** How a joined task failed; a panic carries its display text. *)
Inductive JoinError := TaskCancelled | TaskPanicked (display : string).

Definition orch_error_from_join (error : JoinError) : OrchError :=
  match error with
  | TaskCancelled => Cancelled
  | TaskPanicked display => Other ("task panicked: " +:+ display)
  end.

Definition orch_error_from_validation (value : ValidationError) : OrchError :=
  Validation (validation_error_to_string value).

(** [tokio::spawn(task).await?] for a task that itself returns a [Result]:
    an unwinding panic of the task becomes an error of the caller. *)
Definition join_task {A} (task : outcome OrchError A) : outcome OrchError A :=
  match task with
  | Panic site => Err (orch_error_from_join (TaskPanicked site))
  | r => r
  end.

(** ** Server errors *)
Record ServerError := { code : StatusCode; details : string }.

Definition unexpected_error : ServerError :=
  {| code := INTERNAL_SERVER_ERROR;
     details := "unexpected error occurred while processing request" |}.

Definition server_error_from_io (value : string) : ServerError :=
  {| code := INTERNAL_SERVER_ERROR; details := "io error: " +:+ value |}.

Definition server_error_from_validation (value : ValidationError) : ServerError :=
  {| code := UNPROCESSABLE_ENTITY; details := validation_error_to_string value |}.

(** The codes reported to the caller as they are. *)
Definition passed_through (c : StatusCode) : bool :=
  (c =? BAD_REQUEST) || (c =? UNPROCESSABLE_ENTITY) || (c =? NOT_FOUND)
  || (c =? SERVICE_UNAVAILABLE).

Definition server_error_from_orch (value : OrchError) : ServerError :=
  match value with
  | DetectorNotFound _ | ChunkerNotFound _ =>
      {| code := NOT_FOUND; details := orch_error_to_string value |}
  | DetectorRequestFailed _ error | ChunkerRequestFailed _ error
  | GenerateRequestFailed _ error | ChatCompletionRequestFailed _ error
  | CompletionRequestFailed _ error | TokenizeRequestFailed _ error
  | Client error =>
      if passed_through (status_code error)
      then {| code := status_code error; details := orch_error_to_string value |}
      else unexpected_error
  | JsonError message | Validation message =>
      {| code := UNPROCESSABLE_ENTITY; details := message |}
  | _ => unexpected_error
  end.

(** ** Lemmas *)

Lemma join_task_no_panic {A} (t : outcome OrchError A) : no_panic (join_task t).
Proof. by destruct t. Qed.

Lemma join_task_Ok {A} (t : outcome OrchError A) a : join_task t = Ok a <-> t = Ok a.
Proof. destruct t; simpl; split; congruence. Qed.

#[export] Hint Resolve join_task_no_panic : guardrails.

(** ** Properties *)

(** The codes a caller can see. *)
Definition reported_codes : list StatusCode :=
  [BAD_REQUEST; NOT_FOUND; UNPROCESSABLE_ENTITY; INTERNAL_SERVER_ERROR; SERVICE_UNAVAILABLE].

Lemma passed_through_reported c :
  passed_through c = true -> c ∈ reported_codes /\ c <> INTERNAL_SERVER_ERROR.
Proof.
  unfold passed_through. intros H. rewrite !orb_true_iff, !Z.eqb_eq in H.
  destruct H as [[[->| ->]| ->]| ->]; split; try done; set_solver.
Qed.

Lemma server_error_reported e : code (server_error_from_orch e) ∈ reported_codes.
Proof.
  destruct e; simpl; try destruct (passed_through _) eqn:E; simpl; try set_solver;
    by apply passed_through_reported.
Qed.

(** Whatever goes wrong inside the orchestrator, the caller sees one of
    five status codes; every 500 carries the same generic text, so no detail of
    an unexpected error is disclosed, and a client error's own code is reported
    exactly when it is one of 400, 404, 422 and 503. *)
Theorem server_error_status (e : OrchError) :
  code (server_error_from_orch e) ∈ reported_codes /\
  (code (server_error_from_orch e) = INTERNAL_SERVER_ERROR ->
   server_error_from_orch e = unexpected_error) /\
  (forall id error, e = DetectorRequestFailed id error ->
     (code (server_error_from_orch e) = status_code error <->
      passed_through (status_code error) = true \/ status_code error = INTERNAL_SERVER_ERROR)).
Proof.
  split; [apply server_error_reported|split].
  - destruct e; simpl; try done; destruct (passed_through _) eqn:E; simpl; try done;
      intros ?; by apply passed_through_reported in E as [_ []].
  - intros id error ->. simpl. destruct (passed_through _) eqn:E; simpl; [naive_solver|].
    split; [by right|]. by intros [?| ->].
Qed.
