(* ===== verification/Detection.v ===== *)
(** * Detections and their conversions

    src/orchestrator/types/detection.rs, with the detection formats it
    converts from and to: a detector's response
    (src/clients/detector.rs), the API's detection result and the token
    classification result (src/models.rs), and the detector parameters with
    their threshold. *)
From S2P Require Import Prelude External Errors.
#[local] Open Scope string_scope.
#[local] Open Scope Z_scope.

Section detection.
Context {SJ : SerdeJson}.

(** ** Detector parameters and metadata (src/models.rs) *)
Definition THRESHOLD_PARAM : string := "threshold".

Definition DetectorParams := gmap string Value.
Definition Metadata := gmap string Value.

(** [pop_threshold(&mut self)]: the threshold and the parameters left. *)
Definition pop_threshold (params : DetectorParams) : option f64 * DetectorParams :=
  (params !! THRESHOLD_PARAM ≫= value_as_f64, delete THRESHOLD_PARAM params).

(** ** API formats (src/models.rs, src/clients/detector.rs) *)
Record ModelsEvidence := {
  mev_name : string;
  mev_value : option string;
  mev_score : option f64
}.

Record EvidenceObj := {
  evo_name : string;
  evo_value : option string;
  evo_score : option f64;
  evo_evidence : option (list ModelsEvidence)
}.

Record DetectionResult := {
  dr_detection_type : string;
  dr_detection : string;
  dr_detector_id : option string;
  dr_score : f64;
  dr_evidence : option (list EvidenceObj);
  dr_metadata : Metadata
}.

Record ContentAnalysisResponse := {
  car_start : Z;
  car_end : Z;
  car_text : string;
  car_detection : string;
  car_detection_type : string;
  car_detector_id : option string;
  car_score : f64;
  car_evidence : option (list EvidenceObj);
  car_metadata : Metadata
}.

Record TokenClassificationResult := {
  tcr_start : Z;
  tcr_end : Z;
  tcr_word : string;
  tcr_entity : string;
  tcr_entity_group : string;
  tcr_detector_id : option string;
  tcr_score : f64;
  tcr_token_count : option Z
}.

(** ** Detections (src/orchestrator/types/detection.rs) *)
Record Evidence := {
  ev_name : string;
  ev_value : option string;
  ev_score : option f64
}.

Record DetectionEvidence := {
  de_name : string;
  de_value : option string;
  de_score : option f64;
  de_evidence : list Evidence
}.

Record Detection := {
  det_start : option Z;
  det_end : option Z;
  det_text : option string;
  det_detector_id : option string;
  det_detection_type : string;
  det_detection : string;
  det_score : f64;
  det_evidence : list DetectionEvidence;
  det_metadata : Metadata
}.

(** [Detection::default()] *)
Definition detection_default : Detection :=
  {| det_start := None; det_end := None; det_text := None; det_detector_id := None;
     det_detection_type := ""; det_detection := ""; det_score := f64_zero;
     det_evidence := []; det_metadata := ∅ |}.

Definition with_detector_id (d : Detection) (id : option string) : Detection :=
  {| det_start := det_start d; det_end := det_end d; det_text := det_text d;
     det_detector_id := id; det_detection_type := det_detection_type d;
     det_detection := det_detection d; det_score := det_score d;
     det_evidence := det_evidence d; det_metadata := det_metadata d |}.

Definition with_span (d : Detection) (s e : option Z) : Detection :=
  {| det_start := s; det_end := e; det_text := det_text d;
     det_detector_id := det_detector_id d; det_detection_type := det_detection_type d;
     det_detection := det_detection d; det_score := det_score d;
     det_evidence := det_evidence d; det_metadata := det_metadata d |}.

(** ** Conversions *)

(** [(!l.is_empty()).then_some(l.into_iter().map(f).collect())] *)
Definition then_some_nonempty {A B} (f : A -> B) (l : list A) : option (list B) :=
  match l with [] => None | _ => Some (f <$> l) end.

(** [o.map(|vs| vs.into_iter().map(f).collect()).unwrap_or_default()] *)
Definition map_or_default {A B} (f : A -> B) (o : option (list A)) : list B :=
  match o with Some vs => f <$> vs | None => [] end.

Definition models_evidence_from (v : Evidence) : ModelsEvidence :=
  {| mev_name := ev_name v; mev_value := ev_value v; mev_score := ev_score v |}.
Definition evidence_from (v : ModelsEvidence) : Evidence :=
  {| ev_name := mev_name v; ev_value := mev_value v; ev_score := mev_score v |}.

Definition evidence_obj_from (v : DetectionEvidence) : EvidenceObj :=
  {| evo_name := de_name v; evo_value := de_value v; evo_score := de_score v;
     evo_evidence := then_some_nonempty models_evidence_from (de_evidence v) |}.
Definition detection_evidence_from (v : EvidenceObj) : DetectionEvidence :=
  {| de_name := evo_name v; de_value := evo_value v; de_score := evo_score v;
     de_evidence := map_or_default evidence_from (evo_evidence v) |}.

Definition detection_from_content_analysis (v : ContentAnalysisResponse) : Detection :=
  {| det_start := Some (car_start v); det_end := Some (car_end v);
     det_text := Some (car_text v); det_detector_id := car_detector_id v;
     det_detection_type := car_detection_type v; det_detection := car_detection v;
     det_score := car_score v;
     det_evidence := map_or_default detection_evidence_from (car_evidence v);
     det_metadata := car_metadata v |}.

Definition detection_from_result (v : DetectionResult) : Detection :=
  {| det_start := None; det_end := None; det_text := None;
     det_detector_id := dr_detector_id v; det_detection_type := dr_detection_type v;
     det_detection := dr_detection v; det_score := dr_score v;
     det_evidence := map_or_default detection_evidence_from (dr_evidence v);
     det_metadata := dr_metadata v |}.

Definition detection_result_from (v : Detection) : DetectionResult :=
  {| dr_detection_type := det_detection_type v; dr_detection := det_detection v;
     dr_detector_id := det_detector_id v; dr_score := det_score v;
     dr_evidence := then_some_nonempty evidence_obj_from (det_evidence v);
     dr_metadata := det_metadata v |}.

(** [start] and [end] are unwrapped. *)
Definition token_classification_from (v : Detection) : outcome OrchError TokenClassificationResult :=
  start ← unwrap "types/detection.rs:182" (as_u32 <$> det_start v);
  end_ ← unwrap "types/detection.rs:183" (as_u32 <$> det_end v);
  Ok {| tcr_start := start; tcr_end := end_; tcr_word := default "" (det_text v);
        tcr_entity := det_detection v; tcr_entity_group := det_detection_type v;
        tcr_detector_id := det_detector_id v; tcr_score := det_score v;
        tcr_token_count := None |}.

(** [start], [end] and [text] are unwrapped. *)
Definition content_analysis_from (v : Detection) : outcome OrchError ContentAnalysisResponse :=
  start ← unwrap "types/detection.rs:199" (det_start v);
  end_ ← unwrap "types/detection.rs:200" (det_end v);
  text ← unwrap "types/detection.rs:201" (det_text v);
  Ok {| car_start := start; car_end := end_; car_text := text;
        car_detection := det_detection v; car_detection_type := det_detection_type v;
        car_detector_id := det_detector_id v; car_score := det_score v;
        car_evidence := then_some_nonempty evidence_obj_from (det_evidence v);
        car_metadata := det_metadata v |}.

(** A detector's response straight to a token classification result. *)
Definition token_classification_from_content (v : ContentAnalysisResponse) : TokenClassificationResult :=
  {| tcr_start := as_u32 (car_start v); tcr_end := as_u32 (car_end v); tcr_word := car_text v;
     tcr_entity := car_detection v; tcr_entity_group := car_detection_type v;
     tcr_detector_id := car_detector_id v; tcr_score := car_score v; tcr_token_count := None |}.

(** ** Lemmas *)

(** A detection that reports a span of the analysed text, as every detection
    a contents detector returns does. *)
Definition has_span (d : Detection) : Prop :=
  is_Some (det_start d) /\ is_Some (det_end d) /\ is_Some (det_text d).

(** A detection without a span, as the chat, context and generation
    detectors return. *)
Definition no_span (d : Detection) : Prop :=
  det_start d = None /\ det_end d = None /\ det_text d = None.

Lemma evidence_from_inv v : evidence_from (models_evidence_from v) = v.
Proof. by destruct v. Qed.

Lemma map_or_default_then_some {A B} (f : A -> B) (g : B -> A) l :
  (forall a, g (f a) = a) -> map_or_default g (then_some_nonempty f l) = l.
Proof.
  intros Hg. destruct l as [|a l]; [done|]. simpl. rewrite Hg. f_equal.
  induction l as [|b l IH]; simpl; [done|]. by rewrite Hg, IH.
Qed.

Lemma detection_evidence_from_inv v : detection_evidence_from (evidence_obj_from v) = v.
Proof.
  destruct v. unfold detection_evidence_from, evidence_obj_from. simpl.
  by rewrite map_or_default_then_some by exact evidence_from_inv.
Qed.

Lemma has_span_from_content v : has_span (detection_from_content_analysis v).
Proof. repeat split; by eexists. Qed.

Lemma has_span_content_ok d :
  has_span d -> exists r, content_analysis_from d = Ok r.
Proof.
  intros ([s Hs] & [e He] & [t Ht]). unfold content_analysis_from.
  rewrite Hs, He, Ht. by eexists.
Qed.

Lemma has_span_token_ok d :
  has_span d -> exists r, token_classification_from d = Ok r.
Proof.
  intros ([s Hs] & [e He] & _). unfold token_classification_from.
  rewrite Hs, He. by eexists.
Qed.

(** ** Properties *)

(** Reporting a detection in the contents format and reading it back
    gives the same detection, whatever its evidence; the conversion fails
    (panics) exactly on a detection without start, end or text. *)
Theorem content_analysis_roundtrip (d : Detection) :
  match content_analysis_from d with
  | Ok r => has_span d /\ detection_from_content_analysis r = d
  | Err _ => False
  | Panic _ => ~ has_span d
  end.
Proof.
  unfold content_analysis_from, has_span.
  destruct d as [[s|] [e|] [t|] id ty cl sc ev md]; simpl;
    try (intros (? & ? & ?); by repeat match goal with H : is_Some None |- _ => destruct H end).
  split; [by repeat split; eexists|].
  unfold detection_from_content_analysis; simpl.
  by rewrite map_or_default_then_some by exact detection_evidence_from_inv.
Qed.

(** A span-less detection survives the round trip through the API's
    detection result, and a detection result survives the round trip through
    a detection up to the representation of absent evidence: an empty list is
    reported as no list at all, at both levels. *)
Theorem detection_result_roundtrip (d : Detection) (r : DetectionResult) :
  (no_span d <-> detection_from_result (detection_result_from d) = d) /\
  dr_evidence (detection_result_from (detection_from_result r)) <> Some [] /\
  detection_from_result (detection_result_from (detection_from_result r)) =
  detection_from_result r.
Proof.
  assert (H : forall d, no_span d -> detection_from_result (detection_result_from d) = d).
  { intros [] (H1 & H2 & H3). simpl in *. subst.
    unfold detection_from_result; simpl.
    by rewrite map_or_default_then_some by exact detection_evidence_from_inv. }
  split; [split; [apply H|]|split].
  - by intros <-.
  - simpl. by destruct (map_or_default _ _).
  - by apply H.
Qed.
End detection.

#[export] Hint Resolve has_span_from_content has_span_content_ok has_span_token_ok : guardrails.
