(* ===== verification/Chunk.v ===== *)
(** * Chunks

    src/orchestrator/types/chunk.rs: a chunk is ordered, compared and hashed
    by its four indices, never by its text; chunks are converted from the
    chunker service's messages (protos/caikit_data_model_nlp.proto). *)
From S2P Require Import Prelude Collections Utf8.
#[local] Open Scope string_scope.
#[local] Open Scope Z_scope.

(** ** Chunker messages *)
Record Token := { tok_start : Z; tok_end : Z; tok_text : string }.

Record TokenizationResults := { tr_results : list Token; tr_token_count : Z }.

Record BidiStreamingChunkerTokenizationTaskRequest := {
  text_stream : string;
  input_index_stream : Z
}.

Record ChunkerTokenizationStreamResult := {
  ctsr_results : list Token;
  ctsr_token_count : Z;
  ctsr_processed_index : Z;
  ctsr_start_index : Z;
  ctsr_input_start_index : Z;
  ctsr_input_end_index : Z
}.

(** ** Chunks *)
Record Chunk := {
  input_start_index : Z;
  input_end_index : Z;
  chunk_start : Z;
  chunk_end : Z;
  chunk_text : string
}.

#[export] Instance Chunk_eq_dec : EqDecision Chunk.
Proof. solve_decision. Defined.

Definition chunk_default : Chunk :=
  {| input_start_index := 0; input_end_index := 0; chunk_start := 0; chunk_end := 0;
     chunk_text := "" |}.

Definition chunk_indices (c : Chunk) : Z * (Z * (Z * Z)) :=
  (input_start_index c, (input_end_index c, (chunk_start c, chunk_end c))).

(** [Ord::cmp] compares the tuples of indices lexicographically. *)
#[export] Instance chunk_ord : OrdCmp Chunk := cmp_on chunk_indices.
#[export] Instance chunk_ord_laws : OrdLaws Chunk := cmp_on_laws chunk_indices.

(** [PartialEq::eq] *)
Definition chunk_eqb (c1 c2 : Chunk) : bool := bool_decide (chunk_indices c1 = chunk_indices c2).

(** [Chunks] is a vector of chunks. *)
Definition Chunks := list Chunk.

(** [From<ChunkerTokenizationStreamResult> for Chunk] *)
Definition chunk_from_stream_result (value : ChunkerTokenizationStreamResult) : Chunk :=
  {| input_start_index := as_usize (ctsr_input_start_index value);
     input_end_index := as_usize (ctsr_input_end_index value);
     chunk_start := as_usize (ctsr_start_index value);
     chunk_end := as_usize (ctsr_processed_index value);
     chunk_text := concat (tok_text <$> ctsr_results value) |}.

(** [From<TokenizationResults> for Chunks] *)
Definition chunks_from_tokenization (value : TokenizationResults) : Chunks :=
  (fun token => {| input_start_index := 0; input_end_index := 0;
                   chunk_start := as_usize (tok_start token);
                   chunk_end := as_usize (tok_end token);
                   chunk_text := tok_text token |}) <$> tr_results value.

(** ** Lemmas *)

Lemma Z_cmp_eq (a b : Z) : cmp a b = Eq <-> a = b.
Proof. apply Z.compare_eq_iff. Qed.

Lemma prod_cmp_eq {A B} `{OrdCmp A, OrdCmp B} (x y : A * B) :
  cmp x y = Eq <-> cmp x.1 y.1 = Eq /\ cmp x.2 y.2 = Eq.
Proof. unfold cmp at 1, prod_ord. destruct (cmp x.1 y.1); naive_solver. Qed.

(** [Ord] and [Eq] agree: chunks compare equal exactly when their indices
    are the same, whatever their texts. *)
Lemma chunk_cmp_eq c1 c2 : cmp c1 c2 = Eq <-> chunk_indices c1 = chunk_indices c2.
Proof.
  change (cmp c1 c2) with (cmp (chunk_indices c1) (chunk_indices c2)).
  rewrite !prod_cmp_eq, !Z_cmp_eq. unfold chunk_indices; simpl.
  split; [by intros (-> & -> & -> & ->)|by intros [= -> -> -> ->]].
Qed.

Lemma chunk_eqb_key_eq c1 c2 : chunk_eqb c1 c2 = true <-> key_eq c1 c2.
Proof. unfold chunk_eqb, key_eq. by rewrite bool_decide_eq_true, chunk_cmp_eq. Qed.

#[export] Hint Rewrite chunk_cmp_eq : guardrails.
