(* ===== verification/Batcher.v ===== *)
(** * Detection batchers

    src/orchestrator/types/detection_batcher.rs and its two implementations
    (detection_batcher/completion.rs, detection_batcher/max_processed_index.rs).

    [DetectionBatcher] is the trait.  Its contract is stated as an abstract
    machine whose state is only the log of what was pushed and not yet
    returned ([log_push], [log_pop]); [BatcherSpec] is the interface the batch
    stream relies on: every implementation refines the log.  Both
    implementations discharge it. *)
From Stdlib Require Import Sorted.
From S2P Require Import Prelude Collections External Errors Detection Chunk.
#[local] Open Scope Z_scope.

(** [ChoiceIndex] and [Batch] *)
Notation ChoiceIndex := Z (only parsing).
Notation Batch := (Z * Chunk * list Detection)%type (only parsing).

(** The trait [DetectionBatcher]; a method taking [&mut self] returns the new
    state. *)
Class DetectionBatcher `{SJ : SerdeJson} (B : Type) := {
  push : Z -> Chunk -> list Detection -> B -> B;
  pop_batch : B -> option Batch * B;
  is_empty : B -> bool
}.

(** A log of pushes: the key and the detections, in push order. *)
Notation log K := (list (K * list Detection)).

Section batchers.
Context {SJ : SerdeJson}.

(** ** completion.rs *)
Record CompletionBatcher := {
  cb_n_detectors : Z;
  cb_state : list ((Chunk * ChoiceIndex) * list (list Detection))
}.

Definition completion_batcher_new (n_detectors : Z) : CompletionBatcher :=
  {| cb_n_detectors := n_detectors; cb_state := [] |}.

Definition completion_push (choice_index : ChoiceIndex) (chunk : Chunk)
    (detections : list Detection) (b : CompletionBatcher) : CompletionBatcher :=
  {| cb_n_detectors := cb_n_detectors b;
     cb_state := bt_entry (chunk, choice_index) [detections]
                   (fun entry => entry ++ [detections]) (cb_state b) |}.

Definition completion_pop_batch (b : CompletionBatcher) : option Batch * CompletionBatcher :=
  match bt_first_key_value (cb_state b) with
  | Some (_, detections) =>
      if Z.of_nat (length detections) =? cb_n_detectors b then
        match bt_pop_first (cb_state b) with
        | Some (((chunk, choice_index), detections), state) =>
            (Some (choice_index, chunk, mjoin detections),
             {| cb_n_detectors := cb_n_detectors b; cb_state := state |})
        | None => (None, b)
        end
      else (None, b)
  | None => (None, b)
  end.

Definition completion_is_empty (b : CompletionBatcher) : bool := bt_is_empty (cb_state b).

#[export] Instance completion_batcher : DetectionBatcher CompletionBatcher := {|
  push := completion_push;
  pop_batch := completion_pop_batch;
  is_empty := completion_is_empty
|}.

(** ** max_processed_index.rs *)
Record MaxProcessedIndexBatcher := {
  mb_n_detectors : Z;
  mb_state : list (Chunk * list (list Detection))
}.

Definition max_batcher_new (n_detectors : Z) : MaxProcessedIndexBatcher :=
  {| mb_n_detectors := n_detectors; mb_state := [] |}.

Definition max_push (_input_id : Z) (chunk : Chunk)
    (detections : list Detection) (b : MaxProcessedIndexBatcher) : MaxProcessedIndexBatcher :=
  {| mb_n_detectors := mb_n_detectors b;
     mb_state := bt_entry chunk [detections]
                   (fun entry => entry ++ [detections]) (mb_state b) |}.

Definition max_pop_batch (b : MaxProcessedIndexBatcher) : option Batch * MaxProcessedIndexBatcher :=
  match bt_first_key_value (mb_state b) with
  | Some (_, detections) =>
      if Z.of_nat (length detections) =? mb_n_detectors b then
        match bt_pop_first (mb_state b) with
        | Some ((chunk, detections), state) =>
            (Some (0, chunk, mjoin detections),
             {| mb_n_detectors := mb_n_detectors b; mb_state := state |})
        | None => (None, b)
        end
      else (None, b)
  | None => (None, b)
  end.

Definition max_is_empty (b : MaxProcessedIndexBatcher) : bool := bt_is_empty (mb_state b).

#[export] Instance max_processed_index_batcher : DetectionBatcher MaxProcessedIndexBatcher := {|
  push := max_push;
  pop_batch := max_pop_batch;
  is_empty := max_is_empty
|}.

(** ** The abstract log *)
Section log.
Context {K : Type} `{OL : OrdLaws K}.
Definition log_push (k : K) (d : list Detection) (l : log K) : log K := l ++ [(k, d)].

(** The least key pushed; among equal keys, the one pushed first. *)
Definition log_least (l : log K) : option K :=
  foldl (fun acc e => match acc with
                      | None => Some e.1
                      | Some k => if decide (cmp e.1 k = Lt) then Some e.1 else Some k
                      end) None l.

Definition log_entries (k : K) (l : log K) : log K := filter (fun e => cmp e.1 k = Eq) l.
Definition log_remove (k : K) (l : log K) : log K := filter (fun e => cmp e.1 k <> Eq) l.

(** The least key is ready when exactly [n] detectors have reported on it;
    its detections are returned in the order they were pushed. *)
Definition log_pop (n : Z) (l : log K) : option (K * list Detection) * log K :=
  match log_least l with
  | None => (None, l)
  | Some k =>
      if Z.of_nat (length (log_entries k l)) =? n
      then (Some (k, mjoin (log_entries k l).*2), log_remove k l)
      else (None, l)
  end.

(** All the detections held. *)
Definition log_held (l : log K) : list Detection := mjoin l.*2.

(** The map a batcher builds from a log. *)
Definition of_log (l : log K) : list (K * list (list Detection)) :=
  foldl (fun m e => bt_entry e.1 [e.2] (fun v => v ++ [e.2]) m) [] l.
End log.
End batchers.

(** ** The interface *)
Class BatcherSpec `{SJ : SerdeJson} (B K : Type) {DB : DetectionBatcher B} {OK : OrdCmp K} := {
  (** the key detections are grouped by, and how a batch names it *)
  group_key : Z -> Chunk -> K;
  batch_of : K -> list Detection -> Batch;
  batch_of_detections : forall k ds, (batch_of k ds).2 = ds;
  (** the batcher for [n] detectors that has seen a log *)
  batcher_new : Z -> B;
  refines : Z -> B -> log K -> Prop;
  refines_new : forall n, refines n (batcher_new n) [];
  refines_push : forall n b l i c d,
    refines n b l -> refines n (push i c d b) (log_push (group_key i c) d l);
  refines_pop_result : forall n b l,
    refines n b l ->
    (pop_batch b).1 = (fun r => batch_of r.1 r.2) <$> (log_pop n l).1;
  refines_pop_state : forall n b l,
    refines n b l -> refines n (pop_batch b).2 (log_pop n l).2;
  refines_is_empty : forall n b l,
    refines n b l -> is_empty b = bool_decide (l = [])
}.

(** ** Simulation: the maps of both batchers follow the log *)
Section log_lemmas.
Context {SJ : SerdeJson} {K : Type} `{OL : OrdLaws K}.
Implicit Types (l : log K) (k : K) (d : list Detection).

Lemma log_least_snoc l k d :
  log_least (l ++ [(k, d)]) =
  match log_least l with
  | None => Some k
  | Some k0 => if decide (cmp k k0 = Lt) then Some k else Some k0
  end.
Proof. unfold log_least. by rewrite foldl_app. Qed.

Lemma of_log_snoc l k d :
  of_log (l ++ [(k, d)]) = bt_entry k [d] (fun v => v ++ [d]) (of_log l).
Proof. unfold of_log. by rewrite foldl_app. Qed.

Lemma of_log_sorted l : bt_sorted (of_log l).
Proof.
  induction l as [|[k d] l IH] using rev_ind; [constructor|].
  rewrite of_log_snoc. auto with btree.
Qed.

Lemma log_least_None l : log_least l = None <-> l = [].
Proof.
  destruct l as [|[k d] l] using rev_ind; [done|].
  rewrite log_least_snoc. split; intros E; [|by destruct l].
  destruct (log_least l); [by destruct (decide _)|done].
Qed.

Lemma log_least_le l k0 : log_least l = Some k0 -> Forall (fun e => cmp k0 e.1 <> Gt) l.
Proof.
  revert k0; induction l as [|[k d] l IH] using rev_ind; intros k0; [done|].
  rewrite log_least_snoc, Forall_app, Forall_singleton. simpl.
  destruct (log_least l) as [k1|] eqn:E.
  - specialize (IH k1 eq_refl). destruct (decide _) as [L|NL]; intros [= <-].
    + split; [|by rewrite cmp_refl]. eapply Forall_impl; [exact IH|].
      intros e He. eapply cmp_le_trans; [|exact He]. by rewrite L.
    + split; [done|]. by rewrite cmp_gt_lt.
  - apply log_least_None in E as ->. intros [= <-].
    split; [done|by rewrite cmp_refl].
Qed.

Lemma log_entries_snoc k0 l k d :
  log_entries k0 (l ++ [(k, d)]) =
  log_entries k0 l ++ (if decide (cmp k k0 = Eq) then [(k, d)] else []).
Proof. unfold log_entries. rewrite filter_app, filter_cons. simpl. by destruct (decide _). Qed.

Lemma log_remove_snoc k0 l k d :
  log_remove k0 (l ++ [(k, d)]) =
  log_remove k0 l ++ (if decide (cmp k k0 = Eq) then [] else [(k, d)]).
Proof.
  unfold log_remove. rewrite filter_app, filter_cons. simpl.
  destruct (decide _), (decide _); naive_solver.
Qed.

(** A key below the least one has no entries. *)
Lemma log_entries_below l k : Forall (fun e => cmp k e.1 = Lt) l ->
  log_entries k l = [] /\ log_remove k l = l.
Proof.
  assert (HE : forall k', cmp k k' = Lt -> cmp k' k <> Eq)
    by (intros k' L; rewrite cmp_opp, L; done).
  induction 1 as [|[k' d'] l L _ [IH1 IH2]]; [done|]. simpl in L.
  unfold log_entries, log_remove in *. split.
  - rewrite filter_cons_False by (simpl; auto). done.
  - rewrite filter_cons_True by (simpl; auto). by rewrite IH2.
Qed.

(** The first binding of the map is the least key with its entries in push
    order, and the rest is the map of the log without that key. *)
Lemma of_log_cons l k0 :
  log_least l = Some k0 ->
  of_log l = (k0, (log_entries k0 l).*2) :: of_log (log_remove k0 l).
Proof.
  revert k0; induction l as [|[k d] l IH] using rev_ind; intros k0; [done|].
  rewrite log_least_snoc, of_log_snoc, log_entries_snoc, log_remove_snoc.
  destruct (log_least l) as [k1|] eqn:E.
  - pose proof (log_least_le _ _ E) as Hle. rewrite (IH k1 eq_refl). simpl.
    destruct (cmp k k1) eqn:Ek.
    + rewrite decide_False by done. intros [= <-].
      rewrite !decide_True by done. by rewrite fmap_app, app_nil_r.
    + rewrite decide_True by done. intros [= <-].
      destruct (log_entries_below l k) as [-> ->].
      { eapply Forall_impl; [exact Hle|]. intros e He.
        destruct (cmp k1 e.1) eqn:E1; [by rewrite <- (cmp_eq_r k _ _ E1)| |done].
        by eapply cmp_lt_trans. }
      rewrite !decide_True by apply cmp_refl. by rewrite app_nil_r, <- (IH k1).
    + rewrite decide_False by done. intros [= <-].
      rewrite !decide_False by (by rewrite Ek). by rewrite app_nil_r, of_log_snoc.
  - apply log_least_None in E as ->. intros [= <-].
    by rewrite !decide_True by apply cmp_refl.
Qed.

Lemma of_log_nil l : of_log l = [] <-> l = [].
Proof.
  split; [|by intros ->]. destruct (log_least l) eqn:E.
  - by rewrite (of_log_cons _ _ E).
  - by apply log_least_None in E.
Qed.

(** What the head of the map tells about the next pop. *)
Lemma log_pop_of_log n l :
  (of_log l = [] /\ log_pop n l = (None, l)) \/
  (exists k ds, of_log l = (k, ds) :: of_log (log_remove k l) /\
    log_pop n l = if Z.of_nat (length ds) =? n
                  then (Some (k, mjoin ds), log_remove k l) else (None, l)).
Proof.
  unfold log_pop. destruct (log_least l) as [k|] eqn:E.
  - right. exists k, (log_entries k l).*2. by rewrite (of_log_cons _ _ E), length_fmap.
  - left. by apply log_least_None in E as ->.
Qed.
End log_lemmas.

(** ** The implementations discharge the interface *)
Section instances.
Context {SJ : SerdeJson}.

#[export] Program Instance completion_batcher_spec :
  BatcherSpec CompletionBatcher (Chunk * ChoiceIndex) := {|
  group_key i c := (c, i);
  batch_of k ds := (k.2, k.1, ds);
  batcher_new := completion_batcher_new;
  refines n b l := cb_n_detectors b = n /\ cb_state b = of_log l
|}.
Next Obligation. done. Qed.
Next Obligation. done. Qed.
Next Obligation.
  intros n b l i c d [Hn Hm]. split; [done|].
  unfold log_push. by rewrite of_log_snoc, <- Hm.
Qed.
Next Obligation.
  intros n b l [Hn Hm]. simpl. unfold completion_pop_batch.
  destruct (log_pop_of_log n l) as [(E & ->)|(k & ds & E & ->)]; rewrite Hm, Hn, E; simpl.
  - done.
  - destruct k. by destruct (_ =? _).
Qed.
Next Obligation.
  intros n b l [Hn Hm]. simpl. unfold completion_pop_batch.
  destruct (log_pop_of_log n l) as [(E & ->)|(k & ds & E & ->)]; rewrite Hm, Hn, E; simpl.
  - done.
  - destruct k. by destruct (_ =? _).
Qed.
Next Obligation.
  intros n b l [Hn Hm]. unfold is_empty; simpl. unfold completion_is_empty.
  rewrite Hm. apply eq_true_iff_eq. by rewrite bt_is_empty_spec, bool_decide_eq_true, of_log_nil.
Qed.

#[export] Program Instance max_batcher_spec :
  BatcherSpec MaxProcessedIndexBatcher Chunk := {|
  group_key _ c := c;
  batch_of c ds := (0, c, ds);
  batcher_new := max_batcher_new;
  refines n b l := mb_n_detectors b = n /\ mb_state b = of_log l
|}.
Next Obligation. done. Qed.
Next Obligation. done. Qed.
Next Obligation.
  intros n b l i c d [Hn Hm]. split; [done|].
  unfold log_push. by rewrite of_log_snoc, <- Hm.
Qed.
Next Obligation.
  intros n b l [Hn Hm]. simpl. unfold max_pop_batch.
  destruct (log_pop_of_log n l) as [(E & ->)|(k & ds & E & ->)]; rewrite Hm, Hn, E; simpl.
  - done.
  - destruct k. by destruct (_ =? _).
Qed.
Next Obligation.
  intros n b l [Hn Hm]. simpl. unfold max_pop_batch.
  destruct (log_pop_of_log n l) as [(E & ->)|(k & ds & E & ->)]; rewrite Hm, Hn, E; simpl.
  - done.
  - destruct k. by destruct (_ =? _).
Qed.
Next Obligation.
  intros n b l [Hn Hm]. unfold is_empty; simpl. unfold max_is_empty.
  rewrite Hm. apply eq_true_iff_eq. by rewrite bt_is_empty_spec, bool_decide_eq_true, of_log_nil.
Qed.
End instances.

(** ** Sequences of operations *)
Section runs.
Context {SJ : SerdeJson}.

Inductive batcher_op := OpPush (i : Z) (c : Chunk) (d : list Detection) | OpPop | OpIsEmpty.
Inductive batcher_obs := ObsBatch (r : option Batch) | ObsEmpty (e : bool).

Fixpoint batcher_run {B} {DB : DetectionBatcher B} (ops : list batcher_op) (b : B)
  : list batcher_obs * B :=
  match ops with
  | [] => ([], b)
  | OpPush i c d :: ops => batcher_run ops (push i c d b)
  | OpPop :: ops =>
      let (r, b) := pop_batch b in
      let (os, b) := batcher_run ops b in (ObsBatch r :: os, b)
  | OpIsEmpty :: ops => let (os, b') := batcher_run ops b in (ObsEmpty (is_empty b) :: os, b')
  end.

(** The same operations on the log. *)
Fixpoint log_run {B K} {DB : DetectionBatcher B} {OK : OrdCmp K} {BS : BatcherSpec B K} (n : Z) (ops : list batcher_op) (l : log K)
  : list batcher_obs * log K :=
  match ops with
  | [] => ([], l)
  | OpPush i c d :: ops => log_run n ops (log_push (group_key i c) d l)
  | OpPop :: ops =>
      let (r, l) := log_pop n l in
      let (os, l) := log_run n ops l in
      (ObsBatch ((fun r => batch_of r.1 r.2) <$> r) :: os, l)
  | OpIsEmpty :: ops =>
      let (os, l') := log_run n ops l in (ObsEmpty (bool_decide (l = [])) :: os, l')
  end.

(** Popping until nothing is ready. *)
Fixpoint drain {B} {DB : DetectionBatcher B} (fuel : nat) (b : B) : list Batch * B :=
  match fuel with
  | O => ([], b)
  | S fuel =>
      match pop_batch b with
      | (Some r, b) => let (rs, b) := drain fuel b in (r :: rs, b)
      | (None, b) => ([], b)
      end
  end.

Definition pushed (ops : list batcher_op) : list Detection :=
  mjoin ((fun op => match op with OpPush _ _ d => d | _ => [] end) <$> ops).
Definition returned (os : list batcher_obs) : list Detection :=
  mjoin ((fun o => match o with ObsBatch (Some (_, _, ds)) => ds | _ => [] end) <$> os).

Context {B K : Type} {DB : DetectionBatcher B} {OK : OrdCmp K}.
Context {BS : BatcherSpec B K} {OL : OrdLaws K}.

Lemma batcher_run_refines_log n ops b l :
  refines n b l ->
  (batcher_run ops b).1 = (log_run n ops l).1 /\
  refines n (batcher_run ops b).2 (log_run n ops l).2.
Proof.
  revert b l; induction ops as [|[i c d| |] ops IH]; intros b l HR; simpl; [done|..].
  - apply IH. by apply refines_push.
  - pose proof (refines_pop_result _ _ _ HR) as H1.
    pose proof (refines_pop_state _ _ _ HR) as H2.
    destruct (pop_batch b) as [r b']; destruct (log_pop n l) as [r' l'].
    destruct (IH b' l' H2) as [H3 H4]. simpl in *.
    destruct (batcher_run ops b'), (log_run n ops l'); simpl in *.
    by rewrite H1, H3.
  - destruct (IH b l HR) as [H3 H4]. rewrite (refines_is_empty _ _ _ HR).
    destruct (batcher_run ops b), (log_run n ops l); simpl in *. by rewrite H3.
Qed.
End runs.

(** ** Consequences on the log *)
Section log_consequences.
Context {SJ : SerdeJson} {K : Type} `{OL : OrdLaws K}.
Implicit Types (l : log K) (k : K).

Fixpoint log_drain (n : Z) (fuel : nat) (l : log K) : list (K * list Detection) * log K :=
  match fuel with
  | O => ([], l)
  | S fuel =>
      match log_pop n l with
      | (Some r, l) => let (rs, l) := log_drain n fuel l in (r :: rs, l)
      | (None, l) => ([], l)
      end
  end.

Lemma mjoin_fmap_perm (l l' : log K) : l ≡ₚ l' -> log_held l ≡ₚ log_held l'.
Proof. unfold log_held. by intros ->. Qed.

Lemma log_held_app l l' : log_held (l ++ l') = log_held l ++ log_held l'.
Proof. unfold log_held. by rewrite fmap_app, join_app. Qed.

Lemma log_held_singleton k d : log_held [(k, d)] = d.
Proof. apply app_nil_r. Qed.

Lemma log_held_remove k l :
  log_held l ≡ₚ mjoin (log_entries k l).*2 ++ log_held (log_remove k l).
Proof.
  change (mjoin (log_entries k l).*2) with (log_held (log_entries k l)).
  rewrite <- log_held_app. apply mjoin_fmap_perm. symmetry. apply filter_app_complement.
Qed.

Lemma log_pop_held n l :
  log_held l ≡ₚ default [] (snd <$> (log_pop n l).1) ++ log_held (log_pop n l).2.
Proof.
  unfold log_pop. destruct (log_least l) as [k|]; [|done].
  destruct (_ =? n); [|done]. apply log_held_remove.
Qed.

Lemma log_least_elem l k : log_least l = Some k -> exists d, (k, d) ∈ l.
Proof.
  revert k; induction l as [|[k d] l IH] using rev_ind; intros k'; [done|].
  rewrite log_least_snoc. destruct (log_least l) as [k1|].
  - destruct (decide _); intros [= <-].
    + exists d. set_solver.
    + destruct (IH k1 eq_refl) as [d' Hd]. exists d'. set_solver.
  - intros [= <-]. exists d. set_solver.
Qed.

Lemma elem_of_log_remove k l e : e ∈ log_remove k l <-> cmp e.1 k <> Eq /\ e ∈ l.
Proof. unfold log_remove. by rewrite list_elem_of_filter. Qed.

Lemma elem_of_log_entries k l e : e ∈ log_entries k l <-> cmp e.1 k = Eq /\ e ∈ l.
Proof. unfold log_entries. by rewrite list_elem_of_filter. Qed.

Lemma log_entries_remove k k' l :
  cmp k' k <> Eq -> log_entries k' (log_remove k l) = log_entries k' l.
Proof.
  intros N. unfold log_entries, log_remove. rewrite list_filter_filter.
  apply list_filter_iff. intros e. split; [by intros []|]. intros Ek'. split; [done|].
  intros Ek. apply N. by rewrite <- (cmp_eq_l e.1 k' k Ek').
Qed.

Lemma length_log_remove k l :
  log_entries k l <> [] -> (length (log_remove k l) < length l)%nat.
Proof.
  intros N. pose proof (filter_app_complement (fun e => cmp e.1 k = Eq) l) as HP.
  apply Permutation_length in HP. rewrite length_app in HP.
  unfold log_entries, log_remove in *. destruct (filter _ l); [done|]. simpl in HP. lia.
Qed.

(** Every pushed key is reported on by [n] detectors. *)
Definition log_complete (n : Z) (l : log K) : Prop :=
  forall e, e ∈ l -> Z.of_nat (length (log_entries e.1 l)) = n.

Lemma log_complete_pop n l k :
  log_complete n l -> log_least l = Some k ->
  log_pop n l = (Some (k, mjoin (log_entries k l).*2), log_remove k l) /\
  log_complete n (log_remove k l) /\ log_entries k l <> [].
Proof.
  intros HC E. destruct (log_least_elem _ _ E) as [d Hd]. pose proof (HC _ Hd) as Hn.
  simpl in Hn. split; [|split].
  - unfold log_pop. rewrite E. by rewrite (proj2 (Z.eqb_eq _ _) Hn).
  - intros e [Ne He]%elem_of_log_remove. rewrite log_entries_remove by done. by apply HC.
  - intros E0. assert ((k, d) ∈ log_entries k l) as Hin.
    { apply elem_of_log_entries. split; [apply cmp_refl|done]. }
    rewrite E0 in Hin. by apply elem_of_nil in Hin.
Qed.

(** A complete log drains: its keys come out in strictly increasing order,
    each with all its detections in push order, and nothing is left. *)
Lemma log_drain_complete n l fuel :
  log_complete n l -> (length l <= fuel)%nat ->
  let rs := (log_drain n fuel l).1 in
  (log_drain n fuel l).2 = [] /\
  StronglySorted (fun r r' => cmp r.1 r'.1 = Lt) rs /\
  Forall (fun r => r.2 = mjoin (log_entries r.1 l).*2 /\ exists d, (r.1, d) ∈ l) rs /\
  (forall e, e ∈ l -> exists r, r ∈ rs /\ key_eq e.1 r.1).
Proof.
  revert l; induction fuel as [|fuel IH]; intros l HC Hlen; simpl.
  { destruct l; [|simpl in Hlen; lia]. repeat constructor. by intros e ?%elem_of_nil. }
  destruct (log_least l) as [k|] eqn:E.
  2: { unfold log_pop. rewrite E. apply log_least_None in E as ->.
       repeat constructor. by intros e ?%elem_of_nil. }
  destruct (log_complete_pop _ _ _ HC E) as (-> & HC' & HNE).
  destruct (IH _ HC') as (H1 & H2 & H3 & H4).
  { pose proof (length_log_remove _ _ HNE). lia. }
  destruct (log_drain n fuel (log_remove k l)) as [rs l'']; simpl in *.
  split; [done|]. split; [|split].
  - constructor; [done|]. eapply Forall_impl; [exact H3|].
    intros [k' ds] [_ [d [Ne Hin]%elem_of_log_remove]]; simpl in *.
    pose proof (log_least_le _ _ E) as Hle. rewrite Forall_forall in Hle.
    specialize (Hle _ Hin). simpl in Hle. rewrite cmp_opp in Ne.
    by destruct (cmp k k').
  - constructor; [split; [done|]; by apply log_least_elem|].
    eapply Forall_impl; [exact H3|].
    intros [k' ds] [-> [d [Ne Hin]%elem_of_log_remove]]; simpl in *.
    split; [by rewrite log_entries_remove|by exists d].
  - intros e He. destruct (decide (cmp e.1 k = Eq)) as [Ek|Nk].
    + exists (k, mjoin (log_entries k l).*2). split; [by left|done].
    + destruct (H4 e) as (r & Hr & Hk); [by apply elem_of_log_remove|].
      exists r. split; [by right|done].
Qed.
End log_consequences.

Section refined_consequences.
Context {SJ : SerdeJson} {B K : Type} {DB : DetectionBatcher B} {OK : OrdCmp K}.
Context {BS : BatcherSpec B K} {OL : OrdLaws K}.

Lemma drain_refines n fuel b l :
  refines n b l ->
  (drain fuel b).1 = (fun r => batch_of r.1 r.2) <$> (log_drain n fuel l).1 /\
  refines n (drain fuel b).2 (log_drain n fuel l).2.
Proof.
  revert b l; induction fuel as [|fuel IH]; intros b l HR; simpl; [done|].
  pose proof (refines_pop_result _ _ _ HR) as H1.
  pose proof (refines_pop_state _ _ _ HR) as H2.
  destruct (pop_batch b) as [r b']; destruct (log_pop n l) as [[r'|] l'];
    simpl in *; subst r; [|done].
  destruct (IH b' l' H2) as [H3 H4].
  destruct (drain fuel b'), (log_drain n fuel l'); simpl in *. by rewrite H3.
Qed.

Lemma log_run_conserves n ops (l : log K) :
  pushed ops ++ log_held l ≡ₚ
  returned (log_run n ops l).1 ++ log_held (log_run n ops l).2.
Proof.
  revert l; induction ops as [|[i c d| |] ops IH]; intros l; simpl; [done|..].
  - rewrite <- IH. unfold log_push. rewrite log_held_app, log_held_singleton.
    unfold pushed. simpl. rewrite (Permutation_app_comm (log_held l) d), !app_assoc.
    f_equiv. apply Permutation_app_comm.
  - pose proof (log_pop_held n l) as HP. destruct (log_pop n l) as [r l'].
    specialize (IH l'). destruct (log_run n ops l') as [os l'']. simpl in *.
    unfold pushed, returned in *; simpl. rewrite HP, Permutation_app_swap_app, IH, app_assoc.
    f_equiv. f_equiv; [|done]. destruct r as [[k ds]|]; simpl; [|done].
    pose proof (batch_of_detections k ds) as Hds.
    by destruct (batch_of k ds) as [[] ?]; simpl in *; subst.
  - specialize (IH l). destruct (log_run n ops l) as [os l'']. simpl in *. done.
Qed.

Lemma refines_pushes n b l (ps : list (Z * Chunk * list Detection)) :
  refines n b l ->
  refines n (foldl (fun b p => push p.1.1 p.1.2 p.2 b) b ps)
    (l ++ ((fun p => (group_key p.1.1 p.1.2, p.2)) <$> ps)).
Proof.
  revert b l; induction ps as [|[[i c] d] ps IH]; intros b l HR; simpl.
  - by rewrite app_nil_r.
  - rewrite (cons_middle _ l), app_assoc. apply IH. by apply (refines_push n b l i c d).
Qed.
End refined_consequences.

(** ** Properties *)
Section properties.
Context {SJ : SerdeJson}.

(** Everything a completion batcher holds. *)
Definition completion_held (b : CompletionBatcher) : list Detection :=
  mjoin (mjoin <$> (cb_state b).*2).

Definition push_all (ps : list (Z * Chunk * list Detection)) (b : CompletionBatcher)
  : CompletionBatcher := foldl (fun b p => push p.1.1 p.1.2 p.2 b) b ps.

(** The pushes on the same chunk of the same choice as a batch, in order. *)
Definition reported_on (c : Chunk) (i : ChoiceIndex) (ps : list (Z * Chunk * list Detection))
  : list (list Detection) :=
  (filter (fun p => cmp (p.1.2, p.1.1) (c, i) = Eq) ps).*2.

Lemma of_log_held {K} `{OL : OrdLaws K} (l : log K) :
  mjoin (mjoin <$> (of_log l).*2) ≡ₚ log_held l.
Proof.
  induction l as [|[k d] l IH] using rev_ind; [done|].
  rewrite of_log_snoc, log_held_app, <- IH. rewrite log_held_singleton.
  generalize (of_log l) as m. induction m as [|[k' v'] m IHm]; simpl; [by rewrite !app_nil_r|].
  destruct (cmp k k'); simpl.
  - rewrite join_app. simpl. rewrite app_nil_r, <- !app_assoc. f_equiv. apply Permutation_app_comm.
  - rewrite app_nil_r. apply Permutation_app_comm.
  - rewrite IHm. by rewrite app_assoc.
Qed.

(** C21. For every sequence of pushes, pops and emptiness tests on a new
    completion batcher, what it answers is what the abstract log answers: a
    pop returns the least chunk and choice pushed and not yet returned,
    exactly when [n] detectors have reported on it, with all of their
    detections in the order they were pushed. *)
Theorem completion_batcher_refines_log (n : Z) (ops : list batcher_op) :
  (batcher_run ops (completion_batcher_new n)).1 =
  (log_run (B := CompletionBatcher) n ops []).1.
Proof. exact (proj1 (batcher_run_refines_log n ops _ [] (refines_new (B := CompletionBatcher) n))). Qed.

(** The same for the max-processed-index batcher, whose groups are the
    chunks alone: the input id of a push is ignored and every batch is
    reported for input 0. *)
Theorem max_batcher_refines_log (n : Z) (ops : list batcher_op) :
  (batcher_run ops (max_batcher_new n)).1 =
  (log_run (B := MaxProcessedIndexBatcher) n ops []).1.
Proof.
  exact (proj1 (batcher_run_refines_log n ops _ []
                  (refines_new (B := MaxProcessedIndexBatcher) n))).
Qed.

(** No detection is lost, duplicated or invented by a completion batcher:
    after any sequence of operations the detections pushed are those
    returned together with those still held. *)
Theorem completion_batcher_conserves (n : Z) (ops : list batcher_op) :
  pushed ops ≡ₚ
  returned (batcher_run ops (completion_batcher_new n)).1 ++
  completion_held (batcher_run ops (completion_batcher_new n)).2.
Proof.
  destruct (batcher_run_refines_log n ops _ []
              (refines_new (B := CompletionBatcher) n)) as [E [_ HR]].
  pose proof (log_run_conserves (B := CompletionBatcher) n ops []) as HC.
  rewrite app_nil_r in HC. rewrite HC. unfold completion_held.
  simpl batcher_new in *. rewrite E. f_equiv. by rewrite HR, of_log_held.
Qed.

(** When every chunk of every choice has been reported on by exactly [n]
    detectors, in whatever order the reports arrived, popping returns each
    of them exactly once, in increasing order of chunk and then choice, with
    all detections of its [n] reports, and leaves the batcher empty. *)
Theorem completion_batcher_drains_in_order (n : Z) (ps : list (Z * Chunk * list Detection)) :
  (forall p, p ∈ ps -> Z.of_nat (length (reported_on p.1.2 p.1.1 ps)) = n) ->
  let b := push_all ps (completion_batcher_new n) in
  let rs := (drain (length ps) b).1 in
  is_empty (drain (length ps) b).2 = true /\
  StronglySorted (fun r r' => cmp (r.1.2, r.1.1) (r'.1.2, r'.1.1) = Lt) rs /\
  Forall (fun r => r.2 = mjoin (reported_on r.1.2 r.1.1 ps)) rs /\
  (forall p, p ∈ ps -> exists r, r ∈ rs /\ key_eq (p.1.2, p.1.1) (r.1.2, r.1.1)).
Proof.
  intros HC. cbv zeta.
  set (l := (fun p => ((p.1.2, p.1.1), p.2)) <$> ps).
  assert (HE : forall c i, (log_entries (c, i) l).*2 = reported_on c i ps).
  { intros c i. unfold log_entries, reported_on, l.
    by rewrite filter_fmap_compose, <- list_fmap_compose. }
  destruct (drain_refines n (length ps) _ _
    (refines_pushes n _ [] ps (refines_new (B := CompletionBatcher) n))) as [E1 E2].
  simpl app in *. fold l in E1, E2. simpl batcher_new in *.
  destruct (log_drain_complete n l (length ps)) as (H1 & H2 & H3 & H4).
  { intros e ([[i c] d] & -> & Hp)%list_elem_of_fmap. specialize (HC _ Hp). simpl in *.
    by rewrite <- (length_fmap snd), HE. }
  { unfold l. by rewrite length_fmap. }
  unfold push_all. rewrite E1. rewrite H1 in E2.
  rewrite (refines_is_empty _ _ _ E2). split; [done|]. split; [|split].
  - clear -H2. induction H2 as [|[[c i] ds] rs _ IH Hlt]; simpl; constructor; [done|].
    apply Forall_fmap. eapply Forall_impl; [exact Hlt|]. by intros [[c' i'] ds'].
  - apply Forall_fmap. eapply Forall_impl; [exact H3|].
    intros [[c i] ds] [Hds _]; simpl in *. by rewrite Hds, HE.
  - intros [[i c] d] Hp. destruct (H4 ((c, i), d)) as ([[c' i'] ds] & Hr & Hk).
    { apply list_elem_of_fmap. by exists ((i, c), d). }
    exists (i', c', ds). split; [|done]. apply list_elem_of_fmap. by exists ((c', i'), ds).
Qed.

(** A chunk on which more detections than detectors arrived (a chunker
    that returns the same indices twice, two inputs chunked alike) is never
    returned, and nothing behind it is either: as long as no smaller chunk
    is pushed, no pop returns anything and the batcher never becomes empty. *)
Theorem completion_overfull_blocks (b : CompletionBatcher) k ds m (ops : list batcher_op) :
  cb_state b = (k, ds) :: m ->
  cb_n_detectors b < Z.of_nat (length ds) ->
  Forall (fun op => match op with OpPush i c _ => cmp k (c, i) <> Gt | _ => True end) ops ->
  Forall (fun o => o = ObsBatch None \/ o = ObsEmpty false) (batcher_run ops b).1 /\
  is_empty (batcher_run ops b).2 = false.
Proof.
  intros Hst Hn Hops. revert b ds m Hst Hn.
  induction Hops as [|op ops Hop _ IH]; intros b ds m Hst Hn.
  { simpl. unfold completion_is_empty. by rewrite Hst. }
  destruct op as [i c d| |]; simpl.
  - assert (Hpush : exists ds' m', cb_state (completion_push i c d b) = (k, ds') :: m' /\
                      (length ds <= length ds')%nat).
    { unfold completion_push; simpl. rewrite Hst. simpl.
      destruct (cmp (c, i) k) eqn:E.
      - exists (ds ++ [d]), m. rewrite length_app. split; [done|lia].
      - by apply cmp_gt_lt in E.
      - by eexists ds, _. }
    destruct Hpush as (ds' & m' & E & Hlen). apply (IH _ ds' m' E). simpl. lia.
  - assert (Hpop : completion_pop_batch b = (None, b)).
    { unfold completion_pop_batch. rewrite Hst. simpl.
      rewrite (proj2 (Z.eqb_neq _ _)) by lia. done. }
    rewrite Hpop. destruct (IH b ds m Hst Hn) as [H1 H2].
    destruct (batcher_run ops b). simpl in *. split; [constructor; auto|done].
  - destruct (IH b ds m Hst Hn) as [H1 H2]. destruct (batcher_run ops b). simpl in *.
    unfold completion_is_empty at 1. rewrite Hst. split; [constructor; auto|done].
Qed.
End properties.

(** ** Witnesses *)
Section witnesses.
#[local] Existing Instance simple_json.

Definition ex_chunk (s e : Z) (text : string) : Chunk :=
  {| input_start_index := 0; input_end_index := 0; chunk_start := s; chunk_end := e;
     chunk_text := text |}.
Definition ex_detection (s e : Z) (id : string) : Detection :=
  with_detector_id (with_span detection_default (Some s) (Some e)) (Some id).

(** Two detectors on two chunks of two choices; the later chunk's reports
    arrive first. *)
Definition ex_pushes : list (Z * Chunk * list Detection) :=
  [ (0, ex_chunk 8 15 "second.", [ex_detection 9 12 "pii"]);
    (1, ex_chunk 0 7 "first.", []);
    (0, ex_chunk 0 7 "First.", [ex_detection 0 3 "hap"]);
    (0, ex_chunk 8 15 "second.", [ex_detection 8 10 "hap"]);
    (1, ex_chunk 0 7 "first.", [ex_detection 2 4 "pii"]);
    (0, ex_chunk 0 7 "First.", [ex_detection 1 2 "pii"]) ].

Lemma completion_batcher_drains_in_order_witness :
  (fun r => (r.1.1, chunk_start r.1.2, length r.2)) <$>
    (drain 6 (push_all ex_pushes (completion_batcher_new 2))).1 =
    [(0, 0, 2%nat); (1, 0, 1%nat); (0, 8, 2%nat)] /\
  is_empty (drain 6 (push_all ex_pushes (completion_batcher_new 2))).2 = true.
Proof.
  split; [vm_compute; reflexivity|].
  refine (proj1 (completion_batcher_drains_in_order 2 ex_pushes _)).
  each_elem.
Defined.

Lemma completion_overfull_blocks_witness :
  let b := push_all (take 3 ex_pushes ++ take 3 ex_pushes) (completion_batcher_new 1) in
  Forall (fun o => o = ObsBatch None \/ o = ObsEmpty false)
    (batcher_run [OpPop; OpPush 0 (ex_chunk 20 30 "third") []; OpIsEmpty; OpPop] b).1 /\
  is_empty (batcher_run [OpPop; OpPush 0 (ex_chunk 20 30 "third") []; OpIsEmpty; OpPop] b).2
    = false.
Proof.
  cbv zeta. eapply completion_overfull_blocks.
  - vm_compute. reflexivity.
  - vm_compute. reflexivity.
  - repeat constructor. vm_compute. discriminate.
Defined.
End witnesses.
