(* ===== verification/BatchStream.v ===== *)
(** * Detection batch stream

    src/orchestrator/types/detection_batch_stream.rs: the task that merges the
    detection streams of several detectors through a batcher into one stream
    of batches.  The task's [select!] loop and the actor that owns the batcher
    run concurrently and talk through a bounded mailbox; the model is a
    labelled transition system whose labels are the points at which either of
    them moves, so that every interleaving of the two is a run.  What a future
    that is dropped unread would have returned is recorded in a history
    variable. *)
From AAC_tactics Require Import AAC.
From AAC_tactics Require Instances.
From S2P Require Import Prelude Collections External Errors Detection Chunk Batcher.
Import Instances.Lists.
#[local] Open Scope string_scope.
#[local] Open Scope list_scope.
#[local] Open Scope Z_scope.

(** Permutations are proved modulo associativity and commutativity of [++]. *)
#[export] Instance permutation_lift {A} : AAC_lift (@Permutation A) (@Permutation A) | 0.
Proof. split; apply _. Qed.

Section stream.
Context {SJ : SerdeJson} {B : Type} {DB : DetectionBatcher B}.

(** An item of a detection stream, and of the batch stream. *)
Notation item := (outcome OrchError Batch).

(** [DetectionBatcherMessage]; a request is labelled with the iteration of the
    loop whose future holds the other end of its response channel. *)
Inductive DetectionBatcherMessage :=
| Push (input_id : Z) (chunk : Chunk) (detections : list Detection)
| Pop (iteration : nat)
| IsEmpty (iteration : nat).

(** The state of a future of the current iteration: not polled yet, waiting
    for its response, answered but not polled since, or disabled because it
    returned a value its pattern does not match. *)
Inductive future (A : Type) := Idle | Waiting | Answered (a : A) | Disabled.
Arguments Idle {A}.
Arguments Waiting {A}.
Arguments Answered {A}.
Arguments Disabled {A}.

Record BatchStreamState := {
  (** the task *)
  streams : list (list item);
  stream_completed : bool;
  running : bool;
  iteration : nat;
  pop_future : future (option Batch);
  empty_future : future bool;
  (** the batch channel *)
  sent : list item;
  (** the actor and its mailbox *)
  mailbox : list DetectionBatcherMessage;
  batcher : B;
  (** history: what was pushed, and the batches of futures dropped unread *)
  received : list Batch;
  lost : list Batch
}.

Definition batch_stream_init (streams : list (list item)) (b : B) : BatchStreamState :=
  {| streams := streams; stream_completed := false; running := true; iteration := 0;
     pop_future := Idle; empty_future := Idle; sent := []; mailbox := []; batcher := b;
     received := []; lost := [] |}.

(** [mpsc::channel(32)]: a send waits until the mailbox has room. *)
Definition mailbox_capacity : nat := 32.
Definition has_room (s : BatchStreamState) : bool := bool_decide (length (mailbox s) < mailbox_capacity)%nat.

(** The batch an answered pop future holds. *)
Definition unread (s : BatchStreamState) : list Batch :=
  match pop_future s with Answered (Some batch) => [batch] | _ => [] end.

(** End of an iteration: the futures of the [select!] are dropped and the next
    iteration has new ones. *)
Definition next_iteration (s : BatchStreamState) (streams : list (list item))
    (stream_completed running : bool) (sent : list item)
    (mailbox : list DetectionBatcherMessage) (received : list Batch) (dropped : list Batch)
    : BatchStreamState :=
  {| streams := streams; stream_completed := stream_completed; running := running;
     iteration := S (iteration s); pop_future := Idle; empty_future := Idle; sent := sent;
     mailbox := mailbox; batcher := batcher s; received := received;
     lost := lost s ++ dropped |}.

(** A change of the futures, the mailbox and the batcher within an iteration. *)
Definition within (s : BatchStreamState) (pop : future (option Batch)) (empty : future bool)
    (mailbox : list DetectionBatcherMessage) (b : B) (dropped : list Batch) : BatchStreamState :=
  {| streams := streams s; stream_completed := stream_completed s; running := running s;
     iteration := iteration s; pop_future := pop; empty_future := empty; sent := sent s;
     mailbox := mailbox; batcher := b; received := received s; lost := lost s ++ dropped |}.

(** Who moves: the [i]-th stream yields to [stream_set.next()] or all have
    ended; [pop()] or [is_empty()] is polled for the first time and sends its
    request, or is polled with its response there; the actor handles a
    message. *)
Inductive label :=
| Recv (i : nat) | End_ | PollPop | TakePop | PollEmpty | TakeEmpty | Actor.

(** The branch on the next item of the streams. *)
Definition exec_recv (s : BatchStreamState) (i : nat) : option BatchStreamState :=
  if negb (running s) || stream_completed s then None
  else match (streams s !! i : option (list item)) with
       | Some (Ok batch :: rest) =>
           let '(input_id, chunk, detections) := batch in
           if has_room s then
             Some (next_iteration s (<[i := rest]> (streams s)) false true (sent s)
                     (mailbox s ++ [Push input_id chunk detections])
                     (received s ++ [batch]) (unread s))
           else None
       | Some (Err error :: rest) =>
           Some (next_iteration s (<[i := rest]> (streams s)) false false (sent s ++ [Err error])
                   (mailbox s) (received s) (unread s))
       | _ => None
       end.

Definition all_ended (streams : list (list item)) : bool :=
  forallb (fun stream => match stream with [] => true | _ => false end) streams.
Definition exec_end (s : BatchStreamState) : option BatchStreamState :=
  if running s && negb (stream_completed s) && all_ended (streams s)
  then Some (next_iteration s (streams s) true true (sent s) (mailbox s) (received s) (unread s))
  else None.

(** The branch on [batcher_manager.pop()]. *)
Definition exec_poll_pop (s : BatchStreamState) : option BatchStreamState :=
  match pop_future s with
  | Idle =>
      if running s && has_room s
      then Some (within s Waiting (empty_future s) (mailbox s ++ [Pop (iteration s)]) (batcher s) [])
      else None
  | _ => None
  end.
Definition exec_take_pop (s : BatchStreamState) : option BatchStreamState :=
  if negb (running s) then None else
  match pop_future s with
  | Answered (Some batch) =>
      Some (next_iteration s (streams s) (stream_completed s) true (sent s ++ [Ok batch])
              (mailbox s) (received s) [])
  | Answered None => Some (within s Disabled (empty_future s) (mailbox s) (batcher s) [])
  | _ => None
  end.

(** The branch on [batcher_manager.is_empty()]; [biased] polls it after the
    others. *)
Definition exec_poll_empty (s : BatchStreamState) : option BatchStreamState :=
  match empty_future s, pop_future s with
  | _, Idle => None
  | Idle, _ =>
      if running s && stream_completed s && has_room s
      then Some (within s (pop_future s) Waiting (mailbox s ++ [IsEmpty (iteration s)]) (batcher s) [])
      else None
  | _, _ => None
  end.
Definition exec_take_empty (s : BatchStreamState) : option BatchStreamState :=
  if negb (running s) then None else
  match empty_future s with
  | Answered empty =>
      Some (next_iteration s (streams s) (stream_completed s) (negb empty) (sent s)
              (mailbox s) (received s) (unread s))
  | _ => None
  end.

(** One message handled by the actor ([DetectionBatcherManager::run]); the
    response to a future that is gone is dropped. *)
Definition exec_actor (s : BatchStreamState) : option BatchStreamState :=
  match mailbox s with
  | Push input_id chunk detections :: rest =>
      Some (within s (pop_future s) (empty_future s) rest
              (push input_id chunk detections (batcher s)) [])
  | Pop k :: rest =>
      let '(batch, b) := pop_batch (batcher s) in
      if decide (k = iteration s)
      then Some (within s (Answered batch) (empty_future s) rest b [])
      else Some (within s (pop_future s) (empty_future s) rest b (option_list batch))
  | IsEmpty k :: rest =>
      if decide (k = iteration s)
      then Some (within s (pop_future s) (Answered (is_empty (batcher s))) rest (batcher s) [])
      else Some (within s (pop_future s) (empty_future s) rest (batcher s) [])
  | [] => None
  end.

Definition exec (l : label) (s : BatchStreamState) : option BatchStreamState :=
  match l with
  | Recv i => exec_recv s i
  | End_ => exec_end s
  | PollPop => exec_poll_pop s
  | TakePop => exec_take_pop s
  | PollEmpty => exec_poll_empty s
  | TakeEmpty => exec_take_empty s
  | Actor => exec_actor s
  end.

Fixpoint run (ls : list label) (s : BatchStreamState) : option BatchStreamState :=
  match ls with
  | [] => Some s
  | l :: ls => s' ← exec l s; run ls s'
  end.

(** A single detection stream is forwarded as it is, up to its first error. *)
Fixpoint forward (stream : list item) : list item :=
  match stream with
  | [] => []
  | Ok batch :: stream => Ok batch :: forward stream
  | Err error :: _ => [Err error]
  | Panic site :: _ => [Panic site]
  end.

(** The items the batch stream may yield when the task has stopped. *)
Definition batch_stream_yields (dss : list (list item)) (b : B) (out : list item) : Prop :=
  match dss with
  | [stream] => out = forward stream
  | _ => exists ls s, run ls (batch_stream_init dss b) = Some s /\ running s = false /\ out = sent s
  end.
End stream.
Arguments Idle {A}.
Arguments Waiting {A}.
Arguments Answered {A}.
Arguments Disabled {A}.

(** The detections of batches. *)
Definition detections_of `{SJ : SerdeJson} (l : list Batch) : list Detection := mjoin l.*2.

(** Permutations of detections, up to associativity and commutativity. *)
Ltac solve_perm := try change (detections_of []) with (@nil Detection); aac_reflexivity.

(** ** Invariant *)
Section invariant.
Context {SJ : SerdeJson} {B K : Type} {DB : DetectionBatcher B} `{OL : OrdLaws K}
  {BS : BatcherSpec B K}.
Notation item := (outcome OrchError Batch).

(** The batches among the items of a stream. *)
Definition ok_items (l : list item) : list Batch :=
  omap (fun i => match i with Ok b => Some b | _ => None end) l.
(** The batches still to come from the streams. *)
Definition items_of (streams : list (list item)) : list Batch := mjoin (ok_items <$> streams).
(** What a mailbox has still to push. *)
Definition pushes (mb : list DetectionBatcherMessage) : list Batch :=
  omap (fun m => match m with Push i c d => Some (i, c, d) | _ => None end) mb.
Definition is_empty_requests (mb : list DetectionBatcherMessage) : list nat :=
  omap (fun m => match m with IsEmpty k => Some k | _ => None end) mb.

Definition pop_requests (mb : list DetectionBatcherMessage) : list nat :=
  omap (fun m => match m with Pop k => Some k | _ => None end) mb.

(** Nothing is pushed behind a question whether the batcher is empty. *)
Fixpoint pushes_first (mb : list DetectionBatcherMessage) : Prop :=
  match mb with
  | [] => True
  | IsEmpty _ :: rest => pushes rest = [] /\ pushes_first rest
  | _ :: rest => pushes_first rest
  end.

(** The task has been told that the batcher is empty. *)
Definition told_empty (s : BatchStreamState (B := B)) : Prop :=
  empty_future s = Answered true \/
  (running s = false /\ Forall (fun i => is_ok i = true) (sent s)).

Record stream_inv (n : Z) (total : list Batch) (l : log K) (s : BatchStreamState (B := B)) : Prop := {
  si_log : refines n (batcher s) l;
  si_detections : detections_of (received s) ≡ₚ
    detections_of (ok_items (sent s)) ++ detections_of (lost s) ++ detections_of (unread s)
    ++ detections_of (pushes (mailbox s)) ++ log_held l;
  si_total : total ≡ₚ received s ++ items_of (streams s);
  si_pops : filter (fun k => k = iteration s) (pop_requests (mailbox s)) =
    match pop_future s with Waiting => [iteration s] | _ => [] end;
  si_past : Forall (fun k => (k <= iteration s)%nat) (pop_requests (mailbox s));
  si_order : pushes_first (mailbox s);
  si_asked : is_empty_requests (mailbox s) <> [] \/ told_empty s -> stream_completed s = true;
  si_told : told_empty s -> l = [] /\ pushes (mailbox s) = [];
  si_stopped : running s = false -> pop_future s = Idle;
  si_ended : stream_completed s = true -> all_ended (streams s) = true;
  si_sent : if running s then Forall (fun i => is_ok i = true) (sent s)
            else Forall (fun i => is_ok i = true) (sent s) \/
                 exists oks error, sent s = oks ++ [Err error] /\ Forall (fun i => is_ok i = true) oks
}.

Lemma ok_items_app l1 l2 : ok_items (l1 ++ l2) = ok_items l1 ++ ok_items l2.
Proof. apply omap_app. Qed.
Lemma pushes_app l1 l2 : pushes (l1 ++ l2) = pushes l1 ++ pushes l2.
Proof. apply omap_app. Qed.
Lemma is_empty_requests_app l1 l2 :
  is_empty_requests (l1 ++ l2) = is_empty_requests l1 ++ is_empty_requests l2.
Proof. apply omap_app. Qed.
Lemma detections_of_app l1 l2 : detections_of (l1 ++ l2) = detections_of l1 ++ detections_of l2.
Proof. unfold detections_of. by rewrite fmap_app, join_app. Qed.
#[export] Instance detections_of_proper : Proper ((≡ₚ) ==> (≡ₚ)) detections_of.
Proof. intros l l' H. unfold detections_of. by rewrite H. Qed.
Lemma detections_of_one b : detections_of [b] = b.2.
Proof. apply app_nil_r. Qed.

Lemma pushes_first_snoc mb m :
  pushes_first mb -> (is_empty_requests mb = [] \/ pushes [m] = []) -> pushes_first (mb ++ [m]).
Proof.
  induction mb as [|m' mb IH]; simpl.
  { intros _ _. by destruct m. }
  destruct m'; [intros H Hor; apply IH; [done|]; by destruct Hor; [left|right]..|].
  intros [H1 H2] [Hor|Hor]; [done|]. split; [by rewrite pushes_app, H1|]. apply IH; auto.
Qed.

Lemma items_of_cons st streams : items_of (st :: streams) = ok_items st ++ items_of streams.
Proof. done. Qed.

Lemma all_ended_items streams : all_ended streams = true -> items_of streams = [].
Proof. by induction streams as [|[] streams IH]. Qed.

Lemma items_of_insert (streams : list (list item)) i it rest :
  streams !! i = Some (it :: rest) ->
  items_of streams ≡ₚ ok_items [it] ++ items_of (<[i := rest]> streams).
Proof.
  revert i; induction streams as [|st streams IH]; intros [|i]; try done.
  - intros [= ->]. change (<[0%nat := rest]> ((it :: rest) :: streams)) with (rest :: streams).
    rewrite !items_of_cons. change (it :: rest) with ([it] ++ rest).
    rewrite ok_items_app. by rewrite app_assoc.
  - intros H. change (<[S i := rest]> (st :: streams)) with (st :: <[i := rest]> streams).
    rewrite !items_of_cons, (IH i H). aac_reflexivity.
Qed.

Lemma no_future_pops it mb :
  Forall (fun k => (k <= it)%nat) (pop_requests mb) ->
  filter (fun k => k = S it) (pop_requests mb) = [].
Proof.
  induction 1 as [|k ks Hk _ IH]; [done|]. rewrite filter_cons_False; [done|lia].
Qed.

Lemma later_pops it mb :
  Forall (fun k => (k <= it)%nat) (pop_requests mb) ->
  Forall (fun k => (k <= S it)%nat) (pop_requests mb).
Proof. intros H. eapply Forall_impl; [exact H|]. simpl. lia. Qed.

Lemma pop_requests_app l1 l2 : pop_requests (l1 ++ l2) = pop_requests l1 ++ pop_requests l2.
Proof. apply omap_app. Qed.

Lemma not_completed n total l s :
  stream_inv n total l s -> stream_completed s = false ->
  is_empty_requests (mailbox s) = [] /\ ~ told_empty s.
Proof.
  intros HI Hc. pose proof (si_asked _ _ _ _ HI) as H. split.
  - destruct (is_empty_requests (mailbox s)); [done|]. rewrite H in Hc; [done|by left].
  - intros Ht. rewrite H in Hc; [done|by right].
Qed.

Lemma stream_inv_init n dss :
  stream_inv n (items_of dss) [] (batch_stream_init dss (batcher_new n)).
Proof.
  split; simpl; try done; try (by intros [?|[|[]]]).
  - apply refines_new.
Qed.

(** Each kind of step preserves the invariant. *)
Definition preserves (n : Z) (total : list Batch) (f : BatchStreamState -> option BatchStreamState)
    : Prop :=
  forall l s s', stream_inv n total l s -> f s = Some s' -> exists l', stream_inv n total l' s'.

Lemma preserves_recv n total i : preserves n total (fun s => exec_recv s i).
Proof.
  intros l s s' HI. unfold exec_recv. destruct (running s) eqn:Hr; [|done].
  destruct (stream_completed s) eqn:Hc; [done|]. simpl.
  destruct (not_completed _ _ _ _ HI Hc) as [Hq Ht].
  pose proof (si_sent _ _ _ _ HI) as Hsent. rewrite Hr in Hsent.
  pose proof (si_detections _ _ _ _ HI) as HD. pose proof (si_total _ _ _ _ HI) as HT.
  destruct (streams s !! i) as [[|[[[i' c] d]|e|] rest]|] eqn:Hi; try done.
  - destruct (has_room s); [|done]. intros [= <-]. exists l. split; simpl; try done.
    + apply HI.
    + rewrite !detections_of_app, pushes_app, detections_of_app, HD. simpl.
      rewrite detections_of_one. solve_perm.
    + rewrite HT, (items_of_insert _ _ _ _ Hi). simpl. by rewrite <- app_assoc.
    + rewrite pop_requests_app. simpl. rewrite app_nil_r. apply no_future_pops, HI.
    + rewrite pop_requests_app. simpl. rewrite app_nil_r. apply later_pops, HI.
    + apply pushes_first_snoc; [apply HI|by left].
    + rewrite is_empty_requests_app, Hq. by intros [|[|[]]].
    + by intros [|[]].
  - intros [= <-]. exists l. split; simpl; try done.
    + apply HI.
    + rewrite ok_items_app, !detections_of_app, HD. simpl. solve_perm.
    + rewrite HT, (items_of_insert _ _ _ _ Hi). done.
    + apply no_future_pops, HI.
    + apply later_pops, HI.
    + apply HI.
    + rewrite Hq. intros [|[|[_ Hf]]]; try done. by apply Forall_app in Hf as [_ Hf%Forall_inv].
    + intros [|[_ Hf]]; [done|]. by apply Forall_app in Hf as [_ Hf%Forall_inv].
    + right. by exists (sent s), e.
Qed.

Lemma preserves_end n total : preserves n total exec_end.
Proof.
  intros l s s' HI. unfold exec_end. destruct (running s) eqn:Hr; [|done].
  destruct (stream_completed s) eqn:Hc; [done|]. destruct (all_ended _) eqn:Hall; [|done].
  intros [= <-]. exists l. destruct (not_completed _ _ _ _ HI Hc) as [Hq Ht].
  pose proof (si_sent _ _ _ _ HI) as Hsent. rewrite Hr in Hsent.
  split; simpl; try done; try apply HI.
  - rewrite !detections_of_app. rewrite (si_detections _ _ _ _ HI). solve_perm.
  - apply no_future_pops, HI.
  - apply later_pops, HI.
  - by intros [|[]].
Qed.

Lemma preserves_poll_pop n total : preserves n total exec_poll_pop.
Proof.
  intros l s s' HI. unfold exec_poll_pop. destruct (pop_future s) eqn:Hp; try done.
  destruct (running s) eqn:Hr; [|done]. destruct (has_room s); [|done]. intros [= <-]. exists l.
  pose proof (si_detections _ _ _ _ HI) as HD. unfold unread in HD. rewrite Hp in HD.
  pose proof (si_pops _ _ _ _ HI) as Hps. rewrite Hp in Hps.
  split; simpl; try done; try apply HI; [..|intros; congruence].
  - rewrite pushes_app, !app_nil_r. exact HD.
  - rewrite pop_requests_app, filter_app, Hps. simpl. by rewrite filter_cons_True.
  - rewrite pop_requests_app. apply Forall_app. split; [apply HI|]. constructor; [done|constructor].
  - apply pushes_first_snoc; [apply HI|by right].
  - rewrite is_empty_requests_app. simpl. rewrite app_nil_r. apply HI.
  - rewrite pushes_app. simpl. rewrite app_nil_r. apply HI.
Qed.

Lemma preserves_take_pop n total : preserves n total exec_take_pop.
Proof.
  intros l s s' HI. unfold exec_take_pop. destruct (running s) eqn:Hr; [|done]. simpl.
  pose proof (si_detections _ _ _ _ HI) as HD. unfold unread in HD.
  pose proof (si_pops _ _ _ _ HI) as Hps.
  pose proof (si_sent _ _ _ _ HI) as Hsent. rewrite Hr in Hsent.
  destruct (pop_future s) as [| |[b|]|] eqn:Hp; try done; intros [= <-]; exists l;
    split; simpl; try done; try apply HI.
  - rewrite ok_items_app, !detections_of_app, app_nil_r, HD. simpl. solve_perm.
  - apply no_future_pops, HI.
  - apply later_pops, HI.
  - intros [H|[|[]]]; try done. apply HI. by left.
  - by intros [|[]].
  - apply Forall_app. split; [done|]. by constructor.
  - by rewrite app_nil_r.
  - intros. congruence.
Qed.

Lemma exec_poll_empty_inv (s s' : BatchStreamState (B := B)) :
  exec_poll_empty s = Some s' ->
  running s = true /\ stream_completed s = true /\
  s' = within s (pop_future s) Waiting (mailbox s ++ [IsEmpty (iteration s)]) (batcher s) [].
Proof.
  unfold exec_poll_empty. destruct (empty_future s); destruct (pop_future s); try done;
    destruct (running s), (stream_completed s), (has_room s); try done; by intros [= <-].
Qed.

Lemma preserves_poll_empty n total : preserves n total exec_poll_empty.
Proof.
  intros l s s' HI (Hr & Hc & ->)%exec_poll_empty_inv. exists l.
  split; simpl; try apply HI; try done.
  - rewrite pushes_app, !app_nil_r. apply HI.
  - rewrite pop_requests_app, app_nil_r. apply HI.
  - rewrite pop_requests_app, app_nil_r. apply HI.
  - apply pushes_first_snoc; [apply HI|by right].
  - intros [|[]]; [done|]. simpl in *. congruence.
Qed.

Lemma preserves_take_empty n total : preserves n total exec_take_empty.
Proof.
  intros l s s' HI. unfold exec_take_empty. destruct (running s) eqn:Hr; [|done]. simpl.
  pose proof (si_sent _ _ _ _ HI) as Hsent. rewrite Hr in Hsent.
  destruct (empty_future s) as [| |e|] eqn:He; try done. intros [= <-]. exists l.
  split; simpl; try apply HI.
  - rewrite !detections_of_app, (si_detections _ _ _ _ HI). solve_perm.
  - apply no_future_pops, HI.
  - apply later_pops, HI.
  - intros [H|[|[H _]]]; [apply HI; by left|done|]. apply HI. right. left.
    apply negb_false_iff in H as ->. done.
  - intros [|[H _]]; [done|]. apply HI. left. apply negb_false_iff in H as ->. done.
  - done.
  - destruct e; simpl; [by left|done].
Qed.

Lemma told_empty_within s pop empty mb b dropped :
  told_empty (within s pop empty mb b dropped) ->
  empty = Answered true \/ told_empty s.
Proof. intros [H|H]; [by left|right; by right]. Qed.

(** Popping: the detections leave the log with the batch, and an empty log
    stays empty. *)
Lemma refines_pop n b l :
  refines n b l -> exists l',
    refines n (pop_batch b).2 l' /\
    log_held l ≡ₚ detections_of (option_list (pop_batch b).1) ++ log_held l' /\
    (l = [] -> l' = []).
Proof.
  intros HR. exists (log_pop n l).2. split; [by apply refines_pop_state|].
  split; [|by intros ->]. rewrite (log_pop_held n l), (refines_pop_result _ _ _ HR).
  destruct (log_pop n l) as [[[k ds]|] l']; simpl; [|done].
  rewrite detections_of_one. by rewrite (batch_of_detections k ds).
Qed.

Lemma preserves_actor n total : preserves n total exec_actor.
Proof.
  intros l s s' HI. unfold exec_actor.
  pose proof (si_detections _ _ _ _ HI) as HD. pose proof (si_pops _ _ _ _ HI) as Hps.
  pose proof (si_past _ _ _ _ HI) as Hpast. pose proof (si_order _ _ _ _ HI) as Hord.
  pose proof (si_asked _ _ _ _ HI) as Hask. pose proof (si_told _ _ _ _ HI) as Htold.
  destruct (mailbox s) as [|[i c d|k|k] rest] eqn:Hm; [done|..].
  - intros [= <-]. exists (log_push (group_key i c) d l).
    assert (Hnt : ~ told_empty s) by (by intros [_ ?]%Htold).
    split; simpl in *; try done; try apply HI.
    + by apply refines_push, HI.
    + unfold log_push. rewrite app_nil_r, log_held_app, log_held_singleton, HD.
      change (detections_of ((i, c, d) :: pushes rest)) with (d ++ detections_of (pushes rest)).
      unfold unread at 2. simpl. fold (unread s). solve_perm.
  - pose proof (refines_pop n _ l (si_log _ _ _ _ HI)) as (l' & HR' & Hheld & Hnil).
    destruct (pop_batch (batcher s)) as [batch b']. simpl in HR', Hheld. simpl in Hps.
    inversion_clear Hpast as [|? ? Hk Hpast']. destruct (decide (k = iteration s)) as [->|Hne];
      intros [= <-]; exists l'; split; simpl in *; try done; try apply HI.
    + rewrite filter_cons_True in Hps by done. destruct (pop_future s) eqn:Hp; try done.
      rewrite HD, Hheld. unfold unread; simpl. rewrite Hp, app_nil_r.
      destruct batch; simpl; solve_perm.
    + rewrite filter_cons_True in Hps by done.
      destruct (pop_future s); try done. by injection Hps as ->.
    + intros [-> ?]%Htold. auto.
    + intros Hr. rewrite filter_cons_True in Hps by done.
      by rewrite (si_stopped _ _ _ _ HI Hr) in Hps.
    + rewrite HD, detections_of_app, Hheld. fold (unread s).
      change (unread (within s (pop_future s) (empty_future s) rest b' (option_list batch)))
        with (unread s). solve_perm.
    + by rewrite filter_cons_False in Hps by done.
    + intros [-> ?]%Htold. auto.
  - destruct Hord as [Hno Hord]. simpl in *.
    assert (Hc : stream_completed s = true) by (apply Hask; by left).
    destruct (decide (k = iteration s)) as [->|Hne];
      intros [= <-]; exists l; split; simpl in *; try done; try apply HI;
      try (by rewrite app_nil_r).
    intros [[= H]|H]%told_empty_within; [|by apply Htold]. split; [|done].
    rewrite (refines_is_empty _ _ _ (si_log _ _ _ _ HI)) in H. by apply bool_decide_eq_true in H.
Qed.

Lemma stream_inv_run n total ls l s s' :
  stream_inv n total l s -> run ls s = Some s' -> exists l', stream_inv n total l' s'.
Proof.
  revert l s. induction ls as [|lbl ls IH]; intros l s HI.
  { intros [= <-]. by exists l. }
  simpl. destruct (exec lbl s) as [s1|] eqn:E; [|done]. simpl. intros Hrun.
  assert (exists l1, stream_inv n total l1 s1) as [l1 HI1].
  { destruct lbl; simpl in E; revert HI E.
    - apply preserves_recv.
    - apply preserves_end.
    - apply preserves_poll_pop.
    - apply preserves_take_pop.
    - apply preserves_poll_empty.
    - apply preserves_take_empty.
    - apply preserves_actor. }
  by apply (IH l1 s1).
Qed.
End invariant.

(** ** Schedules *)
Section schedules.
Context {SJ : SerdeJson} {B K : Type} {DB : DetectionBatcher B} `{OL : OrdLaws K}
  {BS : BatcherSpec B K}.
Notation item := (outcome OrchError Batch).
Notation State := (BatchStreamState (B := B)).

Lemma run_app ls1 ls2 (s : State) : run (ls1 ++ ls2) s = (s' ← run ls1 s; run ls2 s').
Proof.
  revert s; induction ls1 as [|l ls1 IH]; intros s; simpl; [done|].
  destruct (exec l s); simpl; [apply IH|done].
Qed.

(** No future of the task is answered behind its back: the task moves on to
    another branch only when its pop has not been sent or is known to have
    returned nothing. *)
Definition polite (l : label) (s : State) : bool :=
  match l with
  | Recv _ | End_ | TakeEmpty =>
      match pop_future s with Waiting | Answered (Some _) => false | _ => true end
  | _ => true
  end.
Fixpoint polite_run (ls : list label) (s : State) : bool :=
  match ls with
  | [] => true
  | l :: ls => polite l s && match exec l s with Some s' => polite_run ls s' | None => true end
  end.

Definition lossless (s : State) : Prop :=
  lost s = [] /\
  pop_requests (mailbox s) = match pop_future s with Waiting => [iteration s] | _ => [] end.

Lemma lossless_exec l s s' :
  lossless s -> polite l s = true -> exec l s = Some s' -> lossless s'.
Proof.
  intros [Hl Hp] Hpol. unfold lossless. destruct l; simpl in Hpol |- *.
  - unfold exec_recv. destruct (_ || _); [done|].
    destruct (streams s !! i) as [[|[[[i' c] d]|e|] rest]|]; try done.
    + destruct (has_room s); [|done]. intros [= <-]. simpl. rewrite pop_requests_app, Hl. simpl.
      unfold unread. by destruct (pop_future s) as [| |[|]|]; simpl in *; rewrite ?app_nil_r.
    + intros [= <-]. simpl. rewrite Hl. unfold unread. by destruct (pop_future s) as [| |[|]|].
  - unfold exec_end. destruct (_ && _); [|done]. intros [= <-]. simpl. rewrite Hl. unfold unread.
    by destruct (pop_future s) as [| |[|]|].
  - unfold exec_poll_pop. destruct (pop_future s); try done. destruct (_ && _); [|done].
    intros [= <-]. simpl. by rewrite pop_requests_app, Hp, app_nil_r.
  - unfold exec_take_pop. destruct (negb _); [done|].
    destruct (pop_future s) as [| |[|]|]; try done; intros [= <-]; simpl; by rewrite app_nil_r.
  - intros (_ & _ & ->)%exec_poll_empty_inv. simpl. by rewrite pop_requests_app, !app_nil_r.
  - unfold exec_take_empty. destruct (negb _); [done|]. destruct (empty_future s); try done.
    intros [= <-]. simpl. rewrite Hl. unfold unread. by destruct (pop_future s) as [| |[|]|].
  - unfold exec_actor. destruct (mailbox s) as [|[i c d|k|k] rest]; [done|..]; simpl in Hp.
    + intros [= <-]. simpl. by rewrite app_nil_r.
    + destruct (pop_batch (batcher s)) as [batch b']. destruct (pop_future s); try done.
      injection Hp as -> Hp. rewrite decide_True by done. intros [= <-]. simpl.
      by rewrite app_nil_r, Hp.
    + destruct (decide _); intros [= <-]; simpl; by rewrite app_nil_r.
Qed.

Lemma lossless_run ls s s' :
  lossless s -> polite_run ls s = true -> run ls s = Some s' -> lost s' = [].
Proof.
  revert s; induction ls as [|l ls IH]; intros s HL; simpl; [by intros _ [= <-]; destruct HL|].
  intros [Hp Hps]%andb_true_iff. destruct (exec l s) as [s1|] eqn:E; [|done]. simpl.
  apply IH; [by eapply lossless_exec|done].
Qed.

(** Between two iterations, with nothing under way. *)
Definition quiescent (s : State) : Prop :=
  running s = true /\ mailbox s = [] /\ pop_future s = Idle /\ empty_future s = Idle /\ lost s = [].

Definition all_ok (streams : list (list item)) : Prop :=
  Forall (Forall (fun i => is_ok i = true)) streams.

Lemma next_item streams :
  all_ok streams -> all_ended streams = false ->
  exists i b rest, streams !! i = Some (Ok b :: rest).
Proof.
  induction 1 as [|st streams Hst _ IH]; simpl; [done|].
  destruct st as [|it rest]; [|apply Forall_inv in Hst; destruct it; try done; by exists 0%nat, a, rest].
  intros (i & b & rest & Hi)%IH. by exists (S i), b, rest.
Qed.

(** Receiving every item and letting the actor push it. *)
Lemma receive_all m (s : State) :
  quiescent s -> stream_completed s = false -> all_ok (streams s) ->
  (length (items_of (streams s)) <= m)%nat ->
  exists ls s' order, run ls s = Some s' /\ quiescent s' /\ stream_completed s' = false /\
    all_ended (streams s') = true /\ sent s' = sent s /\
    order ≡ₚ items_of (streams s) /\
    batcher s' = foldl (fun b p => push p.1.1 p.1.2 p.2 b) (batcher s) order.
Proof.
  revert s; induction m as [|m IH]; intros s HQ Hc Hok Hlen.
  all: destruct (all_ended (streams s)) eqn:Hall;
    [exists [], s, []; rewrite (all_ended_items _ Hall); by repeat (split; [done|])|].
  all: destruct (next_item _ Hok Hall) as (i & [[id c] d] & rest & Hi);
    pose proof (items_of_insert _ _ _ _ Hi) as HP; rewrite HP in Hlen; simpl in Hlen.
  { lia. }
  destruct HQ as (Hr & Hm & Hp & He & Hl).
  set (s1 := {| streams := <[i := rest]> (streams s); stream_completed := false; running := true;
                iteration := S (iteration s); pop_future := Idle; empty_future := Idle;
                sent := sent s; mailbox := []; batcher := push id c d (batcher s);
                received := received s ++ [(id, c, d)]; lost := [] |} : State).
  assert (Hrun : run [Recv i; Actor] s = Some s1).
  { cbn [run exec]. unfold exec_recv, has_room. rewrite Hr, Hc, Hi, Hm. cbn.
    unfold unread, next_iteration, within, exec_actor. rewrite Hp, Hl. cbn. reflexivity. }
  destruct (IH s1) as (ls & s' & order & Hrun' & HQ' & Hc' & Hall' & Hs' & Hord & Hb').
  { by repeat split. }
  { done. }
  { simpl. apply Forall_insert; [done|]. eapply Forall_lookup_1 in Hi; [|exact Hok].
    by apply Forall_inv_tail in Hi. }
  { simpl. lia. }
  exists ([Recv i; Actor] ++ ls), s', ((id, c, d) :: order).
  rewrite run_app, Hrun. split; [exact Hrun'|]. split; [done|]. split; [done|]. split; [done|].
  split; [done|]. split; [|exact Hb']. rewrite HP. simpl. by rewrite Hord.
Qed.

(** The end of the streams. *)
Lemma run_end (s : State) :
  quiescent s -> stream_completed s = false -> all_ended (streams s) = true ->
  exists s', run [End_] s = Some s' /\ quiescent s' /\ stream_completed s' = true /\
    sent s' = sent s /\ batcher s' = batcher s.
Proof.
  intros (Hr & Hm & Hp & He & Hl) Hc Hall. eexists. cbn [run exec]. unfold exec_end.
  rewrite Hr, Hc, Hall. cbn. split; [reflexivity|]. unfold quiescent, unread. cbn.
  rewrite Hp, Hm, Hl. by repeat split.
Qed.

(** One round of the loop that takes a batch. *)
Definition after_batch (s : State) (batch : Batch) : State :=
  {| streams := streams s; stream_completed := stream_completed s; running := true;
     iteration := S (iteration s); pop_future := Idle; empty_future := Idle;
     sent := sent s ++ [Ok batch]; mailbox := []; batcher := (pop_batch (batcher s)).2;
     received := received s; lost := [] |}.

Lemma run_take_batch (s : State) batch :
  quiescent s -> (pop_batch (batcher s)).1 = Some batch ->
  run [PollPop; Actor; TakePop] s = Some (after_batch s batch) /\ quiescent (after_batch s batch).
Proof.
  intros (Hr & Hm & Hp & He & Hl) Hb. split; [|by repeat split].
  unfold after_batch. destruct (pop_batch (batcher s)) as [r b'] eqn:Ep. simpl in Hb. subst r.
  cbn [run exec]. unfold exec_poll_pop, has_room. rewrite Hp, Hr, Hm. simpl.
  unfold exec_actor. simpl. rewrite Ep, decide_True by done. simpl.
  unfold exec_take_pop. simpl. rewrite Hr. simpl. unfold next_iteration. simpl. by rewrite Hl.
Qed.

(** The last round, when the batcher is empty. *)
Lemma run_stop (s : State) :
  quiescent s -> stream_completed s = true ->
  (pop_batch (batcher s)).1 = None -> is_empty (pop_batch (batcher s)).2 = true ->
  exists s', run [PollPop; Actor; TakePop; PollEmpty; Actor; TakeEmpty] s = Some s' /\
    running s' = false /\ lost s' = [] /\ sent s' = sent s.
Proof.
  intros (Hr & Hm & Hp & He & Hl) Hc Hnone Hemp.
  destruct (pop_batch (batcher s)) as [r b'] eqn:Ep. simpl in Hnone, Hemp. subst r.
  eexists. cbn [run exec]. unfold exec_poll_pop, has_room. rewrite Hp, Hr, Hm. simpl.
  unfold exec_actor. simpl. rewrite Ep, decide_True by done. simpl.
  unfold exec_take_pop. simpl. rewrite Hr. simpl.
  unfold exec_poll_empty. simpl. rewrite He, Hr, Hc. simpl. rewrite decide_True by done. simpl.
  unfold exec_take_empty. simpl. rewrite Hr. simpl. split; [reflexivity|].
  simpl. rewrite Hemp, Hl. by repeat split.
Qed.

(** Taking every batch and asking whether the batcher is empty. *)
Lemma drain_all n fuel l (s : State) :
  quiescent s -> stream_completed s = true -> refines n (batcher s) l -> log_complete n l ->
  (length l <= fuel)%nat ->
  exists ls s', run ls s = Some s' /\ running s' = false /\ lost s' = [] /\
    sent s' = sent s ++ ((fun r => Ok (batch_of r.1 r.2)) <$> (log_drain n fuel l).1).
Proof.
  assert (Hstop : forall s : State, quiescent s -> stream_completed s = true ->
    refines n (batcher s) [] -> exists ls s', run ls s = Some s' /\ running s' = false /\
      lost s' = [] /\ sent s' = sent s).
  { intros s0 HQ Hc HR. eexists. apply run_stop; [done..| |].
    - by rewrite (refines_pop_result _ _ _ HR).
    - pose proof (refines_pop_state _ _ _ HR) as Hst. rewrite (refines_is_empty _ _ _ Hst).
      by apply bool_decide_eq_true_2. }
  revert s l; induction fuel as [|fuel IH]; intros s l HQ Hc HR HC Hlen.
  { destruct l; [|simpl in Hlen; lia]. simpl. rewrite app_nil_r. by apply Hstop. }
  destruct (log_least l) as [k|] eqn:El.
  - destruct (log_complete_pop _ _ _ HC El) as (Epop & HC' & Hne).
    pose proof (refines_pop_result _ _ _ HR) as Hres. pose proof (refines_pop_state _ _ _ HR) as Hst.
    rewrite Epop in Hres, Hst. simpl in Hres, Hst.
    destruct (run_take_batch s _ HQ Hres) as [Hrun HQ1].
    destruct (IH _ (log_remove k l) HQ1 Hc Hst HC') as (ls & s' & Hrun' & Hr' & Hl' & Hs').
    { pose proof (length_log_remove _ _ Hne). lia. }
    exists ([PollPop; Actor; TakePop] ++ ls), s'. rewrite run_app, Hrun. split; [exact Hrun'|].
    split; [done|]. split; [done|]. rewrite Hs'. simpl. rewrite Epop.
    destruct (log_drain n fuel (log_remove k l)) as [rs l2]. simpl. by rewrite <- app_assoc.
  - apply log_least_None in El as ->. simpl. rewrite app_nil_r. by apply Hstop.
Qed.
End schedules.

(** ** A batcher that never gets ready *)
Section blocked.
Context {SJ : SerdeJson} {B : Type} {DB : DetectionBatcher B}.
Notation State := (BatchStreamState (B := B)).

(** All streams have ended, every report is pushed, and the batcher neither
    has a batch nor is empty. *)
Record blocked (b : B) (s : State) : Prop := {
  bl_running : running s = true;
  bl_completed : stream_completed s = true;
  bl_batcher : batcher s = b;
  bl_pop : pop_batch b = (None, b);
  bl_empty : is_empty b = false;
  bl_pushes : pushes (mailbox s) = [];
  bl_told : empty_future s <> Answered true;
  bl_unread : unread s = []
}.

Lemma blocked_exec b l (s s' : State) :
  blocked b s -> exec l s = Some s' ->
  blocked b s' /\ sent s' = sent s /\ lost s' = lost s.
Proof.
  intros [Hr Hc Hb Hpop Hemp Hpu Ht Hu]. destruct l; simpl.
  - unfold exec_recv. by rewrite Hr, Hc.
  - unfold exec_end. by rewrite Hr, Hc.
  - unfold exec_poll_pop. destruct (pop_future s); try done. rewrite Hr. destruct (has_room s); [|done].
    intros [= <-]. simpl. rewrite app_nil_r. split; [|done]. split; simpl; try done.
    by rewrite pushes_app, Hpu.
  - unfold exec_take_pop. rewrite Hr. simpl. unfold unread in Hu.
    destruct (pop_future s) as [| |[|]|]; try done. intros [= <-]. simpl. rewrite app_nil_r. by repeat split.
  - intros (_ & _ & ->)%exec_poll_empty_inv. simpl. rewrite app_nil_r. split; [|done].
    split; simpl; try done. by rewrite pushes_app, Hpu.
  - unfold exec_take_empty. rewrite Hr. simpl. destruct (empty_future s) as [| |e|]; try done.
    intros [= <-]. simpl. rewrite Hu, app_nil_r. split; [|done]. split; simpl; try done.
    by destruct e.
  - unfold exec_actor. destruct (mailbox s) as [|[i c d|k|k] rest]; try done.
    + rewrite Hb, Hpop. destruct (decide _); intros [= <-]; simpl; rewrite app_nil_r; by repeat split.
    + destruct (decide _); intros [= <-]; simpl; rewrite app_nil_r; (split; [|done]); split; simpl; try done.
      rewrite Hb, Hemp. by intros [= ?].
Qed.
End blocked.

(** ** Properties *)
Section properties.
Context {SJ : SerdeJson} {B K : Type} {DB : DetectionBatcher B} `{OL : OrdLaws K}
  {BS : BatcherSpec B K}.
Notation item := (outcome OrchError Batch).

(** In every interleaving of the task and the batcher's actor, each
    detection of the streams is sent in at most one batch, or is in a batch
    that was dropped unread, or is still to come; nothing is duplicated or
    invented.  The stream ends either with an error, its last item, or, without
    one, only after every detection of every stream has been sent or dropped:
    the batcher never keeps anything behind. *)
Theorem batch_stream_conserves (n : Z) (dss : list (list item)) (ls : list label) s :
  run ls (batch_stream_init dss (batcher_new (B := B) n)) = Some s ->
  exists held,
    detections_of (items_of dss) ≡ₚ
      detections_of (ok_items (sent s)) ++ detections_of (lost s) ++ held /\
    (exists oks errors, sent s = oks ++ errors /\ Forall (fun i => is_ok i = true) oks /\
       (errors = [] \/ exists e, errors = [Err e]) /\
       (running s = false -> errors = [] -> held = [])).
Proof.
  intros H. destruct (stream_inv_run n _ _ _ _ _ (stream_inv_init n dss) H) as [l HI].
  exists (detections_of (unread s) ++ detections_of (pushes (mailbox s)) ++ log_held l
    ++ detections_of (items_of (streams s))). split.
  { rewrite (si_total _ _ _ _ HI), detections_of_app, (si_detections _ _ _ _ HI). solve_perm. }
  pose proof (si_sent _ _ _ _ HI) as Hs.
  assert (Hend : running s = false -> Forall (fun i => is_ok i = true) (sent s) ->
    detections_of (unread s) ++ detections_of (pushes (mailbox s)) ++ log_held l
      ++ detections_of (items_of (streams s)) = []).
  { intros Hr Hok. assert (Ht : told_empty s) by by right.
    destruct (si_told _ _ _ _ HI Ht) as [-> ->].
    rewrite (all_ended_items _ (si_ended _ _ _ _ HI (si_asked _ _ _ _ HI (or_intror Ht)))).
    unfold unread. by rewrite (si_stopped _ _ _ _ HI Hr). }
  assert (Hcases : Forall (fun i => is_ok i = true) (sent s) \/
    exists oks error, sent s = oks ++ [Err error] /\ Forall (fun i => is_ok i = true) oks).
  { destruct (running s); [by left|done]. }
  destruct Hcases as [Hok|(oks & e & -> & Hok)].
  - exists (sent s), []. rewrite app_nil_r. split; [done|]. split; [done|]. split; [by left|]. auto.
  - exists oks, [Err e]. split; [done|]. split; [done|]. split; [right; by eexists|done].
Qed.

(** A batch is lost only by abandoning a pop: in a run in which the task
    receives the next item, or believes the batcher empty, only while no
    request to pop is outstanding, nothing is dropped, and a stream that ends
    without an error has sent exactly the detections of its streams. *)
Theorem polite_batch_stream_lossless (n : Z) (dss : list (list item)) (ls : list label) s :
  run ls (batch_stream_init dss (batcher_new (B := B) n)) = Some s ->
  polite_run ls (batch_stream_init dss (batcher_new (B := B) n)) = true ->
  lost s = [] /\
  (running s = false -> Forall (fun i => is_ok i = true) (sent s) ->
   detections_of (items_of dss) ≡ₚ detections_of (ok_items (sent s))).
Proof.
  intros H Hp. assert (Hl : lost s = []) by (by eapply lossless_run; [|exact Hp|exact H]).
  split; [done|]. intros Hr Hok.
  destruct (stream_inv_run n _ _ _ _ _ (stream_inv_init n dss) H) as [l HI].
  assert (Ht : told_empty s) by by right. destruct (si_told _ _ _ _ HI Ht) as [-> Hpu].
  rewrite (si_total _ _ _ _ HI), detections_of_app, (si_detections _ _ _ _ HI), Hl, Hpu.
  rewrite (all_ended_items _ (si_ended _ _ _ _ HI (si_asked _ _ _ _ HI (or_intror Ht)))).
  unfold unread. rewrite (si_stopped _ _ _ _ HI Hr).
  change (log_held []) with (@nil Detection). simpl. solve_perm.
Qed.

Lemma batch_stream_delivers_at (n : Z) (dss : list (list item)) :
  let entries := (fun p => (group_key (B := B) p.1.1 p.1.2, p.2)) <$> items_of dss in
  all_ok dss -> log_complete n entries ->
  exists ls s rs, run ls (batch_stream_init dss (batcher_new (B := B) n)) = Some s /\
    running s = false /\ lost s = [] /\
    sent s = (fun r => Ok (batch_of (B := B) r.1 r.2)) <$> rs /\
    StronglySorted (fun r r' => cmp r.1 r'.1 = Lt) rs /\
    (forall e, e ∈ entries -> exists r, r ∈ rs /\ key_eq e.1 r.1) /\
    (forall r, r ∈ rs -> (exists d, (r.1, d) ∈ entries) /\ r.2 ≡ₚ log_held (log_entries r.1 entries)).
Proof.
  intros entries Hok HC.
  destruct (receive_all (length (items_of dss)) (batch_stream_init dss (batcher_new (B := B) n)))
    as (ls1 & s1 & order & Hrun1 & HQ1 & Hc1 & Hall1 & Hs1 & Hord & Hb1); [by repeat split|done..|].
  simpl in Hs1, Hord, Hb1.
  set (l := (fun p => (group_key (B := B) p.1.1 p.1.2, p.2)) <$> order).
  assert (HP : l ≡ₚ entries) by (unfold l, entries; by rewrite Hord).
  assert (HR : refines n (batcher s1) l).
  { rewrite Hb1. exact (refines_pushes n _ [] order (refines_new n)). }
  assert (HE : forall k, log_entries k l ≡ₚ log_entries k entries).
  { intros k. unfold log_entries. by rewrite HP. }
  assert (HC' : log_complete n l).
  { intros e He. rewrite HP in He. rewrite (Permutation_length (HE e.1)). by apply HC. }
  destruct (run_end s1 HQ1 Hc1 Hall1) as (s2 & Hrun2 & HQ2 & Hc2 & Hs2 & Hb2). rewrite <- Hb2 in HR.
  destruct (drain_all n (length l) l s2 HQ2 Hc2 HR HC' ltac:(done))
    as (ls3 & s3 & Hrun3 & Hr3 & Hl3 & Hs3).
  destruct (log_drain_complete n l (length l) HC' ltac:(done)) as (_ & Hsorted & Hds & Hkeys).
  exists (ls1 ++ [End_] ++ ls3), s3, (log_drain n (length l) l).1.
  split; [by rewrite run_app, Hrun1; cbn [mbind option_bind]; rewrite run_app, Hrun2|].
  split; [done|]. split; [done|]. split; [by rewrite Hs3, Hs2, Hs1|]. split; [done|]. split.
  - intros e He. rewrite <- HP in He. by apply Hkeys.
  - intros r Hr. rewrite Forall_forall in Hds. destruct (Hds r Hr) as [-> [d Hd]].
    split; [exists d; by rewrite <- HP|]. unfold log_held. by rewrite HE.
Qed.

(** When every group of the streams has a report from each of the [n]
    detectors, the task can always finish: there is a schedule in which the
    stream ends without an error, nothing is lost, and the batches are sent
    one for each group, in strictly increasing order of the groups, each with
    all the detections of its group. *)
Theorem batch_stream_delivers (n : Z) (dss : list (list item)) :
  let entries := (fun p => (group_key (B := B) p.1.1 p.1.2, p.2)) <$> items_of dss in
  all_ok dss -> log_complete n entries ->
  exists ls s rs, run ls (batch_stream_init dss (batcher_new (B := B) n)) = Some s /\
    running s = false /\ lost s = [] /\
    sent s = (fun r => Ok (batch_of (B := B) r.1 r.2)) <$> rs /\
    StronglySorted (fun r r' => cmp r.1 r'.1 = Lt) rs /\
    (forall e, e ∈ entries -> exists r, r ∈ rs /\ key_eq e.1 r.1) /\
    (forall r, r ∈ rs -> (exists d, (r.1, d) ∈ entries) /\ r.2 ≡ₚ log_held (log_entries r.1 entries)).
Proof. apply batch_stream_delivers_at. Qed.

(** A batcher that still holds a group which will never have all its
    reports keeps the task spinning: once the streams have ended, no
    interleaving ends it or sends anything more, so that the reader of the
    batch stream waits for ever. *)
Theorem blocked_batcher_never_ends b (s s' : BatchStreamState (B := B)) (ls : list label) :
  blocked b s -> run ls s = Some s' ->
  running s' = true /\ sent s' = sent s /\ lost s' = lost s.
Proof.
  revert s. induction ls as [|l ls IH]; intros s HB; simpl.
  - intros [= <-]. split; [apply HB|done].
  - destruct (exec l s) as [s1|] eqn:E; [|done]. simpl. intros Hrun.
    destruct (blocked_exec _ _ _ _ HB E) as (HB1 & <- & <-). by apply IH.
Qed.
End properties.

(** ** Losing a batch *)
Section losing.
Context {SJ : SerdeJson}.

Definition ex_report (start : Z) (kind : string) : outcome OrchError Batch :=
  Ok (0, {| input_start_index := 0; input_end_index := 0; chunk_start := start;
            chunk_end := start + 5; chunk_text := "" |},
      [{| det_start := Some start; det_end := Some (start + 5); det_text := None;
          det_detector_id := Some kind; det_detection_type := ""; det_detection := "";
          det_score := f64_zero; det_evidence := []; det_metadata := ∅ |}]).
(** Two detectors on two chunks. *)
Definition ex_streams : list (list (outcome OrchError Batch)) :=
  [ [ex_report 0 "hap"; ex_report 6 "hap"]; [ex_report 0 "pii"; ex_report 6 "pii"] ].

(** The actor answers the pop with the batch of the first chunk, and a report
    on the second chunk arrives before the task is polled again. *)
Definition losing_run : list label :=
  [Recv 0; Recv 1; PollPop; Actor; Actor; Actor; Recv 0; Recv 1; End_;
   PollPop; Actor; Actor; Actor; TakePop;
   PollPop; Actor; TakePop; PollEmpty; Actor; TakeEmpty].

(** C16. A batch can be lost: there are two streams that report on every chunk
    and a run in which the batch stream ends normally without the batch of the
    first chunk, because the pop that returned it was dropped when another
    report arrived. *)
Theorem batch_stream_may_lose :
  exists dss out, all_ok dss /\
    log_complete (K := Chunk * Z) 2 ((fun p => ((p.1.2, p.1.1), p.2)) <$> items_of dss) /\
    batch_stream_yields dss (completion_batcher_new 2) out /\
    Forall (fun i => is_ok i = true) out /\
    ~ detections_of (items_of dss) ≡ₚ detections_of (ok_items out).
Proof.
  exists ex_streams.
  destruct (run losing_run (batch_stream_init ex_streams (completion_batcher_new 2))) as [s|] eqn:E;
    [|by vm_compute in E].
  exists (sent s). vm_compute in E. injection E as <-. split; [|split; [|split; [|split]]].
  - vm_compute. repeat constructor.
  - intros e He. vm_compute in He.
    repeat (apply elem_of_cons in He as [->|He]; [vm_compute; reflexivity|]).
    by apply elem_of_nil in He.
  - exists losing_run. eexists. split; [vm_compute; reflexivity|]. split; vm_compute; reflexivity.
  - vm_compute. repeat constructor.
  - intros HP%Permutation_length. by vm_compute in HP.
Qed.
End losing.

(** ** Witnesses *)
Section witnesses.
#[local] Existing Instance simple_json.

Definition ex_lost : option (BatchStreamState (B := CompletionBatcher)) :=
  run losing_run (batch_stream_init ex_streams (completion_batcher_new 2)).

Lemma batch_stream_conserves_witness :
  exists s held, ex_lost = Some s /\ length (lost s) = 1%nat /\
    detections_of (items_of ex_streams) ≡ₚ
      detections_of (ok_items (sent s)) ++ detections_of (lost s) ++ held.
Proof.
  destruct ex_lost as [s|] eqn:E; [|by vm_compute in E].
  assert (E' : run losing_run (batch_stream_init ex_streams (batcher_new (B := CompletionBatcher) 2))
    = Some s) by (rewrite <- E; vm_compute; reflexivity).
  destruct (batch_stream_conserves (B := CompletionBatcher) 2 ex_streams losing_run s E')
    as (held & HP & _).
  exists s, held. split; [reflexivity|]. split; [|exact HP].
  vm_compute in E. injection E as <-. vm_compute. reflexivity.
Defined.

Definition polite_labels : list label :=
  [Recv 0; Recv 1; PollPop; Actor; Actor; Actor; TakePop; Recv 0; Recv 1; End_;
   PollPop; Actor; Actor; Actor; TakePop;
   PollPop; Actor; TakePop; PollEmpty; Actor; TakeEmpty].

Lemma polite_batch_stream_lossless_witness :
  exists s, run polite_labels (batch_stream_init ex_streams (batcher_new (B := CompletionBatcher) 2)) = Some s /\
    lost s = [] /\ detections_of (items_of ex_streams) ≡ₚ detections_of (ok_items (sent s)).
Proof.
  destruct (run polite_labels (batch_stream_init ex_streams (batcher_new (B := CompletionBatcher) 2)))
    as [s|] eqn:E; [|by vm_compute in E].
  destruct (polite_batch_stream_lossless (B := CompletionBatcher) 2 ex_streams polite_labels s E)
    as [H1 H2]; [vm_compute; reflexivity|].
  exists s. split; [reflexivity|]. split; [exact H1|].
  vm_compute in E. injection E as <-. apply H2; [reflexivity|vm_compute; repeat constructor].
Defined.

Lemma batch_stream_delivers_witness :
  exists ls s, run ls (batch_stream_init ex_streams (batcher_new (B := CompletionBatcher) 2)) = Some s /\
    running s = false /\ lost s = [].
Proof.
  assert (Hok : all_ok ex_streams) by (vm_compute; repeat constructor).
  assert (HC : log_complete (K := Chunk * Z) 2 ((fun p => (group_key (B := CompletionBatcher)
    p.1.1 p.1.2, p.2)) <$> items_of ex_streams)).
  { intros e He. vm_compute in He.
    repeat (apply elem_of_cons in He as [->|He]; [vm_compute; reflexivity|]).
    by apply elem_of_nil in He. }
  pose proof (batch_stream_delivers (B := CompletionBatcher) (K := Chunk * Z) 2 ex_streams Hok HC)
    as (ls & s & rs & H1 & H2 & H3 & _).
  exists ls, s. split; [exact H1|]. split; [exact H2|exact H3].
Defined.

(** Three detectors were expected but only two report. *)
Definition ex_stuck : option (BatchStreamState (B := CompletionBatcher)) :=
  run [Recv 0; Recv 1; Recv 0; Recv 1; End_; Actor; Actor; Actor; Actor]
    (batch_stream_init ex_streams (completion_batcher_new 3)).

Lemma blocked_batcher_never_ends_witness :
  exists s, ex_stuck = Some s /\
    forall ls s', run ls s = Some s' -> running s' = true /\ sent s' = sent s /\ lost s' = lost s.
Proof.
  destruct ex_stuck as [s|] eqn:E; [|by vm_compute in E].
  exists s. split; [reflexivity|]. intros ls s' H.
  apply (blocked_batcher_never_ends (batcher s) s s' ls); [|exact H].
  vm_compute in E. injection E as <-. split; try reflexivity. discriminate.
Defined.
End witnesses.
