(* ===== verification/BatchGroups.v ===== *)
(** * The batches of a batch stream

    What each batch that leaves the batch stream consists of, in every
    interleaving: the reports of exactly as many detectors as the batcher
    expects, all on the same chunk (of the same choice).  As a consequence a
    batch stream whose chunks are not all reported that many times never ends
    normally - which is what happens when the detectors of a request use
    different chunkers, or when one of them falls behind. *)
From AAC_tactics Require Import AAC.
From AAC_tactics Require Instances.
From S2P Require Import Prelude Collections External Errors Detection Chunk Batcher BatchStream.
Import Instances.Lists.
#[local] Open Scope string_scope.
#[local] Open Scope list_scope.
#[local] Open Scope Z_scope.

Section groups.
Context {SJ : SerdeJson} {B K : Type} {DB : DetectionBatcher B} `{OL : OrdLaws K}
  {BS : BatcherSpec B K}.
Notation item := (outcome OrchError Batch).
Notation State := (BatchStreamState (B := B)).

(** Reports as the entries of the batcher's log. *)
Definition entries (l : list Batch) : log K := (fun p => (group_key (B := B) p.1.1 p.1.2, p.2)) <$> l.

(** A group of [n] reports on the same key, which is the key of one of them. *)
Definition full_group (n : Z) (g : K * log K) : Prop :=
  Z.of_nat (length g.2) = n /\ Forall (fun e => cmp e.1 g.1 = Eq) g.2 /\ exists d, (g.1, d) ∈ g.2.

(** The batch made of a group. *)
Definition group_batch (g : K * log K) : Batch := batch_of (B := B) g.1 (log_held g.2).

(** The reports of groups. *)
Definition group_reports (gs : list (K * log K)) : log K := mjoin gs.*2.

Record groups_inv (n : Z) (total : list Batch) (l : log K) (gs : list (K * log K)) (s : State)
    : Prop := {
  gi_log : refines n (batcher s) l;
  gi_total : total ≡ₚ received s ++ items_of (streams s);
  gi_reports : entries (received s) ≡ₚ entries (pushes (mailbox s)) ++ l ++ group_reports gs;
  gi_groups : Forall (full_group n) gs;
  gi_batches : ok_items (sent s) ++ lost s ++ unread s ≡ₚ group_batch <$> gs
}.

Lemma entries_app l1 l2 : entries (l1 ++ l2) = entries l1 ++ entries l2.
Proof. apply fmap_app. Qed.

#[export] Instance entries_proper : Proper ((≡ₚ) ==> (≡ₚ)) entries.
Proof. intros l l' H. unfold entries. by rewrite H. Qed.

Lemma group_reports_app gs gs' : group_reports (gs ++ gs') = group_reports gs ++ group_reports gs'.
Proof. unfold group_reports. by rewrite fmap_app, join_app. Qed.

Lemma groups_inv_init n dss :
  groups_inv n (items_of dss) [] [] (batch_stream_init dss (batcher_new (B := B) n)).
Proof. split; simpl; try done. apply refines_new. Qed.

(** What [pop] takes out of the log is a full group. *)
Lemma log_pop_group n (l : log K) :
  (log_pop n l = (None, l)) \/
  (exists k, log_pop n l = (Some (k, log_held (log_entries k l)), log_remove k l) /\
     full_group n (k, log_entries k l) /\ l ≡ₚ log_remove k l ++ log_entries k l).
Proof.
  unfold log_pop. destruct (log_least l) as [k|] eqn:Ek; [|by left].
  destruct (Z.eqb_spec (Z.of_nat (length (log_entries k l))) n) as [E|]; [right|by left].
  exists k. split; [done|]. split.
  - split; [done|]. split.
    + simpl. apply Forall_forall. intros e [? _]%list_elem_of_filter. done.
    + destruct (log_least_elem _ _ Ek) as [d Hd]. exists d. simpl.
      apply list_elem_of_filter. split; [apply cmp_refl|done].
  - clear Ek. unfold log_remove, log_entries. clear E. induction l as [|e l IH]; [done|].
    rewrite !filter_cons. destruct (decide (cmp e.1 k = Eq)) as [E|N].
    + rewrite decide_False by tauto. rewrite IH at 1. by rewrite Permutation_middle.
    + rewrite decide_True by done. simpl. by rewrite IH at 1.
Qed.

(** The moves that neither receive an item nor let the actor run leave the
    reports where they are. *)
Definition unmoved (s s' : State) : Prop :=
  batcher s' = batcher s /\ received s' = received s /\ streams s' = streams s /\
  pushes (mailbox s') = pushes (mailbox s) /\
  ok_items (sent s') ++ lost s' ++ unread s' ≡ₚ ok_items (sent s) ++ lost s ++ unread s.

Lemma groups_inv_unmoved n total l gs s s' :
  unmoved s s' -> groups_inv n total l gs s -> groups_inv n total l gs s'.
Proof.
  intros (Eb & Er & Es & Ep & Ei) []. split; rewrite ?Eb, ?Er, ?Es, ?Ep; try done.
  by rewrite Ei.
Qed.

Lemma exec_unmoved lab s s' :
  match lab with Recv _ | Actor => False | _ => True end ->
  exec lab s = Some s' -> unmoved s s'.
Proof.
  intros Hl. destruct lab; try done; simpl; clear Hl.
  - unfold exec_end. destruct (_ && _ && _); [|done]. intros [= <-].
    repeat split; try done. unfold unread at 1; simpl. by rewrite app_nil_r.
  - unfold exec_poll_pop. destruct (pop_future s) eqn:Ep; try done.
    destruct (_ && _); [|done]. intros [= <-]. unfold unmoved, unread, within; simpl.
    rewrite Ep, pushes_app, !app_nil_r. done.
  - unfold exec_take_pop. destruct (negb _); [done|].
    destruct (pop_future s) as [| |[b|]|] eqn:Ep; try done; intros [= <-];
      unfold unmoved, unread, within, next_iteration; simpl; rewrite Ep, ?app_nil_r; try done.
    repeat split. rewrite ok_items_app. simpl. rewrite <- !app_assoc.
    apply Permutation_app_head, Permutation_app_comm.
  - intros (_ & _ & ->)%exec_poll_empty_inv. unfold unmoved, unread, within; simpl.
    by rewrite pushes_app, !app_nil_r.
  - unfold exec_take_empty. destruct (negb _); [done|]. destruct (empty_future s); try done.
    intros [= <-]. unfold unmoved, unread, next_iteration; simpl. by rewrite app_nil_r.
Qed.

Lemma groups_inv_recv n total l gs i s s' :
  exec_recv s i = Some s' -> groups_inv n total l gs s -> groups_inv n total l gs s'.
Proof.
  unfold exec_recv. destruct (_ || _); [done|].
  destruct (streams s !! i : option (list item)) as [[|[[[id c] d]|e|] rest]|] eqn:Hi; try done;
    pose proof (items_of_insert _ _ _ _ Hi) as HP; simpl in HP.
  - destruct (has_room s); [|done]. intros [= <-] []. split; simpl; try done.
    + by rewrite gi_total0, HP, <- app_assoc.
    + rewrite entries_app, pushes_app, entries_app, gi_reports0.
      change (pushes [Push id c d]) with [(id, c, d)]. solve_perm.
    + rewrite app_nil_r. by rewrite <- gi_batches0.
  - intros [= <-] []. split; simpl; try done.
    + by rewrite gi_total0, HP.
    + rewrite ok_items_app. simpl. rewrite !app_nil_r. by rewrite <- gi_batches0.
Qed.

Lemma groups_inv_actor n total l0 l gs s s' :
  stream_inv n total l0 s -> exec_actor s = Some s' -> groups_inv n total l gs s ->
  exists l' gs', groups_inv n total l' gs' s'.
Proof.
  intros HS. pose proof (si_pops _ _ _ _ HS) as Hpops.
  unfold exec_actor. destruct (mailbox s) as [|[id c d|k|k] rest] eqn:Em; [done|..].
  - intros [= <-] []. rewrite Em in gi_reports0. exists (log_push (group_key (B := B) id c) d l), gs.
    split; simpl; try done.
    + by apply refines_push.
    + rewrite gi_reports0. change (pushes (Push id c d :: rest)) with ([(id, c, d)] ++ pushes rest).
      rewrite entries_app. change (entries [(id, c, d)]) with [(group_key (B := B) id c, d)].
      unfold log_push. solve_perm.
    + by rewrite app_nil_r.
  - intros H []. rewrite Em in gi_reports0. simpl in gi_reports0.
    pose proof (refines_pop_result _ _ _ gi_log0) as Hres.
    pose proof (refines_pop_state _ _ _ gi_log0) as Hst.
    destruct (pop_batch (batcher s)) as [r b'] eqn:Ep. simpl in Hres, Hst.
    assert (Hun : forall s1 : State, batcher s1 = b' -> received s1 = received s ->
      streams s1 = streams s -> mailbox s1 = rest ->
      ok_items (sent s1) ++ lost s1 ++ unread s1 ≡ₚ
        ok_items (sent s) ++ lost s ++ unread s ++ option_list r ->
      exists l' gs', groups_inv n total l' gs' s1).
    { intros s1 E1 E2 E3 E4 E5.
      destruct (log_pop_group n l) as [El|(key & El & Hg & HP)]; rewrite El in Hres, Hst;
        simpl in Hres, Hst; subst r.
      - exists l, gs. split; rewrite ?E1, ?E2, ?E3, ?E4; try done.
        rewrite E5, <- gi_batches0. simpl. by rewrite app_nil_r.
      - exists (log_remove key l), (gs ++ [(key, log_entries key l)]).
        split; rewrite ?E1, ?E2, ?E3, ?E4; try done.
        + rewrite gi_reports0, group_reports_app, HP at 1.
          assert (E : group_reports [(key, log_entries key l)] = log_entries key l) by apply app_nil_r.
          rewrite E. solve_perm.
        + apply Forall_app. split; [done|by constructor].
        + rewrite E5, fmap_app, <- gi_batches0. unfold group_batch. simpl. solve_perm. }
    destruct (decide (k = iteration s)) as [->|]; injection H as <-; apply Hun; try done;
      unfold within, unread; simpl; [|solve_perm].
    simpl in Hpops. rewrite filter_cons_True in Hpops by done.
    destruct (pop_future s); try done. rewrite !app_nil_r. by destruct r.
  - intros H HI. exists l, gs. eapply groups_inv_unmoved; [|exact HI].
    destruct (decide (k = iteration s)); injection H as <-; unfold unmoved, within, unread; simpl;
      rewrite Em, app_nil_r; done.
Qed.

Lemma groups_inv_exec n total l0 l gs lab s s' :
  stream_inv n total l0 s -> exec lab s = Some s' -> groups_inv n total l gs s ->
  exists l' gs', groups_inv n total l' gs' s'.
Proof.
  intros HS HE HI. destruct lab.
  2-6: exists l, gs; by eapply groups_inv_unmoved; [eapply exec_unmoved, HE|].
  - exists l, gs. by eapply groups_inv_recv.
  - by eapply groups_inv_actor.
Qed.

Lemma groups_inv_run n total ls l0 l gs s s' :
  stream_inv n total l0 s -> groups_inv n total l gs s -> run ls s = Some s' ->
  exists l0' l' gs', stream_inv n total l0' s' /\ groups_inv n total l' gs' s'.
Proof.
  revert l0 l gs s; induction ls as [|lab ls IH]; intros l0 l gs s HS HI; simpl.
  { intros [= <-]. by exists l0, l, gs. }
  destruct (exec lab s) as [s1|] eqn:E; [|done]. simpl. intros Hrun.
  destruct (groups_inv_exec _ _ _ _ _ _ _ _ HS E HI) as (l1 & gs1 & HI1).
  assert (Hrun1 : run [lab] s = Some s1) by (simpl; by rewrite E).
  destruct (stream_inv_run _ _ _ _ _ _ HS Hrun1) as [l2 HS1]. by eapply IH.
Qed.

(** The number of reports on a key in full groups. *)
Lemma full_groups_count n gs k :
  Forall (full_group n) gs -> (n | Z.of_nat (length (log_entries k (group_reports gs)))).
Proof.
  induction 1 as [|[k' es] gs (Hlen & Hk & _) _ IH]; [by exists 0|]. simpl in *.
  change (group_reports ((k', es) :: gs)) with (es ++ group_reports gs).
  unfold log_entries in *. rewrite filter_app, length_app, Nat2Z.inj_add.
  apply Z.divide_add_r; [|done].
  destruct (decide (cmp k' k = Eq)) as [E|N].
  - rewrite (filter_all _ es); [by rewrite Hlen|].
    eapply Forall_impl; [exact Hk|]. intros e He. simpl in He. by rewrite (cmp_eq_l _ _ k He).
  - rewrite (filter_none _ es); [by exists 0|].
    eapply Forall_impl; [exact Hk|]. intros e He. simpl in He. by rewrite (cmp_eq_l _ _ k He).
Qed.
End groups.

(** ** Properties *)
Section properties.
Context {SJ : SerdeJson} {B K : Type} {DB : DetectionBatcher B} `{OL : OrdLaws K}
  {BS : BatcherSpec B K}.
Notation item := (outcome OrchError Batch).

Lemma batch_stream_groups_at (n : Z) (dss : list (list item)) ls s :
  run ls (batch_stream_init dss (batcher_new (B := B) n)) = Some s ->
  exists gs rest,
    entries (items_of dss) ≡ₚ group_reports gs ++ rest /\ Forall (full_group n) gs /\
    ok_items (sent s) ++ lost s ++ unread s ≡ₚ group_batch <$> gs /\
    (running s = false -> Forall (fun i => is_ok i = true) (sent s) -> rest = []).
Proof.
  intros H. destruct (groups_inv_run n _ ls _ _ _ _ s (stream_inv_init n dss)
    (groups_inv_init n dss) H) as (l0 & l & gs & HS & HI).
  exists gs, (entries (pushes (mailbox s)) ++ l ++ entries (items_of (streams s))).
  split.
  { rewrite (gi_total _ _ _ _ _ HI), entries_app, (gi_reports _ _ _ _ _ HI). solve_perm. }
  split; [apply HI|]. split; [apply HI|]. intros Hr Hok.
  assert (Ht : told_empty s) by by right. destruct (si_told _ _ _ _ HS Ht) as [-> ->].
  rewrite (all_ended_items _ (si_ended _ _ _ _ HS (si_asked _ _ _ _ HS (or_intror Ht)))).
  simpl. rewrite app_nil_r.
  pose proof (refines_is_empty _ _ _ (gi_log _ _ _ _ _ HI)) as E1.
  rewrite (refines_is_empty _ _ _ (si_log _ _ _ _ HS)), bool_decide_eq_true_2 in E1 by done.
  symmetry in E1. by apply bool_decide_eq_true in E1.
Qed.

(** A stream that never reports twice on a chunk (of a choice). *)
Definition reports_once (stream : list item) : Prop :=
  forall k, (length (log_entries k (entries (B := B) (ok_items stream))) <= 1)%nat.

Lemma log_entries_app k (l1 l2 : log K) : log_entries k (l1 ++ l2) = log_entries k l1 ++ log_entries k l2.
Proof. apply filter_app. Qed.

Lemma log_entries_streams k (dss : list (list item)) :
  log_entries k (entries (B := B) (items_of dss)) =
  mjoin ((fun stream => log_entries k (entries (B := B) (ok_items stream))) <$> dss).
Proof.
  induction dss as [|stream dss IH]; [done|].
  change (items_of (stream :: dss)) with (ok_items stream ++ items_of dss).
  rewrite entries_app, log_entries_app, IH. done.
Qed.

(** Lists of at most one element that have as many elements as there are lists
    have one each. *)
Lemma join_le_ones {A} (ls : list (list A)) :
  Forall (fun l => length l <= 1)%nat ls -> (length (mjoin ls) <= length ls)%nat.
Proof.
  induction 1 as [|l ls Hl _ IH]; [done|]. change (mjoin (l :: ls)) with (l ++ mjoin ls).
  rewrite length_app. simpl. lia.
Qed.

Lemma join_ones {A} (ls : list (list A)) :
  Forall (fun l => length l <= 1)%nat ls -> (length ls <= length (mjoin ls))%nat ->
  Forall2 (fun l e => l = [e]) ls (mjoin ls).
Proof.
  induction 1 as [|l ls Hl H IH]; [constructor|]. pose proof (join_le_ones _ H).
  change (mjoin (l :: ls)) with (l ++ mjoin ls). rewrite length_app. cbn [length]. intros Hlen.
  destruct l as [|e [|]]; cbn [length] in *; try lia. constructor; [done|]. apply IH. lia.
Qed.

(** With one report of each of [n] streams at most on a chunk, a full group
    takes one of every stream. *)
Lemma full_group_one_each n (dss : list (list item)) gs rest g :
  entries (B := B) (items_of dss) ≡ₚ group_reports gs ++ rest -> Forall (full_group n) gs -> g ∈ gs ->
  n = Z.of_nat (length dss) -> Forall reports_once dss ->
  exists es, g.2 ≡ₚ es /\
    Forall2 (fun stream e => log_entries g.1 (entries (B := B) (ok_items stream)) = [e]) dss es.
Proof.
  intros HP HG Hg Hn Hone. rewrite Forall_forall in HG. destruct (HG g Hg) as (Hlen & Hk & _).
  set (l := log_entries g.1 (entries (B := B) (items_of dss))).
  assert (Hsub : g.2 ⊆+ l).
  { apply elem_of_Permutation in Hg as [gs' Hgs]. unfold l, log_entries. rewrite HP.
    unfold group_reports. rewrite Hgs. simpl. rewrite !filter_app.
    rewrite (filter_all _ g.2).
    - rewrite <- (app_assoc g.2). apply submseteq_inserts_r. done.
    - eapply Forall_impl; [exact Hk|]. intros e He. exact He. }
  assert (Hl : l = mjoin ((fun stream => log_entries g.1 (entries (B := B) (ok_items stream))) <$> dss))
    by apply log_entries_streams.
  assert (Hj := join_ones ((fun stream => log_entries g.1 (entries (B := B) (ok_items stream))) <$> dss)).
  rewrite <- Hl, length_fmap in Hj. apply submseteq_length in Hsub as Hle.
  assert (H2 := Hj ltac:(apply Forall_fmap; eapply Forall_impl; [exact Hone|]; intros st H; apply H) ltac:(lia)).
  exists l. split.
  - apply submseteq_length_Permutation; [done|]. apply Forall2_length in H2. rewrite length_fmap in H2. lia.
  - by apply Forall2_fmap_l in H2.
Qed.

(** C14. In every interleaving, every batch that has been sent, dropped or is
    being handed over is made of exactly [n] reports, all on the batch's own
    chunk (and choice), no report is in two batches, and a stream that has ended
    without an error has used every report of every detector in some batch. When
    [n] is the number of detectors and none of them reports twice on a chunk,
    a batch is made of one report of each detector, the only one it has on that
    chunk. *)
Theorem batch_stream_groups (n : Z) (dss : list (list item)) (ls : list label) s :
  run ls (batch_stream_init dss (batcher_new (B := B) n)) = Some s ->
  exists gs rest,
    entries (items_of dss) ≡ₚ group_reports gs ++ rest /\ Forall (full_group n) gs /\
    ok_items (sent s) ++ lost s ++ unread s ≡ₚ group_batch <$> gs /\
    (running s = false -> Forall (fun i => is_ok i = true) (sent s) -> rest = []) /\
    (n = Z.of_nat (length dss) -> Forall reports_once dss -> forall g, g ∈ gs ->
       exists es, g.2 ≡ₚ es /\
         Forall2 (fun stream e => log_entries g.1 (entries (B := B) (ok_items stream)) = [e]) dss es).
Proof.
  intros H. destruct (batch_stream_groups_at n dss ls s H) as (gs & rest & HP & HG & Hs & Hend).
  exists gs, rest. do 4 (split; [done|]). intros. by eapply full_group_one_each.
Qed.

(** C15. When the number of reports on some chunk is not a multiple of the
    number of detectors - a detector that uses another chunker, or that has
    lost track of the chunks, does not report on it - the batch stream never
    ends normally: whatever the schedule, the task either is still running or
    has sent an error of one of the streams. *)
Theorem unmatched_reports_never_end (n : Z) (dss : list (list item)) (k : K) (ls : list label) s :
  ~ (n | Z.of_nat (length (log_entries k (entries (items_of dss))))) ->
  run ls (batch_stream_init dss (batcher_new (B := B) n)) = Some s ->
  running s = true \/ exists e, Err e ∈ sent s.
Proof.
  intros Hk H. destruct (running s) eqn:Hr; [by left|right].
  destruct (batch_stream_groups_at n dss ls s H) as (gs & rest & HP & HG & _ & Hend).
  destruct (stream_inv_run n _ _ _ _ _ (stream_inv_init n dss) H) as [l HS].
  pose proof (si_sent _ _ _ _ HS) as Hs. rewrite Hr in Hs.
  destruct Hs as [Hok|(oks & e & -> & _)]; [|exists e; set_solver].
  exfalso. apply Hk. rewrite (Hend Hr Hok), app_nil_r in HP.
  unfold log_entries at 1. rewrite HP. by apply full_groups_count.
Qed.
End properties.

(** ** Delivery of a plan

    When the reports on a set of chunks are complete - every one of the
    functions [fs] reports on every chunk of the plan - the stream can deliver
    them all, in the order of the batcher's keys. *)
Section delivery.
Context {SJ : SerdeJson} {B K : Type} {DB : DetectionBatcher B} `{OL : OrdLaws K}
  {BS : BatcherSpec B K}.
Notation item := (outcome OrchError Batch).

Definition plan_key (p : Z * Chunk) : K := group_key (B := B) p.1 p.2.

(** The reports of the detectors [fs] on a chunk, and on all of the plan. *)
Definition reports_on (fs : list (Z * Chunk -> list Detection)) (p : Z * Chunk) : list Batch :=
  (fun f => (p.1, p.2, f p)) <$> fs.
Definition planned (fs : list (Z * Chunk -> list Detection)) (plan : list (Z * Chunk)) : list Batch :=
  plan ≫= reports_on fs.

(** The batch on a chunk: the detections of all detectors, in some order. *)
Definition delivers (fs : list (Z * Chunk -> list Detection)) (p : Z * Chunk) (o : item) : Prop :=
  exists ds, o = Ok (p.1, p.2, ds) /\ ds ≡ₚ fs ≫= (fun f => f p).

Record plan_ok (plan : list (Z * Chunk)) : Prop := {
  plan_nodup : NoDup plan;
  plan_keys : forall p q, p ∈ plan -> q ∈ plan -> cmp (plan_key p) (plan_key q) = Eq -> p = q;
  plan_batch : forall p ds, p ∈ plan -> batch_of (B := B) (plan_key p) ds = (p.1, p.2, ds)
}.

Lemma log_entries_reports fs p k :
  log_entries k (entries (B := B) (reports_on fs p)) =
  if decide (cmp (plan_key p) k = Eq) then (fun f => (plan_key p, f p)) <$> fs else [].
Proof.
  unfold entries, reports_on. rewrite <- list_fmap_compose.
  change ((_ ∘ _) <$> fs) with ((fun f : Z * Chunk -> list Detection => (plan_key p, f p)) <$> fs).
  unfold log_entries. destruct (decide _) as [E|N].
  - apply filter_all, Forall_fmap, Forall_true. by intros.
  - apply filter_none, Forall_fmap, Forall_true. by intros.
Qed.

(** The reports on one key are those of the one chunk of the plan that has it. *)
Lemma log_entries_planned fs plan p :
  plan_ok plan -> p ∈ plan ->
  log_entries (plan_key p) (entries (B := B) (planned fs plan)) = (fun f => (plan_key p, f p)) <$> fs.
Proof.
  intros [Hnd Hk _] Hp. unfold planned.
  assert (Hgen : forall l, NoDup l -> l ⊆ plan ->
    log_entries (plan_key p) (entries (B := B) (l ≫= reports_on fs)) =
    if decide (p ∈ l) then (fun f => (plan_key p, f p)) <$> fs else []).
  { induction 1 as [|q l Hq _ IH]; intros Hl; [done|]. rewrite bind_cons, entries_app.
    unfold log_entries. rewrite filter_app.
    fold (log_entries (plan_key p) (entries (B := B) (reports_on fs q))).
    fold (log_entries (plan_key p) (entries (B := B) (l ≫= reports_on fs))).
    rewrite IH by set_solver. rewrite log_entries_reports.
    destruct (decide (p = q)) as [->|N].
    - rewrite decide_True by apply cmp_refl. rewrite decide_False by done.
      rewrite decide_True by left. by rewrite app_nil_r.
    - rewrite decide_False.
      + simpl. destruct (decide (p ∈ l)) as [Hin|Hin].
        * rewrite decide_True by (by right). done.
        * rewrite decide_False; [done|]. by intros [?|?]%elem_of_cons.
      + intros E. apply N. symmetry. apply Hk; [set_solver|done|done]. }
  rewrite Hgen by done. by rewrite decide_True.
Qed.

Lemma elem_of_planned fs plan i c d :
  (i, c, d) ∈ planned fs plan <-> (i, c) ∈ plan /\ exists f, f ∈ fs /\ d = f (i, c).
Proof.
  unfold planned, reports_on. rewrite list_elem_of_bind. split.
  - intros ([i' c'] & (f & [= -> -> ->] & Hf)%list_elem_of_fmap & Hp). eauto.
  - intros (Hp & f & Hf & ->). exists (i, c). split; [|done].
    apply list_elem_of_fmap. by exists f.
Qed.

Lemma log_entries_items fs plan (dss : list (list item)) p :
  plan_ok plan -> items_of dss ≡ₚ planned fs plan -> p ∈ plan ->
  log_entries (plan_key p) (entries (B := B) (items_of dss)) ≡ₚ (fun f => (plan_key p, f p)) <$> fs.
Proof.
  intros Hplan HP Hp. rewrite <- (log_entries_planned fs plan p) by done.
  unfold log_entries. by rewrite HP.
Qed.

Lemma planned_complete fs plan (dss : list (list item)) :
  plan_ok plan -> items_of dss ≡ₚ planned fs plan ->
  log_complete (Z.of_nat (length fs)) (entries (B := B) (items_of dss)).
Proof.
  intros Hplan HP e He. rewrite HP in He.
  apply list_elem_of_fmap in He as ([[i c] d] & -> & [Hp _]%elem_of_planned). simpl.
  change (group_key i c) with (plan_key (i, c)).
  by rewrite (Permutation_length (log_entries_items fs plan dss (i, c) Hplan HP Hp)), length_fmap.
Qed.

(** The stream can send one batch for each chunk of the plan, in the order of
    their keys, each with the detections of every detector on its chunk. *)
Lemma plan_delivers fs plan (dss : list (list item)) :
  fs <> [] -> plan_ok plan -> all_ok dss -> items_of dss ≡ₚ planned fs plan ->
  exists ls s plan',
    run ls (batch_stream_init dss (batcher_new (B := B) (Z.of_nat (length fs)))) = Some s /\
    running s = false /\ plan' ≡ₚ plan /\
    StronglySorted (fun p q => cmp (plan_key p) (plan_key q) = Lt) plan' /\
    Forall2 (delivers fs) plan' (sent s).
Proof.
  intros Hfs Hplan Hok HP.
  destruct (batch_stream_delivers_at (B := B) (Z.of_nat (length fs)) dss Hok
    (planned_complete fs plan dss Hplan HP)) as (ls & s & rs & Hrun & Hr & _ & Hsent & Hsort & Hcov & Hrs).
  fold (entries (B := B) (items_of dss)) in Hcov, Hrs.
  assert (Hchoice : Forall (fun r => exists p, p ∈ plan /\ r.1 = plan_key p /\
    r.2 ≡ₚ fs ≫= (fun f => f p)) rs).
  { apply Forall_forall. intros r Hin. destruct (Hrs r Hin) as [[d Hd] Hds]. rewrite HP in Hd.
    apply list_elem_of_fmap in Hd as ([[i c] d'] & [= E _] & [Hp _]%elem_of_planned). simpl in E.
    exists (i, c). split; [done|]. split; [done|]. rewrite Hds, E.
    change (group_key i c) with (plan_key (i, c)).
    etrans; [apply mjoin_fmap_perm, (log_entries_items fs plan dss (i, c) Hplan HP Hp)|].
    unfold log_held. rewrite <- list_fmap_compose.
    clear. induction fs as [|f fs' IH]; [done|]. simpl. by rewrite IH. }
  apply Forall_choice in Hchoice as [plan' H2].
  assert (Hkeys : rs.*1 = plan_key <$> plan').
  { clear -H2. induction H2 as [|p r ps rs (_ & E & _) _ IH]; [done|]. by rewrite !fmap_cons, E, IH. }
  exists ls, s, plan'. split; [done|]. split; [done|].
  assert (Hsorted : StronglySorted (fun p q => cmp (plan_key p) (plan_key q) = Lt) plan').
  { apply (StronglySorted_fmap_inv plan_key (fun k k' => cmp k k' = Lt)). rewrite <- Hkeys.
    by eapply StronglySorted_fmap; [|exact Hsort]. }
  split; [|split; [done|]].
  - apply NoDup_Permutation.
    + eapply StronglySorted_irrefl_NoDup; [|exact Hsorted]. intros p E. simpl in E. by rewrite cmp_refl in E.
    + apply Hplan.
    + intros p. split.
      * intros Hin. apply list_elem_of_lookup in Hin as [i Hi].
        destruct (Forall2_lookup_l _ _ _ _ _ H2 Hi) as (r & _ & Hp & _). done.
      * intros Hp. destruct fs as [|f fs]; [done|].
        destruct (Hcov (plan_key p, f p)) as (r & Hin & Hk).
        { rewrite HP. apply list_elem_of_fmap. exists (p.1, p.2, f p). split; [done|].
          apply elem_of_planned. split; [by destruct p|]. exists f. split; [left|by destruct p]. }
        apply list_elem_of_lookup in Hin as [i Hi].
        destruct (Forall2_lookup_r _ _ _ _ _ H2 Hi) as (q & Hq & Hqp & Eq & _).
        unfold key_eq in Hk. simpl in Hk. rewrite Eq in Hk.
        rewrite (plan_keys _ Hplan p q Hp Hqp Hk). by eapply list_elem_of_lookup_2.
  - rewrite Hsent. clear -H2 Hplan. induction H2 as [|p r ps rs (Hp & E & Hds) _ IH]; [constructor|].
    simpl. constructor; [|done]. exists r.2. split; [|done].
    by rewrite E, (plan_batch _ Hplan).
Qed.
End delivery.

(** ** Batches on the way

    What a batch stream may have yielded so far, and what its batches are. *)
Section emitted.
Context {SJ : SerdeJson} {B K : Type} {DB : DetectionBatcher B} `{OL : OrdLaws K}
  {BS : BatcherSpec B K}.
Notation item := (outcome OrchError Batch).

Definition batch_stream_emits (dss : list (list item)) (b : B) (out : list item) : Prop :=
  match dss with
  | [stream] => out `prefix_of` forward stream
  | _ => exists ls s, run ls (batch_stream_init dss b) = Some s /\ out = sent s
  end.

Lemma forward_elem (stream : list item) o : o ∈ forward stream -> o ∈ stream.
Proof.
  induction stream as [|[b|e|site] stream IH]; simpl; [done|..].
  - rewrite !elem_of_cons. naive_solver.
  - intros ->%list_elem_of_singleton. left.
  - intros ->%list_elem_of_singleton. left.
Qed.

Lemma elem_of_items_of (dss : list (list item)) b :
  b ∈ items_of dss <-> exists stream, stream ∈ dss /\ Ok b ∈ stream.
Proof.
  assert (Hok : forall stream : list item, b ∈ ok_items stream <-> Ok b ∈ stream).
  { intros stream. unfold ok_items. rewrite list_elem_of_omap. split.
    - intros (o & Ho & H). destruct o; try done. by injection H as ->.
    - intros H. by exists (Ok b). }
  unfold items_of. rewrite list_elem_of_join. split.
  - intros (l & Hb & (stream & -> & Hin)%list_elem_of_fmap). exists stream. by rewrite <- Hok.
  - intros (stream & Hin & Hb). exists (ok_items stream). rewrite Hok. split; [done|].
    apply list_elem_of_fmap. by exists stream.
Qed.

(** Entries are those of reports. *)
Lemma entries_submseteq es (l : list Batch) :
  es ⊆+ entries (B := B) l -> exists reports, reports ⊆+ l /\ es = entries (B := B) reports.
Proof.
  intros [rest HP]%submseteq_Permutation. symmetry in HP.
  apply Permutation_map_inv in HP as (l' & E & HP).
  symmetry in E. apply fmap_app_inv in E as (l1 & l2 & -> & _ & ->).
  exists l1. split; [|done]. rewrite HP. by apply submseteq_inserts_r.
Qed.

(** What batches are made of: as many reports as there are detectors, each used
    once, all in one group, one of them on the batch's own chunk; the batch has
    their detections, in the order the reports arrived. *)
Definition made_of (n : Z) (items : list Batch) (b : Batch) : Prop :=
  exists reports, reports ⊆+ items /\ Z.of_nat (length reports) = n /\
    b.1 ∈ reports.*1 /\ b.2 = mjoin reports.*2 /\
    forall r, r ∈ reports -> cmp (group_key (B := B) r.1.1 r.1.2) (group_key (B := B) b.1.1 b.1.2) = Eq.

(** A batch names the chunk of its group's key. *)
Definition keys_named (items : list Batch) : Prop :=
  forall r ds, r ∈ items -> batch_of (B := B) (group_key (B := B) r.1.1 r.1.2) ds = (r.1, ds).

Lemma sent_batch n (dss : list (list item)) ls s b :
  keys_named (items_of dss) ->
  run ls (batch_stream_init dss (batcher_new (B := B) n)) = Some s -> Ok b ∈ sent s ->
  made_of n (items_of dss) b.
Proof.
  intros Hn H Hin. destruct (batch_stream_groups_at n dss ls s H) as (gs & rest & HP & HG & Hs & _).
  assert (Hb : b ∈ group_batch (B := B) <$> gs).
  { rewrite <- Hs. apply elem_of_app. left. apply list_elem_of_omap. by exists (Ok b). }
  apply list_elem_of_fmap in Hb as ([k es] & -> & Hg).
  rewrite Forall_forall in HG. destruct (HG _ Hg) as (Hlen & Hk & [d Hd]). simpl in *.
  assert (Hsub : es ⊆+ entries (B := B) (items_of dss)).
  { rewrite HP. apply elem_of_Permutation in Hg as [gs' Hgs].
    unfold group_reports. rewrite Hgs. simpl. rewrite <- app_assoc. by apply submseteq_inserts_r. }
  apply entries_submseteq in Hsub as (reports & Hsub & ->).
  rewrite Forall_forall in Hk. apply list_elem_of_fmap in Hd as (r & [= -> ->] & Hr).
  unfold group_batch. cbn [fst snd]. rewrite Hn by (by eapply elem_of_submseteq).
  exists reports. split; [done|]. split; [rewrite <- Hlen; unfold entries; by rewrite length_fmap|]. split; [|split].
  - apply list_elem_of_fmap. by exists r.
  - cbn [snd]. unfold log_held, entries. by rewrite <- list_fmap_compose.
  - intros r' Hr'. apply (Hk (group_key (B := B) r'.1.1 r'.1.2, r'.2)), list_elem_of_fmap. by exists r'.
Qed.

(** What is yielded, also when a single stream is forwarded. *)
Lemma emitted_batch n (dss : list (list item)) out b :
  keys_named (items_of dss) -> (length dss = 1%nat -> n = 1) ->
  batch_stream_emits dss (batcher_new (B := B) n) out -> Ok b ∈ out -> made_of n (items_of dss) b.
Proof.
  intros Hk Hn. unfold batch_stream_emits. destruct dss as [|st [|st' dss]].
  1, 3: intros (ls & s & H & ->) Hin; by eapply sent_batch.
  intros [l El] Hin. rewrite (Hn eq_refl).
  assert (Hb : b ∈ items_of [st]).
  { apply elem_of_items_of. exists st. split; [left|].
    apply forward_elem. rewrite El. apply elem_of_app. by left. }
  exists [b]. split; [by apply singleton_submseteq_l|]. split; [done|]. split; [left|]. split.
  - simpl. by rewrite app_nil_r.
  - intros r ->%list_elem_of_singleton. apply cmp_refl.
Qed.

(** A batch over reports that are those of the detectors [fs] on all the chunks
    of a plan: the detections of all of them on the batch's chunk. *)
Lemma made_of_planned (fs : list (Z * Chunk -> list Detection)) plan items b :
  plan_ok (B := B) plan -> items ≡ₚ planned fs plan -> made_of (Z.of_nat (length fs)) items b ->
  b.1 ∈ plan /\ b.2 ≡ₚ fs ≫= (fun f => f b.1).
Proof.
  intros Hplan HP (reports & Hsub & Hlen & Hin & Hb & Hk). rewrite HP in Hsub.
  assert (Hp : b.1 ∈ plan).
  { apply list_elem_of_fmap in Hin as (r & E & Hr). apply (elem_of_submseteq _ _ _ Hr) in Hsub.
    unfold planned, reports_on in Hsub. apply list_elem_of_bind in Hsub as (p & (f & -> & _)%list_elem_of_fmap & Hp).
    simpl in E. rewrite E. by destruct p. }
  split; [done|].
  assert (HE : entries (B := B) reports ≡ₚ (fun f => (plan_key (B := B) b.1, f b.1)) <$> fs).
  { rewrite <- (log_entries_planned fs plan b.1) by done. apply submseteq_length_Permutation.
    - assert (Hall : log_entries (plan_key (B := B) b.1) (entries (B := B) reports) = entries (B := B) reports).
      { apply filter_all, Forall_fmap, Forall_forall. intros r Hr. exact (Hk r Hr). }
      rewrite <- Hall. destruct (submseteq_Permutation _ _ Hsub) as [rest HR].
      unfold log_entries. rewrite HR, entries_app, filter_app. by apply submseteq_inserts_r.
    - rewrite log_entries_planned by done. unfold entries. rewrite !length_fmap. lia. }
  assert (H2 : reports.*2 ≡ₚ (fun f => f b.1) <$> fs).
  { apply (fmap_Permutation snd) in HE. unfold entries in HE. by rewrite <- !list_fmap_compose in HE. }
  rewrite Hb, H2. apply reflexive_eq. clear. induction fs as [|f fs IH]; [done|].
  rewrite fmap_cons. cbn. by f_equal.
Qed.
End emitted.

(** ** Witnesses *)
Section witnesses.
#[local] Existing Instance simple_json.

(** Two detectors on different chunkers: one chunk each, of different spans. *)
Definition ex_mixed_streams : list (list (outcome OrchError Batch)) :=
  [ [ex_report 0 "hap"]; [ex_report 6 "pii"] ].
Definition ex_first_chunk : Chunk :=
  {| input_start_index := 0; input_end_index := 0; chunk_start := 0; chunk_end := 5; chunk_text := "" |}.

(** The two reports are received and pushed, nothing is ready, and the streams
    end: the batching task polls for ever. *)
Definition mixed_labels : list label :=
  [Recv 0; Recv 1; End_; Actor; Actor; PollPop; Actor; TakePop; PollEmpty; Actor; TakeEmpty].

Lemma unmatched_reports_never_end_witness :
  exists s, run mixed_labels (batch_stream_init ex_mixed_streams (batcher_new (B := CompletionBatcher) 2)) =
      Some s /\
    (running s = true \/ exists e, Err e ∈ sent s).
Proof.
  destruct (run mixed_labels (batch_stream_init ex_mixed_streams (batcher_new (B := CompletionBatcher) 2)))
    as [s|] eqn:E; [|by vm_compute in E].
  exists s. split; [done|].
  apply (unmatched_reports_never_end (B := CompletionBatcher) 2 ex_mixed_streams (ex_first_chunk, 0)
           mixed_labels s); [|exact E].
  assert (El : length (log_entries (ex_first_chunk, 0)
    (entries (B := CompletionBatcher) (items_of ex_mixed_streams))) = 1%nat) by (vm_compute; reflexivity).
  rewrite El. intros [z Hz]. lia.
Defined.

Lemma batch_stream_groups_witness :
  exists s gs rest,
    run polite_labels (batch_stream_init ex_streams (batcher_new (B := CompletionBatcher) 2)) = Some s /\
    entries (B := CompletionBatcher) (items_of ex_streams) ≡ₚ group_reports gs ++ rest /\
    Forall (full_group 2) gs /\ length (ok_items (sent s)) = 2%nat.
Proof.
  destruct (run polite_labels (batch_stream_init ex_streams (batcher_new (B := CompletionBatcher) 2)))
    as [s|] eqn:E; [|by vm_compute in E].
  destruct (batch_stream_groups (B := CompletionBatcher) 2 ex_streams polite_labels s E)
    as (gs & rest & H1 & H2 & _).
  exists s, gs, rest. split; [reflexivity|]. split; [exact H1|]. split; [exact H2|].
  vm_compute in E. injection E as <-. vm_compute. reflexivity.
Defined.
End witnesses.
