(* ===== verification/Hostname.v ===== *)
(** * Hostname validation

    [is_valid_hostname] (src/clients.rs) and the declarative reading of its
    documentation. *)
From Stdlib Require Import Ascii.
From S2P Require Import Prelude Utf8.
#[local] Open Scope Z_scope.

(** [byte.is_ascii_lowercase() || ... || byte == b'.'] *)
Definition byte_in (lo hi : Z) (c : ascii) : bool :=
  (lo <=? Z.of_N (N_of_ascii c)) && (Z.of_N (N_of_ascii c) <=? hi).
Definition is_valid_char (c : ascii) : bool :=
  byte_in 97 122 c || byte_in 65 90 c || byte_in 48 57 c
  || bool_decide (c = "-"%char) || bool_decide (c = "."%char).

(** [s.bytes().any(f)] *)
Fixpoint bytes_any (f : ascii -> bool) (s : string) : bool :=
  match s with
  | EmptyString => false
  | String c s => f c || bytes_any f s
  end.

(** [s.split('.')]: never empty; a trailing separator yields an empty last
    piece. *)
Fixpoint split_on (sep : ascii) (s : string) : list string :=
  match s with
  | EmptyString => [""%string]
  | String c s =>
      if decide (c = sep) then ""%string :: split_on sep s
      else match split_on sep s with
           | [] => [String c ""]
           | l :: ls => String c l :: ls
           end
  end.

(** [s.starts_with(c)] and [s.ends_with(c)] for a character *)
Definition starts_with_char (c : ascii) (s : string) : bool :=
  match s with
  | EmptyString => false
  | String d _ => bool_decide (c = d)
  end.
Fixpoint ends_with_char (c : ascii) (s : string) : bool :=
  match s with
  | EmptyString => false
  | String d EmptyString => bool_decide (c = d)
  | String _ s => ends_with_char c s
  end.

Definition str_is_empty (s : string) : bool :=
  match s with EmptyString => true | _ => false end.

Definition is_valid_hostname (hostname : string) : bool :=
  negb (bytes_any (fun byte => negb (is_valid_char byte)) hostname
        || existsb (fun label =>
             str_is_empty label || (63 <? byte_len label)
             || starts_with_char "-" label || ends_with_char "-" label)
             (split_on "." hostname)
        || str_is_empty hostname
        || (253 <? byte_len hostname)).

(** ** The documented conditions *)

(** Letters, digits and hyphens. *)
Definition is_label_char (c : ascii) : bool :=
  byte_in 97 122 c || byte_in 65 90 c || byte_in 48 57 c || bool_decide (c = "-"%char).

Fixpoint join_with (sep : ascii) (ls : list string) : string :=
  match ls with
  | [] => ""
  | [l] => l
  | l :: ls => String.append l (String sep (join_with sep ls))
  end.

Definition valid_label (l : string) : Prop :=
  l <> ""%string /\ byte_len l <= 63 /\
  bytes_any (fun c => negb (is_label_char c)) l = false /\
  starts_with_char "-" l = false /\ ends_with_char "-" l = false.

(** ** Lemmas *)
#[local] Arguments String.append !s1 s2 : simpl nomatch.

Lemma split_on_cons sep s : exists l ls, split_on sep s = l :: ls.
Proof.
  destruct s as [|c s]; simpl; [by eexists _, _|].
  destruct (decide (c = sep)); [by eexists _, _|].
  destruct (split_on sep s); by eexists _, _.
Qed.

Lemma join_split sep s : join_with sep (split_on sep s) = s.
Proof.
  induction s as [|c s IH]; simpl; [done|].
  destruct (split_on_cons sep s) as (l & ls & E). rewrite E in *.
  destruct (decide (c = sep)) as [->|N].
  - change (String sep (join_with sep (l :: ls)) = String sep s). by rewrite IH.
  - destruct ls; simpl in *; by rewrite IH.
Qed.

Lemma bytes_any_app f s t : bytes_any f (String.append s t) = bytes_any f s || bytes_any f t.
Proof. induction s as [|c s IH]; simpl; [done|]. by rewrite IH, orb_assoc. Qed.

Lemma split_on_app sep l s :
  bytes_any (fun c => bool_decide (c = sep)) l = false ->
  split_on sep (String.append l (String sep s)) = l :: split_on sep s.
Proof.
  induction l as [|c l IH]; simpl; [by rewrite decide_True by done|].
  rewrite orb_false_iff. intros [N%bool_decide_eq_false Hl].
  rewrite decide_False by done. by rewrite (IH Hl).
Qed.

Lemma split_on_single sep l :
  bytes_any (fun c => bool_decide (c = sep)) l = false -> split_on sep l = [l].
Proof.
  induction l as [|c l IH]; simpl; [done|].
  rewrite orb_false_iff. intros [N%bool_decide_eq_false Hl].
  rewrite decide_False by done. by rewrite (IH Hl).
Qed.

Lemma split_join sep ls :
  ls <> [] -> Forall (fun l => bytes_any (fun c => bool_decide (c = sep)) l = false) ls ->
  split_on sep (join_with sep ls) = ls.
Proof.
  intros N H. induction H as [|l ls Hl Hls IH]; [done|].
  destruct ls as [|l' ls]; [by apply split_on_single|].
  change (split_on sep (String.append l (String sep (join_with sep (l' :: ls)))) = l :: l' :: ls).
  rewrite split_on_app by done. by rewrite IH.
Qed.

Lemma bytes_any_impl (f g : ascii -> bool) s :
  (forall c, f c = true -> g c = true) -> bytes_any g s = false -> bytes_any f s = false.
Proof.
  intros H. induction s as [|c s IH]; simpl; [done|]. rewrite !orb_false_iff.
  intros [Hc Hs]. split; [|by apply IH]. destruct (f c) eqn:E; [|done].
  apply H in E. congruence.
Qed.

(** The pieces of a split contain no separator, and their other bytes are
    those of the whole. *)
Lemma split_on_pieces sep (f : ascii -> bool) s :
  bytes_any f s = false ->
  Forall (fun l => bytes_any (fun c => f c || bool_decide (c = sep)) l = false) (split_on sep s).
Proof.
  induction s as [|c s IH]; simpl; [by repeat constructor|].
  rewrite orb_false_iff. intros [Hc Hs]. specialize (IH Hs).
  destruct (decide (c = sep)) as [->|N]; [by constructor|].
  destruct (split_on sep s) as [|l ls].
  - constructor; [|constructor]. simpl. by rewrite Hc, bool_decide_eq_false_2.
  - inversion IH; subst. constructor; [|done]. simpl.
    by rewrite Hc, bool_decide_eq_false_2.
Qed.

Lemma bytes_any_ext (f g : ascii -> bool) s :
  (forall c, f c = g c) -> bytes_any f s = bytes_any g s.
Proof. intros H. induction s as [|c s IH]; simpl; [done|]. by rewrite H, IH. Qed.

Lemma label_char_valid c :
  negb (is_valid_char c) || bool_decide (c = "."%char) = negb (is_label_char c).
Proof. by destruct c as [[] [] [] [] [] [] [] []]. Qed.

Lemma join_with_bytes f sep ls :
  f sep = false -> Forall (fun l => bytes_any f l = false) ls ->
  bytes_any f (join_with sep ls) = false.
Proof.
  intros Hsep. induction 1 as [|l ls Hl Hls IH]; [done|].
  destruct ls as [|l' ls]; [done|].
  change (bytes_any f (String.append l (String sep (join_with sep (l' :: ls)))) = false).
  rewrite bytes_any_app, Hl. simpl. by rewrite Hsep.
Qed.

Lemma is_valid_hostname_cases h :
  is_valid_hostname h = true <->
  bytes_any (fun c => negb (is_valid_char c)) h = false /\
  Forall (fun l => l <> ""%string /\ byte_len l <= 63 /\
                   starts_with_char "-" l = false /\ ends_with_char "-" l = false)
    (split_on "." h) /\
  h <> ""%string /\ byte_len h <= 253.
Proof.
  assert (Hemp : forall s, str_is_empty s = false <-> s <> ""%string) by (by intros []).
  unfold is_valid_hostname. rewrite negb_true_iff, !orb_false_iff, Hemp, Z.ltb_ge.
  assert (HE : existsb (fun label => str_is_empty label || (63 <? byte_len label)
             || starts_with_char "-" label || ends_with_char "-" label) (split_on "." h) = false
    <-> Forall (fun l => l <> ""%string /\ byte_len l <= 63 /\
                   starts_with_char "-" l = false /\ ends_with_char "-" l = false)
    (split_on "." h)).
  { generalize (split_on "." h) as ls. induction ls as [|l ls IH]; simpl; [by split; constructor|].
    rewrite Forall_cons, orb_false_iff, IH, !orb_false_iff, Hemp, Z.ltb_ge. tauto. }
  rewrite HE. tauto.
Qed.

(** ** Properties *)

(** C39. A hostname is accepted exactly when it is a dot-separated sequence
    of one or more labels, 253 bytes in all, each label being 1 to 63 letters,
    digits and hyphens that neither starts nor ends with a hyphen (RFC 1123). *)
Theorem is_valid_hostname_spec (h : string) :
  is_valid_hostname h = true <->
  exists labels, labels <> [] /\ h = join_with "." labels /\
    Forall valid_label labels /\ byte_len h <= 253.
Proof.
  rewrite is_valid_hostname_cases. split.
  - intros (Hc & Hl & Hn & Hlen). exists (split_on "." h).
    split; [|split; [by rewrite join_split|split; [|done]]].
    { destruct (split_on_cons "." h) as (l & ls & ->). done. }
    pose proof (split_on_pieces "." _ _ Hc) as Hp.
    apply Forall_forall. intros l Hin. rewrite Forall_forall in Hl, Hp.
    destruct (Hl l Hin) as (H1 & H2 & H3 & H4). specialize (Hp l Hin). simpl in Hp.
    repeat split; try done. rewrite <- Hp. apply bytes_any_ext. intros c.
    by rewrite label_char_valid.
  - intros (ls & Hne & -> & Hv & Hlen).
    assert (Hdot : Forall (fun l => bytes_any (fun c => bool_decide (c = "."%char)) l = false) ls).
    { eapply Forall_impl; [exact Hv|]. intros l (_ & _ & Hc & _).
      eapply bytes_any_impl; [|exact Hc]. intros c ->%bool_decide_eq_true. done. }
    rewrite split_join by done. repeat split; [| | |done].
    + apply join_with_bytes; [done|]. eapply Forall_impl; [exact Hv|].
      intros l (_ & _ & Hc & _). eapply bytes_any_impl; [|exact Hc].
      intros c H. cbv beta in *. by rewrite <- label_char_valid, H.
    + eapply Forall_impl; [exact Hv|]. by intros l (? & ? & _ & ? & ?).
    + destruct ls as [|l ls]; [done|]. apply Forall_cons in Hv as [(Hl & _) _].
      destruct ls; [done|]. by destruct l.
Qed.
