(* ===== verification/Config.v ===== *)
(** * Orchestrator configuration

    src/config.rs: the configuration records, what [load] does to a parsed
    file (lower-casing the allowed headers, resolving named TLS settings,
    validating), and the lookups the rest of the orchestrator uses. *)
From S2P Require Import Prelude External Hostname.
#[local] Open Scope string_scope.
#[local] Open Scope Z_scope.

(** [clients::chunker::DEFAULT_CHUNKER_ID] *)
Definition DEFAULT_CHUNKER_ID : string := "whole_doc_chunker".
Definition DEFAULT_ALLOWED_HEADERS : list string := [].
Definition default_detector_concurrent_requests : nat := 5.
Definition default_chunker_concurrent_requests : nat := 5.

(** [config::Error]; I/O and YAML errors carry their text. *)
Inductive ConfigError :=
| FailedToReadConfigFile (path error : string)
| InvalidConfigFile (error : string)
| TlsConfigNotFound (name host : string) (port : Z)
| NoDetectorsConfigured
| DetectorChunkerNotFound (detector_id chunker_id : string)
| InvalidGenerationProvider (provider : string)
| InvalidHostname (message : string).

Record TlsConfig := {
  cert_path : option string;
  key_path : option string;
  client_ca_cert_path : option string;
  insecure : option bool
}.

Inductive Tls := TlsName (name : string) | TlsResolved (config : TlsConfig).

(** [from_env]: the value of a setting that names an environment variable. *)
Definition from_env (env : string -> option string) (env_name : option string) : outcome string (option string) :=
  match env_name with
  | Some env_name =>
      match env env_name with
      | Some value => Ok (Some value)
      | None => Err ("env var `" +:+ env_name +:+ "` not found")
      end
  | None => Ok None
  end.

Record ServiceConfig := {
  hostname : string;
  port : option Z;
  path_prefix : option string;
  request_timeout : option Z;
  tls : option Tls;
  grpc_dns_probe_interval : option Z;
  resolution_strategy : option string;
  resolution_strategy_timeout : option Z;
  max_retries : option Z;
  http2_keep_alive_interval : option Z;
  keep_alive_timeout : option Z;
  api_token : option string
}.

(** [ServiceConfig::new] *)
Definition service_config_new (h : string) (p : Z) : ServiceConfig :=
  {| hostname := h; port := Some p; path_prefix := None; request_timeout := None;
     tls := None; grpc_dns_probe_interval := None; resolution_strategy := None;
     resolution_strategy_timeout := None; max_retries := None;
     http2_keep_alive_interval := None; keep_alive_timeout := None; api_token := None |}.

Definition with_tls (s : ServiceConfig) (t : option Tls) : ServiceConfig :=
  {| hostname := hostname s; port := port s; path_prefix := path_prefix s;
     request_timeout := request_timeout s; tls := t;
     grpc_dns_probe_interval := grpc_dns_probe_interval s;
     resolution_strategy := resolution_strategy s;
     resolution_strategy_timeout := resolution_strategy_timeout s;
     max_retries := max_retries s; http2_keep_alive_interval := http2_keep_alive_interval s;
     keep_alive_timeout := keep_alive_timeout s; api_token := api_token s |}.

Inductive GenerationProvider := Tgis | Nlp.
Record GenerationConfig := { provider : GenerationProvider; generation_service : ServiceConfig }.

Record RouterConfig := {
  router_enabled : bool;
  router_hostname : string;
  router_port : Z;
  sla_seconds : Z;
  reply_type : string;
  supported_detectors : list string
}.

(** The field defaults of a router section that gives none. *)
Definition router_config_default : RouterConfig :=
  {| router_enabled := false; router_hostname := "localhost"; router_port := 19080;
     sla_seconds := 60; reply_type := "redis"; supported_detectors := [] |}.

Record OpenAiConfig := {
  openai_service : ServiceConfig;
  openai_health_service : option ServiceConfig
}.

Inductive ChunkerType := Sentence | All.
Record ChunkerConfig := { chunker_type : ChunkerType; chunker_service : ServiceConfig }.

Inductive DetectorType := TextContents | TextGeneration | TextChat | TextContextDoc.
#[export] Instance DetectorType_eq_dec : EqDecision DetectorType.
Proof. solve_decision. Defined.
#[export] Instance DetectorType_countable : Countable DetectorType.
Proof.
  refine (inj_countable'
    (fun t => match t with TextContents => 0 | TextGeneration => 1
                         | TextChat => 2 | TextContextDoc => 3 end%nat)
    (fun n => match n with 0 => TextContents | 1 => TextGeneration
                         | 2 => TextChat | _ => TextContextDoc end%nat) _).
  by intros [].
Defined.

Record DetectorConfig := {
  detector_service : ServiceConfig;
  detector_health_service : option ServiceConfig;
  detector_chunker_id : string;
  default_threshold : f64;
  detector_type : DetectorType;
  detector_model_id : option string
}.

Record OrchestratorConfig := {
  generation : option GenerationConfig;
  openai : option OpenAiConfig;
  chunkers : option (gmap string ChunkerConfig);
  detectors : gmap string DetectorConfig;
  tls_configs : option (gmap string TlsConfig);
  router : option RouterConfig;
  passthrough_headers : gset string;
  rewrite_forwarded_access_header : bool;
  detector_concurrent_requests : nat;
  chunker_concurrent_requests : nat
}.

(** [OrchestratorConfig::default()] *)
Definition orchestrator_config_default : OrchestratorConfig :=
  {| generation := None; openai := None; chunkers := None; detectors := ∅; tls_configs := None;
     router := None; passthrough_headers := ∅; rewrite_forwarded_access_header := false;
     detector_concurrent_requests := default_detector_concurrent_requests;
     chunker_concurrent_requests := default_chunker_concurrent_requests |}.

Definition with_headers (c : OrchestratorConfig) (h : gset string) : OrchestratorConfig :=
  {| generation := generation c; openai := openai c; chunkers := chunkers c;
     detectors := detectors c; tls_configs := tls_configs c; router := router c;
     passthrough_headers := h;
     rewrite_forwarded_access_header := rewrite_forwarded_access_header c;
     detector_concurrent_requests := detector_concurrent_requests c;
     chunker_concurrent_requests := chunker_concurrent_requests c |}.

Definition with_services (c : OrchestratorConfig) g o ch d : OrchestratorConfig :=
  {| generation := g; openai := o; chunkers := ch; detectors := d;
     tls_configs := tls_configs c; router := router c;
     passthrough_headers := passthrough_headers c;
     rewrite_forwarded_access_header := rewrite_forwarded_access_header c;
     detector_concurrent_requests := detector_concurrent_requests c;
     chunker_concurrent_requests := chunker_concurrent_requests c |}.

Section config.
Context {RT : Runtime}.

(** ** Named TLS settings *)

Definition apply_named_tls_config (service : ServiceConfig) (named : gmap string TlsConfig)
    : outcome ConfigError ServiceConfig :=
  match tls service with
  | Some (TlsName name) =>
      tls_config ← ok_or (TlsConfigNotFound name (hostname service) (default 0 (port service)))
                     (named !! name);
      Ok (with_tls service (Some (TlsResolved tls_config)))
  | _ => Ok service
  end.

(** [for v in map.values_mut() { *v = f(v)?; }] *)
Definition try_values_mut {V} (f : V -> outcome ConfigError V) (m : gmap string V)
    : outcome ConfigError (gmap string V) :=
  foldl (fun acc kv => m ← acc; v ← f kv.2; Ok (<[kv.1 := v]> m)) (Ok m) (hash_iter m).

(** [if let Some(v) = &mut option { f(v)?; }] *)
Definition try_option {V} (f : V -> outcome ConfigError V) (o : option V)
    : outcome ConfigError (option V) :=
  match o with
  | Some v => v ← f v; Ok (Some v)
  | None => Ok None
  end.

Definition apply_named_tls_configs (self : OrchestratorConfig) : outcome ConfigError OrchestratorConfig :=
  match tls_configs self with
  | Some named =>
      g ← try_option (fun g =>
            s ← apply_named_tls_config (generation_service g) named;
            Ok {| provider := provider g; generation_service := s |}) (generation self);
      o ← try_option (fun o =>
            s ← apply_named_tls_config (openai_service o) named;
            Ok {| openai_service := s; openai_health_service := openai_health_service o |})
            (openai self);
      ch ← try_option (try_values_mut (fun ch =>
             s ← apply_named_tls_config (chunker_service ch) named;
             Ok {| chunker_type := chunker_type ch; chunker_service := s |})) (chunkers self);
      d ← try_values_mut (fun d =>
            s ← apply_named_tls_config (detector_service d) named;
            Ok {| detector_service := s; detector_health_service := detector_health_service d;
                  detector_chunker_id := detector_chunker_id d;
                  default_threshold := default_threshold d; detector_type := detector_type d;
                  detector_model_id := detector_model_id d |}) (detectors self);
      Ok (with_services self g o ch d)
  | None => Ok self
  end.

(** ** Validation *)

Definition validate_generation_config (self : OrchestratorConfig) : outcome ConfigError () :=
  match generation self with
  | Some g =>
      if negb (is_valid_hostname (hostname (generation_service g)))
      then Err (InvalidHostname "`generation` has an invalid hostname")
      else Ok ()
  | None => Ok ()
  end.

Definition validate_openai_configs (self : OrchestratorConfig) : outcome ConfigError () :=
  match openai self with
  | Some o =>
      if negb (is_valid_hostname (hostname (openai_service o)))
      then Err (InvalidHostname "`openai` has an invalid hostname")
      else Ok ()
  | None => Ok ()
  end.

Definition valid_chunker (self : OrchestratorConfig) (detector : DetectorConfig) : bool :=
  bool_decide (detector_chunker_id detector = DEFAULT_CHUNKER_ID)
  || match chunkers self with
     | Some chunkers => bool_decide (is_Some (chunkers !! detector_chunker_id detector))
     | None => false
     end.

Definition validate_detector_configs (self : OrchestratorConfig) : outcome ConfigError () :=
  for_each (fun '(detector_id, detector) =>
    if negb (is_valid_hostname (hostname (detector_service detector)))
    then Err (InvalidHostname ("detector `" +:+ detector_id +:+ "` has an invalid hostname"))
    else if negb (valid_chunker self detector)
    then Err (DetectorChunkerNotFound detector_id (detector_chunker_id detector))
    else Ok ()) (hash_iter (detectors self)).

Definition validate_chunker_configs (self : OrchestratorConfig) : outcome ConfigError () :=
  match chunkers self with
  | Some chunkers =>
      for_each (fun '(chunker_id, chunker) =>
        if negb (is_valid_hostname (hostname (chunker_service chunker)))
        then Err (InvalidHostname ("chunker `" +:+ chunker_id +:+ "` has an invalid hostname"))
        else Ok ()) (hash_iter chunkers)
  | None => Ok ()
  end.

Definition validate (self : OrchestratorConfig) : outcome ConfigError () :=
  if bool_decide (detectors self = ∅) then Err NoDetectorsConfigured
  else
    validate_generation_config self ≫= fun _ =>
    validate_openai_configs self ≫= fun _ =>
    validate_detector_configs self ≫= fun _ =>
    validate_chunker_configs self ≫= fun _ => Ok ().

(** ** Loading

    [load] from the parsed file on ([file] is the result of reading and
    parsing it); [to_lowercase] is the standard library's Unicode mapping. *)
Definition load (to_lowercase : string -> string) (file : outcome ConfigError OrchestratorConfig)
    : outcome ConfigError OrchestratorConfig :=
  config ← file;
  let config := with_headers config
    (set_map to_lowercase (passthrough_headers config)
     ∪ list_to_set (to_lowercase <$> DEFAULT_ALLOWED_HEADERS)) in
  config ← apply_named_tls_configs config;
  validate config ≫= fun _ => Ok config.

(** ** Lookups *)
Definition get_chunker_id (self : OrchestratorConfig) (detector_id : string) : option string :=
  detector_chunker_id <$> detectors self !! detector_id.
Definition chunker (self : OrchestratorConfig) (chunker_id : string) : option ChunkerConfig :=
  match chunkers self with
  | Some chunkers => chunkers !! chunker_id
  | None => None
  end.
Definition detector (self : OrchestratorConfig) (detector_id : string) : option DetectorConfig :=
  detectors self !! detector_id.
End config.

(** ** Lemmas *)

(** The service a component of the configuration connects to. *)
Inductive service_of (c : OrchestratorConfig) : ServiceConfig -> Prop :=
| service_of_generation g :
    generation c = Some g -> service_of c (generation_service g)
| service_of_openai o :
    openai c = Some o -> service_of c (openai_service o)
| service_of_chunker m id ch :
    chunkers c = Some m -> m !! id = Some ch -> service_of c (chunker_service ch)
| service_of_detector id d :
    detectors c !! id = Some d -> service_of c (detector_service d).

Definition unresolved_tls (s : ServiceConfig) : Prop := exists name, tls s = Some (TlsName name).

Section config_lemmas.
Context {RT : Runtime} {RL : RuntimeLaws RT}.

Lemma apply_named_tls_config_resolved s named s' :
  apply_named_tls_config s named = Ok s' -> ~ unresolved_tls s'.
Proof.
  unfold apply_named_tls_config, unresolved_tls.
  destruct (tls s) as [[name|cfg]|] eqn:E.
  - intros (cfg & Hl & [= <-])%bind_Ok [n Hn]. done.
  - intros [= <-] [n Hn]. congruence.
  - intros [= <-] [n Hn]. congruence.
Qed.

Lemma try_values_mut_fold {V} (f : V -> outcome ConfigError V) (l : list (string * V))
    (m0 m : gmap string V) k v :
  foldl (fun (acc : outcome ConfigError (gmap string V)) kv =>
    m ← acc; v ← f kv.2; Ok (<[kv.1 := v]> m)) (Ok m0) l = Ok m ->
  m !! k = Some v ->
  (exists v0, (k, v0) ∈ l /\ f v0 = Ok v) \/ (m0 !! k = Some v /\ k ∉ l.*1).
Proof.
  revert m v; induction l as [|[k' v'] l IH] using rev_ind; intros m v.
  { simpl. intros [= ->] ?. right. split; [done|]. by intros ?%elem_of_nil. }
  rewrite foldl_app. simpl. intros (m1 & E & (v1 & Hf & [= <-])%bind_Ok)%bind_Ok.
  rewrite lookup_insert_Some. intros [[<- <-]|[N Hk]].
  - left. exists v'. set_solver.
  - destruct (IH m1 v E Hk) as [(v0 & ? & ?)|[? Hn]]; [left; exists v0; set_solver|].
    right. split; [done|]. rewrite fmap_app. set_solver.
Qed.

Lemma try_values_mut_lookup {V} (f : V -> outcome ConfigError V) (m0 m : gmap string V) k v :
  try_values_mut f m0 = Ok m -> m !! k = Some v ->
  exists v0, m0 !! k = Some v0 /\ f v0 = Ok v.
Proof.
  intros E Hk. destruct (try_values_mut_fold _ _ _ _ _ _ E Hk) as [(v0 & Hin & Hf)|[Hk0 Hn]].
  - exists v0. by rewrite <- elem_of_hash_iter.
  - destruct Hn. apply elem_of_hash_keys. by eexists.
Qed.

Lemma try_option_Some {V} (f : V -> outcome ConfigError V) o v :
  try_option f o = Ok (Some v) -> exists v0, o = Some v0 /\ f v0 = Ok v.
Proof.
  destruct o as [v0|]; simpl; [|done].
  intros (v1 & Hf & [= <-])%bind_Ok. by exists v0.
Qed.

Lemma apply_named_tls_configs_resolved c c' :
  apply_named_tls_configs c = Ok c' -> is_Some (tls_configs c) ->
  forall s, service_of c' s -> ~ unresolved_tls s.
Proof.
  unfold apply_named_tls_configs. intros E [named Hn] s Hs. rewrite Hn in E.
  apply bind_Ok in E as (g & Hg & E). apply bind_Ok in E as (o & Ho & E).
  apply bind_Ok in E as (ch & Hch & E). apply bind_Ok in E as (d & Hd & [= <-]).
  destruct Hs as [x Hx|x Hx|m id x Hx Hid|id x Hx]; simpl in *; subst.
  - apply try_option_Some in Hg as (v & _ & (s & Hs & [= <-])%bind_Ok).
    by eapply apply_named_tls_config_resolved.
  - apply try_option_Some in Ho as (v & _ & (s & Hs & [= <-])%bind_Ok).
    by eapply apply_named_tls_config_resolved.
  - apply try_option_Some in Hch as (m0 & _ & Hm).
    destruct (try_values_mut_lookup _ _ _ _ _ Hm Hid) as (v & _ & (s & Hs & [= <-])%bind_Ok).
    by eapply apply_named_tls_config_resolved.
  - destruct (try_values_mut_lookup _ _ _ _ _ Hd Hx) as (v & _ & (s & Hs & [= <-])%bind_Ok).
    by eapply apply_named_tls_config_resolved.
Qed.

Lemma guard_Ok {E} (b : bool) (e : E) (m : outcome E ()) :
  (if b then Err e else m) = Ok () <-> b = false /\ m = Ok ().
Proof. destruct b; naive_solver. Qed.

Lemma validate_detector_configs_Ok c :
  validate_detector_configs c = Ok () <->
  forall id d, detectors c !! id = Some d ->
    is_valid_hostname (hostname (detector_service d)) = true /\ valid_chunker c d = true.
Proof.
  unfold validate_detector_configs. rewrite for_each_Ok. split.
  - intros H id d Hd. specialize (H (id, d)). rewrite elem_of_hash_iter in H.
    specialize (H Hd). simpl in H. by rewrite !guard_Ok, !negb_false_iff in H; tauto.
  - intros H [id d] Hd%elem_of_hash_iter. destruct (H id d Hd) as [-> ->]. done.
Qed.

Lemma validate_chunker_configs_Ok c :
  validate_chunker_configs c = Ok () <->
  forall m id ch, chunkers c = Some m -> m !! id = Some ch ->
    is_valid_hostname (hostname (chunker_service ch)) = true.
Proof.
  unfold validate_chunker_configs. destruct (chunkers c) as [m|]; [|by split].
  rewrite for_each_Ok. split.
  - intros H m' id ch [= <-] Hch. specialize (H (id, ch)). rewrite elem_of_hash_iter in H.
    specialize (H Hch). simpl in H. by rewrite guard_Ok, negb_false_iff in H; tauto.
  - intros H [id ch] Hch%elem_of_hash_iter. by rewrite (H m id ch eq_refl Hch).
Qed.

Lemma valid_chunker_spec c d :
  valid_chunker c d = true <->
  detector_chunker_id d = DEFAULT_CHUNKER_ID \/ is_Some (chunker c (detector_chunker_id d)).
Proof.
  unfold valid_chunker, chunker. rewrite orb_true_iff, bool_decide_eq_true.
  destruct (chunkers c); [by rewrite bool_decide_eq_true|].
  split; [intros [?|[=]]; by left|]. intros [?|[? [=]]]. by left.
Qed.

Lemma validate_cases c :
  validate c = Ok () <->
  detectors c <> ∅ /\ validate_generation_config c = Ok () /\ validate_openai_configs c = Ok () /\
  validate_detector_configs c = Ok () /\ validate_chunker_configs c = Ok ().
Proof.
  unfold validate. case_bool_decide as E; [split; [done|tauto]|]. rewrite bind_Ok.
  setoid_rewrite bind_Ok. setoid_rewrite bind_Ok. setoid_rewrite bind_Ok. split.
  - intros ([] & ? & [] & ? & [] & ? & [] & ? & _). done.
  - intros (? & ? & ? & ? & ?). by repeat (exists (); split; [done|]).
Qed.

Lemma validate_no_panic c : no_panic (validate c).
Proof.
  unfold validate. case_bool_decide; [done|]. repeat (apply no_panic_bind; [|intros _ _]).
  - unfold validate_generation_config. destruct (generation c); [|done]. by destruct (negb _).
  - unfold validate_openai_configs. destruct (openai c); [|done]. by destruct (negb _).
  - apply for_each_no_panic. intros [id d] _. destruct (negb _); [done|]. by destruct (negb _).
  - unfold validate_chunker_configs. destruct (chunkers c); [|done].
    apply for_each_no_panic. intros [id ch] _. by destruct (negb _).
  - done.
Qed.
End config_lemmas.

(** ** Properties *)
Section config_properties.
Context {RT : Runtime} {RL : RuntimeLaws RT}.

(** C37. A configuration is accepted exactly when at least one detector is
    configured, every configured service has a valid hostname, and the chunker
    every detector names is the whole-document chunker or a configured one;
    validation never panics, whatever order the maps are iterated in. *)
Theorem config_validate_spec (c : OrchestratorConfig) :
  (validate c = Ok () <->
   detectors c <> ∅ /\
   (forall s, service_of c s -> is_valid_hostname (hostname s) = true) /\
   (forall id d, detector c id = Some d ->
      detector_chunker_id d = DEFAULT_CHUNKER_ID \/ is_Some (chunker c (detector_chunker_id d)))) /\
  no_panic (validate c).
Proof.
  split; [|apply validate_no_panic].
  rewrite validate_cases, validate_detector_configs_Ok, validate_chunker_configs_Ok.
  setoid_rewrite valid_chunker_spec.
  unfold validate_generation_config, validate_openai_configs, detector. split.
  - intros (Hne & Hg & Ho & Hd & Hch). split; [done|split].
    + intros s [g E|o E|m id ch E1 E2|id d E].
      * rewrite E in Hg. by apply guard_Ok in Hg as [?%negb_false_iff _].
      * rewrite E in Ho. by apply guard_Ok in Ho as [?%negb_false_iff _].
      * by apply (Hch m id).
      * by apply (Hd id).
    + intros id d E. by apply (Hd id).
  - intros (Hne & Hs & Hd). split; [done|]. split; [|split; [|split]].
    + destruct (generation c) as [g|] eqn:E; [|done].
      by rewrite (Hs _ (service_of_generation c g E)).
    + destruct (openai c) as [o|] eqn:E; [|done].
      by rewrite (Hs _ (service_of_openai c o E)).
    + intros id d E. split; [|by apply (Hd id)]. by apply Hs, (service_of_detector c id).
    + intros m id ch E1 E2. by apply Hs, (service_of_chunker c m id).
Qed.

(** Loading resolves every named TLS setting of the generation, OpenAI,
    chunker and detector services when the file has a [tls] section; a file
    without one is loaded with its named settings unresolved and unreported. *)
Theorem load_named_tls (to_lowercase : string -> string) (c0 c : OrchestratorConfig) :
  load to_lowercase (Ok c0) = Ok c ->
  validate c = Ok () /\
  match tls_configs c0 with
  | Some _ => forall s, service_of c s -> ~ unresolved_tls s
  | None => forall s, service_of c s <-> service_of c0 s
  end.
Proof.
  unfold load. intros (c1 & [= <-] & H)%bind_Ok. apply bind_Ok in H as (c2 & Ha & H).
  apply bind_Ok in H as ([] & Hv & [= ->]). split; [done|].
  destruct (tls_configs c0) as [named|] eqn:E.
  - eapply apply_named_tls_configs_resolved; [exact Ha|by exists named].
  - unfold apply_named_tls_configs in Ha. simpl in Ha. rewrite E in Ha.
    injection Ha as <-. intros s. split.
    + intros [g Hg|o Ho|m id ch Hm Hid|id d Hd]; by econstructor.
    + intros [g Hg|o Ho|m id ch Hm Hid|id d Hd]; by econstructor.
Qed.
End config_properties.

(** ** Witnesses *)
Section witnesses.
#[local] Existing Instance fifo_runtime.

Definition ex_service (tls : option Tls) : ServiceConfig :=
  with_tls (service_config_new "detector.example.com" 8080) tls.
Definition ex_detector (ty : DetectorType) (chunker_id : string) (threshold : f64)
    (tls : option Tls) : DetectorConfig :=
  {| detector_service := ex_service tls; detector_health_service := None;
     detector_chunker_id := chunker_id; default_threshold := threshold;
     detector_type := ty; detector_model_id := None |}.
Definition ex_tls_config : TlsConfig :=
  {| cert_path := Some "cert.pem"; key_path := Some "key.pem"; client_ca_cert_path := None;
     insecure := None |}.

(** A file with a detector of three types, one of them on a sentence chunker,
    the two model services and a named TLS setting. *)
Definition ex_config : OrchestratorConfig :=
  {| generation := Some {| provider := Nlp; generation_service := ex_service None |};
     openai := Some {| openai_service := ex_service None; openai_health_service := None |};
     chunkers := Some {[ "sentence" := {| chunker_type := Sentence; chunker_service := ex_service None |} ]};
     detectors := {[ "hap" := ex_detector TextContents "sentence" (f64_of_Z 0) (Some (TlsName "corp"));
                     "relevance" := ex_detector TextChat DEFAULT_CHUNKER_ID (f64_of_Z 0) None;
                     "grounded" := ex_detector TextGeneration DEFAULT_CHUNKER_ID (f64_of_Z 0) None ]};
     tls_configs := Some {[ "corp" := ex_tls_config ]}; router := None;
     passthrough_headers := {[ "X-Trace" ]}; rewrite_forwarded_access_header := false;
     detector_concurrent_requests := default_detector_concurrent_requests;
     chunker_concurrent_requests := default_chunker_concurrent_requests |}.

Definition ex_loaded : OrchestratorConfig :=
  match load (fun s => s) (Ok ex_config) with Ok c => c | _ => ex_config end.

Lemma config_validate_spec_witness :
  no_panic (validate ex_config) /\
  forall id d, detector ex_config id = Some d ->
    detector_chunker_id d = DEFAULT_CHUNKER_ID \/
    is_Some (chunker ex_config (detector_chunker_id d)).
Proof.
  split; [exact (proj2 (@config_validate_spec fifo_runtime fifo_runtime_laws ex_config))|].
  assert (E : validate ex_config = Ok ()) by (vm_compute; reflexivity).
  exact (proj2 (proj2 (proj1 (proj1
    (@config_validate_spec fifo_runtime fifo_runtime_laws ex_config)) E))).
Defined.

Lemma load_named_tls_witness :
  validate ex_loaded = Ok () /\ forall s, service_of ex_loaded s -> ~ unresolved_tls s.
Proof.
  assert (E : load (fun s => s) (Ok ex_config) = Ok ex_loaded) by (vm_compute; reflexivity).
  exact (@load_named_tls fifo_runtime fifo_runtime_laws (fun s => s) ex_config ex_loaded E).
Defined.
End witnesses.
