(* ===== verification/Clients.v ===== *)
(** * Clients

    src/clients.rs, the state and decisions of src/clients/detector.rs,
    src/clients/chunker.rs, src/clients/generation.rs and
    src/clients/openai.rs, src/health.rs, and [create_clients] of
    src/orchestrator.rs: which settings a client is built with, which client an
    id resolves to, when a generation call is retried, how a health answer is
    classified.  Opening a connection is a parameter ([Connector]). *)
From Stdlib Require Import Ascii.
From S2P Require Import Prelude External Errors Hostname Config.
#[local] Open Scope string_scope.
#[local] Open Scope list_scope.
#[local] Open Scope Z_scope.

(** ** Connection settings (src/clients.rs) *)
Definition DEFAULT_CONNECT_TIMEOUT_SEC : Z := 60.
Definition DEFAULT_REQUEST_TIMEOUT_SEC : Z := 600.
Definition DEFAULT_GRPC_PROBE_INTERVAL_SEC : Z := 10.
Definition DEFAULT_RES_STRATEGY_TIMEOUT_SEC : Z := 10.
Definition DEFAULT_HTTP2_KEEP_ALIVE_INTERVAL : Z := 30.
Definition DEFAULT_KEEP_ALIVE_TIMEOUT : Z := 30.

(** What is handed to the HTTP client builder. *)
Record HttpSettings := {
  http_protocol : string;
  http_host : string;
  http_port : Z;
  http_path : option string;
  http_connect_timeout : Z;
  http_request_timeout : Z;
  http_tls : option TlsConfig;
  http_http2_keep_alive_interval : Z;
  http_http2_keep_alive_timeout : Z;
  http_api_token : option string
}.

Inductive ResolutionStrategy := Eager (timeout : Z) | Lazy.

(** What is handed to the gRPC channel builder. *)
Record GrpcSettings := {
  grpc_protocol : string;
  grpc_host : string;
  grpc_port : Z;
  grpc_dns_interval : Z;
  grpc_connect_timeout : Z;
  grpc_request_timeout : Z;
  grpc_keep_alive_timeout : Z;
  grpc_http2_keep_alive_interval : Z;
  grpc_resolution : ResolutionStrategy;
  grpc_tls : option (string * string * option string)
}.

(** The url crate's reading of a text and whether a port can be set on it, and
    opening a connection with the settings. *)
Class Connector := {
  url_parses : string -> bool;
  port_settable : string -> Z -> bool;
  HttpClient : Type;
  GrpcClient : Type;
  connect_http : HttpSettings -> outcome ClientError HttpClient;
  connect_grpc : GrpcSettings -> outcome ClientError GrpcClient
}.

(** [s.trim_start_matches('/')] and [s.trim_matches('/')] *)
Fixpoint trim_start_slash (s : string) : string :=
  match s with
  | String "/"%char s => trim_start_slash s
  | _ => s
  end.
Fixpoint trim_end_slash (s : string) : string :=
  match s with
  | EmptyString => EmptyString
  | String c s =>
      match c, trim_end_slash s with
      | "/"%char, EmptyString => EmptyString
      | _, s' => String c s'
      end
  end.
Definition trim_slashes (s : string) : string := trim_end_slash (trim_start_slash s).

Definition protocol_of (service_config : ServiceConfig) : string :=
  match tls service_config with Some _ => "https" | None => "http" end.

(** The base URL of a service: [Url::parse] and [set_port], both unwrapped. *)
Definition base_url_text (service_config : ServiceConfig) : string :=
  protocol_of service_config +:+ "://" +:+ hostname service_config.
Definition check_base_url {CN : Connector} {E} (parse_site port_site : string) (service_config : ServiceConfig) (port : Z)
    : outcome E () :=
  if negb (url_parses (base_url_text service_config)) then Panic parse_site
  else if negb (port_settable (base_url_text service_config) port) then Panic port_site
  else Ok ().

(** [create_http_client], up to building the connector: a host name that is no
    URL, or a TLS name left unresolved, panics.  The builder's keep-alive
    interval is read from [keep_alive_timeout] and its keep-alive timeout from
    [http2_keep_alive_interval]. *)
Definition create_http_client {CN : Connector} (default_port : Z) (service_config : ServiceConfig)
    : outcome ClientError HttpSettings :=
  check_base_url "clients.rs:210" "clients.rs:213" service_config (default default_port (port service_config)) ≫= fun _ =>
  let path :=
    match path_prefix service_config with
    | Some prefix => let trimmed := trim_slashes prefix in
                     if str_is_empty trimmed then None else Some ("/" +:+ trimmed)
    | None => None
    end in
  tls ← match tls service_config with
        | Some (TlsResolved tls) => Ok (Some tls)
        | Some (TlsName _) => Panic "clients.rs:236"
        | None => Ok None
        end;
  Ok {| http_protocol := protocol_of service_config; http_host := hostname service_config;
        http_port := default default_port (port service_config); http_path := path;
        http_connect_timeout := DEFAULT_CONNECT_TIMEOUT_SEC;
        http_request_timeout := default DEFAULT_REQUEST_TIMEOUT_SEC (request_timeout service_config);
        http_tls := tls;
        http_http2_keep_alive_interval :=
          default DEFAULT_KEEP_ALIVE_TIMEOUT (keep_alive_timeout service_config);
        http_http2_keep_alive_timeout :=
          default DEFAULT_HTTP2_KEEP_ALIVE_INTERVAL (http2_keep_alive_interval service_config);
        http_api_token := api_token service_config |}.

(** [create_grpc_client], up to reading the PEM files and connecting: a host
    name that is no URL panics, and so does a TLS section without certificate or key path; an unresolved name means
    no TLS identity. *)
Definition create_grpc_client {CN : Connector} (default_port : Z) (service_config : ServiceConfig)
    : outcome ClientError GrpcSettings :=
  check_base_url "clients.rs:282" "clients.rs:283" service_config (default default_port (port service_config)) ≫= fun _ =>
  let resolution_strategy_timeout :=
    default DEFAULT_RES_STRATEGY_TIMEOUT_SEC (resolution_strategy_timeout service_config) in
  let resolution :=
    match resolution_strategy service_config with
    | Some name => if decide (name = "eager") then Eager resolution_strategy_timeout else Lazy
    | None => Lazy
    end in
  client_tls_config ←
    match tls service_config with
    | Some (TlsResolved tls_config) =>
        cert ← unwrap "clients.rs:323" (cert_path tls_config);
        key ← unwrap "clients.rs:324" (key_path tls_config);
        Ok (Some (cert, key, client_ca_cert_path tls_config))
    | _ => Ok None
    end;
  Ok {| grpc_protocol := protocol_of service_config; grpc_host := hostname service_config;
        grpc_port := default default_port (port service_config);
        grpc_dns_interval :=
          default DEFAULT_GRPC_PROBE_INTERVAL_SEC (grpc_dns_probe_interval service_config);
        grpc_connect_timeout := DEFAULT_CONNECT_TIMEOUT_SEC;
        grpc_request_timeout := default DEFAULT_REQUEST_TIMEOUT_SEC (request_timeout service_config);
        grpc_keep_alive_timeout :=
          default DEFAULT_KEEP_ALIVE_TIMEOUT (keep_alive_timeout service_config);
        grpc_http2_keep_alive_interval :=
          default DEFAULT_HTTP2_KEEP_ALIVE_INTERVAL (http2_keep_alive_interval service_config);
        grpc_resolution := resolution; grpc_tls := client_tls_config |}.

(** What a retried call amounts to: its result, the number of calls made and
    the milliseconds slept before each retry. *)
Record retry_result (Res : Type) := {
  retry_value : outcome ClientError Res;
  retry_calls : Z;
  retry_sleeps : list Z
}.
Arguments Build_retry_result {Res}.
Arguments retry_value {Res}.
Arguments retry_calls {Res}.
Arguments retry_sleeps {Res}.

Definition DEFAULT_MAX_RETRIES : Z := 3.

Section clients.
Context {CN : Connector}.

Definition http_client (default_port : Z) (s : ServiceConfig) : outcome ClientError HttpClient :=
  settings ← create_http_client default_port s; connect_http settings.
Definition grpc_client (default_port : Z) (s : ServiceConfig) : outcome ClientError GrpcClient :=
  settings ← create_grpc_client default_port s; connect_grpc settings.
Definition optional_client (default_port : Z) (s : option ServiceConfig)
    : outcome ClientError (option HttpClient) :=
  match s with
  | Some s => c ← http_client default_port s; Ok (Some c)
  | None => Ok None
  end.

(** ** The clients' state *)
Record TgisClient := { tgis_client : GrpcClient }.
Record NlpClient := { nlp_client : GrpcClient; nlp_health_client : GrpcClient }.

Definition TGIS_DEFAULT_PORT : Z := 8033.
Definition NLP_DEFAULT_PORT : Z := 8085.
Definition tgis_client_new (config : ServiceConfig) : outcome ClientError TgisClient :=
  client ← grpc_client TGIS_DEFAULT_PORT config; Ok {| tgis_client := client |}.
Definition nlp_client_new (config : ServiceConfig) : outcome ClientError NlpClient :=
  client ← grpc_client NLP_DEFAULT_PORT config;
  health ← grpc_client NLP_DEFAULT_PORT config;
  Ok {| nlp_client := client; nlp_health_client := health |}.

Inductive GenerationClientInner := InnerTgis (client : TgisClient) | InnerNlp (client : NlpClient).
Record GenerationClient := {
  gen_inner : option GenerationClientInner;
  gen_max_retries : Z
}.
Definition generation_tgis (client : TgisClient) (retries : Z) : GenerationClient :=
  {| gen_inner := Some (InnerTgis client); gen_max_retries := retries |}.
Definition generation_nlp (client : NlpClient) (retries : Z) : GenerationClient :=
  {| gen_inner := Some (InnerNlp client); gen_max_retries := retries |}.
Definition generation_not_configured : GenerationClient :=
  {| gen_inner := None; gen_max_retries := 0 |}.

Record ChunkerClient := { chunker_client : GrpcClient; chunker_health_client : GrpcClient }.

Definition CHUNKER_DEFAULT_PORT : Z := 8085.
Definition chunker_client_new (config : ServiceConfig) : outcome ClientError ChunkerClient :=
  client ← grpc_client CHUNKER_DEFAULT_PORT config;
  health ← grpc_client CHUNKER_DEFAULT_PORT config;
  Ok {| chunker_client := client; chunker_health_client := health |}.

Record DetectorClient := {
  detector_client : HttpClient;
  detector_health_client : option HttpClient;
  detector_router_client : option HttpClient;
  detector_router_config : option RouterConfig;
  detector_client_id : string;
  detector_queue_model_id : option string
}.

Definition router_client (router_config : option RouterConfig)
    : outcome ClientError (option HttpClient) :=
  match router_config with
  | Some rc =>
      if router_enabled rc then
        c ← http_client (router_port rc) (service_config_new (router_hostname rc) (router_port rc));
        Ok (Some c)
      else Ok None
  | None => Ok None
  end.

Definition DETECTOR_DEFAULT_PORT : Z := 8080.
Definition detector_client_new (detector_id : string) (config : ServiceConfig)
    (health_config : option ServiceConfig) (router_config : option RouterConfig)
    (model_id : option string) : outcome ClientError DetectorClient :=
  client ← http_client DETECTOR_DEFAULT_PORT config;
  health_client ← optional_client DETECTOR_DEFAULT_PORT health_config;
  router ← router_client router_config;
  Ok {| detector_client := client; detector_health_client := health_client;
        detector_router_client := router; detector_router_config := router_config;
        detector_client_id := detector_id; detector_queue_model_id := model_id |}.

(** [s.contains(pattern)] *)
Definition str_contains (pattern s : string) : bool :=
  match String.index 0 pattern s with Some _ => true | None => false end.

(** Whether a detector request goes through the router ([post]), and the
    model name its queue is addressed by ([post_via_router]). *)
Definition use_router (self : DetectorClient) (model_id : string) : bool :=
  match detector_router_config self with
  | Some r => router_enabled r
              && (bool_decide (supported_detectors r = [])
                  || existsb (fun d => str_contains d model_id) (supported_detectors r))
  | None => false
  end.
Definition queue_model_name (self : DetectorClient) : string :=
  default (detector_client_id self) (detector_queue_model_id self).

Record OpenAiClient := {
  openai_client : HttpClient;
  openai_health_client : option HttpClient;
  openai_router_client : option HttpClient;
  openai_router_config : option RouterConfig
}.

Definition OPENAI_DEFAULT_PORT : Z := 8080.
Definition openai_client_new (config : ServiceConfig) (health_config : option ServiceConfig)
    (router_config : option RouterConfig) : outcome ClientError OpenAiClient :=
  client ← http_client OPENAI_DEFAULT_PORT config;
  health_client ← optional_client OPENAI_DEFAULT_PORT health_config;
  router ← router_client router_config;
  Ok {| openai_client := client; openai_health_client := health_client;
        openai_router_client := router; openai_router_config := router_config |}.

(** ** The client map

    A map of clients of different types; [get] returns a client only at the
    type it was inserted with (the [TypeId] comparison of [downcast_ref]). *)
Inductive client_kind := KGeneration | KOpenAi | KChunker | KDetector.
#[export] Instance client_kind_eq_dec : EqDecision client_kind.
Proof. solve_decision. Defined.

Definition client_of (k : client_kind) : Type :=
  match k with
  | KGeneration => GenerationClient
  | KOpenAi => OpenAiClient
  | KChunker => ChunkerClient
  | KDetector => DetectorClient
  end.

Inductive AnyClient := mk_client (k : client_kind) (c : client_of k).

Definition kind_of (c : AnyClient) : client_kind := let 'mk_client k _ := c in k.

Definition downcast_ref (k : client_kind) (c : AnyClient) : option (client_of k) :=
  match c with
  | mk_client k' v =>
      match k', k return client_of k' -> option (client_of k) with
      | KGeneration, KGeneration => fun v => Some v
      | KOpenAi, KOpenAi => fun v => Some v
      | KChunker, KChunker => fun v => Some v
      | KDetector, KDetector => fun v => Some v
      | _, _ => fun _ => None
      end v
  end.

(** [ClientMap]: ids to clients. *)
Notation ClientMap := (gmap string AnyClient).
Definition client_map_insert (k : client_kind) (key : string) (value : client_of k)
    (m : ClientMap) : ClientMap := <[key := mk_client k value]> m.
Definition client_map_get (k : client_kind) (key : string) (m : ClientMap) : option (client_of k) :=
  c ← m !! key; downcast_ref k c.

(** ** [create_clients] (src/orchestrator.rs) *)
Context {RT : Runtime}.

Definition insert_generation (config : OrchestratorConfig) (clients : ClientMap)
    : outcome ClientError ClientMap :=
  match generation config with
  | Some generation =>
      let retries := default DEFAULT_MAX_RETRIES (max_retries (generation_service generation)) in
      match provider generation with
      | Tgis =>
          c ← tgis_client_new (generation_service generation);
          Ok (client_map_insert KGeneration "generation" (generation_tgis c retries) clients)
      | Nlp =>
          c ← nlp_client_new (generation_service generation);
          Ok (client_map_insert KGeneration "generation" (generation_nlp c retries) clients)
      end
  | None => Ok clients
  end.

Definition insert_openai (config : OrchestratorConfig) (clients : ClientMap)
    : outcome ClientError ClientMap :=
  match openai config with
  | Some o =>
      c ← openai_client_new (openai_service o) (openai_health_service o) (router config);
      Ok (client_map_insert KOpenAi "openai" c clients)
  | None => Ok clients
  end.

(** [for (id, v) in map { clients.insert(id, new(v)?); }] *)
Definition insert_all {V} (k : client_kind) (new : string -> V -> outcome ClientError (client_of k))
    (l : list (string * V)) (clients : ClientMap) : outcome ClientError ClientMap :=
  foldl (fun acc kv => clients ← acc; c ← new kv.1 kv.2; Ok (client_map_insert k kv.1 c clients))
    (Ok clients) l.

Definition insert_chunkers (config : OrchestratorConfig) (clients : ClientMap)
    : outcome ClientError ClientMap :=
  match chunkers config with
  | Some chunkers =>
      insert_all KChunker (fun _ chunker => chunker_client_new (chunker_service chunker))
        (hash_iter chunkers) clients
  | None => Ok clients
  end.

Definition insert_detectors (config : OrchestratorConfig) (clients : ClientMap)
    : outcome ClientError ClientMap :=
  insert_all KDetector (fun detector_id detector =>
      detector_client_new detector_id (detector_service detector)
        (detector_health_service detector) (router config) (detector_model_id detector))
    (hash_iter (detectors config)) clients.

Definition create_clients (config : OrchestratorConfig) : outcome OrchError ClientMap :=
  map_err Client
    (m ← insert_generation config ∅;
     m ← insert_openai config m;
     m ← insert_chunkers config m;
     insert_detectors config m).

(** ** Retrying a generation call (src/clients/generation.rs)

    [answers n] is what the [n]-th call returns. *)
Definition retryable (e : ClientError) : bool :=
  bool_decide (status_code e ∈ [502; 503; 504; 505; 506]).

Definition backoff_ms (attempt : Z) : Z := wrap 64 (2 ^ wrap 32 (as_u32 attempt - 1)).

(** [calls] counts the calls made; [attempt] is the program's counter, a
    [usize] that wraps. *)
Fixpoint retry_loop {Res} (fuel : nat) (max_retries calls attempt : Z)
    (answers : Z -> outcome ClientError Res) (sleeps : list Z) : option (retry_result Res) :=
  match fuel with
  | O => None
  | S fuel =>
      let attempt := wrap 64 (attempt + 1) in
      let calls := calls + 1 in
      match answers calls with
      | Err error =>
          if retryable error then
            if max_retries <? attempt
            then Some (Build_retry_result (Err error) calls sleeps)
            else retry_loop fuel max_retries calls attempt answers (sleeps ++ [backoff_ms attempt])
          else Some (Build_retry_result (Err error) calls sleeps)
      | r => Some (Build_retry_result r calls sleeps)
      end
  end.

(** The fuel is the number of calls after which the loop gives up, which it
    always does but for the largest [max_retries]. *)
Definition retry_function {Res} (max_retries : Z) (answers : Z -> outcome ClientError Res)
    : option (retry_result Res) :=
  retry_loop (S (Z.to_nat max_retries)) max_retries 0 0 answers [].
End clients.

(** ** Health (src/health.rs, src/clients/http.rs, src/clients/chunker.rs) *)
Inductive HealthStatus := Healthy | Unhealthy | Unknown.
#[export] Instance HealthStatus_eq_dec : EqDecision HealthStatus.
Proof. solve_decision. Defined.

Definition health_status_to_string (s : HealthStatus) : string :=
  match s with Healthy => "HEALTHY" | Unhealthy => "UNHEALTHY" | Unknown => "UNKNOWN" end.

Inductive ServingStatus := ServingUnknown | Serving | NotServing | ServiceUnknown.
Definition serving_status_name (s : ServingStatus) : string :=
  match s with
  | ServingUnknown => "UNKNOWN" | Serving => "SERVING" | NotServing => "NOT_SERVING"
  | ServiceUnknown => "SERVICE_UNKNOWN"
  end.

Definition health_status_from_serving (value : ServingStatus) : HealthStatus :=
  match value with
  | Serving => Healthy
  | NotServing => Unhealthy
  | ServingUnknown | ServiceUnknown => Unknown
  end.
Definition serving_reason (status : ServingStatus) : option string :=
  match status with Serving => None | _ => Some (serving_status_name status) end.

Definition health_status_from_code (code : StatusCode) : HealthStatus :=
  if (200 <=? code) && (code <=? 299) then Healthy
  else if (500 <=? code) && (code <=? 599) then Unhealthy
  else Unknown.

Record HealthCheckResult := {
  hc_status : HealthStatus;
  hc_code : StatusCode;
  hc_reason : option string
}.

(** [From<Result<Response<HealthCheckResponse>, Status>>]: the answer's
    serving status, or the call's status code and message. *)
Definition health_from_grpc (result : ServingStatus + GrpcCode * string) : HealthCheckResult :=
  match result with
  | inl response => {| hc_status := health_status_from_serving response; hc_code := OK;
                       hc_reason := serving_reason response |}
  | inr (code, message) => {| hc_status := Unknown; hc_code := grpc_to_http_code code;
                              hc_reason := Some message |}
  end.

(** [ChunkerClient::health]: any answer, or an error that shows the server
    is up, is healthy. *)
Definition chunker_health (response : ServingStatus + GrpcCode) : HealthCheckResult :=
  let code := match response with
              | inl _ => CodeOk
              | inr CodeInvalidArgument | inr CodeNotFound => CodeOk
              | inr c => c
              end in
  {| hc_status := match code with CodeOk => Healthy | _ => Unhealthy end;
     hc_code := grpc_to_http_code code; hc_reason := None |}.

(** The body of a health answer: its text when it can be read, and what that
    parses to. *)
Inductive HealthBody := Unreadable | NoHealthStatus | HealthBodyOf (s : HealthStatus) (reason : option string).

(** [HttpClient::health]: the response's status, its body, and the status's
    canonical reason; or a transport error.  [Response::json] expects that the
    body can be read. *)
Definition http_health {E} (canonical_reason : StatusCode -> option string)
    (res : StatusCode * HealthBody + string) : outcome E HealthCheckResult :=
  match res with
  | inl (status, body) =>
      if status =? OK then
        match body with
        | HealthBodyOf s reason =>
            Ok {| hc_status := s; hc_code := OK;
                  hc_reason := match s with Healthy => None | _ => reason end |}
        | NoHealthStatus => Ok {| hc_status := Healthy; hc_code := OK; hc_reason := None |}
        | Unreadable => Panic "clients/http.rs:75"
        end
      else
        Ok {| hc_status := if (500 <=? status) && (status <? 600) then Unhealthy
                        else if (400 <=? status) && (status <? 500) then Unknown
                        else Unknown;
           hc_code := status; hc_reason := canonical_reason status |}
  | inr e => Ok {| hc_status := Unknown; hc_code := INTERNAL_SERVER_ERROR; hc_reason := Some e |}
  end.

(** ** Lemmas *)
Section clients_lemmas.
Context {CN : Connector} {RT : Runtime} {RL : RuntimeLaws RT}.

Lemma client_map_get_insert k key (v : client_of k) m :
  client_map_get k key (client_map_insert k key v m) = Some v.
Proof.
  unfold client_map_get, client_map_insert. rewrite lookup_insert_eq. simpl. by destruct k.
Qed.

(** A client is found at kind [k] exactly when the id's client is of that
    kind. *)
Lemma client_map_get_kind k key m :
  is_Some (client_map_get k key m) <-> kind_of <$> m !! key = Some k.
Proof.
  unfold client_map_get. destruct (m !! key) as [[k' v]|]; simpl.
  - destruct k', k; simpl; split; intros H; try done; try (by destruct H); by eexists.
  - by split; [intros []|].
Qed.

Lemma insert_all_kinds {V} k new (l : list (string * V)) m m' id :
  insert_all k new l m = Ok m' ->
  kind_of <$> m' !! id = if decide (id ∈ l.*1) then Some k else kind_of <$> m !! id.
Proof.
  unfold insert_all. revert m'; induction l as [|[id' v] l IH] using rev_ind; intros m'.
  { simpl. by intros [= ->]. }
  rewrite foldl_app. simpl. intros (m1 & E & (c & _ & [= <-])%bind_Ok)%bind_Ok.
  unfold client_map_insert. rewrite fmap_app. simpl. destruct (decide (id = id')) as [->|N].
  - rewrite lookup_insert_eq, decide_True; [done|]. set_solver.
  - rewrite lookup_insert_ne by done. rewrite (IH _ E).
    destruct (decide (id ∈ l.*1)); [rewrite decide_True|rewrite decide_False];
      by rewrite ?elem_of_app, ?list_elem_of_singleton; naive_solver.
Qed.

Lemma retry_loop_spec {Res} fuel max_retries attempt (answers : Z -> outcome ClientError Res) sleeps :
  0 <= attempt <= max_retries -> max_retries < usize_max -> Z.of_nat fuel = max_retries - attempt + 1 ->
  (forall i, 1 <= i <= attempt -> exists e, answers i = Err e /\ retryable e = true) ->
  sleeps = backoff_ms <$> seqZ 1 attempt ->
  exists r, retry_loop fuel max_retries attempt attempt answers sleeps = Some r /\
    attempt + 1 <= retry_calls r <= max_retries + 1 /\
    retry_value r = answers (retry_calls r) /\
    (forall i, 1 <= i < retry_calls r -> exists e, answers i = Err e /\ retryable e = true) /\
    (forall e, retry_value r = Err e -> retryable e = true -> retry_calls r = max_retries + 1) /\
    retry_sleeps r = backoff_ms <$> seqZ 1 (retry_calls r - 1).
Proof.
  revert attempt sleeps; induction fuel as [|fuel IH]; intros attempt sleeps Ha Hmax Hf Hp ->; [lia|].
  cbn [retry_loop]. rewrite wrap_id by (unfold in_width, usize_max in *; lia).
  set (a := attempt + 1). assert (Hback : a - 1 = attempt) by lia.
  assert (Hstop : forall v, answers a = v ->
    (forall e, v = Err e -> retryable e = true -> a = max_retries + 1) ->
    exists r, Some (Build_retry_result v a (backoff_ms <$> seqZ 1 attempt)) = Some r /\
      attempt + 1 <= retry_calls r <= max_retries + 1 /\
      retry_value r = answers (retry_calls r) /\
      (forall i, 1 <= i < retry_calls r -> exists e, answers i = Err e /\ retryable e = true) /\
      (forall e, retry_value r = Err e -> retryable e = true -> retry_calls r = max_retries + 1) /\
      retry_sleeps r = backoff_ms <$> seqZ 1 (retry_calls r - 1)).
  { intros v Hv He. eexists. split; [done|]. simpl. rewrite Hback.
    split; [lia|]. split; [done|]. split; [|by split]. intros i Hi. apply Hp. lia. }
  destruct (answers a) as [res|e|site] eqn:E; [by apply Hstop| |by apply Hstop].
  destruct (retryable e) eqn:Er; [|apply Hstop; [done|]; intros e' [= ->]; congruence].
  destruct (Z.ltb_spec max_retries a); [apply Hstop; [done|]; intros; lia|].
  destruct (IH a ((backoff_ms <$> seqZ 1 attempt) ++ [backoff_ms a]))
    as (r & Hr & Hc & Hrest); [lia|done|lia| | |].
  - intros i Hi. destruct (decide (i = a)) as [->|]; [by eexists|]. apply Hp. lia.
  - replace a with (attempt + 1) by done. rewrite (seqZ_app 1 attempt 1) by lia.
    rewrite fmap_app. f_equal. by rewrite (Z.add_comm attempt 1).
  - exists r. split; [done|]. split; [lia|done].
Qed.

(** No counter exceeds [usize::MAX]. *)
Lemma retry_loop_diverges {Res} fuel calls attempt (answers : Z -> outcome ClientError Res) sleeps :
  (forall i, calls < i -> exists e, answers i = Err e /\ retryable e = true) ->
  retry_loop fuel usize_max calls attempt answers sleeps = None.
Proof.
  revert calls attempt sleeps; induction fuel as [|fuel IH]; intros calls attempt sleeps H; [done|].
  cbn [retry_loop]. destruct (H (calls + 1)) as (e & -> & ->); [lia|].
  destruct (Z.ltb_spec usize_max (wrap 64 (attempt + 1))) as [Hlt|].
  - pose proof (wrap_bound 64 (attempt + 1) ltac:(lia)). unfold in_width, usize_max in *. lia.
  - apply IH. intros i Hi. apply H. lia.
Qed.
End clients_lemmas.

(** ** Properties *)
Section clients_properties.
Context {CN : Connector} {RT : Runtime} {RL : RuntimeLaws RT}.

(** The kind of client each id is expected to resolve to: detectors are
    inserted last and replace a chunker, the "openai" or the "generation"
    client of the same id. *)
Definition expected_kind (config : OrchestratorConfig) (id : string) : option client_kind :=
  if decide (is_Some (detector config id)) then Some KDetector
  else if decide (is_Some (chunker config id)) then Some KChunker
  else if decide (id = "openai" /\ is_Some (openai config)) then Some KOpenAi
  else if decide (id = "generation" /\ is_Some (generation config)) then Some KGeneration
  else None.

Lemma create_clients_kind config m id :
  create_clients config = Ok m -> kind_of <$> m !! id = expected_kind config id.
Proof.
  unfold create_clients. intros Hm.
  destruct (m1 ← _; _) as [m'| |] eqn:E in Hm; simpl in Hm; try done.
  injection Hm as ->.
  apply bind_Ok in E as (m1 & E1 & E). apply bind_Ok in E as (m2 & E2 & E).
  apply bind_Ok in E as (m3 & E3 & E4).
  unfold insert_detectors in E4. rewrite (insert_all_kinds _ _ _ _ _ _ E4).
  assert (H3 : kind_of <$> m3 !! id =
    if decide (is_Some (chunker config id)) then Some KChunker else kind_of <$> m2 !! id).
  { unfold insert_chunkers, chunker in *. destruct (chunkers config) as [ch|].
    - rewrite (insert_all_kinds _ _ _ _ _ _ E3). apply decide_ext, elem_of_hash_keys.
    - injection E3 as ->. by destruct (decide _) as [[]|]. }
  assert (H2 : kind_of <$> m2 !! id =
    if decide (id = "openai" /\ is_Some (openai config)) then Some KOpenAi
    else kind_of <$> m1 !! id).
  { unfold insert_openai in E2. destruct (openai config).
    - apply bind_Ok in E2 as (c & _ & [= <-]). unfold client_map_insert.
      destruct (decide (id = "openai")) as [->|N].
      + rewrite lookup_insert_eq, decide_True; [done|]. split; [done|by eexists].
      + rewrite lookup_insert_ne by done. rewrite decide_False; [done|]. by intros [].
    - injection E2 as ->. rewrite decide_False; [done|]. by intros [_ []]. }
  assert (H1 : kind_of <$> m1 !! id =
    if decide (id = "generation" /\ is_Some (generation config)) then Some KGeneration else None).
  { unfold insert_generation in E1. destruct (generation config) as [g|].
    - destruct (provider g); apply bind_Ok in E1 as (c & _ & [= <-]); unfold client_map_insert;
        (destruct (decide (id = "generation")) as [->|N];
          [rewrite lookup_insert_eq, decide_True; [done|split; [done|by eexists]]
          |rewrite lookup_insert_ne, lookup_empty, decide_False by (done || by intros []); done]).
    - injection E1 as <-. rewrite lookup_empty, decide_False; [done|]. by intros [_ []]. }
  rewrite H3, H2, H1. unfold expected_kind, detector.
  change ((hash_iter (detectors config)).*1) with (hash_keys (detectors config)).
  by rewrite (decide_ext _ _ _ _ (elem_of_hash_keys (detectors config) id)).
Qed.

(** C34. After start-up every id resolves to the client of its kind: each
    configured detector is found under its id; a configured chunker is found
    exactly when no detector has the same id, and the OpenAI and generation
    clients exactly when they are configured and no detector or chunker is
    called "openai" or "generation". *)
Theorem create_clients_lookup (config : OrchestratorConfig) (m : gmap string AnyClient) :
  create_clients config = Ok m ->
  forall id k, is_Some (client_map_get k id m) <-> expected_kind config id = Some k.
Proof.
  intros Hm id k. by rewrite client_map_get_kind, (create_clients_kind _ _ _ Hm).
Qed.

(** C35. Unless [max_retries] is [usize::MAX], a generation call is made between
    one and [max_retries + 1] times and always comes to an end; its result is
    the last call's; every earlier call failed with one of the retryable
    gateway errors, a retryable error is returned only after
    [max_retries + 1] calls, and the [i]-th retry waits for the [i]-th
    backoff. With [usize::MAX] the counter of attempts wraps before it
    exceeds it, and a call that keeps failing is retried for ever. *)
Theorem retry_function_spec {Res} (max_retries : Z) (answers : Z -> outcome ClientError Res) :
  0 <= max_retries <= usize_max ->
  (max_retries < usize_max -> exists r, retry_function max_retries answers = Some r /\
    1 <= retry_calls r <= max_retries + 1 /\
    retry_value r = answers (retry_calls r) /\
    (forall i, 1 <= i < retry_calls r -> exists e, answers i = Err e /\ retryable e = true) /\
    (forall e, retry_value r = Err e -> retryable e = true -> retry_calls r = max_retries + 1) /\
    retry_sleeps r = backoff_ms <$> seqZ 1 (retry_calls r - 1)) /\
  (max_retries = usize_max -> (forall i, 1 <= i -> exists e, answers i = Err e /\ retryable e = true) ->
    forall fuel, retry_loop fuel max_retries 0 0 answers [] = None).
Proof.
  intros H. split.
  - intros Hmax. apply (retry_loop_spec _ _ 0); [lia|done|lia|intros; lia|done].
  - intros -> He fuel. apply retry_loop_diverges. intros i Hi. apply He. lia.
Qed.

(** The backoff doubles with each retry, 1 ms first, up to the 64th; from
    the 65th on the power overflows 64 bits and the retry does not wait at all. *)
Theorem backoff_ms_overflow (attempt : Z) :
  1 <= attempt < 2 ^ 32 ->
  (attempt <= 64 -> backoff_ms attempt = 2 ^ (attempt - 1)) /\
  (64 < attempt -> backoff_ms attempt = 0).
Proof.
  intros H. assert (E : wrap 32 (as_u32 attempt - 1) = attempt - 1).
  { unfold as_u32. rewrite !wrap_id; unfold in_width; rewrite ?wrap_id; unfold in_width; lia. }
  unfold backoff_ms. rewrite E. split; intros Ha.
  - apply wrap_id. split; [lia|]. apply Z.pow_lt_mono_r; lia.
  - unfold wrap. replace (attempt - 1) with (64 + (attempt - 65)) by lia.
    rewrite Z.pow_add_r by lia. rewrite Z.mul_comm. by rewrite Z_mod_mult.
Qed.

(** The keep-alive settings an HTTP client is built with are exchanged with
    respect to the gRPC client's and to their names. *)
Lemma http_keep_alive_exchanged p s h g :
  create_http_client p s = Ok h -> create_grpc_client p s = Ok g ->
  http_http2_keep_alive_interval h = grpc_keep_alive_timeout g /\
  http_http2_keep_alive_timeout h = grpc_http2_keep_alive_interval g.
Proof.
  unfold create_http_client, create_grpc_client.
  intros (_ & _ & (t & _ & [= <-])%bind_Ok)%bind_Ok (_ & _ & (t' & _ & [= <-])%bind_Ok)%bind_Ok. done.
Qed.

(** Building the settings of an HTTP client fails only on a host name that is no
    URL's or a TLS setting left as a name; so for a configuration loaded from a
    file with a [tls] section, every configured service whose host name the
    url crate accepts gets its settings, at the configured or default port,
    over https exactly when TLS is configured. *)
Theorem loaded_services_have_settings (to_lowercase : string -> string)
    (c0 c : OrchestratorConfig) (default_port : Z) (s : ServiceConfig) :
  load to_lowercase (Ok c0) = Ok c -> is_Some (tls_configs c0) -> service_of c s ->
  url_parses (base_url_text s) = true -> port_settable (base_url_text s) (default default_port (port s)) = true ->
  exists h, create_http_client default_port s = Ok h /\
    http_port h = default default_port (port s) /\
    (http_protocol h = "https" <-> is_Some (http_tls h)) /\
    is_valid_hostname (http_host h) = true.
Proof.
  unfold load. intros (c1 & [= <-] & H)%bind_Ok Htls Hs Hup Hps. apply bind_Ok in H as (c2 & Ha & H).
  apply bind_Ok in H as ([] & Hv & [= ->]).
  pose proof (apply_named_tls_configs_resolved _ _ Ha Htls _ Hs) as Hn.
  assert (Hh : is_valid_hostname (hostname s) = true).
  { apply validate_cases in Hv as (_ & Hg & Ho & Hd & Hch).
    rewrite validate_detector_configs_Ok in Hd. rewrite validate_chunker_configs_Ok in Hch.
    unfold validate_generation_config, validate_openai_configs in *.
    destruct Hs as [g E|o E|m id ch E1 E2|id d E].
    - rewrite E in Hg. by apply guard_Ok in Hg as [?%negb_false_iff _].
    - rewrite E in Ho. by apply guard_Ok in Ho as [?%negb_false_iff _].
    - by apply (Hch m id).
    - by apply (Hd id). }
  unfold create_http_client, check_base_url. rewrite Hup, Hps. unfold protocol_of, unresolved_tls in *.
  destruct (tls s) as [[name|cfg]|]; [destruct Hn; by eexists| |]; eexists; simpl;
    (split; [done|]; split; [done|]; split; [|done]); split; try done; by intros [].
Qed.
End clients_properties.

(** ** Witnesses *)
Section witnesses.
#[local] Existing Instance fifo_runtime.

(** A connector that always connects; a client is its settings. *)
Definition settings_connector : Connector := {|
  url_parses _ := true;
  port_settable _ _ := true;
  HttpClient := HttpSettings;
  GrpcClient := GrpcSettings;
  connect_http h := Ok h;
  connect_grpc g := Ok g
|}.
#[local] Existing Instance settings_connector.

Definition ex_clients : gmap string AnyClient :=
  match create_clients ex_loaded with Ok m => m | _ => ∅ end.

Lemma ex_clients_created : create_clients ex_loaded = Ok ex_clients.
Proof. vm_compute. reflexivity. Qed.

Lemma create_clients_lookup_witness :
  is_Some (client_map_get KDetector "hap" ex_clients) /\
  is_Some (client_map_get KChunker "sentence" ex_clients).
Proof.
  split.
  - apply (@create_clients_lookup _ _ fifo_runtime_laws ex_loaded ex_clients ex_clients_created).
    vm_compute. reflexivity.
  - apply (@create_clients_lookup _ _ fifo_runtime_laws ex_loaded ex_clients ex_clients_created).
    vm_compute. reflexivity.
Defined.

(** Two refused connections, then an answer. *)
Definition ex_answers (n : Z) : outcome ClientError Z :=
  if n <=? 2 then Err (Grpc SERVICE_UNAVAILABLE "connection refused") else Ok 42.

Lemma retry_function_spec_witness :
  retry_calls <$> retry_function 3 ex_answers = Some 3 /\
  exists r, retry_function 3 ex_answers = Some r /\ retry_value r = ex_answers (retry_calls r).
Proof.
  split; [vm_compute; reflexivity|].
  destruct (proj1 (retry_function_spec 3 ex_answers ltac:(unfold usize_max; lia)) ltac:(unfold usize_max; lia))
    as (r & Hr & _ & Hv & _).
  exists r. split; [exact Hr|exact Hv].
Defined.

Lemma backoff_ms_overflow_witness : backoff_ms 5 = 16 /\ backoff_ms 65 = 0.
Proof.
  split.
  - apply (backoff_ms_overflow 5); lia.
  - apply (backoff_ms_overflow 65); lia.
Defined.

Lemma loaded_services_have_settings_witness :
  exists h, create_http_client 8080 (ex_service (Some (TlsResolved ex_tls_config))) = Ok h /\
    http_port h = 8080 /\
    (http_protocol h = "https" <-> is_Some (http_tls h)) /\
    is_valid_hostname (http_host h) = true.
Proof.
  assert (E : load (fun s => s) (Ok ex_config) = Ok ex_loaded) by (vm_compute; reflexivity).
  assert (Ht : is_Some (tls_configs ex_config)) by (eexists; reflexivity).
  refine (@loaded_services_have_settings settings_connector fifo_runtime fifo_runtime_laws (fun s => s)
            ex_config ex_loaded 8080 _ E Ht _ _ _).
  - refine (service_of_detector ex_loaded "hap"
              (ex_detector TextContents "sentence" (f64_of_Z 0) (Some (TlsResolved ex_tls_config))) _).
    vm_compute. reflexivity.
  - reflexivity.
  - reflexivity.
Defined.
End witnesses.
