(* ===== verification/Tls.v ===== *)
(** * TLS

    src/utils/tls.rs (the clients' TLS configuration, from the settings of
    [Config.TlsConfig]), the TLS part of [create_http_client] and
    [create_grpc_client] (src/clients.rs), and [configure_tls] of
    src/server/tls.rs (the server's).  Files, the parsing of PEM and DER, and what
    rustls accepts are parameters ([Rustls]); a configuration handed to rustls
    is a record of what it was built from. *)
From S2P Require Import Prelude External Errors Utf8 Hostname Config Clients.
#[local] Open Scope string_scope.
#[local] Open Scope list_scope.
#[local] Open Scope Z_scope.

(** [rustls_pemfile::Item]: the sections of a PEM file, keys apart. *)
Inductive PemItem (Key : Type) :=
| Pkcs1Key (key : Key)
| Pkcs8Key (key : Key)
| Sec1Key (key : Key)
| OtherItem.
Arguments Pkcs1Key {Key} _.
Arguments Pkcs8Key {Key} _.
Arguments Sec1Key {Key} _.
Arguments OtherItem {Key}.

Class Rustls := {
  CertificateDer : Type;
  PrivateKeyDer : Type;
  (** the bytes of a file, or why it cannot be opened *)
  open_file : string -> string + string;
  (** rustls_pemfile's iterator of certificates, the items [read_one] returns one
      after the other, and [private_key] *)
  pem_certs : string -> list (CertificateDer + string);
  pem_items : string -> list (PemItem PrivateKeyDer + string);
  pem_private_key : string -> option PrivateKeyDer + string;
  (** whether the platform has a certificate store *)
  native_roots : bool;
  (** [RootCertStore::add]: why a certificate is no trust anchor *)
  root_error : CertificateDer -> option string;
  (** building a verifier of clients, and [with_single_cert] and
      [with_client_auth_cert] *)
  client_verifier_error : list CertificateDer -> option string;
  key_pair_error : list CertificateDer -> PrivateKeyDer -> option string;
  (** [WebPkiServerVerifier] on a server's chain and name, with the roots given, or the
      platform's, or webpki's *)
  verify_with_anchors : list CertificateDer -> list CertificateDer -> string -> option string;
  verify_with_platform : list CertificateDer -> string -> option string;
  verify_with_webpki : list CertificateDer -> string -> option string
}.

Section tls.
Context {RU : Rustls}.

(** [result] of the libraries: a value or an error text. *)
Definition result {E A} (f : string -> E) (r : A + string) : outcome E A :=
  match r with inl a => Ok a | inr e => Err (f e) end.
(** [expect] and [unwrap] *)
Definition expect {E A} (site : string) (r : A + string) : outcome E A :=
  match r with inl a => Ok a | inr _ => Panic site end.

(** ** Client configurations *)
Inductive TlsError :=
| FailedReadCerts (error : string)
| FailedReadKey (error : string)
| FailedReadCaCerts (error : string)
| MissingTlsKey
| RustlsError (error : string).

Definition tls_error_to_string (e : TlsError) : string :=
  match e with
  | FailedReadCerts e => "failed to read TLS certs from file: " +:+ e
  | FailedReadKey e => "failed to read TLS private key from file: " +:+ e
  | FailedReadCaCerts e => "failed to read TLS CA certs from file: " +:+ e
  | MissingTlsKey => "missing TLS private key"
  | RustlsError e => "TLS configuration error: " +:+ e
  end.

Definition into_client_error (self : TlsError) : ClientError :=
  Http INTERNAL_SERVER_ERROR ("client TLS configuration failed: " +:+ tls_error_to_string self).

Record TlsConfigBuilder := {
  tb_cert_path : string;
  tb_key_path : option string;
  tb_ca_cert_path : option string;
  tb_insecure : option bool
}.
Record ResolvedTlsConfig := {
  resolved_cert : list CertificateDer;
  resolved_key : option PrivateKeyDer;
  resolved_ca_cert : option (list CertificateDer);
  resolved_insecure : bool
}.

Definition read_certs (f : string -> TlsError) (path : string) : outcome TlsError (list CertificateDer) :=
  file ← result f (open_file path);
  collect (result f <$> pem_certs file).

Definition read_key (path : string) : outcome TlsError PrivateKeyDer :=
  file ← result FailedReadKey (open_file path);
  key ← result FailedReadKey (pem_private_key file);
  ok_or MissingTlsKey key.

(** [match option { Some(path) => Some(read(path)?), None => None }] *)
Definition read_given {E A} (read : string -> outcome E A) (path : option string) : outcome E (option A) :=
  match path with
  | Some path => a ← read path; Ok (Some a)
  | None => Ok None
  end.

(** [TlsConfigBuilder::build] *)
Definition tls_build (self : TlsConfigBuilder) : outcome TlsError ResolvedTlsConfig :=
  cert ← read_certs FailedReadCerts (tb_cert_path self);
  key ← read_given read_key (tb_key_path self);
  ca_cert ← read_given (read_certs FailedReadCaCerts) (tb_ca_cert_path self);
  Ok {| resolved_cert := cert; resolved_key := key; resolved_ca_cert := ca_cert;
        resolved_insecure := default false (tb_insecure self) |}.

(** rustls's [ClientConfig]: who verifies servers, and what the client shows. *)
Inductive Verifier := NativeRoots | WebpkiRoots | CaRoots (anchors : list CertificateDer) | NoVerifier.
Record ClientConfig := {
  verifier : Verifier;
  client_identity : option (list CertificateDer * PrivateKeyDer)
}.

Definition default_roots : Verifier := if native_roots then NativeRoots else WebpkiRoots.

Definition build_insecure_client_config : ClientConfig := {| verifier := NoVerifier; client_identity := None |}.

(** CA certificates that are no trust anchors are skipped. *)
Definition build_client_config (tls_config : TlsConfig) : outcome TlsError ClientConfig :=
  cert_path ← unwrap "utils/tls.rs:205" (cert_path tls_config);
  resolved ← tls_build {| tb_cert_path := cert_path; tb_key_path := key_path tls_config;
                          tb_ca_cert_path := client_ca_cert_path tls_config;
                          tb_insecure := insecure tls_config |};
  let roots := match resolved_ca_cert resolved with
               | Some (cert :: certs) => CaRoots (filter (fun c => root_error c = None) (cert :: certs))
               | _ => default_roots
               end in
  identity ← match resolved_key resolved, resolved_cert resolved with
             | Some key, cert :: certs =>
                 match key_pair_error (cert :: certs) key with
                 | None => Ok (Some (cert :: certs, key))
                 | Some e => Err (RustlsError e)
                 end
             | _, _ => Ok None
             end;
  Ok {| verifier := if resolved_insecure resolved : bool then NoVerifier else roots; client_identity := identity |}.

(** [ServerCertVerifier::verify_server_cert]: [None] when the certificate is
    accepted. *)
Definition verify_server_cert (self : Verifier) (chain : list CertificateDer) (server_name : string)
    : option string :=
  match self with
  | NoVerifier => None
  | CaRoots anchors => verify_with_anchors anchors chain server_name
  | NativeRoots => verify_with_platform chain server_name
  | WebpkiRoots => verify_with_webpki chain server_name
  end.

(** The TLS configuration of an HTTP client: without TLS settings the client
    speaks http, and its configuration verifies nothing. *)
Definition http_tls_config (settings : HttpSettings) : outcome ClientError ClientConfig :=
  match http_tls settings with
  | Some tls => map_err into_client_error (build_client_config tls)
  | None => Ok build_insecure_client_config
  end.

(** The identity and the CA of a gRPC channel: the bytes of its files. *)
Definition grpc_tls_config {E} (settings : GrpcSettings)
    : outcome E (option ((string * string) * option string)) :=
  match grpc_tls settings with
  | Some (cert_path, key_path, ca_path) =>
      cert_pem ← expect "clients.rs:327" (open_file cert_path);
      key_pem ← expect "clients.rs:330" (open_file key_path);
      ca_pem ← read_given (fun path => expect "clients.rs:341" (open_file path)) ca_path;
      Ok (Some ((cert_pem, key_pem), ca_pem))
  | None => Ok None
  end.

(** ** The server's configuration *)
Record ServerConfig := {
  server_certs : list CertificateDer;
  server_key : PrivateKeyDer;
  (** the anchors clients are verified against, when they are *)
  client_anchors : option (list CertificateDer)
}.

Definition load_certs {E} (filename : string) : outcome E (list CertificateDer) :=
  file ← expect "server/tls.rs:146" (open_file filename);
  collect (expect "server/tls.rs:149" <$> pem_certs file).

(** The loop stops at the first key, at an item it cannot parse, or at the end. *)
Fixpoint first_key {E} (items : list (PemItem PrivateKeyDer + string)) : outcome E PrivateKeyDer :=
  match items with
  | [] => Panic "server/tls.rs:166"
  | inr _ :: _ => Panic "server/tls.rs:158"
  | inl (Pkcs1Key key) :: _ | inl (Pkcs8Key key) :: _ | inl (Sec1Key key) :: _ => Ok key
  | inl OtherItem :: items => first_key items
  end.
Definition load_private_key {E} (filename : string) : outcome E PrivateKeyDer :=
  file ← expect "server/tls.rs:155" (open_file filename);
  first_key (pem_items file).

(** The verifier of clients: each CA certificate has to be a trust anchor. *)
Definition client_verifier {E} (client_ca_cert_path : string) : outcome E (list CertificateDer) :=
  client_certs ← load_certs client_ca_cert_path;
  for_each (fun cert => match root_error cert with None => Ok () | Some _ => Panic "server/tls.rs:46" end)
    client_certs ≫= fun _ =>
  match client_verifier_error client_certs with
  | None => Ok client_certs
  | Some _ => Panic "server/tls.rs:51"
  end.

Definition configure_tls {E} (tls_cert_path tls_key_path tls_client_ca_cert_path : option string)
    : outcome E (option ServerConfig) :=
  match tls_cert_path, tls_key_path with
  | Some cert_path, Some key_path =>
      cert ← load_certs cert_path;
      key ← load_private_key key_path;
      client_auth ← read_given client_verifier tls_client_ca_cert_path;
      match key_pair_error cert key with
      | None => Ok (Some {| server_certs := cert; server_key := key; client_anchors := client_auth |})
      | Some _ => Panic "server/tls.rs:59"
      end
  | _, _ => Ok None
  end.
End tls.

(** ** What a client verifies, and what it shows *)
Section clients_tls.
Context {RU : Rustls}.

(** The certificates of a file, all of which can be read. *)
Definition certs_in (path : string) (certs : list CertificateDer) : Prop :=
  exists file, open_file path = inl file /\ pem_certs file = inl <$> certs.

(** Servers are verified against the anchors of the CA file, or the platform's
    when no file is given or it is empty. *)
Definition trusts (tls_config : TlsConfig) (v : Verifier) : Prop :=
  match client_ca_cert_path tls_config with
  | Some path => exists certs, certs_in path certs /\
      v = match certs with [] => default_roots | _ => CaRoots (filter (fun c => root_error c = None) certs) end
  | None => v = default_roots
  end.

(** The client shows the key's certificate chain when it has a key. *)
Definition shows (tls_config : TlsConfig) (identity : option (list CertificateDer * PrivateKeyDer)) : Prop :=
  match key_path tls_config with
  | Some path => exists cert_path certs file key,
      Config.cert_path tls_config = Some cert_path /\ certs_in cert_path certs /\
      open_file path = inl file /\ pem_private_key file = inl (Some key) /\
      identity = match certs with [] => None | _ => Some (certs, key) end
  | None => identity = None
  end.

Lemma result_Ok {E A} (f : string -> E) (r : A + string) a : result f r = Ok a <-> r = inl a.
Proof. destruct r; simpl; split; congruence. Qed.
Lemma result_no_panic {E A} (f : string -> E) (r : A + string) : no_panic (result f r).
Proof. by destruct r. Qed.
Lemma collect_results {E A} (f : string -> E) (l : list (A + string)) r :
  collect (result f <$> l) = Ok r <-> l = inl <$> r.
Proof.
  revert r. induction l as [|x l IH]; intros r; csimpl.
  - split; [by intros [= <-]|]. by destruct r.
  - split.
    + intros (a & ->%result_Ok & (r' & ->%IH & [= <-])%bind_Ok)%bind_Ok. done.
    + destruct r as [|a r]; [done|]. intros [= -> Hl]. simpl. rewrite (proj2 (IH r)); done.
Qed.
Lemma collect_results_no_panic {E A} (f : string -> E) (l : list (A + string)) : no_panic (collect (result f <$> l)).
Proof. induction l as [|[a|e] l IH]; simpl; try done. by destruct (collect _). Qed.

Lemma read_certs_Ok f path certs : read_certs f path = Ok certs <-> certs_in path certs.
Proof.
  unfold read_certs, certs_in. rewrite bind_Ok. split.
  - intros (file & ->%result_Ok & H%collect_results). by exists file.
  - intros (file & E & H). exists file. rewrite E. split; [done|]. by apply collect_results.
Qed.
Lemma read_certs_no_panic f path : no_panic (read_certs f path).
Proof. apply no_panic_bind; [apply result_no_panic|]. intros; apply collect_results_no_panic. Qed.
Lemma read_key_Ok path key :
  read_key path = Ok key <-> exists file, open_file path = inl file /\ pem_private_key file = inl (Some key).
Proof.
  unfold read_key. split.
  - intros (file & ->%result_Ok & ([k|] & Ek%result_Ok & [= <-])%bind_Ok)%bind_Ok. by exists file.
  - intros (file & E & Ek). by rewrite E; simpl; rewrite Ek.
Qed.
Lemma read_key_no_panic path : no_panic (read_key path).
Proof. unfold read_key. destruct (open_file path); [|done]. simpl. by destruct (pem_private_key _) as [[]|]. Qed.

Lemma read_given_Ok {E A} (read : string -> outcome E A) path r :
  read_given read path = Ok r <->
  match path with Some p => exists a, read p = Ok a /\ r = Some a | None => r = None end.
Proof. destruct path as [p|]; simpl; [rewrite bind_Ok|]; naive_solver. Qed.
Lemma read_given_no_panic {E A} (read : string -> outcome E A) path :
  (forall p, no_panic (read p)) -> no_panic (read_given read path).
Proof. intros H. destruct path as [p|]; [|done]. by apply no_panic_bind. Qed.

Lemma tls_build_no_panic self : no_panic (tls_build self).
Proof.
  unfold tls_build. apply no_panic_bind; [apply read_certs_no_panic|intros].
  apply no_panic_bind; [apply read_given_no_panic, read_key_no_panic|intros].
  apply no_panic_bind; [apply read_given_no_panic, read_certs_no_panic|done].
Qed.

Lemma build_client_config_no_panic t : no_panic (build_client_config t) <-> is_Some (Config.cert_path t).
Proof.
  unfold build_client_config. destruct (Config.cert_path t) as [path|]; simpl;
    [|by split; [|intros []]].
  split; [by eexists|intros _]. apply no_panic_bind; [apply tls_build_no_panic|intros r _].
  apply no_panic_bind; [|done]. destruct (resolved_key r), (resolved_cert r); try done.
  by destruct (key_pair_error _ _).
Qed.

Lemma build_client_config_Ok t c :
  build_client_config t = Ok c ->
  (if decide (insecure t = Some true) then verifier c = NoVerifier else trusts t (verifier c)) /\
  shows t (client_identity c).
Proof.
  unfold build_client_config. intros (path & Ep & (r & Hr & (id & Hid & [= <-])%bind_Ok)%bind_Ok)%bind_Ok.
  unfold tls_build in Hr. apply bind_Ok in Hr as (certs & Hc%read_certs_Ok & Hr).
  apply bind_Ok in Hr as (key & Hk%read_given_Ok & Hr). apply bind_Ok in Hr as (cas & Hca%read_given_Ok & [= <-]).
  simpl in *. split.
  - case_decide as Hi; [by rewrite Hi|].
    replace (default false (insecure t)) with false by (by destruct (insecure t) as [[]|]).
    unfold trusts. destruct (client_ca_cert_path t) as [p|]; [|by subst].
    destruct Hca as (l & Hl%read_certs_Ok & ->). exists l. split; [done|by destruct l].
  - unfold shows. destruct (key_path t) as [p|].
    + destruct Hk as (k & (file & Ef & Ek)%read_key_Ok & ->). exists path, certs, file, k.
      destruct (Config.cert_path t); [|done]. injection Ep as ->. do 4 (split; [done|]).
      destruct certs as [|c0 certs]; [by injection Hid|]. by destruct (key_pair_error _ _); [|injection Hid].
    + subst key. by injection Hid.
Qed.

(** The connections of a service, as far as its settings go. *)
Definition http_connection {CN : Connector} (default_port : Z) (s : ServiceConfig)
    : outcome ClientError (HttpSettings * ClientConfig) :=
  h ← create_http_client default_port s; c ← http_tls_config h; Ok (h, c).
Definition host_ok {CN : Connector} (default_port : Z) (s : ServiceConfig) : Prop :=
  url_parses (base_url_text s) = true /\ port_settable (base_url_text s) (default default_port (port s)) = true.

Lemma check_base_url_host {CN : Connector} {E A} dp s site1 site2 (k : () -> outcome E A) :
  (host_ok dp s /\ (check_base_url site1 site2 s (default dp (port s)) ≫= k) = k ()) \/
  (~ host_ok dp s /\ exists site, (check_base_url site1 site2 s (default dp (port s)) ≫= k) = Panic site).
Proof.
  unfold host_ok, check_base_url. destruct (url_parses _); simpl; [|right; split; [naive_solver|by eexists]].
  destruct (port_settable _ _); simpl; [by left|right; split; [naive_solver|by eexists]].
Qed.

(** C36. An HTTP service with TLS settings is reached over https. Its
    certificate is verified, against the CA file's anchors or the platform's,
    unless the settings say [insecure], and then any certificate will do; the
    client shows its own when it has a key. Start-up panics exactly when the
    host name is no URL's or the settings name no certificate of the client's,
    which they need not do. A gRPC service with TLS settings is reached over
    https too; its settings need a certificate and a key, or start-up panics,
    the CA file is passed on to its channel, and [insecure] is ignored. *)
Theorem service_connections_verified {CN : Connector} s t default_port :
  tls s = Some (TlsResolved t) ->
  (no_panic (http_connection default_port s) <-> host_ok default_port s /\ is_Some (Config.cert_path t)) /\
  (forall h c, http_connection default_port s = Ok (h, c) ->
     http_protocol h = "https" /\
     (insecure t <> Some true -> trusts t (verifier c)) /\
     (insecure t = Some true -> forall chain name, verify_server_cert (verifier c) chain name = None) /\
     shows t (client_identity c)) /\
  (no_panic (create_grpc_client default_port s) <->
     host_ok default_port s /\ is_Some (Config.cert_path t) /\ is_Some (key_path t)) /\
  (forall g, create_grpc_client default_port s = Ok g -> exists cert key,
     grpc_protocol g = "https" /\ Config.cert_path t = Some cert /\ key_path t = Some key /\
     grpc_tls g = Some (cert, key, client_ca_cert_path t)).
Proof.
  intros Ht.
  assert (Hgrpc : forall k, (match tls s with
    | Some (TlsResolved tls_config) =>
        cert ← unwrap "clients.rs:323" (Config.cert_path tls_config);
        key ← unwrap "clients.rs:324" (key_path tls_config);
        Ok (Some (cert, key, client_ca_cert_path tls_config))
    | _ => Ok None end ≫= k) =
    match Config.cert_path t, key_path t with
    | Some cert, Some key => k (Some (cert, key, client_ca_cert_path t))
    | Some _, None => Panic "clients.rs:324"
    | None, _ => Panic "clients.rs:323"
    end :> outcome ClientError GrpcSettings).
  { intros k. rewrite Ht. by destruct (Config.cert_path t), (key_path t). }
  split; [|split; [|split]].
  - unfold http_connection, create_http_client.
    match goal with |- context [check_base_url ?x ?y s _ ≫= ?k] =>
      destruct (check_base_url_host (E := ClientError) default_port s x y k) as [[Hh ->]|[Hh [site ->]]] end;
      [|by split; [|intros []]].
    rewrite Ht. cbn [mbind outcome_bind]. unfold http_tls_config. simpl.
    rewrite <- build_client_config_no_panic. destruct (build_client_config t); naive_solver.
  - intros h c H. unfold http_connection in H. apply bind_Ok in H as (h' & Hh & (c' & Hc & [= -> ->])%bind_Ok).
    unfold create_http_client in Hh. apply bind_Ok in Hh as (_ & _ & Hh). rewrite Ht in Hh. injection Hh as <-.
    split; [simpl; unfold protocol_of; by rewrite Ht|]. unfold http_tls_config in Hc. simpl in Hc.
    destruct (build_client_config t) as [c'|e|site] eqn:E; [|done..]. injection Hc as <-.
    apply build_client_config_Ok in E as [Hv Hs]. repeat split; [|intros Hi|done].
    + intros Hi. by rewrite decide_False in Hv.
    + rewrite decide_True in Hv by done. by rewrite Hv.
  - unfold create_grpc_client.
    match goal with |- context [check_base_url ?x ?y s _ ≫= ?k] =>
      destruct (check_base_url_host (E := ClientError) default_port s x y k) as [[Hh ->]|[Hh [site ->]]] end;
      [|by split; [|intros []]].
    cbv zeta. rewrite Hgrpc. destruct (Config.cert_path t), (key_path t); simpl; split; try done; naive_solver.
  - intros g H. unfold create_grpc_client in H. apply bind_Ok in H as (_ & _ & H). cbv zeta in H. rewrite Hgrpc in H.
    destruct (Config.cert_path t) as [cert|], (key_path t) as [key|]; try done. injection H as <-.
    exists cert, key. repeat split. simpl. unfold protocol_of. by rewrite Ht.
Qed.
End clients_tls.

(** ** When the server speaks TLS, and to whom *)
Section server_tls.
Context {RU : Rustls}.

Definition key_of (item : PemItem PrivateKeyDer) : option PrivateKeyDer :=
  match item with Pkcs1Key k | Pkcs8Key k | Sec1Key k => Some k | OtherItem => None end.

(** The key is the first of the file: sections before it are no keys. *)
Definition first_key_of (path : string) (key : PrivateKeyDer) : Prop :=
  exists file before item after, open_file path = inl file /\
    pem_items file = (inl <$> before) ++ inl item :: after /\
    Forall (fun i => key_of i = None) before /\ key_of item = Some key.

(** Clients have to show a certificate exactly when a CA file is given: one
    issued under an anchor of that file. *)
Definition admits (client_ca_cert_path : option string) (anchors : option (list CertificateDer)) : Prop :=
  match client_ca_cert_path with
  | Some path => exists certs, certs_in path certs /\ Forall (fun c => root_error c = None) certs /\
      anchors = Some certs
  | None => anchors = None
  end.

Lemma expect_Ok {E A} site (r : A + string) a : expect (E := E) site r = Ok a <-> r = inl a.
Proof. destruct r; simpl; split; congruence. Qed.
Lemma collect_expected {E A} site (l : list (A + string)) r :
  collect (expect (E := E) site <$> l) = Ok r -> l = inl <$> r.
Proof.
  revert r. induction l as [|x l IH]; intros r; csimpl; [by intros [= <-]|].
  intros (a & ->%expect_Ok & (r' & H%IH & [= <-])%bind_Ok)%bind_Ok. csimpl. by rewrite H.
Qed.
Lemma load_certs_Ok {E} path certs : load_certs (E := E) path = Ok certs -> certs_in path certs.
Proof. intros (file & H%expect_Ok & Hc%collect_expected)%bind_Ok. by exists file. Qed.

Lemma first_key_Ok {E} items key :
  first_key (E := E) items = Ok key -> exists before item after, items = (inl <$> before) ++ inl item :: after /\
    Forall (fun i => key_of i = None) before /\ key_of item = Some key.
Proof.
  induction items as [|[item|e] items IH]; [done| |done].
  destruct (key_of item) as [k|] eqn:Ek.
  - intros H. exists [], item, items. split; [done|]. split; [done|]. by destruct item; simplify_eq/=.
  - destruct item; try done. simpl. intros (b & i & a & -> & Hb & Hi)%IH.
    exists (OtherItem :: b), i, a. by repeat constructor.
Qed.
Lemma load_private_key_Ok {E} path key : load_private_key (E := E) path = Ok key -> first_key_of path key.
Proof.
  intros (file & H%expect_Ok & (b & i & a & ? & ? & ?)%first_key_Ok)%bind_Ok. by exists file, b, i, a.
Qed.

Lemma for_each_anchors {E} (certs : list CertificateDer) :
  for_each (E := E) (fun c => match root_error c with None => Ok () | Some _ => Panic "server/tls.rs:46" end) certs
    = Ok () -> Forall (fun c => root_error c = None) certs.
Proof.
  induction certs as [|c certs IH]; simpl; [done|]. destruct (root_error c) eqn:E'; simpl; [done|].
  intros H. constructor; [done|by apply IH].
Qed.
Lemma client_verifier_Ok {E} path anchors :
  client_verifier (E := E) path = Ok anchors -> certs_in path anchors /\ Forall (fun c => root_error c = None) anchors.
Proof.
  intros (certs & Hc%load_certs_Ok & ([] & Hf%for_each_anchors & H)%bind_Ok)%bind_Ok.
  destruct (client_verifier_error certs); [done|]. injection H as <-. done.
Qed.

Lemma configure_tls_Ok {E} cert key ca config :
  configure_tls (E := E) cert key ca = Ok config ->
  (config = None <-> cert = None \/ key = None) /\
  forall c, config = Some c -> exists cert_path key_path, cert = Some cert_path /\ key = Some key_path /\
    certs_in cert_path (server_certs c) /\ first_key_of key_path (server_key c) /\
    key_pair_error (server_certs c) (server_key c) = None /\ admits ca (client_anchors c).
Proof.
  unfold configure_tls. destruct cert as [cp|]; [|intros [= <-]; naive_solver].
  destruct key as [kp|]; [|intros [= <-]; naive_solver].
  intros (certs & Hc%load_certs_Ok & H)%bind_Ok. apply bind_Ok in H as (k & Hk%load_private_key_Ok & H).
  apply bind_Ok in H as (an & Ha%read_given_Ok & H).
  destruct (key_pair_error certs k) eqn:Ep; [done|]. injection H as <-. split; [naive_solver|].
  intros c [= <-]. exists cp, kp. do 5 (split; [done|]). simpl. unfold admits. destruct ca as [p|]; [|done].
  destruct Ha as (a & [? ?]%client_verifier_Ok & ->). by exists a.
Qed.
End server_tls.

Section witnesses.
(** Files that hold one certificate, or one key, with the text of their path. *)
#[local] Instance ex_rustls : Rustls := {|
  CertificateDer := string;
  PrivateKeyDer := string;
  open_file path := inl path;
  pem_certs file := [inl file];
  pem_items file := [inl OtherItem; inl (Pkcs8Key file)];
  pem_private_key file := inl (Some file);
  native_roots := true;
  root_error _ := None;
  client_verifier_error certs := match certs with [] => Some "no root trust anchors were provided" | _ => None end;
  key_pair_error _ _ := None;
  verify_with_anchors anchors chain _ :=
    if bool_decide (list_to_set chain ## (list_to_set anchors : gset string)) then Some "UnknownIssuer" else None;
  verify_with_platform _ _ := Some "UnknownIssuer";
  verify_with_webpki _ _ := Some "UnknownIssuer"
|}.

Definition ex_tls : TlsConfig :=
  {| cert_path := Some "client.crt"; key_path := Some "client.key"; client_ca_cert_path := Some "ca.crt";
     insecure := None |}.
Definition ex_https_service : ServiceConfig :=
  with_tls (service_config_new "detector" 8080) (Some (TlsResolved ex_tls)).

Example ex_client_config :
  build_client_config ex_tls =
    Ok {| verifier := CaRoots ["ca.crt"]; client_identity := Some (["client.crt"], "client.key") |}.
Proof. reflexivity. Qed.
Example ex_ca_only :
  build_client_config {| cert_path := None; key_path := None; client_ca_cert_path := Some "ca.crt";
                         insecure := None |} = Panic "utils/tls.rs:205".
Proof. reflexivity. Qed.

#[local] Existing Instance settings_connector.
Lemma service_connections_verified_witness :
  no_panic (http_connection 8080 ex_https_service) /\
  forall h c, http_connection 8080 ex_https_service = Ok (h, c) ->
    http_protocol h = "https" /\ trusts ex_tls (verifier c).
Proof.
  destruct (service_connections_verified ex_https_service ex_tls 8080 eq_refl) as (Hn & Hc & _).
  split; [apply (proj2 Hn); split; [by split|by eexists]|].
  intros h c H. destruct (Hc h c H) as (Hp & Hv & _). split; [exact Hp|]. apply Hv. discriminate.
Defined.
End witnesses.
