(* ===== verification/OpenAi.v ===== *)
(** * OpenAI API types

    The request and response types of src/clients/openai.rs with their
    validation and accessors, and the error responses of the service. *)
From S2P Require Import Prelude External Errors Hostname Detection.
#[local] Open Scope string_scope.
#[local] Open Scope list_scope.
#[local] Open Scope Z_scope.

(** Reasons of a detection warning (src/models.rs). *)
Inductive DetectionWarningReason := UnsuitableInput | UnsuitableOutput | EmptyOutput.
#[export] Instance DetectionWarningReason_eq_dec : EqDecision DetectionWarningReason.
Proof. solve_decision. Defined.

(** ** Messages *)
Inductive Role := User | Developer | Assistant | System | ToolRole.

Inductive ContentType := ContentText | ContentImageUrl.
#[export] Instance ContentType_eq_dec : EqDecision ContentType.
Proof. solve_decision. Defined.

Record ImageUrl := { image_url_url : string; image_url_detail : option string }.

Record ContentPart := {
  part_type : ContentType;
  part_text : option string;
  part_image_url : option ImageUrl;
  part_refusal : option string
}.

Inductive Content := Text (text : string) | Array (parts : list ContentPart).

Record Function_ := { function_name : string; function_arguments : string }.
Record Custom := { custom_name : string; custom_input : string }.
Record ToolCall := {
  tool_call_index : option Z;
  tool_call_id : string;
  tool_call_type : string;
  tool_call_function : option Function_;
  tool_call_custom : option Custom
}.

Record Message := {
  msg_role : Role;
  msg_content : option Content;
  msg_name : option string;
  msg_refusal : option string;
  msg_tool_calls : option (list ToolCall);
  msg_tool_call_id : option string;
  msg_reasoning_content : option string
}.

(** [Message::default()] *)
Definition message_default : Message :=
  {| msg_role := User; msg_content := None; msg_name := None; msg_refusal := None;
     msg_tool_calls := None; msg_tool_call_id := None; msg_reasoning_content := None |}.

(** [ContentPart::is_empty] *)
Definition part_is_empty (p : ContentPart) : bool :=
  match part_type p with
  | ContentText => match part_text p with Some t => str_is_empty t | None => true end
  | ContentImageUrl =>
      match part_image_url p with Some u => str_is_empty (image_url_url u) | None => true end
  end.

(** [Content::is_empty] *)
Definition content_is_empty (c : Content) : bool :=
  match c with
  | Text text => str_is_empty text
  | Array parts => bool_decide (length parts = 0%nat) || forallb part_is_empty parts
  end.

(** [From<String> for ContentPart] and [From<Vec<String>> for Content] *)
Definition part_from_string (value : string) : ContentPart :=
  {| part_type := ContentText; part_text := Some value; part_image_url := None;
     part_refusal := None |}.
Definition content_from_strings (value : list string) : Content :=
  Array (part_from_string <$> value).

(** [iter.find_map(f)] *)
Fixpoint find_map {A B} (f : A -> option B) (l : list A) : option B :=
  match l with
  | [] => None
  | a :: l => match f a with Some b => Some b | None => find_map f l end
  end.

(** [opt.filter(|t| !t.is_empty())] *)
Definition nonempty (o : option string) : option string :=
  match o with
  | Some t => if str_is_empty t then None else Some t
  | None => None
  end.

(** [Message::text] *)
Definition message_text (m : Message) : option string :=
  match msg_content m with
  | Some (Text text) => if negb (str_is_empty text) then Some text else None
  | Some (Array parts) =>
      find_map (fun part => if decide (part_type part = ContentText)
                            then nonempty (part_text part) else None) parts
  | None => None
  end.

(** [Message::has_content] *)
Definition has_content (m : Message) : bool :=
  match msg_content m with
  | Some content => negb (content_is_empty content)
  | None => false
  end.

Section openai.
Context {SJ : SerdeJson}.

(** ** Tools *)
Record FunctionDefinition := {
  fn_name : string;
  fn_description : option string;
  fn_parameters : gmap string Value;
  fn_strict : option bool
}.
Record CustomDefinition := {
  cd_name : string;
  cd_description : option string;
  cd_format : option Value
}.
Record FunctionTool := { ft_type : string; ft_function : FunctionDefinition }.
Record CustomTool := { ct_type : string; ct_custom : CustomDefinition }.
Inductive Tool := ToolFunction (t : FunctionTool) | ToolCustom (t : CustomTool).

Definition function_definition_default : FunctionDefinition :=
  {| fn_name := ""; fn_description := None; fn_parameters := ∅; fn_strict := None |}.
Definition custom_definition_default : CustomDefinition :=
  {| cd_name := ""; cd_description := None; cd_format := None |}.
Definition function_tool_new (f : FunctionDefinition) : FunctionTool :=
  {| ft_type := "function"; ft_function := f |}.
Definition function_tool_default : FunctionTool :=
  {| ft_type := "function"; ft_function := function_definition_default |}.
Definition custom_tool_new (c : CustomDefinition) : CustomTool :=
  {| ct_type := "custom"; ct_custom := c |}.
Definition custom_tool_default : CustomTool :=
  {| ct_type := "tool"; ct_custom := custom_definition_default |}.

(** ** Requests *)
Record RequestDetectors := {
  rd_input : gmap string DetectorParams;
  rd_output : gmap string DetectorParams
}.

Record ChatCompletionsRequest := {
  ccr_detectors : RequestDetectors;
  ccr_stream : option bool;
  ccr_model : string;
  ccr_messages : list Message;
  ccr_tools : option (list Tool);
  ccr_extra : gmap string Value
}.

Definition chat_request_validate (self : ChatCompletionsRequest) : outcome ValidationError () :=
  if str_is_empty (ccr_model self) then Err (Invalid "`model` must not be empty")
  else if bool_decide (length (ccr_messages self) = 0%nat)
  then Err (Invalid "`messages` must not be empty")
  else if bool_decide (rd_input (ccr_detectors self) = ∅) then Ok ()
  else
    match last (ccr_messages self) with
    | Some message =>
        match msg_content message with
        | Some (Array _) => Err (Invalid "Detection on array is not supported")
        | content =>
            if match content with Some c => content_is_empty c | None => true end
            then Err (Invalid "if input detectors are provided, `content` must not be empty on last message")
            else Ok ()
        end
    | None => Ok ()
    end.

Record CompletionsRequest := {
  cr_detectors : RequestDetectors;
  cr_prompt_masks : option (list (Z * Z));
  cr_stream : option bool;
  cr_model : string;
  cr_prompt : string;
  cr_extra : gmap string Value
}.

Definition completions_request_validate (self : CompletionsRequest) : outcome ValidationError () :=
  if str_is_empty (cr_model self) then Err (Invalid "`model` must not be empty")
  else if negb (bool_decide (rd_input (cr_detectors self) = ∅)) && str_is_empty (cr_prompt self)
  then Err (Invalid "`prompt` must not be empty when input detectors are provided")
  else Ok ().

Record TokenizeRequest := {
  tkr_model : string;
  tkr_prompt : option string;
  tkr_messages : option (list Message);
  tkr_extra : gmap string Value
}.
Record TokenizeResponse := {
  tks_count : Z;
  tks_max_model_len : Z;
  tks_tokens : list Z
}.

Definition tokenize_request_validate (self : TokenizeRequest) : outcome ValidationError () :=
  if str_is_empty (tkr_model self) then Err (Invalid "`model` must not be empty")
  else match tkr_prompt self, tkr_messages self with
       | Some _, Some _ => Err (Invalid "`prompt` and `messages` cannot be used at the same time")
       | None, None => Err (Invalid "Either `prompt` or `messages` must be supplied")
       | _, _ => Ok ()
       end.

(** [merge_extra_fields]: the extra fields of a request are copied into the
    request sent on, those two excepted. *)
Definition merge_extra_fields (target extra : gmap string Value) : gmap string Value :=
  filter (fun kv => kv.1 <> "detectors" /\ kv.1 <> "_prompt_masks") extra ∪ target.

(** ** Responses *)
Record CompletionTokenDetails := { ctd_audio_tokens : Z; ctd_reasoning_tokens : Z }.
Record PromptTokenDetails := { ptd_audio_tokens : Z; ptd_cached_tokens : Z }.
Record Usage := {
  prompt_tokens : Z;
  total_tokens : Z;
  completion_tokens : Z;
  prompt_token_details : option PromptTokenDetails;
  completion_token_details : option CompletionTokenDetails
}.
Definition usage_default : Usage :=
  {| prompt_tokens := 0; total_tokens := 0; completion_tokens := 0;
     prompt_token_details := None; completion_token_details := None |}.

Record Logprob := { lp_logprob : f32; lp_rank : option Z; lp_decoded_token : option string }.
Inductive StopReason := StopString (s : string) | StopInteger (n : Z).
Record ChatCompletionTopLogprob := {
  tlp_token : string; tlp_logprob : f32; tlp_bytes : option (list Z)
}.
Record ChatCompletionLogprob := {
  clp_token : string;
  clp_logprob : f32;
  clp_bytes : option (list Z);
  clp_top_logprobs : option (list ChatCompletionTopLogprob)
}.
Record ChatCompletionLogprobs := {
  clps_content : list ChatCompletionLogprob;
  clps_refusal : list ChatCompletionLogprob
}.
Record CompletionLogprobs := {
  cl_tokens : list string;
  cl_token_logprobs : list f32;
  cl_top_logprobs : list (gmap string f32);
  cl_text_offset : list Z
}.

Record CompletionInputDetections := { cid_message_index : Z; cid_results : list Detection }.
Record CompletionOutputDetections := { cod_choice_index : Z; cod_results : list Detection }.
Record CompletionDetections := {
  cds_input : list CompletionInputDetections;
  cds_output : list CompletionOutputDetections
}.
Definition completion_detections_default : CompletionDetections :=
  {| cds_input := []; cds_output := [] |}.
Record CompletionDetectionWarning := {
  cdw_type : DetectionWarningReason;
  cdw_message : string
}.
Definition completion_detection_warning_new (t : DetectionWarningReason) (m : string)
    : CompletionDetectionWarning := {| cdw_type := t; cdw_message := m |}.

Record ChatCompletionChoice := {
  ccc_index : Z;
  ccc_message : Message;
  ccc_logprobs : option ChatCompletionLogprobs;
  ccc_finish_reason : string;
  ccc_stop_reason : option StopReason
}.
Record ChatCompletion := {
  cc_id : string;
  cc_object : string;
  cc_created : Z;
  cc_model : string;
  cc_choices : list ChatCompletionChoice;
  cc_usage : Usage;
  cc_prompt_logprobs : option (list (option (gmap string Logprob)));
  cc_system_fingerprint : option string;
  cc_service_tier : option string;
  cc_detections : option CompletionDetections;
  cc_warnings : list CompletionDetectionWarning
}.
Definition chat_completion_default : ChatCompletion :=
  {| cc_id := ""; cc_object := ""; cc_created := 0; cc_model := ""; cc_choices := [];
     cc_usage := usage_default; cc_prompt_logprobs := None; cc_system_fingerprint := None;
     cc_service_tier := None; cc_detections := None; cc_warnings := [] |}.

Record ChatCompletionDelta := {
  delta_role : option Role;
  delta_content : option string;
  delta_refusal : option string;
  delta_tool_calls : list ToolCall
}.
Definition delta_default : ChatCompletionDelta :=
  {| delta_role := None; delta_content := None; delta_refusal := None; delta_tool_calls := [] |}.
Record ChatCompletionChunkChoice := {
  ckc_index : Z;
  ckc_delta : ChatCompletionDelta;
  ckc_logprobs : option ChatCompletionLogprobs;
  ckc_finish_reason : option string;
  ckc_stop_reason : option StopReason
}.
Record ChatCompletionChunk := {
  cck_id : string;
  cck_object : string;
  cck_created : Z;
  cck_model : string;
  cck_system_fingerprint : option string;
  cck_choices : list ChatCompletionChunkChoice;
  cck_service_tier : option string;
  cck_usage : option Usage;
  cck_detections : option CompletionDetections;
  cck_warnings : list CompletionDetectionWarning
}.
Definition chat_completion_chunk_default : ChatCompletionChunk :=
  {| cck_id := ""; cck_object := "chat.completion.chunk"; cck_created := 0; cck_model := "";
     cck_system_fingerprint := None; cck_choices := []; cck_service_tier := None;
     cck_usage := None; cck_detections := None; cck_warnings := [] |}.

Record CompletionChoice := {
  cch_index : Z;
  cch_text : string;
  cch_logprobs : option CompletionLogprobs;
  cch_finish_reason : option string;
  cch_stop_reason : option StopReason;
  cch_prompt_logprobs : option (list (option (gmap string Logprob)))
}.
Record Completion := {
  cp_id : string;
  cp_object : string;
  cp_created : Z;
  cp_model : string;
  cp_choices : list CompletionChoice;
  cp_usage : option Usage;
  cp_system_fingerprint : option string;
  cp_detections : option CompletionDetections;
  cp_warnings : list CompletionDetectionWarning
}.
Definition completion_default : Completion :=
  {| cp_id := ""; cp_object := "text_completion"; cp_created := 0; cp_model := "";
     cp_choices := []; cp_usage := None; cp_system_fingerprint := None;
     cp_detections := None; cp_warnings := [] |}.

(** ** Chat messages (src/orchestrator/types/chat_message.rs) *)
Record ChatMessage := {
  cm_index : Z;
  cm_role : option Role;
  cm_text : option string;
  cm_refusal : option string
}.

Definition chat_request_messages (self : ChatCompletionsRequest) : list ChatMessage :=
  imap (fun index message =>
    {| cm_index := as_u32 (Z.of_nat index); cm_role := Some (msg_role message);
       cm_text := message_text message; cm_refusal := msg_refusal message |}) (ccr_messages self).
Definition chat_completion_messages (self : ChatCompletion) : list ChatMessage :=
  (fun choice =>
    {| cm_index := ccc_index choice; cm_role := Some (msg_role (ccc_message choice));
       cm_text := message_text (ccc_message choice);
       cm_refusal := msg_refusal (ccc_message choice) |}) <$> cc_choices self.
Definition chat_chunk_messages (self : ChatCompletionChunk) : list ChatMessage :=
  (fun choice =>
    {| cm_index := ckc_index choice; cm_role := delta_role (ckc_delta choice);
       cm_text := delta_content (ckc_delta choice);
       cm_refusal := delta_refusal (ckc_delta choice) |}) <$> cck_choices self.

(** ** Lemmas *)
Lemma message_text_nonempty m t : message_text m = Some t -> t <> "".
Proof.
  unfold message_text. destruct (msg_content m) as [[text|parts]|]; [| |done].
  - destruct text; simpl; [done|]. by intros [= <-].
  - induction parts as [|p parts IH]; simpl; [done|].
    destruct (decide _); [|exact IH]. destruct (part_text p) as [[|c s]|]; simpl; try exact IH.
    by intros [= <-].
Qed.

Lemma message_text_has_content m t : message_text m = Some t -> has_content m = true.
Proof.
  unfold message_text, has_content. destruct (msg_content m) as [[text|parts]|]; [| |done].
  - by destruct text.
  - simpl. induction parts as [|p parts IH]; [done|]. simpl in *.
    unfold part_is_empty at 1. destruct (decide _) as [->|N].
    + destruct (part_text p) as [[|c s]|]; simpl; try done;
        intros H; specialize (IH H); by destruct parts.
    + intros H. specialize (IH H). destruct (forallb part_is_empty parts) eqn:E; [|by rewrite andb_false_r].
      by rewrite orb_true_r in IH.
Qed.

(** ** Properties *)

(** A chat completion request is accepted exactly when it names a model,
    has messages, and, when input detectors are requested, its last message is
    a non-empty plain text - so that text input detection always has a text to
    run on. *)
Theorem chat_request_validate_spec (self : ChatCompletionsRequest) :
  chat_request_validate self = Ok () <->
  ccr_model self <> "" /\ ccr_messages self <> [] /\
  (rd_input (ccr_detectors self) <> ∅ ->
   exists m t, last (ccr_messages self) = Some m /\ msg_content m = Some (Text t) /\
     t <> "" /\ message_text m = Some t).
Proof.
  unfold chat_request_validate.
  destruct (ccr_model self) as [|c s]; simpl; [split; [done|by intros []]|].
  case_bool_decide as El.
  { split; [done|]. intros (_ & H & _). by apply nil_length_inv in El. }
  assert (Hne : ccr_messages self <> []) by (intros E; by rewrite E in El).
  case_bool_decide as Ei; [by split|].
  destruct (last (ccr_messages self)) as [m|] eqn:Em; [|by apply last_None in Em].
  destruct (msg_content m) as [[t|parts]|] eqn:Ec.
  - destruct t as [|a t]; simpl.
    + split; [done|]. intros (_ & _ & H). destruct (H Ei) as (m' & t & [= <-] & E & ? & _).
      rewrite Ec in E. by injection E as <-.
    + split; [intros _|done]. split; [done|]. split; [done|]. intros _.
      exists m, (String a t). unfold message_text. by rewrite Ec.
  - split; [done|]. intros (_ & _ & H). destruct (H Ei) as (m' & t & [= <-] & E & _). congruence.
  - split; [done|]. intros (_ & _ & H). destruct (H Ei) as (m' & t & [= <-] & E & _). congruence.
Qed.
End openai.

(** ** Error responses *)
Record ErrorInfo := {
  ei_message : string; ei_type : string; ei_param : option string; ei_code : Z
}.
Record ErrorResponseV1 := {
  v1_object : string; v1_message : string; v1_type : string; v1_param : option string; v1_code : Z
}.
Record ErrorResponseV2 := { v2_error : ErrorInfo }.
Inductive ErrorResponse := V1 (r : ErrorResponseV1) | V2 (r : ErrorResponseV2).

Definition error_response_new_v1 (code : Z) (message type_ : string) (param : option string)
    : ErrorResponse :=
  V1 {| v1_object := "error"; v1_message := message; v1_type := type_; v1_param := param;
        v1_code := code |}.
Definition error_response_new_v2 (code : Z) (message type_ : string) (param : option string)
    : ErrorResponse :=
  V2 {| v2_error := {| ei_message := message; ei_type := type_; ei_param := param;
                       ei_code := code |} |}.
Definition error_response_message (e : ErrorResponse) : string :=
  match e with V1 v1 => v1_message v1 | V2 v2 => ei_message (v2_error v2) end.
Definition error_response_code (e : ErrorResponse) : Z :=
  match e with V1 v1 => v1_code v1 | V2 v2 => ei_code (v2_error v2) end.

(** The service's own code becomes the client error's status; a code outside
    100..=999 panics. *)
Definition client_error_from_response {E} (value : ErrorResponse) : outcome E ClientError :=
  code ← unwrap "clients/openai.rs:1635" (status_from_u16 (error_response_code value));
  Ok (Http code (error_response_message value)).
