(* ===== verification/Http.v ===== *)
(** * The HTTP client

    src/clients/http.rs: how the HTTP clients build and send a request and read
    a response.  The parameters are the crates underneath: header maps
    ([HttpHeaders]), JSON ([Json], [Serialize], [Deserialize]), and URLs, the
    hyper connection, response bodies and event streams ([Transport]). *)
From Stdlib Require Import Ascii.
From stdpp Require Import pretty countable.
From S2P Require Import Prelude External Errors Config Clients.
#[local] Open Scope string_scope.
#[local] Open Scope list_scope.
#[local] Open Scope Z_scope.

(** ** http

    A header map: its names and values in the order of [iter] (a name once per
    value), building one from such an iterator, and the first value of a name.
    Inserting replaces all values of a name, appending adds one, removing gives
    back the first. *)
Class HttpHeaders := {
  HeaderValue : Type;
  header_bytes : HeaderValue -> string;
  (** [HeaderValue::from_maybe_shared(..).ok()], [str.parse().ok()], and
      [to_str().ok()] *)
  header_value_from : string -> option HeaderValue;
  header_parse : string -> option HeaderValue;
  header_to_str : HeaderValue -> option string;
  HeaderMap : Type;
  header_iter : HeaderMap -> list (string * HeaderValue);
  header_collect : list (string * HeaderValue) -> HeaderMap;
  header_get : string -> HeaderMap -> option HeaderValue;
  header_remove : string -> HeaderMap -> option HeaderValue * HeaderMap;
  header_insert : string -> HeaderValue -> HeaderMap -> HeaderMap;
  header_append : string -> HeaderValue -> HeaderMap -> HeaderMap
}.

(** [headers.get_all(name)] *)
Definition values_in {V} (name : string) (l : list (string * V)) : list V :=
  (filter (fun h => h.1 = name) l).*2.
Definition header_values {HH : HttpHeaders} (name : string) (m : HeaderMap) : list HeaderValue :=
  values_in name (header_iter m).

(** "Each byte must be visible ASCII (32-127) or opaque (128-255), or tab." *)
Definition valid_header_byte (c : ascii) : bool :=
  let n := Z.of_nat (nat_of_ascii c) in (n =? 9) || (32 <=? n) && negb (n =? 127).
Definition valid_header_value (s : string) : bool := forallb valid_header_byte (String.list_ascii_of_string s).

(** "Only visible ASCII characters (32-127) are permitted." *)
Definition visible_byte (c : ascii) : bool :=
  let n := Z.of_nat (nat_of_ascii c) in (32 <=? n) && (n <? 127).
Definition visible (s : string) : bool := forallb visible_byte (String.list_ascii_of_string s).

Class HttpHeadersLaws (HH : HttpHeaders) := {
  header_value_from_valid s : valid_header_value s = true ->
    exists v, header_value_from s = Some v /\ header_bytes v = s;
  header_parse_visible s : visible s = true -> is_Some (header_parse s);
  header_parse_bytes s v : header_parse s = Some v -> header_bytes v = s;
  header_to_str_visible v : visible (header_bytes v) = true -> header_to_str v = Some (header_bytes v);
  header_bytes_valid v : valid_header_value (header_bytes v) = true;
  header_collect_values name l : header_values name (header_collect l) = values_in name l;
  header_get_values name m : header_get name m = head (header_values name m);
  header_removed name m : (header_remove name m).1 = head (header_values name m);
  header_remove_values name name' m : header_values name' (header_remove name m).2 =
    if decide (name' = name) then [] else header_values name' m;
  header_insert_values name v name' m : header_values name' (header_insert name v m) =
    if decide (name' = name) then [v] else header_values name' m;
  header_append_values name v name' m : header_values name' (header_append name v m) =
    if decide (name' = name) then header_values name' m ++ [v] else header_values name' m
}.

(** ** serde_json

    JSON values and their text.  Objects are finite maps: the order of members
    is not observed.  A [Serialize] instance gives the value a Rust value is
    serialised as, a [Deserialize] instance what a text is parsed into, or
    the parse error. *)
Class Json {SJ : SerdeJson} := {
  value_null : Value;
  value_bool : bool -> Value;
  value_integer : Z -> Value;
  value_string : string -> Value;
  value_array : list Value -> Value;
  value_object : gmap string Value -> Value;
  (** [value.get(key)] and [as_str] *)
  value_get : string -> Value -> option Value;
  value_as_str : Value -> option string;
  (** [serde_json::to_vec] and [from_str] *)
  to_vec : Value -> string + string;
  value_from_str : string -> Value + string
}.
(** The values that reading what is written gives back: all that hold no numbers
    but integers of 64 bits and numbers whose own text reads back.  (serde_json
    parses floats "best effort" unless its feature [float_roundtrip] is on, which
    src/Cargo.toml does not turn on.) *)
Inductive exact {SJ : SerdeJson} {JS : Json} : Value -> Prop :=
| exact_null : exact value_null
| exact_bool b : exact (value_bool b)
| exact_integer z : -2 ^ 63 <= z < 2 ^ 64 -> exact (value_integer z)
| exact_number v : value_is_number v = true -> (forall s, to_vec v = inl s -> value_from_str s = inl v) -> exact v
| exact_string s : exact (value_string s)
| exact_array l : (forall v, v ∈ l -> exact v) -> exact (value_array l)
| exact_object m : (forall key v, m !! key = Some v -> exact v) -> exact (value_object m).

Class JsonLaws {SJ : SerdeJson} (JS : Json) := {
  value_get_object key m : value_get key (value_object m) = m !! key;
  value_as_str_string s : value_as_str (value_string s) = Some s;
  (** "Serialization can fail if T's implementation of Serialize decides to
      fail, or if T contains a map with non-string keys": a value does neither. *)
  to_vec_value v : exists s, to_vec v = inl s;
  value_from_to_vec v s : exact v -> to_vec v = inl s -> value_from_str s = inl v
}.
Class Serialize {SJ : SerdeJson} (T : Type) := to_value : T -> Value.
#[export] Hint Mode Serialize - ! : typeclass_instances.
Class Deserialize (T : Type) := from_json : string -> T + string.
#[export] Hint Mode Deserialize ! : typeclass_instances.

#[export] Instance value_serialize {SJ : SerdeJson} : Serialize Value := fun v => v.
#[export] Instance string_serialize {SJ : SerdeJson} {JS : Json} : Serialize string := value_string.
#[export] Instance list_serialize {SJ : SerdeJson} {JS : Json} {T} `{!Serialize T} : Serialize (list T) :=
  fun l => value_array (to_value <$> l).
#[export] Instance map_serialize {SJ : SerdeJson} {JS : Json} : Serialize (gmap string Value) := value_object.

(** The fields of a struct, in [#[serde(skip_serializing_if = ..)]] those that
    are given. *)
Definition field {SJ : SerdeJson} {T} `{!Serialize T} (name : string) (t : T)
    : gmap string Value := {[name := to_value t]}.
Definition optional_field {SJ : SerdeJson} {T} `{!Serialize T} (name : string) (o : option T)
    : gmap string Value :=
  match o with Some t => {[name := to_value t]} | None => ∅ end.

(** ** Requests and responses *)
Inductive Method := GET | POST.

(** An event of a [text/event-stream]. *)
Record Event := { event_event : string; event_data : string }.

(** [struct HttpClient] *)
Record HttpConnection (Url Inner : Type) := {
  base_url : Url;
  health_url : Url;
  api_token : option string;
  inner : Inner
}.
Arguments Build_HttpConnection {Url Inner}.
Arguments base_url {Url Inner}.
Arguments health_url {Url Inner}.
Arguments api_token {Url Inner}.
Arguments inner {Url Inner}.

Class Transport {CN : Connector} {HH : HttpHeaders} := {
  Url : Type;
  Uri : Type;
  url_path : Url -> string;
  url_set_path : string -> Url -> Url;
  url_join : Url -> string -> option Url;
  (** [Uri::try_from(url.to_string())] *)
  uri_from : Url -> option Uri;
  (** hyper's client, and what the [HttpClient] a connector built holds *)
  HttpClientInner : Type;
  connection : HttpClient -> HttpConnection Url HttpClientInner;
  (** the propagator's [inject_context] for the current span *)
  inject_context : HeaderMap -> HeaderMap;
  Body : Type;
  call : HttpClientInner -> Method * Uri * HeaderMap * string -> StatusCode * Body + string;
  (** the whole body, unless the connection fails while it is read, and the
      events of its stream *)
  body_collect : Body -> option string;
  eventsource : Body -> list (Event + string);
  (** base64's standard engine, and [Uuid::new_v4().to_string()] *)
  base64_encode : string -> string;
  new_v4 : string
}.

(** "Hyphenated" UUIDs are hexadecimal digits and dashes. *)
Class TransportLaws `(TR : Transport) := {
  url_path_set path url : url_path (url_set_path path url) = path;
  new_v4_visible : visible new_v4 = true
}.

Section http.
Context {SJ : SerdeJson} {CN : Connector} {HH : HttpHeaders} {JS : Json} {TR : Transport}.

Record Response := { response_status : StatusCode; response_body : Body }.

(** [Response::json] *)
Definition response_json {T} `{Deserialize T} (self : Response) : outcome ClientError T :=
  data ← unwrap "clients/http.rs:75" (body_collect (response_body self));
  match from_json data with
  | inl t => Ok t
  | inr e => Err (Http INTERNAL_SERVER_ERROR ("client response deserialization failed: " +:+ e))
  end.

#[local] Notation Connection := (HttpConnection Url HttpClientInner).

Definition ends_with_slash (s : string) : bool :=
  match last (String.list_ascii_of_string s) with Some c => Ascii.eqb c "/" | None => false end.

Definition http_client_new (base_url : Url) (api_token : option string) (inner : HttpClientInner)
    : outcome ClientError Connection :=
  let base_url := if ends_with_slash (url_path base_url) then base_url
                  else url_set_path (url_path base_url +:+ "/") base_url in
  health_url ← unwrap "clients/http.rs:133" (url_join base_url "health");
  Ok {| base_url := base_url; health_url := health_url; api_token := api_token; inner := inner |}.

Definition endpoint (self : Connection) (path : string) : outcome ClientError Url :=
  unwrap "clients/http.rs:148" (url_join (base_url self) (trim_start_slash path)).

Definition inject_api_token (self : Connection) (headers : HeaderMap) : outcome ClientError HeaderMap :=
  match api_token self with
  | Some token =>
      match header_parse ("Bearer " +:+ token) with
      | Some v => Ok (header_insert "authorization" v headers)
      | None => Err (Http INTERNAL_SERVER_ERROR "invalid authorization header: failed to parse header value")
      end
  | None => Ok headers
  end.

(** The request builder is given a method and a URI, which it cannot reject. *)
Definition send {T} `{!Serialize T} (self : Connection) (url : Url) (method : Method) (headers : HeaderMap)
    (body : T) : outcome ClientError Response :=
  headers ← inject_api_token self headers;
  uri ← unwrap "utils.rs:15" (uri_from url);
  match to_vec (to_value body) with
  | inr e => Err (Http INTERNAL_SERVER_ERROR ("client request serialization failed: " +:+ e))
  | inl data =>
      match call (inner self) (method, uri, inject_context headers, data) with
      | inl (status, body) => Ok {| response_status := status; response_body := body |}
      | inr e => Err (Http REQUEST_TIMEOUT ("client request timeout: " +:+ e))
      end
  end.

Definition get {T} `{!Serialize T} (self : Connection) (url : Url) (headers : HeaderMap) (body : T) :=
  send self url GET headers body.
Definition post {T} `{!Serialize T} (self : Connection) (url : Url) (headers : HeaderMap) (body : T) :=
  send self url POST headers body.
End http.

(** ** The router sidecar

    The headers of a request to the router's sender, which
    [DetectorClient] and [OpenAiClient] build alike (each has its copy of
    [build_router_headers]): the transaction's id, the sender's client, and
    the request's headers with the router's. *)
Section router.
Context {SJ : SerdeJson} {CN : Connector} {HH : HttpHeaders} {JS : Json} {TR : Transport}.

Definition ROUTER_HANDLE_ENDPOINT : string := "/ml/v1-private/router/handle".
Definition ROUTER_HANDLE_STREAM_ENDPOINT : string := "/ml/v1-private/router/handle-stream".

Definition parse_header (context value : string) : outcome ClientError HeaderValue :=
  ok_or (Http BAD_REQUEST (context +:+ ": failed to parse header value")) (header_parse value).

Definition build_router_headers (router_config : option RouterConfig) (router_client : option HttpClient)
    (model_name method : string) (headers : HeaderMap) : outcome ClientError (string * HttpClient * HeaderMap) :=
  router ← ok_or (Http INTERNAL_SERVER_ERROR "router config must be present when router is enabled")
             router_config;
  model ← parse_header "invalid model name for x-model-name header" model_name;
  let headers := header_insert "x-model-name" model headers in
  reply ← parse_header "failed to set x-reply-type header" (reply_type router);
  let headers := header_insert "x-reply-type" reply headers in
  sla ← parse_header "failed to set x-sla-seconds header" (pretty (sla_seconds router));
  let headers := header_insert "x-sla-seconds" sla headers in
  '(transaction_id, headers) ←
    match header_get "x-global-transaction-id" headers with
    | Some v => Ok (default "" (header_to_str v), headers)
    | None =>
        tid ← parse_header "failed to set x-global-transaction-id header" new_v4;
        Ok (new_v4, header_insert "x-global-transaction-id" tid headers)
    end;
  method ← parse_header "failed to set x-method header" method;
  let headers := header_insert "x-method" method headers in
  client ← ok_or (Http INTERNAL_SERVER_ERROR "router_client must be present when router is enabled")
             router_client;
  Ok (transaction_id, client, headers).

(** The envelope of a request to be passed on: its path, its headers and its
    body in base64. *)
Definition envelope (path : string) (headers : gmap string Value) (bytes : string) : Value :=
  value_object {["method" := value_string "POST"; "path" := value_string path;
                 "headers" := value_object headers;
                 "payload" := value_string (base64_encode bytes)]}.
End router.

(** *** What the sender receives *)
Section router_lemmas.
Context {SJ : SerdeJson} {CN : Connector} {HH : HttpHeaders} {JS : Json} {TR : Transport}.

Lemma visible_pretty_go x s : visible s = true -> visible (pretty_N_go x s) = true.
Proof.
  revert s. induction (N.lt_wf_0 x) as [x _ IH]. intros s Hs.
  destruct (decide (x = 0)%N) as [->|Hx]; [by rewrite pretty_N_go_0|].
  rewrite pretty_N_go_step by lia. apply IH; [apply N.div_lt; lia|].
  change (visible_byte (pretty_N_char (x `mod` 10)) && visible s = true). rewrite Hs, andb_true_r.
  unfold pretty_N_char. by repeat case_match.
Qed.

Lemma visible_pretty (z : Z) : visible (pretty z) = true.
Proof.
  assert (H : forall n : N, visible (pretty n) = true).
  { intros n. unfold pretty, pretty_N. case_decide; [done|]. by apply visible_pretty_go. }
  destruct z as [|p|p]; [done|apply (H (Npos p))|]. apply (H (Npos p)).
Qed.

Context {HL : HttpHeadersLaws HH} {TL : TransportLaws TR}.

Lemma parse_header_ok context value :
  visible value = true -> exists v, parse_header context value = Ok v /\ header_bytes v = value.
Proof.
  intros [v Hv]%header_parse_visible. exists v. unfold parse_header. rewrite Hv.
  split; [done|by apply header_parse_bytes].
Qed.

Definition router_headers : gset string :=
  {["x-model-name"; "x-reply-type"; "x-sla-seconds"; "x-global-transaction-id"; "x-method"]}.

(** The request's id is the caller's, if it has one that can be shown, or else
    a new one. *)
Definition transaction_id_of (headers : HeaderMap) : string :=
  match head (header_values "x-global-transaction-id" headers) with
  | Some v => default "" (header_to_str v)
  | None => new_v4
  end.

(** The headers of a request to the sender: the router's own, the transaction's
    id - the caller's, or the new one -, and the caller's others. *)
Record routed_headers (config : RouterConfig) (model method : string) (headers routed : HeaderMap) : Prop := {
  rh_model : header_bytes <$> header_values "x-model-name" routed = [model];
  rh_method : header_bytes <$> header_values "x-method" routed = [method];
  rh_reply : header_bytes <$> header_values "x-reply-type" routed = [reply_type config];
  rh_sla : header_bytes <$> header_values "x-sla-seconds" routed = [pretty (sla_seconds config)];
  rh_transaction : header_bytes <$> header_values "x-global-transaction-id" routed =
    match header_values "x-global-transaction-id" headers with
    | [] => [new_v4]
    | ids => header_bytes <$> ids
    end;
  rh_others : forall name, name ∉ router_headers -> header_values name routed = header_values name headers
}.

Lemma build_router_headers_ok config client model method headers :
  visible model = true -> visible method = true -> visible (reply_type config) = true ->
  exists routed,
    build_router_headers (Some config) (Some client) model method headers =
      Ok (transaction_id_of headers, client, routed) /\
    routed_headers config model method headers routed.
Proof.
  intros Hm Hd Hr. unfold build_router_headers. simpl.
  destruct (parse_header_ok "invalid model name for x-model-name header" _ Hm) as (vm & -> & Em). simpl.
  destruct (parse_header_ok "failed to set x-reply-type header" _ Hr) as (vr & -> & Er). simpl.
  destruct (parse_header_ok "failed to set x-sla-seconds header" _ (visible_pretty (sla_seconds config)))
    as (vs & -> & Es). simpl.
  rewrite header_get_values, !header_insert_values. simpl.
  destruct (parse_header_ok "failed to set x-method header" _ Hd) as (vd & -> & Ed).
  destruct (parse_header_ok "failed to set x-global-transaction-id header" _ new_v4_visible) as (vt & -> & Et).
  unfold transaction_id_of.
  destruct (header_values "x-global-transaction-id" headers) as [|v ids] eqn:Hid; simpl; (eexists; split; [done|]).
  - split; rewrite ?header_insert_values; simpl; rewrite ?Em, ?Er, ?Es, ?Ed, ?Et, ?Hid; try done.
    intros name Hname. unfold router_headers in Hname.
    by rewrite !header_insert_values, !decide_False by set_solver.
  - split; rewrite ?header_insert_values; simpl; rewrite ?Em, ?Er, ?Es, ?Ed, ?Hid; try done.
    intros name Hname. unfold router_headers in Hname.
    by rewrite !header_insert_values, !decide_False by set_solver.
Qed.
End router_lemmas.

(** *** A sender that passes requests on *)
Section forwarding.
Context {SJ : SerdeJson} {CN : Connector} {HH : HttpHeaders} {JS : Json} {TR : Transport}
  {HL : HttpHeadersLaws HH} {TL : TransportLaws TR} {JL : JsonLaws JS}.
#[local] Notation Connection := (HttpConnection Url HttpClientInner).

(** The token of a connection, if there is one, can be sent. *)
Definition token_sendable (c : Connection) : Prop :=
  match api_token c with Some token => visible ("Bearer " +:+ token) = true | None => True end.

Definition answers_agree (R : StatusCode -> Body -> Body -> Prop) (a a' : StatusCode * Body + string) : Prop :=
  match a, a' with
  | inl (status, body), inl (status', body') => status = status' /\ R status body body'
  | inr e, inr e' => e = e'
  | _, _ => False
  end.

(** What is asked of a sender that passes requests on, and of the server, for a
    caller's [headers]: a request for [path] in an envelope, posted to the
    sender's [handle] with the router's headers for this model and method, is
    answered like the request itself posted to the server with the caller's
    headers.  The envelope carries none of these headers but the transaction's id
    ([fields]), so that what the server answers must not depend on them. *)
Record forwards (server sender : Connection) (handle path : string) (sent_path : Url -> string)
    (config : RouterConfig) (model method : string) (headers : HeaderMap) (direct : HeaderMap)
    (fields : string -> gmap string Value) (R : StatusCode -> Body -> Body -> Prop) : Prop := {
  fw_server_token : token_sendable server;
  fw_sender_token : token_sendable sender;
  fw_answers : exists url uri sender_url sender_uri,
    endpoint server path = Ok url /\ uri_from url = Some uri /\
    endpoint sender handle = Ok sender_url /\ uri_from sender_url = Some sender_uri /\
    forall direct' routed routed' data wrapped,
      inject_api_token server direct = Ok direct' ->
      routed_headers config model method headers routed -> inject_api_token sender routed = Ok routed' ->
      to_vec (envelope (sent_path url) (fields (transaction_id_of headers)) data) = inl wrapped ->
      answers_agree R (call (inner server) (POST, uri, inject_context direct', data))
        (call (inner sender) (POST, sender_uri, inject_context routed', wrapped))
}.

Lemma inject_api_token_ok (c : Connection) headers :
  token_sendable c -> exists headers', inject_api_token c headers = Ok headers'.
Proof.
  unfold token_sendable, inject_api_token. destruct (api_token c) as [token|]; [|by eexists].
  intros [v ->]%header_parse_visible. by eexists.
Qed.

Lemma post_called {T} `{!Serialize T} (c : Connection) url uri headers headers' (body : T) data :
  inject_api_token c headers = Ok headers' -> uri_from url = Some uri -> to_vec (to_value body) = inl data ->
  post c url headers body =
    match call (inner c) (POST, uri, inject_context headers', data) with
    | inl (status, body) => Ok {| response_status := status; response_body := body |}
    | inr e => Err (Http REQUEST_TIMEOUT ("client request timeout: " +:+ e))
    end.
Proof. intros Ht Hu Hd. unfold post, send. rewrite Ht. simpl. by rewrite Hu, Hd. Qed.

Definition responses_agree (R : StatusCode -> Body -> Body -> Prop) (r r' : outcome ClientError Response) : Prop :=
  match r, r' with
  | Ok r, Ok r' =>
      response_status r = response_status r' /\ R (response_status r) (response_body r) (response_body r')
  | Err e, Err e' => e = e'
  | _, _ => False
  end.

(** Either way of sending a request gets the same response. *)
Lemma forwarded {T} `{!Serialize T} (server sender : Connection) handle path sent_path config model method
    headers direct fields R (request : T) :
  forwards server sender handle path sent_path config model method headers direct fields R ->
  exists url sender_url data,
    endpoint server path = Ok url /\ endpoint sender handle = Ok sender_url /\
    to_vec (to_value request) = inl data /\
    forall routed, routed_headers config model method headers routed ->
      responses_agree R (post server url direct request)
        (post sender sender_url routed (envelope (sent_path url) (fields (transaction_id_of headers)) data)).
Proof.
  intros [Ht Ht' (url & uri & surl & suri & Hp & Hu & Hp' & Hu' & H)].
  destruct (to_vec_value (to_value request)) as [data Hd].
  exists url, surl, data. do 3 (split; [done|]). intros routed Hr.
  destruct (to_vec_value (envelope (sent_path url) (fields (transaction_id_of headers)) data)) as [wrapped Hw].
  destruct (inject_api_token_ok server direct Ht) as [direct' Ed].
  destruct (inject_api_token_ok sender routed Ht') as [routed' Er].
  rewrite (post_called server url uri direct direct' request data Ed Hu Hd).
  rewrite (post_called sender surl suri routed routed'
    (envelope (sent_path url) (fields (transaction_id_of headers)) data) wrapped Er Hu' Hw).
  specialize (H direct' routed routed' data wrapped Ed Hr Er Hw).
  destruct (call _ _) as [[status body]|e], (call _ _) as [[status' body']|e']; simpl in *; try done.
  by subst.
Qed.
End forwarding.

(** ** Header maps as lists

    The names and values in the order they were added. *)
Definition list_header_value : Type := {s : string | valid_header_value s = true}.
Definition list_value_from (s : string) : option list_header_value :=
  match bool_dec (valid_header_value s) true with
  | left H => Some (exist _ s H)
  | right _ => None
  end.
Definition list_headers : HttpHeaders := {|
  HeaderValue := list_header_value;
  header_bytes v := proj1_sig v;
  header_value_from := list_value_from;
  header_parse := list_value_from;
  header_to_str v := Some (proj1_sig v);
  HeaderMap := list (string * list_header_value);
  header_iter m := m;
  header_collect l := l;
  header_get name m := head (values_in name m);
  header_remove name m := (head (values_in name m), filter (fun h => h.1 <> name) m);
  header_insert name v m := filter (fun h => h.1 <> name) m ++ [(name, v)];
  header_append name v m := m ++ [(name, v)]
|}.

Lemma values_in_removed {V} name name' (l : list (string * V)) :
  values_in name' (filter (fun h => h.1 <> name) l) = if decide (name' = name) then [] else values_in name' l.
Proof.
  unfold values_in. rewrite list_filter_filter. case_decide as E.
  - subst. induction l as [|h l IH]; [done|]. rewrite filter_cons, decide_False; [exact IH|naive_solver].
  - f_equal. apply list_filter_iff. naive_solver.
Qed.

Lemma values_in_inserted {V} name name' (v : V) (l : list (string * V)) :
  values_in name' (filter (fun h => h.1 <> name) l ++ [(name, v)]) =
  if decide (name' = name) then [v] else values_in name' l.
Proof.
  unfold values_in at 1. rewrite filter_app, fmap_app.
  change ((filter (fun h => h.1 = name') (filter (fun h => h.1 <> name) l)).*2)
    with (values_in name' (filter (fun h => h.1 <> name) l)).
  rewrite values_in_removed, filter_cons. simpl. case_decide as E; [subst; by rewrite decide_True|].
  rewrite decide_False by done. by rewrite app_nil_r.
Qed.

Lemma values_in_appended {V} name name' (v : V) (l : list (string * V)) :
  values_in name' (l ++ [(name, v)]) =
  if decide (name' = name) then values_in name' l ++ [v] else values_in name' l.
Proof.
  unfold values_in. rewrite filter_app, fmap_app, filter_cons. simpl.
  case_decide as E; [by rewrite decide_True|]. rewrite decide_False by done. by rewrite app_nil_r.
Qed.

Lemma visible_valid s : visible s = true -> valid_header_value s = true.
Proof.
  unfold visible, valid_header_value. rewrite !forallb_forall. intros H c Hc.
  specialize (H c Hc). unfold visible_byte in H. unfold valid_header_byte. lia.
Qed.

Lemma list_headers_laws : HttpHeadersLaws list_headers.
Proof.
  split; try done.
  - intros s Hs. simpl. unfold list_value_from. destruct (bool_dec _ _) as [H|]; [|done]. by eexists.
  - intros s Hs%visible_valid. simpl. unfold list_value_from.
    by destruct (bool_dec _ _) as [H|].
  - intros s v. simpl. unfold list_value_from. destruct (bool_dec _ _); [|done]. by intros [= <-].
  - intros [s Hs]. exact Hs.
  - intros name name' m. apply values_in_removed.
  - intros name v name' m. apply values_in_inserted.
  - intros name v name' m. apply values_in_appended.
Qed.

(** ** JSON values as trees

    A leaf is a null, a boolean, an integer or a string; an array's node is
    numbered 0, an object's 1, and a member is a node of its name and value. *)
Definition tree_leaf : Type := () + bool + Z + string.
Definition tree : Type := gen_tree tree_leaf.
Definition tree_string (s : string) : tree := GenLeaf (inr s).
Definition tree_member (kv : string * tree) : tree := GenNode 2 [tree_string kv.1; kv.2].
Definition tree_members (l : list tree) : list (string * tree) :=
  omap (fun t => match t with GenNode 2 [GenLeaf (inr k); v] => Some (k, v) | _ => None end) l.

Definition tree_json : SerdeJson := {|
  Value := tree;
  value_is_number v := match v with GenLeaf (inl (inr _)) => true | _ => false end;
  value_as_f64 v := match v with GenLeaf (inl (inr z)) => Some (f64_of_Z z) | _ => None end;
  value_as_i64 v := match v with GenLeaf (inl (inr z)) => Some z | _ => None end
|}.

(** Texts: the binary digits of a tree's code. *)
Fixpoint pos_digits (p : positive) : string :=
  match p with xH => "" | xO p => String "0" (pos_digits p) | xI p => String "1" (pos_digits p) end.
Fixpoint digits_pos (s : string) : positive :=
  match s with
  | EmptyString => xH
  | String c s => if Ascii.eqb c "1" then xI (digits_pos s) else xO (digits_pos s)
  end.
Lemma digits_pos_digits p : digits_pos (pos_digits p) = p.
Proof. induction p as [p IH|p IH|]; simpl; by rewrite ?IH. Qed.

Definition tree_values : @Json tree_json := {|
  value_null := GenLeaf (inl (inl (inl ()))) : @Value tree_json;
  value_bool b := GenLeaf (inl (inl (inr b)));
  value_integer z := GenLeaf (inl (inr z));
  value_string := tree_string;
  value_array l := GenNode 0 l;
  value_object m := GenNode 1 (tree_member <$> map_to_list m);
  value_get key v :=
    match v with GenNode 1 l => (list_to_map (tree_members l) : gmap string tree) !! key | _ => None end;
  value_as_str v := match v with GenLeaf (inr s) => Some s | _ => None end;
  to_vec v := inl (pos_digits (encode (v : tree)));
  value_from_str s := match decode (digits_pos s) with Some v => inl v | None => inr "expected value" end
|}.

Lemma tree_members_fmap l : tree_members (tree_member <$> l) = l.
Proof. induction l as [|[k v] l IH]; [done|]. simpl. by f_equal. Qed.

(** A tree always reads back. *)
Lemma tree_reads_back v s :
  to_vec (Json := tree_values) v = inl s -> value_from_str (Json := tree_values) s = inl v.
Proof. simpl. intros [= <-]. by rewrite digits_pos_digits, decode_encode. Qed.

Lemma tree_values_laws : @JsonLaws tree_json tree_values.
Proof.
  split.
  - intros key m. simpl. by rewrite tree_members_fmap, list_to_map_to_list.
  - done.
  - intros v. by eexists.
  - intros v s _. apply tree_reads_back.
Qed.
