(* ===== verification/Args.v ===== *)
(** * Command-line arguments

    src/args.rs: the values of the enumerated arguments, and the telemetry
    configuration that [TracingConfig::try_from] derives from the arguments,
    with the OTLP endpoints it validates and completes.  clap's parsing of the
    command line and the environment is not modelled: an [Args] is what it
    returns. *)
From Stdlib Require Import Ascii.
From S2P Require Import Prelude External Errors Utf8 Hostname Config Detection Clients OpenAi Http.
#[local] Open Scope string_scope.
#[local] Open Scope list_scope.
#[local] Open Scope Z_scope.

(** ** Enumerated arguments *)
Inductive OtlpExport := Traces | Metrics.
Inductive OtlpProtocol := Grpc_ | Http_.
Inductive LogFormat := Compact | Full | Pretty | JSON.

#[export] Instance otlp_export_eq_dec : EqDecision OtlpExport.
Proof. solve_decision. Defined.

(** [fmt::Display] *)
Definition otlp_export_to_string (e : OtlpExport) : string :=
  match e with Traces => "traces" | Metrics => "metrics" end.
Definition otlp_protocol_to_string (p : OtlpProtocol) : string :=
  match p with Grpc_ => "grpc" | Http_ => "http" end.
Definition log_format_to_string (f : LogFormat) : string :=
  match f with Full => "full" | Compact => "compact" | Pretty => "pretty" | JSON => "json" end.

Definition otlp_protocol_default : OtlpProtocol := Grpc_.
Definition log_format_default : LogFormat := Full.

(** [From<String>], with [str::to_lowercase]: an export that is neither traces
    nor metrics panics, an unknown protocol or format is the default. *)
Definition otlp_export_from {E} (to_lowercase : string -> string) (s : string) : outcome E OtlpExport :=
  if decide (to_lowercase s = "traces") then Ok Traces
  else if decide (to_lowercase s = "metrics") then Ok Metrics
  else Panic "args.rs:97".
Definition otlp_protocol_from (to_lowercase : string -> string) (s : string) : OtlpProtocol :=
  if decide (to_lowercase s = "grpc") then Grpc_
  else if decide (to_lowercase s = "http") then Http_
  else otlp_protocol_default.
Definition log_format_from (to_lowercase : string -> string) (s : string) : LogFormat :=
  if decide (to_lowercase s = "full") then Full
  else if decide (to_lowercase s = "compact") then Compact
  else if decide (to_lowercase s = "pretty") then Pretty
  else if decide (to_lowercase s = "json") then JSON
  else log_format_default.

(** An argument's text is read back as the argument, in any case. *)
Lemma otlp_export_from_to_string {E} to_lowercase (s : string) (e : OtlpExport) :
  otlp_export_from (E := E) to_lowercase s = Ok e <-> to_lowercase s = otlp_export_to_string e.
Proof. unfold otlp_export_from. destruct e; repeat case_decide; simpl; split; congruence. Qed.
Lemma otlp_protocol_from_to_string to_lowercase s p :
  to_lowercase s = otlp_protocol_to_string p -> otlp_protocol_from to_lowercase s = p.
Proof. unfold otlp_protocol_from. destruct p; simpl; intros ->; repeat case_decide; done. Qed.
Lemma log_format_from_to_string to_lowercase s f :
  to_lowercase s = log_format_to_string f -> log_format_from to_lowercase s = f.
Proof. unfold log_format_from. destruct f; simpl; intros ->; repeat case_decide; done. Qed.

(** utils/trace.rs *)
Definition DEFAULT_GRPC_OTLP_ENDPOINT : string := "http://localhost:4317".
Definition DEFAULT_HTTP_OTLP_ENDPOINT : string := "http://localhost:4318".

(** [Url::parse] and [String::from] of the url crate.  "v1/traces" and
    "v1/metrics" are relative references, which are resolved against a URL with
    the root as its path below the root. *)
Class UrlText `{TR : Transport} := {
  url_parse : string -> option Url;
  url_as_str : Url -> string
}.
Class UrlTextLaws `(UT : UrlText) := {
  url_parse_default s : s ∈ [DEFAULT_GRPC_OTLP_ENDPOINT; DEFAULT_HTTP_OTLP_ENDPOINT] ->
    exists url, url_parse s = Some url /\ url_path url = "/";
  url_join_signal url path : url_path url = "/" -> path ∈ ["v1/traces"; "v1/metrics"] ->
    exists url', url_join url path = Some url' /\ url_path url' = "/" +:+ path
}.

Section args.
Context {CN : Connector} {HH : HttpHeaders} {TR : Transport} {UT : UrlText}.

Record Args := {
  arg_http_port : Z;
  arg_health_http_port : Z;
  config_path : string;
  tls_cert_path : option string;
  tls_key_path : option string;
  tls_client_ca_cert_path : option string;
  start_up_health_check : bool;
  otlp_export : list OtlpExport;
  arg_log_format : LogFormat;
  arg_quiet : bool;
  otlp_service_name : string;
  otlp_endpoint : option Url;
  otlp_traces_endpoint : option Url;
  otlp_metrics_endpoint : option Url;
  otlp_protocol : OtlpProtocol;
  otlp_traces_protocol : option OtlpProtocol;
  otlp_metrics_protocol : option OtlpProtocol
}.

Record TracingConfig := {
  service_name : string;
  traces : option (OtlpProtocol * string);
  metrics : option (OtlpProtocol * string);
  log_format : LogFormat;
  quiet : bool
}.

(** ** [TracingConfig::try_from] *)

(** The checks of the common endpoint and of one signal's. *)
Definition validate_otlp_endpoint (endpoint : option Url) : outcome ValidationError () :=
  match endpoint with
  | Some endpoint => if decide (url_path endpoint = "/") then Ok () else Err (Invalid "invalid otlp_endpoint")
  | None => Ok ()
  end.
Definition validate_signal_endpoint (name signal_path : string) (protocol : OtlpProtocol) (endpoint : option Url)
    : outcome ValidationError () :=
  match endpoint with
  | Some endpoint =>
      match protocol with
      | Grpc_ => if decide (url_path endpoint = "/") then Ok ()
                 else Err (Invalid ("invalid " +:+ name +:+ " for grpc protocol"))
      | Http_ => if decide (url_path endpoint = signal_path) then Ok ()
                 else Err (Invalid ("invalid " +:+ name +:+ " for http protocol: path should be " +:+ signal_path))
      end
  | None => Ok ()
  end.

(** The argument of [unwrap_or] is evaluated whether or not it is used. *)
Definition signal_endpoint (site path : string) (protocol : OtlpProtocol) (otlp_endpoint : Url) (given : option Url)
    : outcome ValidationError Url :=
  built ← match protocol with
          | Grpc_ => Ok otlp_endpoint
          | Http_ => unwrap site (url_join otlp_endpoint path)
          end;
  Ok (default built given).

Definition traces_protocol (args : Args) : OtlpProtocol := default (otlp_protocol args) (otlp_traces_protocol args).
Definition metrics_protocol (args : Args) : OtlpProtocol := default (otlp_protocol args) (otlp_metrics_protocol args).

Definition tracing_config_from (args : Args) : outcome ValidationError TracingConfig :=
  validate_otlp_endpoint (otlp_endpoint args) ≫= fun _ =>
  validate_signal_endpoint "otlp_traces_endpoint" "/v1/traces" (traces_protocol args) (otlp_traces_endpoint args)
    ≫= fun _ =>
  validate_signal_endpoint "otlp_metrics_endpoint" "/v1/metrics" (metrics_protocol args) (otlp_metrics_endpoint args)
    ≫= fun _ =>
  default_endpoint ← match otlp_protocol args with
                     | Grpc_ => unwrap "args.rs:240" (url_parse DEFAULT_GRPC_OTLP_ENDPOINT)
                     | Http_ => unwrap "args.rs:241" (url_parse DEFAULT_HTTP_OTLP_ENDPOINT)
                     end;
  let endpoint := default default_endpoint (otlp_endpoint args) in
  traces_endpoint ← signal_endpoint "args.rs:248" "v1/traces" (traces_protocol args) endpoint
                      (otlp_traces_endpoint args);
  metrics_endpoint ← signal_endpoint "args.rs:255" "v1/metrics" (metrics_protocol args) endpoint
                       (otlp_metrics_endpoint args);
  Ok {| service_name := otlp_service_name args;
        traces := if bool_decide (Traces ∈ otlp_export args)
                  then Some (traces_protocol args, url_as_str traces_endpoint) else None;
        metrics := if bool_decide (Metrics ∈ otlp_export args)
                   then Some (metrics_protocol args, url_as_str metrics_endpoint) else None;
        log_format := arg_log_format args; quiet := arg_quiet args |}.
End args.

(** ** What the telemetry configuration promises *)
Section endpoints.
Context {CN : Connector} {HH : HttpHeaders} {TR : Transport} {UT : UrlText} {UL : UrlTextLaws UT}.

(** The path of an endpoint that speaks a protocol, for one signal. *)
Definition protocol_path (signal : string) (protocol : OtlpProtocol) : string :=
  match protocol with Grpc_ => "/" | Http_ => "/v1/" +:+ signal end.
Definition default_otlp_endpoint (protocol : OtlpProtocol) : string :=
  match protocol with Grpc_ => DEFAULT_GRPC_OTLP_ENDPOINT | Http_ => DEFAULT_HTTP_OTLP_ENDPOINT end.
Definition has_path (path : string) (given : option Url) : Prop :=
  from_option (fun url => url_path url = path) True given.

(** Where a signal is sent: to its own endpoint when it has one, to the common
    one otherwise, below which HTTP has a path per signal. *)
Definition sent_to (base : Url) (signal : string) (protocol : OtlpProtocol) (given : option Url) (url : Url) : Prop :=
  given = Some url \/
  given = None /\ match protocol with Grpc_ => url = base | Http_ => url_join base ("v1/" +:+ signal) = Some url end.

Definition signal_exported (base : Url) (signal : string) (wanted : Prop) (protocol : OtlpProtocol)
    (given : option Url) (result : option (OtlpProtocol * string)) : Prop :=
  (is_Some result <-> wanted) /\
  forall p text, result = Some (p, text) -> p = protocol /\ exists url, text = url_as_str url /\
    url_path url = protocol_path signal protocol /\ sent_to base signal protocol given url.

Lemma validate_signal_endpoint_ok name signal protocol given :
  validate_signal_endpoint name ("/v1/" +:+ signal) protocol given = Ok () <->
  has_path (protocol_path signal protocol) given.
Proof. destruct given as [url|]; [|done]. destruct protocol; simpl; case_decide; done. Qed.

Lemma validate_otlp_endpoint_ok given : validate_otlp_endpoint given = Ok () <-> has_path "/" given.
Proof. destruct given as [url|]; simpl; [|done]. by case_decide. Qed.
Lemma validate_otlp_endpoint_no_panic given : no_panic (validate_otlp_endpoint given).
Proof. destruct given; simpl; try case_decide; done. Qed.
Lemma validate_signal_endpoint_no_panic name path protocol given :
  no_panic (validate_signal_endpoint name path protocol given).
Proof. destruct given, protocol; simpl; try case_decide; done. Qed.

Lemma signal_endpoint_ok site signal protocol base given :
  url_path base = "/" -> "v1/" +:+ signal ∈ ["v1/traces"; "v1/metrics"] ->
  has_path (protocol_path signal protocol) given ->
  exists url, signal_endpoint site ("v1/" +:+ signal) protocol base given = Ok url /\
    url_path url = protocol_path signal protocol /\ sent_to base signal protocol given url.
Proof.
  intros Hb Hs Hg. destruct (url_join_signal base _ Hb Hs) as (joined & Ej & Hj).
  unfold signal_endpoint, sent_to. destruct protocol; rewrite ?Ej; simpl; (eexists; split; [reflexivity|]);
    destruct given; naive_solver.
Qed.

Lemma signal_exported_intro base signal (wanted : Prop) `{!Decision wanted} protocol given url :
  url_path url = protocol_path signal protocol -> sent_to base signal protocol given url ->
  signal_exported base signal wanted protocol given
    (if bool_decide wanted then Some (protocol, url_as_str url) else None).
Proof.
  intros Hp Hs. split; [|intros p text]; case_bool_decide as Hw; rewrite ?is_Some_alt; try done.
  intros [= <- <-]. eauto.
Qed.

Lemma default_endpoint_ok protocol :
  exists url, match protocol with
              | Grpc_ => unwrap (E := ValidationError) "args.rs:240" (url_parse DEFAULT_GRPC_OTLP_ENDPOINT)
              | Http_ => unwrap "args.rs:241" (url_parse DEFAULT_HTTP_OTLP_ENDPOINT)
              end = Ok url /\ url_parse (default_otlp_endpoint protocol) = Some url /\ url_path url = "/".
Proof.
  destruct (url_parse_default (default_otlp_endpoint protocol)) as (url & E & Hp);
    [destruct protocol; [left|right; left]|].
  exists url. by destruct protocol; simpl in *; rewrite E.
Qed.

Section checked.
Context (args : Args).

Lemma tracing_config_checked :
  has_path "/" (otlp_endpoint args) ->
  has_path (protocol_path "traces" (traces_protocol args)) (otlp_traces_endpoint args) ->
  has_path (protocol_path "metrics" (metrics_protocol args)) (otlp_metrics_endpoint args) ->
  exists config base, tracing_config_from args = Ok config /\
    (otlp_endpoint args = Some base \/
     otlp_endpoint args = None /\ url_parse (default_otlp_endpoint (otlp_protocol args)) = Some base) /\
    signal_exported base "traces" (Traces ∈ otlp_export args) (traces_protocol args) (otlp_traces_endpoint args)
      (traces config) /\
    signal_exported base "metrics" (Metrics ∈ otlp_export args) (metrics_protocol args) (otlp_metrics_endpoint args)
      (metrics config).
Proof.
  intros He Ht Hm. destruct (default_endpoint_ok (otlp_protocol args)) as (url & Eu & Hu & Hp).
  set (base := default url (otlp_endpoint args)).
  assert (Hb : url_path base = "/") by (unfold base; destruct (otlp_endpoint args); done).
  destruct (signal_endpoint_ok "args.rs:248" "traces" (traces_protocol args) base (otlp_traces_endpoint args) Hb)
    as (tu & Et & Htp & Hts);
    [left|exact Ht|].
  destruct (signal_endpoint_ok "args.rs:255" "metrics" (metrics_protocol args) base (otlp_metrics_endpoint args) Hb)
    as (mu & Em & Hmp & Hms);
    [right; left|exact Hm|].
  eexists _, base. split; [|split; [|split]].
  - unfold tracing_config_from. rewrite (proj2 (validate_otlp_endpoint_ok _) He). simpl.
    rewrite (proj2 (validate_signal_endpoint_ok "otlp_traces_endpoint" "traces" _ _) Ht
      : validate_signal_endpoint _ "/v1/traces" _ _ = _). simpl.
    rewrite (proj2 (validate_signal_endpoint_ok "otlp_metrics_endpoint" "metrics" _ _) Hm
      : validate_signal_endpoint _ "/v1/metrics" _ _ = _). simpl.
    rewrite Eu. simpl. fold base. change "v1/traces" with ("v1/" +:+ "traces").
    rewrite Et. simpl. change "v1/metrics" with ("v1/" +:+ "metrics"). rewrite Em. simpl. reflexivity.
  - unfold base. destruct (otlp_endpoint args); [by left|by right].
  - by apply signal_exported_intro.
  - by apply signal_exported_intro.
Qed.

Lemma tracing_config_unchecked config :
  tracing_config_from args = Ok config ->
  has_path "/" (otlp_endpoint args) /\
  has_path (protocol_path "traces" (traces_protocol args)) (otlp_traces_endpoint args) /\
  has_path (protocol_path "metrics" (metrics_protocol args)) (otlp_metrics_endpoint args).
Proof.
  unfold tracing_config_from. intros ([] & He & ([] & Ht & ([] & Hm & _)%bind_Ok)%bind_Ok)%bind_Ok.
  split; [|split]; [by apply validate_otlp_endpoint_ok|by eapply validate_signal_endpoint_ok..].
Qed.
End checked.

(** The telemetry configuration exists exactly when the endpoints given fit the
    protocols they are used with; then a signal is exported when it is
    asked for, in its protocol and to an endpoint of that protocol's path. No
    arguments make the derivation panic. *)
Theorem tracing_config_endpoints args :
  no_panic (tracing_config_from args) /\
  ((exists config, tracing_config_from args = Ok config) <->
     has_path "/" (otlp_endpoint args) /\
     has_path (protocol_path "traces" (traces_protocol args)) (otlp_traces_endpoint args) /\
     has_path (protocol_path "metrics" (metrics_protocol args)) (otlp_metrics_endpoint args)) /\
  forall config, tracing_config_from args = Ok config -> exists base,
    (otlp_endpoint args = Some base \/
     otlp_endpoint args = None /\ url_parse (default_otlp_endpoint (otlp_protocol args)) = Some base) /\
    signal_exported base "traces" (Traces ∈ otlp_export args) (traces_protocol args) (otlp_traces_endpoint args)
      (traces config) /\
    signal_exported base "metrics" (Metrics ∈ otlp_export args) (metrics_protocol args) (otlp_metrics_endpoint args)
      (metrics config).
Proof.
  split; [|split; [split|]].
  - pose proof (tracing_config_checked args) as Hok. revert Hok. unfold tracing_config_from. intros Hok.
    apply no_panic_bind; [apply validate_otlp_endpoint_no_panic|intros [] He].
    apply no_panic_bind; [apply validate_signal_endpoint_no_panic|intros [] Ht].
    apply no_panic_bind; [apply validate_signal_endpoint_no_panic|intros [] Hm].
    destruct Hok as (config & base & E & _);
      [by apply validate_otlp_endpoint_ok|by eapply validate_signal_endpoint_ok..|].
    rewrite He, Ht, Hm in E. simpl in E. by rewrite E.
  - intros [config H]. by apply tracing_config_unchecked in H.
  - intros (He & Ht & Hm). destruct (tracing_config_checked args He Ht Hm) as (config & base & -> & _).
    by exists config.
  - intros config H. destruct (tracing_config_unchecked args config H) as (He & Ht & Hm).
    destruct (tracing_config_checked args He Ht Hm) as (config' & base & E & Hc). rewrite H in E.
    injection E as <-. by exists base.
Qed.

(** The architecture decision promises localhost:4318 to signals exported over
    HTTP; one whose protocol alone is HTTP gets the port of gRPC. *)
Theorem mixed_protocols_default args config base :
  otlp_endpoint args = None -> otlp_traces_endpoint args = None -> otlp_protocol args = Grpc_ ->
  otlp_traces_protocol args = Some Http_ -> Traces ∈ otlp_export args ->
  url_parse DEFAULT_GRPC_OTLP_ENDPOINT = Some base ->
  tracing_config_from args = Ok config ->
  exists url, url_join base "v1/traces" = Some url /\ traces config = Some (Http_, url_as_str url).
Proof.
  intros He Ht Hp Htp Hw Hb H. destruct (tracing_config_unchecked args config H) as (Ce & Ct & Cm).
  destruct (tracing_config_checked args Ce Ct Cm) as (config' & base' & E & Hb' & [Hx1 Hx2] & _).
  rewrite H in E. injection E as <-. rewrite He, Hp in Hb'. destruct Hb' as [?|[_ Hb']]; [done|].
  simpl in Hb'. rewrite Hb in Hb'. injection Hb' as <-. destruct (proj2 Hx1 Hw) as [[p text] Et].
  destruct (Hx2 _ _ Et) as (-> & url & -> & _ & Hs). unfold traces_protocol in *. rewrite Htp in *.
  destruct Hs as [Hs|[_ Hs]]; [by rewrite Ht in Hs|]. by exists url.
Qed.
End endpoints.

Section witnesses.
#[local] Existing Instance settings_connector.
#[local] Existing Instance list_headers.

(** URLs as an origin and a path, on a network that does not answer. *)
#[local] Instance silent_network : Transport := {|
  Url := string * string;
  Uri := string;
  url_path := snd;
  url_set_path path url := (url.1, path);
  url_join url path := Some (url.1, "/" +:+ path);
  uri_from url := Some (url.1 +:+ url.2);
  HttpClientInner := ();
  connection c := {| base_url := (http_host c, "/"); health_url := (http_host c, "/health");
                     api_token := http_api_token c; inner := () |};
  inject_context h := h;
  Body := string;
  call _ _ := inr "connection refused";
  body_collect := Some;
  eventsource _ := [];
  base64_encode s := s;
  new_v4 := "0b1f9df8-e2cd-4a3c-8a3b-6f1f2f3f4f5f"
|}.
#[local] Instance origin_text : UrlText := {|
  url_parse s := Some (s, "/");
  url_as_str url := url.1 +:+ url.2
|}.
#[local] Instance origin_text_laws : UrlTextLaws origin_text.
Proof. split; intros; simpl; by eexists. Qed.

Definition ex_args : Args :=
  {| arg_http_port := 8033; arg_health_http_port := 8034; config_path := "config/config.yaml";
     tls_cert_path := None; tls_key_path := None; tls_client_ca_cert_path := None; start_up_health_check := false;
     otlp_export := [Traces]; arg_log_format := Full; arg_quiet := false;
     otlp_service_name := "fms_guardrails_orchestr8"; otlp_endpoint := None; otlp_traces_endpoint := None;
     otlp_metrics_endpoint := None; otlp_protocol := Grpc_; otlp_traces_protocol := Some Http_;
     otlp_metrics_protocol := None |}.

Example ex_traces :
  traces <$> tracing_config_from ex_args = Ok (Some (Http_, "http://localhost:4317/v1/traces")).
Proof. reflexivity. Qed.

Lemma tracing_config_endpoints_witness :
  no_panic (tracing_config_from ex_args) /\ exists config, tracing_config_from ex_args = Ok config.
Proof.
  destruct (tracing_config_endpoints ex_args) as (Hn & Hok & _). split; [exact Hn|].
  apply (proj2 Hok). repeat split.
Defined.
End witnesses.
