(* ===== verification/Telemetry.v ===== *)
(** * Telemetry

    src/utils/trace.rs: what [init_tracing] sets up from a [TracingConfig], and
    the metrics of the server's requests; the metrics of the clients' requests
    in src/clients/http.rs (the layers of the HTTP client) and
    src/clients/otel_grpc.rs.  Exporters are a parameter ([Otel]); log lines and
    span fields are left out, a metric is an increment or a recorded value. *)
From S2P Require Import Prelude External Errors Utf8 Hostname Config Detection Clients OpenAi Http Args.
#[local] Open Scope string_scope.
#[local] Open Scope list_scope.
#[local] Open Scope Z_scope.

(** ** Set-up *)
Class Otel := {
  TracerProvider : Type;
  MeterProvider : Type;
  (** building an exporter for a protocol, an endpoint and a time-out in
      seconds, and its provider, for a service's name *)
  build_tracer_provider : OtlpProtocol -> string -> Z -> string -> TracerProvider + string;
  build_meter_provider : OtlpProtocol -> string -> Z -> Z -> string -> MeterProvider + string;
  (** whether no subscriber is installed yet *)
  set_global_default : bool;
  shutdown_tracer : TracerProvider -> option string;
  shutdown_meter : MeterProvider -> option string
}.

Section setup.
Context {OT : Otel}.

(** anyhow's [context] *)
Definition context {A} (message : string) (m : outcome string A) : outcome string A :=
  map_err (fun e => message +:+ ": " +:+ e) m.
Definition from_result {A} (r : A + string) : outcome string A :=
  match r with inl a => Ok a | inr e => Err e end.
Definition from_error (e : option string) : outcome string () :=
  match e with None => Ok () | Some e => Err e end.

Definition init_tracer_provider (tracing_config : TracingConfig) : outcome string (option TracerProvider) :=
  match traces tracing_config with
  | Some (protocol, endpoint) =>
      provider ← context match protocol with
                         | Grpc_ => "Failed to build gRPC span exporter"
                         | Http_ => "Failed to build HTTP span exporter"
                         end (from_result (build_tracer_provider protocol endpoint 3 (service_name tracing_config)));
      Ok (Some provider)
  | None => Ok None
  end.

(** Metrics are read every three seconds. *)
Definition init_meter_provider (tracing_config : TracingConfig) : outcome string (option MeterProvider) :=
  match metrics tracing_config with
  | Some (protocol, endpoint) =>
      provider ← context match protocol with
                         | Grpc_ => "Failed to build OTel gRPC metric exporter"
                         | Http_ => "Failed to build OTel HTTP metric exporter"
                         end (from_result (build_meter_provider protocol endpoint 10 3
                                             (service_name tracing_config)));
      Ok (Some provider)
  | None => Ok None
  end.

(** The layers of the subscriber, and what the closure that is returned shuts
    down. *)
Inductive TracingLayer := OpenTelemetryLayer | MetricsLayer | StdoutLayer (format : LogFormat).
Record Tracing := {
  layers : list TracingLayer;
  trace_provider : option TracerProvider;
  meter_provider : option MeterProvider
}.

Definition init_tracing (tracing_config : TracingConfig) : outcome string Tracing :=
  trace_provider ← context "Failed to initialize tracer provider" (init_tracer_provider tracing_config);
  meter_provider ← context "Failed to initialize meter provider" (init_meter_provider tracing_config);
  let layers := match trace_provider with Some _ => [OpenTelemetryLayer] | None => [] end
                ++ match meter_provider with Some _ => [MetricsLayer] | None => [] end
                ++ (if quiet tracing_config then [] else [StdoutLayer (log_format tracing_config)]) in
  if set_global_default then
    Ok {| layers := layers; trace_provider := trace_provider; meter_provider := meter_provider |}
  else Panic "utils/trace.rs:186".

Definition trace_shutdown (self : Tracing) : outcome string () :=
  match trace_provider self with
  | Some provider => context "Failed to shutdown tracer provider" (from_error (shutdown_tracer provider))
  | None => Ok ()
  end ≫= fun _ =>
  match meter_provider self with
  | Some provider => context "Failed to shutdown meter provider" (from_error (shutdown_meter provider))
  | None => Ok ()
  end.

(** Tracing that starts has a layer per signal exported and one for the
    standard output, unless it is to be quiet. *)
Lemma init_tracing_layers config t :
  init_tracing config = Ok t ->
  (OpenTelemetryLayer ∈ layers t <-> is_Some (traces config)) /\
  (MetricsLayer ∈ layers t <-> is_Some (metrics config)) /\
  forall format, StdoutLayer format ∈ layers t <-> quiet config = false /\ format = log_format config.
Proof.
  unfold init_tracing. intros (tp & Ht & (mp & Hm & H)%bind_Ok)%bind_Ok.
  destruct set_global_default; [|done]. injection H as <-. simpl.
  assert (Et : is_Some tp <-> is_Some (traces config)).
  { revert Ht. unfold init_tracer_provider. destruct (traces config) as [[[] e]|]; [..|by intros [= <-]];
      destruct (build_tracer_provider _ _ _ _); intros [= <-]; split; by eexists. }
  assert (Em : is_Some mp <-> is_Some (metrics config)).
  { revert Hm. unfold init_meter_provider. destruct (metrics config) as [[[] e]|]; [..|by intros [= <-]];
      destruct (build_meter_provider _ _ _ _ _); intros [= <-]; split; by eexists. }
  rewrite <- Et, <- Em. split; [|split; [|intros f]]; destruct tp, mp, (quiet config); simpl;
    rewrite ?elem_of_cons, ?elem_of_nil; unfold is_Some; naive_solver.
Qed.
End setup.

(** ** Metrics *)
Inductive Metric := Count (counter : string) | Histogram (name : string) (value : Z).
#[export] Instance metric_eq_dec : EqDecision Metric.
Proof. solve_decision. Defined.

(** [StatusCode]'s classes *)
Definition is_server_error (status : StatusCode) : bool := (500 <=? status) && (status <? 600).
Definition is_client_error (status : StatusCode) : bool := (400 <=? status) && (status <? 500).
Definition is_success (status : StatusCode) : bool := (200 <=? status) && (status <? 300).

(** [as_millis() as u64] *)
Definition millis_u64 (latency : Z) : Z := wrap 64 latency.

(** The counter of a status's class; other statuses are only logged. *)
Definition count_class (server_error client_error success : string) (status : StatusCode) : list Metric :=
  if is_server_error status then [Count server_error]
  else if is_client_error status then [Count client_error]
  else if is_success status then [Count success]
  else [].

(** *** The server's requests *)
Definition on_incoming_request : list Metric := [Count "incoming_request_count"].
Definition on_outgoing_response (status : StatusCode) (latency : Z) : list Metric :=
  [Count "handled_request_count"; Histogram "service_request_duration" (millis_u64 latency)]
  ++ count_class "server_error_response_count" "client_app_error_response_count" "success_response_count" status.
Definition on_outgoing_eos (stream_duration : Z) : list Metric :=
  [Count "service_stream_response_count"; Histogram "service_stream_response_duration" (millis_u64 stream_duration)].

(** *** The clients' requests *)
Definition on_client_response (status : StatusCode) (latency : Z) : list Metric :=
  [Count "client_response_count"; Histogram "client_request_duration" (millis_u64 latency)]
  ++ count_class "client_5xx_response_count" "client_4xx_response_count" "client_success_response_count" status.
Definition client_on_request : list Metric := [Count "incoming_request_count"].
Definition client_on_failure : list Metric :=
  [Count "client_request_failure_count"; Count "client_5xx_response_count"].
Definition client_on_eos (stream_duration : Z) : list Metric :=
  [Count "client_stream_response_count"; Histogram "client_stream_response_duration" (millis_u64 stream_duration)].

(** The gRPC service's future: its response or failure. *)
Definition log_on_response_or_error (latency : Z) (response : StatusCode + string) : list Metric :=
  match response with
  | inl status => on_client_response status latency
  | inr _ => client_on_failure
  end.
(** A poll of the response future starts and ends at an instant (in milliseconds
    of a monotonic clock) and may find the inner future ready.  The clock of the
    request starts anew at each poll. *)
Record Poll := { start_time : Z; end_time : Z; inner_poll : option (StatusCode + string) }.
Definition poll (p : Poll) : option (list Metric) :=
  result ← inner_poll p;
  Some (log_on_response_or_error (end_time p - start_time p) result).
Fixpoint poll_ready (polls : list Poll) : option (list Metric) :=
  match polls with
  | [] => None
  | p :: polls => match poll p with Some metrics => Some metrics | None => poll_ready polls end
  end.
Definition grpc_call (polls : list Poll) : list Metric := client_on_request ++ default [] (poll_ready polls).

(** What a gRPC call reports is the duration of its last poll alone. *)
Lemma poll_ready_last pending p result :
  Forall (fun q => inner_poll q = None) pending -> inner_poll p = Some result ->
  poll_ready (pending ++ [p]) = Some (log_on_response_or_error (end_time p - start_time p) result).
Proof.
  intros Hpending Hp. induction Hpending as [|q pending Hq _ IH]; simpl; unfold poll.
  - by rewrite Hp.
  - by rewrite Hq.
Qed.
Lemma grpc_call_last pending p result :
  Forall (fun q => inner_poll q = None) pending -> inner_poll p = Some result ->
  grpc_call (pending ++ [p]) =
    client_on_request ++ log_on_response_or_error (end_time p - start_time p) result.
Proof. intros Hpending Hp. unfold grpc_call. by rewrite (poll_ready_last _ _ _ Hpending Hp). Qed.

(** tower_http's trace layer calls [on_response] with every response and
    [on_failure] with every error and every response its classifier takes for
    a failure, which for [ServerErrorsAsFailures] are those with a 5xx status. *)
Section http_layer.
Context (classified_failure : StatusCode -> bool)
  (Hclass : forall status, classified_failure status = is_server_error status).

Definition http_call (latency : Z) (response : StatusCode + string) : list Metric :=
  client_on_request ++
  match response with
  | inl status => on_client_response status latency ++ (if classified_failure status then client_on_failure else [])
  | inr _ => client_on_failure
  end.

Definition counted (name : string) (l : list Metric) : nat :=
  length (filter (fun m => m = Count name) l).

(** Every response of a server counts once towards its class, but the 5xx of an
    HTTP server: those count twice. *)
Lemma client_5xx_counted latency pending p response :
  Forall (fun q => inner_poll q = None) pending -> inner_poll p = Some response ->
  counted "client_5xx_response_count" (grpc_call (pending ++ [p])) =
    match response with inl status => if is_server_error status then 1 else 0 | inr _ => 1 end%nat /\
  counted "client_5xx_response_count" (http_call latency response) =
    match response with inl status => if is_server_error status then 2 else 0 | inr _ => 1 end%nat.
Proof.
  intros Hpending Hp. rewrite (grpc_call_last _ _ _ Hpending Hp).
  unfold http_call, log_on_response_or_error, on_client_response, count_class.
  destruct response as [status|e]; [|done]. rewrite Hclass.
  destruct (is_server_error status); [done|]. destruct (is_client_error status); [done|].
  by destruct (is_success status).
Qed.
End http_layer.

(** A request of a caller is counted once as handled, with at most one class. *)
Lemma outgoing_response_classes status latency :
  counted "handled_request_count" (on_outgoing_response status latency) = 1%nat /\
  (length (on_outgoing_response status latency) = 3%nat <->
   is_server_error status || is_client_error status || is_success status = true).
Proof.
  unfold on_outgoing_response, count_class.
  destruct (is_server_error status); [done|]. destruct (is_client_error status); [done|].
  by destruct (is_success status).
Qed.
