(* ===== verification/CompletionState.v ===== *)
(** * Completion state

    src/orchestrator/types/completion_state.rs: what the task that consumes a
    model's stream has recorded - the metadata and usage, each set at most
    once, and the messages of each choice by their position in the stream -
    and what the tasks that read it concurrently may rely on: the state only
    grows, so that what is read below a position that has passed does not
    depend on when it is read. *)
From Stdlib Require Import Sorted.
From S2P Require Import Prelude Collections External OpenAi.
#[local] Open Scope string_scope.
#[local] Open Scope list_scope.
#[local] Open Scope Z_scope.

Record CompletionMetadata := {
  cmd_id : string;
  cmd_created : Z;
  cmd_model : string
}.

(** Shared between tasks; every field has interior mutability, so an operation
    on [&self] returns the new state. *)
Record CompletionState (T : Type) := {
  metadata : option CompletionMetadata;
  completions_by_choice : gmap Z (list (Z * T));
  state_usage : option Usage
}.
Arguments metadata {T}.
Arguments completions_by_choice {T}.
Arguments state_usage {T}.
Arguments Build_CompletionState {T}.

Section operations.
Context {T : Type}.
Implicit Type self : CompletionState T.

Definition completion_state_new : CompletionState T := Build_CompletionState None ∅ None.

(** [OnceLock::set]: the first value stays. *)
Definition once_set {A} (cell : option A) (value : A) : option A :=
  match cell with Some old => Some old | None => Some value end.

Definition set_metadata (id : string) (created : Z) (model : string) self : CompletionState T :=
  Build_CompletionState
    (once_set (metadata self) {| cmd_id := id; cmd_created := created; cmd_model := model |})
    (completions_by_choice self) (state_usage self).

Definition set_usage (usage : Usage) self : CompletionState T :=
  Build_CompletionState (metadata self) (completions_by_choice self)
    (once_set (state_usage self) usage).

Definition insert_completion (choice_index message_index : Z) (completion : T) self
    : CompletionState T :=
  Build_CompletionState (metadata self)
    (match completions_by_choice self !! choice_index with
     | Some entry => <[choice_index := bt_insert message_index completion entry]> (completions_by_choice self)
     | None => <[choice_index := bt_from_iter [(message_index, completion)]]> (completions_by_choice self)
     end)
    (state_usage self).

Definition state_id self : option string := cmd_id <$> metadata self.
Definition state_created self : option Z := cmd_created <$> metadata self.
Definition state_model self : option string := cmd_model <$> metadata self.
End operations.

(** ** Lemmas *)
Section btree_lemmas.
Context {V : Type}.
Implicit Types m : list (Z * V).

Lemma bt_insert_last k v m : Forall (fun kv => kv.1 < k) m -> bt_insert k v m = m ++ [(k, v)].
Proof.
  unfold bt_insert. induction 1 as [|[k' v'] m Hk _ IH]; [done|]. simpl in *.
  change (cmp k k') with (k ?= k')%Z. rewrite (proj2 (Z.compare_gt_iff k k')) by lia. by rewrite IH.
Qed.

Lemma bt_range_Z {E} site lo hi m r :
  bt_range (E := E) site lo hi m = Ok r <->
  lo <= hi /\ r = filter (fun kv => lo <= kv.1 <= hi) m.
Proof.
  unfold bt_range, cmp, Z_ord.
  assert (Hf : filter (fun kv : Z * V => (lo ?= kv.1) <> Gt /\ (kv.1 ?= hi) <> Gt) m =
               filter (fun kv => lo <= kv.1 <= hi) m) by (by apply list_filter_iff).
  rewrite Hf. destruct (Z.compare_spec lo hi); split.
  all: first [done | by intros [= <-]; split; [lia|] | by intros [_ ->] | by intros [? _]; lia].
Qed.
End btree_lemmas.

Section growth.
Context {T : Type}.
Implicit Types (st : CompletionState T) (l : list (Z * Z * T)).

(** The messages of a choice among those inserted, by position. *)
Definition inserted_for (choice_index : Z) (l : list (Z * Z * T)) : list (Z * T) :=
  (fun e => (e.1.2, e.2)) <$> filter (fun e => e.1.1 = choice_index) l.

Definition entry_of (m : list (Z * T)) : option (list (Z * T)) :=
  match m with [] => None | _ => Some m end.

Lemma entry_of_Some m m' : entry_of m = Some m' <-> m = m' /\ m <> [].
Proof. destruct m; simpl; naive_solver. Qed.

Lemma inserted_for_app c l1 l2 : inserted_for c (l1 ++ l2) = inserted_for c l1 ++ inserted_for c l2.
Proof. unfold inserted_for. by rewrite filter_app, fmap_app. Qed.

Lemma inserted_for_elem c i t l : (i, t) ∈ inserted_for c l <-> (c, i, t) ∈ l.
Proof.
  unfold inserted_for. rewrite list_elem_of_fmap. split.
  - intros ([[c' i'] t'] & [= -> ->] & [E Hin]%list_elem_of_filter). simpl in *. by subst.
  - intros Hin. exists (c, i, t). split; [done|]. by apply list_elem_of_filter.
Qed.

(** Inserting at growing positions appends to the choice's messages. *)
Lemma insert_completion_lookup c i t st l :
  (forall c', completions_by_choice st !! c' = entry_of (inserted_for c' l)) ->
  Forall (fun e => e.1.2 < i) l ->
  forall c', completions_by_choice (insert_completion c i t st) !! c' =
             entry_of (inserted_for c' (l ++ [(c, i, t)])).
Proof.
  intros H Hl c'. rewrite inserted_for_app. unfold inserted_for at 2.
  rewrite filter_cons, filter_nil. simpl. unfold insert_completion. simpl.
  assert (Hb : Forall (fun kv : Z * T => kv.1 < i) (inserted_for c l)).
  { apply Forall_forall. intros [i' t'] Hin%inserted_for_elem. rewrite Forall_forall in Hl.
    exact (Hl _ Hin). }
  rewrite H. destruct (decide (c = c')) as [->|N].
  - destruct (inserted_for c' l) as [|e m]; cbn [entry_of]; rewrite lookup_insert_eq; [done|].
    by rewrite bt_insert_last.
  - rewrite app_nil_r. destruct (entry_of (inserted_for c l)); by rewrite lookup_insert_ne.
Qed.
End growth.
