(* ===== verification/Models.v ===== *)
(** * API models

    src/models.rs: the requests of the orchestrator's own endpoints with their
    validation, the responses, and the conversions from and to the messages of
    the generation services (protos/generation.proto,
    protos/caikit_data_model_nlp.proto). *)
From S2P Require Import Prelude External Errors Hostname Detection OpenAi.
#[local] Open Scope string_scope.
#[local] Open Scope list_scope.
#[local] Open Scope Z_scope.

(** ** Messages of the generation services *)

(** The stop and finish reasons of both services, on the wire an i32; an
    unknown number reads as the first. *)
Inductive FinishReason :=
| NotFinished | MaxTokens | EosToken | FinishCancelled | TimeLimit | StopSequence | TokenLimit
| FinishError.
Definition finish_reason_from (n : Z) : FinishReason :=
  match n with
  | 1 => MaxTokens | 2 => EosToken | 3 => FinishCancelled | 4 => TimeLimit | 5 => StopSequence
  | 6 => TokenLimit | 7 => FinishError
  | _ => NotFinished
  end.

Module Fmaas.
Record TokenInfo := { text : string; logprob : f32; rank : Z }.
Record GenerationResponse := {
  input_token_count : Z;
  generated_token_count : Z;
  resp_text : string;
  stop_reason : Z;
  seed : Z;
  tokens : list TokenInfo;
  input_tokens : list TokenInfo
}.
Record LengthPenalty := { start_index : Z; decay_factor : f32 }.
Record SamplingParameters := {
  temperature : f32; top_k : Z; top_p : f32; typical_p : f32; sampling_seed : option Z
}.
Record StoppingCriteria := {
  max_new_tokens : Z; min_new_tokens : Z; time_limit_millis : Z; stop_sequences : list string;
  include_stop_sequence : option bool
}.
Record ResponseOptions := {
  opt_input_text : bool; opt_generated_tokens : bool; opt_input_tokens : bool;
  opt_token_logprobs : bool; opt_token_ranks : bool; opt_top_n_tokens : Z
}.
Record DecodingParameters := {
  repetition_penalty : f32; length_penalty : option LengthPenalty
}.
Record Parameters := {
  method : Z;
  sampling : option SamplingParameters;
  stopping : option StoppingCriteria;
  response : option ResponseOptions;
  decoding : option DecodingParameters;
  truncate_input_tokens : Z;
  beam : option Z
}.
(** [DecodingMethod::from_str_name] *)
Definition decoding_method_from_str_name (s : string) : option Z :=
  if decide (s = "GREEDY") then Some 0 else if decide (s = "SAMPLE") then Some 1 else None.
End Fmaas.

Module CaikitNlp.
Record NlpToken := { text : string; logprob : f64; rank : Z }.
Record TokenStreamDetails := {
  details_finish_reason : Z; details_generated_tokens : Z; details_seed : Z;
  details_input_token_count : Z
}.
Record GeneratedTextResult := {
  generated_text : string;
  generated_tokens : Z;
  finish_reason : Z;
  input_token_count : Z;
  seed : Z;
  tokens : list NlpToken;
  input_tokens : list NlpToken
}.
Record GeneratedTextStreamResult := {
  stream_generated_text : string;
  stream_tokens : list NlpToken;
  stream_details : option TokenStreamDetails;
  stream_input_tokens : list NlpToken
}.
Record NlpLengthPenalty := { start_index : Z; decay_factor : f64 }.
End CaikitNlp.

(** ** Responses *)
Record GeneratedToken := { gt_text : string; gt_logprob : option f64; gt_rank : option Z }.

Definition UNSUITABLE_INPUT_MESSAGE : string :=
  "Unsuitable input detected. Please check the detected entities on your input and try again with the unsuitable input removed.".
Definition UNSUITABLE_OUTPUT_MESSAGE : string := "Unsuitable output detected.".

Record DetectionWarning := {
  warning_id : option DetectionWarningReason;
  warning_message : option string
}.
Definition unsuitable_input : DetectionWarning :=
  {| warning_id := Some UnsuitableInput; warning_message := Some UNSUITABLE_INPUT_MESSAGE |}.
Definition unsuitable_output : DetectionWarning :=
  {| warning_id := Some UnsuitableOutput; warning_message := Some UNSUITABLE_OUTPUT_MESSAGE |}.

Record TextGenTokenClassificationResults := {
  tgr_input : option (list TokenClassificationResult);
  tgr_output : option (list TokenClassificationResult)
}.

Record ClassifiedGeneratedTextResult := {
  cg_generated_text : option string;
  cg_token_classification_results : TextGenTokenClassificationResults;
  cg_finish_reason : option FinishReason;
  cg_generated_token_count : option Z;
  cg_seed : option Z;
  cg_input_token_count : Z;
  cg_warnings : option (list DetectionWarning);
  cg_tokens : option (list GeneratedToken);
  cg_input_tokens : option (list GeneratedToken)
}.
Definition classified_default : ClassifiedGeneratedTextResult :=
  {| cg_generated_text := None;
     cg_token_classification_results := {| tgr_input := None; tgr_output := None |};
     cg_finish_reason := None; cg_generated_token_count := None; cg_seed := None;
     cg_input_token_count := 0; cg_warnings := None; cg_tokens := None; cg_input_tokens := None |}.

Record ClassifiedGeneratedTextStreamResult := {
  cs_generated_text : option string;
  cs_token_classification_results : TextGenTokenClassificationResults;
  cs_finish_reason : option FinishReason;
  cs_generated_token_count : option Z;
  cs_seed : option Z;
  cs_input_token_count : Z;
  cs_warnings : option (list DetectionWarning);
  cs_tokens : option (list GeneratedToken);
  cs_input_tokens : option (list GeneratedToken);
  cs_processed_index : option Z;
  cs_start_index : option Z
}.

(** ** Conversions of the generation services' messages *)
Definition generated_token_from_fmaas (v : Fmaas.TokenInfo) : GeneratedToken :=
  {| gt_text := Fmaas.text v; gt_logprob := Some (f32_as_f64 (Fmaas.logprob v));
     gt_rank := Some (Fmaas.rank v) |}.
Definition generated_token_from_nlp (v : CaikitNlp.NlpToken) : GeneratedToken :=
  {| gt_text := CaikitNlp.text v; gt_logprob := Some (CaikitNlp.logprob v);
     gt_rank := Some (as_u32 (CaikitNlp.rank v)) |}.

Definition no_classification : TextGenTokenClassificationResults :=
  {| tgr_input := None; tgr_output := None |}.

Definition stream_result_from_fmaas (v : Fmaas.GenerationResponse)
    : ClassifiedGeneratedTextStreamResult :=
  {| cs_generated_text := Some (Fmaas.resp_text v);
     cs_finish_reason := Some (finish_reason_from (Fmaas.stop_reason v));
     cs_generated_token_count := Some (Fmaas.generated_token_count v);
     cs_seed := Some (as_u32 (Fmaas.seed v));
     cs_input_token_count := Fmaas.input_token_count v; cs_warnings := None;
     cs_tokens := then_some_nonempty generated_token_from_fmaas (Fmaas.tokens v);
     cs_input_tokens := then_some_nonempty generated_token_from_fmaas (Fmaas.input_tokens v);
     cs_token_classification_results := no_classification;
     cs_processed_index := None; cs_start_index := Some 0 |}.

(** The first response is taken out; an empty batch panics. *)
Definition result_from_fmaas {E} (responses : list Fmaas.GenerationResponse)
    : outcome E ClassifiedGeneratedTextResult :=
  v ← unwrap "models.rs:806" (head responses);
  Ok {| cg_generated_text := Some (Fmaas.resp_text v);
        cg_finish_reason := Some (finish_reason_from (Fmaas.stop_reason v));
        cg_generated_token_count := Some (Fmaas.generated_token_count v);
        cg_seed := Some (as_u32 (Fmaas.seed v));
        cg_input_token_count := Fmaas.input_token_count v; cg_warnings := None;
        cg_tokens := then_some_nonempty generated_token_from_fmaas (Fmaas.tokens v);
        cg_input_tokens := then_some_nonempty generated_token_from_fmaas (Fmaas.input_tokens v);
        cg_token_classification_results := no_classification |}.

Definition stream_result_from_nlp (v : CaikitNlp.GeneratedTextStreamResult)
    : ClassifiedGeneratedTextStreamResult :=
  let details := CaikitNlp.stream_details v in
  {| cs_generated_text := Some (CaikitNlp.stream_generated_text v);
     cs_finish_reason := (fun d => finish_reason_from (CaikitNlp.details_finish_reason d)) <$> details;
     cs_generated_token_count := CaikitNlp.details_generated_tokens <$> details;
     cs_seed := (fun d => as_u32 (CaikitNlp.details_seed d)) <$> details;
     cs_input_token_count :=
       default 0 ((fun d => as_u32 (CaikitNlp.details_input_token_count d)) <$> details);
     cs_warnings := None;
     cs_tokens := then_some_nonempty generated_token_from_nlp (CaikitNlp.stream_tokens v);
     cs_input_tokens := then_some_nonempty generated_token_from_nlp (CaikitNlp.stream_input_tokens v);
     cs_token_classification_results := no_classification;
     cs_processed_index := None; cs_start_index := None |}.

Definition result_from_nlp (v : CaikitNlp.GeneratedTextResult) : ClassifiedGeneratedTextResult :=
  {| cg_generated_text := Some (CaikitNlp.generated_text v);
     cg_finish_reason := Some (finish_reason_from (CaikitNlp.finish_reason v));
     cg_generated_token_count := Some (as_u32 (CaikitNlp.generated_tokens v));
     cg_seed := Some (as_u32 (CaikitNlp.seed v));
     cg_input_token_count := as_u32 (CaikitNlp.input_token_count v); cg_warnings := None;
     cg_tokens := then_some_nonempty generated_token_from_nlp (CaikitNlp.tokens v);
     cg_input_tokens := then_some_nonempty generated_token_from_nlp (CaikitNlp.input_tokens v);
     cg_token_classification_results := no_classification |}.

(** ** Text generation parameters *)
Record ExponentialDecayLengthPenalty := {
  edlp_start_index : option Z; edlp_decay_factor : option f64
}.

Record GuardrailsTextGenerationParameters := {
  tg_max_new_tokens : option Z;
  tg_min_new_tokens : option Z;
  tg_truncate_input_tokens : option Z;
  tg_decoding_method : option string;
  tg_top_k : option Z;
  tg_top_p : option f64;
  tg_typical_p : option f64;
  tg_temperature : option f64;
  tg_repetition_penalty : option f64;
  tg_max_time : option f64;
  tg_exponential_decay_length_penalty : option ExponentialDecayLengthPenalty;
  tg_stop_sequences : option (list string);
  tg_seed : option Z;
  tg_preserve_input_text : option bool;
  tg_input_tokens : option bool;
  tg_generated_tokens : option bool;
  tg_token_logprobs : option bool;
  tg_token_ranks : option bool;
  tg_include_stop_sequence : option bool
}.

Definition length_penalty_from (v : ExponentialDecayLengthPenalty) : Fmaas.LengthPenalty :=
  {| Fmaas.start_index := default 0 (edlp_start_index v);
     Fmaas.decay_factor := f64_as_f32 (default f64_zero (edlp_decay_factor v)) |}.
Definition nlp_length_penalty_from (v : ExponentialDecayLengthPenalty)
    : CaikitNlp.NlpLengthPenalty :=
  {| CaikitNlp.start_index := default 0 (edlp_start_index v);
     CaikitNlp.decay_factor := default f64_zero (edlp_decay_factor v) |}.

Definition fmaas_parameters_from (v : GuardrailsTextGenerationParameters) : Fmaas.Parameters :=
  let decoding_method := default "GREEDY" (tg_decoding_method v) in
  let method := default 0 (Fmaas.decoding_method_from_str_name decoding_method) in
  let f o := f64_as_f32 (default f64_zero o) in
  {| Fmaas.method := method;
     Fmaas.sampling := Some {|
       Fmaas.temperature := f (tg_temperature v); Fmaas.top_k := default 0 (tg_top_k v);
       Fmaas.top_p := f (tg_top_p v); Fmaas.typical_p := f (tg_typical_p v);
       Fmaas.sampling_seed := tg_seed v |};
     Fmaas.stopping := Some {|
       Fmaas.max_new_tokens := default 0 (tg_max_new_tokens v);
       Fmaas.min_new_tokens := default 0 (tg_min_new_tokens v);
       Fmaas.time_limit_millis := f64_as_u32 (default f64_zero (tg_max_time v));
       Fmaas.stop_sequences := default [] (tg_stop_sequences v);
       Fmaas.include_stop_sequence := tg_include_stop_sequence v |};
     Fmaas.response := Some {|
       Fmaas.opt_input_text := default false (tg_preserve_input_text v);
       Fmaas.opt_generated_tokens := default false (tg_generated_tokens v);
       Fmaas.opt_input_tokens := default false (tg_input_tokens v);
       Fmaas.opt_token_logprobs := default false (tg_token_logprobs v);
       Fmaas.opt_token_ranks := default false (tg_token_ranks v);
       Fmaas.opt_top_n_tokens := 0 |};
     Fmaas.decoding := Some {|
       Fmaas.repetition_penalty := f (tg_repetition_penalty v);
       Fmaas.length_penalty := length_penalty_from <$> tg_exponential_decay_length_penalty v |};
     Fmaas.truncate_input_tokens := default 0 (tg_truncate_input_tokens v);
     Fmaas.beam := None |}.

(** ** Requests *)
Section requests.
Context {SJ : SerdeJson} {RT : Runtime}.

(** [validate_detector_params]: a threshold, if given, is a number. *)
Definition validate_detector_params (models : gmap string DetectorParams)
    : outcome ValidationError () :=
  for_each (fun '(model_id, detector_params) =>
    match detector_params !! "threshold" with
    | Some threshold =>
        if negb (value_is_number threshold)
        then Err (Invalid ("`threshold` parameter specified for model `" +:+ model_id
                           +:+ "` must be a number"))
        else Ok ()
    | None => Ok ()
    end) (hash_iter models).

(** [if field.is_empty() { return Err(Required(name)) }] *)
Definition require (name : string) (empty : bool) : outcome ValidationError () :=
  if empty then Err (Required name) else Ok ().

Record GuardrailsConfigInput := {
  gci_models : gmap string DetectorParams;
  gci_masks : option (list (Z * Z))
}.
Record GuardrailsConfigOutput := { gco_models : gmap string DetectorParams }.
Record GuardrailsConfig := {
  gc_input : option GuardrailsConfigInput;
  gc_output : option GuardrailsConfigOutput
}.
Definition guardrails_config_default : GuardrailsConfig := {| gc_input := None; gc_output := None |}.
Definition input_masks (self : GuardrailsConfig) : option (list (Z * Z)) :=
  input ← gc_input self; gci_masks input.
Definition input_detectors (self : GuardrailsConfig) : gmap string DetectorParams :=
  default ∅ (gci_models <$> gc_input self).
Definition output_detectors (self : GuardrailsConfig) : gmap string DetectorParams :=
  default ∅ (gco_models <$> gc_output self).

Record GuardrailsHttpRequest := {
  gr_model_id : string;
  gr_inputs : string;
  gr_guardrail_config : option GuardrailsConfig;
  gr_text_gen_parameters : option GuardrailsTextGenerationParameters
}.

(** A mask is checked against the length of the inputs in bytes. *)
Definition valid_mask (len : Z) (mask : Z * Z) : bool :=
  let in_range i := (0 <=? i) && (i <=? len) in
  in_range mask.1 && in_range mask.2 && (mask.1 <? mask.2).

Definition guardrails_request_validate (self : GuardrailsHttpRequest)
    : outcome ValidationError () :=
  require "model_id" (str_is_empty (gr_model_id self)) ≫= fun _ =>
  require "inputs" (str_is_empty (gr_inputs self)) ≫= fun _ =>
  let len := Z.of_nat (String.length (gr_inputs self)) in
  let masks := config ← gr_guardrail_config self; input ← gc_input config; gci_masks input in
  if match masks with
     | Some input_masks => negb (forallb (valid_mask len) input_masks)
     | None => false
     end
  then Err (Invalid "invalid masks")
  else
    match gr_guardrail_config self with
    | Some config =>
        match gc_input config with
        | Some input => validate_detector_params (gci_models input)
        | None => Ok ()
        end ≫= fun _ =>
        match gc_output config with
        | Some output => validate_detector_params (gco_models output)
        | None => Ok ()
        end
    | None => Ok ()
    end.

Record TextContentDetectionHttpRequest := {
  tc_content : string;
  tc_detectors : gmap string DetectorParams
}.
Definition text_content_validate (self : TextContentDetectionHttpRequest)
    : outcome ValidationError () :=
  require "content" (str_is_empty (tc_content self)) ≫= fun _ =>
  require "detectors" (bool_decide (tc_detectors self = ∅)) ≫= fun _ =>
  validate_detector_params (tc_detectors self).
Record TextContentDetectionResult := { tcd_detections : list ContentAnalysisResponse }.

Record GenerationWithDetectionHttpRequest := {
  gd_model_id : string;
  gd_prompt : string;
  gd_detectors : gmap string DetectorParams;
  gd_text_gen_parameters : option GuardrailsTextGenerationParameters
}.
Definition generation_with_detection_validate (self : GenerationWithDetectionHttpRequest)
    : outcome ValidationError () :=
  require "model_id" (str_is_empty (gd_model_id self)) ≫= fun _ =>
  require "prompt" (str_is_empty (gd_prompt self)) ≫= fun _ =>
  require "detectors" (bool_decide (gd_detectors self = ∅)) ≫= fun _ =>
  validate_detector_params (gd_detectors self).
Record GenerationWithDetectionResult := {
  gdr_generated_text : string;
  gdr_detections : list DetectionResult;
  gdr_input_token_count : Z
}.

Inductive ContextType := Document | Url.
Record ContextDocsHttpRequest := {
  cd_detectors : gmap string DetectorParams;
  cd_content : string;
  cd_context_type : ContextType;
  cd_context : list string
}.
Definition context_docs_validate (self : ContextDocsHttpRequest) : outcome ValidationError () :=
  require "detectors" (bool_decide (cd_detectors self = ∅)) ≫= fun _ =>
  require "content" (str_is_empty (cd_content self)) ≫= fun _ =>
  require "context" (bool_decide (length (cd_context self) = 0%nat)) ≫= fun _ =>
  validate_detector_params (cd_detectors self).
Record ContextDocsResult := { cdr_detections : list DetectionResult }.

Record ChatDetectionHttpRequest := {
  ch_detectors : gmap string DetectorParams;
  ch_messages : list Message;
  ch_tools : list Tool
}.
Definition chat_detection_validate (self : ChatDetectionHttpRequest) : outcome ValidationError () :=
  require "detectors" (bool_decide (ch_detectors self = ∅)) ≫= fun _ =>
  require "messages" (bool_decide (length (ch_messages self) = 0%nat)).
Definition validate_content_type (content : Content) : outcome ValidationError () :=
  match content with
  | Array parts =>
      for_each (fun part => if decide (part_type part = ContentText) then Ok ()
                            else Err (Invalid "Only content of type text is allowed")) parts
  | Text _ => Ok ()
  end.
Definition validate_messages (messages : list Message) : outcome ValidationError () :=
  for_each (fun message =>
    match msg_content message with
    | Some content => validate_content_type content
    | None => match msg_tool_calls message with
              | None => Err (Invalid "Message content cannot be empty")
              | Some _ => Ok ()
              end
    end) messages.
Definition validate_for_text (self : ChatDetectionHttpRequest) : outcome ValidationError () :=
  chat_detection_validate self ≫= fun _ =>
  validate_messages (ch_messages self) ≫= fun _ =>
  validate_detector_params (ch_detectors self).
Record ChatDetectionResult := { chr_detections : list DetectionResult }.

Record DetectionOnGeneratedHttpRequest := {
  dg_prompt : string;
  dg_generated_text : string;
  dg_detectors : gmap string DetectorParams
}.
Definition detection_on_generated_validate (self : DetectionOnGeneratedHttpRequest)
    : outcome ValidationError () :=
  require "prompt" (str_is_empty (dg_prompt self)) ≫= fun _ =>
  require "generated_text" (str_is_empty (dg_generated_text self)) ≫= fun _ =>
  require "detectors" (bool_decide (dg_detectors self = ∅)) ≫= fun _ =>
  validate_detector_params (dg_detectors self).
Record DetectionOnGenerationResult := { dgr_detections : list DetectionResult }.

Record StreamingContentDetectionRequest := {
  sc_detectors : option (gmap string DetectorParams);
  sc_content : string
}.
Definition streaming_content_validate (self : StreamingContentDetectionRequest)
    : outcome ValidationError () :=
  if str_is_empty (sc_content self) then Err (Invalid "`content` cannot be empty") else Ok ().
Record StreamingContentDetectionResponse := {
  scr_detections : list ContentAnalysisResponse;
  scr_processed_index : Z;
  scr_start_index : Z
}.
End requests.
