(* ===== verification/Utils.v ===== *)
(** * Shared helpers

    src/orchestrator/common/utils.rs: slicing by code points, masks, detector
    validation and grouping; and the context of an orchestrator
    (src/orchestrator.rs). *)
From S2P Require Import Prelude External Errors Utf8 Hostname Config Detection Clients Models.
#[local] Open Scope string_scope.
#[local] Open Scope list_scope.
#[local] Open Scope Z_scope.

(** [Context] *)
Record Context {CN : Connector} := {
  ctx_config : OrchestratorConfig;
  ctx_clients : gmap string AnyClient
}.

(** ** Slicing *)

(** [text.chars().skip(start).take(end - start).collect()]; the subtraction
    wraps when [end < start]. *)
Definition slice_codepoints (text : string) (start end_ : Z) : string :=
  let len := usize_sub end_ start in
  concat (takeZ len (dropZ start (chars text))).

Definition apply_masks (text : string) (masks : option (list (Z * Z))) : list (Z * string) :=
  match masks with
  | None | Some [] => [(0, text)]
  | Some masks => (fun '(start, end_) => (start, slice_codepoints text start end_)) <$> masks
  end.

(** ** Detectors *)
Section detectors.
Context {SJ : SerdeJson} {RT : Runtime} {CN : Connector}.

Definition get_chunker_ids (ctx : Context) (detectors : gmap string DetectorParams)
    : outcome OrchError (list string) :=
  collect ((fun detector_id =>
    ok_or (DetectorNotFound detector_id) (get_chunker_id (ctx_config ctx) detector_id))
    <$> hash_keys detectors).

Definition validate_detectors (detectors : list (string * DetectorParams))
    (orchestrator_detectors : gmap string DetectorConfig)
    (supported_detector_types : list DetectorType) (supports_whole_doc_chunker : bool)
    : outcome OrchError () :=
  for_each (fun '(detector_id, _params) =>
    match orchestrator_detectors !! detector_id with
    | Some detector_config =>
        if negb (bool_decide (detector_type detector_config ∈ supported_detector_types)) then
          Err (Validation ("detector `" +:+ detector_id +:+ "` is not supported by this endpoint"))
        else if negb supports_whole_doc_chunker
                && bool_decide (detector_chunker_id detector_config = DEFAULT_CHUNKER_ID) then
          Err (Validation ("detector `" +:+ detector_id
            +:+ "` uses chunker `whole_doc_chunker`, which is not supported by this endpoint"))
        else Ok ()
    | None => Err (DetectorNotFound detector_id)
    end) detectors.

(** The loop over the detectors of a request. *)
Definition group_detectors (ctx : Context) (l : list (string * DetectorParams))
    : outcome OrchError (gmap DetectorType (gmap string DetectorParams)) :=
  foldl (fun acc '(detector_id, detector_params) =>
    detector_groups ← acc;
    config ← unwrap "common/utils.rs:167" (detector (ctx_config ctx) detector_id);
    let detector_type := detector_type config in
    Ok (match detector_groups !! detector_type with
        | Some entry => <[detector_type := <[detector_id := detector_params]> entry]> detector_groups
        | None => <[detector_type := {[ detector_id := detector_params ]}]> detector_groups
        end)) (Ok ∅) l.
Definition group_detectors_by_type (ctx : Context) (detectors : gmap string DetectorParams)
    : outcome OrchError (gmap DetectorType (gmap string DetectorParams)) :=
  group_detectors ctx (hash_iter detectors).

Definition group_detections_by_choice (detections : list (Z * DetectorType * list Detection))
    : gmap Z (list Detection) :=
  foldl (fun detections_by_choice '(choice_index, _, detections) =>
    match detections with
    | [] => detections_by_choice
    | _ =>
        match detections_by_choice !! choice_index with
        | Some entry => <[choice_index := entry ++ detections]> detections_by_choice
        | None => <[choice_index := detections]> detections_by_choice
        end
    end) ∅ detections.
End detectors.

(** ** Lemmas *)

Lemma chars_slice text start end_ :
  aligned text ->
  chars (slice_codepoints text start end_) = takeZ (usize_sub end_ start) (dropZ start (chars text)).
Proof. intros. unfold slice_codepoints. apply chars_concat. auto with guardrails. Qed.

Lemma slice_aligned text start end_ : aligned text -> aligned (slice_codepoints text start end_).
Proof. intros. unfold slice_codepoints. auto with guardrails. Qed.

(** A slice of a slice is a slice of the whole at the shifted indices. *)
Lemma slice_slice text s e s' e' :
  aligned text -> 0 <= s <= e -> 0 <= s' <= e' -> e' <= e - s -> e < 2 ^ 64 ->
  slice_codepoints (slice_codepoints text s e) s' e' = slice_codepoints text (s + s') (s + e').
Proof.
  intros Ha H1 H2 H3 H4. unfold slice_codepoints at 1. rewrite chars_slice by done.
  unfold slice_codepoints. f_equal. rewrite !usize_sub_small by lia.
  replace (s + e' - (s + s')) with (e' - s') by lia. apply takeZ_dropZ_slice; lia.
Qed.

Lemma slice_whole text : char_count text < 2 ^ 64 -> slice_codepoints text 0 (char_count text) = text.
Proof.
  intros H. unfold slice_codepoints, char_count in *. rewrite usize_sub_small by lia.
  rewrite Z.sub_0_r, takeZ_ge, dropZ_drop; [apply concat_chars|].
  rewrite dropZ_drop, drop_0. lia.
Qed.

Lemma slice_char_count text s e :
  aligned text -> 0 <= s <= e -> e < 2 ^ 64 ->
  char_count (slice_codepoints text s e) =
  Z.min e (char_count text) - Z.min s (char_count text).
Proof.
  intros Ha H1 H2. unfold char_count. rewrite chars_slice by done.
  rewrite usize_sub_small by lia. rewrite takeZ_take, dropZ_drop, length_take, length_drop. lia.
Qed.

Lemma char_count_le_byte_len s : char_count s <= byte_len s.
Proof.
  unfold char_count, byte_len. induction s as [|c s IH]; [done|]. simpl.
  destruct (chars s) as [|ch chs]; simpl in *; [lia|]. destruct (starts_cont ch); simpl; lia.
Qed.

Lemma take_min_length {A} (l : list A) (n m : nat) :
  m = (n `min` length l)%nat -> take n l = take m l.
Proof.
  intros ->. destruct (Nat.min_spec n (length l)) as [[? ->]|[? ->]]; [done|].
  rewrite !take_ge by lia. done.
Qed.

Section detectors_lemmas.
Context {SJ : SerdeJson} {RT : Runtime} {RL : RuntimeLaws RT} {CN : Connector}.

Lemma get_chunker_ids_Ok ctx (dets : gmap string DetectorParams) ids :
  get_chunker_ids ctx dets = Ok ids ->
  forall id, is_Some (dets !! id) ->
    exists d, detector (ctx_config ctx) id = Some d /\ detector_chunker_id d ∈ ids.
Proof.
  unfold get_chunker_ids. intros H%collect_Ok id Hid.
  assert (Hin : id ∈ hash_keys dets) by by apply elem_of_hash_keys.
  assert (Hin' : ok_or (DetectorNotFound id) (get_chunker_id (ctx_config ctx) id) ∈
    (fun id => ok_or (DetectorNotFound id) (get_chunker_id (ctx_config ctx) id)) <$> hash_keys dets).
  { apply list_elem_of_fmap. by exists id. }
  rewrite H in Hin'. apply list_elem_of_fmap in Hin' as (c & Hc & Hcin).
  unfold get_chunker_id in Hc. unfold detector.
  destruct (detectors (ctx_config ctx) !! id) as [d|]; [|done]. simpl in Hc.
  injection Hc as <-. by exists d.
Qed.

Lemma get_chunker_ids_total ctx (dets : gmap string DetectorParams) :
  (forall id, is_Some (dets !! id) -> is_Some (detector (ctx_config ctx) id)) ->
  exists ids, get_chunker_ids ctx dets = Ok ids /\
    forall c, c ∈ ids -> exists id d, is_Some (dets !! id) /\
      detector (ctx_config ctx) id = Some d /\ c = detector_chunker_id d.
Proof.
  intros H. unfold get_chunker_ids.
  assert (HF : Forall (fun id => is_Some (detector (ctx_config ctx) id) /\ is_Some (dets !! id))
                 (hash_keys dets)).
  { apply Forall_forall. intros id Hid%elem_of_hash_keys. auto. }
  revert HF. generalize (hash_keys dets) as l. induction 1 as [|id l [[d Hd] Hid] _ (ids & E & IH)].
  - exists []. split; [done|]. by intros c ?%elem_of_nil.
  - exists (detector_chunker_id d :: ids).
    assert (Eg : get_chunker_id (ctx_config ctx) id = Some (detector_chunker_id d)).
    { unfold get_chunker_id, detector in *. by rewrite Hd. }
    rewrite fmap_cons. simpl. rewrite Eg. simpl. rewrite E. split; [done|].
    intros c [->|Hc]%elem_of_cons; [by exists id, d|by apply IH].
Qed.

Lemma validate_detectors_Ok dets configured types whole :
  validate_detectors dets configured types whole = Ok () <->
  forall id params, (id, params) ∈ dets -> exists d, configured !! id = Some d /\
    detector_type d ∈ types /\ (whole = false -> detector_chunker_id d <> DEFAULT_CHUNKER_ID).
Proof.
  unfold validate_detectors. rewrite for_each_Ok. split.
  - intros H id params Hin. specialize (H _ Hin). simpl in H.
    destruct (configured !! id) as [d|]; [|done]. exists d. split; [done|].
    apply guard_Ok in H as [Ht H]. apply guard_Ok in H as [Hw _].
    apply negb_false_iff, bool_decide_eq_true in Ht. split; [done|].
    intros ->. simpl in Hw. by apply bool_decide_eq_false in Hw.
  - intros H [id params] Hin. destruct (H id params Hin) as (d & -> & Ht & Hw).
    rewrite bool_decide_eq_true_2 by done. simpl. destruct whole; simpl; [done|].
    by rewrite bool_decide_eq_false_2 by auto.
Qed.

Lemma group_detections_by_choice_lookup (l : list (Z * DetectorType * list Detection)) i :
  default [] (group_detections_by_choice l !! i) =
  mjoin ((fun e => if decide (e.1.1 = i) then e.2 else []) <$> l) /\
  group_detections_by_choice l !! i <> Some [].
Proof.
  unfold group_detections_by_choice.
  induction l as [|[[j t] ds] l IH] using rev_ind; [by simpl; rewrite lookup_empty|].
  rewrite foldl_app, fmap_app, join_app. simpl.
  set (m := foldl _ _ l) in *. rewrite app_nil_r. destruct IH as [IH1 IH2].
  destruct ds as [|d ds].
  - rewrite <- IH1. destruct (decide _); by rewrite app_nil_r.
  - destruct (m !! j) as [entry|] eqn:Ej; destruct (decide (j = i)) as [->|N].
    + rewrite lookup_insert_eq. simpl. rewrite <- IH1, Ej. split; [done|]. by destruct entry.
    + rewrite lookup_insert_ne by done. by rewrite app_nil_r.
    + rewrite lookup_insert_eq. simpl. rewrite <- IH1, Ej. done.
    + rewrite lookup_insert_ne by done. by rewrite app_nil_r.
Qed.
End detectors_lemmas.

Section grouping_lemmas.
Context {SJ : SerdeJson} {RT : Runtime} {RL : RuntimeLaws RT} {CN : Connector}.

Definition groups_at (groups : gmap DetectorType (gmap string DetectorParams)) ty id
    : option DetectorParams := g ← groups !! ty; g !! id.

Lemma group_detectors_fold ctx (l : list (string * DetectorParams)) groups :
  group_detectors ctx l = Ok groups ->
  NoDup l.*1 ->
  forall ty id params, groups_at groups ty id = Some params <->
    (id, params) ∈ l /\ exists d, detector (ctx_config ctx) id = Some d /\ detector_type d = ty.
Proof.
  revert groups; induction l as [|[id' p'] l IH] using rev_ind; intros groups.
  { intros [= <-] _ ty id params. unfold groups_at. rewrite lookup_empty. simpl.
    split; [done|]. by intros [?%elem_of_nil _]. }
  unfold group_detectors. rewrite foldl_app, fmap_app. simpl.
  intros (g & E & H)%bind_Ok Hnd ty id params.
  apply bind_Ok in H as (d' & Hd' & [= <-]).
  apply NoDup_app in Hnd as (Hnd & Hdisj & _).
  specialize (IH g E Hnd). rewrite elem_of_app, list_elem_of_singleton.
  destruct (detector (ctx_config ctx) id') as [d0|] eqn:Ed; [|done]. injection Hd' as ->.
  assert (Hat : groups_at (match g !! detector_type d' with
        | Some entry => <[detector_type d' := <[id' := p']> entry]> g
        | None => <[detector_type d' := {[ id' := p' ]}]> g
        end) ty id =
    if decide (ty = detector_type d' /\ id = id') then Some p' else groups_at g ty id).
  { unfold groups_at. destruct (decide (ty = detector_type d')) as [->|N].
    - destruct (decide (id = id')) as [->|Ni].
      + rewrite decide_True by done.
        destruct (g !! detector_type d'); rewrite lookup_insert_eq; simpl;
          [apply lookup_insert_eq|apply lookup_singleton_eq].
      + rewrite decide_False by tauto.
        destruct (g !! detector_type d'); rewrite lookup_insert_eq; simpl;
          [by apply lookup_insert_ne|by apply lookup_singleton_ne].
    - rewrite decide_False by tauto.
      by destruct (g !! detector_type d'); rewrite lookup_insert_ne by done. }
  rewrite Hat. destruct (decide _) as [[-> ->]|N].
  - split.
    + intros [= <-]. split; [by right|]. by exists d'.
    + intros [[Hin|[= ->]] _]; [|done]. destruct (Hdisj id'); [|by left].
      apply list_elem_of_fmap. by exists (id', params).
  - rewrite IH. split.
    + intros [Hin Hex]. split; [by left|done].
    + intros [[Hin|[= -> ->]] (d & Hd & <-)]; [by eauto|].
      destruct N. split; [congruence|done].
Qed.

Lemma group_detectors_nonempty ctx (l : list (string * DetectorParams)) groups :
  group_detectors ctx l = Ok groups -> forall ty, groups !! ty <> Some ∅.
Proof.
  revert groups; induction l as [|[id p] l IH] using rev_ind; intros groups.
  { intros [= <-] ty. by rewrite lookup_empty. }
  unfold group_detectors. rewrite foldl_app. simpl.
  intros (g & E & (d & _ & [= <-])%bind_Ok)%bind_Ok ty. specialize (IH g E ty).
  destruct (g !! detector_type d) as [entry|];
    (destruct (decide (ty = detector_type d)) as [->|N];
      [rewrite lookup_insert_eq|by rewrite lookup_insert_ne]);
    [intros [= H]; by apply insert_non_empty in H|intros [= H]; by apply map_non_empty_singleton in H].
Qed.

Lemma group_detectors_total ctx (dets : gmap string DetectorParams) :
  (forall id, is_Some (dets !! id) -> is_Some (detector (ctx_config ctx) id)) ->
  exists groups, group_detectors_by_type ctx dets = Ok groups.
Proof.
  intros H. unfold group_detectors_by_type.
  assert (HF : forall id p, (id, p) ∈ hash_iter dets -> is_Some (detector (ctx_config ctx) id)).
  { intros id p Hin%elem_of_hash_iter. apply H. by eexists. }
  revert HF. generalize (hash_iter dets) as l. unfold group_detectors.
  induction l as [|[id p] l IH] using rev_ind; [by eexists|]. intros HF.
  destruct IH as [g E]. { intros id' p' Hin. apply (HF id' p'). apply elem_of_app. by left. }
  destruct (HF id p) as [d Hd]. { apply elem_of_app. right. by left. }
  rewrite foldl_app. simpl. rewrite E. simpl. rewrite Hd. by eexists.
Qed.
End grouping_lemmas.

(** ** Properties *)
Section utils_properties.
Context {SJ : SerdeJson} {RT : Runtime} {RL : RuntimeLaws RT} {CN : Connector}.

(** Detector validation accepts a request exactly when every detector is
    configured, is of a type the endpoint supports and, where the endpoint
    cannot chunk whole documents, does not use that chunker; it never panics,
    and an error names an offending detector of the request. *)
Theorem validate_detectors_spec dets configured types whole :
  (validate_detectors dets configured types whole = Ok () <->
   forall id params, (id, params) ∈ dets -> exists d, configured !! id = Some d /\
     detector_type d ∈ types /\ (whole = false -> detector_chunker_id d <> DEFAULT_CHUNKER_ID)) /\
  no_panic (validate_detectors dets configured types whole) /\
  (forall e, validate_detectors dets configured types whole = Err e ->
   exists id params, (id, params) ∈ dets /\
     ((configured !! id = None /\ e = DetectorNotFound id) \/
      (is_Some (configured !! id) /\ exists message, e = Validation message))).
Proof.
  split; [apply validate_detectors_Ok|split].
  - apply for_each_no_panic. intros [id params] _. destruct (configured !! id); [|done].
    destruct (negb _); [done|]. by destruct (_ && _).
  - intros e H. apply for_each_Err in H as ([id params] & Hin & H). exists id, params.
    split; [done|]. destruct (configured !! id) as [d|].
    + right. split; [by eexists|]. destruct (negb _); [by injection H as <-; eexists|].
      destruct (_ && _); [by injection H as <-; eexists|done].
    + left. by injection H as <-.
Qed.

(** Grouping by type partitions the requested detectors: when all of them
    are configured, the group of a type holds exactly the detectors of that type,
    with their parameters. *)
Theorem group_detectors_by_type_spec ctx (dets : gmap string DetectorParams) groups :
  group_detectors_by_type ctx dets = Ok groups ->
  forall ty id params,
    groups_at groups ty id = Some params <->
    dets !! id = Some params /\
    exists d, detector (ctx_config ctx) id = Some d /\ detector_type d = ty.
Proof.
  intros H ty id params. rewrite <- (elem_of_hash_iter dets).
  apply group_detectors_fold; [exact H|].
  rewrite (hash_iter_perm dets). apply NoDup_fst_map_to_list.
Qed.

(** Grouping by choice keeps, for each choice, the detections of all its
    results in order, and a choice without detections has no group. *)
Theorem group_detections_by_choice_spec (l : list (Z * DetectorType * list Detection)) (i : Z) :
  default [] (group_detections_by_choice l !! i) =
  mjoin ((fun e => if decide (e.1.1 = i) then e.2 else []) <$> l) /\
  group_detections_by_choice l !! i <> Some [].
Proof. apply group_detections_by_choice_lookup. Qed.

(** The text [t] cut from [text] is its code points from [start] to [end_], and
    nothing else; fewer when [text] ends before. *)
Definition cut_text (text : string) (start end_ : Z) (t : string) : Prop :=
  forall i : nat, chars t !! i =
    if decide (Z.of_nat i < end_ - start) then chars text !! (Z.to_nat start + i)%nat else None.

Lemma slice_cut_text text start end_ :
  aligned text -> 0 <= start <= end_ -> end_ < 2 ^ 64 ->
  cut_text text start end_ (slice_codepoints text start end_).
Proof.
  intros Ha H1 H2 i. rewrite chars_slice by done. rewrite usize_sub_small by lia.
  rewrite takeZ_take, dropZ_drop. case_decide as Hi.
  - rewrite lookup_take_lt by lia. by rewrite lookup_drop.
  - apply lookup_take_ge. lia.
Qed.

Lemma cut_text_char_count text start end_ t :
  cut_text text start end_ t -> 0 <= start <= end_ -> end_ <= char_count text -> char_count t = end_ - start.
Proof.
  unfold char_count. intros Ht H1 H2.
  assert (Hlt : forall i, (i < length (chars t))%nat <-> Z.of_nat i < end_ - start).
  { intros i. rewrite <- lookup_lt_is_Some, Ht. case_decide; [|split; [by intros []|lia]].
    rewrite lookup_lt_is_Some. lia. }
  pose proof (Hlt (length (chars t))). pose proof (Hlt (pred (length (chars t)))). lia.
Qed.

(** C40. The masks of a validated request are applied to its inputs one by one
    and in order, each as an offset, where it starts, and the text from its start
    to its end, code point by code point; without masks the whole inputs are
    used.  There is always something to detect on, and no masked text is empty
    or shorter than its mask when the inputs have one byte per code point.
    (Validation compares masks with the length in bytes, so on other inputs a
    valid mask may reach or lie beyond the last code point.) *)
Theorem validated_masks_spec (self : GuardrailsHttpRequest) (config : GuardrailsConfig) :
  guardrails_request_validate self = Ok () -> gr_guardrail_config self = Some config ->
  aligned (gr_inputs self) -> byte_len (gr_inputs self) < 2 ^ 64 ->
  let texts := apply_masks (gr_inputs self) (input_masks config) in
  texts <> [] /\
  match input_masks config with
  | None | Some [] => texts = [(0, gr_inputs self)] /\ gr_inputs self <> ""
  | Some masks =>
      Forall2 (fun '(start, end_) '(off, t) =>
        0 <= start < end_ /\ end_ <= byte_len (gr_inputs self) /\
        off = start /\ cut_text (gr_inputs self) start end_ t /\
        (char_count (gr_inputs self) = byte_len (gr_inputs self) -> t <> "" /\ char_count t = end_ - start))
        masks texts
  end.
Proof.
  intros Hv Hc Ha Hlen texts. unfold guardrails_request_validate in Hv.
  apply bind_Ok in Hv as ([] & _ & Hv). apply bind_Ok in Hv as ([] & Hin & Hv).
  unfold require in Hin. destruct (str_is_empty (gr_inputs self)) eqn:Hemp; [done|]. clear Hin.
  assert (Hne : gr_inputs self <> "") by (by destruct (gr_inputs self)).
  rewrite Hc in Hv. simpl in Hv. apply guard_Ok in Hv as [Hm _].
  unfold texts, input_masks in *. destruct (input ← gc_input config; gci_masks input) as [[|m masks]|]; [done| |done].
  split; [by destruct m|]. apply negb_false_iff in Hm. rewrite forallb_forall in Hm. unfold apply_masks. apply Forall2_fmap_r.
  apply Forall_Forall2_diag, Forall_forall. intros [s e] Hse%list_elem_of_In%Hm. unfold valid_mask in Hse. simpl in Hse.
  fold (byte_len (gr_inputs self)) in Hse. rewrite !andb_true_iff, !Z.leb_le, Z.ltb_lt in Hse. simpl.
  pose proof (slice_cut_text (gr_inputs self) s e Ha ltac:(lia) ltac:(lia)) as Hcut.
  do 2 (split; [lia|]). split; [done|]. split; [done|]. intros Heq.
  pose proof (cut_text_char_count _ _ _ _ Hcut ltac:(lia) ltac:(lia)) as Hn. split; [|done].
  intros E. rewrite E in Hn. unfold char_count at 1 in Hn. simpl in Hn. lia.
Qed.
End utils_properties.

(** ** Witnesses *)
Section witnesses.
#[local] Existing Instance fifo_runtime.
#[local] Existing Instance simple_json.
#[local] Existing Instance settings_connector.

Definition ex_loaded_ctx : Context := {| ctx_config := ex_loaded; ctx_clients := ex_clients |}.
Definition ex_requested : gmap string DetectorParams := {[ "hap" := ∅; "relevance" := ∅ ]}.
Definition ex_groups : gmap DetectorType (gmap string DetectorParams) :=
  match group_detectors_by_type ex_loaded_ctx ex_requested with Ok g => g | _ => ∅ end.

Lemma group_detectors_by_type_spec_witness :
  groups_at ex_groups TextContents "hap" = Some ∅ /\
  groups_at ex_groups TextChat "hap" <> Some ∅.
Proof.
  assert (E : group_detectors_by_type ex_loaded_ctx ex_requested = Ok ex_groups)
    by (vm_compute; reflexivity).
  pose proof (@group_detectors_by_type_spec simple_json fifo_runtime fifo_runtime_laws
    settings_connector ex_loaded_ctx ex_requested ex_groups E) as H.
  split.
  - apply H. split; [vm_compute; reflexivity|]. eexists. split; vm_compute; reflexivity.
  - intros (_ & d & Hd & Ht)%H. vm_compute in Hd. injection Hd as <-. discriminate.
Defined.

Definition ex_masked_config : GuardrailsConfig :=
  {| gc_input := Some {| gci_models := ex_requested; gci_masks := Some [(0, 5); (6, 11)] |};
     gc_output := None |}.
Definition ex_masked_request : GuardrailsHttpRequest :=
  {| gr_model_id := "model"; gr_inputs := "Hello there"; gr_guardrail_config := Some ex_masked_config;
     gr_text_gen_parameters := None |}.

Lemma validated_masks_spec_witness :
  apply_masks "Hello there" (input_masks ex_masked_config) = [(0, "Hello"); (6, "there")] /\
  cut_text "Hello there" 6 11 "there".
Proof.
  assert (E : apply_masks "Hello there" (input_masks ex_masked_config) = [(0, "Hello"); (6, "there")])
    by (vm_compute; reflexivity).
  split; [exact E|].
  assert (H : Forall2 (fun '(start, end_) '(off, t) =>
        0 <= start < end_ /\ end_ <= byte_len "Hello there" /\
        off = start /\ cut_text "Hello there" start end_ t /\
        (char_count "Hello there" = byte_len "Hello there" -> t <> "" /\ char_count t = end_ - start))
      [(0, 5); (6, 11)] (apply_masks "Hello there" (input_masks ex_masked_config))).
  { apply (@validated_masks_spec simple_json fifo_runtime ex_masked_request ex_masked_config);
      vm_compute; reflexivity. }
  rewrite E in H. apply Forall2_cons in H as [_ H]. apply Forall2_cons in H as [(_ & _ & _ & Hcut & _) _].
  exact Hcut.
Defined.
End witnesses.
