(* ===== verification/Tasks.v ===== *)
(** * Requests and detection tasks

    src/orchestrator/common/client.rs (one request to a service, its error
    wrapped with the id it was sent to) and the unary tasks of
    src/orchestrator/common/tasks.rs: chunking the inputs and running the
    detectors of a request concurrently.

    The services themselves are parameters ([Services]); the order in which
    concurrent requests complete is the [Runtime]'s. *)
From S2P Require Import Prelude Collections External Errors Utf8 Config Detection Chunk.
From S2P Require Import Clients OpenAi Models Utils.
#[local] Open Scope string_scope.
#[local] Open Scope list_scope.
#[local] Open Scope Z_scope.

(** ** The services *)
Inductive ChatCompletionsResponse `{SJ : SerdeJson} :=
| ChatUnary (c : ChatCompletion)
| ChatStreaming (rx : list (outcome OrchError (option ChatCompletionChunk))).
Inductive CompletionsResponse `{SJ : SerdeJson} :=
| CompletionUnary (c : Completion)
| CompletionStreaming (rx : list (outcome OrchError (option Completion))).

(** What each service answers to a request (status codes other than 200 and
    transport failures are client errors). *)
Class Services {SJ : SerdeJson} {CN : Connector} := {
  Headers : Type;
  tokenization_task_predict :
    ChunkerClient -> string -> string -> outcome ClientError TokenizationResults;
  (** The requests sent until the request stream ended or panicked; the answer
      is a stream of messages. *)
  bidi_streaming_tokenization_task_predict :
    ChunkerClient -> string -> list BidiStreamingChunkerTokenizationTaskRequest * option string ->
    outcome ClientError (list (outcome ClientError ChunkerTokenizationStreamResult));
  text_contents :
    DetectorClient -> string -> list string * DetectorParams -> Headers ->
    outcome ClientError (list (list ContentAnalysisResponse));
  text_generation :
    DetectorClient -> string -> string * string * DetectorParams -> Headers ->
    outcome ClientError (list DetectionResult);
  text_chat :
    DetectorClient -> string -> list Message * list Tool * DetectorParams -> Headers ->
    outcome ClientError (list DetectionResult);
  text_context_doc :
    DetectorClient -> string -> string * ContextType * list string * DetectorParams -> Headers ->
    outcome ClientError (list DetectionResult);
  chat_completions :
    OpenAiClient -> ChatCompletionsRequest -> Headers -> outcome ClientError ChatCompletionsResponse;
  completions :
    OpenAiClient -> CompletionsRequest -> Headers -> outcome ClientError CompletionsResponse;
  openai_tokenize :
    OpenAiClient -> TokenizeRequest -> Headers -> outcome ClientError TokenizeResponse;
  generation_tokenize :
    GenerationClient -> string -> string -> Headers -> outcome ClientError (Z * list string);
  generation_generate :
    GenerationClient -> string -> string -> option GuardrailsTextGenerationParameters -> Headers ->
    outcome ClientError ClassifiedGeneratedTextResult;
  generation_generate_stream :
    GenerationClient -> string -> string -> option GuardrailsTextGenerationParameters -> Headers ->
    outcome ClientError (list (outcome ClientError ClassifiedGeneratedTextStreamResult));
  (** [headers.append(CONTENT_TYPE, JSON_CONTENT_TYPE)] *)
  append_json_content_type : Headers -> Headers
}.

(** The same services with another text generation model. *)
Definition with_generation {SJ : SerdeJson} {CN : Connector} (SV : Services)
    (g : GenerationClient -> string -> string -> option GuardrailsTextGenerationParameters ->
         @Headers _ _ SV -> outcome ClientError ClassifiedGeneratedTextResult) : Services := {|
  Headers := @Headers _ _ SV;
  tokenization_task_predict := @tokenization_task_predict _ _ SV;
  bidi_streaming_tokenization_task_predict := @bidi_streaming_tokenization_task_predict _ _ SV;
  text_contents := @text_contents _ _ SV;
  text_generation := @text_generation _ _ SV;
  text_chat := @text_chat _ _ SV;
  text_context_doc := @text_context_doc _ _ SV;
  chat_completions := @chat_completions _ _ SV;
  completions := @completions _ _ SV;
  openai_tokenize := @openai_tokenize _ _ SV;
  generation_tokenize := @generation_tokenize _ _ SV;
  generation_generate := g;
  generation_generate_stream := @generation_generate_stream _ _ SV;
  append_json_content_type := @append_json_content_type _ _ SV
|}.

(** The same services with another streaming text generation model. *)
Definition with_generation_stream {SJ : SerdeJson} {CN : Connector} (SV : Services)
    (g : GenerationClient -> string -> string -> option GuardrailsTextGenerationParameters ->
         @Headers _ _ SV ->
         outcome ClientError (list (outcome ClientError ClassifiedGeneratedTextStreamResult)))
    : Services := {|
  Headers := @Headers _ _ SV;
  tokenization_task_predict := @tokenization_task_predict _ _ SV;
  bidi_streaming_tokenization_task_predict := @bidi_streaming_tokenization_task_predict _ _ SV;
  text_contents := @text_contents _ _ SV;
  text_generation := @text_generation _ _ SV;
  text_chat := @text_chat _ _ SV;
  text_context_doc := @text_context_doc _ _ SV;
  chat_completions := @chat_completions _ _ SV;
  completions := @completions _ _ SV;
  openai_tokenize := @openai_tokenize _ _ SV;
  generation_tokenize := @generation_tokenize _ _ SV;
  generation_generate := @generation_generate _ _ SV;
  generation_generate_stream := g;
  append_json_content_type := @append_json_content_type _ _ SV
|}.

(** The same services with other models behind the OpenAI client. *)
Definition with_openai {SJ : SerdeJson} {CN : Connector} (SV : Services)
    (chat : OpenAiClient -> ChatCompletionsRequest -> @Headers _ _ SV ->
            outcome ClientError ChatCompletionsResponse)
    (compl : OpenAiClient -> CompletionsRequest -> @Headers _ _ SV ->
             outcome ClientError CompletionsResponse) : Services := {|
  Headers := @Headers _ _ SV;
  tokenization_task_predict := @tokenization_task_predict _ _ SV;
  bidi_streaming_tokenization_task_predict := @bidi_streaming_tokenization_task_predict _ _ SV;
  text_contents := @text_contents _ _ SV;
  text_generation := @text_generation _ _ SV;
  text_chat := @text_chat _ _ SV;
  text_context_doc := @text_context_doc _ _ SV;
  chat_completions := chat;
  completions := compl;
  openai_tokenize := @openai_tokenize _ _ SV;
  generation_tokenize := @generation_tokenize _ _ SV;
  generation_generate := @generation_generate _ _ SV;
  generation_generate_stream := @generation_generate_stream _ _ SV;
  append_json_content_type := @append_json_content_type _ _ SV
|}.

Section tasks.
Context {SJ : SerdeJson} {RT : Runtime} {CN : Connector} {SV : Services}.

(** ** client.rs *)
Definition chunk (client : ChunkerClient) (chunker_id text : string) : outcome OrchError Chunks :=
  response ← map_err (ChunkerRequestFailed chunker_id)
               (tokenization_task_predict client chunker_id text);
  Ok (chunks_from_tokenization response).

(** [v.map(|v| v + offset)] at type usize *)
Definition shift (offset : Z) (o : option Z) : option Z := (fun v => usize_add v offset) <$> o.

Definition detect_text_contents (client : DetectorClient) (headers : Headers) (detector_id : string)
    (params : DetectorParams) (chunks : Chunks) (apply_chunk_offset : bool)
    : outcome OrchError (list Detection) :=
  let contents := chunk_text <$> chunks in
  match contents with
  | [] => Ok []
  | _ =>
      response ← map_err (DetectorRequestFailed detector_id)
                   (text_contents client detector_id (contents, params) headers);
      Ok (mjoin ((fun '(chunk, detections) =>
            (fun detection =>
               let detection := with_detector_id (detection_from_content_analysis detection)
                                  (Some detector_id) in
               if apply_chunk_offset then
                 let offset := chunk_start chunk in
                 with_span detection (shift offset (det_start detection))
                   (shift offset (det_end detection))
               else detection) <$> detections) <$> zip chunks response))
  end.

Definition with_id (detector_id : string) (d : DetectionResult) : Detection :=
  with_detector_id (detection_from_result d) (Some detector_id).

Definition detect_text_generation (client : DetectorClient) (headers : Headers)
    (detector_id : string) (params : DetectorParams) (prompt generated_text : string)
    : outcome OrchError (list Detection) :=
  response ← map_err (DetectorRequestFailed detector_id)
               (text_generation client detector_id (prompt, generated_text, params) headers);
  Ok (with_id detector_id <$> (response : list DetectionResult)).

Definition detect_text_chat (client : DetectorClient) (headers : Headers) (detector_id : string)
    (params : DetectorParams) (messages : list Message) (tools : list Tool)
    : outcome OrchError (list Detection) :=
  response ← map_err (DetectorRequestFailed detector_id)
               (text_chat client detector_id (messages, tools, params) headers);
  Ok (with_id detector_id <$> (response : list DetectionResult)).

Definition detect_text_context (client : DetectorClient) (headers : Headers) (detector_id : string)
    (params : DetectorParams) (content : string) (context_type : ContextType)
    (context : list string) : outcome OrchError (list Detection) :=
  response ← map_err (DetectorRequestFailed detector_id)
               (text_context_doc client detector_id (content, context_type, context, params) headers);
  Ok (with_id detector_id <$> (response : list DetectionResult)).

Definition chat_completion (client : OpenAiClient) (headers : Headers)
    (request : ChatCompletionsRequest) : outcome OrchError ChatCompletionsResponse :=
  map_err (ChatCompletionRequestFailed (ccr_model request))
    (chat_completions client request (append_json_content_type headers)).

Definition completion (client : OpenAiClient) (headers : Headers) (request : CompletionsRequest)
    : outcome OrchError CompletionsResponse :=
  map_err (CompletionRequestFailed (cr_model request))
    (completions client request (append_json_content_type headers)).

Definition tokenize_openai (client : OpenAiClient) (headers : Headers) (request : TokenizeRequest)
    : outcome OrchError TokenizeResponse :=
  map_err (TokenizeRequestFailed (tkr_model request))
    (openai_tokenize client request (append_json_content_type headers)).

Definition tokenize (client : GenerationClient) (headers : Headers) (model_id text : string)
    : outcome OrchError (Z * list string) :=
  map_err (TokenizeRequestFailed model_id) (generation_tokenize client model_id text headers).

Definition generate (client : GenerationClient) (headers : Headers) (model_id text : string)
    (params : option GuardrailsTextGenerationParameters)
    : outcome OrchError ClassifiedGeneratedTextResult :=
  map_err (GenerateRequestFailed model_id) (generation_generate client model_id text params headers).

(** The stream variants unwrap the response's kind. *)
Definition chat_completion_stream (client : OpenAiClient) (headers : Headers)
    (request : ChatCompletionsRequest)
    : outcome OrchError (list (Z * outcome OrchError (option ChatCompletionChunk))) :=
  response ← chat_completion client headers request;
  match response with
  | ChatStreaming rx => Ok (imap (fun i m => (Z.of_nat i, m)) rx)
  | ChatUnary _ => Panic "common/client.rs:285"
  end.
Definition completion_stream (client : OpenAiClient) (headers : Headers)
    (request : CompletionsRequest)
    : outcome OrchError (list (Z * outcome OrchError (option Completion))) :=
  response ← completion client headers request;
  match response with
  | CompletionStreaming rx => Ok (imap (fun i m => (Z.of_nat i, m)) rx)
  | CompletionUnary _ => Panic "common/client.rs:332"
  end.

(** ** tasks.rs *)

(** [stream::iter(tasks).buffer_unordered(n).try_collect::<Vec<_>>()]: the
    first error among the tasks, in completion order, is the result. *)
Definition run_tasks {A} (n : nat) (tasks : list (outcome OrchError A)) : outcome OrchError (list A) :=
  collect (buffer_unordered n tasks).

(** [try_join_all] on spawned tasks: a task that panicked makes the whole
    join fail, before the tasks' own results are looked at. *)
Definition try_join_all {A} (tasks : list (outcome OrchError A))
    : outcome OrchError (list (outcome OrchError A)) :=
  collect ((fun t => match t with
                     | Panic site => Err (orch_error_from_join (TaskPanicked site))
                     | r => Ok r
                     end) <$> tasks).

Definition whole_doc_chunk (offset : Z) (text : string) : Chunks :=
  [ {| input_start_index := 0; input_end_index := 0; chunk_start := offset;
       chunk_end := usize_add (char_count text) offset; chunk_text := text |} ].

Definition shift_chunk (offset : Z) (c : Chunk) : Chunk :=
  {| input_start_index := input_start_index c; input_end_index := input_end_index c;
     chunk_start := usize_add (chunk_start c) offset; chunk_end := usize_add (chunk_end c) offset;
     chunk_text := chunk_text c |}.

(** One input through one chunker. *)
Definition chunk_input (ctx : Context) (chunker_id : string) (input : Z * string)
    : outcome OrchError Chunks :=
  let '(offset, text) := input in
  if decide (chunker_id = DEFAULT_CHUNKER_ID) then Ok (whole_doc_chunk offset text)
  else
    client ← ok_or (ChunkerNotFound chunker_id)
               (client_map_get KChunker chunker_id (ctx_clients ctx));
    chunks ← chunk client chunker_id text;
    Ok (shift_chunk offset <$> (chunks : list Chunk)).

(** The task spawned for a chunker. *)
Definition chunker_task (ctx : Context) (inputs : list (Z * string)) (chunker_id : string)
    : outcome OrchError (string * Chunks) :=
  chunks ← run_tasks (chunker_concurrent_requests (ctx_config ctx))
             (chunk_input ctx chunker_id <$> inputs);
  Ok (chunker_id, mjoin (chunks : list Chunks)).

Definition chunks (ctx : Context) (chunkers : list string) (inputs : list (Z * string))
    : outcome OrchError (gmap string Chunks) :=
  match inputs with
  | [] => Ok ∅
  | _ =>
      results ← try_join_all (chunker_task ctx inputs <$> chunkers);
      chunk_map ← collect results;
      Ok (hash_collect chunk_map)
  end.

(** The parameters sent to a detector and the threshold applied to what it
    returns. *)
Definition detector_threshold (site : string) (ctx : Context) (detector_id : string)
    (params : DetectorParams) : outcome OrchError (f64 * DetectorParams) :=
  config ← unwrap site (detector (ctx_config ctx) detector_id);
  let '(threshold, params) := pop_threshold params in
  Ok (default (default_threshold config) threshold, params).

Definition above (threshold : f64) (detections : list Detection) : list Detection :=
  filter (fun d => f64_ge (det_score d) threshold = true) detections.

Definition detector_client_of (site : string) (ctx : Context) (detector_id : string)
    : outcome OrchError DetectorClient :=
  unwrap site (client_map_get KDetector detector_id (ctx_clients ctx)).

(** What one detector contributes. *)
Definition contents_task (ctx : Context) (headers : Headers) (detector_id : string)
    (params : DetectorParams) (chunks : Chunks) : outcome OrchError (list Detection) :=
  '(threshold, params) ← detector_threshold "common/tasks.rs:209" ctx detector_id params;
  client ← detector_client_of "common/tasks.rs:212" ctx detector_id;
  detections ← detect_text_contents client headers detector_id params chunks true;
  Ok (above threshold detections).

Definition text_contents_detections (ctx : Context) (headers : Headers)
    (detectors : gmap string DetectorParams) (inputs : list (Z * string))
    : outcome OrchError (list Detection) :=
  chunkers ← get_chunker_ids ctx detectors;
  chunk_map ← chunks ctx chunkers inputs;
  inputs ← collect ((fun '(detector_id, params) =>
    config ← ok_or (DetectorNotFound detector_id) (detector (ctx_config ctx) detector_id);
    chunks ← unwrap "common/tasks.rs:200" (chunk_map !! detector_chunker_id config);
    Ok (detector_id, params, chunks)) <$> hash_iter detectors);
  results ← run_tasks (detector_concurrent_requests (ctx_config ctx))
    ((fun '(detector_id, params, chunks) =>
      contents_task ctx headers detector_id params chunks) <$> inputs);
  Ok (sort_by_key det_start (mjoin (results : list (list Detection)))).

(** The detection tasks on a generation, a chat and a context share their
    shape: one request per detector, filtered by its threshold. *)
Definition detection_task (config_site client_site : string) (ctx : Context)
    (request : DetectorClient -> string -> DetectorParams -> outcome OrchError (list Detection))
    (detector_id : string) (params : DetectorParams) : outcome OrchError (list Detection) :=
  '(threshold, params) ← detector_threshold config_site ctx detector_id params;
  client ← detector_client_of client_site ctx detector_id;
  detections ← request client detector_id params;
  Ok (above threshold detections).

Definition detection_tasks (config_site client_site : string) (ctx : Context)
    (detectors : gmap string DetectorParams)
    (request : DetectorClient -> string -> DetectorParams -> outcome OrchError (list Detection))
    : outcome OrchError (list Detection) :=
  results ← run_tasks (detector_concurrent_requests (ctx_config ctx))
    ((fun '(detector_id, params) =>
      detection_task config_site client_site ctx request detector_id params) <$> hash_iter detectors);
  Ok (mjoin (results : list (list Detection))).

Definition text_generation_detections (ctx : Context) (headers : Headers)
    (detectors : gmap string DetectorParams) (prompt generated_text : string)
    : outcome OrchError (list Detection) :=
  detection_tasks "common/tasks.rs:336" "common/tasks.rs:339" ctx detectors (fun client detector_id params =>
    detect_text_generation client headers detector_id params prompt generated_text).

Definition text_chat_detections (ctx : Context) (headers : Headers)
    (detectors : gmap string DetectorParams) (messages : list Message) (tools : list Tool)
    : outcome OrchError (list Detection) :=
  detection_tasks "common/tasks.rs:388" "common/tasks.rs:392" ctx detectors (fun client detector_id params =>
    detect_text_chat client headers detector_id params messages tools).

Definition text_context_detections (ctx : Context) (headers : Headers)
    (detectors : gmap string DetectorParams) (content : string) (context_type : ContextType)
    (context : list string) : outcome OrchError (list Detection) :=
  detection_tasks "common/tasks.rs:446" "common/tasks.rs:449" ctx detectors (fun client detector_id params =>
    detect_text_context client headers detector_id params content context_type context).
End tasks.

(** ** Lemmas *)

(** [t] is the part of [text] from code point [s] to code point [e]. *)
Definition span_of (text : string) (s e : Z) (t : string) : Prop :=
  0 <= s <= e /\ e <= char_count text /\ t = slice_codepoints text s e.

Lemma span_of_char_count text s e t :
  aligned text -> char_count text < 2 ^ 64 -> span_of text s e t -> char_count t = e - s.
Proof.
  intros Ha Hn (H1 & H2 & ->). rewrite slice_char_count by (try done; lia). lia.
Qed.

Lemma span_of_aligned text s e t : aligned text -> span_of text s e t -> aligned t.
Proof. intros Ha (_ & _ & ->). by apply slice_aligned. Qed.

Lemma span_of_trans text s e t s' e' t' :
  aligned text -> char_count text < 2 ^ 64 -> span_of text s e t -> span_of t s' e' t' ->
  span_of text (s + s') (s + e') t'.
Proof.
  intros Ha Hn Ht Ht'. pose proof (span_of_char_count _ _ _ _ Ha Hn Ht) as Hc.
  destruct Ht as (H1 & H2 & Ht), Ht' as (H3 & H4 & ->). rewrite Hc in H4.
  split; [lia|]. split; [lia|]. rewrite Ht. apply slice_slice; try done; lia.
Qed.

Lemma span_of_whole text : char_count text < 2 ^ 64 -> span_of text 0 (char_count text) text.
Proof.
  intros. unfold span_of. rewrite slice_whole by done. unfold char_count. split; [lia|]. split; [lia|done].
Qed.

Section tasks_lemmas.
Context {SJ : SerdeJson} {RT : Runtime} {RL : RuntimeLaws RT} {CN : Connector} {SV : Services}.

Lemma run_tasks_Ok {A} n (ts : list (outcome OrchError A)) rs :
  (0 < n)%nat -> run_tasks n ts = Ok rs -> exists rs', ts = Ok <$> rs' /\ rs ≡ₚ rs'.
Proof.
  intros Hn H%collect_Ok. pose proof (buffer_unordered_perm n ts Hn) as HP. rewrite H in HP.
  apply Permutation_sym, Permutation_map_inv in HP as (rs' & E & HP). by exists rs'.
Qed.

Lemma run_tasks_no_panic {A} n (ts : list (outcome OrchError A)) :
  (0 < n)%nat -> Forall no_panic ts -> no_panic (run_tasks n ts).
Proof. intros Hn H. apply collect_no_panic. by rewrite buffer_unordered_perm. Qed.

Lemma run_tasks_Err {A} n (ts : list (outcome OrchError A)) e :
  (0 < n)%nat -> run_tasks n ts = Err e -> Err e ∈ ts.
Proof. intros Hn H%collect_Err_elem. by rewrite buffer_unordered_perm in H. Qed.

Lemma run_tasks_total {A} n (rs : list A) :
  (0 < n)%nat -> exists rs', run_tasks n (Ok <$> rs) = Ok rs' /\ rs' ≡ₚ rs.
Proof.
  intros Hn. pose proof (buffer_unordered_perm n (Ok (E := OrchError) <$> rs) Hn) as HP.
  apply Permutation_map_inv in HP as (rs' & E & HP).
  exists rs'. split; [|by symmetry]. by apply collect_Ok.
Qed.

Lemma try_join_all_Ok {A} (ts : list (outcome OrchError A)) rs :
  try_join_all ts = Ok rs -> rs = ts.
Proof.
  unfold try_join_all. intros H%collect_Ok. revert rs H.
  induction ts as [|t ts IH]; intros [|r rs]; simpl; try done. intros [= H1 H2].
  destruct t; simplify_eq/=; by rewrite (IH rs).
Qed.

Lemma try_join_all_results {A} (ts : list (outcome OrchError A)) rs :
  try_join_all ts = Ok rs -> Forall no_panic rs.
Proof.
  intros H. pose proof (try_join_all_Ok _ _ H) as ->. unfold try_join_all in H.
  apply collect_Ok in H. apply Forall_forall. intros t Ht.
  assert (Hin : Ok t ∈ Ok (E := OrchError) <$> ts) by (apply list_elem_of_fmap; by exists t).
  rewrite <- H in Hin. apply list_elem_of_fmap in Hin as (t' & E & _). by destruct t'; simplify_eq/=.
Qed.

Lemma try_join_all_no_panic {A} (ts : list (outcome OrchError A)) : no_panic (try_join_all ts).
Proof.
  apply collect_no_panic, Forall_fmap, Forall_true. by intros [].
Qed.

Lemma detector_threshold_Ok site ctx id params th params' :
  detector_threshold site ctx id params = Ok (th, params') <->
  exists d, detector (ctx_config ctx) id = Some d /\
    th = default (default_threshold d) (pop_threshold params).1 /\
    params' = (pop_threshold params).2.
Proof.
  unfold detector_threshold. rewrite bind_Ok. split.
  - intros (d & Hd & H). destruct (detector _ id); [|done]. injection Hd as ->.
    destruct (pop_threshold params) as [o p]. injection H as <- <-. by exists d.
  - intros (d & -> & -> & ->). exists d. split; [done|]. by destruct (pop_threshold params).
Qed.

Lemma elem_of_above th d l : d ∈ above th l <-> f64_ge (det_score d) th = true /\ d ∈ l.
Proof. unfold above. by rewrite list_elem_of_filter. Qed.

(** What [detect_text_contents] returns: for each chunk, its detections with
    the detector's id and their spans shifted by the chunk's start. *)
Lemma elem_of_detect_text_contents client headers id params cs apply r d :
  detect_text_contents client headers id params cs apply = Ok r -> d ∈ r ->
  exists response c resp x,
    text_contents client id (chunk_text <$> cs, params) headers = Ok response /\
    (c, resp) ∈ zip cs response /\ x ∈ resp /\
    d = (let d0 := with_detector_id (detection_from_content_analysis x) (Some id) in
         if apply then with_span d0 (shift (chunk_start c) (det_start d0))
                         (shift (chunk_start c) (det_end d0)) else d0).
Proof.
  unfold detect_text_contents. destruct cs as [|c0 cs]; [by intros [= <-] ?%elem_of_nil|].
  cbn [fmap list_fmap]. intros (response & Hr & [= <-])%bind_Ok Hd.
  destruct (text_contents _ _ _ _) as [resp| |] eqn:E; try done. injection Hr as ->.
  apply list_elem_of_join in Hd as (l & Hd & Hl).
  apply list_elem_of_fmap in Hl as ([c r] & -> & Hz).
  apply list_elem_of_fmap in Hd as (x & -> & Hx).
  exists response, c, r, x. by rewrite <- E.
Qed.
End tasks_lemmas.

(** ** Spans *)
Section spans.
Context {SJ : SerdeJson} {RT : Runtime} {RL : RuntimeLaws RT} {CN : Connector} {SV : Services}.

(** The contract of a chunker: its tokens are parts of the text. *)
Definition chunkers_faithful : Prop :=
  forall client id text r, tokenization_task_predict client id text = Ok r ->
  forall tok, tok ∈ tr_results r -> span_of text (tok_start tok) (tok_end tok) (tok_text tok).

(** The contract of a contents detector: its detections are parts of the
    contents they are reported for. *)
Definition detectors_faithful : Prop :=
  forall client id contents params h r, text_contents client id (contents, params) h = Ok r ->
  forall content resp x, (content, resp) ∈ zip contents r -> x ∈ resp ->
    span_of content (car_start x) (car_end x) (car_text x).

Definition concurrency_positive (ctx : Context) : Prop :=
  (0 < detector_concurrent_requests (ctx_config ctx))%nat /\
  (0 < chunker_concurrent_requests (ctx_config ctx))%nat.

(** The inputs are parts of one text, each at its offset. *)
Definition inputs_of (text : string) (inputs : list (Z * string)) : Prop :=
  forall off t, (off, t) ∈ inputs -> span_of text off (off + char_count t) t.

Definition chunk_of (text : string) (c : Chunk) : Prop :=
  span_of text (chunk_start c) (chunk_end c) (chunk_text c).

Lemma chunk_input_spans ctx id text off t cs c :
  chunkers_faithful -> aligned text -> char_count text < 2 ^ 63 ->
  span_of text off (off + char_count t) t ->
  chunk_input ctx id (off, t) = Ok cs -> c ∈ cs -> chunk_of text c.
Proof.
  intros HF Ha Hn Hs. assert (Hn' : char_count text < 2 ^ 64) by lia.
  pose proof (span_of_char_count _ _ _ _ Ha Hn' Hs) as Hcc.
  unfold chunk_input. destruct (decide _).
  - intros [= <-] Hc. unfold whole_doc_chunk in Hc. apply list_elem_of_singleton in Hc as ->.
    unfold chunk_of; simpl. destruct Hs as (H1 & H2 & H3).
    rewrite usize_add_small by lia. rewrite Z.add_comm. by split; [|split].
  - intros (client & _ & (cs' & Hc & [= <-])%bind_Ok)%bind_Ok.
    unfold chunk in Hc. apply bind_Ok in Hc as (r & Hr & [= <-]).
    destruct (tokenization_task_predict client id t) as [r'| |] eqn:E; try done. injection Hr as ->.
    intros ([] & -> & (tok & -> & Htok)%list_elem_of_fmap)%list_elem_of_fmap.
    specialize (HF _ _ _ _ E _ Htok).
    pose proof (span_of_trans _ _ _ _ _ _ _ Ha Hn' Hs HF) as Ht.
    destruct HF as (H1 & H2 & _), Hs as (H3 & H4 & _), Ht as (H5 & H6 & H7).
    unfold chunk_of; simpl. unfold as_usize.
    rewrite !wrap_id by (unfold in_width; lia). rewrite !usize_add_small by lia.
    rewrite (Z.add_comm (tok_start tok)), (Z.add_comm (tok_end tok)). by split; [|split].
Qed.

Lemma chunker_task_Ok ctx inputs id r :
  (0 < chunker_concurrent_requests (ctx_config ctx))%nat ->
  chunker_task ctx inputs id = Ok r ->
  r.1 = id /\ forall c, c ∈ r.2 -> exists input cs, input ∈ inputs /\
    chunk_input ctx id input = Ok cs /\ c ∈ cs.
Proof.
  unfold chunker_task. intros Hn (css & H & [= <-])%bind_Ok. split; [done|]. simpl.
  apply run_tasks_Ok in H as (css' & E & HP); [|done].
  intros c (cs & Hc & Hcs)%list_elem_of_join. rewrite HP in Hcs.
  assert (Hin : Ok cs ∈ chunk_input ctx id <$> inputs).
  { rewrite E. apply list_elem_of_fmap. by exists cs. }
  apply list_elem_of_fmap in Hin as (input & Ecs & Hin). by exists input, cs.
Qed.

Lemma chunks_spans ctx chunkers inputs text m id cs c :
  chunkers_faithful -> aligned text -> char_count text < 2 ^ 63 ->
  (0 < chunker_concurrent_requests (ctx_config ctx))%nat ->
  inputs_of text inputs -> chunks ctx chunkers inputs = Ok m ->
  m !! id = Some cs -> c ∈ cs -> chunk_of text c.
Proof.
  intros HF Ha Hn Hc Hin. unfold chunks. destruct inputs as [|i0 inputs].
  { intros [= <-]. by rewrite lookup_empty. }
  set (ins := i0 :: inputs) in *.
  intros (rs & Hrs & (l & Hl & [= <-])%bind_Ok)%bind_Ok Hm Hcs.
  apply try_join_all_Ok in Hrs as ->. apply collect_Ok in Hl.
  apply hash_collect_lookup_Some in Hm.
  assert (Hok : Ok (id, cs) ∈ chunker_task ctx ins <$> chunkers).
  { rewrite Hl. apply list_elem_of_fmap. by exists (id, cs). }
  apply list_elem_of_fmap in Hok as (id' & Htask & _). symmetry in Htask.
  apply chunker_task_Ok in Htask as [Hid Hall]; [|done]. simpl in *. subst id'.
  destruct (Hall c Hcs) as ([off t] & cs' & Hi & Hci & Hc').
  eapply chunk_input_spans; try done. by apply Hin.
Qed.

Lemma detect_text_contents_spans client headers id params cs r d text :
  detectors_faithful -> aligned text -> char_count text < 2 ^ 63 ->
  (forall c, c ∈ cs -> chunk_of text c) ->
  detect_text_contents client headers id params cs true = Ok r -> d ∈ r ->
  det_detector_id d = Some id /\ exists s e t,
    det_start d = Some s /\ det_end d = Some e /\ det_text d = Some t /\ span_of text s e t.
Proof.
  intros HF Ha Hn Hcs H Hd. assert (Hn' : char_count text < 2 ^ 64) by lia.
  destruct (elem_of_detect_text_contents _ _ _ _ _ _ _ _ H Hd)
    as (response & c & resp & x & E & Hz & Hx & ->).
  split; [done|]. simpl.
  assert (Hc : c ∈ cs) by (by eapply elem_of_zip_l).
  assert (Hz' : (chunk_text c, resp) ∈ zip (chunk_text <$> cs) response).
  { rewrite zip_fmap_l. apply list_elem_of_fmap. by exists (c, resp). }
  specialize (HF _ _ _ _ _ _ E _ _ _ Hz' Hx). specialize (Hcs c Hc).
  pose proof (span_of_trans _ _ _ _ _ _ _ Ha Hn' Hcs HF) as Ht.
  eexists _, _, _. split; [done|]. split; [done|]. split; [done|].
  destruct HF as (H1 & H2 & _), Hcs as (H3 & H4 & _), Ht as (H5 & H6 & H7).
  rewrite !usize_add_small by lia.
  rewrite (Z.add_comm (car_start x)), (Z.add_comm (car_end x)). by split; [|split].
Qed.
End spans.

(** ** Properties *)
Section tasks_properties.
Context {SJ : SerdeJson} {RT : Runtime} {RL : RuntimeLaws RT} {CN : Connector} {SV : Services}.

(** The threshold that applies to a detector of a request. *)
Definition threshold_of (ctx : Context) (dets : gmap string DetectorParams) (id : string) (th : f64)
    : Prop :=
  exists params config, dets !! id = Some params /\ detector (ctx_config ctx) id = Some config /\
    th = default (default_threshold config) (params !! THRESHOLD_PARAM ≫= value_as_f64).

(** The requested detectors are configured, and they and their chunkers have
    clients. *)
Definition detectors_available (ctx : Context) (dets : gmap string DetectorParams) : Prop :=
  forall id, is_Some (dets !! id) -> exists config,
    detector (ctx_config ctx) id = Some config /\
    is_Some (client_map_get KDetector id (ctx_clients ctx)).

Lemma contents_task_inv ctx headers id params cs r :
  contents_task ctx headers id params cs = Ok r ->
  exists config client r0,
    detector (ctx_config ctx) id = Some config /\
    client_map_get KDetector id (ctx_clients ctx) = Some client /\
    detect_text_contents client headers id (pop_threshold params).2 cs true = Ok r0 /\
    r = above (default (default_threshold config) (pop_threshold params).1) r0.
Proof.
  unfold contents_task. intros ([th p] & Ht & H)%bind_Ok.
  apply detector_threshold_Ok in Ht as (config & Hc & -> & ->).
  apply bind_Ok in H as (client & Hcl & (r0 & Hr & [= <-])%bind_Ok).
  unfold detector_client_of in Hcl.
  destruct (client_map_get KDetector id (ctx_clients ctx)); [|done]. injection Hcl as ->.
  by exists config, client, r0.
Qed.

(** The tasks behind a successful text contents detection. *)
Lemma text_contents_detections_inv ctx headers dets inputs r :
  (0 < detector_concurrent_requests (ctx_config ctx))%nat ->
  text_contents_detections ctx headers dets inputs = Ok r ->
  exists chunkers chunk_map, chunks ctx chunkers inputs = Ok chunk_map /\
  (forall d, d ∈ r -> exists id params config cs l,
    dets !! id = Some params /\ detector (ctx_config ctx) id = Some config /\
    chunk_map !! detector_chunker_id config = Some cs /\
    contents_task ctx headers id params cs = Ok l /\ d ∈ l).
Proof.
  unfold text_contents_detections. intros Hn (chunkers & _ & H)%bind_Ok.
  apply bind_Ok in H as (chunk_map & Hcm & H). apply bind_Ok in H as (ins & Hins & H).
  apply bind_Ok in H as (rs & Hrs & [= <-]). exists chunkers, chunk_map. split; [done|].
  intros d Hd. rewrite sort_by_key_perm in Hd. apply list_elem_of_join in Hd as (l & Hd & Hl).
  apply run_tasks_Ok in Hrs as (rs' & E & HP); [|done]. rewrite HP in Hl.
  assert (Hok : Ok l ∈ (fun '(id, params, cs) => contents_task ctx headers id params cs) <$> ins).
  { rewrite E. apply list_elem_of_fmap. by exists l. }
  apply list_elem_of_fmap in Hok as ([[id params] cs] & Htask & Hin).
  apply collect_Ok in Hins.
  assert (Hok : Ok (id, params, cs) ∈ Ok (E := OrchError) <$> ins).
  { apply list_elem_of_fmap. by eexists. }
  rewrite <- Hins in Hok. apply list_elem_of_fmap in Hok as ([id' params'] & Hok & Hdet).
  apply elem_of_hash_iter in Hdet. symmetry in Hok.
  apply bind_Ok in Hok as (config & Hc & (cs' & Hcs & [= -> -> ->])%bind_Ok).
  destruct (detector (ctx_config ctx) id) as [config'|] eqn:Ec; [|done]. injection Hc as ->.
  destruct (chunk_map !! detector_chunker_id config) as [cs'|] eqn:Em; [|done]. injection Hcs as ->.
  by exists id, params, config, cs, l.
Qed.

(** The detection reports a part of [text]. *)
Definition exact_span (text : string) (d : Detection) : Prop :=
  exists s e t, det_start d = Some s /\ det_end d = Some e /\ det_text d = Some t /\
    span_of text s e t.

(** The detection is a requested detector's and reaches its threshold. *)
Definition meets_threshold (ctx : Context) (dets : gmap string DetectorParams) (d : Detection)
    : Prop :=
  exists id th, det_detector_id d = Some id /\ threshold_of ctx dets id th /\
    f64_ge (det_score d) th = true.

Lemma text_contents_detections_spans ctx headers dets inputs text r d :
  chunkers_faithful -> detectors_faithful -> concurrency_positive ctx ->
  aligned text -> char_count text < 2 ^ 63 -> inputs_of text inputs ->
  text_contents_detections ctx headers dets inputs = Ok r -> d ∈ r ->
  exact_span text d /\ meets_threshold ctx dets d.
Proof.
  intros HCF HDF [Hd Hc] Ha Hn Hin H Hdr.
  destruct (text_contents_detections_inv _ _ _ _ _ Hd H) as (chunkers & cm & Hcm & Hall).
  destruct (Hall d Hdr) as (id & params & config & cs & l & Hp & Hcfg & Hcs & Ht & Hdl).
  apply contents_task_inv in Ht as (config' & client & r0 & Hcfg' & _ & Hdt & ->).
  rewrite Hcfg in Hcfg'. injection Hcfg' as <-.
  apply elem_of_above in Hdl as [Hge Hd0].
  assert (Hch : forall c, c ∈ cs -> chunk_of text c) by (intros; by eapply chunks_spans).
  destruct (detect_text_contents_spans _ _ _ _ _ _ _ text HDF Ha Hn Hch Hdt Hd0) as [Hid Hspan].
  split; [exact Hspan|]. exists id, (default (default_threshold config) (pop_threshold params).1).
  split; [done|]. split; [|done]. by exists params, config.
Qed.

(** Whatever the services answer, contents detections have a span. *)
Lemma text_contents_detections_has_span ctx headers dets inputs r d :
  concurrency_positive ctx ->
  text_contents_detections ctx headers dets inputs = Ok r -> d ∈ r -> has_span d.
Proof.
  intros [Hn _] H Hd. destruct (text_contents_detections_inv _ _ _ _ _ Hn H) as (? & cm & _ & Hall).
  destruct (Hall d Hd) as (id & params & config & cs & l & _ & _ & _ & Ht & Hdl).
  apply contents_task_inv in Ht as (config' & client & r0 & _ & _ & Hdt & ->).
  apply elem_of_above in Hdl as [_ Hd0].
  destruct (elem_of_detect_text_contents _ _ _ _ _ _ _ _ Hdt Hd0) as (resp & c & res & y & _ & _ & _ & ->).
  unfold has_span. simpl. eauto.
Qed.

Lemma text_contents_detections_sorted ctx headers dets inputs r :
  text_contents_detections ctx headers dets inputs = Ok r ->
  StronglySorted (key_le det_start) r.
Proof.
  unfold text_contents_detections. intros (? & _ & H)%bind_Ok.
  apply bind_Ok in H as (? & _ & H). apply bind_Ok in H as (? & _ & H).
  apply bind_Ok in H as (? & _ & [= <-]). apply sort_by_key_sorted.
Qed.

Lemma inputs_of_whole text : char_count text < 2 ^ 63 -> inputs_of text [(0, text)].
Proof.
  intros Hn off t [= -> ->]%list_elem_of_singleton. rewrite Z.add_0_l. apply span_of_whole. lia.
Qed.

(** Every detection returned by text contents detection reports a span of
    the text the inputs were cut from: its start and end are code point indices
    within that text, and its text is exactly the slice they denote; it carries
    the id of a requested detector and a score of at least that detector's
    threshold (the requested one, or else the configured default); and the
    detections are sorted by start.  This holds for every interleaving of the
    chunker and detector requests, whichever chunkers the detectors use. *)
Theorem text_contents_detections_sound ctx headers dets inputs text r :
  chunkers_faithful -> detectors_faithful -> concurrency_positive ctx ->
  aligned text -> char_count text < 2 ^ 63 -> inputs_of text inputs ->
  text_contents_detections ctx headers dets inputs = Ok r ->
  StronglySorted (key_le det_start) r /\
  forall d, d ∈ r -> exact_span text d /\ meets_threshold ctx dets d.
Proof.
  intros HCF HDF Hc Ha Hn Hin H. split; [by eapply text_contents_detections_sorted|].
  intros d. by apply text_contents_detections_spans with headers inputs.
Qed.

Lemma detector_threshold_no_panic site ctx id params :
  is_Some (detector (ctx_config ctx) id) -> no_panic (detector_threshold site ctx id params).
Proof.
  intros [d Hd]. unfold detector_threshold. rewrite Hd. simpl. by destruct (pop_threshold params).
Qed.

Lemma detectors_available_configured ctx dets :
  detectors_available ctx dets ->
  forall id, is_Some (dets !! id) -> is_Some (detector (ctx_config ctx) id).
Proof. intros Hav id Hid. destruct (Hav id Hid) as (config & ? & _). by exists config. Qed.

Lemma chunks_no_panic ctx chunkers inputs : no_panic (chunks ctx chunkers inputs).
Proof.
  unfold chunks. destruct inputs; [done|]. apply no_panic_bind; [apply try_join_all_no_panic|].
  intros rs Hrs. apply no_panic_bind; [|done]. by eapply collect_no_panic, try_join_all_results.
Qed.

(** The calls of the services do not panic: those of a detector that has a
    client, and those that name a model for a model id that is [sendable].
    (A chunker's may: its tasks are spawned.) *)
Record services_no_panic (ctx : Context) (sendable : string -> Prop) : Prop := {
  snp_text_contents : forall c id q h, client_map_get KDetector id (ctx_clients ctx) = Some c ->
    no_panic (text_contents c id q h);
  snp_text_generation : forall c id q h, client_map_get KDetector id (ctx_clients ctx) = Some c ->
    no_panic (text_generation c id q h);
  snp_text_chat : forall c id q h, client_map_get KDetector id (ctx_clients ctx) = Some c ->
    no_panic (text_chat c id q h);
  snp_text_context_doc : forall c id q h, client_map_get KDetector id (ctx_clients ctx) = Some c ->
    no_panic (text_context_doc c id q h);
  snp_chat_completions : forall c q h, no_panic (chat_completions c q h);
  snp_completions : forall c q h, no_panic (completions c q h);
  snp_openai_tokenize : forall c q h, no_panic (openai_tokenize c q h);
  snp_generation_tokenize : forall c m t h,
    client_map_get KGeneration "generation" (ctx_clients ctx) = Some c -> sendable m -> no_panic (generation_tokenize c m t h);
  snp_generation_generate : forall c m t p h,
    client_map_get KGeneration "generation" (ctx_clients ctx) = Some c -> sendable m -> no_panic (generation_generate c m t p h)
}.

Lemma chunk_map_complete ctx chunkers inputs m c :
  inputs <> [] -> chunks ctx chunkers inputs = Ok m -> c ∈ chunkers -> is_Some (m !! c).
Proof.
  intros Hne. unfold chunks. destruct inputs as [|i0 inputs]; [done|].
  intros (rs & Hrs & (l & Hl & [= <-])%bind_Ok)%bind_Ok Hc.
  apply try_join_all_Ok in Hrs as ->. apply collect_Ok in Hl.
  apply hash_collect_is_Some. assert (Ok c ∈ Ok (E := OrchError) <$> l.*1) as Hin.
  { rewrite <- list_fmap_compose.
    assert (H : chunker_task ctx (i0 :: inputs) c ∈ chunker_task ctx (i0 :: inputs) <$> chunkers).
    { apply list_elem_of_fmap. by exists c. }
    rewrite Hl in H. apply list_elem_of_fmap in H as ([c' cs] & E & Hin).
    unfold chunker_task in E. apply bind_Ok in E as (? & _ & [= <- _]).
    apply list_elem_of_fmap. by exists (c, cs). }
  apply list_elem_of_fmap in Hin as (c' & [= ->] & Hin). done.
Qed.

Lemma text_contents_detections_no_panic ctx sendable headers dets inputs :
  services_no_panic ctx sendable -> concurrency_positive ctx -> detectors_available ctx dets ->
  inputs <> [] -> no_panic (text_contents_detections ctx headers dets inputs).
Proof.
  intros HS [Hd Hc] Hav Hne. pose proof (detectors_available_configured _ _ Hav) as Hcfg.
  destruct (get_chunker_ids_total ctx dets Hcfg) as (ids & Hids & _).
  unfold text_contents_detections. rewrite Hids. simpl.
  apply no_panic_bind; [apply chunks_no_panic|]. intros m Hm. apply no_panic_bind.
  { apply collect_no_panic, Forall_fmap, Forall_forall. intros [id params] Hin%elem_of_hash_iter.
    simpl. destruct (Hav id ltac:(by eexists)) as (config & Hconf & _). rewrite Hconf. simpl.
    destruct (get_chunker_ids_Ok _ _ _ Hids id ltac:(by eexists)) as (config' & Hconf' & Hin').
    rewrite Hconf in Hconf'. injection Hconf' as <-.
    destruct (chunk_map_complete _ _ _ _ _ Hne Hm Hin') as [cs ->]. done. }
  intros ins Hins%collect_Ok. apply no_panic_bind; [|done].
  apply run_tasks_no_panic; [done|]. apply Forall_fmap, Forall_forall.
  intros [[id params] cs] Hin.
  assert (Hok : Ok (id, params, cs) ∈ Ok (E := OrchError) <$> ins).
  { apply list_elem_of_fmap. by eexists. }
  rewrite <- Hins in Hok. apply list_elem_of_fmap in Hok as ([id' params'] & Hok & Hdet).
  apply elem_of_hash_iter in Hdet. symmetry in Hok.
  apply bind_Ok in Hok as (config & _ & (cs' & _ & [= -> -> ->])%bind_Ok).
  simpl. unfold contents_task.
  apply no_panic_bind; [apply detector_threshold_no_panic, Hcfg; by eexists|].
  intros [th p] _. destruct (Hav id ltac:(by eexists)) as (_ & _ & [client Hcl]).
  unfold detector_client_of. rewrite Hcl. simpl. apply no_panic_bind; [|done].
  unfold detect_text_contents. destruct (chunk_text <$> cs); [done|].
  apply no_panic_bind; [by eapply no_panic_map_err, snp_text_contents|done].
Qed.

Lemma detection_tasks_no_panic s1 s2 ctx dets request :
  concurrency_positive ctx -> detectors_available ctx dets ->
  (forall client id params, client_map_get KDetector id (ctx_clients ctx) = Some client ->
     no_panic (request client id params)) ->
  no_panic (detection_tasks s1 s2 ctx dets request).
Proof.
  intros [Hd _] Hav Hreq. unfold detection_tasks. apply no_panic_bind; [|done].
  apply run_tasks_no_panic; [done|]. apply Forall_fmap, Forall_forall.
  intros [id params] Hin%elem_of_hash_iter. simpl. unfold detection_task.
  pose proof (detectors_available_configured _ _ Hav) as Hcfg.
  apply no_panic_bind; [apply detector_threshold_no_panic, Hcfg; by eexists|].
  intros [th p] _. destruct (Hav id ltac:(by eexists)) as (_ & _ & [client Hcl]).
  unfold detector_client_of. rewrite Hcl. simpl. apply no_panic_bind; [by apply Hreq|done].
Qed.

(** Text contents detection on at least one input never panics, whatever
    the services answer, provided the requested detectors are configured and
    have clients; with no input at all and some detector it does panic, since
    the chunk map is then empty. *)
Theorem text_contents_detections_panics ctx sendable headers dets inputs :
  services_no_panic ctx sendable -> concurrency_positive ctx -> detectors_available ctx dets ->
  (inputs <> [] -> no_panic (text_contents_detections ctx headers dets inputs)) /\
  (dets <> ∅ -> inputs = [] ->
   text_contents_detections ctx headers dets inputs = Panic "common/tasks.rs:200").
Proof.
  intros HS Hc Hav. split; [by eapply text_contents_detections_no_panic|].
  intros Hne ->. pose proof (detectors_available_configured _ _ Hav) as Hcfg.
  destruct (get_chunker_ids_total ctx dets Hcfg) as (ids & Hids & _).
  unfold text_contents_detections. rewrite Hids. simpl.
  destruct (hash_iter dets) as [|[id params] l] eqn:E.
  { apply hash_iter_nil in E. done. }
  assert (Hin : (id, params) ∈ hash_iter dets) by (rewrite E; left).
  apply elem_of_hash_iter in Hin. simpl.
  destruct (Hcfg id ltac:(by eexists)) as [config Hconf]. rewrite Hconf. simpl.
  by rewrite lookup_empty.
Qed.

(** What the detectors of a request answered, and the threshold applied to
    each answer. *)
Definition answered {Q} (ctx : Context) (dets : gmap string DetectorParams)
    (service : DetectorClient -> string -> Q -> outcome ClientError (list DetectionResult))
    (body : DetectorParams -> Q) (answers : list (string * f64 * list DetectionResult)) : Prop :=
  answers.*1.*1 ≡ₚ (map_to_list dets).*1 /\
  forall id th response, (id, th, response) ∈ answers ->
    threshold_of ctx dets id th /\
    exists client params, client_map_get KDetector id (ctx_clients ctx) = Some client /\
      dets !! id = Some params /\
      service client id (body (delete THRESHOLD_PARAM params)) = Ok response.

Definition reported (answers : list (string * f64 * list DetectionResult)) : list Detection :=
  mjoin ((fun '(id, th, response) => above th (with_id id <$> response)) <$> answers).

(** One request to a detector whose answer has no spans. *)
Definition result_request {Q}
    (service : DetectorClient -> string -> Q -> outcome ClientError (list DetectionResult))
    (body : DetectorParams -> Q) (client : DetectorClient) (id : string) (params : DetectorParams)
    : outcome OrchError (list Detection) :=
  response ← map_err (DetectorRequestFailed id) (service client id (body params));
  Ok (with_id id <$> (response : list DetectionResult)).

Lemma detection_tasks_spec {Q} s1 s2 ctx dets
    (service : DetectorClient -> string -> Q -> outcome ClientError (list DetectionResult))
    (body : DetectorParams -> Q) r :
  concurrency_positive ctx ->
  detection_tasks s1 s2 ctx dets (result_request service body) = Ok r ->
  exists answers, answered ctx dets service body answers /\ r ≡ₚ reported answers.
Proof.
  intros [Hd _]. unfold detection_tasks.
  intros (rs & Hrs & [= <-])%bind_Ok. apply run_tasks_Ok in Hrs as (rs' & E & HP); [|done].
  cut (forall l, (forall id p, (id, p) ∈ l -> dets !! id = Some p) -> forall rs',
    (fun '(id, params) => detection_task s1 s2 ctx (result_request service body) id params) <$> l = Ok <$> rs' ->
    exists answers : list (string * f64 * list DetectionResult), answers.*1.*1 = l.*1 /\
    (forall id th response, (id, th, response) ∈ answers ->
       threshold_of ctx dets id th /\
       exists client params, client_map_get KDetector id (ctx_clients ctx) = Some client /\
         dets !! id = Some params /\
         service client id (body (delete THRESHOLD_PARAM params)) = Ok response) /\
    rs' = (fun '(id, th, response) => above th (with_id id <$> response)) <$> answers).
  { intros Hcut. destruct (Hcut (hash_iter dets)) with (rs' := rs') as (ans & H1 & H2 & H3).
    - intros id p. apply elem_of_hash_iter.
    - exact E.
    - exists ans. split; [|by rewrite HP, H3]. split; [by rewrite H1, (hash_iter_perm dets)|exact H2]. }
  clear E HP. induction l as [|[id params] l IH]; intros Hl [|r1 rs0]; try done.
  { intros _. exists []. split; [done|]. split; [|done]. by intros ??? ?%elem_of_nil. }
  rewrite !fmap_cons. intros [= Ht Hrest].
  destruct (IH ltac:(intros; apply Hl; by right) rs0 Hrest) as (ans & H1 & H2 & ->).
  assert (Hp : dets !! id = Some params) by (apply Hl; left).
  unfold detection_task in Ht. apply bind_Ok in Ht as ([th p] & Hth & Ht).
  apply detector_threshold_Ok in Hth as (config & Hc & -> & ->).
  apply bind_Ok in Ht as (client & Hcl & (r0 & Hr & [= <-])%bind_Ok).
  unfold result_request in Hr. apply bind_Ok in Hr as (response & Hr & [= <-]).
  unfold detector_client_of in Hcl.
  destruct (client_map_get KDetector id (ctx_clients ctx)) as [client'|] eqn:Ecl; [|done].
  injection Hcl as ->.
  destruct (service _ _ _) as [resp| |] eqn:Er in Hr; try done. injection Hr as ->.
  exists ((id, default (default_threshold config) (pop_threshold params).1, response) :: ans).
  split; [by rewrite !fmap_cons, H1|]. split; [|done].
  intros id' th' response' [[= -> -> ->]|Hin]%elem_of_cons; [|by apply H2].
  split; [by exists params, config|]. by exists client, params.
Qed.

(** Detection on a chat, a generated text or a context returns exactly the
    detections the requested detectors reported with a score of at least their
    threshold, each under its detector's id, none lost or duplicated whatever
    the order the detectors answer in; and every requested detector has
    answered. *)
Theorem result_detections_spec ctx headers dets r :
  concurrency_positive ctx ->
  (forall messages tools, text_chat_detections ctx headers dets messages tools = Ok r ->
   exists answers, answered ctx dets (fun c id q => text_chat c id q headers)
     (fun params => (messages, tools, params)) answers /\ r ≡ₚ reported answers) /\
  (forall prompt text, text_generation_detections ctx headers dets prompt text = Ok r ->
   exists answers, answered ctx dets (fun c id q => text_generation c id q headers)
     (fun params => (prompt, text, params)) answers /\ r ≡ₚ reported answers) /\
  (forall content ty docs, text_context_detections ctx headers dets content ty docs = Ok r ->
   exists answers, answered ctx dets (fun c id q => text_context_doc c id q headers)
     (fun params => (content, ty, docs, params)) answers /\ r ≡ₚ reported answers).
Proof.
  intros Hc. split; [|split]; intros *.
  - exact (detection_tasks_spec _ _ ctx dets (fun c id q => text_chat c id q headers) _ r Hc).
  - exact (detection_tasks_spec _ _ ctx dets (fun c id q => text_generation c id q headers) _ r Hc).
  - exact (detection_tasks_spec _ _ ctx dets (fun c id q => text_context_doc c id q headers) _ r Hc).
Qed.
End tasks_properties.

(** ** Witnesses *)
Section witnesses.
#[local] Existing Instance fifo_runtime.
#[local] Existing Instance simple_json.
#[local] Existing Instance settings_connector.

Definition ex_token (s e : Z) (t : string) : Token := {| tok_start := s; tok_end := e; tok_text := t |}.
Definition ex_response (t : string) : ContentAnalysisResponse :=
  {| car_start := 0; car_end := char_count t; car_text := t; car_detection := "HAP";
     car_detection_type := "hap"; car_detector_id := None; car_score := f64_of_Z 1;
     car_evidence := None; car_metadata := ∅ |}.
Definition ex_result (id : string) : DetectionResult :=
  {| dr_detection_type := "relevance"; dr_detection := "irrelevant"; dr_detector_id := None;
     dr_score := f64_of_Z 1; dr_evidence := None; dr_metadata := ∅ |}.
Definition ex_unavailable : ClientError := Http SERVICE_UNAVAILABLE "unavailable".

(** A chunker that makes each message of a stream a chunk. *)
Fixpoint ex_chunks_from (start : Z) (requests : list BidiStreamingChunkerTokenizationTaskRequest)
    : list (outcome ClientError ChunkerTokenizationStreamResult) :=
  match requests with
  | [] => []
  | r :: requests =>
      let end_ := start + char_count (text_stream r) in
      Ok {| ctsr_results := [ex_token start end_ (text_stream r)]; ctsr_token_count := 1;
            ctsr_processed_index := end_; ctsr_start_index := start;
            ctsr_input_start_index := input_index_stream r;
            ctsr_input_end_index := input_index_stream r |} :: ex_chunks_from end_ requests
  end.
Definition ex_stream_chunks := ex_chunks_from 0.

(** Services that chunk a text into itself and detect every content as a
    whole; the models tokenize but do not generate. *)
Definition ex_services : Services := {|
  Headers := ();
  tokenization_task_predict _ _ text :=
    if char_count text <? 2 ^ 64
    then Ok {| tr_results := [ex_token 0 (char_count text) text]; tr_token_count := 1 |}
    else Err ex_unavailable;
  bidi_streaming_tokenization_task_predict _ _ q := Ok (ex_stream_chunks q.1);
  text_contents _ _ q _ :=
    Ok ((fun t => if char_count t <? 2 ^ 64 then [ex_response t] else []) <$> q.1);
  text_generation _ id _ _ := Ok [ex_result id];
  text_chat _ id _ _ := Ok [ex_result id];
  text_context_doc _ id _ _ := Ok [ex_result id];
  chat_completions _ _ _ := Err ex_unavailable;
  completions _ _ _ := Err ex_unavailable;
  openai_tokenize _ _ _ := Ok {| tks_count := 3; tks_max_model_len := 2048; tks_tokens := [1; 2; 3] |};
  generation_tokenize _ _ _ _ := Ok (3, []);
  generation_generate _ _ _ _ _ := Err ex_unavailable;
  generation_generate_stream _ _ _ _ _ := Err ex_unavailable;
  append_json_content_type h := h
|}.
#[local] Existing Instance ex_services.

Lemma ex_chunkers_faithful : chunkers_faithful.
Proof.
  intros client id text r. simpl. destruct (Z.ltb_spec (char_count text) (2 ^ 64)); [|done].
  intros [= <-] tok. simpl. rewrite list_elem_of_singleton. intros ->. by apply span_of_whole.
Qed.

Lemma ex_detectors_faithful : detectors_faithful.
Proof.
  intros client id contents params h r. cbn [text_contents ex_services]. intros [= <-] content resp x.
  simpl. revert resp. induction contents as [|t ts IH]; intros resp Hz Hx; [by apply elem_of_nil in Hz|].
  apply elem_of_cons in Hz as [[= -> ->]|Hz]; [|by eapply IH].
  destruct (Z.ltb_spec (char_count t) (2 ^ 64)); [|by apply elem_of_nil in Hx].
  apply list_elem_of_singleton in Hx as ->. by apply span_of_whole.
Qed.

Lemma ex_services_no_panic ctx sendable : services_no_panic ctx sendable.
Proof. split; intros; simpl; by try destruct (_ <? _). Qed.

Definition ex_ctx : Context := {| ctx_config := ex_loaded; ctx_clients := ex_clients |}.
Definition ex_text : string := "Hello there. Bye".
Definition ex_dets : gmap string DetectorParams := {[ "hap" := ∅ ]}.
Definition ex_chat_dets : gmap string DetectorParams := {[ "relevance" := ∅ ]}.
Definition ex_masked : list (Z * string) := apply_masks ex_text (Some [(0, 5); (6, 16)]).
Definition ex_detections : list Detection :=
  match text_contents_detections ex_ctx () ex_dets ex_masked with Ok r => r | _ => [] end.

Lemma text_contents_detections_sound_witness :
  (fun d => (det_start d, det_text d)) <$> ex_detections =
    [(Some 0, Some "Hello"); (Some 6, Some "there. Bye")] /\
  StronglySorted (key_le det_start) ex_detections /\
  forall d, d ∈ ex_detections -> exact_span ex_text d.
Proof.
  split; [vm_compute; reflexivity|].
  destruct (@text_contents_detections_sound simple_json fifo_runtime fifo_runtime_laws
    settings_connector ex_services ex_ctx () ex_dets ex_masked ex_text ex_detections) as [H1 H2].
  - exact ex_chunkers_faithful.
  - exact ex_detectors_faithful.
  - split; vm_compute; lia.
  - vm_compute. reflexivity.
  - vm_compute. reflexivity.
  - intros off t Hin.
    change ex_masked with [(0, "Hello"); (6, "there. Bye")] in Hin.
    apply elem_of_cons in Hin as [[= -> ->]|Hin];
      [|apply list_elem_of_singleton in Hin as [= -> ->]];
      (split; [vm_compute; split; discriminate|]);
      (split; [vm_compute; discriminate|vm_compute; reflexivity]).
  - vm_compute. reflexivity.
  - split; [exact H1|]. intros d Hd. exact (proj1 (H2 d Hd)).
Defined.

Lemma text_contents_detections_panics_witness :
  no_panic (text_contents_detections ex_ctx () ex_dets ex_masked) /\
  text_contents_detections ex_ctx () ex_dets [] = Panic "common/tasks.rs:200".
Proof.
  destruct (@text_contents_detections_panics simple_json fifo_runtime fifo_runtime_laws
    settings_connector ex_services ex_ctx (fun _ => True) () ex_dets ex_masked) as [H _].
  - apply ex_services_no_panic.
  - split; vm_compute; lia.
  - intros id Hid. unfold ex_dets in Hid. apply lookup_singleton_is_Some in Hid as <-. eexists. split; [reflexivity|].
    vm_compute. eexists. reflexivity.
  - split; [apply H; discriminate|].
    eapply (@text_contents_detections_panics simple_json fifo_runtime fifo_runtime_laws
      settings_connector ex_services ex_ctx (fun _ => True) () ex_dets []).
    + apply ex_services_no_panic.
    + split; vm_compute; lia.
    + intros id Hid. unfold ex_dets in Hid. apply lookup_singleton_is_Some in Hid as <-. eexists. split; [reflexivity|].
      vm_compute. eexists. reflexivity.
    + apply map_non_empty_singleton.
    + reflexivity.
Defined.

Lemma result_detections_spec_witness :
  exists r answers, text_chat_detections ex_ctx () ex_chat_dets [message_default] [] = Ok r /\
    answers.*1.*1 ≡ₚ (map_to_list ex_chat_dets).*1 /\ r ≡ₚ reported answers.
Proof.
  destruct (@result_detections_spec simple_json fifo_runtime fifo_runtime_laws
    settings_connector ex_services ex_ctx () ex_chat_dets
    [with_id "relevance" (ex_result "relevance")]) as (H & _).
  - split; vm_compute; lia.
  - destruct (H [message_default] []) as (answers & [H1 _] & H3); [vm_compute; reflexivity|].
    eexists _, answers. split; [vm_compute; reflexivity|]. split; [exact H1|exact H3].
Defined.
End witnesses.
