(* ===== verification/OpenAiWire.v ===== *)
(** * The OpenAI client on the wire

    src/clients/openai.rs: the JSON its requests are serialised as, the
    requests themselves - sent to the server, or in an envelope to the router's
    sender - and what is made of a streamed answer. *)
From Stdlib Require Import Ascii.
From S2P Require Import Prelude External Errors Utf8 Hostname Config Detection Clients OpenAi Chunk Models Utils Tasks Http.
#[local] Open Scope string_scope.
#[local] Open Scope list_scope.
#[local] Open Scope Z_scope.

(** ** Serialisation *)
Section serialisation.
Context {SJ : SerdeJson} {JS : Json}.

(** [#[serde(skip_serializing_if = "String::is_empty")]] *)
Definition nonempty_field (name s : string) : gmap string Value :=
  if str_is_empty s then ∅ else field name s.

Definition role_value (r : Role) : Value :=
  value_string match r with
               | User => "user" | Developer => "developer" | Assistant => "assistant"
               | System => "system" | ToolRole => "tool"
               end.
#[export] Instance role_serialize : Serialize Role := role_value.

Definition content_type_value (t : ContentType) : Value :=
  value_string match t with ContentText => "text" | ContentImageUrl => "image_url" end.
#[export] Instance content_type_serialize : Serialize ContentType := content_type_value.

Definition image_url_value (u : ImageUrl) : Value :=
  value_object (field "url" (image_url_url u) ∪ optional_field "detail" (image_url_detail u)).
#[export] Instance image_url_serialize : Serialize ImageUrl := image_url_value.

Definition content_part_value (p : ContentPart) : Value :=
  value_object (field "type" (part_type p) ∪ optional_field "text" (part_text p)
                ∪ optional_field "image_url" (part_image_url p) ∪ optional_field "refusal" (part_refusal p)).
#[export] Instance content_part_serialize : Serialize ContentPart := content_part_value.

(** [#[serde(untagged)]] *)
Definition content_value (c : Content) : Value :=
  match c with Text text => to_value text | Array parts => to_value parts end.
#[export] Instance content_serialize : Serialize Content := content_value.

Definition function_value (f : Function_) : Value :=
  value_object (nonempty_field "name" (function_name f) ∪ field "arguments" (function_arguments f)).
#[export] Instance function_serialize : Serialize Function_ := function_value.

Definition custom_value (c : Custom) : Value :=
  value_object (nonempty_field "name" (custom_name c) ∪ field "input" (custom_input c)).
#[export] Instance custom_serialize : Serialize Custom := custom_value.

Definition tool_call_value (c : ToolCall) : Value :=
  value_object (optional_field "index" (value_integer <$> tool_call_index c)
                ∪ nonempty_field "id" (tool_call_id c) ∪ nonempty_field "type" (tool_call_type c)
                ∪ optional_field "function" (tool_call_function c)
                ∪ optional_field "custom" (tool_call_custom c)).
#[export] Instance tool_call_serialize : Serialize ToolCall := tool_call_value.

Definition message_value (m : Message) : Value :=
  value_object (field "role" (msg_role m) ∪ optional_field "content" (msg_content m)
                ∪ optional_field "name" (msg_name m) ∪ optional_field "refusal" (msg_refusal m)
                ∪ optional_field "tool_calls" (msg_tool_calls m)
                ∪ optional_field "tool_call_id" (msg_tool_call_id m)
                ∪ optional_field "reasoning_content" (msg_reasoning_content m)).
#[export] Instance message_serialize : Serialize Message := message_value.

Definition function_definition_value (f : FunctionDefinition) : Value :=
  value_object (field "name" (fn_name f) ∪ optional_field "description" (fn_description f)
                ∪ (if decide (fn_parameters f = ∅) then ∅ else field "parameters" (fn_parameters f))
                ∪ optional_field "strict" (value_bool <$> fn_strict f)).
#[export] Instance function_definition_serialize : Serialize FunctionDefinition := function_definition_value.

Definition custom_definition_value (c : CustomDefinition) : Value :=
  value_object (field "name" (cd_name c) ∪ optional_field "description" (cd_description c)
                ∪ optional_field "format" (cd_format c)).
#[export] Instance custom_definition_serialize : Serialize CustomDefinition := custom_definition_value.

(** [#[serde(untagged)]] *)
Definition tool_value (t : Tool) : Value :=
  value_object match t with
               | ToolFunction t => field "type" (ft_type t) ∪ field "function" (ft_function t)
               | ToolCustom t => field "type" (ct_type t) ∪ field "custom" (ct_custom t)
               end.
#[export] Instance tool_serialize : Serialize Tool := tool_value.

(** *** Requests

    The declared fields, [detectors] and [_prompt_masks] excepted, and the
    flattened rest.  (The rest of a parsed request holds no declared field.) *)
Definition chat_request_fields (r : ChatCompletionsRequest) : gmap string Value :=
  optional_field "stream" (value_bool <$> ccr_stream r) ∪ field "model" (ccr_model r)
  ∪ field "messages" (ccr_messages r) ∪ optional_field "tools" (ccr_tools r) ∪ ccr_extra r.
#[export] Instance chat_request_serialize : Serialize ChatCompletionsRequest :=
  fun r => value_object (chat_request_fields r).

Definition completions_request_fields (r : CompletionsRequest) : gmap string Value :=
  optional_field "stream" (value_bool <$> cr_stream r) ∪ field "model" (cr_model r)
  ∪ field "prompt" (cr_prompt r) ∪ cr_extra r.
#[export] Instance completions_request_serialize : Serialize CompletionsRequest :=
  fun r => value_object (completions_request_fields r).

Definition tokenize_request_fields (r : TokenizeRequest) : gmap string Value :=
  field "model" (tkr_model r) ∪ optional_field "prompt" (tkr_prompt r)
  ∪ optional_field "messages" (tkr_messages r) ∪ tkr_extra r.
#[export] Instance tokenize_request_serialize : Serialize TokenizeRequest :=
  fun r => value_object (tokenize_request_fields r).
End serialisation.

(** ** Strings *)

(** [s.split(sep)] for the separator of two newlines *)
Definition is_newline (c : ascii) : bool := Ascii.eqb c "010".
Definition push (c : ascii) (pieces : list string) : list string :=
  match pieces with
  | piece :: pieces => String c piece :: pieces
  | [] => [String c ""]
  end.
Fixpoint split_blank_line (s : string) : list string :=
  match s with
  | EmptyString => [""]
  | String c s =>
      match s with
      | String d s' =>
          if is_newline c && is_newline d then "" :: split_blank_line s' else push c (split_blank_line s)
      | EmptyString => push c (split_blank_line s)
      end
  end.

(** [char::is_whitespace], of a character's UTF-8 encoding *)
Definition bytes (l : list nat) : string := String.string_of_list_ascii (ascii_of_nat <$> l).
Definition whitespace : list string :=
  ((fun n => bytes [n]) <$> [9; 10; 11; 12; 13; 32]%nat)
  ++ (bytes <$> [[194; 133]; [194; 160]; [225; 154; 128]; [226; 128; 168]; [226; 128; 169];
                 [226; 128; 175]; [226; 129; 159]; [227; 128; 128]]%nat)
  ++ ((fun n => bytes [226; 128; n]%nat) <$> seq 128 11).
Definition is_whitespace (ch : string) : bool := bool_decide (ch ∈ whitespace).

(** [s.trim()] *)
Fixpoint skip_whitespace (l : list string) : list string :=
  match l with
  | ch :: l' => if is_whitespace ch then skip_whitespace l' else l
  | [] => []
  end.
Definition trim (s : string) : string :=
  concat (reverse (skip_whitespace (reverse (skip_whitespace (chars s))))).

(** [s.strip_prefix(prefix)] *)
Fixpoint strip_prefix (prefix s : string) : option string :=
  match prefix, s with
  | EmptyString, _ => Some s
  | String a prefix, String b s => if Ascii.eqb a b then strip_prefix prefix s else None
  | String _ _, EmptyString => None
  end.

(** ** The client *)
Section client.
Context {SJ : SerdeJson} {CN : Connector} {HH : HttpHeaders} {JS : Json} {TR : Transport}.
Context `{!Deserialize ErrorResponse, !Deserialize ChatCompletion, !Deserialize ChatCompletionChunk,
  !Deserialize Completion, !Deserialize TokenizeResponse}.

Definition CHAT_COMPLETIONS_ENDPOINT : string := "/v1/chat/completions".
Definition COMPLETIONS_ENDPOINT : string := "/v1/completions".
Definition TOKENIZE_ENDPOINT : string := "/tokenize".

(** [http_error] *)
Definition http_error (response : Response) : outcome ClientError ClientError :=
  match response_json (T := ErrorResponse) response with
  | Ok r => Ok (Http (response_status response) (error_response_message r))
  | Err _ => Ok (Http (response_status response) "unknown error occurred")
  | Panic site => Panic site
  end.

Definition unary_answer {A} `{!Deserialize A} (response : Response) : outcome ClientError A :=
  if response_status response =? OK then response_json response
  else e ← http_error response; Err e.

Definition handle_unary {R A} `{!Serialize R} `{!Deserialize A} (client : HttpClient) (url : Url) (request : R)
    (headers : HeaderMap) : outcome ClientError A :=
  response ← post (connection client) url headers request;
  unary_answer response.

Definition handle_unary_with_body {A} `{!Deserialize A} (client : HttpClient) (url : Url) (body : Value)
    (headers : HeaderMap) : outcome ClientError A :=
  response ← post (connection client) url headers body;
  unary_answer response.

(** *** Streamed answers

    What the spawned task sends to the receiver. The conversion of a
    server's error into a client error may panic, which ends the task. *)
Definition event_error (parse_failure : string -> string) (data : string) : option ClientError :=
  match from_json (T := ErrorResponse) data with
  | inl response =>
      match client_error_from_response (E := ClientError) response with
      | Ok e => Some e
      | _ => None
      end
  | inr serde_error => Some (Http INTERNAL_SERVER_ERROR (parse_failure serde_error))
  end.

Fixpoint direct_stream {A} `{!Deserialize A} (events : list (Event + string))
    : list (outcome OrchError (option A)) :=
  match events with
  | [] => []
  | inr error :: _ => [Err (Client (Http INTERNAL_SERVER_ERROR error))]
  | inl event :: events =>
      if bool_decide (event_data event = "[DONE]") then [Ok None]
      else match from_json (event_data event) with
           | inl message => Ok (Some message) :: direct_stream events
           | inr _ =>
               match event_error (fun e => "deserialization error: " +:+ e) (event_data event) with
               | Some error => Err (Client error) :: direct_stream events
               | None => []
               end
           end
  end.

Definition handle_streaming {R A} `{!Serialize R} `{!Deserialize A} (client : HttpClient) (url : Url) (request : R)
    (headers : HeaderMap) : outcome ClientError (list (outcome OrchError (option A))) :=
  response ← post (connection client) url headers request;
  if response_status response =? OK then Ok (direct_stream (eventsource (response_body response)))
  else e ← http_error response; Err e.

(** The router's sender answers with events of its own: pings, errors, and
    envelopes whose content is any number of the server's events. *)
Definition event_content (data : string) : string :=
  match value_from_str data with
  | inl envelope => default data (value_get "content" envelope ≫= value_as_str)
  | inr _ => data
  end.

(** The messages of the pieces of an envelope, and whether the task goes on. *)
Fixpoint routed_pieces {A} `{!Deserialize A} (pieces : list string)
    : list (outcome OrchError (option A)) * bool :=
  match pieces with
  | [] => ([], true)
  | piece :: pieces =>
      let trimmed := trim piece in
      if str_is_empty trimmed then routed_pieces pieces
      else
        let json_str := default trimmed (strip_prefix "data: " trimmed) in
        if bool_decide (json_str = "[DONE]") then ([Ok None], false)
        else match from_json json_str with
             | inl message =>
                 let '(messages, more) := routed_pieces pieces in (Ok (Some message) :: messages, more)
             | inr parse_error =>
                 match event_error (fun _ => "failed to parse response: " +:+ parse_error) json_str with
                 | Some error =>
                     let '(messages, more) := routed_pieces pieces in (Err (Client error) :: messages, more)
                 | None => ([], false)
                 end
             end
  end.

Fixpoint routed_stream {A} `{!Deserialize A} (events : list (Event + string))
    : list (outcome OrchError (option A)) :=
  match events with
  | [] => []
  | inr error :: _ => [Err (Client (Http INTERNAL_SERVER_ERROR ("stream error: " +:+ error)))]
  | inl event :: events =>
      if bool_decide (event_event event = "png") then routed_stream events
      else if bool_decide (event_event event = "err")
      then [Err (Client (Http INTERNAL_SERVER_ERROR (event_data event)))]
      else
        let '(messages, more) := routed_pieces (split_blank_line (event_content (event_data event))) in
        if more : bool then messages ++ routed_stream events else messages
  end.

Definition handle_stream_with_body {A} `{!Deserialize A} (client : HttpClient) (url : Url) (body : Value)
    (headers : HeaderMap) : outcome ClientError (list (outcome OrchError (option A))) :=
  response ← post (connection client) url headers body;
  if response_status response =? OK then Ok (routed_stream (eventsource (response_body response)))
  else e ← http_error response; Err e.
End client.

(** ** Requests *)
Inductive RouterResponse (U S : Type) :=
| RouterUnary (response : U)
| RouterStreaming (rx : list (outcome OrchError (option S))).
Arguments RouterUnary {U S}.
Arguments RouterStreaming {U S}.

Section requests.
Context {SJ : SerdeJson} {CN : Connector} {HH : HttpHeaders} {JS : Json} {TR : Transport}.
Context `{!Deserialize ErrorResponse, !Deserialize ChatCompletion, !Deserialize ChatCompletionChunk,
  !Deserialize Completion, !Deserialize TokenizeResponse}.

Definition openai_router_headers (self : OpenAiClient) :=
  build_router_headers (openai_router_config self) (openai_router_client self).

Definition build_router_payload {T} `{!Serialize T} (endpoint : string) (body : T) (transaction_id : string)
    : outcome ClientError Value :=
  match to_vec (to_value body) with
  | inl data => Ok (Http.envelope endpoint {["Content-Type" := value_string "application/json";
                                             "x-request-id" := value_string transaction_id]} data)
  | inr e => Err (Http INTERNAL_SERVER_ERROR ("failed to serialise request: " +:+ e))
  end.

Definition route_via_router {U S} `{!Deserialize U} `{!Deserialize S} (self : OpenAiClient) (model_name : string)
    (vllm_request : gmap string Value) (endpoint_ : string) (is_streaming : bool) (headers : HeaderMap)
    : outcome ClientError (RouterResponse U S) :=
  if is_streaming then
    '(transaction_id, router_client, headers) ← openai_router_headers self model_name "http_pass_stream" headers;
    payload ← build_router_payload endpoint_ vllm_request transaction_id;
    url ← endpoint (connection router_client) ROUTER_HANDLE_STREAM_ENDPOINT;
    rx ← handle_stream_with_body router_client url payload headers;
    Ok (RouterStreaming rx)
  else
    '(transaction_id, router_client, headers) ← openai_router_headers self model_name "http_pass" headers;
    payload ← build_router_payload endpoint_ vllm_request transaction_id;
    url ← endpoint (connection router_client) ROUTER_HANDLE_ENDPOINT;
    response ← handle_unary_with_body router_client url payload headers;
    Ok (RouterUnary response).

Definition router_enabled_for (self : OpenAiClient) : bool :=
  match openai_router_config self with Some r => router_enabled r | None => false end.

(** The queue's model is the [x-model-id] header's, or the request's. *)
Definition model_id_for_routing (headers : HeaderMap) (model : string) : string :=
  default model (header_get "x-model-id" headers ≫= header_to_str).

Definition streams (stream : option bool) : bool := default false stream.

Definition chat_vllm_request (request : ChatCompletionsRequest) : gmap string Value :=
  let vllm_request := field "model" (ccr_model request) ∪ field "messages" (ccr_messages request) in
  let vllm_request := if streams (ccr_stream request) then <["stream" := value_bool true]> vllm_request
                      else vllm_request in
  merge_extra_fields vllm_request (ccr_extra request).

Definition chat_completions_via_router (self : OpenAiClient) (request : ChatCompletionsRequest)
    (headers : HeaderMap) (model_id_for_routing : string) : outcome ClientError ChatCompletionsResponse :=
  response ← route_via_router self model_id_for_routing (chat_vllm_request request)
               CHAT_COMPLETIONS_ENDPOINT (streams (ccr_stream request)) headers;
  match response with
  | RouterStreaming rx => Ok (ChatStreaming rx)
  | RouterUnary chat_completion => Ok (ChatUnary chat_completion)
  end.

Definition openai_chat_completions (self : OpenAiClient) (request : ChatCompletionsRequest)
    (headers : HeaderMap) : outcome ClientError ChatCompletionsResponse :=
  if router_enabled_for self
  then chat_completions_via_router self request headers (model_id_for_routing headers (ccr_model request))
  else
    url ← endpoint (connection (openai_client self)) CHAT_COMPLETIONS_ENDPOINT;
    if streams (ccr_stream request) then
      rx ← handle_streaming (openai_client self) url request headers; Ok (ChatStreaming rx)
    else
      chat_completion ← handle_unary (openai_client self) url request headers; Ok (ChatUnary chat_completion).

Definition completions_vllm_request (request : CompletionsRequest) : gmap string Value :=
  let vllm_request := field "model" (cr_model request) ∪ field "prompt" (cr_prompt request) in
  let vllm_request := if streams (cr_stream request) then <["stream" := value_bool true]> vllm_request
                      else vllm_request in
  merge_extra_fields vllm_request (cr_extra request).

Definition completions_via_router (self : OpenAiClient) (request : CompletionsRequest)
    (headers : HeaderMap) (model_id_for_routing : string) : outcome ClientError CompletionsResponse :=
  response ← route_via_router self model_id_for_routing (completions_vllm_request request)
               COMPLETIONS_ENDPOINT (streams (cr_stream request)) headers;
  match response with
  | RouterStreaming rx => Ok (CompletionStreaming rx)
  | RouterUnary completion => Ok (CompletionUnary completion)
  end.

Definition openai_completions (self : OpenAiClient) (request : CompletionsRequest)
    (headers : HeaderMap) : outcome ClientError CompletionsResponse :=
  if router_enabled_for self
  then completions_via_router self request headers (model_id_for_routing headers (cr_model request))
  else
    url ← endpoint (connection (openai_client self)) COMPLETIONS_ENDPOINT;
    if streams (cr_stream request) then
      rx ← handle_streaming (openai_client self) url request headers; Ok (CompletionStreaming rx)
    else
      completion ← handle_unary (openai_client self) url request headers; Ok (CompletionUnary completion).

Definition tokenize_via_router (self : OpenAiClient) (request : TokenizeRequest) (headers : HeaderMap)
    (model_id_for_routing : string) : outcome ClientError TokenizeResponse :=
  '(transaction_id, router_client, headers) ← openai_router_headers self model_id_for_routing "http_pass" headers;
  payload ← build_router_payload TOKENIZE_ENDPOINT request transaction_id;
  url ← endpoint (connection router_client) ROUTER_HANDLE_ENDPOINT;
  handle_unary_with_body router_client url payload headers.

Definition tokenize (self : OpenAiClient) (request : TokenizeRequest) (headers : HeaderMap)
    : outcome ClientError TokenizeResponse :=
  if router_enabled_for self
  then tokenize_via_router self request headers (model_id_for_routing headers (tkr_model request))
  else
    url ← endpoint (connection (openai_client self)) TOKENIZE_ENDPOINT;
    handle_unary (openai_client self) url request headers.
End requests.

(** ** The router's events *)
Section routed.
Context {SJ : SerdeJson} {JS : Json}.
Context `{!Deserialize ErrorResponse, !Deserialize A}.

(** The server's events as the router passes them on: framed as on the wire,
    any number of them in the content of one envelope, pings in between. *)
Definition blank_line : string := String "010" (String "010" "").
Definition frames (data : list string) : string :=
  concat ((fun d => "data: " +:+ d +:+ blank_line) <$> data).

(** Data that the framing leaves as it is. *)
Record clean (data : string) : Prop := {
  clean_aligned : aligned data;
  clean_nonempty : data <> "";
  clean_trimmed : trim data = data;
  clean_unbroken : split_blank_line data = [data]
}.

Inductive routes : list (Event + string) -> list (Event + string) -> Prop :=
| routes_end : routes [] []
| routes_broken error error' sent routed : routes (inr error :: sent) (inr error' :: routed)
| routes_ping data sent routed :
    routes sent routed -> routes sent (inl {| event_event := "png"; event_data := data |} :: routed)
| routes_envelope events event sent routed :
    event_event event <> "png" -> event_event event <> "err" ->
    Forall (fun e => clean (event_data e)) events ->
    event_content (event_data event) = frames (event_data <$> events) ->
    routes sent routed -> routes ((inl <$> events) ++ sent) (inl event :: routed).

(** Equal messages, or errors of the client that differ in their text. *)
Definition same_message {B} (m m' : outcome OrchError (option B)) : Prop :=
  m = m' \/ exists text text',
    m = Err (Client (Http INTERNAL_SERVER_ERROR text)) /\ m' = Err (Client (Http INTERNAL_SERVER_ERROR text')).
Definition same_messages {B} := Forall2 (same_message (B := B)).

Lemma split_newline_free c s : is_newline c = false -> split_blank_line (String c s) = push c (split_blank_line s).
Proof. intros H. simpl. rewrite H. by destruct s. Qed.

Lemma split_two c d s : split_blank_line (String c (String d s)) =
  if is_newline c && is_newline d then "" :: split_blank_line s else push c (split_blank_line (String d s)).
Proof. done. Qed.

Lemma split_blank_line_app p s :
  split_blank_line p = [p] -> (forall q, p <> q +:+ String "010" "") ->
  split_blank_line (p +:+ blank_line +:+ s) = p :: split_blank_line s.
Proof.
  induction p as [|c p IH]; intros Hp Hend; [done|].
  assert (Hc : p = "" -> is_newline c = false).
  { intros ->. destruct (is_newline c) eqn:E; [|done]. apply Ascii.eqb_eq in E as ->. by destruct (Hend ""). }
  destruct p as [|d p].
  - change (split_blank_line (String c (blank_line +:+ s)) = [String c ""] ++ split_blank_line s).
    by rewrite split_newline_free by auto.
  - rewrite split_two in Hp.
    change (split_blank_line (String c (String d (p +:+ blank_line +:+ s))) =
      String c (String d p) :: split_blank_line s).
    rewrite split_two. destruct (is_newline c && is_newline d); [by injection Hp|].
    destruct (split_blank_line (String d p)) as [|p0 ps] eqn:E; simpl in Hp; simplify_eq.
    change (String d (p +:+ blank_line +:+ s)) with (String d p +:+ blank_line +:+ s).
    rewrite IH; [done..|]. intros q Hq. apply (Hend (String c q)). by rewrite Hq.
Qed.

Lemma skip_whitespace_suffix l : exists skipped, l = skipped ++ skip_whitespace l.
Proof.
  induction l as [|ch l [skipped IH]]; [by exists []|]. simpl.
  destruct (is_whitespace ch); [|by exists []]. exists (ch :: skipped). simpl. by f_equal.
Qed.

Lemma skip_whitespace_chars l : Forall is_char l -> Forall is_char (skip_whitespace l).
Proof.
  intros H. destruct (skip_whitespace_suffix l) as [skipped E]. rewrite E in H.
  by apply Forall_app in H as [_ H].
Qed.

Lemma trimmed_ends d : aligned d -> trim d = d -> skip_whitespace (reverse (chars d)) = reverse (chars d).
Proof.
  intros Ha Ht. pose proof (chars_is_char d Ha) as Hc.
  destruct (skip_whitespace_suffix (chars d)) as [front Ef].
  destruct (skip_whitespace_suffix (reverse (skip_whitespace (chars d)))) as [back Eb].
  assert (E : chars d = reverse (skip_whitespace (reverse (skip_whitespace (chars d))))).
  { rewrite <- Ht at 1. unfold trim. apply chars_concat, Forall_reverse, skip_whitespace_chars.
    by apply Forall_reverse, skip_whitespace_chars. }
  assert (Hl : front = []).
  { apply length_zero_iff_nil. apply (f_equal length) in E, Ef, Eb.
    rewrite length_app in Ef, Eb. rewrite !length_reverse in *. lia. }
  rewrite Hl in Ef. simpl in Ef. rewrite <- Ef in E. rewrite E at 2. by rewrite reverse_involutive.
Qed.

Lemma chars_framed d : aligned d -> chars ("data: " +:+ d) = ["d"; "a"; "t"; "a"; ":"; " "] ++ chars d.
Proof. intros H. by rewrite (chars_app "data: " d). Qed.

Lemma skip_whitespace_head ch l : is_whitespace ch = false -> skip_whitespace (ch :: l) = ch :: l.
Proof. intros H. simpl. by rewrite H. Qed.

Lemma trim_framed d : clean d -> trim ("data: " +:+ d) = "data: " +:+ d.
Proof.
  intros [Ha Hne Ht _]. unfold trim at 1. rewrite chars_framed by done.
  assert (E : skip_whitespace (["d"; "a"; "t"; "a"; ":"; " "] ++ chars d) =
              ["d"; "a"; "t"; "a"; ":"; " "] ++ chars d) by (apply skip_whitespace_head; by vm_compute).
  rewrite E, reverse_app. pose proof (trimmed_ends d Ha Ht) as Hs.
  destruct (reverse (chars d)) as [|ch l] eqn:El.
  - apply (f_equal reverse) in El. rewrite reverse_involutive in El. by apply chars_nil in El.
  - assert (Hch : is_whitespace ch = false).
    { destruct (is_whitespace ch) eqn:Ew; [|done]. simpl in Hs. rewrite Ew in Hs.
      destruct (skip_whitespace_suffix l) as [sk Esk]. rewrite Hs in Esk.
      apply (f_equal length) in Esk. rewrite length_app in Esk. simpl in Esk. lia. }
    change ((ch :: l) ++ ?x) with (ch :: (l ++ x)). rewrite skip_whitespace_head by done.
    change (ch :: (l ++ ?x)) with ((ch :: l) ++ x). rewrite <- El, reverse_app, !reverse_involutive.
    rewrite <- chars_framed by done. apply concat_chars.
Qed.

Lemma clean_end d : clean d -> forall q, "data: " +:+ d <> q +:+ String "010" "".
Proof.
  intros Hd q E. pose proof (trim_framed d Hd) as Ht. rewrite E in Ht.
  assert (Hq : aligned q).
  { destruct q as [|c q]; [done|]. apply (f_equal (String.get 0)) in E. by injection E as <-. }
  assert (Ha : aligned (q +:+ String "010" "")) by (rewrite <- E; done).
  pose proof (trimmed_ends _ Ha Ht) as Hs.
  rewrite chars_app in Hs by done.
  change (chars (String "010" "")) with [String "010" ""] in Hs. rewrite reverse_app in Hs.
  change (reverse [String "010" ""]) with [String "010" ""] in Hs.
  change (skip_whitespace (reverse (chars q)) = String "010" "" :: reverse (chars q)) in Hs.
  destruct (skip_whitespace_suffix (reverse (chars q))) as [sk Esk].
  rewrite Hs in Esk. apply (f_equal length) in Esk. rewrite length_app in Esk. simpl in Esk. lia.
Qed.

Lemma split_frames data :
  Forall clean data -> split_blank_line (frames data) = ((fun d => "data: " +:+ d) <$> data) ++ [""].
Proof.
  induction 1 as [|d data Hd _ IH]; [done|].
  change (split_blank_line (("data: " +:+ d +:+ blank_line) +:+ frames data) =
    ("data: " +:+ d) :: ((fun d => "data: " +:+ d) <$> data) ++ [""]).
  rewrite !append_assoc, <- (append_assoc "data: " d).
  rewrite split_blank_line_app.
  - by f_equal.
  - change ("data: " +:+ d) with
      (String "d" (String "a" (String "t" (String "a" (String ":" (String " " d)))))).
    rewrite !split_newline_free by done. by rewrite (clean_unbroken d Hd).
  - by apply clean_end.
Qed.

Lemma same_messages_refl {B} (l : list (outcome OrchError (option B))) : same_messages l l.
Proof. induction l; constructor; [by left|done]. Qed.

(** The pieces of one envelope give the messages of its events, and the rest of
    the stream follows unless they ended it. *)
Lemma routed_pieces_agree events sent routed :
  Forall (fun e => clean (event_data e)) events ->
  same_messages (direct_stream (A := A) sent) (routed_stream routed) ->
  same_messages (direct_stream (A := A) ((inl <$> events) ++ sent))
    (let '(messages, more) :=
       routed_pieces (((fun d => "data: " +:+ d) <$> (event_data <$> events)) ++ [""]) in
     if more : bool then messages ++ routed_stream routed else messages).
Proof.
  intros Hc Hrest. induction Hc as [|e events He _ IH]; [done|].
  simpl. rewrite (trim_framed _ He). simpl. change ("" +:+ event_data e) with (event_data e).
  destruct (bool_decide_reflect (event_data e = "[DONE]")) as [Hd|Hne];
    [constructor; [by left|constructor]|].
  destruct (from_json (event_data e)) as [message|parse_error].
  - destruct (routed_pieces _) as [messages []]; (constructor; [by left|exact IH]).
  - unfold event_error. destruct (from_json (T := ErrorResponse) (event_data e)) as [response|serde_error].
    + destruct (client_error_from_response response) as [error|error|site]; [|constructor..].
      destruct (routed_pieces _) as [messages []]; (constructor; [by left|exact IH]).
    + destruct (routed_pieces _) as [messages []];
        (constructor; [right; by eexists _, _|exact IH]).
Qed.

Lemma routed_stream_agree sent routed :
  routes sent routed -> same_messages (direct_stream (A := A) sent) (routed_stream routed).
Proof.
  induction 1 as [|error error' sent routed|data sent routed _ IH|events event sent routed Hp He Hc Hd _ IH].
  - constructor.
  - constructor; [|constructor]. right. by eexists _, _.
  - exact IH.
  - simpl. rewrite !bool_decide_eq_false_2 by done. rewrite Hd, split_frames.
    + by apply routed_pieces_agree.
    + by apply Forall_fmap.
Qed.
End routed.

(** ** What a routed request asks for *)
Section objects.
Context {SJ : SerdeJson} {JS : Json}.

(** A request whose two forms are the same object. *)
Record plain_completion (r : CompletionsRequest) : Prop := {
  pc_stream : cr_stream r <> Some false;
  pc_extra : forall name, name ∈ ["stream"; "model"; "prompt"; "detectors"; "_prompt_masks"] ->
    cr_extra r !! name = None
}.

(** A key of an object built from fields is one of its fields or comes from
    the rest. *)
Lemma lookup_field {T} `{!Serialize T} name (t : T) key :
  field name t !! key = if decide (key = name) then Some (to_value t) else None.
Proof.
  unfold field. case_decide; [subst; apply lookup_singleton_eq|by apply lookup_singleton_ne].
Qed.
Lemma lookup_optional_field {T} `{!Serialize T} name (o : option T) key :
  optional_field name o !! key = if decide (key = name) then to_value <$> o else None.
Proof.
  destruct o as [t|]; [apply lookup_field|]. simpl. rewrite lookup_empty. by case_decide.
Qed.
Lemma lookup_merge_extra (target extra : gmap string Value) key :
  merge_extra_fields target extra !! key =
    if decide (key = "detectors" \/ key = "_prompt_masks") then target !! key
    else match extra !! key with Some v => Some v | None => target !! key end.
Proof.
  unfold merge_extra_fields. rewrite lookup_union. case_decide as Hk.
  - rewrite map_lookup_filter_None_2; [apply left_id, _|]. right. intros v _ [H1 H2]. by destruct Hk.
  - destruct (extra !! key) as [v|] eqn:E.
    + rewrite (map_lookup_filter_Some_2 _ _ key v); [by destruct (target !! key)|done|]. simpl. naive_solver.
    + rewrite map_lookup_filter_None_2 by (by left). apply left_id, _.
Qed.

Lemma completions_same_object r : plain_completion r -> completions_vllm_request r = completions_request_fields r.
Proof.
  intros [Hs He]. apply map_eq. intros key. unfold completions_vllm_request, completions_request_fields.
  rewrite lookup_merge_extra, !lookup_union, lookup_optional_field, !lookup_field.
  assert (Hf : forall o : option Value, union o None = o) by (by intros []).
  destruct (decide (key ∈ ["stream"; "model"; "prompt"; "detectors"; "_prompt_masks"])) as [Hk|Hk].
  - rewrite (He key Hk), Hf.
    repeat (apply elem_of_cons in Hk as [->|Hk]); [..|by apply elem_of_nil in Hk];
      destruct (cr_stream r) as [[]|] eqn:E; try congruence; simpl;
      rewrite ?lookup_insert_eq, ?lookup_insert_ne, ?lookup_union, ?lookup_field by done; done.
  - rewrite !not_elem_of_cons in Hk. destruct Hk as (H1 & H2 & H3 & H4 & H5 & _).
    rewrite !decide_False by naive_solver.
    assert (Ht : (if streams (cr_stream r)
                  then <["stream" := value_bool true]> (field "model" (cr_model r) ∪ field "prompt" (cr_prompt r))
                  else field "model" (cr_model r) ∪ field "prompt" (cr_prompt r)) !! key = None).
    { destruct (streams (cr_stream r)); rewrite ?lookup_insert_ne by done;
        by rewrite lookup_union, !lookup_field, !decide_False by done. }
    rewrite Ht. by destruct (cr_extra r !! key).
Qed.

Lemma chat_object_relation r key :
  (forall name, name ∈ ["stream"; "model"; "messages"; "tools"] -> ccr_extra r !! name = None) ->
  chat_vllm_request r !! key =
    if decide (key ∈ ["tools"; "detectors"; "_prompt_masks"]) then None
    else if decide (key = "stream") then (if streams (ccr_stream r) then Some (value_bool true) else None)
    else chat_request_fields r !! key.
Proof.
  intros He. unfold chat_vllm_request, chat_request_fields.
  rewrite lookup_merge_extra, !lookup_union, !lookup_optional_field, !lookup_field.
  set (base := field "model" (ccr_model r) ∪ field "messages" (ccr_messages r)).
  assert (Ht : forall key, key ∉ ["stream"; "model"; "messages"] ->
    (if streams (ccr_stream r) then <["stream" := value_bool true]> base else base) !! key = None).
  { intros k Hk. rewrite !not_elem_of_cons in Hk. destruct Hk as (H1 & H2 & H3 & _). unfold base.
    destruct (streams (ccr_stream r)); rewrite ?lookup_insert_ne by done;
      by rewrite lookup_union, !lookup_field, !decide_False by done. }
  destruct (decide (key ∈ ["stream"; "model"; "messages"; "tools"])) as [Hk|Hk].
  - rewrite (He key Hk).
    repeat (apply elem_of_cons in Hk as [->|Hk]); [..|by apply elem_of_nil in Hk]; simpl.
    + by destruct (streams (ccr_stream r)); rewrite ?lookup_insert_eq; unfold base.
    + by destruct (streams (ccr_stream r)); rewrite ?lookup_insert_ne by done; unfold base.
    + by destruct (streams (ccr_stream r)); rewrite ?lookup_insert_ne by done; unfold base.
    + by rewrite Ht by set_solver.
  - rewrite !not_elem_of_cons in Hk. destruct Hk as (H1 & H2 & H3 & H4 & _).
    destruct (decide (key = "stream")), (decide (key = "model")), (decide (key = "messages")),
      (decide (key = "tools")); try done.
    rewrite Ht by (rewrite !not_elem_of_cons; repeat split; try done; apply not_elem_of_nil).
    destruct (decide (key = "detectors" \/ key = "_prompt_masks")) as [Hd|Hd].
    + rewrite decide_True; [done|]. set_solver.
    + rewrite decide_False by set_solver. simpl. by destruct (ccr_extra r !! key).
Qed.
End objects.

Section tools.
Context {SJ : SerdeJson} {CN : Connector} {HH : HttpHeaders} {JS : Json} {TR : Transport}.
Context `{!Deserialize ErrorResponse, !Deserialize ChatCompletion, !Deserialize ChatCompletionChunk}.

Definition with_tools (request : ChatCompletionsRequest) (tools : option (list Tool)) : ChatCompletionsRequest :=
  {| ccr_detectors := ccr_detectors request; ccr_stream := ccr_stream request; ccr_model := ccr_model request;
     ccr_messages := ccr_messages request; ccr_tools := tools; ccr_extra := ccr_extra request |}.

(** Chat completions are different: what a routed request asks for has the
    caller's fields except the tools, so that its answer is the same whatever
    tools it declares, while a request sent to the server directly carries
    them. *)
Theorem chat_router_drops_tools request :
  (forall name, name ∈ ["stream"; "model"; "messages"; "tools"] -> ccr_extra request !! name = None) ->
  (forall self headers tools, router_enabled_for self = true ->
     openai_chat_completions self (with_tools request tools) headers = openai_chat_completions self request headers) /\
  chat_vllm_request request !! "tools" = None /\
  chat_request_fields request !! "tools" = to_value <$> ccr_tools request /\
  forall key, key ∉ ["tools"; "stream"; "detectors"; "_prompt_masks"] ->
    chat_vllm_request request !! key = chat_request_fields request !! key.
Proof.
  intros He. split; [|split; [|split]].
  - intros self headers tools Hr. unfold openai_chat_completions. by rewrite Hr.
  - by rewrite chat_object_relation by done.
  - unfold chat_request_fields. rewrite !lookup_union, !lookup_optional_field, !lookup_field, He by set_solver.
    simpl. by destruct (ccr_tools request).
  - intros key Hk. rewrite chat_object_relation by done. rewrite !not_elem_of_cons in Hk.
    rewrite !decide_False; [done|naive_solver|]. rewrite !elem_of_cons. intros Hin.
    destruct Hk as (? & ? & ? & ? & _). destruct Hin as [?|[?|[?|?%elem_of_nil]]]; done.
Qed.
End tools.

(** ** The router is transparent for completions *)
Section transparent.
Context {SJ : SerdeJson} {CN : Connector} {HH : HttpHeaders} {JS : Json} {TR : Transport}
  {HL : HttpHeadersLaws HH} {TL : TransportLaws TR} {JL : JsonLaws JS}.
Context `{!Deserialize ErrorResponse, !Deserialize ChatCompletion, !Deserialize ChatCompletionChunk,
  !Deserialize Completion, !Deserialize TokenizeResponse}.

(** The same body, or of a successful streamed answer the same events. *)
Definition same_body (streamed : bool) (status : StatusCode) (body body' : Body) : Prop :=
  if streamed && (status =? OK) then routes (eventsource body) (eventsource body')
  else body_collect body = body_collect body'.

Lemma response_json_agree {A} `{!Deserialize A} (r r' : Response) :
  body_collect (response_body r) = body_collect (response_body r') ->
  response_json (T := A) r = response_json r'.
Proof. unfold response_json. by intros ->. Qed.

Lemma http_error_agree (r r' : Response) :
  response_status r = response_status r' ->
  body_collect (response_body r) = body_collect (response_body r') -> http_error r = http_error r'.
Proof. intros Hs Hb. unfold http_error. by rewrite (response_json_agree r r' Hb), Hs. Qed.

Lemma unary_answer_agree {A} `{!Deserialize A} (a a' : outcome ClientError Response) :
  responses_agree (same_body false) a a' ->
  (a ≫= unary_answer (A := A)) = (a' ≫= unary_answer).
Proof.
  destruct a as [r|e|], a' as [r'|e'|]; simpl; try done; [|by intros ->].
  intros [Hs Hb]. simpl in Hb. unfold unary_answer.
  by rewrite (response_json_agree r r' Hb), (http_error_agree r r' Hs Hb), Hs.
Qed.

(** Equal results, the messages of streams up to [same_messages]. *)
Definition same_result {A B} (same : A -> B -> Prop) (a : outcome ClientError A) (b : outcome ClientError B)
    : Prop :=
  match a, b with
  | Ok a, Ok b => same a b
  | Err e, Err e' => e = e'
  | Panic site, Panic site' => site = site'
  | _, _ => False
  end.

Definition streamed_answer {A} `{!Deserialize A} (stream : list (Event + string) -> list (outcome OrchError (option A)))
    (response : Response) : outcome ClientError (list (outcome OrchError (option A))) :=
  if response_status response =? OK then Ok (stream (eventsource (response_body response)))
  else e ← http_error response; Err e.

Lemma streamed_answer_agree {A} `{!Deserialize A} (a a' : outcome ClientError Response) :
  responses_agree (same_body true) a a' ->
  same_result (same_messages (B := A)) (a ≫= streamed_answer direct_stream) (a' ≫= streamed_answer routed_stream).
Proof.
  destruct a as [r|e|], a' as [r'|e'|]; simpl; try done.
  intros [Hs Hb]. unfold same_body in Hb. simpl in Hb. unfold streamed_answer. rewrite <- Hs.
  destruct (response_status r =? OK).
  - simpl. by apply routed_stream_agree.
  - rewrite <- (http_error_agree r r' Hs Hb). by destruct (http_error r).
Qed.

Definition without_router (self : OpenAiClient) : OpenAiClient :=
  {| openai_client := openai_client self; openai_health_client := openai_health_client self;
     openai_router_client := None; openai_router_config := None |}.

Definition same_completions (a b : CompletionsResponse) : Prop :=
  match a, b with
  | CompletionUnary c, CompletionUnary c' => c = c'
  | CompletionStreaming rx, CompletionStreaming rx' => same_messages rx rx'
  | _, _ => False
  end.

(** The headers the sender is to give the request it passes on. *)
Definition openai_fields (transaction_id : string) : gmap string Value :=
  {["Content-Type" := value_string "application/json"; "x-request-id" := value_string transaction_id]}.

(** Routing is a posted envelope. *)
Lemma route_via_router_posts {U S} `{!Deserialize U} `{!Deserialize S} self config client model
    (request : gmap string Value) path (streamed : bool) headers data url :
  openai_router_config self = Some config -> openai_router_client self = Some client ->
  visible model = true -> visible (reply_type config) = true ->
  to_vec (to_value request) = inl data ->
  endpoint (connection client) (if streamed then ROUTER_HANDLE_STREAM_ENDPOINT else ROUTER_HANDLE_ENDPOINT) = Ok url ->
  let method := if streamed then "http_pass_stream" else "http_pass" in
  exists routed, routed_headers config model method headers routed /\
    let payload := envelope path (openai_fields (transaction_id_of headers)) data in
    route_via_router (U := U) (S := S) self model request path streamed headers =
      if streamed then
        rx ← (response ← post (connection client) url routed payload;
              streamed_answer routed_stream response);
        Ok (RouterStreaming rx)
      else
        answer ← (response ← post (connection client) url routed payload;
                  unary_answer response);
        Ok (RouterUnary answer).
Proof.
  intros Hc Hcl Hm Hr Hd Hu. unfold route_via_router, openai_router_headers. rewrite Hc, Hcl.
  destruct (build_router_headers_ok config client model
    (if streamed then "http_pass_stream" else "http_pass") headers Hm) as (routed & E & Hrh);
    [by destruct streamed|done|].
  exists routed. split; [done|]. unfold build_router_payload.
  destruct streamed; rewrite E; simpl; rewrite Hd; simpl; by rewrite Hu.
Qed.

Definition handle_path (streamed : bool) : string :=
  if streamed then ROUTER_HANDLE_STREAM_ENDPOINT else ROUTER_HANDLE_ENDPOINT.

Definition handle_method (streamed : bool) : string :=
  if streamed then "http_pass_stream" else "http_pass".

(** C25. A sender that passes requests on makes no difference for completions: a
    request answered through it gets the result of the same request, with the
    same headers, sent to the server itself, streamed messages up to the text of
    errors in them.  This is as far as the sender and the server do their part
    ([forwards]): the sender gets the request's body for the server's path, the
    queue of the model, the method, the reply's type, the time allowed and the
    transaction's id, and is to answer it as the server answers the direct
    request - which carries the caller's headers, while the envelope has only the
    content type and the transaction's id; the server must not depend on the
    others. *)
Theorem completions_routing_transparent self config client request headers :
  openai_router_config self = Some config -> router_enabled config = true ->
  openai_router_client self = Some client ->
  visible (model_id_for_routing headers (cr_model request)) = true -> visible (reply_type config) = true ->
  plain_completion request ->
  let streamed := streams (cr_stream request) in
  forwards (connection (openai_client self)) (connection client) (handle_path streamed) COMPLETIONS_ENDPOINT
    (fun _ => COMPLETIONS_ENDPOINT) config (model_id_for_routing headers (cr_model request))
    (handle_method streamed) headers headers openai_fields (same_body streamed) ->
  same_result same_completions (openai_completions (without_router self) request headers)
    (openai_completions self request headers).
Proof.
  intros Hc He Hcl Hm Hr Hp streamed Hf. unfold streamed in *. clear streamed.
  destruct (forwarded (T := CompletionsRequest) _ _ _ _ _ _ _ _ _ _ _ _ request Hf) as (url & surl & data & Hu & Hsu & Hd & H).
  destruct (route_via_router_posts (U := Completion) (S := Completion) self config client
    (model_id_for_routing headers (cr_model request)) (completions_vllm_request request) COMPLETIONS_ENDPOINT
    (streams (cr_stream request)) headers data surl Hc Hcl Hm Hr) as (routed & Hrh & E).
  { by rewrite completions_same_object. }
  { done. }
  unfold openai_completions, router_enabled_for, completions_via_router. rewrite Hc, He, E. simpl. rewrite Hu.
  simpl. specialize (H routed Hrh). destruct (streams (cr_stream request)).
  - pose proof (streamed_answer_agree (A := Completion) _ _ H) as Ha.
    unfold handle_streaming. fold (streamed_answer (A := Completion) direct_stream).
    change (mbind _ (post (connection (openai_client self)) url headers request))
      with (post (connection (openai_client self)) url headers request ≫= streamed_answer (A := Completion) direct_stream).
    destruct (post _ url _ _ ≫= _) as [rx|e|s], (post _ surl _ _ ≫= _) as [rx'|e'|s']; simpl in *; try done.
  - pose proof (unary_answer_agree (A := Completion) _ _ H) as Ha.
    change (handle_unary (openai_client self) url request headers)
      with (post (connection (openai_client self)) url headers request ≫= unary_answer (A := Completion)).
    rewrite Ha. by destruct (post _ surl _ _ ≫= _).
Qed.

End transparent.

(** ** Witnesses *)
Section witnesses.
#[local] Existing Instance settings_connector.
#[local] Existing Instance tree_json.
#[local] Existing Instance tree_values.
#[local] Existing Instance list_headers.

(** A network of a server, which answers a request with its body and a stream
    of a few events, and the router's sender, which passes requests on. *)
Definition ex_events : list string := ["one"; "{}"; "[DONE]"; "late"].
Definition ex_envelope (content : string) : string :=
  match to_vec (value_object {["content" := value_string content]}) with inl s => s | inr e => e end.
Definition ex_event (d : string) : Event := {| event_event := "message"; event_data := d |}.
Definition ex_server_events : list (Event + string) := (fun d => inl (ex_event d)) <$> ex_events.
Definition ex_router_events : list (Event + string) :=
  [inl {| event_event := "png"; event_data := "" |}; inl (ex_event (ex_envelope (frames ["one"; "{}"])));
   inl (ex_event (ex_envelope (frames ["[DONE]"; "late"])))].
Definition ex_answer (data : string) : StatusCode * (string * list (Event + string)) + string :=
  inl (OK, (data, ex_server_events)).
Definition ex_routed_answer (data : string) : StatusCode * (string * list (Event + string)) + string :=
  inl (OK, (data, ex_router_events)).
Definition ex_sender (path data : string) : StatusCode * (string * list (Event + string)) + string :=
  match value_from_str data with
  | inl v => match value_get "payload" v ≫= value_as_str with
             | Some payload => ex_routed_answer payload
             | None => inr "no payload"
             end
  | inr e => inr e
  end.

Definition loopback : Transport := {|
  Url := string;
  Uri := string;
  url_path u := u;
  url_set_path path _ := path;
  url_join u path := Some (u +:+ path);
  uri_from u := Some u;
  HttpClientInner := string;
  connection (c : @HttpClient settings_connector) :=
    {| base_url := "/"; health_url := "/health"; api_token := http_api_token c; inner := http_host c |};
  inject_context h := h;
  Body := string * list (Event + string);
  call host request :=
    let '(_, uri, _, data) := request in
    if bool_decide (host = "localhost") then ex_sender uri data else ex_answer data;
  body_collect b := Some b.1;
  eventsource b := b.2;
  base64_encode s := s;
  new_v4 := "0b1f9df8-e2cd-4a3c-8a3b-6f1f2f3f4f5f"
|}.
#[local] Existing Instance loopback.
Lemma loopback_laws : TransportLaws loopback.
Proof. split; [done|by vm_compute]. Qed.

(** Any text but the empty object is a completion with that id. *)
Definition ex_completion (id : string) : Completion :=
  {| cp_id := id; cp_object := "text_completion"; cp_created := 0; cp_model := ""; cp_choices := [];
     cp_usage := None; cp_system_fingerprint := None; cp_detections := None; cp_warnings := [] |}.
#[local] Instance ex_completion_deserialize : Deserialize Completion :=
  fun s => if bool_decide (s = "{}") then inr "missing field `id`" else inl (ex_completion s).
#[local] Instance ex_chat_deserialize : Deserialize ChatCompletion := fun _ => inr "not a chat completion".
#[local] Instance ex_chunk_deserialize : Deserialize ChatCompletionChunk := fun _ => inr "not a chunk".
#[local] Instance ex_error_deserialize : Deserialize ErrorResponse := fun _ => inr "not an error".

Definition ex_http (host : string) : HttpSettings :=
  {| http_protocol := "http"; http_host := host; http_port := 8080; http_path := None; http_connect_timeout := 60;
     http_request_timeout := 600; http_tls := None; http_http2_keep_alive_interval := 30;
     http_http2_keep_alive_timeout := 30; http_api_token := None |}.
Definition ex_router : RouterConfig :=
  {| router_enabled := true; router_hostname := "localhost"; router_port := 19080; sla_seconds := 60;
     reply_type := "redis"; supported_detectors := [] |}.
Definition ex_routed_client : OpenAiClient :=
  {| openai_client := ex_http "model"; openai_health_client := None;
     openai_router_client := Some (ex_http "localhost"); openai_router_config := Some ex_router |}.
Definition ex_completion_request : CompletionsRequest :=
  {| cr_detectors := {| rd_input := ∅; rd_output := ∅ |}; cr_prompt_masks := None; cr_stream := Some true;
     cr_model := "granite"; cr_prompt := "Hi"; cr_extra := {["max_tokens" := value_integer 5]} |}.

Lemma ex_envelope_content s : event_content (ex_envelope s) = s.
Proof.
  unfold ex_envelope, event_content.
  destruct (@to_vec_value _ _ tree_values_laws (value_object {["content" := value_string s]})) as [t E].
  rewrite E, (tree_reads_back _ _ E), (@value_get_object _ _ tree_values_laws).
  by rewrite lookup_singleton_eq.
Qed.

Lemma ex_sender_forwards path fields data wrapped uri :
  to_vec (envelope path fields data) = inl wrapped -> ex_sender uri wrapped = ex_routed_answer data.
Proof.
  intros E. unfold ex_sender. rewrite (tree_reads_back _ _ E).
  unfold envelope. by rewrite (@value_get_object _ _ tree_values_laws).
Qed.

Definition ex_no_headers : HeaderMap := [].

Definition ex_messages (r : outcome ClientError CompletionsResponse) : list (outcome OrchError (option Completion)) :=
  match r with Ok (CompletionStreaming rx) => rx | _ => [] end.
Definition ex_direct_result := openai_completions (without_router ex_routed_client) ex_completion_request ex_no_headers.
Definition ex_routed_result := openai_completions ex_routed_client ex_completion_request ex_no_headers.
Definition is_streaming (r : outcome ClientError CompletionsResponse) : bool :=
  match r with Ok (CompletionStreaming _) => true | _ => false end.
Lemma ex_streams r : is_streaming r = true -> r = Ok (CompletionStreaming (ex_messages r)).
Proof. by destruct r as [[]| |]. Qed.
Lemma ex_direct_streams : is_streaming ex_direct_result = true.
Proof. vm_compute. reflexivity. Qed.
Lemma ex_routed_streams : is_streaming ex_routed_result = true.
Proof. vm_compute. reflexivity. Qed.

Lemma ex_message_clean d : d ∈ ex_events -> clean d.
Proof.
  intros Hd. repeat (apply elem_of_cons in Hd as [->|Hd]; [split; by vm_compute|]). by apply elem_of_nil in Hd.
Qed.

Lemma ex_routes : routes ex_server_events ex_router_events.
Proof.
  change ex_server_events with ((inl <$> (ex_event <$> ["one"; "{}"])) ++
    ((inl (B := string) <$> (ex_event <$> ["[DONE]"; "late"])) ++ [])).
  apply routes_ping. apply routes_envelope; [done|done| |apply ex_envelope_content|].
  2: apply routes_envelope; [done|done| |apply ex_envelope_content|constructor].
  all: repeat (constructor; [apply ex_message_clean; set_solver|]); constructor.
Qed.

Lemma ex_server_forwarded streamed model headers :
  forwards (connection (openai_client ex_routed_client)) (connection (ex_http "localhost"))
    (handle_path streamed) COMPLETIONS_ENDPOINT (fun _ => COMPLETIONS_ENDPOINT) ex_router model
    (handle_method streamed) headers headers openai_fields (same_body streamed).
Proof.
  split; [exact I|exact I|]. exists "/v1/completions", "/v1/completions". eexists _, _.
  split; [reflexivity|]. split; [reflexivity|]. split; [by destruct streamed|]. split; [reflexivity|].
  intros direct routed routed' data wrapped _ _ _ Hw.
  change (answers_agree (same_body streamed) (ex_answer data) (ex_sender (handle_path streamed) wrapped)).
  rewrite (ex_sender_forwards COMPLETIONS_ENDPOINT _ data wrapped _ Hw).
  split; [done|]. destruct streamed; [exact ex_routes|done].
Qed.

Lemma completions_routing_transparent_witness :
  same_messages (ex_messages ex_direct_result) (ex_messages ex_routed_result) /\
  length (ex_messages ex_routed_result) = 3%nat.
Proof.
  split; [|vm_compute; reflexivity].
  pose proof (@completions_routing_transparent tree_json settings_connector list_headers tree_values loopback
    list_headers_laws loopback_laws tree_values_laws _ _ ex_routed_client ex_router (ex_http "localhost")
    ex_completion_request ex_no_headers) as H.
  fold ex_direct_result ex_routed_result in H.
  rewrite (ex_streams _ ex_direct_streams), (ex_streams _ ex_routed_streams) in H.
  apply H; [reflexivity..| |exact (ex_server_forwarded _ _ _)].
  split; [discriminate|]. intros name Hn.
  repeat (apply elem_of_cons in Hn as [->|Hn]; [reflexivity|]). by apply elem_of_nil in Hn.
Defined.

(** A weather tool. *)
Definition ex_tool : Tool :=
  ToolFunction (function_tool_new
    {| fn_name := "weather"; fn_description := None; fn_parameters := ∅; fn_strict := None |}).
Definition ex_tool_request : ChatCompletionsRequest :=
  {| ccr_detectors := {| rd_input := ∅; rd_output := ∅ |}; ccr_stream := None; ccr_model := "granite";
     ccr_messages := [message_default]; ccr_tools := Some [ex_tool]; ccr_extra := ∅ |}.

Lemma chat_router_drops_tools_witness :
  chat_vllm_request ex_tool_request !! "tools" = None /\
  chat_request_fields ex_tool_request !! "tools" = Some (to_value [ex_tool]) /\
  chat_vllm_request ex_tool_request !! "model" = chat_request_fields ex_tool_request !! "model".
Proof.
  destruct (chat_router_drops_tools (TR := loopback) ex_tool_request) as (_ & H1 & H2 & H3).
  - intros name _. reflexivity.
  - split; [exact H1|]. split; [exact H2|]. apply H3.
    apply (bool_decide_unpack _). vm_compute. exact I.
Defined.
End witnesses.
