(* ===== verification/DetectorWire.v ===== *)
(** * The detector client on the wire

    src/clients/detector.rs: the requests to a detector - to the detector's
    server, or in an envelope through the router's sender - and what is made of
    their answers. *)
From S2P Require Import Prelude External Errors Utf8 Hostname Config Detection Clients OpenAi Chunk Models.
From S2P Require Import Utils Tasks Http OpenAiWire.
#[local] Open Scope string_scope.
#[local] Open Scope list_scope.
#[local] Open Scope Z_scope.

(** ** Request bodies *)
Section bodies.
Context {SJ : SerdeJson} {JS : Json}.

Record ContentAnalysisRequest := { cq_contents : list string; cq_detector_params : DetectorParams }.
Record ChatDetectionRequest := {
  cdr_messages : list Message; cdr_tools : list Tool; cdr_detector_params : DetectorParams
}.
Record ContextDocsDetectionRequest := {
  cxr_content : string; cxr_context_type : ContextType; cxr_context : list string;
  cxr_detector_params : DetectorParams
}.
Record GenerationDetectionRequest := {
  gdr_prompt : string; gdr_generated_text : string; gdr_detector_params : DetectorParams
}.

#[export] Instance detector_params_serialize : Serialize DetectorParams := value_object.
Definition content_analysis_value (r : ContentAnalysisRequest) : Value :=
  value_object (field "contents" (cq_contents r) ∪ field "detector_params" (cq_detector_params r)).
#[export] Instance content_analysis_serialize : Serialize ContentAnalysisRequest := content_analysis_value.

Definition chat_detection_value (r : ChatDetectionRequest) : Value :=
  value_object (field "messages" (cdr_messages r) ∪ field "tools" (cdr_tools r)
                ∪ field "detector_params" (cdr_detector_params r)).
#[export] Instance chat_detection_serialize : Serialize ChatDetectionRequest := chat_detection_value.

Definition context_type_value (t : ContextType) : Value :=
  value_string match t with Document => "docs" | Models.Url => "url" end.
#[export] Instance context_type_serialize : Serialize ContextType := context_type_value.

Definition context_docs_value (r : ContextDocsDetectionRequest) : Value :=
  value_object (field "content" (cxr_content r) ∪ field "context_type" (cxr_context_type r)
                ∪ field "context" (cxr_context r) ∪ field "detector_params" (cxr_detector_params r)).
#[export] Instance context_docs_serialize : Serialize ContextDocsDetectionRequest := context_docs_value.

Definition generation_detection_value (r : GenerationDetectionRequest) : Value :=
  value_object (field "prompt" (gdr_prompt r) ∪ field "generated_text" (gdr_generated_text r)
                ∪ field "detector_params" (gdr_detector_params r)).
#[export] Instance generation_detection_serialize : Serialize GenerationDetectionRequest :=
  generation_detection_value.
End bodies.

(** ** Requests *)
Section detector.
Context {SJ : SerdeJson} {CN : Connector} {HH : HttpHeaders} {JS : Json} {TR : Transport}.
Context `{!Deserialize DetectorError, !Deserialize (list (list ContentAnalysisResponse)),
  !Deserialize (list DetectionResult)}.

Definition MODEL_HEADER_NAME : string := "x-model-name".
Definition DETECTOR_ID_HEADER_NAME : string := "detector-id".
Definition CONTENTS_DETECTOR_ENDPOINT : string := "/api/v1/text/contents".
Definition CHAT_DETECTOR_ENDPOINT : string := "/api/v1/text/chat".
Definition CONTEXT_DOC_DETECTOR_ENDPOINT : string := "/api/v1/text/context/doc".
Definition GENERATION_DETECTOR_ENDPOINT : string := "/api/v1/text/generation".

(** [JSON_CONTENT_TYPE]: a static value, which cannot fail. *)
Context (json_content_type : HeaderValue).

(** The body of a 200, or the detector's error; of an answer that is neither,
    the status and [message]. *)
Definition detector_answer {A} `{!Deserialize A} (message : string) (response : Response) : outcome ClientError A :=
  if response_status response =? OK then response_json response
  else
    match response_json (T := DetectorError) response with
    | Ok error => e ← client_error_from_detector error; Err e
    | Err _ =>
        e ← client_error_from_detector
              {| detector_error_code := response_status response; detector_error_message := message |};
        Err e
    | Panic site => Panic site
    end.

Definition detector_router_headers (self : DetectorClient) (model_name : string) (headers : HeaderMap) :=
  build_router_headers (detector_router_config self) (detector_router_client self) model_name "http_pass" headers.

Definition post_via_router {A Q} `{!Deserialize A} `{!Serialize Q} (self : DetectorClient) (model_id : string)
    (url : Url) (headers : HeaderMap) (request : Q) : outcome ClientError A :=
  '(transaction_id, router_client, headers) ← detector_router_headers self (queue_model_name self) headers;
  request_bytes ← match to_vec (to_value request) with
                  | inl data => Ok data
                  | inr e => Err (Http INTERNAL_SERVER_ERROR
                                    ("failed to serialize detector request to bytes: " +:+ e))
                  end;
  let http_pass_payload :=
    envelope (url_path url) {["Content-Type" := value_string "application/json";
                              "x-request-id" := value_string transaction_id;
                              "detector-id" := value_string model_id]} request_bytes in
  router_url ← endpoint (connection router_client) ROUTER_HANDLE_ENDPOINT;
  response ← Http.post (connection router_client) router_url headers http_pass_payload;
  detector_answer "router request failed" response.

Definition detector_post {A Q} `{!Deserialize A} `{!Serialize Q} (self : DetectorClient) (model_id : string)
    (url : Url) (headers : HeaderMap) (request : Q) : outcome ClientError A :=
  if use_router self model_id then post_via_router self model_id url headers request
  else
    id ← unwrap "clients/detector.rs:190" (header_parse model_id);
    let headers := header_append DETECTOR_ID_HEADER_NAME id headers in
    let headers := header_append "content-type" json_content_type headers in
    let headers := header_append MODEL_HEADER_NAME id headers in
    response ← Http.post (connection (detector_client self)) url headers request;
    detector_answer "" response.

Definition detector_text_contents (self : DetectorClient) (model_id : string) (request : ContentAnalysisRequest)
    (headers : HeaderMap) : outcome ClientError (list (list ContentAnalysisResponse)) :=
  url ← endpoint (connection (detector_client self)) CONTENTS_DETECTOR_ENDPOINT;
  detector_post self model_id url headers request.
Definition detector_text_chat (self : DetectorClient) (model_id : string) (request : ChatDetectionRequest)
    (headers : HeaderMap) : outcome ClientError (list DetectionResult) :=
  url ← endpoint (connection (detector_client self)) CHAT_DETECTOR_ENDPOINT;
  detector_post self model_id url headers request.
Definition detector_text_context_doc (self : DetectorClient) (model_id : string)
    (request : ContextDocsDetectionRequest) (headers : HeaderMap) : outcome ClientError (list DetectionResult) :=
  url ← endpoint (connection (detector_client self)) CONTEXT_DOC_DETECTOR_ENDPOINT;
  detector_post self model_id url headers request.
Definition detector_text_generation (self : DetectorClient) (model_id : string)
    (request : GenerationDetectionRequest) (headers : HeaderMap) : outcome ClientError (list DetectionResult) :=
  url ← endpoint (connection (detector_client self)) GENERATION_DETECTOR_ENDPOINT;
  detector_post self model_id url headers request.
End detector.

(** ** The router is transparent for detectors *)
Section transparent.
Context {SJ : SerdeJson} {CN : Connector} {HH : HttpHeaders} {JS : Json} {TR : Transport}
  {HL : HttpHeadersLaws HH} {TL : TransportLaws TR} {JL : JsonLaws JS}.
Context `{!Deserialize DetectorError, !Deserialize A, !Serialize Q}.
Context (json_content_type : HeaderValue).

Definition without_detector_router (self : DetectorClient) : DetectorClient :=
  {| detector_client := detector_client self; detector_health_client := detector_health_client self;
     detector_router_client := None; detector_router_config := None;
     detector_client_id := detector_client_id self; detector_queue_model_id := detector_queue_model_id self |}.

(** A request to one of the detector's endpoints. *)
Definition detector_request (self : DetectorClient) (model_id path : string) (request : Q) (headers : HeaderMap)
    : outcome ClientError A :=
  url ← endpoint (connection (detector_client self)) path;
  detector_post json_content_type self model_id url headers request.

(** Equal results; an error without a body has the message of the path it took. *)
Definition same_detector_result (a b : outcome ClientError A) : Prop :=
  a = b \/ exists code, a = Err (Http code "") /\ b = Err (Http code "router request failed").

Lemma detector_answer_agree (a a' : outcome ClientError Response) :
  responses_agree (fun _ b b' => body_collect b = body_collect b') a a' ->
  same_detector_result (a ≫= detector_answer "") (a' ≫= detector_answer "router request failed").
Proof.
  destruct a as [r|e|], a' as [r'|e'|]; simpl; try done; [|by left; f_equal].
  intros [Hs Hb]. unfold detector_answer. rewrite <- Hs, (response_json_agree r r' Hb),
    (response_json_agree (A := DetectorError) r r' Hb).
  destruct (response_status r =? OK); [by left|].
  destruct (response_json r') as [error|e|site]; [by left| |by left].
  unfold client_error_from_detector. simpl. destruct (status_from_u16 (response_status r)); [|by left].
  simpl. right. by eexists.
Qed.

(** The headers a detector is sent directly, and those the sender is to give the
    request it passes on. *)
Definition direct_headers (id : HeaderValue) (headers : HeaderMap) : HeaderMap :=
  header_append MODEL_HEADER_NAME id
    (header_append "content-type" json_content_type (header_append DETECTOR_ID_HEADER_NAME id headers)).
Definition detector_fields (model_id transaction_id : string) : gmap string Value :=
  {["Content-Type" := value_string "application/json"; "x-request-id" := value_string transaction_id;
    "detector-id" := value_string model_id]}.

(** The same with a detector: a request its sender passes on is answered as the
    same request sent to the detector directly. *)
Theorem detector_routing_transparent self config client model_id id path request headers :
  detector_router_config self = Some config -> detector_router_client self = Some client ->
  use_router self model_id = true ->
  header_parse model_id = Some id -> visible (queue_model_name self) = true -> visible (reply_type config) = true ->
  forwards (connection (detector_client self)) (connection client) ROUTER_HANDLE_ENDPOINT path url_path
    config (queue_model_name self) "http_pass" headers (direct_headers id headers) (detector_fields model_id)
    (fun _ b b' => body_collect b = body_collect b') ->
  same_detector_result (detector_request (without_detector_router self) model_id path request headers)
    (detector_request self model_id path request headers).
Proof.
  intros Hc Hcl Hu Hid Hq Hr Hf.
  destruct (forwarded _ _ _ _ _ _ _ _ _ _ _ _ request Hf) as (url & surl & data & Eu & Es & Hd & H).
  unfold detector_request. simpl. rewrite Eu. simpl. unfold detector_post. rewrite Hu.
  change (use_router (without_detector_router self) model_id) with false. cbv iota.
  rewrite Hid. simpl.
  unfold post_via_router, detector_router_headers. rewrite Hc, Hcl.
  destruct (build_router_headers_ok config client (queue_model_name self) "http_pass" headers Hq)
    as (routed & -> & Hrh); [done|done|]. simpl. rewrite Hd. simpl. rewrite Es. simpl.
  apply detector_answer_agree. exact (H routed Hrh).
Qed.
End transparent.

(** ** Witnesses *)
Section witnesses.
#[local] Existing Instance settings_connector.
#[local] Existing Instance tree_json.
#[local] Existing Instance tree_values.
#[local] Existing Instance list_headers.
#[local] Existing Instance loopback.

(** Every text is an analysis, of itself. *)
#[local] Instance ex_analysis_deserialize : Deserialize (list (list ContentAnalysisResponse)) :=
  fun s => inl [[{| car_start := 0; car_end := byte_len s; car_text := s; car_detection := "echo";
                    car_detection_type := "echo"; car_detector_id := None; car_score := f64_zero;
                    car_evidence := None; car_metadata := ∅ |}]].
#[local] Instance ex_detector_error_deserialize : Deserialize DetectorError := fun _ => inr "not an error".

Definition ex_routed_detector : DetectorClient :=
  {| detector_client := ex_http "model"; detector_health_client := None;
     detector_router_client := Some (ex_http "localhost"); detector_router_config := Some ex_router;
     detector_client_id := "hap"; detector_queue_model_id := None |}.
Definition ex_analysis_request : ContentAnalysisRequest :=
  {| cq_contents := ["Hello"]; cq_detector_params := ∅ |}.
Definition ex_content_type : HeaderValue := exist _ "application/json" eq_refl.

Lemma detector_routing_transparent_witness :
  same_detector_result
    (detector_request (A := list (list ContentAnalysisResponse)) ex_content_type (without_detector_router ex_routed_detector) "hap"
       CONTENTS_DETECTOR_ENDPOINT ex_analysis_request ex_no_headers)
    (detector_request ex_content_type ex_routed_detector "hap" CONTENTS_DETECTOR_ENDPOINT
       ex_analysis_request ex_no_headers) /\
  is_ok (detector_request (A := list (list ContentAnalysisResponse)) ex_content_type ex_routed_detector "hap"
           CONTENTS_DETECTOR_ENDPOINT ex_analysis_request ex_no_headers) = true.
Proof.
  split; [|vm_compute; reflexivity].
  eapply (@detector_routing_transparent tree_json settings_connector list_headers tree_values loopback
    list_headers_laws loopback_laws tree_values_laws _ _ _ _ _ ex_content_type ex_routed_detector ex_router
    (ex_http "localhost")); try reflexivity.
  split; [exact I|exact I|]. exists "/api/v1/text/contents", "/api/v1/text/contents". eexists _, _.
  do 4 (split; [reflexivity|]). intros direct routed routed' data wrapped _ _ _ Hw.
  change (answers_agree (fun _ b b' => body_collect b = body_collect b') (ex_answer data)
    (ex_sender ROUTER_HANDLE_ENDPOINT wrapped)).
  rewrite (ex_sender_forwards "/api/v1/text/contents" _ data wrapped _ Hw). by split.
Defined.
End witnesses.
