(* ===== verification/Serde.v ===== *)
(** * JSON values and derived instances

    What [serde] and [serde_json] make of the attributes of the source's types:
    a view of JSON values from their constructors, the derived [Deserialize]
    of structs and enums over it ([FromValue]), the instances of the standard
    types, and the round trips that reduce a struct's to its fields'.  The
    requests ([RequestJson]) and the answers ([ResponseJson]) build on it. *)
From Stdlib Require Import SpecFloat.
From S2P Require Import Prelude External Hostname Clients Http OpenAiWire.
#[local] Open Scope string_scope.
#[local] Open Scope list_scope.
#[local] Open Scope Z_scope.

(** ** Values, seen from their constructors

    An object has each of its names once; a number is an integer of 64 bits or
    a floating point number. *)
Inductive json (V : Type) :=
| JNull
| JBool (b : bool)
| JInteger (z : Z)
| JFloat (x : f64)
| JString (s : string)
| JArray (l : list V)
| JObject (m : gmap string V).
Arguments JNull {V}.
Arguments JBool {V} _.
Arguments JInteger {V} _.
Arguments JFloat {V} _.
Arguments JString {V} _.
Arguments JArray {V} _.
Arguments JObject {V} _.

Class JsonView {SJ : SerdeJson} := view : Value -> json Value.
Class JsonViewLaws {SJ : SerdeJson} (JS : Json) (JV : JsonView) := {
  view_null : view value_null = JNull;
  view_bool b : view (value_bool b) = JBool b;
  view_integer z : view (value_integer z) = JInteger z;
  view_string s : view (value_string s) = JString s;
  view_array l : view (value_array l) = JArray l;
  view_object m : view (value_object m) = JObject m
}.

(** Floating point numbers.  Those of 64 bits are written as they are; those of
    32 with the fewest digits that tell them apart, so that the number read is
    another one of 64 bits that rounds to them.  What is not finite is null. *)
Class JsonFloats {SJ : SerdeJson} := {
  value_f64 : f64 -> Value;
  value_f32 : f32 -> Value
}.
Definition finite (x : spec_float) : bool :=
  match x with S754_zero _ | S754_finite _ _ _ => true | _ => false end.
Definition is_f64 (x : f64) : Prop := finite x = true.
Definition is_f32 (x : f32) : Prop := finite x = true /\ f64_as_f32 (f32_as_f64 x) = x.
Class JsonFloatsLaws {SJ : SerdeJson} (JV : JsonView) (JF : JsonFloats) := {
  view_f64 x : view (value_f64 x) = if finite x then JFloat x else JNull;
  view_f32 x : is_f32 x -> exists y, view (value_f32 x) = JFloat y /\ f64_as_f32 y = x
}.

(** ** Derived instances *)
Class FromValue {SJ : SerdeJson} (T : Type) := from_value : Value -> option T.
#[export] Hint Mode FromValue - ! : typeclass_instances.

Section derive.
Context {SJ : SerdeJson} {JV : JsonView}.

#[export] Instance value_from_value : FromValue Value := Some.
#[export] Instance string_from_value : FromValue string :=
  fun v => match view v with JString s => Some s | _ => None end.
#[export] Instance bool_from_value : FromValue bool :=
  fun v => match view v with JBool b => Some b | _ => None end.
(** [u8] to [u64] and [i8] to [i64]; a number is [usize], which is [u64], where
    nothing else is asked for. *)
Definition uint_from_value (w : Z) : FromValue Z :=
  fun v => match view v with JInteger z => if (0 <=? z) && (z <? 2 ^ w) then Some z else None | _ => None end.
Definition int_from_value (w : Z) : FromValue Z :=
  fun v => match view v with
           | JInteger z => if (- 2 ^ (w - 1) <=? z) && (z <? 2 ^ (w - 1)) then Some z else None
           | _ => None
           end.
#[export] Instance usize_from_value : FromValue Z := uint_from_value 64.
Definition u32_from_value : FromValue Z := uint_from_value 32.
#[export] Instance f64_from_value : FromValue f64 :=
  fun v => match view v with JFloat x => Some x | JInteger z => Some (f64_of_Z z) | _ => None end.
Definition f32_from_value : FromValue f32 :=
  fun v => match view v with
           | JFloat x => Some (f64_as_f32 x)
           | JInteger z => Some (binary_normalize 24 128 z 0 false)
           | _ => None
           end.
#[export] Instance list_from_value {T} `{!FromValue T} : FromValue (list T) :=
  fun v => match view v with JArray l => mapM from_value l | _ => None end.
#[export] Instance map_from_value {T} `{!FromValue T} : FromValue (gmap string T) :=
  fun v => match view v with
           | JObject m => list_to_map <$> mapM (fun kv => pair kv.1 <$> from_value kv.2) (map_to_list m)
           | _ => None
           end.
(** [(A, B)]: an array of exactly two *)
#[export] Instance pair_from_value {A B} `{!FromValue A} `{!FromValue B} : FromValue (A * B) :=
  fun v => match view v with
           | JArray [a; b] => a ← from_value a; b ← from_value b; Some (a, b)
           | _ => None
           end.
(** [Option]: also null *)
Definition nullable {T} `{!FromValue T} (v : Value) : option (option T) :=
  match view v with JNull => Some None | _ => Some <$> from_value v end.
#[export] Instance option_from_value {T} `{!FromValue T} : FromValue (option T) := nullable.

(** A struct is an object, or, unless it flattens a field, the array of its
    first fields in their order. *)
Record fields := { fields_map : gmap string Value; positional : bool }.
Definition object_fields (v : Value) : option fields :=
  match view v with JObject m => Some {| fields_map := m; positional := false |} | _ => None end.
Definition struct_fields (names : list string) (v : Value) : option fields :=
  match view v with
  | JArray l => if (length l <=? length names)%nat
                then Some {| fields_map := list_to_map (zip names l); positional := true |} else None
  | _ => object_fields v
  end.

(** A field of its own type, an [Option] (which may be missing from an object),
    and one with [#[serde(default)]]. *)
Definition required {T} `{!FromValue T} (name : string) (f : fields) : option T :=
  fields_map f !! name ≫= from_value.
Definition optional {T} `{!FromValue T} (name : string) (f : fields) : option (option T) :=
  match fields_map f !! name with
  | Some v => nullable v
  | None => if positional f then None else Some None
  end.
Definition defaulted {T} `{!FromValue T} (d : T) (name : string) (f : fields) : option T :=
  match fields_map f !! name with Some v => from_value v | None => Some d end.

(** [#[serde(deny_unknown_fields)]] and [#[serde(flatten)]] *)
Definition deny_unknown_fields (names : list string) (f : fields) : option fields :=
  if positional f || bool_decide (dom (fields_map f) ⊆ list_to_set names) then Some f else None.
Definition flatten (names : list string) (f : fields) : gmap string Value :=
  filter (fun kv => kv.1 ∉ names) (fields_map f).

(** The name of a unit variant: a string, or the one member, null, of an
    object. *)
Definition variant_name (v : Value) : option string :=
  match view v with
  | JString s => Some s
  | JObject m => match map_to_list m with
                 | [(name, content)] => match view content with JNull => Some name | _ => None end
                 | _ => None
                 end
  | _ => None
  end.
(** [#[serde(untagged)]]: the first variant that can be read. *)
Definition untagged {T} (a b : option T) : option T := match a with Some t => Some t | None => b end.
End derive.

(** ** Reading what was written *)
Section reads.
Context {SJ : SerdeJson} {JS : Json} {JV : JsonView} {JL : JsonViewLaws JS JV}.

Definition reads {T} `{!Serialize T} `{!FromValue T} (t : T) : Prop := from_value (to_value t) = Some t.
Definition not_null (v : Value) : Prop := view v <> JNull.
Definition object (m : gmap string Value) : fields := {| fields_map := m; positional := false |}.

Lemma struct_fields_object names m : struct_fields names (value_object m) = Some (object m).
Proof. unfold struct_fields, object_fields. by rewrite view_object. Qed.
Lemma object_fields_object m : object_fields (value_object m) = Some (object m).
Proof. unfold object_fields. by rewrite view_object. Qed.

(** A value that is read back also where null would do. *)
Definition readable {T} `{!Serialize T} `{!FromValue T} (t : T) : Prop := reads t /\ not_null (to_value t).

Lemma required_read {T} `{!Serialize T} `{!FromValue T} name m (t : T) :
  m !! name = Some (to_value t) -> reads t -> required name (object m) = Some t.
Proof. unfold required. simpl. by intros -> ?. Qed.
Lemma optional_read_with {T} `{!FromValue T} name m (f : T -> Value) o :
  m !! name = f <$> o -> (forall t, o = Some t -> from_value (f t) = Some t /\ not_null (f t)) ->
  optional name (object m) = Some o.
Proof.
  unfold optional, nullable, not_null. simpl. intros ->. destruct o as [t|]; [|done]. simpl.
  intros H. destruct (H t eq_refl) as [-> Hn]. by destruct (view (f t)).
Qed.
Lemma optional_read {T} `{!Serialize T} `{!FromValue T} name m (o : option T) :
  m !! name = to_value <$> o -> (forall t, o = Some t -> readable t) -> optional name (object m) = Some o.
Proof. intros Hm Ho. by eapply optional_read_with. Qed.
Lemma defaulted_read {T} `{!Serialize T} `{!FromValue T} name m d (t : T) :
  m !! name = Some (to_value t) \/ m !! name = None /\ t = d -> reads t ->
  defaulted d name (object m) = Some t.
Proof. unfold defaulted. simpl. by intros [->|[-> ->]] ?. Qed.

(** Fields of other names do not matter. *)
Lemma not_in_names (names : list string) key : key ∉ names -> Forall (fun name => name <> key) names.
Proof. intros Hk. apply Forall_forall. by intros name Hn ->. Qed.
Lemma required_delete {T} `{!FromValue T} name key m :
  name <> key -> required (T := T) name (object (delete key m)) = required name (object m).
Proof. intros H. unfold required. simpl. by rewrite lookup_delete_ne. Qed.
Lemma optional_delete {T} `{!FromValue T} name key m :
  name <> key -> optional (T := T) name (object (delete key m)) = optional name (object m).
Proof. intros H. unfold optional. simpl. by rewrite lookup_delete_ne. Qed.
Lemma defaulted_delete {T} `{!FromValue T} (d : T) name key m :
  name <> key -> defaulted d name (object (delete key m)) = defaulted d name (object m).
Proof. intros H. unfold defaulted. simpl. by rewrite lookup_delete_ne. Qed.

Lemma reads_string (s : string) : reads s.
Proof. unfold reads, from_value, string_from_value, to_value, string_serialize. by rewrite view_string. Qed.
Lemma reads_bool b : from_value (value_bool b) = Some b.
Proof. unfold from_value, bool_from_value. by rewrite view_bool. Qed.
Lemma reads_uint w z : 0 <= z < 2 ^ w -> from_value (FromValue := uint_from_value w) (value_integer z) = Some z.
Proof.
  intros Hz. unfold from_value, uint_from_value. rewrite view_integer.
  by rewrite (proj2 (Z.leb_le _ _)), (proj2 (Z.ltb_lt _ _)) by lia.
Qed.
Lemma reads_int w z :
  - 2 ^ (w - 1) <= z < 2 ^ (w - 1) -> from_value (FromValue := int_from_value w) (value_integer z) = Some z.
Proof.
  intros Hz. unfold from_value, int_from_value. rewrite view_integer.
  by rewrite (proj2 (Z.leb_le _ _)), (proj2 (Z.ltb_lt _ _)) by lia.
Qed.
Lemma reads_usize z : 0 <= z < 2 ^ 64 -> from_value (value_integer z) = Some z.
Proof. apply reads_uint. Qed.
Lemma mapM_reads {T} `{!Serialize T} `{!FromValue T} (l : list T) :
  Forall reads l -> mapM from_value (to_value <$> l) = Some l.
Proof. intros H. apply mapM_Some, Forall2_fmap_l. by apply Forall_Forall2_diag. Qed.
Lemma reads_list {T} `{!Serialize T} `{!FromValue T} (l : list T) : Forall reads l -> reads l.
Proof.
  intros H. unfold reads, from_value, list_from_value, to_value, list_serialize. rewrite view_array.
  by apply mapM_reads.
Qed.
Lemma reads_map (m : gmap string Value) : reads m.
Proof.
  unfold reads, from_value, map_from_value, to_value, map_serialize. rewrite view_object.
  replace (mapM _ (map_to_list m)) with (Some (map_to_list m)).
  - simpl. by rewrite list_to_map_to_list.
  - symmetry. apply mapM_Some, Forall_Forall2_diag, Forall_forall. by intros [k v].
Qed.

Lemma string_not_null s : not_null (value_string s).
Proof. unfold not_null. by rewrite view_string. Qed.
Lemma bool_not_null b : not_null (value_bool b).
Proof. unfold not_null. by rewrite view_bool. Qed.
Lemma integer_not_null z : not_null (value_integer z).
Proof. unfold not_null. by rewrite view_integer. Qed.
Lemma array_not_null l : not_null (value_array l).
Proof. unfold not_null. by rewrite view_array. Qed.
Lemma object_not_null m : not_null (value_object m).
Proof. unfold not_null. by rewrite view_object. Qed.
Lemma readable_string (s : string) : readable s.
Proof. split; [apply reads_string|apply string_not_null]. Qed.
Lemma readable_list {T} `{!Serialize T} `{!FromValue T} (l : list T) : Forall reads l -> readable l.
Proof. split; [by apply reads_list|apply array_not_null]. Qed.
End reads.

Create HintDb json.
#[export] Hint Resolve reads_string readable_string readable_list reads_bool reads_map string_not_null bool_not_null integer_not_null
  array_not_null object_not_null : json.

Lemma lookup_nonempty_field {SJ : SerdeJson} {JS : Json} name s key :
  nonempty_field name s !! key = if decide (key = name) then (if str_is_empty s then None else Some (value_string s))
                                 else None.
Proof.
  unfold nonempty_field. destruct (str_is_empty s); [rewrite lookup_empty; by case_decide|apply lookup_field].
Qed.
(** ** Round trips by type

    [valid] says which values of a type are read back as they are when they are
    written; [RoundTrip] that they are. *)
Class Valid (T : Type) := valid : T -> Prop.
#[export] Hint Mode Valid ! : typeclass_instances.
Class RoundTrip {SJ : SerdeJson} (T : Type) `{!Serialize T} `{!FromValue T} `{!Valid T} :=
  round_trip : forall t : T, valid t -> reads t.
Class NeverNull {SJ : SerdeJson} {JV : JsonView} (T : Type) `{!Serialize T} :=
  never_null : forall t : T, not_null (to_value t).

(** Fields that are an [Option] and may not be skipped, fields that are skipped
    when empty, and maps of other things than values. *)
Section fields.
Context {SJ : SerdeJson} {JS : Json}.

#[export] Instance option_serialize {T} `{!Serialize T} : Serialize (option T) :=
  fun o => match o with Some t => to_value t | None => value_null end.
Definition list_field {T} `{!Serialize T} (name : string) (l : list T) : gmap string Value :=
  match l with [] => ∅ | _ => field name l end.
Definition map_field (name : string) (m : gmap string Value) : gmap string Value :=
  if decide (m = ∅) then ∅ else field name m.
Definition map_value {T} (f : T -> Value) (m : gmap string T) : Value := value_object (f <$> m).

Lemma lookup_list_field {T} `{!Serialize T} name (l : list T) key :
  list_field name l !! key = if decide (key = name) then match l with [] => None | _ => Some (to_value l) end
                             else None.
Proof. destruct l; [simpl; rewrite lookup_empty; by case_decide|apply lookup_field]. Qed.
Lemma lookup_map_field name (m : gmap string Value) key :
  map_field name m !! key = if decide (key = name) then (if decide (m = ∅) then None else Some (to_value m))
                            else None.
Proof. unfold map_field. destruct (decide (m = ∅)); [rewrite lookup_empty; by case_decide|apply lookup_field]. Qed.
End fields.

Lemma none_union {A} (x : option A) : None ∪ x = x.
Proof. by destruct x. Qed.
Lemma union_none {A} (x : option A) : x ∪ None = x.
Proof. by destruct x. Qed.

(** The value of a field in a union of fields with different names. *)
Ltac lookup_fields :=
  rewrite ?lookup_union, ?lookup_optional_field, ?lookup_field, ?lookup_nonempty_field, ?lookup_list_field,
    ?lookup_map_field, ?lookup_empty;
  repeat first [rewrite decide_True by done|rewrite decide_False by done];
  rewrite ?none_union, ?union_none.

Section round_trips.
Context {SJ : SerdeJson} {JS : Json} {JV : JsonView} {JL : JsonViewLaws JS JV}.

#[export] Instance string_valid : Valid string := fun _ => True.
#[export] Instance list_valid {T} `{!Valid T} : Valid (list T) := Forall valid.
#[export] Instance option_valid {T} `{!Valid T} : Valid (option T) := from_option valid True.

#[export] Instance string_round_trip : RoundTrip string.
Proof. intros s _. apply reads_string. Qed.
#[export] Instance string_never_null : NeverNull string.
Proof. intros s. apply string_not_null. Qed.
#[export] Instance list_round_trip {T} `{!Serialize T} `{!FromValue T} `{!Valid T} `{!RoundTrip T} :
  RoundTrip (list T).
Proof. intros l Hl. apply reads_list. eapply Forall_impl; [exact Hl|apply round_trip]. Qed.
#[export] Instance list_never_null {T} `{!Serialize T} : NeverNull (list T).
Proof. intros l. apply array_not_null. Qed.

Lemma nullable_read {T} `{!FromValue T} (v : Value) (t : T) :
  from_value v = Some t -> not_null v -> nullable v = Some (Some t).
Proof. unfold nullable, not_null. intros -> Hn. by destruct (view v). Qed.
#[export] Instance option_round_trip {T} `{!Serialize T} `{!FromValue T} `{!Valid T} `{!RoundTrip T} `{!NeverNull T} :
  RoundTrip (option T).
Proof.
  intros [t|] Ht.
  - apply (nullable_read (to_value t)); [by apply round_trip|apply never_null].
  - unfold reads, from_value, option_from_value, nullable, to_value, option_serialize. by rewrite view_null.
Qed.

(** Fields of a written struct. *)
Lemma required_valid {T} `{!Serialize T} `{!FromValue T} `{!Valid T} `{!RoundTrip T} name m (t : T) :
  m !! name = Some (to_value t) -> valid t -> required name (object m) = Some t.
Proof. intros Hm Ht. apply required_read; [done|by apply round_trip]. Qed.
Lemma defaulted_valid {T} `{!Serialize T} `{!FromValue T} `{!Valid T} `{!RoundTrip T} name m d (t : T) :
  m !! name = Some (to_value t) -> valid t -> defaulted d name (object m) = Some t.
Proof. intros Hm Ht. apply defaulted_read; [by left|by apply round_trip]. Qed.
Lemma optional_valid {T} `{!Serialize T} `{!FromValue T} `{!Valid T} `{!RoundTrip T} `{!NeverNull T} name m
    (o : option T) :
  m !! name = to_value <$> o -> valid o -> optional name (object m) = Some o.
Proof.
  intros Hm Ho. eapply optional_read; [exact Hm|]. intros t ->. split; [by apply round_trip|apply never_null].
Qed.
Lemma nullable_valid {T} `{!Serialize T} `{!FromValue T} `{!Valid T} `{!RoundTrip T} `{!NeverNull T} name m
    (o : option T) :
  m !! name = Some (to_value o) -> valid o -> optional name (object m) = Some o.
Proof. unfold optional. simpl. intros -> Ho. exact (option_round_trip o Ho). Qed.
Lemma defaulted_list_valid {T} `{!Serialize T} `{!FromValue T} `{!Valid T} `{!RoundTrip T} name m (l : list T) :
  m !! name = match l with [] => None | _ => Some (to_value l) end -> valid l ->
  defaulted [] name (object m) = Some l.
Proof.
  intros Hm Hl. apply defaulted_read; [|by apply (round_trip (T := list T))]. rewrite Hm. destruct l; [by right|by left].
Qed.
Lemma defaulted_map_valid name m (l : gmap string Value) :
  m !! name = (if decide (l = ∅) then None else Some (to_value l)) ->
  defaulted ∅ name (object m) = Some l.
Proof. intros Hm. apply defaulted_read; [|apply reads_map]. rewrite Hm. case_decide; [by right|by left]. Qed.

(** Fields of a type written by [f] and read by [R]: numbers, and containers
    of numbers. *)
Definition codes {T} (R : FromValue T) (f : T -> Value) (t : T) : Prop :=
  from_value (FromValue := R) (f t) = Some t /\ not_null (f t).
Lemma required_codes {T} {R : FromValue T} (f : T -> Value) name m t :
  m !! name = Some (to_value (f t)) -> codes R f t -> required (FromValue0 := R) name (object m) = Some t.
Proof. unfold required. simpl. by intros -> [? _]. Qed.
Lemma optional_codes {T} {R : FromValue T} (f : T -> Value) name m o :
  m !! name = to_value <$> (f <$> o) -> from_option (codes R f) True o ->
  optional (FromValue0 := R) name (object m) = Some o.
Proof.
  unfold optional. simpl. intros ->. destruct o as [t|]; [|done]. intros [? ?]. by apply nullable_read.
Qed.
Lemma nullable_codes {T} {R : FromValue T} (f : T -> Value) name m o :
  m !! name = Some (to_value (f <$> o)) -> from_option (codes R f) True o ->
  optional (FromValue0 := R) name (object m) = Some o.
Proof.
  unfold optional. simpl. intros ->. destruct o as [t|]; simpl.
  - intros [? ?]. by apply nullable_read.
  - intros _. unfold nullable, to_value, option_serialize. by rewrite view_null.
Qed.

Definition is_uint (w z : Z) : Prop := 0 <= z < 2 ^ w.
Definition is_int (w z : Z) : Prop := - 2 ^ (w - 1) <= z < 2 ^ (w - 1).
Lemma codes_uint w z : is_uint w z -> codes (uint_from_value w) value_integer z.
Proof. intros. split; [by apply reads_uint|apply integer_not_null]. Qed.
Lemma codes_usize z : is_uint 64 z -> codes usize_from_value value_integer z.
Proof. apply codes_uint. Qed.
Lemma codes_u32 z : is_uint 32 z -> codes u32_from_value value_integer z.
Proof. apply codes_uint. Qed.
Lemma codes_int w z : is_int w z -> codes (int_from_value w) value_integer z.
Proof. intros. split; [by apply reads_int|apply integer_not_null]. Qed.
Lemma codes_list {T} (R : FromValue T) (f : T -> Value) (l : list T) :
  Forall (fun t => from_value (FromValue := R) (f t) = Some t) l -> codes (list_from_value (FromValue0 := R)) (fun l => value_array (f <$> l)) l.
Proof.
  intros H. split; [|apply array_not_null]. unfold from_value at 1, list_from_value. rewrite view_array.
  by apply mapM_Some, Forall2_fmap_l, Forall_Forall2_diag.
Qed.
Lemma codes_map {T} (R : FromValue T) (f : T -> Value) (m : gmap string T) :
  map_Forall (fun _ => codes R f) m -> codes (map_from_value (FromValue0 := R)) (map_value f) m.
Proof.
  intros H. split; [|apply object_not_null]. unfold from_value at 1, map_from_value, map_value. rewrite view_object.
  replace (mapM _ (map_to_list (f <$> m))) with (Some (map_to_list m)); [by rewrite <- (list_to_map_to_list m) at 2|].
  symmetry. apply mapM_Some. rewrite map_to_list_fmap. apply Forall2_fmap_l, Forall_Forall2_diag, Forall_forall.
  intros [k t] Hkt%elem_of_map_to_list. simpl. by destruct (H k t Hkt) as [-> _].
Qed.
Lemma codes_uints w l :
  Forall (is_uint w) l ->
  codes (list_from_value (FromValue0 := uint_from_value w)) (fun l => value_array (value_integer <$> l)) l.
Proof. intros H. apply codes_list. eapply Forall_impl; [exact H|apply reads_uint]. Qed.
Lemma codes_u32s l :
  Forall (is_uint 32) l ->
  codes (list_from_value (FromValue0 := u32_from_value)) (fun l => value_array (value_integer <$> l)) l.
Proof. apply codes_uints. Qed.
Lemma codes_to_value {T} `{!Serialize T} `{!FromValue T} `{!Valid T} `{!RoundTrip T} `{!NeverNull T} (t : T) :
  valid t -> codes _ to_value t.
Proof. intros. split; [by apply round_trip|apply never_null]. Qed.

Context {JF : JsonFloats} {JFL : JsonFloatsLaws JV JF}.
Lemma codes_f64 x : is_f64 x -> codes f64_from_value value_f64 x.
Proof.
  unfold is_f64. intros Hx. split.
  - unfold from_value, f64_from_value. by rewrite view_f64, Hx.
  - unfold not_null. by rewrite view_f64, Hx.
Qed.
Lemma codes_f32 x : is_f32 x -> codes f32_from_value value_f32 x.
Proof.
  intros (y & Hy & <-)%view_f32. split.
  - unfold from_value, f32_from_value. by rewrite Hy.
  - unfold not_null. by rewrite Hy.
Qed.
Lemma codes_f32s l :
  Forall is_f32 l -> codes (list_from_value (FromValue0 := f32_from_value)) (fun l => value_array (value_f32 <$> l)) l.
Proof. intros H. apply codes_list. eapply Forall_impl; [exact H|]. by intros x []%codes_f32. Qed.
Lemma from_option_impl {A} (P Q : A -> Prop) o :
  (forall a, P a -> Q a) -> from_option P True o -> from_option Q True o.
Proof. destruct o; simpl; auto. Qed.
End round_trips.
#[export] Hint Resolve codes_uint codes_usize codes_u32 codes_int codes_uints codes_u32s codes_map codes_f64
  codes_f32 codes_f32s : json.

(** Reads a written struct field by field: numbers and lists of them, and fields of
    types that round trip. *)
Ltac field_ok := first [assumption|exact I|by auto with json|by (eapply from_option_impl; [|eassumption]; auto with json)].
Ltac read_codes f :=
  first [erewrite (required_codes f); [|by lookup_fields|field_ok]
        |erewrite (optional_codes f); [|by lookup_fields|field_ok]
        |erewrite (nullable_codes f); [|by lookup_fields|field_ok]].
Ltac read_as T R :=
  lazymatch T with
  | Z => let f := constr:(value_integer) in read_codes f
  | list Z => let f := constr:(fun l => value_array (value_integer <$> l)) in read_codes f
  | _ =>
      lazymatch R with
      | f64_from_value => let f := constr:(value_f64) in read_codes f
      | f32_from_value => let f := constr:(value_f32) in read_codes f
      | list_from_value (FromValue0 := f32_from_value) =>
          let f := constr:(fun l => value_array (value_f32 <$> l)) in read_codes f
      | _ =>
          first [erewrite required_valid; [|by lookup_fields|field_ok]
                |erewrite optional_valid; [|by lookup_fields|field_ok]
                |erewrite nullable_valid; [|by lookup_fields|field_ok]
                |erewrite defaulted_list_valid; [|by lookup_fields|field_ok]
                |erewrite defaulted_valid; [|by lookup_fields|field_ok]
                |erewrite defaulted_map_valid; [|by lookup_fields]]
      end
  end.
Ltac read_field :=
  lazymatch goal with
  | |- context [required (T := ?T) (FromValue0 := ?R) _ (object _)] => read_as T R
  | |- context [optional (T := ?T) (FromValue0 := ?R) _ (object _)] => read_as T R
  | |- context [defaulted (T := ?T) (FromValue0 := ?R) _ _ (object _)] => read_as T R
  end;
  cbn [mbind option_bind].

(** ** A concrete view
    Of the JSON library whose values are trees: a floating point number is a
    node of its sign, mantissa and exponent. *)
Section tree_view.
#[local] Existing Instance tree_json.
#[local] Existing Instance tree_values.

Definition tree_float (x : f64) : tree :=
  match x with
  | S754_zero s => GenNode 2 [GenLeaf (inl (inl (inr s)))]
  | S754_finite s m e => GenNode 2 [GenLeaf (inl (inl (inr s))); GenLeaf (inl (inr (Zpos m))); GenLeaf (inl (inr e))]
  | _ => GenLeaf (inl (inl (inl ())))
  end.
Definition tree_view : JsonView := fun v : tree =>
  match v with
  | GenLeaf (inl (inl (inl ()))) => JNull
  | GenLeaf (inl (inl (inr b))) => JBool b
  | GenLeaf (inl (inr z)) => JInteger z
  | GenLeaf (inr s) => JString s
  | GenNode 0 l => JArray l
  | GenNode 1 l => JObject (list_to_map (tree_members l) : gmap string tree)
  | GenNode _ [GenLeaf (inl (inl (inr s)))] => JFloat (S754_zero s)
  | GenNode _ [GenLeaf (inl (inl (inr s))); GenLeaf (inl (inr (Zpos m))); GenLeaf (inl (inr e))] =>
      JFloat (S754_finite s m e)
  | _ => JFloat f64_zero
  end.
Lemma tree_view_laws : JsonViewLaws tree_values tree_view.
Proof.
  split; [done..|]. intros m.
  change (JObject (V := tree) (list_to_map (tree_members (tree_member <$> map_to_list m))) = JObject m).
  by rewrite tree_members_fmap, list_to_map_to_list.
Qed.

Definition tree_floats : JsonFloats := {|
  value_f64 := tree_float : f64 -> @Value tree_json;
  value_f32 := fun x => tree_float (f32_as_f64 x)
|}.
Lemma tree_floats_laws : JsonFloatsLaws tree_view tree_floats.
Proof.
  assert (H : forall x, view (JsonView := tree_view) (tree_float x) = if finite x then JFloat x else JNull) by
    by intros [].
  split; [exact H|]. intros x [Hx E]. exists (f32_as_f64 x). split; [|exact E].
  simpl. rewrite H. destruct (f32_as_f64 x); [done| |..]; simpl in E; subst; done.
Qed.
End tree_view.
