(* ===== verification/RequestJson.v ===== *)
(** * Requests as JSON

    What the bodies of the callers' requests are read as: the derived
    [Deserialize] instances of the request types of src/clients/openai.rs and
    src/models.rs, from their serde attributes, over
    a view of serde_json's values.  [None] is a refused body; the texts of
    serde's errors are not modelled.  The last section relates the body of a
    chat completion to the one that is sent on. *)
From S2P Require Import Prelude External Errors Utf8 Hostname Config Detection Clients OpenAi Chunk Models Utils Tasks.
From S2P Require Import Http OpenAiWire DetectorWire Serde.
#[local] Open Scope string_scope.
#[local] Open Scope list_scope.
#[local] Open Scope Z_scope.

Section derive.
Context {SJ : SerdeJson} {JV : JsonView}.

(** ** The types of clients/openai.rs *)
Definition role_names : list (string * Role) :=
  [("user", User); ("developer", Developer); ("assistant", Assistant); ("system", System); ("tool", ToolRole)].
#[export] Instance role_from_value : FromValue Role :=
  fun v => name ← variant_name v; (list_to_map role_names : gmap string Role) !! name.

#[export] Instance content_type_from_value : FromValue ContentType :=
  fun v => name ← variant_name v;
           if decide (name = "text") then Some ContentText
           else if decide (name = "image_url") then Some ContentImageUrl else None.

#[export] Instance image_url_from_value : FromValue ImageUrl := fun v =>
  f ← struct_fields ["url"; "detail"] v;
  url ← required "url" f; detail ← optional "detail" f;
  Some {| image_url_url := url; image_url_detail := detail |}.

#[export] Instance content_part_from_value : FromValue ContentPart := fun v =>
  f ← struct_fields ["type"; "text"; "image_url"; "refusal"] v;
  type ← required "type" f; text ← optional "text" f; image_url ← optional "image_url" f;
  refusal ← optional "refusal" f;
  Some {| part_type := type; part_text := text; part_image_url := image_url; part_refusal := refusal |}.

#[export] Instance content_from_value : FromValue Content := fun v =>
  untagged (Text <$> from_value v) (Array <$> from_value v).

#[export] Instance function_from_value : FromValue Function_ := fun v =>
  f ← struct_fields ["name"; "arguments"] v;
  name ← defaulted "" "name" f; arguments ← defaulted "" "arguments" f;
  Some {| function_name := name; function_arguments := arguments |}.

#[export] Instance custom_from_value : FromValue Custom := fun v =>
  f ← struct_fields ["name"; "input"] v;
  name ← defaulted "" "name" f; input ← defaulted "" "input" f;
  Some {| custom_name := name; custom_input := input |}.

#[export] Instance tool_call_from_value : FromValue ToolCall := fun v =>
  f ← struct_fields ["index"; "id"; "type"; "function"; "custom"] v;
  index ← optional "index" f; id ← defaulted "" "id" f; type ← defaulted "" "type" f;
  function ← optional "function" f; custom ← optional "custom" f;
  Some {| tool_call_index := index; tool_call_id := id; tool_call_type := type;
          tool_call_function := function; tool_call_custom := custom |}.

Definition message_names : list string :=
  ["role"; "content"; "name"; "refusal"; "tool_calls"; "tool_call_id"; "reasoning_content"].
#[export] Instance message_from_value : FromValue Message := fun v =>
  f ← struct_fields message_names v;
  role ← required "role" f; content ← optional "content" f; name ← optional "name" f;
  refusal ← optional "refusal" f; tool_calls ← optional "tool_calls" f; tool_call_id ← optional "tool_call_id" f;
  reasoning_content ← optional "reasoning_content" f;
  Some {| msg_role := role; msg_content := content; msg_name := name; msg_refusal := refusal;
          msg_tool_calls := tool_calls; msg_tool_call_id := tool_call_id;
          msg_reasoning_content := reasoning_content |}.

#[export] Instance function_definition_from_value : FromValue FunctionDefinition := fun v =>
  f ← struct_fields ["name"; "description"; "parameters"; "strict"] v;
  name ← required "name" f; description ← optional "description" f; parameters ← defaulted ∅ "parameters" f;
  strict ← optional "strict" f;
  Some {| fn_name := name; fn_description := description; fn_parameters := parameters; fn_strict := strict |}.

#[export] Instance custom_definition_from_value : FromValue CustomDefinition := fun v =>
  f ← struct_fields ["name"; "description"; "format"] v;
  name ← required "name" f; description ← optional "description" f; format ← optional "format" f;
  Some {| cd_name := name; cd_description := description; cd_format := format |}.

#[export] Instance tool_from_value : FromValue Tool := fun v =>
  untagged
    (f ← struct_fields ["type"; "function"] v; type ← required "type" f; function ← required "function" f;
     Some (ToolFunction {| ft_type := type; ft_function := function |}))
    (f ← struct_fields ["type"; "custom"] v; type ← required "type" f; custom ← required "custom" f;
     Some (ToolCustom {| ct_type := type; ct_custom := custom |})).

#[export] Instance detectors_from_value : FromValue RequestDetectors := fun v =>
  f ← struct_fields ["input"; "output"] v; f ← deny_unknown_fields ["input"; "output"] f;
  input ← defaulted ∅ "input" f; output ← defaulted ∅ "output" f;
  Some {| rd_input := input; rd_output := output |}.
Definition no_detectors : RequestDetectors := {| rd_input := ∅; rd_output := ∅ |}.

Definition chat_request_names : list string := ["detectors"; "stream"; "model"; "messages"; "tools"].
#[export] Instance chat_request_from_value : FromValue ChatCompletionsRequest := fun v =>
  f ← object_fields v;
  detectors ← defaulted no_detectors "detectors" f; stream ← optional "stream" f; model ← required "model" f;
  messages ← required "messages" f; tools ← optional "tools" f;
  Some {| ccr_detectors := detectors; ccr_stream := stream; ccr_model := model; ccr_messages := messages;
          ccr_tools := tools; ccr_extra := flatten chat_request_names f |}.

Definition completions_request_names : list string := ["detectors"; "_prompt_masks"; "stream"; "model"; "prompt"].
#[export] Instance completions_request_from_value : FromValue CompletionsRequest := fun v =>
  f ← object_fields v;
  detectors ← defaulted no_detectors "detectors" f; prompt_masks ← optional "_prompt_masks" f;
  stream ← optional "stream" f; model ← required "model" f; prompt ← required "prompt" f;
  Some {| cr_detectors := detectors; cr_prompt_masks := prompt_masks; cr_stream := stream; cr_model := model;
          cr_prompt := prompt; cr_extra := flatten completions_request_names f |}.

(** ** The requests of models.rs *)
#[export] Instance length_penalty_from_value : FromValue ExponentialDecayLengthPenalty := fun v =>
  f ← struct_fields ["start_index"; "decay_factor"] v;
  start_index ← optional (FromValue0 := u32_from_value) "start_index" f; decay_factor ← optional "decay_factor" f;
  Some {| edlp_start_index := start_index; edlp_decay_factor := decay_factor |}.

#[export] Instance text_gen_parameters_from_value : FromValue GuardrailsTextGenerationParameters := fun v =>
  f ← struct_fields ["max_new_tokens"; "min_new_tokens"; "truncate_input_tokens"; "decoding_method"; "top_k"; "top_p";
                     "typical_p"; "temperature"; "repetition_penalty"; "max_time"; "exponential_decay_length_penalty";
                     "stop_sequences"; "seed"; "preserve_input_text"; "input_tokens"; "generated_tokens";
                     "token_logprobs"; "token_ranks"; "include_stop_sequence"] v;
  max_new_tokens ← optional (FromValue0 := u32_from_value) "max_new_tokens" f;
  min_new_tokens ← optional (FromValue0 := u32_from_value) "min_new_tokens" f;
  truncate_input_tokens ← optional (FromValue0 := u32_from_value) "truncate_input_tokens" f;
  decoding_method ← optional "decoding_method" f;
  top_k ← optional (FromValue0 := u32_from_value) "top_k" f;
  top_p ← optional "top_p" f; typical_p ← optional "typical_p" f; temperature ← optional "temperature" f;
  repetition_penalty ← optional "repetition_penalty" f; max_time ← optional "max_time" f;
  exponential_decay_length_penalty ← optional "exponential_decay_length_penalty" f;
  stop_sequences ← optional "stop_sequences" f;
  seed ← optional (FromValue0 := u32_from_value) "seed" f;
  preserve_input_text ← optional "preserve_input_text" f; input_tokens ← optional "input_tokens" f;
  generated_tokens ← optional "generated_tokens" f; token_logprobs ← optional "token_logprobs" f;
  token_ranks ← optional "token_ranks" f; include_stop_sequence ← optional "include_stop_sequence" f;
  Some {| tg_max_new_tokens := max_new_tokens; tg_min_new_tokens := min_new_tokens;
          tg_truncate_input_tokens := truncate_input_tokens; tg_decoding_method := decoding_method;
          tg_top_k := top_k; tg_top_p := top_p; tg_typical_p := typical_p; tg_temperature := temperature;
          tg_repetition_penalty := repetition_penalty; tg_max_time := max_time;
          tg_exponential_decay_length_penalty := exponential_decay_length_penalty;
          tg_stop_sequences := stop_sequences; tg_seed := seed; tg_preserve_input_text := preserve_input_text;
          tg_input_tokens := input_tokens; tg_generated_tokens := generated_tokens;
          tg_token_logprobs := token_logprobs; tg_token_ranks := token_ranks;
          tg_include_stop_sequence := include_stop_sequence |}.

(** The parts of a guardrails configuration may all be missing, and anything
    else in it is ignored. *)
#[export] Instance guardrails_input_from_value : FromValue GuardrailsConfigInput := fun v =>
  f ← struct_fields ["models"; "masks"] v;
  models ← required "models" f; masks ← optional "masks" f;
  Some {| gci_models := models; gci_masks := masks |}.
#[export] Instance guardrails_output_from_value : FromValue GuardrailsConfigOutput := fun v =>
  f ← struct_fields ["models"] v; models ← required "models" f; Some {| gco_models := models |}.
#[export] Instance guardrails_config_from_value : FromValue GuardrailsConfig := fun v =>
  f ← struct_fields ["input"; "output"] v;
  input ← optional "input" f; output ← optional "output" f;
  Some {| gc_input := input; gc_output := output |}.

#[export] Instance guardrails_request_from_value : FromValue GuardrailsHttpRequest := fun v =>
  let names := ["model_id"; "inputs"; "guardrail_config"; "text_gen_parameters"] in
  f ← struct_fields names v; f ← deny_unknown_fields names f;
  model_id ← required "model_id" f; inputs ← required "inputs" f;
  guardrail_config ← optional "guardrail_config" f; text_gen_parameters ← optional "text_gen_parameters" f;
  Some {| gr_model_id := model_id; gr_inputs := inputs; gr_guardrail_config := guardrail_config;
          gr_text_gen_parameters := text_gen_parameters |}.

#[export] Instance generation_with_detection_from_value : FromValue GenerationWithDetectionHttpRequest := fun v =>
  let names := ["model_id"; "prompt"; "detectors"; "text_gen_parameters"] in
  f ← struct_fields names v; f ← deny_unknown_fields names f;
  model_id ← required "model_id" f; prompt ← required "prompt" f; detectors ← required "detectors" f;
  text_gen_parameters ← optional "text_gen_parameters" f;
  Some {| gd_model_id := model_id; gd_prompt := prompt; gd_detectors := detectors;
          gd_text_gen_parameters := text_gen_parameters |}.

#[export] Instance text_content_from_value : FromValue TextContentDetectionHttpRequest := fun v =>
  f ← struct_fields ["content"; "detectors"] v; f ← deny_unknown_fields ["content"; "detectors"] f;
  content ← required "content" f; detectors ← required "detectors" f;
  Some {| tc_content := content; tc_detectors := detectors |}.

#[export] Instance context_type_from_value : FromValue ContextType :=
  fun v => name ← variant_name v;
           if decide (name = "docs") then Some Document else if decide (name = "url") then Some Models.Url else None.
#[export] Instance context_docs_from_value : FromValue ContextDocsHttpRequest := fun v =>
  let names := ["detectors"; "content"; "context_type"; "context"] in
  f ← struct_fields names v; f ← deny_unknown_fields names f;
  detectors ← required "detectors" f; content ← required "content" f; context_type ← required "context_type" f;
  context ← required "context" f;
  Some {| cd_detectors := detectors; cd_content := content; cd_context_type := context_type;
          cd_context := context |}.

#[export] Instance chat_detection_from_value : FromValue ChatDetectionHttpRequest := fun v =>
  let names := ["detectors"; "messages"; "tools"] in
  f ← struct_fields names v; f ← deny_unknown_fields names f;
  detectors ← required "detectors" f; messages ← required "messages" f; tools ← defaulted [] "tools" f;
  Some {| ch_detectors := detectors; ch_messages := messages; ch_tools := tools |}.

#[export] Instance detection_on_generated_from_value : FromValue DetectionOnGeneratedHttpRequest := fun v =>
  let names := ["prompt"; "generated_text"; "detectors"] in
  f ← struct_fields names v; f ← deny_unknown_fields names f;
  prompt ← required "prompt" f; generated_text ← required "generated_text" f; detectors ← required "detectors" f;
  Some {| dg_prompt := prompt; dg_generated_text := generated_text; dg_detectors := detectors |}.

#[export] Instance streaming_content_from_value : FromValue StreamingContentDetectionRequest := fun v =>
  let names := ["detectors"; "content"] in
  f ← struct_fields names v; f ← deny_unknown_fields names f;
  detectors ← optional "detectors" f; content ← required "content" f;
  Some {| sc_detectors := detectors; sc_content := content |}.
End derive.

(** ** Round trips of messages and tools *)
Section openai_reads.
Context {SJ : SerdeJson} {JS : Json} {JV : JsonView} {JL : JsonViewLaws JS JV}.

Lemma variant_name_string s : variant_name (value_string s) = Some s.
Proof. unfold variant_name. by rewrite view_string. Qed.
Lemma reads_role (r : Role) : reads r.
Proof. unfold reads, from_value, role_from_value, to_value, role_serialize, role_value. rewrite variant_name_string. by destruct r. Qed.
Lemma reads_content_type (t : ContentType) : reads t.
Proof.
  unfold reads, from_value, content_type_from_value, to_value, content_type_serialize, content_type_value.
  rewrite variant_name_string. by destruct t.
Qed.

Lemma nonempty_field_read m name (s : string) :
  m !! name = (if str_is_empty s then None else Some (value_string s)) ->
  defaulted "" name (object m) = Some s.
Proof.
  intros E. apply defaulted_read; [|auto with json]. rewrite E. destruct s; [by right|by left].
Qed.

Ltac read_fields :=
  cbn [mbind option_bind];
  repeat (first [erewrite required_read; [|by lookup_fields|by eauto with json]
                |erewrite optional_read; [|by lookup_fields|by eauto with json]
                |erewrite nonempty_field_read; [|by lookup_fields]
                |erewrite defaulted_read; [|left; by lookup_fields|by eauto with json]]; cbn [mbind option_bind]).
Ltac read_struct := rewrite struct_fields_object; read_fields.

(** Indices are [usize]s, and a format that is null is not read as one. *)
Definition tool_call_ok (c : ToolCall) : Prop := forall i, tool_call_index c = Some i -> 0 <= i < 2 ^ 64.
Definition message_ok (m : Message) : Prop := forall l, msg_tool_calls m = Some l -> Forall tool_call_ok l.
Definition tool_ok (t : Tool) : Prop :=
  match t with
  | ToolFunction _ => True
  | ToolCustom t => forall v, cd_format (ct_custom t) = Some v -> not_null v
  end.

Lemma reads_image_url (u : ImageUrl) : reads u.
Proof.
  destruct u. unfold reads, to_value, image_url_serialize, image_url_value, from_value, image_url_from_value.
  by read_struct.
Qed.
Lemma readable_image_url (u : ImageUrl) : readable u.
Proof. split; [apply reads_image_url|apply object_not_null]. Qed.
#[local] Hint Resolve reads_role reads_content_type readable_image_url : json.

Lemma reads_content_part (p : ContentPart) : reads p.
Proof.
  destruct p. unfold reads, to_value, content_part_serialize, content_part_value, from_value, content_part_from_value.
  by read_struct.
Qed.
Lemma reads_content (c : Content) : reads c.
Proof.
  unfold reads, from_value, content_from_value, to_value, content_serialize, content_value. destruct c as [text|parts].
  - rewrite (reads_string text). done.
  - rewrite (reads_list parts) by (apply Forall_forall; intros; apply reads_content_part).
    unfold from_value, string_from_value, to_value, list_serialize. by rewrite view_array.
Qed.
Lemma readable_content (c : Content) : readable c.
Proof. split; [apply reads_content|]. destruct c; [apply string_not_null|apply array_not_null]. Qed.

Lemma readable_function (f : Function_) : readable f.
Proof.
  split; [|apply object_not_null]. destruct f.
  unfold reads, to_value, function_serialize, function_value, from_value, function_from_value. by read_struct.
Qed.
Lemma readable_custom (c : Custom) : readable c.
Proof.
  split; [|apply object_not_null]. destruct c.
  unfold reads, to_value, custom_serialize, custom_value, from_value, custom_from_value. by read_struct.
Qed.
#[local] Hint Resolve readable_content readable_function readable_custom : json.

Lemma reads_tool_call (c : ToolCall) : tool_call_ok c -> reads c.
Proof.
  intros Hc. destruct c as [index id ty fn cu]. unfold tool_call_ok in Hc. simpl in Hc.
  unfold reads, to_value, tool_call_serialize, tool_call_value, from_value, tool_call_from_value.
  rewrite struct_fields_object. cbn [mbind option_bind].
  erewrite (optional_read_with _ _ value_integer index);
    [|lookup_fields; by destruct index|intros i Hi; split; [by apply reads_usize, Hc|apply integer_not_null]].
  by read_fields.
Qed.

Lemma reads_message (m : Message) : message_ok m -> reads m.
Proof.
  intros Hm. destruct m as [role content name refusal calls id reasoning]. unfold message_ok in Hm. simpl in Hm.
  assert (Hcalls : forall l, calls = Some l -> readable l).
  { intros l Hl. apply readable_list. eapply Forall_impl; [by apply Hm|apply reads_tool_call]. }
  unfold reads, to_value, message_serialize, message_value, from_value, message_from_value. by read_struct.
Qed.

#[export] Instance role_valid : Valid Role := fun _ => True.
#[export] Instance role_round_trip : RoundTrip Role.
Proof. intros r _. apply reads_role. Qed.
#[export] Instance role_never_null : NeverNull Role.
Proof. intros r. apply string_not_null. Qed.
#[export] Instance tool_call_valid : Valid ToolCall := tool_call_ok.
#[export] Instance tool_call_round_trip : RoundTrip ToolCall := reads_tool_call.
#[export] Instance message_valid : Valid Message := message_ok.
#[export] Instance message_round_trip : RoundTrip Message := reads_message.

Lemma readable_function_definition (f : FunctionDefinition) : readable f.
Proof.
  split; [|apply object_not_null]. destruct f as [name description parameters strict].
  unfold reads, to_value, function_definition_serialize, function_definition_value, from_value,
    function_definition_from_value.
  destruct (decide (fn_parameters _ = ∅)) as [E|_]; simpl in *.
  - subst. rewrite struct_fields_object. cbn [mbind option_bind].
    erewrite (optional_read_with "strict" _ value_bool strict);
      [|lookup_fields; by destruct strict|intros; split; auto with json].
    erewrite (defaulted_read _ _ _ (∅ : gmap string Value)); [|right; by lookup_fields|auto with json].
    by read_fields.
  - rewrite struct_fields_object. cbn [mbind option_bind].
    erewrite (optional_read_with "strict" _ value_bool strict);
      [|lookup_fields; by destruct strict|intros; split; auto with json].
    by read_fields.
Qed.

Lemma readable_custom_definition (c : CustomDefinition) :
  (forall v, cd_format c = Some v -> not_null v) -> readable c.
Proof.
  intros Hc. split; [|apply object_not_null]. destruct c as [name description format]. simpl in Hc.
  assert (Hf : forall v, format = Some v -> readable v) by (intros v Hv; split; [done|by apply Hc]).
  unfold reads, to_value, custom_definition_serialize, custom_definition_value, from_value,
    custom_definition_from_value. by read_struct.
Qed.

Lemma reads_tool (t : Tool) : tool_ok t -> reads t.
Proof.
  pose proof (fun f => proj1 (readable_function_definition f)) as Hf.
  intros Ht. destruct t as [[ty fn]|[ty cu]]; simpl in Ht;
    unfold reads, to_value, tool_serialize, tool_value, from_value, tool_from_value; read_struct; [done|].
  unfold required at 1. simpl. lookup_fields. simpl.
  pose proof (proj1 (readable_custom_definition cu Ht)) as Hcu. by read_struct.
Qed.
End openai_reads.

(** ** From the caller's body to the model's *)
Section forwarding.
Context {SJ : SerdeJson} {JS : Json} {JV : JsonView} {JL : JsonViewLaws JS JV}.

Lemma reads_messages l : Forall message_ok l -> reads l.
Proof. intros H. apply reads_list. eapply Forall_impl; [exact H|apply reads_message]. Qed.
Lemma readable_tools l : Forall tool_ok l -> readable l.
Proof. intros H. apply readable_list. eapply Forall_impl; [exact H|apply reads_tool]. Qed.

Lemma lookup_flatten names m key :
  flatten names (object m) !! key = if decide (key ∈ names) then None else m !! key.
Proof.
  unfold flatten. simpl. destruct (m !! key) as [v|] eqn:E.
  - case_decide as Hk.
    + apply map_lookup_filter_None_2. right. intros v' _ Hn. by apply Hn.
    + by apply map_lookup_filter_Some_2.
  - rewrite map_lookup_filter_None_2 by (by left). by case_decide.
Qed.

(** What a value of [detectors] says; a request without it has none. *)
Definition says_detectors (o : option Value) (d : RequestDetectors) : Prop :=
  match o with Some v => from_value v = Some d | None => d = no_detectors end.

Lemma defaulted_detectors m d :
  says_detectors (m !! "detectors") d -> defaulted no_detectors "detectors" (object m) = Some d.
Proof. unfold defaulted, says_detectors. simpl. destruct (m !! "detectors"); [done|by intros ->]. Qed.

(** The body of a chat completion: what the declared fields say, among any
    others. *)
Record chat_body (m : gmap string Value) (d : RequestDetectors) (stream : option bool) (model : string)
    (messages : list Message) (tools : option (list Tool)) : Prop := {
  cb_detectors : says_detectors (m !! "detectors") d;
  cb_stream : m !! "stream" = value_bool <$> stream;
  cb_model : m !! "model" = Some (to_value model);
  cb_messages : m !! "messages" = Some (to_value messages);
  cb_messages_ok : Forall message_ok messages;
  cb_tools : m !! "tools" = to_value <$> tools;
  cb_tools_ok : forall l, tools = Some l -> Forall tool_ok l
}.
Record completions_body (m : gmap string Value) (d : RequestDetectors) (stream : option bool)
    (model prompt : string) : Prop := {
  pb_detectors : says_detectors (m !! "detectors") d;
  pb_masks : m !! "_prompt_masks" = None;
  pb_stream : m !! "stream" = value_bool <$> stream;
  pb_model : m !! "model" = Some (to_value model);
  pb_prompt : m !! "prompt" = Some (to_value prompt)
}.

Lemma chat_body_read m d stream model messages tools :
  chat_body m d stream model messages tools ->
  from_value (value_object m) =
    Some {| ccr_detectors := d; ccr_stream := stream; ccr_model := model; ccr_messages := messages;
            ccr_tools := tools; ccr_extra := flatten chat_request_names (object m) |}.
Proof.
  intros [Hd Hs Hm Hms Hmo Ht Hto]. unfold from_value, chat_request_from_value. rewrite object_fields_object.
  cbn [mbind option_bind]. rewrite (defaulted_detectors _ _ Hd). cbn [mbind option_bind].
  rewrite (optional_read_with _ _ _ _ Hs) by (intros; split; auto with json). cbn [mbind option_bind].
  rewrite (required_read _ _ _ Hm) by auto with json. cbn [mbind option_bind].
  rewrite (required_read _ _ _ Hms) by (by apply reads_messages). cbn [mbind option_bind].
  rewrite (optional_read _ _ _ Ht) by (intros; by apply readable_tools, Hto). done.
Qed.

Lemma completions_body_read m d stream model prompt :
  completions_body m d stream model prompt ->
  from_value (value_object m) =
    Some {| cr_detectors := d; cr_prompt_masks := None; cr_stream := stream; cr_model := model; cr_prompt := prompt;
            cr_extra := flatten completions_request_names (object m) |}.
Proof.
  intros [Hd Hk Hs Hm Hp]. unfold from_value, completions_request_from_value. rewrite object_fields_object.
  cbn [mbind option_bind]. rewrite (defaulted_detectors _ _ Hd). cbn [mbind option_bind].
  rewrite (optional_read_with (T := list (Z * Z)) _ m (fun _ => value_null) None Hk) by done.
  cbn [mbind option_bind].
  rewrite (optional_read_with _ _ _ _ Hs) by (intros; split; auto with json). cbn [mbind option_bind].
  rewrite (required_read _ _ _ Hm) by auto with json. cbn [mbind option_bind].
  rewrite (required_read _ _ _ Hp) by auto with json. done.
Qed.

(** Misspelt detectors are no detectors, and such a body is refused. *)
Lemma unknown_detectors_refused m (d : gmap string Value) key :
  m !! "detectors" = Some (value_object d) -> key ∈ dom d -> key ∉ ["input"; "output"] ->
  (from_value (value_object m) : option ChatCompletionsRequest) = None /\
  (from_value (value_object m) : option CompletionsRequest) = None.
Proof.
  intros Hm Hk Hn.
  assert (E : (from_value (value_object d) : option RequestDetectors) = None).
  { unfold from_value, detectors_from_value. rewrite struct_fields_object. cbn [mbind option_bind].
    unfold deny_unknown_fields. simpl. rewrite bool_decide_eq_false_2; [done|]. intros Hs. apply Hn.
    specialize (Hs key Hk). set_solver. }
  split; unfold from_value, chat_request_from_value, completions_request_from_value;
    rewrite object_fields_object; cbn [mbind option_bind]; unfold defaulted; simpl; rewrite Hm; by rewrite E.
Qed.

Lemma chat_object_forwarded m d stream model messages tools :
  chat_body m d stream model messages tools ->
  chat_request_fields
    {| ccr_detectors := d; ccr_stream := stream; ccr_model := model; ccr_messages := messages; ccr_tools := tools;
       ccr_extra := flatten chat_request_names (object m) |} = delete "detectors" m.
Proof.
  intros [_ Hs Hm Hms _ Ht _]. apply map_eq. intros key. unfold chat_request_fields. simpl.
  rewrite !lookup_union, !lookup_optional_field, !lookup_field, lookup_flatten.
  destruct (decide (key = "detectors")) as [->|Hd]; [by rewrite lookup_delete_eq|].
  rewrite lookup_delete_ne by done. destruct (decide (key = "stream")) as [->|Hk1].
  { rewrite Hs. by destruct stream. }
  destruct (decide (key = "model")) as [->|Hk2]; [by rewrite Hm|].
  destruct (decide (key = "messages")) as [->|Hk3]; [by rewrite Hms|].
  destruct (decide (key = "tools")) as [->|Hk4]; [rewrite Ht; by destruct tools|].
  rewrite decide_False by (unfold chat_request_names; rewrite !not_elem_of_cons; set_solver).
  by rewrite !none_union.
Qed.

Lemma completions_object_forwarded m d stream model prompt :
  completions_body m d stream model prompt ->
  completions_request_fields
    {| cr_detectors := d; cr_prompt_masks := None; cr_stream := stream; cr_model := model; cr_prompt := prompt;
       cr_extra := flatten completions_request_names (object m) |} = delete "detectors" m.
Proof.
  intros [_ Hk Hs Hm Hp]. apply map_eq. intros key. unfold completions_request_fields. simpl.
  rewrite !lookup_union, !lookup_optional_field, !lookup_field, lookup_flatten.
  destruct (decide (key = "detectors")) as [->|Hd]; [by rewrite lookup_delete_eq|].
  rewrite lookup_delete_ne by done. destruct (decide (key = "stream")) as [->|Hk1].
  { rewrite Hs. by destruct stream. }
  destruct (decide (key = "model")) as [->|Hk2]; [by rewrite Hm|].
  destruct (decide (key = "prompt")) as [->|Hk3]; [by rewrite Hp|].
  destruct (decide (key = "_prompt_masks")) as [->|Hk4]; [by rewrite Hk|].
  rewrite decide_False by (unfold completions_request_names; rewrite !not_elem_of_cons; set_solver).
  by rewrite !none_union.
Qed.

(** The guardrails of a generation request are not checked like that: a
    configuration that misspells its sections is one without guardrails. *)
Lemma misspelt_guardrails_ignored (config : gmap string Value) model_id inputs :
  config !! "input" = None -> config !! "output" = None ->
  from_value (value_object (<["guardrail_config" := value_object config]> (<["model_id" := to_value model_id]>
                              {["inputs" := to_value inputs]}))) =
    Some {| gr_model_id := model_id; gr_inputs := inputs; gr_guardrail_config := Some guardrails_config_default;
            gr_text_gen_parameters := None |}.
Proof.
  intros Hi Ho. set (m := <[_ := _]> _).
  assert (Hc : (from_value (value_object config) : option GuardrailsConfig) = Some guardrails_config_default).
  { unfold from_value, guardrails_config_from_value. rewrite struct_fields_object. cbn [mbind option_bind].
    unfold optional. simpl. by rewrite Hi, Ho. }
  unfold from_value, guardrails_request_from_value. rewrite struct_fields_object. cbn [mbind option_bind].
  unfold deny_unknown_fields. rewrite bool_decide_eq_true_2, orb_true_r
    by (unfold m; simpl; rewrite !dom_insert_L, dom_singleton_L; set_solver).
  cbn [mbind option_bind].
  rewrite (required_read "model_id" m model_id), (required_read "inputs" m inputs) by (done || auto with json).
  cbn [mbind option_bind].
  rewrite (optional_read_with "guardrail_config" m (fun _ => value_object config) (Some guardrails_config_default)).
  3: { intros ? [= <-]. split; [exact Hc|apply object_not_null]. }
  2: done.
  done.
Qed.

(** What becomes of the member [key] of a caller's object: the detectors stay
    here, a declared member is sent as it was read - not at all if it is null -,
    and any other as it is. *)
Definition unless_null {T} `{!FromValue T} (write : T -> Value) (v : Value) : option Value :=
  o ← nullable v; t ← o; Some (write t).
Definition chat_member (key : string) (v : Value) : option Value :=
  if decide (key = "detectors") then None
  else if decide (key = "stream") then unless_null value_bool v
  else if decide (key = "model") then to_value <$> (from_value v : option string)
  else if decide (key = "messages") then to_value <$> (from_value v : option (list Message))
  else if decide (key = "tools") then unless_null (T := list Tool) to_value v
  else Some v.
Definition completions_member (key : string) (v : Value) : option Value :=
  if decide (key = "detectors") then None
  else if decide (key = "_prompt_masks") then None
  else if decide (key = "stream") then unless_null value_bool v
  else if decide (key = "model") then to_value <$> (from_value v : option string)
  else if decide (key = "prompt") then to_value <$> (from_value v : option string)
  else Some v.

Lemma required_sent {T} `{!Serialize T} `{!FromValue T} name m (t : T) :
  required name (object m) = Some t -> (m !! name ≫= fun v => to_value <$> (from_value v : option T)) = Some (to_value t).
Proof. unfold required. simpl. destruct (m !! name) as [v|]; [|done]. simpl. by intros ->. Qed.
Lemma optional_sent {T} `{!FromValue T} name m (write : T -> Value) o :
  optional name (object m) = Some o -> m !! name ≫= unless_null write = write <$> o.
Proof.
  unfold optional, unless_null. simpl. destruct (m !! name) as [v|]; [|by intros [= <-]]. simpl. intros ->.
  by destruct o.
Qed.
Lemma defaulted_says m d :
  defaulted no_detectors "detectors" (object m) = Some d -> says_detectors (m !! "detectors") d.
Proof. unfold defaulted, says_detectors. simpl. destruct (m !! "detectors"); [done|by intros [= <-]]. Qed.

Lemma chat_read_sent m (r : ChatCompletionsRequest) :
  from_value (value_object m) = Some r ->
  says_detectors (m !! "detectors") (ccr_detectors r) /\
  forall key, chat_request_fields r !! key = m !! key ≫= chat_member key.
Proof.
  unfold from_value, chat_request_from_value. rewrite object_fields_object. cbn [mbind option_bind].
  intros (d & Hd & (s & Hs & (mo & Hmo & (ms & Hms & (t & Ht & [= <-])%bind_Some)%bind_Some)%bind_Some)%bind_Some)%bind_Some.
  split; [by apply defaulted_says|]. intros key. unfold chat_request_fields. simpl.
  rewrite !lookup_union, !lookup_optional_field, !lookup_field, lookup_flatten.
  apply (optional_sent _ _ value_bool) in Hs. apply (optional_sent _ _ to_value) in Ht.
  apply required_sent in Hmo, Hms. unfold chat_member.
  destruct (decide (key = "detectors")) as [->|H0]; [by destruct (m !! "detectors")|].
  destruct (decide (key = "stream")) as [->|H1]; [refine (eq_trans _ (eq_sym Hs)); by destruct s|].
  destruct (decide (key = "model")) as [->|H2]; [by refine (eq_trans _ (eq_sym Hmo))|].
  destruct (decide (key = "messages")) as [->|H3]; [by refine (eq_trans _ (eq_sym Hms))|].
  destruct (decide (key = "tools")) as [->|H4]; [refine (eq_trans _ (eq_sym Ht)); by destruct t|].
  rewrite decide_False by (unfold chat_request_names; rewrite !not_elem_of_cons; set_solver).
  rewrite !none_union. by destruct (m !! key).
Qed.
Lemma completions_read_sent m (r : CompletionsRequest) :
  from_value (value_object m) = Some r ->
  says_detectors (m !! "detectors") (cr_detectors r) /\
  forall key, completions_request_fields r !! key = m !! key ≫= completions_member key.
Proof.
  unfold from_value, completions_request_from_value. rewrite object_fields_object. cbn [mbind option_bind].
  intros (d & Hd & (k & _ & (s & Hs & (mo & Hmo & (p & Hp & [= <-])%bind_Some)%bind_Some)%bind_Some)%bind_Some)%bind_Some.
  split; [by apply defaulted_says|]. intros key. unfold completions_request_fields. simpl.
  rewrite !lookup_union, !lookup_optional_field, !lookup_field, lookup_flatten.
  apply (optional_sent _ _ value_bool) in Hs. apply required_sent in Hmo, Hp. unfold completions_member.
  destruct (decide (key = "detectors")) as [->|H0]; [by destruct (m !! "detectors")|].
  destruct (decide (key = "_prompt_masks")) as [->|H4]; [by destruct (m !! "_prompt_masks")|].
  destruct (decide (key = "stream")) as [->|H1]; [refine (eq_trans _ (eq_sym Hs)); by destruct s|].
  destruct (decide (key = "model")) as [->|H2]; [by refine (eq_trans _ (eq_sym Hmo))|].
  destruct (decide (key = "prompt")) as [->|H3]; [by refine (eq_trans _ (eq_sym Hp))|].
  rewrite decide_False by (unfold completions_request_names; rewrite !not_elem_of_cons; set_solver).
  rewrite !none_union. by destruct (m !! key).
Qed.

(** A member of a message that the program does not know is not read. *)
Lemma message_unknown_member o key :
  key ∉ message_names ->
  (from_value (value_object (delete key o)) : option Message) = from_value (value_object o).
Proof.
  intros Hk%not_in_names. repeat (apply Forall_cons in Hk as [? Hk]). unfold from_value, message_from_value.
  rewrite !struct_fields_object. cbn [mbind option_bind]. by rewrite required_delete, !optional_delete.
Qed.

(** C26. What a model is sent is what the program read of the caller's object.
    A body that is read names the request's detectors, and what is sent on is an
    object with the members of the caller's, each on its own: the detectors and
    the masks of a completion's prompt are dropped; [stream], [model],
    [messages], [tools] and [prompt] are written again from what was read of
    them, a [stream] or [tools] that is null left out; and every other member is
    sent as it is.  Where the declared members are as the program writes them
    and no masks are given, the object sent is thus the caller's without the
    detectors; but a member of a message that the program does not know is not
    read, so that the model never sees it.  A body with anything but inputs and
    outputs in its detectors is refused. *)
Theorem bodies_forwarded m :
  (forall r : ChatCompletionsRequest, from_value (value_object m) = Some r ->
     says_detectors (m !! "detectors") (ccr_detectors r) /\
     exists sent, to_value r = value_object sent /\ forall key, sent !! key = m !! key ≫= chat_member key) /\
  (forall r : CompletionsRequest, from_value (value_object m) = Some r ->
     says_detectors (m !! "detectors") (cr_detectors r) /\
     exists sent, to_value r = value_object sent /\ forall key, sent !! key = m !! key ≫= completions_member key) /\
  (forall d stream model messages tools, chat_body m d stream model messages tools ->
     exists r : ChatCompletionsRequest,
     from_value (value_object m) = Some r /\ ccr_detectors r = d /\ ccr_messages r = messages /\
     ccr_tools r = tools /\ ccr_stream r = stream /\ to_value r = value_object (delete "detectors" m)) /\
  (forall d stream model prompt, completions_body m d stream model prompt -> exists r : CompletionsRequest,
     from_value (value_object m) = Some r /\ cr_detectors r = d /\ cr_prompt r = prompt /\
     cr_stream r = stream /\ to_value r = value_object (delete "detectors" m)) /\
  (forall key, key ∉ message_names ->
     (from_value (value_object (delete key m)) : option Message) = from_value (value_object m)) /\
  (forall sections key, m !! "detectors" = Some (value_object sections) -> key ∈ dom sections ->
     key ∉ ["input"; "output"] ->
     (from_value (value_object m) : option ChatCompletionsRequest) = None /\
     (from_value (value_object m) : option CompletionsRequest) = None).
Proof.
  split_and!.
  - intros r Hr. destruct (chat_read_sent _ _ Hr) as [Hd Hk]. split; [done|]. by exists (chat_request_fields r).
  - intros r Hr. destruct (completions_read_sent _ _ Hr) as [Hd Hk]. split; [done|].
    by exists (completions_request_fields r).
  - intros d stream model messages tools H. eexists. split; [by apply chat_body_read|]. do 4 (split; [done|]).
    unfold to_value, chat_request_serialize. by erewrite chat_object_forwarded.
  - intros d stream model prompt H. eexists. split; [by apply completions_body_read|]. do 3 (split; [done|]).
    unfold to_value, completions_request_serialize. by erewrite completions_object_forwarded.
  - intros key Hk. by apply message_unknown_member.
  - intros sections key Hm Hk Hn. by eapply unknown_detectors_refused.
Qed.
End forwarding.

Section witnesses.
#[local] Existing Instance tree_json.
#[local] Existing Instance tree_values.

#[local] Existing Instances tree_view tree_view_laws.

(** A greeting with a field the program does not know. *)
Definition ex_greeting : Message :=
  {| msg_role := User; msg_content := Some (Text "Hello"); msg_name := None; msg_refusal := None;
     msg_tool_calls := None; msg_tool_call_id := None; msg_reasoning_content := None |}.
Definition ex_body : gmap string Value :=
  <["model" := to_value "llama"]> (<["messages" := to_value [ex_greeting]]> {["temperature" := value_integer 1]}).

Lemma ex_chat_body : chat_body ex_body no_detectors None "llama" [ex_greeting] None.
Proof. split; [reflexivity..|by repeat constructor|reflexivity|done]. Qed.

(** The greeting with the caller's name for it, which is not sent on. *)
Definition ex_labelled : gmap string Value :=
  <["label" := to_value "first"]> {["role" := value_string "user"; "content" := value_string "Hello"]}.
Definition ex_labelled_body : gmap string Value :=
  <["tools" := value_null]> (<["messages" := value_array [value_object ex_labelled]]> ex_body).

Lemma ex_labelled_read :
  match (from_value (value_object ex_labelled_body) : option ChatCompletionsRequest) with
  | Some _ => true
  | None => false
  end = true.
Proof. vm_compute. reflexivity. Qed.

Lemma bodies_forwarded_witness :
  (exists r : ChatCompletionsRequest,
     from_value (value_object ex_body) = Some r /\ ccr_messages r = [ex_greeting] /\
     to_value r = value_object (delete "detectors" ex_body)) /\
  (exists (r : ChatCompletionsRequest) sent, from_value (value_object ex_labelled_body) = Some r /\
     to_value r = value_object sent /\ sent !! "messages" = Some (to_value [ex_greeting]) /\
     sent !! "tools" = None /\ sent !! "temperature" = Some (value_integer 1)).
Proof.
  split.
  - destruct (bodies_forwarded ex_body) as (_ & _ & H & _).
    destruct (H no_detectors None "llama" [ex_greeting] None ex_chat_body) as (r & Hr & _ & Hm & _ & _ & Ht).
    exists r. split; [exact Hr|]. split; [exact Hm|exact Ht].
  - destruct (bodies_forwarded ex_labelled_body) as (H & _).
    destruct (from_value (value_object ex_labelled_body) : option ChatCompletionsRequest) as [r|] eqn:E;
      [|by pose proof ex_labelled_read as Hr; rewrite E in Hr].
    destruct (H r eq_refl) as (_ & sent & Hs & Hk). exists r, sent. split; [reflexivity|]. split; [exact Hs|].
    split; [rewrite Hk; vm_compute; reflexivity|]. split; [rewrite Hk; vm_compute; reflexivity|].
    rewrite Hk. vm_compute. reflexivity.
Defined.
End witnesses.
