(* ===== verification/ResponseJson.v ===== *)
(** * Answers as JSON

    What the services' answers are read as, and what the callers are sent: the
    derived [Serialize] and [Deserialize] instances of the answers of
    src/clients/openai.rs, src/clients/detector.rs, src/models.rs and
    src/orchestrator/types/detection.rs, from their serde attributes.  Each is
    read back as it was written, within the widths of its numbers ([valid]).
    With them the answers of the wire ([OpenAiWire], [DetectorWire]) are those
    of texts, and the lines of a streamed body those of src/utils/json.rs. *)
From Stdlib Require Import SpecFloat Ascii.
From S2P Require Import Prelude External Errors Utf8 Hostname Config Detection Clients OpenAi Chunk Models Utils Tasks.
From S2P Require Import Http OpenAiWire DetectorWire Serde RequestJson.
#[local] Open Scope string_scope.
#[local] Open Scope list_scope.
#[local] Open Scope Z_scope.

(** ** Formats *)
Section formats.
Context {SJ : SerdeJson} {JS : Json} {JV : JsonView} {JF : JsonFloats}.

(** *** Names of unit variants *)
Definition warning_reason_names : list (string * DetectionWarningReason) :=
  [("UNSUITABLE_INPUT", UnsuitableInput); ("UNSUITABLE_OUTPUT", UnsuitableOutput); ("EMPTY_OUTPUT", EmptyOutput)].
#[export] Instance warning_reason_serialize : Serialize DetectionWarningReason := fun r =>
  value_string match r with
               | UnsuitableInput => "UNSUITABLE_INPUT" | UnsuitableOutput => "UNSUITABLE_OUTPUT"
               | EmptyOutput => "EMPTY_OUTPUT"
               end.
#[export] Instance warning_reason_from_value : FromValue DetectionWarningReason :=
  fun v => name ← variant_name v; (list_to_map warning_reason_names : gmap string DetectionWarningReason) !! name.

Definition finish_reason_names : list (string * FinishReason) :=
  [("NOT_FINISHED", NotFinished); ("MAX_TOKENS", MaxTokens); ("EOS_TOKEN", EosToken); ("CANCELLED", FinishCancelled);
   ("TIME_LIMIT", TimeLimit); ("STOP_SEQUENCE", StopSequence); ("TOKEN_LIMIT", TokenLimit); ("ERROR", FinishError)].
#[export] Instance finish_reason_serialize : Serialize FinishReason := fun r =>
  value_string match r with
               | NotFinished => "NOT_FINISHED" | MaxTokens => "MAX_TOKENS" | EosToken => "EOS_TOKEN"
               | FinishCancelled => "CANCELLED" | TimeLimit => "TIME_LIMIT" | StopSequence => "STOP_SEQUENCE"
               | TokenLimit => "TOKEN_LIMIT" | FinishError => "ERROR"
               end.
#[export] Instance finish_reason_from_value : FromValue FinishReason :=
  fun v => name ← variant_name v; (list_to_map finish_reason_names : gmap string FinishReason) !! name.

(** *** Completions: usage and log probabilities *)
Definition prompt_token_details_fields (x : PromptTokenDetails) : gmap string Value :=
  field "audio_tokens" (value_integer (ptd_audio_tokens x))
  ∪ field "cached_tokens" (value_integer (ptd_cached_tokens x)).
#[export] Instance prompt_token_details_serialize : Serialize PromptTokenDetails :=
  fun x => value_object (prompt_token_details_fields x).
Definition prompt_token_details_names : list string :=
    ["audio_tokens"; "cached_tokens"].
#[export] Instance prompt_token_details_from_value : FromValue PromptTokenDetails := fun v =>
  f ← struct_fields prompt_token_details_names v;
  audio_tokens ← required (FromValue0 := u32_from_value) "audio_tokens" f;
  cached_tokens ← required (FromValue0 := u32_from_value) "cached_tokens" f;
  Some {| ptd_audio_tokens := audio_tokens; ptd_cached_tokens := cached_tokens |}.

Definition completion_token_details_fields (x : CompletionTokenDetails) : gmap string Value :=
  field "audio_tokens" (value_integer (ctd_audio_tokens x))
  ∪ field "reasoning_tokens" (value_integer (ctd_reasoning_tokens x)).
#[export] Instance completion_token_details_serialize : Serialize CompletionTokenDetails :=
  fun x => value_object (completion_token_details_fields x).
Definition completion_token_details_names : list string :=
    ["audio_tokens"; "reasoning_tokens"].
#[export] Instance completion_token_details_from_value : FromValue CompletionTokenDetails := fun v =>
  f ← struct_fields completion_token_details_names v;
  audio_tokens ← required (FromValue0 := u32_from_value) "audio_tokens" f;
  reasoning_tokens ← required (FromValue0 := u32_from_value) "reasoning_tokens" f;
  Some {| ctd_audio_tokens := audio_tokens; ctd_reasoning_tokens := reasoning_tokens |}.

Definition usage_fields (x : Usage) : gmap string Value :=
  field "prompt_tokens" (value_integer (prompt_tokens x))
  ∪ field "total_tokens" (value_integer (total_tokens x))
  ∪ field "completion_tokens" (value_integer (completion_tokens x))
  ∪ optional_field "prompt_token_details" (prompt_token_details x)
  ∪ optional_field "completion_token_details" (completion_token_details x).
#[export] Instance usage_serialize : Serialize Usage := fun x => value_object (usage_fields x).
Definition usage_names : list string :=
    ["prompt_tokens"; "total_tokens"; "completion_tokens";
     "prompt_token_details"; "completion_token_details"].
#[export] Instance usage_from_value : FromValue Usage := fun v =>
  f ← struct_fields usage_names v;
  prompt_tokens ← required (FromValue0 := u32_from_value) "prompt_tokens" f;
  total_tokens ← required (FromValue0 := u32_from_value) "total_tokens" f;
  completion_tokens ← required (FromValue0 := u32_from_value) "completion_tokens" f;
  prompt_token_details ← optional "prompt_token_details" f;
  completion_token_details ← optional "completion_token_details" f;
  Some {| prompt_tokens := prompt_tokens; total_tokens := total_tokens; completion_tokens := completion_tokens;
          prompt_token_details := prompt_token_details; completion_token_details := completion_token_details |}.

Definition tokenize_response_fields (x : TokenizeResponse) : gmap string Value :=
  field "count" (value_integer (tks_count x)) ∪ field "max_model_len" (value_integer (tks_max_model_len x))
  ∪ field "tokens" ((fun l => value_array (value_integer <$> l)) (tks_tokens x)).
#[export] Instance tokenize_response_serialize : Serialize TokenizeResponse :=
  fun x => value_object (tokenize_response_fields x).
Definition tokenize_response_names : list string :=
    ["count"; "max_model_len"; "tokens"].
#[export] Instance tokenize_response_from_value : FromValue TokenizeResponse := fun v =>
  f ← struct_fields tokenize_response_names v;
  count ← required (FromValue0 := u32_from_value) "count" f;
  max_model_len ← required (FromValue0 := u32_from_value) "max_model_len" f;
  tokens ← required (FromValue0 := list_from_value (FromValue0 := u32_from_value)) "tokens" f;
  Some {| tks_count := count; tks_max_model_len := max_model_len; tks_tokens := tokens |}.

Definition logprob_fields (x : Logprob) : gmap string Value :=
  field "logprob" (value_f32 (lp_logprob x)) ∪ field "rank" (value_integer <$> lp_rank x)
  ∪ field "decoded_token" (lp_decoded_token x).
#[export] Instance logprob_serialize : Serialize Logprob := fun x => value_object (logprob_fields x).
Definition logprob_names : list string :=
    ["logprob"; "rank"; "decoded_token"].
#[export] Instance logprob_from_value : FromValue Logprob := fun v =>
  f ← struct_fields logprob_names v;
  logprob ← required (FromValue0 := f32_from_value) "logprob" f;
  rank ← optional (FromValue0 := int_from_value 32) "rank" f; decoded_token ← optional "decoded_token" f;
  Some {| lp_logprob := logprob; lp_rank := rank; lp_decoded_token := decoded_token |}.

(** [Option<Vec<Option<HashMap<String, Logprob>>>>] *)
Definition prompt_logprobs_value (l : list (option (gmap string Logprob))) : Value :=
  value_array ((fun o : option (gmap string Logprob) => to_value (map_value to_value <$> o)) <$> l).
Definition prompt_logprobs_from_value : FromValue (list (option (gmap string Logprob))) := list_from_value.

Definition top_logprob_fields (x : ChatCompletionTopLogprob) : gmap string Value :=
  field "token" (tlp_token x) ∪ field "logprob" (value_f32 (tlp_logprob x))
  ∪ field "bytes" ((fun l => value_array (value_integer <$> l)) <$> tlp_bytes x).
#[export] Instance top_logprob_serialize : Serialize ChatCompletionTopLogprob :=
  fun x => value_object (top_logprob_fields x).
Definition top_logprob_names : list string :=
    ["token"; "logprob"; "bytes"].
#[export] Instance top_logprob_from_value : FromValue ChatCompletionTopLogprob := fun v =>
  f ← struct_fields top_logprob_names v;
  token ← required "token" f; logprob ← required (FromValue0 := f32_from_value) "logprob" f;
  bytes ← optional (FromValue0 := list_from_value (FromValue0 := uint_from_value 8)) "bytes" f;
  Some {| tlp_token := token; tlp_logprob := logprob; tlp_bytes := bytes |}.

Definition chat_logprob_fields (x : ChatCompletionLogprob) : gmap string Value :=
  field "token" (clp_token x) ∪ field "logprob" (value_f32 (clp_logprob x))
  ∪ field "bytes" ((fun l => value_array (value_integer <$> l)) <$> clp_bytes x)
  ∪ field "top_logprobs" (clp_top_logprobs x).
#[export] Instance chat_logprob_serialize : Serialize ChatCompletionLogprob :=
  fun x => value_object (chat_logprob_fields x).
Definition chat_logprob_names : list string :=
    ["token"; "logprob"; "bytes"; "top_logprobs"].
#[export] Instance chat_logprob_from_value : FromValue ChatCompletionLogprob := fun v =>
  f ← struct_fields chat_logprob_names v;
  token ← required "token" f; logprob ← required (FromValue0 := f32_from_value) "logprob" f;
  bytes ← optional (FromValue0 := list_from_value (FromValue0 := uint_from_value 8)) "bytes" f;
  top_logprobs ← optional "top_logprobs" f;
  Some {| clp_token := token; clp_logprob := logprob; clp_bytes := bytes; clp_top_logprobs := top_logprobs |}.

Definition chat_logprobs_fields (x : ChatCompletionLogprobs) : gmap string Value :=
  list_field "content" (clps_content x) ∪ list_field "refusal" (clps_refusal x).
#[export] Instance chat_logprobs_serialize : Serialize ChatCompletionLogprobs :=
  fun x => value_object (chat_logprobs_fields x).
Definition chat_logprobs_names : list string :=
    ["content"; "refusal"].
#[export] Instance chat_logprobs_from_value : FromValue ChatCompletionLogprobs := fun v =>
  f ← struct_fields chat_logprobs_names v;
  content ← defaulted [] "content" f; refusal ← defaulted [] "refusal" f;
  Some {| clps_content := content; clps_refusal := refusal |}.

Definition top_logprobs_value (l : list (gmap string f32)) : Value := value_array (map_value value_f32 <$> l).
Definition top_logprobs_from_value : FromValue (list (gmap string f32)) :=
  list_from_value (FromValue0 := map_from_value (FromValue0 := f32_from_value)).
Definition completion_logprobs_fields (x : CompletionLogprobs) : gmap string Value :=
  field "tokens" (cl_tokens x)
  ∪ field "token_logprobs" ((fun l => value_array (value_f32 <$> l)) (cl_token_logprobs x))
  ∪ field "top_logprobs" (top_logprobs_value (cl_top_logprobs x))
  ∪ field "text_offset" ((fun l => value_array (value_integer <$> l)) (cl_text_offset x)).
#[export] Instance completion_logprobs_serialize : Serialize CompletionLogprobs :=
  fun x => value_object (completion_logprobs_fields x).
Definition completion_logprobs_names : list string :=
    ["tokens"; "token_logprobs"; "top_logprobs";
     "text_offset"].
#[export] Instance completion_logprobs_from_value : FromValue CompletionLogprobs := fun v =>
  f ← struct_fields completion_logprobs_names v;
  tokens ← required "tokens" f;
  token_logprobs ← required (FromValue0 := list_from_value (FromValue0 := f32_from_value)) "token_logprobs" f;
  top_logprobs ← required (FromValue0 := top_logprobs_from_value) "top_logprobs" f;
  text_offset ← required (FromValue0 := list_from_value (FromValue0 := u32_from_value)) "text_offset" f;
  Some {| cl_tokens := tokens; cl_token_logprobs := token_logprobs; cl_top_logprobs := top_logprobs;
          cl_text_offset := text_offset |}.

(** [#[serde(untagged)]] *)
#[export] Instance stop_reason_serialize : Serialize StopReason := fun r =>
  match r with StopString s => value_string s | StopInteger n => value_integer n end.
#[export] Instance stop_reason_from_value : FromValue StopReason := fun v =>
  untagged (StopString <$> from_value v) (StopInteger <$> from_value (FromValue := int_from_value 64) v).

(** *** Detections *)
Definition evidence_fields (x : Evidence) : gmap string Value :=
  field "name" (ev_name x) ∪ optional_field "value" (ev_value x)
  ∪ optional_field "score" (value_f64 <$> ev_score x).
#[export] Instance evidence_serialize : Serialize Evidence := fun x => value_object (evidence_fields x).
Definition evidence_names : list string :=
    ["name"; "value"; "score"].
#[export] Instance evidence_from_value : FromValue Evidence := fun v =>
  f ← struct_fields evidence_names v;
  name ← required "name" f; value ← optional "value" f;
  score ← optional (FromValue0 := f64_from_value) "score" f;
  Some {| ev_name := name; ev_value := value; ev_score := score |}.

Definition detection_evidence_fields (x : DetectionEvidence) : gmap string Value :=
  field "name" (de_name x) ∪ optional_field "value" (de_value x)
  ∪ optional_field "score" (value_f64 <$> de_score x) ∪ list_field "evidence" (de_evidence x).
#[export] Instance detection_evidence_serialize : Serialize DetectionEvidence :=
  fun x => value_object (detection_evidence_fields x).
Definition detection_evidence_names : list string :=
    ["name"; "value"; "score"; "evidence"].
#[export] Instance detection_evidence_from_value : FromValue DetectionEvidence := fun v =>
  f ← struct_fields detection_evidence_names v;
  name ← required "name" f; value ← optional "value" f;
  score ← optional (FromValue0 := f64_from_value) "score" f; evidence ← defaulted [] "evidence" f;
  Some {| de_name := name; de_value := value; de_score := score; de_evidence := evidence |}.

Definition detection_fields (x : Detection) : gmap string Value :=
  optional_field "start" (value_integer <$> det_start x) ∪ optional_field "end" (value_integer <$> det_end x)
  ∪ optional_field "text" (det_text x) ∪ field "detector_id" (det_detector_id x)
  ∪ field "detection_type" (det_detection_type x) ∪ field "detection" (det_detection x)
  ∪ field "score" (value_f64 (det_score x)) ∪ list_field "evidence" (det_evidence x)
  ∪ map_field "metadata" (det_metadata x).
#[export] Instance detection_serialize : Serialize Detection := fun x => value_object (detection_fields x).
Definition detection_names : list string :=
    ["start"; "end"; "text"; "detector_id"; "detection_type";
     "detection"; "score"; "evidence"; "metadata"].
#[export] Instance detection_from_value : FromValue Detection := fun v =>
  f ← struct_fields detection_names v;
  start ← optional (FromValue0 := usize_from_value) "start" f;
  end_ ← optional (FromValue0 := usize_from_value) "end" f; text ← optional "text" f;
  detector_id ← optional "detector_id" f; detection_type ← required "detection_type" f;
  detection ← required "detection" f; score ← required (FromValue0 := f64_from_value) "score" f;
  evidence ← defaulted [] "evidence" f; metadata ← defaulted ∅ "metadata" f;
  Some {| det_start := start; det_end := end_; det_text := text; det_detector_id := detector_id;
          det_detection_type := detection_type; det_detection := detection; det_score := score;
          det_evidence := evidence; det_metadata := metadata |}.

Definition input_detections_fields (x : CompletionInputDetections) : gmap string Value :=
  field "message_index" (value_integer (cid_message_index x)) ∪ field "results" (cid_results x).
#[export] Instance input_detections_serialize : Serialize CompletionInputDetections :=
  fun x => value_object (input_detections_fields x).
Definition input_detections_names : list string :=
    ["message_index"; "results"].
#[export] Instance input_detections_from_value : FromValue CompletionInputDetections := fun v =>
  f ← struct_fields input_detections_names v;
  message_index ← required (FromValue0 := u32_from_value) "message_index" f; results ← defaulted [] "results" f;
  Some {| cid_message_index := message_index; cid_results := results |}.

Definition output_detections_fields (x : CompletionOutputDetections) : gmap string Value :=
  field "choice_index" (value_integer (cod_choice_index x)) ∪ field "results" (cod_results x).
#[export] Instance output_detections_serialize : Serialize CompletionOutputDetections :=
  fun x => value_object (output_detections_fields x).
Definition output_detections_names : list string :=
    ["choice_index"; "results"].
#[export] Instance output_detections_from_value : FromValue CompletionOutputDetections := fun v =>
  f ← struct_fields output_detections_names v;
  choice_index ← required (FromValue0 := u32_from_value) "choice_index" f; results ← defaulted [] "results" f;
  Some {| cod_choice_index := choice_index; cod_results := results |}.

Definition completion_detections_fields (x : CompletionDetections) : gmap string Value :=
  list_field "input" (cds_input x) ∪ list_field "output" (cds_output x).
#[export] Instance completion_detections_serialize : Serialize CompletionDetections :=
  fun x => value_object (completion_detections_fields x).
Definition completion_detections_names : list string :=
    ["input"; "output"].
#[export] Instance completion_detections_from_value : FromValue CompletionDetections := fun v =>
  f ← struct_fields completion_detections_names v;
  input ← defaulted [] "input" f; output ← defaulted [] "output" f;
  Some {| cds_input := input; cds_output := output |}.

Definition completion_warning_fields (x : CompletionDetectionWarning) : gmap string Value :=
  field "type" (cdw_type x) ∪ field "message" (cdw_message x).
#[export] Instance completion_warning_serialize : Serialize CompletionDetectionWarning :=
  fun x => value_object (completion_warning_fields x).
Definition completion_warning_names : list string :=
    ["type"; "message"].
#[export] Instance completion_warning_from_value : FromValue CompletionDetectionWarning := fun v =>
  f ← struct_fields completion_warning_names v;
  type_ ← required "type" f; message ← required "message" f;
  Some {| cdw_type := type_; cdw_message := message |}.

(** *** The answers of the models *)
Definition chat_choice_fields (x : ChatCompletionChoice) : gmap string Value :=
  field "index" (value_integer (ccc_index x)) ∪ field "message" (ccc_message x)
  ∪ field "logprobs" (ccc_logprobs x) ∪ field "finish_reason" (ccc_finish_reason x)
  ∪ field "stop_reason" (ccc_stop_reason x).
#[export] Instance chat_choice_serialize : Serialize ChatCompletionChoice :=
  fun x => value_object (chat_choice_fields x).
Definition chat_choice_names : list string :=
    ["index"; "message"; "logprobs"; "finish_reason";
     "stop_reason"].
#[export] Instance chat_choice_from_value : FromValue ChatCompletionChoice := fun v =>
  f ← struct_fields chat_choice_names v;
  index ← required (FromValue0 := u32_from_value) "index" f; message ← required "message" f;
  logprobs ← optional "logprobs" f; finish_reason ← required "finish_reason" f;
  stop_reason ← optional "stop_reason" f;
  Some {| ccc_index := index; ccc_message := message; ccc_logprobs := logprobs;
          ccc_finish_reason := finish_reason; ccc_stop_reason := stop_reason |}.

Definition chat_completion_fields (x : ChatCompletion) : gmap string Value :=
  field "id" (cc_id x) ∪ field "object" (cc_object x) ∪ field "created" (value_integer (cc_created x))
  ∪ field "model" (cc_model x) ∪ field "choices" (cc_choices x) ∪ field "usage" (cc_usage x)
  ∪ field "prompt_logprobs" (prompt_logprobs_value <$> cc_prompt_logprobs x)
  ∪ optional_field "system_fingerprint" (cc_system_fingerprint x)
  ∪ optional_field "service_tier" (cc_service_tier x) ∪ optional_field "detections" (cc_detections x)
  ∪ list_field "warnings" (cc_warnings x).
#[export] Instance chat_completion_serialize : Serialize ChatCompletion :=
  fun x => value_object (chat_completion_fields x).
Definition chat_completion_names : list string :=
    ["id"; "object"; "created"; "model"; "choices"; "usage";
     "prompt_logprobs"; "system_fingerprint"; "service_tier"; "detections"; "warnings"].
#[export] Instance chat_completion_from_value : FromValue ChatCompletion := fun v =>
  f ← struct_fields chat_completion_names v;
  id ← required "id" f; object_ ← required "object" f;
  created ← required (FromValue0 := int_from_value 64) "created" f; model ← required "model" f;
  choices ← required "choices" f; usage ← required "usage" f;
  prompt_logprobs ← optional (FromValue0 := prompt_logprobs_from_value) "prompt_logprobs" f;
  system_fingerprint ← optional "system_fingerprint" f; service_tier ← optional "service_tier" f;
  detections ← optional "detections" f; warnings ← defaulted [] "warnings" f;
  Some {| cc_id := id; cc_object := object_; cc_created := created; cc_model := model; cc_choices := choices;
          cc_usage := usage; cc_prompt_logprobs := prompt_logprobs; cc_system_fingerprint := system_fingerprint;
          cc_service_tier := service_tier; cc_detections := detections; cc_warnings := warnings |}.

Definition delta_fields (x : ChatCompletionDelta) : gmap string Value :=
  optional_field "role" (delta_role x) ∪ optional_field "content" (delta_content x)
  ∪ optional_field "refusal" (delta_refusal x) ∪ list_field "tool_calls" (delta_tool_calls x).
#[export] Instance delta_serialize : Serialize ChatCompletionDelta := fun x => value_object (delta_fields x).
Definition delta_names : list string :=
    ["role"; "content"; "refusal"; "tool_calls"].
#[export] Instance delta_from_value : FromValue ChatCompletionDelta := fun v =>
  f ← struct_fields delta_names v;
  role ← optional "role" f; content ← optional "content" f; refusal ← optional "refusal" f;
  tool_calls ← defaulted [] "tool_calls" f;
  Some {| delta_role := role; delta_content := content; delta_refusal := refusal; delta_tool_calls := tool_calls |}.

Definition chunk_choice_fields (x : ChatCompletionChunkChoice) : gmap string Value :=
  field "index" (value_integer (ckc_index x)) ∪ field "delta" (ckc_delta x) ∪ field "logprobs" (ckc_logprobs x)
  ∪ field "finish_reason" (ckc_finish_reason x) ∪ field "stop_reason" (ckc_stop_reason x).
#[export] Instance chunk_choice_serialize : Serialize ChatCompletionChunkChoice :=
  fun x => value_object (chunk_choice_fields x).
Definition chunk_choice_names : list string :=
    ["index"; "delta"; "logprobs"; "finish_reason"; "stop_reason"].
#[export] Instance chunk_choice_from_value : FromValue ChatCompletionChunkChoice := fun v =>
  f ← struct_fields chunk_choice_names v;
  index ← required (FromValue0 := u32_from_value) "index" f; delta ← required "delta" f;
  logprobs ← optional "logprobs" f; finish_reason ← optional "finish_reason" f;
  stop_reason ← optional "stop_reason" f;
  Some {| ckc_index := index; ckc_delta := delta; ckc_logprobs := logprobs; ckc_finish_reason := finish_reason;
          ckc_stop_reason := stop_reason |}.

Definition chat_chunk_fields (x : ChatCompletionChunk) : gmap string Value :=
  field "id" (cck_id x) ∪ field "object" (cck_object x) ∪ field "created" (value_integer (cck_created x))
  ∪ field "model" (cck_model x) ∪ optional_field "system_fingerprint" (cck_system_fingerprint x)
  ∪ field "choices" (cck_choices x) ∪ optional_field "service_tier" (cck_service_tier x)
  ∪ optional_field "usage" (cck_usage x) ∪ optional_field "detections" (cck_detections x)
  ∪ list_field "warnings" (cck_warnings x).
#[export] Instance chat_chunk_serialize : Serialize ChatCompletionChunk :=
  fun x => value_object (chat_chunk_fields x).
Definition chat_chunk_names : list string :=
    ["id"; "object"; "created"; "model"; "system_fingerprint";
     "choices"; "service_tier"; "usage"; "detections"; "warnings"].
#[export] Instance chat_chunk_from_value : FromValue ChatCompletionChunk := fun v =>
  f ← struct_fields chat_chunk_names v;
  id ← required "id" f; object_ ← required "object" f;
  created ← required (FromValue0 := int_from_value 64) "created" f; model ← required "model" f;
  system_fingerprint ← optional "system_fingerprint" f; choices ← required "choices" f;
  service_tier ← optional "service_tier" f; usage ← optional "usage" f; detections ← optional "detections" f;
  warnings ← defaulted [] "warnings" f;
  Some {| cck_id := id; cck_object := object_; cck_created := created; cck_model := model;
          cck_system_fingerprint := system_fingerprint; cck_choices := choices; cck_service_tier := service_tier;
          cck_usage := usage; cck_detections := detections; cck_warnings := warnings |}.

Definition completion_choice_fields (x : CompletionChoice) : gmap string Value :=
  field "index" (value_integer (cch_index x)) ∪ field "text" (cch_text x) ∪ field "logprobs" (cch_logprobs x)
  ∪ field "finish_reason" (cch_finish_reason x) ∪ field "stop_reason" (cch_stop_reason x)
  ∪ optional_field "prompt_logprobs" (prompt_logprobs_value <$> cch_prompt_logprobs x).
#[export] Instance completion_choice_serialize : Serialize CompletionChoice :=
  fun x => value_object (completion_choice_fields x).
Definition completion_choice_names : list string :=
    ["index"; "text"; "logprobs"; "finish_reason";
     "stop_reason"; "prompt_logprobs"].
#[export] Instance completion_choice_from_value : FromValue CompletionChoice := fun v =>
  f ← struct_fields completion_choice_names v;
  index ← required (FromValue0 := u32_from_value) "index" f; text ← required "text" f;
  logprobs ← optional "logprobs" f; finish_reason ← optional "finish_reason" f;
  stop_reason ← optional "stop_reason" f;
  prompt_logprobs ← optional (FromValue0 := prompt_logprobs_from_value) "prompt_logprobs" f;
  Some {| cch_index := index; cch_text := text; cch_logprobs := logprobs; cch_finish_reason := finish_reason;
          cch_stop_reason := stop_reason; cch_prompt_logprobs := prompt_logprobs |}.

Definition completion_fields (x : Completion) : gmap string Value :=
  field "id" (cp_id x) ∪ field "object" (cp_object x) ∪ field "created" (value_integer (cp_created x))
  ∪ field "model" (cp_model x) ∪ field "choices" (cp_choices x) ∪ field "usage" (cp_usage x)
  ∪ optional_field "system_fingerprint" (cp_system_fingerprint x)
  ∪ optional_field "detections" (cp_detections x) ∪ list_field "warnings" (cp_warnings x).
#[export] Instance completion_serialize : Serialize Completion := fun x => value_object (completion_fields x).
Definition completion_names : list string :=
    ["id"; "object"; "created"; "model"; "choices"; "usage";
     "system_fingerprint"; "detections"; "warnings"].
#[export] Instance completion_from_value : FromValue Completion := fun v =>
  f ← struct_fields completion_names v;
  id ← required "id" f; object_ ← required "object" f;
  created ← required (FromValue0 := int_from_value 64) "created" f; model ← required "model" f;
  choices ← required "choices" f; usage ← optional "usage" f;
  system_fingerprint ← optional "system_fingerprint" f; detections ← optional "detections" f;
  warnings ← defaulted [] "warnings" f;
  Some {| cp_id := id; cp_object := object_; cp_created := created; cp_model := model; cp_choices := choices;
          cp_usage := usage; cp_system_fingerprint := system_fingerprint; cp_detections := detections;
          cp_warnings := warnings |}.

(** *** Errors of the models *)
Definition error_info_fields (x : ErrorInfo) : gmap string Value :=
  field "message" (ei_message x) ∪ field "type" (ei_type x) ∪ field "param" (ei_param x)
  ∪ field "code" (value_integer (ei_code x)).
#[export] Instance error_info_serialize : Serialize ErrorInfo := fun x => value_object (error_info_fields x).
Definition error_info_names : list string :=
    ["message"; "type"; "param"; "code"].
#[export] Instance error_info_from_value : FromValue ErrorInfo := fun v =>
  f ← struct_fields error_info_names v;
  message ← required "message" f; type_ ← required "type" f; param ← optional "param" f;
  code ← required (FromValue0 := uint_from_value 16) "code" f;
  Some {| ei_message := message; ei_type := type_; ei_param := param; ei_code := code |}.

Definition error_v1_fields (x : ErrorResponseV1) : gmap string Value :=
  field "object" (v1_object x) ∪ field "message" (v1_message x) ∪ field "type" (v1_type x)
  ∪ field "param" (v1_param x) ∪ field "code" (value_integer (v1_code x)).
#[export] Instance error_v1_serialize : Serialize ErrorResponseV1 := fun x => value_object (error_v1_fields x).
Definition error_v1_names : list string :=
    ["object"; "message"; "type"; "param"; "code"].
#[export] Instance error_v1_from_value : FromValue ErrorResponseV1 := fun v =>
  f ← struct_fields error_v1_names v;
  object_ ← required "object" f; message ← required "message" f; type_ ← required "type" f;
  param ← optional "param" f; code ← required (FromValue0 := uint_from_value 16) "code" f;
  Some {| v1_object := object_; v1_message := message; v1_type := type_; v1_param := param; v1_code := code |}.

Definition error_v2_fields (x : ErrorResponseV2) : gmap string Value :=
  field "error" (v2_error x).
#[export] Instance error_v2_serialize : Serialize ErrorResponseV2 := fun x => value_object (error_v2_fields x).
Definition error_v2_names : list string :=
    ["error"].
#[export] Instance error_v2_from_value : FromValue ErrorResponseV2 := fun v =>
  f ← struct_fields error_v2_names v;
  error ← required "error" f;
  Some {| v2_error := error |}.

(** [#[serde(untagged)]] *)
#[export] Instance error_response_serialize : Serialize ErrorResponse := fun e =>
  match e with V1 v1 => to_value v1 | V2 v2 => to_value v2 end.
#[export] Instance error_response_from_value : FromValue ErrorResponse := fun v =>
  untagged (V1 <$> from_value v) (V2 <$> from_value v).

(** *** The answers of detectors *)
Definition models_evidence_fields (x : ModelsEvidence) : gmap string Value :=
  field "name" (mev_name x) ∪ optional_field "value" (mev_value x)
  ∪ optional_field "score" (value_f64 <$> mev_score x).
#[export] Instance models_evidence_serialize : Serialize ModelsEvidence :=
  fun x => value_object (models_evidence_fields x).
Definition models_evidence_names : list string :=
    ["name"; "value"; "score"].
#[export] Instance models_evidence_from_value : FromValue ModelsEvidence := fun v =>
  f ← struct_fields models_evidence_names v;
  name ← required "name" f; value ← optional "value" f;
  score ← optional (FromValue0 := f64_from_value) "score" f;
  Some {| mev_name := name; mev_value := value; mev_score := score |}.

Definition evidence_obj_fields (x : EvidenceObj) : gmap string Value :=
  field "name" (evo_name x) ∪ optional_field "value" (evo_value x)
  ∪ optional_field "score" (value_f64 <$> evo_score x) ∪ optional_field "evidence" (evo_evidence x).
#[export] Instance evidence_obj_serialize : Serialize EvidenceObj := fun x => value_object (evidence_obj_fields x).
Definition evidence_obj_names : list string :=
    ["name"; "value"; "score"; "evidence"].
#[export] Instance evidence_obj_from_value : FromValue EvidenceObj := fun v =>
  f ← struct_fields evidence_obj_names v;
  name ← required "name" f; value ← optional "value" f;
  score ← optional (FromValue0 := f64_from_value) "score" f; evidence ← optional "evidence" f;
  Some {| evo_name := name; evo_value := value; evo_score := score; evo_evidence := evidence |}.

Definition detection_result_fields (x : DetectionResult) : gmap string Value :=
  field "detection_type" (dr_detection_type x) ∪ field "detection" (dr_detection x)
  ∪ field "detector_id" (dr_detector_id x) ∪ field "score" (value_f64 (dr_score x))
  ∪ optional_field "evidence" (dr_evidence x) ∪ map_field "metadata" (dr_metadata x).
#[export] Instance detection_result_serialize : Serialize DetectionResult :=
  fun x => value_object (detection_result_fields x).
Definition detection_result_names : list string :=
    ["detection_type"; "detection"; "detector_id"; "score";
     "evidence"; "metadata"].
#[export] Instance detection_result_from_value : FromValue DetectionResult := fun v =>
  f ← struct_fields detection_result_names v;
  detection_type ← required "detection_type" f; detection ← required "detection" f;
  detector_id ← optional "detector_id" f; score ← required (FromValue0 := f64_from_value) "score" f;
  evidence ← optional "evidence" f; metadata ← defaulted ∅ "metadata" f;
  Some {| dr_detection_type := detection_type; dr_detection := detection; dr_detector_id := detector_id;
          dr_score := score; dr_evidence := evidence; dr_metadata := metadata |}.

Definition content_response_fields (x : ContentAnalysisResponse) : gmap string Value :=
  field "start" (value_integer (car_start x)) ∪ field "end" (value_integer (car_end x))
  ∪ field "text" (car_text x) ∪ field "detection" (car_detection x)
  ∪ field "detection_type" (car_detection_type x) ∪ field "detector_id" (car_detector_id x)
  ∪ field "score" (value_f64 (car_score x)) ∪ optional_field "evidence" (car_evidence x)
  ∪ map_field "metadata" (car_metadata x).
#[export] Instance content_response_serialize : Serialize ContentAnalysisResponse :=
  fun x => value_object (content_response_fields x).
Definition content_response_names : list string :=
    ["start"; "end"; "text"; "detection"; "detection_type";
     "detector_id"; "score"; "evidence"; "metadata"].
#[export] Instance content_response_from_value : FromValue ContentAnalysisResponse := fun v =>
  f ← struct_fields content_response_names v;
  start ← required (FromValue0 := usize_from_value) "start" f;
  end_ ← required (FromValue0 := usize_from_value) "end" f; text ← required "text" f;
  detection ← required "detection" f; detection_type ← required "detection_type" f;
  detector_id ← optional "detector_id" f; score ← required (FromValue0 := f64_from_value) "score" f;
  evidence ← optional "evidence" f; metadata ← defaulted ∅ "metadata" f;
  Some {| car_start := start; car_end := end_; car_text := text; car_detection := detection;
          car_detection_type := detection_type; car_detector_id := detector_id; car_score := score;
          car_evidence := evidence; car_metadata := metadata |}.

#[export] Instance detector_error_from_value : FromValue DetectorError := fun v =>
  f ← struct_fields ["code"; "message"] v;
  code ← required (FromValue0 := uint_from_value 16) "code" f; message ← required "message" f;
  Some {| detector_error_code := code; detector_error_message := message |}.

(** *** The other endpoints' answers *)
Definition token_classification_fields (x : TokenClassificationResult) : gmap string Value :=
  field "start" (value_integer (tcr_start x)) ∪ field "end" (value_integer (tcr_end x))
  ∪ field "word" (tcr_word x) ∪ field "entity" (tcr_entity x) ∪ field "entity_group" (tcr_entity_group x)
  ∪ field "detector_id" (tcr_detector_id x) ∪ field "score" (value_f64 (tcr_score x))
  ∪ optional_field "token_count" (value_integer <$> tcr_token_count x).
#[export] Instance token_classification_serialize : Serialize TokenClassificationResult :=
  fun x => value_object (token_classification_fields x).
Definition token_classification_names : list string :=
    ["start"; "end"; "word"; "entity"; "entity_group";
     "detector_id"; "score"; "token_count"].
#[export] Instance token_classification_from_value : FromValue TokenClassificationResult := fun v =>
  f ← struct_fields token_classification_names v;
  start ← required (FromValue0 := u32_from_value) "start" f;
  end_ ← required (FromValue0 := u32_from_value) "end" f; word ← required "word" f;
  entity ← required "entity" f; entity_group ← required "entity_group" f;
  detector_id ← optional "detector_id" f; score ← required (FromValue0 := f64_from_value) "score" f;
  token_count ← optional (FromValue0 := u32_from_value) "token_count" f;
  Some {| tcr_start := start; tcr_end := end_; tcr_word := word; tcr_entity := entity;
          tcr_entity_group := entity_group; tcr_detector_id := detector_id; tcr_score := score;
          tcr_token_count := token_count |}.

Definition generated_token_fields (x : GeneratedToken) : gmap string Value :=
  field "text" (gt_text x) ∪ optional_field "logprob" (value_f64 <$> gt_logprob x)
  ∪ optional_field "rank" (value_integer <$> gt_rank x).
#[export] Instance generated_token_serialize : Serialize GeneratedToken :=
  fun x => value_object (generated_token_fields x).
Definition generated_token_names : list string :=
    ["text"; "logprob"; "rank"].
#[export] Instance generated_token_from_value : FromValue GeneratedToken := fun v =>
  f ← struct_fields generated_token_names v;
  text ← required "text" f; logprob ← optional (FromValue0 := f64_from_value) "logprob" f;
  rank ← optional (FromValue0 := u32_from_value) "rank" f;
  Some {| gt_text := text; gt_logprob := logprob; gt_rank := rank |}.

Definition detection_warning_fields (x : DetectionWarning) : gmap string Value :=
  optional_field "id" (warning_id x) ∪ optional_field "message" (warning_message x).
#[export] Instance detection_warning_serialize : Serialize DetectionWarning :=
  fun x => value_object (detection_warning_fields x).
Definition detection_warning_names : list string :=
    ["id"; "message"].
#[export] Instance detection_warning_from_value : FromValue DetectionWarning := fun v =>
  f ← struct_fields detection_warning_names v;
  id ← optional "id" f; message ← optional "message" f;
  Some {| warning_id := id; warning_message := message |}.

Definition classification_results_fields (x : TextGenTokenClassificationResults) : gmap string Value :=
  optional_field "input" (tgr_input x) ∪ optional_field "output" (tgr_output x).
#[export] Instance classification_results_serialize : Serialize TextGenTokenClassificationResults :=
  fun x => value_object (classification_results_fields x).
Definition classification_results_names : list string :=
    ["input"; "output"].
#[export] Instance classification_results_from_value : FromValue TextGenTokenClassificationResults := fun v =>
  f ← struct_fields classification_results_names v;
  input ← optional "input" f; output ← optional "output" f;
  Some {| tgr_input := input; tgr_output := output |}.

Definition classified_result_fields (x : ClassifiedGeneratedTextResult) : gmap string Value :=
  optional_field "generated_text" (cg_generated_text x)
  ∪ field "token_classification_results" (cg_token_classification_results x)
  ∪ optional_field "finish_reason" (cg_finish_reason x)
  ∪ optional_field "generated_token_count" (value_integer <$> cg_generated_token_count x)
  ∪ optional_field "seed" (value_integer <$> cg_seed x)
  ∪ field "input_token_count" (value_integer (cg_input_token_count x))
  ∪ optional_field "warnings" (cg_warnings x) ∪ optional_field "tokens" (cg_tokens x)
  ∪ optional_field "input_tokens" (cg_input_tokens x).
#[export] Instance classified_result_serialize : Serialize ClassifiedGeneratedTextResult :=
  fun x => value_object (classified_result_fields x).
Definition classified_result_names : list string :=
    ["generated_text"; "token_classification_results";
     "finish_reason"; "generated_token_count"; "seed"; "input_token_count"; "warnings"; "tokens"; "input_tokens"].
#[export] Instance classified_result_from_value : FromValue ClassifiedGeneratedTextResult := fun v =>
  f ← struct_fields classified_result_names v;
  generated_text ← optional "generated_text" f;
  token_classification_results ← required "token_classification_results" f;
  finish_reason ← optional "finish_reason" f;
  generated_token_count ← optional (FromValue0 := u32_from_value) "generated_token_count" f;
  seed ← optional (FromValue0 := u32_from_value) "seed" f;
  input_token_count ← required (FromValue0 := u32_from_value) "input_token_count" f;
  warnings ← optional "warnings" f; tokens ← optional "tokens" f; input_tokens ← optional "input_tokens" f;
  Some {| cg_generated_text := generated_text; cg_token_classification_results := token_classification_results;
          cg_finish_reason := finish_reason; cg_generated_token_count := generated_token_count; cg_seed := seed;
          cg_input_token_count := input_token_count; cg_warnings := warnings; cg_tokens := tokens;
          cg_input_tokens := input_tokens |}.

Definition classified_stream_result_fields (x : ClassifiedGeneratedTextStreamResult) : gmap string Value :=
  optional_field "generated_text" (cs_generated_text x)
  ∪ field "token_classification_results" (cs_token_classification_results x)
  ∪ optional_field "finish_reason" (cs_finish_reason x)
  ∪ optional_field "generated_token_count" (value_integer <$> cs_generated_token_count x)
  ∪ optional_field "seed" (value_integer <$> cs_seed x)
  ∪ field "input_token_count" (value_integer (cs_input_token_count x))
  ∪ optional_field "warnings" (cs_warnings x) ∪ optional_field "tokens" (cs_tokens x)
  ∪ optional_field "input_tokens" (cs_input_tokens x)
  ∪ optional_field "processed_index" (value_integer <$> cs_processed_index x)
  ∪ optional_field "start_index" (value_integer <$> cs_start_index x).
#[export] Instance classified_stream_result_serialize : Serialize ClassifiedGeneratedTextStreamResult :=
  fun x => value_object (classified_stream_result_fields x).
Definition classified_stream_result_names : list string :=
    ["generated_text"; "token_classification_results";
     "finish_reason"; "generated_token_count"; "seed"; "input_token_count"; "warnings"; "tokens"; "input_tokens";
     "processed_index"; "start_index"].
#[export] Instance classified_stream_result_from_value : FromValue ClassifiedGeneratedTextStreamResult := fun v =>
  f ← struct_fields classified_stream_result_names v;
  generated_text ← optional "generated_text" f;
  token_classification_results ← required "token_classification_results" f;
  finish_reason ← optional "finish_reason" f;
  generated_token_count ← optional (FromValue0 := u32_from_value) "generated_token_count" f;
  seed ← optional (FromValue0 := u32_from_value) "seed" f;
  input_token_count ← required (FromValue0 := u32_from_value) "input_token_count" f;
  warnings ← optional "warnings" f; tokens ← optional "tokens" f; input_tokens ← optional "input_tokens" f;
  processed_index ← optional (FromValue0 := u32_from_value) "processed_index" f;
  start_index ← optional (FromValue0 := u32_from_value) "start_index" f;
  Some {| cs_generated_text := generated_text; cs_token_classification_results := token_classification_results;
          cs_finish_reason := finish_reason; cs_generated_token_count := generated_token_count; cs_seed := seed;
          cs_input_token_count := input_token_count; cs_warnings := warnings; cs_tokens := tokens;
          cs_input_tokens := input_tokens; cs_processed_index := processed_index; cs_start_index := start_index |}.

Definition text_content_result_fields (x : TextContentDetectionResult) : gmap string Value :=
  field "detections" (tcd_detections x).
#[export] Instance text_content_result_serialize : Serialize TextContentDetectionResult :=
  fun x => value_object (text_content_result_fields x).
Definition text_content_result_names : list string :=
    ["detections"].
#[export] Instance text_content_result_from_value : FromValue TextContentDetectionResult := fun v =>
  f ← struct_fields text_content_result_names v;
  detections ← required "detections" f;
  Some {| tcd_detections := detections |}.

Definition generation_detection_result_fields (x : GenerationWithDetectionResult) : gmap string Value :=
  field "generated_text" (Models.gdr_generated_text x) ∪ field "detections" (Models.gdr_detections x)
  ∪ field "input_token_count" (value_integer (Models.gdr_input_token_count x)).
#[export] Instance generation_detection_result_serialize : Serialize GenerationWithDetectionResult :=
  fun x => value_object (generation_detection_result_fields x).
Definition generation_detection_result_names : list string :=
    ["generated_text"; "detections";
     "input_token_count"].
#[export] Instance generation_detection_result_from_value : FromValue GenerationWithDetectionResult := fun v =>
  f ← struct_fields generation_detection_result_names v;
  generated_text ← required "generated_text" f; detections ← required "detections" f;
  input_token_count ← required (FromValue0 := u32_from_value) "input_token_count" f;
  Some {| Models.gdr_generated_text := generated_text; Models.gdr_detections := detections;
          Models.gdr_input_token_count := input_token_count |}.

Definition context_docs_result_fields (x : ContextDocsResult) : gmap string Value :=
  field "detections" (cdr_detections x).
#[export] Instance context_docs_result_serialize : Serialize ContextDocsResult :=
  fun x => value_object (context_docs_result_fields x).
Definition context_docs_result_names : list string :=
    ["detections"].
#[export] Instance context_docs_result_from_value : FromValue ContextDocsResult := fun v =>
  f ← struct_fields context_docs_result_names v;
  detections ← required "detections" f;
  Some {| cdr_detections := detections |}.

Definition chat_detection_result_fields (x : ChatDetectionResult) : gmap string Value :=
  field "detections" (chr_detections x).
#[export] Instance chat_detection_result_serialize : Serialize ChatDetectionResult :=
  fun x => value_object (chat_detection_result_fields x).
Definition chat_detection_result_names : list string :=
    ["detections"].
#[export] Instance chat_detection_result_from_value : FromValue ChatDetectionResult := fun v =>
  f ← struct_fields chat_detection_result_names v;
  detections ← required "detections" f;
  Some {| chr_detections := detections |}.

Definition on_generation_result_fields (x : DetectionOnGenerationResult) : gmap string Value :=
  field "detections" (dgr_detections x).
#[export] Instance on_generation_result_serialize : Serialize DetectionOnGenerationResult :=
  fun x => value_object (on_generation_result_fields x).
Definition on_generation_result_names : list string :=
    ["detections"].
#[export] Instance on_generation_result_from_value : FromValue DetectionOnGenerationResult := fun v =>
  f ← struct_fields on_generation_result_names v;
  detections ← required "detections" f;
  Some {| dgr_detections := detections |}.

Definition content_stream_response_fields (x : StreamingContentDetectionResponse) : gmap string Value :=
  field "detections" (scr_detections x) ∪ field "processed_index" (value_integer (scr_processed_index x))
  ∪ field "start_index" (value_integer (scr_start_index x)).
#[export] Instance content_stream_response_serialize : Serialize StreamingContentDetectionResponse :=
  fun x => value_object (content_stream_response_fields x).
Definition content_stream_response_names : list string :=
    ["detections"; "processed_index"; "start_index"].
#[export] Instance content_stream_response_from_value : FromValue StreamingContentDetectionResponse := fun v =>
  f ← struct_fields content_stream_response_names v;
  detections ← required "detections" f;
  processed_index ← required (FromValue0 := u32_from_value) "processed_index" f;
  start_index ← required (FromValue0 := u32_from_value) "start_index" f;
  Some {| scr_detections := detections; scr_processed_index := processed_index; scr_start_index := start_index |}.

(** [http_serde::status_code]: the number. *)
#[export] Instance server_error_serialize : Serialize ServerError := fun e =>
  value_object (field "code" (value_integer (code e)) ∪ field "details" (details e)).
End formats.

(** ** Round trips *)
Section round_trips.
Context {SJ : SerdeJson} {JS : Json} {JV : JsonView} {JL : JsonViewLaws JS JV}
  {JF : JsonFloats} {JFL : JsonFloatsLaws JV JF}.

Lemma codes_top_logprobs l :
  Forall (map_Forall (fun _ => is_f32)) l -> codes top_logprobs_from_value top_logprobs_value l.
Proof.
  intros H. apply codes_list. eapply Forall_impl; [exact H|]. intros m Hm.
  apply (codes_map f32_from_value). intros k x Hx. by apply codes_f32, (Hm k).
Qed.
#[local] Hint Resolve codes_top_logprobs : json.
#[local] Ltac read_special :=
  lazymatch goal with
  | |- context [top_logprobs_from_value] => let f := constr:(top_logprobs_value) in read_codes f
  end.

(** The struct's fields are read one by one. *)
#[local] Tactic Notation "round_trip" reference(serialize) reference(from) reference(fields) :=
  let x := fresh "x" in let H := fresh "H" in intros x H; do 2 red in H; destruct x; simpl in H; destruct_and?;
  unfold reads, from_value, to_value, serialize, from, fields, Metadata in *;
  rewrite struct_fields_object; cbn [mbind option_bind];
  repeat first [read_field|read_special; cbn [mbind option_bind]]; done.

#[export] Instance warning_reason_valid : Valid DetectionWarningReason := fun _ => True.
#[export] Instance warning_reason_round_trip : RoundTrip DetectionWarningReason.
Proof.
  intros r _. unfold reads, from_value, warning_reason_from_value, to_value, warning_reason_serialize.
  rewrite variant_name_string. by destruct r.
Qed.
#[export] Instance warning_reason_never_null : NeverNull DetectionWarningReason.
Proof. intros r. apply string_not_null. Qed.
#[export] Instance finish_reason_valid : Valid FinishReason := fun _ => True.
#[export] Instance finish_reason_round_trip : RoundTrip FinishReason.
Proof.
  intros r _. unfold reads, from_value, finish_reason_from_value, to_value, finish_reason_serialize.
  rewrite variant_name_string. by destruct r.
Qed.
#[export] Instance finish_reason_never_null : NeverNull FinishReason.
Proof. intros r. apply string_not_null. Qed.

#[export] Instance prompt_token_details_valid : Valid PromptTokenDetails := fun x =>
  is_uint 32 (ptd_audio_tokens x)
  /\ is_uint 32 (ptd_cached_tokens x).
#[export] Instance prompt_token_details_round_trip : RoundTrip PromptTokenDetails.
Proof. round_trip prompt_token_details_serialize prompt_token_details_from_value prompt_token_details_fields. Qed.
#[export] Instance prompt_token_details_never_null : NeverNull PromptTokenDetails.
Proof. intros x. apply object_not_null. Qed.

#[export] Instance completion_token_details_valid : Valid CompletionTokenDetails := fun x =>
  is_uint 32 (ctd_audio_tokens x)
  /\ is_uint 32 (ctd_reasoning_tokens x).
#[export] Instance completion_token_details_round_trip : RoundTrip CompletionTokenDetails.
Proof. round_trip completion_token_details_serialize completion_token_details_from_value completion_token_details_fields. Qed.
#[export] Instance completion_token_details_never_null : NeverNull CompletionTokenDetails.
Proof. intros x. apply object_not_null. Qed.

#[export] Instance usage_valid : Valid Usage := fun x =>
  is_uint 32 (prompt_tokens x)
  /\ is_uint 32 (total_tokens x) /\ is_uint 32 (completion_tokens x) /\ valid (prompt_token_details x)
  /\ valid (completion_token_details x).
#[export] Instance usage_round_trip : RoundTrip Usage.
Proof. round_trip usage_serialize usage_from_value usage_fields. Qed.
#[export] Instance usage_never_null : NeverNull Usage.
Proof. intros x. apply object_not_null. Qed.

#[export] Instance tokenize_response_valid : Valid TokenizeResponse := fun x =>
  is_uint 32 (tks_count x)
  /\ is_uint 32 (tks_max_model_len x) /\ Forall (is_uint 32) (tks_tokens x).
#[export] Instance tokenize_response_round_trip : RoundTrip TokenizeResponse.
Proof. round_trip tokenize_response_serialize tokenize_response_from_value tokenize_response_fields. Qed.
#[export] Instance tokenize_response_never_null : NeverNull TokenizeResponse.
Proof. intros x. apply object_not_null. Qed.

#[export] Instance logprob_valid : Valid Logprob := fun x =>
  is_f32 (lp_logprob x)
  /\ from_option (is_int 32) True (lp_rank x) /\ valid (lp_decoded_token x).
#[export] Instance logprob_round_trip : RoundTrip Logprob.
Proof. round_trip logprob_serialize logprob_from_value logprob_fields. Qed.
#[export] Instance logprob_never_null : NeverNull Logprob.
Proof. intros x. apply object_not_null. Qed.

Definition prompt_logprobs_valid (l : list (option (gmap string Logprob))) : Prop :=
  Forall (from_option (map_Forall (fun _ => valid)) True) l.
Lemma codes_prompt_logprobs l :
  prompt_logprobs_valid l -> codes prompt_logprobs_from_value prompt_logprobs_value l.
Proof.
  intros H. apply codes_list. eapply Forall_impl; [exact H|]. intros [m|] Hm.
  - apply (nullable_read (map_value to_value m)); [|apply object_not_null].
    apply (codes_map logprob_from_value). intros k x Hx. by apply codes_to_value, (Hm k).
  - unfold from_value, option_from_value, nullable, to_value, option_serialize. simpl. by rewrite view_null.
Qed.
#[local] Hint Resolve codes_prompt_logprobs : json.
#[local] Ltac read_special ::=
  lazymatch goal with
  | |- context [top_logprobs_from_value] => let f := constr:(top_logprobs_value) in read_codes f
  | |- context [prompt_logprobs_from_value] => let f := constr:(prompt_logprobs_value) in read_codes f
  end.

#[export] Instance top_logprob_valid : Valid ChatCompletionTopLogprob := fun x =>
  valid (tlp_token x)
  /\ is_f32 (tlp_logprob x) /\ from_option (Forall (is_uint 8)) True (tlp_bytes x).
#[export] Instance top_logprob_round_trip : RoundTrip ChatCompletionTopLogprob.
Proof. round_trip top_logprob_serialize top_logprob_from_value top_logprob_fields. Qed.
#[export] Instance top_logprob_never_null : NeverNull ChatCompletionTopLogprob.
Proof. intros x. apply object_not_null. Qed.

#[export] Instance chat_logprob_valid : Valid ChatCompletionLogprob := fun x =>
  valid (clp_token x)
  /\ is_f32 (clp_logprob x) /\ from_option (Forall (is_uint 8)) True (clp_bytes x) /\ valid (clp_top_logprobs x).
#[export] Instance chat_logprob_round_trip : RoundTrip ChatCompletionLogprob.
Proof. round_trip chat_logprob_serialize chat_logprob_from_value chat_logprob_fields. Qed.
#[export] Instance chat_logprob_never_null : NeverNull ChatCompletionLogprob.
Proof. intros x. apply object_not_null. Qed.

#[export] Instance chat_logprobs_valid : Valid ChatCompletionLogprobs := fun x =>
  valid (clps_content x)
  /\ valid (clps_refusal x).
#[export] Instance chat_logprobs_round_trip : RoundTrip ChatCompletionLogprobs.
Proof. round_trip chat_logprobs_serialize chat_logprobs_from_value chat_logprobs_fields. Qed.
#[export] Instance chat_logprobs_never_null : NeverNull ChatCompletionLogprobs.
Proof. intros x. apply object_not_null. Qed.

#[export] Instance completion_logprobs_valid : Valid CompletionLogprobs := fun x =>
  valid (cl_tokens x)
  /\ Forall is_f32 (cl_token_logprobs x) /\ Forall (map_Forall (fun _ => is_f32)) (cl_top_logprobs x)
  /\ Forall (is_uint 32) (cl_text_offset x).
#[export] Instance completion_logprobs_round_trip : RoundTrip CompletionLogprobs.
Proof. round_trip completion_logprobs_serialize completion_logprobs_from_value completion_logprobs_fields. Qed.
#[export] Instance completion_logprobs_never_null : NeverNull CompletionLogprobs.
Proof. intros x. apply object_not_null. Qed.

#[export] Instance stop_reason_valid : Valid StopReason := fun r =>
  match r with StopString _ => True | StopInteger n => is_int 64 n end.
#[export] Instance stop_reason_round_trip : RoundTrip StopReason.
Proof.
  intros [s|n] H; unfold reads, from_value, stop_reason_from_value, to_value, stop_reason_serialize.
  - unfold from_value, string_from_value. by rewrite view_string.
  - unfold from_value at 1, string_from_value. rewrite view_integer. simpl. by rewrite reads_int.
Qed.
#[export] Instance stop_reason_never_null : NeverNull StopReason.
Proof. intros [s|n]; [apply string_not_null|apply integer_not_null]. Qed.

#[export] Instance evidence_valid : Valid Evidence := fun x =>
  valid (ev_name x) /\ valid (ev_value x)
  /\ from_option (is_f64) True (ev_score x).
#[export] Instance evidence_round_trip : RoundTrip Evidence.
Proof. round_trip evidence_serialize evidence_from_value evidence_fields. Qed.
#[export] Instance evidence_never_null : NeverNull Evidence.
Proof. intros x. apply object_not_null. Qed.

#[export] Instance detection_evidence_valid : Valid DetectionEvidence := fun x =>
  valid (de_name x)
  /\ valid (de_value x) /\ from_option (is_f64) True (de_score x) /\ valid (de_evidence x).
#[export] Instance detection_evidence_round_trip : RoundTrip DetectionEvidence.
Proof. round_trip detection_evidence_serialize detection_evidence_from_value detection_evidence_fields. Qed.
#[export] Instance detection_evidence_never_null : NeverNull DetectionEvidence.
Proof. intros x. apply object_not_null. Qed.

#[export] Instance detection_valid : Valid Detection := fun x =>
  from_option (is_uint 64) True (det_start x)
  /\ from_option (is_uint 64) True (det_end x) /\ valid (det_text x) /\ valid (det_detector_id x)
  /\ valid (det_detection_type x) /\ valid (det_detection x) /\ is_f64 (det_score x) /\ valid (det_evidence x).
#[export] Instance detection_round_trip : RoundTrip Detection.
Proof. round_trip detection_serialize detection_from_value detection_fields. Qed.
#[export] Instance detection_never_null : NeverNull Detection.
Proof. intros x. apply object_not_null. Qed.

#[export] Instance input_detections_valid : Valid CompletionInputDetections := fun x =>
  is_uint 32 (cid_message_index x)
  /\ valid (cid_results x).
#[export] Instance input_detections_round_trip : RoundTrip CompletionInputDetections.
Proof. round_trip input_detections_serialize input_detections_from_value input_detections_fields. Qed.
#[export] Instance input_detections_never_null : NeverNull CompletionInputDetections.
Proof. intros x. apply object_not_null. Qed.

#[export] Instance output_detections_valid : Valid CompletionOutputDetections := fun x =>
  is_uint 32 (cod_choice_index x)
  /\ valid (cod_results x).
#[export] Instance output_detections_round_trip : RoundTrip CompletionOutputDetections.
Proof. round_trip output_detections_serialize output_detections_from_value output_detections_fields. Qed.
#[export] Instance output_detections_never_null : NeverNull CompletionOutputDetections.
Proof. intros x. apply object_not_null. Qed.

#[export] Instance completion_detections_valid : Valid CompletionDetections := fun x =>
  valid (cds_input x)
  /\ valid (cds_output x).
#[export] Instance completion_detections_round_trip : RoundTrip CompletionDetections.
Proof. round_trip completion_detections_serialize completion_detections_from_value completion_detections_fields. Qed.
#[export] Instance completion_detections_never_null : NeverNull CompletionDetections.
Proof. intros x. apply object_not_null. Qed.

#[export] Instance completion_warning_valid : Valid CompletionDetectionWarning := fun x =>
  valid (cdw_type x)
  /\ valid (cdw_message x).
#[export] Instance completion_warning_round_trip : RoundTrip CompletionDetectionWarning.
Proof. round_trip completion_warning_serialize completion_warning_from_value completion_warning_fields. Qed.
#[export] Instance completion_warning_never_null : NeverNull CompletionDetectionWarning.
Proof. intros x. apply object_not_null. Qed.

#[export] Instance chat_choice_valid : Valid ChatCompletionChoice := fun x =>
  is_uint 32 (ccc_index x)
  /\ valid (ccc_message x) /\ valid (ccc_logprobs x) /\ valid (ccc_finish_reason x) /\ valid (ccc_stop_reason x).
#[export] Instance chat_choice_round_trip : RoundTrip ChatCompletionChoice.
Proof. round_trip chat_choice_serialize chat_choice_from_value chat_choice_fields. Qed.
#[export] Instance chat_choice_never_null : NeverNull ChatCompletionChoice.
Proof. intros x. apply object_not_null. Qed.

#[export] Instance chat_completion_valid : Valid ChatCompletion := fun x =>
  valid (cc_id x)
  /\ valid (cc_object x) /\ is_int 64 (cc_created x) /\ valid (cc_model x) /\ valid (cc_choices x)
  /\ valid (cc_usage x) /\ from_option (prompt_logprobs_valid) True (cc_prompt_logprobs x)
  /\ valid (cc_system_fingerprint x) /\ valid (cc_service_tier x) /\ valid (cc_detections x)
  /\ valid (cc_warnings x).
#[export] Instance chat_completion_round_trip : RoundTrip ChatCompletion.
Proof. round_trip chat_completion_serialize chat_completion_from_value chat_completion_fields. Qed.
#[export] Instance chat_completion_never_null : NeverNull ChatCompletion.
Proof. intros x. apply object_not_null. Qed.

#[export] Instance delta_valid : Valid ChatCompletionDelta := fun x =>
  valid (delta_role x)
  /\ valid (delta_content x) /\ valid (delta_refusal x) /\ valid (delta_tool_calls x).
#[export] Instance delta_round_trip : RoundTrip ChatCompletionDelta.
Proof. round_trip delta_serialize delta_from_value delta_fields. Qed.
#[export] Instance delta_never_null : NeverNull ChatCompletionDelta.
Proof. intros x. apply object_not_null. Qed.

#[export] Instance chunk_choice_valid : Valid ChatCompletionChunkChoice := fun x =>
  is_uint 32 (ckc_index x)
  /\ valid (ckc_delta x) /\ valid (ckc_logprobs x) /\ valid (ckc_finish_reason x) /\ valid (ckc_stop_reason x).
#[export] Instance chunk_choice_round_trip : RoundTrip ChatCompletionChunkChoice.
Proof. round_trip chunk_choice_serialize chunk_choice_from_value chunk_choice_fields. Qed.
#[export] Instance chunk_choice_never_null : NeverNull ChatCompletionChunkChoice.
Proof. intros x. apply object_not_null. Qed.

#[export] Instance chat_chunk_valid : Valid ChatCompletionChunk := fun x =>
  valid (cck_id x)
  /\ valid (cck_object x) /\ is_int 64 (cck_created x) /\ valid (cck_model x)
  /\ valid (cck_system_fingerprint x) /\ valid (cck_choices x) /\ valid (cck_service_tier x)
  /\ valid (cck_usage x) /\ valid (cck_detections x) /\ valid (cck_warnings x).
#[export] Instance chat_chunk_round_trip : RoundTrip ChatCompletionChunk.
Proof. round_trip chat_chunk_serialize chat_chunk_from_value chat_chunk_fields. Qed.
#[export] Instance chat_chunk_never_null : NeverNull ChatCompletionChunk.
Proof. intros x. apply object_not_null. Qed.

#[export] Instance completion_choice_valid : Valid CompletionChoice := fun x =>
  is_uint 32 (cch_index x)
  /\ valid (cch_text x) /\ valid (cch_logprobs x) /\ valid (cch_finish_reason x) /\ valid (cch_stop_reason x)
  /\ from_option (prompt_logprobs_valid) True (cch_prompt_logprobs x).
#[export] Instance completion_choice_round_trip : RoundTrip CompletionChoice.
Proof. round_trip completion_choice_serialize completion_choice_from_value completion_choice_fields. Qed.
#[export] Instance completion_choice_never_null : NeverNull CompletionChoice.
Proof. intros x. apply object_not_null. Qed.

#[export] Instance completion_valid : Valid Completion := fun x =>
  valid (cp_id x) /\ valid (cp_object x)
  /\ is_int 64 (cp_created x) /\ valid (cp_model x) /\ valid (cp_choices x) /\ valid (cp_usage x)
  /\ valid (cp_system_fingerprint x) /\ valid (cp_detections x) /\ valid (cp_warnings x).
#[export] Instance completion_round_trip : RoundTrip Completion.
Proof. round_trip completion_serialize completion_from_value completion_fields. Qed.
#[export] Instance completion_never_null : NeverNull Completion.
Proof. intros x. apply object_not_null. Qed.

#[export] Instance error_info_valid : Valid ErrorInfo := fun x =>
  valid (ei_message x) /\ valid (ei_type x)
  /\ valid (ei_param x) /\ is_uint 16 (ei_code x).
#[export] Instance error_info_round_trip : RoundTrip ErrorInfo.
Proof. round_trip error_info_serialize error_info_from_value error_info_fields. Qed.
#[export] Instance error_info_never_null : NeverNull ErrorInfo.
Proof. intros x. apply object_not_null. Qed.

#[export] Instance error_v1_valid : Valid ErrorResponseV1 := fun x =>
  valid (v1_object x)
  /\ valid (v1_message x) /\ valid (v1_type x) /\ valid (v1_param x) /\ is_uint 16 (v1_code x).
#[export] Instance error_v1_round_trip : RoundTrip ErrorResponseV1.
Proof. round_trip error_v1_serialize error_v1_from_value error_v1_fields. Qed.
#[export] Instance error_v1_never_null : NeverNull ErrorResponseV1.
Proof. intros x. apply object_not_null. Qed.

#[export] Instance error_v2_valid : Valid ErrorResponseV2 := fun x =>
  valid (v2_error x).
#[export] Instance error_v2_round_trip : RoundTrip ErrorResponseV2.
Proof. round_trip error_v2_serialize error_v2_from_value error_v2_fields. Qed.
#[export] Instance error_v2_never_null : NeverNull ErrorResponseV2.
Proof. intros x. apply object_not_null. Qed.

#[export] Instance error_response_valid : Valid ErrorResponse := fun e =>
  match e with V1 v1 => valid v1 | V2 v2 => valid v2 end.
(** The two formats are not confused: the first has a message, which the second has not. *)
Lemma error_v2_not_v1 (v2 : ErrorResponseV2) : (from_value (to_value v2) : option ErrorResponseV1) = None.
Proof.
  unfold from_value, error_v1_from_value, to_value, error_v2_serialize.
  rewrite struct_fields_object. cbn [mbind option_bind].
  unfold required at 1, error_v2_fields. simpl. by lookup_fields.
Qed.
#[export] Instance error_response_round_trip : RoundTrip ErrorResponse.
Proof.
  intros [v1|v2] H; unfold reads, from_value, error_response_from_value, to_value, error_response_serialize.
  - by rewrite (round_trip (T := ErrorResponseV1) v1 H).
  - by rewrite error_v2_not_v1, (round_trip (T := ErrorResponseV2) v2 H).
Qed.

#[export] Instance models_evidence_valid : Valid ModelsEvidence := fun x =>
  valid (mev_name x)
  /\ valid (mev_value x) /\ from_option (is_f64) True (mev_score x).
#[export] Instance models_evidence_round_trip : RoundTrip ModelsEvidence.
Proof. round_trip models_evidence_serialize models_evidence_from_value models_evidence_fields. Qed.
#[export] Instance models_evidence_never_null : NeverNull ModelsEvidence.
Proof. intros x. apply object_not_null. Qed.

#[export] Instance evidence_obj_valid : Valid EvidenceObj := fun x =>
  valid (evo_name x)
  /\ valid (evo_value x) /\ from_option (is_f64) True (evo_score x) /\ valid (evo_evidence x).
#[export] Instance evidence_obj_round_trip : RoundTrip EvidenceObj.
Proof. round_trip evidence_obj_serialize evidence_obj_from_value evidence_obj_fields. Qed.
#[export] Instance evidence_obj_never_null : NeverNull EvidenceObj.
Proof. intros x. apply object_not_null. Qed.

#[export] Instance detection_result_valid : Valid DetectionResult := fun x =>
  valid (dr_detection_type x)
  /\ valid (dr_detection x) /\ valid (dr_detector_id x) /\ is_f64 (dr_score x) /\ valid (dr_evidence x).
#[export] Instance detection_result_round_trip : RoundTrip DetectionResult.
Proof. round_trip detection_result_serialize detection_result_from_value detection_result_fields. Qed.
#[export] Instance detection_result_never_null : NeverNull DetectionResult.
Proof. intros x. apply object_not_null. Qed.

#[export] Instance content_response_valid : Valid ContentAnalysisResponse := fun x =>
  is_uint 64 (car_start x)
  /\ is_uint 64 (car_end x) /\ valid (car_text x) /\ valid (car_detection x) /\ valid (car_detection_type x)
  /\ valid (car_detector_id x) /\ is_f64 (car_score x) /\ valid (car_evidence x).
#[export] Instance content_response_round_trip : RoundTrip ContentAnalysisResponse.
Proof. round_trip content_response_serialize content_response_from_value content_response_fields. Qed.
#[export] Instance content_response_never_null : NeverNull ContentAnalysisResponse.
Proof. intros x. apply object_not_null. Qed.

#[export] Instance token_classification_valid : Valid TokenClassificationResult := fun x =>
  is_uint 32 (tcr_start x)
  /\ is_uint 32 (tcr_end x) /\ valid (tcr_word x) /\ valid (tcr_entity x) /\ valid (tcr_entity_group x)
  /\ valid (tcr_detector_id x) /\ is_f64 (tcr_score x) /\ from_option (is_uint 32) True (tcr_token_count x).
#[export] Instance token_classification_round_trip : RoundTrip TokenClassificationResult.
Proof. round_trip token_classification_serialize token_classification_from_value token_classification_fields. Qed.
#[export] Instance token_classification_never_null : NeverNull TokenClassificationResult.
Proof. intros x. apply object_not_null. Qed.

#[export] Instance generated_token_valid : Valid GeneratedToken := fun x =>
  valid (gt_text x)
  /\ from_option (is_f64) True (gt_logprob x) /\ from_option (is_uint 32) True (gt_rank x).
#[export] Instance generated_token_round_trip : RoundTrip GeneratedToken.
Proof. round_trip generated_token_serialize generated_token_from_value generated_token_fields. Qed.
#[export] Instance generated_token_never_null : NeverNull GeneratedToken.
Proof. intros x. apply object_not_null. Qed.

#[export] Instance detection_warning_valid : Valid DetectionWarning := fun x =>
  valid (warning_id x)
  /\ valid (warning_message x).
#[export] Instance detection_warning_round_trip : RoundTrip DetectionWarning.
Proof. round_trip detection_warning_serialize detection_warning_from_value detection_warning_fields. Qed.
#[export] Instance detection_warning_never_null : NeverNull DetectionWarning.
Proof. intros x. apply object_not_null. Qed.

#[export] Instance classification_results_valid : Valid TextGenTokenClassificationResults := fun x =>
  valid (tgr_input x)
  /\ valid (tgr_output x).
#[export] Instance classification_results_round_trip : RoundTrip TextGenTokenClassificationResults.
Proof. round_trip classification_results_serialize classification_results_from_value classification_results_fields. Qed.
#[export] Instance classification_results_never_null : NeverNull TextGenTokenClassificationResults.
Proof. intros x. apply object_not_null. Qed.

#[export] Instance classified_result_valid : Valid ClassifiedGeneratedTextResult := fun x =>
  valid (cg_generated_text x)
  /\ valid (cg_token_classification_results x) /\ valid (cg_finish_reason x)
  /\ from_option (is_uint 32) True (cg_generated_token_count x) /\ from_option (is_uint 32) True (cg_seed x)
  /\ is_uint 32 (cg_input_token_count x) /\ valid (cg_warnings x) /\ valid (cg_tokens x)
  /\ valid (cg_input_tokens x).
#[export] Instance classified_result_round_trip : RoundTrip ClassifiedGeneratedTextResult.
Proof. round_trip classified_result_serialize classified_result_from_value classified_result_fields. Qed.
#[export] Instance classified_result_never_null : NeverNull ClassifiedGeneratedTextResult.
Proof. intros x. apply object_not_null. Qed.

#[export] Instance classified_stream_result_valid : Valid ClassifiedGeneratedTextStreamResult := fun x =>
  valid (cs_generated_text x)
  /\ valid (cs_token_classification_results x) /\ valid (cs_finish_reason x)
  /\ from_option (is_uint 32) True (cs_generated_token_count x) /\ from_option (is_uint 32) True (cs_seed x)
  /\ is_uint 32 (cs_input_token_count x) /\ valid (cs_warnings x) /\ valid (cs_tokens x)
  /\ valid (cs_input_tokens x) /\ from_option (is_uint 32) True (cs_processed_index x)
  /\ from_option (is_uint 32) True (cs_start_index x).
#[export] Instance classified_stream_result_round_trip : RoundTrip ClassifiedGeneratedTextStreamResult.
Proof. round_trip classified_stream_result_serialize classified_stream_result_from_value classified_stream_result_fields. Qed.
#[export] Instance classified_stream_result_never_null : NeverNull ClassifiedGeneratedTextStreamResult.
Proof. intros x. apply object_not_null. Qed.

#[export] Instance text_content_result_valid : Valid TextContentDetectionResult := fun x =>
  valid (tcd_detections x).
#[export] Instance text_content_result_round_trip : RoundTrip TextContentDetectionResult.
Proof. round_trip text_content_result_serialize text_content_result_from_value text_content_result_fields. Qed.
#[export] Instance text_content_result_never_null : NeverNull TextContentDetectionResult.
Proof. intros x. apply object_not_null. Qed.

#[export] Instance generation_detection_result_valid : Valid GenerationWithDetectionResult := fun x =>
  valid (Models.gdr_generated_text x)
  /\ valid (Models.gdr_detections x) /\ is_uint 32 (Models.gdr_input_token_count x).
#[export] Instance generation_detection_result_round_trip : RoundTrip GenerationWithDetectionResult.
Proof. round_trip generation_detection_result_serialize generation_detection_result_from_value generation_detection_result_fields. Qed.
#[export] Instance generation_detection_result_never_null : NeverNull GenerationWithDetectionResult.
Proof. intros x. apply object_not_null. Qed.

#[export] Instance context_docs_result_valid : Valid ContextDocsResult := fun x =>
  valid (cdr_detections x).
#[export] Instance context_docs_result_round_trip : RoundTrip ContextDocsResult.
Proof. round_trip context_docs_result_serialize context_docs_result_from_value context_docs_result_fields. Qed.
#[export] Instance context_docs_result_never_null : NeverNull ContextDocsResult.
Proof. intros x. apply object_not_null. Qed.

#[export] Instance chat_detection_result_valid : Valid ChatDetectionResult := fun x =>
  valid (chr_detections x).
#[export] Instance chat_detection_result_round_trip : RoundTrip ChatDetectionResult.
Proof. round_trip chat_detection_result_serialize chat_detection_result_from_value chat_detection_result_fields. Qed.
#[export] Instance chat_detection_result_never_null : NeverNull ChatDetectionResult.
Proof. intros x. apply object_not_null. Qed.

#[export] Instance on_generation_result_valid : Valid DetectionOnGenerationResult := fun x =>
  valid (dgr_detections x).
#[export] Instance on_generation_result_round_trip : RoundTrip DetectionOnGenerationResult.
Proof. round_trip on_generation_result_serialize on_generation_result_from_value on_generation_result_fields. Qed.
#[export] Instance on_generation_result_never_null : NeverNull DetectionOnGenerationResult.
Proof. intros x. apply object_not_null. Qed.

#[export] Instance content_stream_response_valid : Valid StreamingContentDetectionResponse := fun x =>
  valid (scr_detections x)
  /\ is_uint 32 (scr_processed_index x) /\ is_uint 32 (scr_start_index x).
#[export] Instance content_stream_response_round_trip : RoundTrip StreamingContentDetectionResponse.
Proof. round_trip content_stream_response_serialize content_stream_response_from_value content_stream_response_fields. Qed.
#[export] Instance content_stream_response_never_null : NeverNull StreamingContentDetectionResponse.
Proof. intros x. apply object_not_null. Qed.

End round_trips.

(** ** Fields an answer does not declare
    Structs are read from their declared fields: objects that agree on those are
    read alike, whatever else they have. *)
Section declared.
Context {SJ : SerdeJson} {JS : Json} {JV : JsonView} {JL : JsonViewLaws JS JV} {JF : JsonFloats}.

Definition agree (names : list string) (m m' : gmap string Value) : Prop :=
  Forall (fun name => m !! name = m' !! name) names.

Lemma required_agree {T} {R : FromValue T} name m m' :
  m !! name = m' !! name -> required (FromValue0 := R) name (object m) = required (FromValue0 := R) name (object m').
Proof. unfold required. simpl. by intros ->. Qed.
Lemma optional_agree {T} {R : FromValue T} name m m' :
  m !! name = m' !! name -> optional (FromValue0 := R) name (object m) = optional (FromValue0 := R) name (object m').
Proof. unfold optional. simpl. by intros ->. Qed.
Lemma defaulted_agree {T} {R : FromValue T} d name m m' :
  m !! name = m' !! name ->
  defaulted (FromValue0 := R) d name (object m) = defaulted (FromValue0 := R) d name (object m').
Proof. unfold defaulted. simpl. by intros ->. Qed.

End declared.

Ltac agree_on m :=
  repeat (first [erewrite (required_agree _ m) by eassumption|erewrite (optional_agree _ m) by eassumption
                |erewrite (defaulted_agree _ _ m) by eassumption]).
Tactic Notation "declared" reference(from) reference(names) :=
  intros H; unfold from_value, from; rewrite !struct_fields_object; cbn [mbind option_bind];
  unfold agree, names in H; rewrite !Forall_cons in H; destruct_and!;
  match goal with |- context [object ?m] => agree_on m end; done.

Section declared_answers.
Context {SJ : SerdeJson} {JS : Json} {JV : JsonView} {JL : JsonViewLaws JS JV} {JF : JsonFloats}.

Lemma chat_completion_declared m m' :
  agree chat_completion_names m m' ->
  (from_value (value_object m) : option ChatCompletion) = from_value (value_object m').
Proof. declared chat_completion_from_value chat_completion_names. Qed.
Lemma chat_chunk_declared m m' :
  agree chat_chunk_names m m' ->
  (from_value (value_object m) : option ChatCompletionChunk) = from_value (value_object m').
Proof. declared chat_chunk_from_value chat_chunk_names. Qed.
Lemma completion_declared m m' :
  agree completion_names m m' ->
  (from_value (value_object m) : option Completion) = from_value (value_object m').
Proof. declared completion_from_value completion_names. Qed.

(** A field that is declared without a default and may not be missing is not
    read from null: log probabilities whose [content] or [refusal] is null
    are no log probabilities, and the answer that has them is refused. *)
Lemma null_logprobs_refused m name :
  name ∈ ["content"; "refusal"] -> m !! name = Some value_null ->
  (from_value (value_object m) : option ChatCompletionLogprobs) = None.
Proof.
  intros Hname Hm. unfold from_value, chat_logprobs_from_value. rewrite struct_fields_object. cbn [mbind option_bind].
  assert (E : defaulted [] name (object m) = None :> option (list ChatCompletionLogprob)).
  { unfold defaulted. simpl. rewrite Hm. unfold from_value, list_from_value. by rewrite view_null. }
  assert (name = "content" \/ name = "refusal") as [-> | ->] by set_solver; rewrite E; [done|].
  by destruct (defaulted [] "content" _).
Qed.
End declared_answers.

(** ** Errors of the models *)
Section errors.
Context {SJ : SerdeJson} {JS : Json} {JV : JsonView} {JL : JsonViewLaws JS JV} {JF : JsonFloats}.

Lemma error_info_declared m m' :
  agree error_info_names m m' -> (from_value (value_object m) : option ErrorInfo) = from_value (value_object m').
Proof. declared error_info_from_value error_info_names. Qed.
Lemma error_v1_declared m m' :
  agree error_v1_names m m' -> (from_value (value_object m) : option ErrorResponseV1) = from_value (value_object m').
Proof. declared error_v1_from_value error_v1_names. Qed.

Lemma error_v1_read m v1 :
  valid v1 -> agree error_v1_names m (error_v1_fields v1) -> from_value (value_object m) = Some (V1 v1).
Proof.
  intros Hv Hm. unfold from_value, error_response_from_value. rewrite (error_v1_declared _ _ Hm).
  pose proof (round_trip v1 Hv : from_value (value_object (error_v1_fields v1)) = Some v1) as E.
  by rewrite E.
Qed.
(** Without the [object] of the first format, what [error] says. *)
Lemma error_v2_read m e :
  m !! "object" = None -> m !! "error" = Some (value_object e) ->
  (from_value (value_object m) : option ErrorResponse) =
    (fun info => V2 {| v2_error := info |}) <$> (from_value (value_object e) : option ErrorInfo).
Proof.
  intros Ho He. unfold from_value at 1, error_response_from_value.
  assert (E : (from_value (value_object m) : option ErrorResponseV1) = None).
  { unfold from_value, error_v1_from_value. rewrite struct_fields_object. cbn [mbind option_bind].
    replace (required "object" (object m)) with (@None string); [done|]. unfold required. simpl. by rewrite Ho. }
  rewrite E. unfold from_value at 1, error_v2_from_value. rewrite struct_fields_object. cbn [mbind option_bind].
  unfold required. simpl. rewrite He. simpl. by destruct (from_value (value_object e)).
Qed.
Lemma error_info_read e info :
  valid info -> agree error_info_names e (error_info_fields info) -> from_value (value_object e) = Some info.
Proof. intros Hi He. rewrite (error_info_declared _ _ He). exact (round_trip info Hi). Qed.
(** A code that is a text, as in OpenAI's own errors, is not read. *)
Lemma error_code_text e c :
  e !! "code" = Some (value_string c) -> (from_value (value_object e) : option ErrorInfo) = None.
Proof.
  intros He. unfold from_value, error_info_from_value. rewrite struct_fields_object. cbn [mbind option_bind].
  assert (E : required (FromValue0 := uint_from_value 16) "code" (object e) = None).
  { unfold required. simpl. rewrite He. simpl. unfold from_value, uint_from_value. by rewrite view_string. }
  rewrite E. destruct (required "message" _); [|done]. destruct (required "type" _); [|done].
  by destruct (optional "param" _).
Qed.
End errors.

(** ** From texts *)
Section texts.
Context {SJ : SerdeJson} {JS : Json} {JV : JsonView}.

(** [serde_json::from_str]: [mismatch] is the text of the error for a value of
    another shape. *)
Definition derived_deserialize {T} `{!FromValue T} (mismatch : Value -> string) : Deserialize T := fun s =>
  match value_from_str s with
  | inl v => match from_value v with Some t => inl t | None => inr (mismatch v) end
  | inr e => inr e
  end.

(** [to_nd_string] (utils/json.rs); its [unwrap] is the caller's. *)
Definition newline : string := String "010" "".
Definition to_nd_string {T} `{!Serialize T} (value : T) : string + string :=
  match to_vec (to_value value) with inl bytes => inl (bytes +:+ newline) | inr e => inr e end.
End texts.

(** [one_or_many] (utils.rs) *)
Definition one_or_many {SJ : SerdeJson} {JV : JsonView} {T} `{!FromValue T} (v : Value) : option (list T) :=
  untagged ((fun value => [value]) <$> from_value v) (from_value v).

(** ** Properties *)
Section properties.
Context {SJ : SerdeJson} {JS : Json} {JV : JsonView} {JL : JsonViewLaws JS JV}
  {JF : JsonFloats} {JFL : JsonFloatsLaws JV JF}.

Lemma chat_completion_read body (c : ChatCompletion) :
  valid c -> agree chat_completion_names body (chat_completion_fields c) -> from_value (value_object body) = Some c.
Proof. intros Hc Hb. rewrite (chat_completion_declared _ _ Hb). exact (round_trip c Hc). Qed.
Lemma chat_chunk_read body (c : ChatCompletionChunk) :
  valid c -> agree chat_chunk_names body (chat_chunk_fields c) -> from_value (value_object body) = Some c.
Proof. intros Hc Hb. rewrite (chat_chunk_declared _ _ Hb). exact (round_trip c Hc). Qed.
Lemma completion_read body (c : Completion) :
  valid c -> agree completion_names body (completion_fields c) -> from_value (value_object body) = Some c.
Proof. intros Hc Hb. rewrite (completion_declared _ _ Hb). exact (round_trip c Hc). Qed.

(** C29. What a service answers is read as what it said, and so is what a caller is
    sent, by a caller that reads the same types: a chat completion, a chunk of
    one, a completion - whatever fields they have besides the declared ones -,
    the answers of detectors, a tokenization and an error in either format,
    and the answers of the other endpoints, as long as their numbers fit the
    declared widths. *)
Theorem answers_round_trip :
  (forall body (c : ChatCompletion), valid c ->
     agree chat_completion_names body (chat_completion_fields c) -> from_value (value_object body) = Some c) /\
  (forall body (c : ChatCompletionChunk), valid c ->
     agree chat_chunk_names body (chat_chunk_fields c) -> from_value (value_object body) = Some c) /\
  (forall body (c : Completion), valid c ->
     agree completion_names body (completion_fields c) -> from_value (value_object body) = Some c) /\
  (forall l : list (list ContentAnalysisResponse), valid l -> from_value (to_value l) = Some l) /\
  (forall l : list DetectionResult, valid l -> from_value (to_value l) = Some l) /\
  (forall r : TokenizeResponse, valid r -> from_value (to_value r) = Some r) /\
  (forall e : ErrorResponse, valid e -> from_value (to_value e) = Some e) /\
  (forall r : ClassifiedGeneratedTextResult, valid r -> from_value (to_value r) = Some r) /\
  (forall r : ClassifiedGeneratedTextStreamResult, valid r -> from_value (to_value r) = Some r) /\
  (forall r : TextContentDetectionResult, valid r -> from_value (to_value r) = Some r) /\
  (forall r : StreamingContentDetectionResponse, valid r -> from_value (to_value r) = Some r) /\
  (forall r : GenerationWithDetectionResult, valid r -> from_value (to_value r) = Some r) /\
  (forall r : ContextDocsResult, valid r -> from_value (to_value r) = Some r) /\
  (forall r : ChatDetectionResult, valid r -> from_value (to_value r) = Some r) /\
  (forall r : DetectionOnGenerationResult, valid r -> from_value (to_value r) = Some r).
Proof.
  split; [exact chat_completion_read|]. split; [exact chat_chunk_read|]. split; [exact completion_read|].
  repeat split; intros; by apply round_trip.
Qed.
End properties.

(** ** Witnesses *)
Section witnesses.
#[local] Existing Instances tree_json tree_values tree_view tree_view_laws tree_floats tree_floats_laws.

(** A log probability of -1/2. *)
Definition ex_half : f32 := S754_finite true 8388608 (-24).
Definition ex_answer : ChatCompletion :=
  {| cc_id := "chat-1"; cc_object := "chat.completion"; cc_created := 1700000000; cc_model := "llama";
     cc_choices :=
       [ {| ccc_index := 0;
            ccc_message := {| msg_role := Assistant; msg_content := Some (Text "Hi!"); msg_name := None;
                              msg_refusal := None; msg_tool_calls := None; msg_tool_call_id := None;
                              msg_reasoning_content := None |};
            ccc_logprobs := Some {| clps_content := [ {| clp_token := "Hi!"; clp_logprob := ex_half;
                                                         clp_bytes := Some [72; 105; 33];
                                                         clp_top_logprobs := Some [] |} ];
                                    clps_refusal := [] |};
            ccc_finish_reason := "stop"; ccc_stop_reason := Some (StopInteger 2) |} ];
     cc_usage := usage_default; cc_prompt_logprobs := Some [None]; cc_system_fingerprint := None;
     cc_service_tier := None; cc_detections := None; cc_warnings := [] |}.
Lemma ex_answer_valid : valid ex_answer.
Proof. repeat (done || split || constructor || (intros ? [=])). Qed.
(** The answer as a server gives it: with a field the program does not know. *)
Definition ex_answer_body : gmap string Value := <["kv_transfer_params" := value_null]> (chat_completion_fields ex_answer).

Lemma answers_round_trip_witness :
  valid ex_answer /\ (from_value (value_object ex_answer_body) : option ChatCompletion) = Some ex_answer.
Proof.
  split; [exact ex_answer_valid|].
  apply (proj1 answers_round_trip); [exact ex_answer_valid|]. by repeat constructor.
Defined.
End witnesses.
