(* ===== verification/GenerationWire.v ===== *)
(** * The gRPC clients on the wire

    src/clients/generation.rs over src/clients/tgis.rs and src/clients/nlp.rs,
    and src/clients/chunker.rs: the messages sent to a text generation server or
    a chunker, their metadata, retries, and what is made of the answers. *)
From Stdlib Require Import Ascii.
From S2P Require Import Prelude External Errors Utf8 Hostname Config Detection Clients OpenAi Chunk Models.
From S2P Require Import Utils Tasks Http.
#[local] Open Scope string_scope.
#[local] Open Scope list_scope.
#[local] Open Scope Z_scope.

(** ** Messages of the generation services' requests *)
Record BatchedTokenizeRequest := {
  btr_model_id : string; btr_requests : list string; btr_return_tokens : bool; btr_return_offsets : bool;
  btr_truncate_input_tokens : Z
}.
Record FmaasTokenizeResponse := { ftr_token_count : Z; ftr_tokens : list string }.
Record BatchedGenerationRequest := {
  bgr_model_id : string; bgr_prefix_id : option string; bgr_requests : list string;
  bgr_params : option Fmaas.Parameters
}.
Record SingleGenerationRequest := {
  sgr_model_id : string; sgr_prefix_id : option string; sgr_request : option string;
  sgr_params : option Fmaas.Parameters
}.

(** [TextGenerationTaskRequest], and [ServerStreamingTextGenerationTaskRequest],
    which has the same fields *)
Record TextGenerationTaskRequest := {
  tgt_text : string;
  tgt_max_new_tokens : option Z;
  tgt_min_new_tokens : option Z;
  tgt_truncate_input_tokens : option Z;
  tgt_decoding_method : option string;
  tgt_top_k : option Z;
  tgt_top_p : option f64;
  tgt_typical_p : option f64;
  tgt_temperature : option f64;
  tgt_repetition_penalty : option f64;
  tgt_max_time : option f64;
  tgt_exponential_decay_length_penalty : option CaikitNlp.NlpLengthPenalty;
  tgt_stop_sequences : list string;
  tgt_seed : option Z;
  tgt_preserve_input_text : option bool;
  tgt_input_tokens : option bool;
  tgt_generated_tokens : option bool;
  tgt_token_logprobs : option bool;
  tgt_token_ranks : option bool;
  tgt_include_stop_sequence : option bool
}.

(** The casts to the message's wider integers keep the values. *)
Definition nlp_generation_request (text : string) (params : option GuardrailsTextGenerationParameters)
    : TextGenerationTaskRequest :=
  match params with
  | Some p =>
      {| tgt_text := text; tgt_max_new_tokens := tg_max_new_tokens p; tgt_min_new_tokens := tg_min_new_tokens p;
         tgt_truncate_input_tokens := tg_truncate_input_tokens p; tgt_decoding_method := tg_decoding_method p;
         tgt_top_k := tg_top_k p; tgt_top_p := tg_top_p p; tgt_typical_p := tg_typical_p p;
         tgt_temperature := tg_temperature p; tgt_repetition_penalty := tg_repetition_penalty p;
         tgt_max_time := tg_max_time p;
         tgt_exponential_decay_length_penalty :=
           nlp_length_penalty_from <$> tg_exponential_decay_length_penalty p;
         tgt_stop_sequences := default [] (tg_stop_sequences p); tgt_seed := tg_seed p;
         tgt_preserve_input_text := tg_preserve_input_text p; tgt_input_tokens := tg_input_tokens p;
         tgt_generated_tokens := tg_generated_tokens p; tgt_token_logprobs := tg_token_logprobs p;
         tgt_token_ranks := tg_token_ranks p; tgt_include_stop_sequence := tg_include_stop_sequence p |}
  | None =>
      {| tgt_text := text; tgt_max_new_tokens := None; tgt_min_new_tokens := None;
         tgt_truncate_input_tokens := None; tgt_decoding_method := None; tgt_top_k := None; tgt_top_p := None;
         tgt_typical_p := None; tgt_temperature := None; tgt_repetition_penalty := None; tgt_max_time := None;
         tgt_exponential_decay_length_penalty := None; tgt_stop_sequences := []; tgt_seed := None;
         tgt_preserve_input_text := None; tgt_input_tokens := None; tgt_generated_tokens := None;
         tgt_token_logprobs := None; tgt_token_ranks := None; tgt_include_stop_sequence := None |}
  end.

(** ** tonic

    Metadata and the calls of the generated clients, which answer with a
    message, a stream of messages, or a status.  A call that is retried is
    numbered. *)
Notation status := (GrpcCode * string)%type.
Class Grpc {CN : Connector} {HH : HttpHeaders} := {
  MetadataValue : Type;
  Metadata : Type;
  metadata_parse : string -> option MetadataValue;
  metadata_from_headers : HeaderMap -> Metadata;
  metadata_insert : string -> MetadataValue -> Metadata -> Metadata;
  rpc_tokenize : GrpcClient -> Metadata -> BatchedTokenizeRequest -> list FmaasTokenizeResponse + status;
  rpc_generate : GrpcClient -> Metadata -> BatchedGenerationRequest -> list Fmaas.GenerationResponse + status;
  rpc_generate_stream :
    GrpcClient -> Metadata -> SingleGenerationRequest -> list (Fmaas.GenerationResponse + status) + status;
  rpc_tokenization_task : GrpcClient -> Metadata -> string -> Z -> TokenizationResults + status;
  rpc_text_generation :
    GrpcClient -> Metadata -> TextGenerationTaskRequest -> Z -> CaikitNlp.GeneratedTextResult + status;
  rpc_text_generation_stream :
    GrpcClient -> Metadata -> TextGenerationTaskRequest -> Z ->
    list (CaikitNlp.GeneratedTextStreamResult + status) + status;
  rpc_chunker_tokenization : GrpcClient -> Metadata -> string -> TokenizationResults + status;
  rpc_chunker_stream :
    GrpcClient -> Metadata -> list BidiStreamingChunkerTokenizationTaskRequest * option string ->
    list (ChunkerTokenizationStreamResult + status) + status
}.
(** "Only visible ASCII characters (32-127) are permitted." *)
Class GrpcLaws `(GR : Grpc) := {
  metadata_parse_visible s : visible s = true -> is_Some (metadata_parse s)
}.

Section grpc.
Context {CN : Connector} {HH : HttpHeaders} {TR : Transport} {GR : Grpc}.

Definition from_status {A} (answer : A + status) : outcome ClientError A :=
  match answer with
  | inl a => Ok a
  | inr (code, message) => Err (client_error_from_tonic code message)
  end.

(** [grpc_request_with_headers] and the clients' [request_with_headers] *)
Definition grpc_metadata (headers : HeaderMap) : Metadata := metadata_from_headers (inject_context headers).
Definition MODEL_ID_HEADER_NAME : string := "mm-model-id".
Definition nlp_metadata (model_id : string) (headers : HeaderMap) : outcome ClientError Metadata :=
  id ← unwrap "clients/nlp.rs:162" (metadata_parse model_id);
  Ok (metadata_insert MODEL_ID_HEADER_NAME id (grpc_metadata headers)).
Definition chunker_metadata (model_id : string) : outcome ClientError Metadata :=
  id ← unwrap "clients/chunker.rs:131" (metadata_parse model_id);
  Ok (metadata_insert MODEL_ID_HEADER_NAME id (grpc_metadata (header_collect []))).

(** ** ChunkerClient *)
Definition chunker_tokenization_task_predict (self : ChunkerClient) (model_id text : string)
    : outcome ClientError TokenizationResults :=
  metadata ← chunker_metadata model_id;
  from_status (rpc_chunker_tokenization (chunker_client self) metadata text).

Definition chunker_bidi_streaming (self : ChunkerClient) (model_id : string)
    (request_stream : list BidiStreamingChunkerTokenizationTaskRequest * option string)
    : outcome ClientError (list (outcome ClientError ChunkerTokenizationStreamResult)) :=
  metadata ← chunker_metadata model_id;
  response_stream ← from_status (rpc_chunker_stream (chunker_client self) metadata request_stream);
  Ok (fmap (M := list) from_status response_stream).

(** ** TgisClient *)
Definition tgis_tokenize (self : TgisClient) (request : BatchedTokenizeRequest) (headers : HeaderMap)
    : outcome ClientError (list FmaasTokenizeResponse) :=
  from_status (rpc_tokenize (tgis_client self) (grpc_metadata headers) request).
Definition tgis_generate (self : TgisClient) (request : BatchedGenerationRequest) (headers : HeaderMap)
    : outcome ClientError (list Fmaas.GenerationResponse) :=
  from_status (rpc_generate (tgis_client self) (grpc_metadata headers) request).
Definition tgis_generate_stream (self : TgisClient) (request : SingleGenerationRequest) (headers : HeaderMap)
    : outcome ClientError (list (outcome ClientError Fmaas.GenerationResponse)) :=
  response ← from_status (rpc_generate_stream (tgis_client self) (grpc_metadata headers) request);
  Ok (fmap (M := list) from_status response).

(** ** NlpClient *)
Definition nlp_tokenization_task_predict (self : NlpClient) (model_id text : string) (headers : HeaderMap)
    (attempt : Z) : outcome ClientError TokenizationResults :=
  metadata ← nlp_metadata model_id headers;
  from_status (rpc_tokenization_task (nlp_client self) metadata text attempt).
Definition nlp_text_generation_task_predict (self : NlpClient) (model_id : string)
    (request : TextGenerationTaskRequest) (headers : HeaderMap) (attempt : Z)
    : outcome ClientError CaikitNlp.GeneratedTextResult :=
  metadata ← nlp_metadata model_id headers;
  from_status (rpc_text_generation (nlp_client self) metadata request attempt).
Definition nlp_server_streaming (self : NlpClient) (model_id : string) (request : TextGenerationTaskRequest)
    (headers : HeaderMap) (attempt : Z)
    : outcome ClientError (list (outcome ClientError CaikitNlp.GeneratedTextStreamResult)) :=
  metadata ← nlp_metadata model_id headers;
  response ← from_status (rpc_text_generation_stream (nlp_client self) metadata request attempt);
  Ok (fmap (M := list) from_status response).

(** ** GenerationClient *)

(** A retried call.  The fuel of [retry_function] is enough for every bound
    below [usize::MAX] ([retry_loop_spec]); with that bound, which [attempt] never
    exceeds, a call that keeps failing does not return. *)
Definition retried {A} (max_retries : Z) (answers : Z -> outcome ClientError A) : outcome ClientError A :=
  match retry_function max_retries answers with
  | Some r => retry_value r
  | None => Panic "clients/generation.rs:55: never returns"
  end.

Definition generation_client_tokenize (self : GenerationClient) (model_id text : string) (headers : HeaderMap)
    : outcome ClientError (Z * list string) :=
  match gen_inner self with
  | Some (InnerTgis client) =>
      response ← tgis_tokenize client
        {| btr_model_id := model_id; btr_requests := [text]; btr_return_tokens := false;
           btr_return_offsets := false; btr_truncate_input_tokens := 0 |} headers;
      response ← unwrap "clients/generation.rs:129" (head response);
      Ok (ftr_token_count response, ftr_tokens response)
  | Some (InnerNlp client) =>
      response ← retried (gen_max_retries self) (nlp_tokenization_task_predict client model_id text headers);
      Ok (as_u32 (tr_token_count response), tok_text <$> tr_results response)
  | None => Err (ModelNotFound model_id)
  end.

Definition generation_client_generate (self : GenerationClient) (model_id text : string)
    (params : option GuardrailsTextGenerationParameters) (headers : HeaderMap)
    : outcome ClientError ClassifiedGeneratedTextResult :=
  match gen_inner self with
  | Some (InnerTgis client) =>
      response ← tgis_generate client
        {| bgr_model_id := model_id; bgr_prefix_id := None; bgr_requests := [text];
           bgr_params := fmaas_parameters_from <$> params |} headers;
      result_from_fmaas response
  | Some (InnerNlp client) =>
      response ← retried (gen_max_retries self)
        (nlp_text_generation_task_predict client model_id (nlp_generation_request text params) headers);
      Ok (result_from_nlp response)
  | None => Err (ModelNotFound model_id)
  end.

Definition generation_client_generate_stream (self : GenerationClient) (model_id text : string)
    (params : option GuardrailsTextGenerationParameters) (headers : HeaderMap)
    : outcome ClientError (list (outcome ClientError ClassifiedGeneratedTextStreamResult)) :=
  match gen_inner self with
  | Some (InnerTgis client) =>
      response_stream ← tgis_generate_stream client
        {| sgr_model_id := model_id; sgr_prefix_id := None; sgr_request := Some text;
           sgr_params := fmaas_parameters_from <$> params |} headers;
      Ok (fmap (M := list) (fmap (M := outcome ClientError) stream_result_from_fmaas) response_stream)
  | Some (InnerNlp client) =>
      response_stream ← retried (gen_max_retries self)
        (nlp_server_streaming client model_id (nlp_generation_request text params) headers);
      Ok (fmap (M := list) (fmap (M := outcome ClientError) stream_result_from_nlp) response_stream)
  | None => Err (ModelNotFound model_id)
  end.
End grpc.

(** ** Properties *)
Section properties.
Context {CN : Connector} {HH : HttpHeaders} {TR : Transport} {GR : Grpc}.

Lemma retried_value {A} max_retries (answers : Z -> outcome ClientError A) :
  0 <= max_retries < usize_max ->
  exists n, 1 <= n <= max_retries + 1 /\ retried max_retries answers = answers n /\
    (forall i, 1 <= i < n -> exists e, answers i = Err e /\ retryable e = true) /\
    (forall e, answers n = Err e -> retryable e = true -> n = max_retries + 1).
Proof.
  intros H. destruct (retry_loop_spec (S (Z.to_nat max_retries)) max_retries 0 answers [])
    as (r & E & Hn & Hv & Hp & He & _); [lia|lia|lia|intros; lia|done|].
  exists (retry_calls r). unfold retried, retry_function. rewrite E. rewrite Hv in He. split; [lia|done].
Qed.

(** The statuses that are retried: of those a gRPC call fails with, one. *)
Lemma retryable_status code message :
  retryable (client_error_from_tonic code message) = true <-> code = CodeUnavailable.
Proof. by destruct code. Qed.

Lemma retried_first {A} max_retries (answers : Z -> outcome ClientError A) n :
  max_retries < usize_max -> 1 <= n <= max_retries + 1 ->
  (forall i, 1 <= i < n -> exists e, answers i = Err e /\ retryable e = true) ->
  (forall e, answers n = Err e -> retryable e = true -> n = max_retries + 1) ->
  retried max_retries answers = answers n.
Proof.
  intros Hm Hn Hp He. destruct (retried_value max_retries answers) as (k & Hk & -> & Hpk & Hek); [lia|].
  destruct (Z.lt_trichotomy k n) as [Hlt|[->|Hlt]]; [|done|].
  - destruct (Hp k) as (e & E & Hr); [lia|]. specialize (Hek e E Hr). lia.
  - destruct (Hpk n) as (e & E & Hr); [lia|]. specialize (He e E Hr). lia.
Qed.

(** A generation through the NLP service survives the service's
    unavailability for [max_retries] calls, and nothing else: the answer is that
    of the first call that is not answered "unavailable", or of the last one. *)
Theorem nlp_generation_retries self client model_id id text params headers n :
  gen_inner self = Some (InnerNlp client) -> metadata_parse model_id = Some id ->
  gen_max_retries self < usize_max -> 1 <= n <= gen_max_retries self + 1 ->
  let answer := rpc_text_generation (nlp_client client)
    (metadata_insert MODEL_ID_HEADER_NAME id (grpc_metadata headers)) (nlp_generation_request text params) in
  (forall i, 1 <= i < n -> exists message, answer i = inr (CodeUnavailable, message)) ->
  (forall r, answer n = inl r ->
     generation_client_generate self model_id text params headers = Ok (result_from_nlp r)) /\
  (forall code message, answer n = inr (code, message) ->
     code <> CodeUnavailable \/ n = gen_max_retries self + 1 ->
     generation_client_generate self model_id text params headers =
       Err (client_error_from_tonic code message)).
Proof.
  intros Hi Hid Hmax Hn answer Hp.
  assert (E : forall i, nlp_text_generation_task_predict client model_id (nlp_generation_request text params)
    headers i = from_status (answer i)).
  { intros i. unfold nlp_text_generation_task_predict, nlp_metadata. by rewrite Hid. }
  assert (Hr : (forall code message, answer n = inr (code, message) ->
      code <> CodeUnavailable \/ n = gen_max_retries self + 1) ->
    retried (gen_max_retries self) (nlp_text_generation_task_predict client model_id
      (nlp_generation_request text params) headers) = from_status (answer n)).
  { intros Hlast. rewrite <- E. apply retried_first; [done|done| |].
    - intros i [message Hm]%Hp. rewrite E, Hm. by eexists.
    - intros e. rewrite E. destruct (answer n) as [r|[code message]] eqn:Ea; [done|]. intros [= <-] Hr.
      apply retryable_status in Hr as ->. by destruct (Hlast _ _ eq_refl). }
  unfold generation_client_generate. rewrite Hi. split.
  - intros r Ha. rewrite Hr, Ha; [done|]. congruence.
  - intros code message Ha Hc. rewrite Hr, Ha; [done|]. intros code' message' Ha'. rewrite Ha in Ha'.
    injection Ha' as <- <-. exact Hc.
Qed.

(** What a generation panics on: a model id that cannot be sent as metadata,
    with the NLP service, and an empty batch, with TGIS. *)
Theorem generation_panics_exactly self model_id text params headers :
  0 <= gen_max_retries self < usize_max ->
  ~ no_panic (generation_client_generate self model_id text params headers) <->
  match gen_inner self with
  | Some (InnerTgis client) =>
      rpc_generate (tgis_client client) (grpc_metadata headers)
        {| bgr_model_id := model_id; bgr_prefix_id := None; bgr_requests := [text];
           bgr_params := fmaas_parameters_from <$> params |} = inl []
  | Some (InnerNlp client) => metadata_parse model_id = None
  | None => False
  end.
Proof.
  intros Hm. unfold generation_client_generate. destruct (gen_inner self) as [[client|client]|].
  - unfold tgis_generate. destruct (rpc_generate _ _ _) as [[|r l]|[code message]]; simpl; naive_solver.
  - destruct (retried_value (gen_max_retries self) (nlp_text_generation_task_predict client model_id
      (nlp_generation_request text params) headers) Hm) as (n & _ & -> & _ & _).
    unfold nlp_text_generation_task_predict, nlp_metadata.
    destruct (metadata_parse model_id) as [id|]; simpl; [|naive_solver].
    destruct (rpc_text_generation _ _ _ _) as [r|[code message]]; simpl; naive_solver.
  - simpl. naive_solver.
Qed.
End properties.

(** ** Witnesses *)
Section witnesses.
#[local] Existing Instance settings_connector.
#[local] Existing Instance list_headers.

(** A network without a trace and without HTTP servers, and gRPC services that
    echo, the NLP service from the third call on. *)
Definition silent : Transport := {|
  Url := string; Uri := string; url_path u := u; url_set_path path _ := path;
  url_join u path := Some (u +:+ path); uri_from u := Some u; HttpClientInner := ();
  connection (c : @HttpClient settings_connector) :=
    {| base_url := "/"; health_url := "/health"; api_token := None; inner := () |};
  inject_context h := h; Body := (); call _ _ := inr "connection refused"; body_collect _ := None;
  eventsource _ := []; base64_encode s := s; new_v4 := "0b1f9df8-e2cd-4a3c-8a3b-6f1f2f3f4f5f"
|}.
#[local] Existing Instance silent.

Definition ex_fmaas_response (text : string) : Fmaas.GenerationResponse :=
  {| Fmaas.input_token_count := 1; Fmaas.generated_token_count := 1; Fmaas.resp_text := text;
     Fmaas.stop_reason := 2; Fmaas.seed := 0; Fmaas.tokens := []; Fmaas.input_tokens := [] |}.
Definition ex_nlp_result (text : string) : CaikitNlp.GeneratedTextResult :=
  {| CaikitNlp.generated_text := text; CaikitNlp.generated_tokens := 1; CaikitNlp.finish_reason := 2;
     CaikitNlp.input_token_count := 1; CaikitNlp.seed := 0; CaikitNlp.tokens := [];
     CaikitNlp.input_tokens := [] |}.

Definition echo_grpc : Grpc := {|
  MetadataValue := string;
  Metadata := list (string * string);
  metadata_parse s := if visible s then Some s else None;
  metadata_from_headers _ := [];
  metadata_insert k v m := (k, v) :: m;
  rpc_tokenize _ _ q := inl ((fun text => {| ftr_token_count := 1; ftr_tokens := [text] |}) <$> "" :: btr_requests q);
  rpc_generate _ _ q := inl (ex_fmaas_response <$> "" :: bgr_requests q);
  rpc_generate_stream _ _ q := inl [inl (ex_fmaas_response (default "" (sgr_request q)))];
  rpc_tokenization_task _ _ text _ := inl {| tr_results := []; tr_token_count := 1 |};
  rpc_text_generation _ _ q attempt :=
    if attempt <? 3 then inr (CodeUnavailable, "try again") else inl (ex_nlp_result (tgt_text q));
  rpc_text_generation_stream _ _ q attempt := inl [];
  rpc_chunker_tokenization _ _ text :=
    inl {| tr_results := [{| tok_start := 0; tok_end := char_count text; tok_text := text |}]; tr_token_count := 1 |};
  rpc_chunker_stream _ _ _ := inr (CodeUnimplemented, "no streams")
|}.
#[local] Existing Instance echo_grpc.

Definition ex_nlp_client : GenerationClient :=
  generation_nlp {| nlp_client := {| grpc_protocol := "http"; grpc_host := "nlp"; grpc_port := 8085;
      grpc_dns_interval := 10; grpc_connect_timeout := 60; grpc_request_timeout := 600;
      grpc_keep_alive_timeout := 30; grpc_http2_keep_alive_interval := 30; grpc_resolution := Lazy;
      grpc_tls := None |} : @GrpcClient settings_connector;
    nlp_health_client := {| grpc_protocol := "http"; grpc_host := "nlp"; grpc_port := 8085;
      grpc_dns_interval := 10; grpc_connect_timeout := 60; grpc_request_timeout := 600;
      grpc_keep_alive_timeout := 30; grpc_http2_keep_alive_interval := 30; grpc_resolution := Lazy;
      grpc_tls := None |} |} 3.

Definition no_headers : @HeaderMap list_headers := [].
Lemma nlp_generation_retries_witness :
  generation_client_generate ex_nlp_client "granite" "Hello" None no_headers =
    Ok (result_from_nlp (ex_nlp_result "Hello")).
Proof.
  unshelve eapply (proj1 (nlp_generation_retries (GR := echo_grpc) ex_nlp_client _ "granite" "granite" "Hello" None no_headers 3
    eq_refl eq_refl eq_refl ltac:(simpl; lia) _)).
  2: reflexivity.
  intros i Hi. exists "try again". simpl. by destruct (Z.ltb_spec i 3); [|lia].
Defined.

Definition two_lines : string := "granite" +:+ String "010"%char "3b".
Lemma generation_panics_exactly_witness :
  ~ no_panic (generation_client_generate ex_nlp_client two_lines "Hello" None no_headers) /\
  ~ ~ no_panic (generation_client_generate ex_nlp_client "granite" "Hello" None no_headers).
Proof.
  split.
  - apply (generation_panics_exactly ex_nlp_client); [done|]. reflexivity.
  - intros H. apply (generation_panics_exactly ex_nlp_client) in H; [discriminate H|done].
Defined.
End witnesses.
