(* ===== verification/Streams.v ===== *)
(** * Chunk and detection streams

    The streaming half of src/orchestrator/common/: [chunk_stream] (client.rs),
    [chunk_streams], [whole_doc_chunk_stream],
    [text_contents_detection_streams] and [broadcast_stream] (tasks.rs), and the
    sending half of the response channels the streaming handlers write to.

    A stream is the list of the items it yields before it ends.  A task that
    panics takes its senders with it: the stream it feeds just ends. *)
From S2P Require Import Prelude Collections External Errors Utf8 Config Detection Chunk Batcher.
From S2P Require Import BatchStream BatchGroups Clients OpenAi Models Utils Tasks.
#[local] Open Scope string_scope.
#[local] Open Scope list_scope.
#[local] Open Scope Z_scope.

(** ** Senders

    [mpsc::Sender] as its task sees it: the messages sent, and how many more
    the reader takes before it drops the receiver ([None]: it reads to the
    end).  Waiting for room only delays the sender. *)
Record Sender (M : Type) := {
  tx_sent : list M;
  tx_reader : option nat
}.
Arguments tx_sent {M}.
Arguments tx_reader {M}.
Arguments Build_Sender {M}.

(** [tx.send(m).await], with [is_ok()]. *)
Definition send {M} (m : M) (tx : Sender M) : bool * Sender M :=
  match tx_reader tx with
  | None => (true, Build_Sender (tx_sent tx ++ [m]) None)
  | Some (S n) => (true, Build_Sender (tx_sent tx ++ [m]) (Some n))
  | Some O => (false, tx)
  end.
(** [let _ = tx.send(m).await;] *)
Definition send_ {M} (m : M) (tx : Sender M) : Sender M := snd (send m tx).

(** A fresh channel whose reader stays. *)
Definition channel {M} : Sender M := Build_Sender [] None.

Section streams.
Context {SJ : SerdeJson} {RT : Runtime} {CN : Connector} {SV : Services}.

(** A receiver of a broadcast channel of [A]s with errors. *)
Notation Receiver A := (list (outcome OrchError A + RecvError)).

(** ** client.rs *)

(** The request stream: [result.unwrap().unwrap()] on what the receiver
    yields, so a lagging receiver or an error among the inputs panics. *)
Fixpoint request_stream (input_rx : Receiver (Z * string))
    : list BidiStreamingChunkerTokenizationTaskRequest * option string :=
  match input_rx with
  | inl (Ok (index, text)) :: input_rx =>
      let '(requests, panicked) := request_stream input_rx in
      ({| text_stream := text; input_index_stream := as_i64 index |} :: requests, panicked)
  | [] | inr Closed :: _ => ([], None)
  | _ :: _ => ([], Some "common/client.rs:74")
  end.

Definition chunk_stream (client : ChunkerClient) (chunker_id : string)
    (input_rx : Receiver (Z * string)) : outcome OrchError (list (outcome OrchError Chunk)) :=
  output_stream ← map_err (ChunkerRequestFailed chunker_id)
    (bidi_streaming_tokenization_task_predict client chunker_id (request_stream input_rx));
  Ok ((fun r => chunk_from_stream_result <$> map_err (ChunkerRequestFailed chunker_id) r)
        <$> (output_stream : list (outcome ClientError ChunkerTokenizationStreamResult))).

(** ** tasks.rs *)

(** [broadcast_stream] fans a stream out; this is what a receiver that
    subscribed before the first item sees of it. *)
Definition broadcast_stream {A} (stream : list A) (receiver : Z * string) : list (A + RecvError) :=
  broadcast_recv receiver stream.

(** [while let Ok(input) = rx.recv().await.unwrap() { inputs.push(input) }] *)
Fixpoint collect_inputs {E} (input_rx : Receiver (Z * string)) : outcome E (list (Z * string)) :=
  match input_rx with
  | inl (Ok input) :: input_rx => inputs ← collect_inputs input_rx; Ok (input :: inputs)
  | inl _ :: _ => Ok []
  | inr _ :: _ | [] => Panic "common/tasks.rs:160"
  end.

Definition whole_doc_chunk_stream (input_rx : Receiver (Z * string))
    : outcome OrchError (list (outcome OrchError Chunk)) :=
  Ok (match collect_inputs (E := OrchError) input_rx with
      | Ok inputs =>
          let text := concat inputs.*2 in
          [Ok {| input_start_index := 0; input_end_index := default 0 (last inputs.*1);
                 chunk_start := 0; chunk_end := char_count text; chunk_text := text |}]
      | _ => []
      end).

(** The chunk stream of a chunker; [input_id] tells the receivers of the
    different input channels of a request apart. *)
Definition open_chunk_stream (ctx : Context) (input_id : Z)
    (inputs : list (outcome OrchError (Z * string))) (chunker_id : string)
    : outcome OrchError (string * list (outcome OrchError Chunk)) :=
  let input_rx := broadcast_stream inputs (input_id, chunker_id) in
  chunk_stream ← (if decide (chunker_id = DEFAULT_CHUNKER_ID) then whole_doc_chunk_stream input_rx
                  else client ← ok_or (ChunkerNotFound chunker_id)
                                  (client_map_get KChunker chunker_id (ctx_clients ctx));
                       chunk_stream client chunker_id input_rx);
  Ok (chunker_id, chunk_stream).

Definition chunk_streams (ctx : Context) (chunkers : list string) (input_id : Z)
    (inputs : list (outcome OrchError (Z * string)))
    : outcome OrchError (gmap string (list (outcome OrchError Chunk))) :=
  streams ← collect (open_chunk_stream ctx input_id inputs <$> chunkers);
  Ok (hash_collect streams).

(** What a detection task sends for the chunks it receives: an answer or an
    error per chunk, until the channel ends or the receiver has lagged. *)
Fixpoint detection_stream (ctx : Context) (headers : Headers) (detector_id : string)
    (params : DetectorParams) (threshold : f64) (input_id : Z) (chunk_rx : Receiver Chunk)
    : list (outcome OrchError Batch) :=
  let rest := detection_stream ctx headers detector_id params threshold input_id in
  match chunk_rx with
  | inl (Ok chunk) :: chunk_rx =>
      match client ← detector_client_of "common/tasks.rs:268" ctx detector_id;
            detect_text_contents client headers detector_id params [chunk] false with
      | Ok detections => Ok (input_id, chunk, above threshold detections) :: rest chunk_rx
      | Err error => Err error :: rest chunk_rx
      | Panic _ => []
      end
  | inl (Err error) :: chunk_rx => Err error :: rest chunk_rx
  | _ => []
  end.

Definition text_contents_detection_streams (ctx : Context) (headers : Headers)
    (detectors : gmap string DetectorParams) (input_id : Z)
    (inputs : list (outcome OrchError (Z * string)))
    : outcome OrchError (list (list (outcome OrchError Batch))) :=
  chunkers ← get_chunker_ids ctx detectors;
  chunk_stream_map ← chunk_streams ctx chunkers input_id inputs;
  collect ((fun '(detector_id, params) =>
    '(threshold, params) ← detector_threshold "common/tasks.rs:255" ctx detector_id params;
    chunker_id ← unwrap "common/tasks.rs:257" (get_chunker_id (ctx_config ctx) detector_id);
    chunk_stream ← unwrap "common/tasks.rs:259" (chunk_stream_map !! chunker_id);
    Ok (detection_stream ctx headers detector_id params threshold input_id
          (broadcast_stream chunk_stream (input_id, detector_id)))) <$> hash_iter detectors).
End streams.

(** ** Lemmas *)
Lemma broadcast_view_elem {A} capacity (l : list A) view x :
  broadcast_view capacity l view -> inl x ∈ view -> x ∈ l.
Proof.
  induction 1 as [|y l view _ IH|skipped l view _ _ _ IH].
  - by intros [=]%list_elem_of_singleton.
  - intros [[= ->]|?]%elem_of_cons; [left|right; by apply IH].
  - intros [[=]|?]%elem_of_cons. apply elem_of_app. right. by apply IH.
Qed.

Section streams_lemmas.
Context {SJ : SerdeJson} {RT : Runtime} {RL : RuntimeLaws RT} {CN : Connector} {SV : Services}.

(** The requests are the inputs before the first error, for a receiver that
    keeps up. *)
Lemma request_stream_inputs (inputs : list (Z * string)) :
  request_stream ((inl <$> (Ok <$> inputs)) ++ [inr Closed]) =
  ((fun input => {| text_stream := input.2; input_index_stream := as_i64 input.1 |}) <$> inputs, None).
Proof. induction inputs as [|[i t] inputs IH]; [done|].
  rewrite !fmap_cons, <- app_comm_cons. cbn [request_stream]. by rewrite IH.
Qed.

Lemma elem_of_detection_stream ctx headers id params th input_id rx i c ds :
  Ok (i, c, ds) ∈ detection_stream ctx headers id params th input_id rx ->
  i = input_id /\ inl (Ok c) ∈ rx /\
  exists client all, client_map_get KDetector id (ctx_clients ctx) = Some client /\
    detect_text_contents client headers id params [c] false = Ok all /\ ds = above th all.
Proof.
  induction rx as [|[[c'|e|site]|e] rx IH]; simpl; try (by intros ?%elem_of_nil).
  - unfold detector_client_of. destruct (client_map_get _ _ _) as [client|]; simpl;
      [|by intros ?%elem_of_nil].
    destruct (detect_text_contents _ _ _ _ _ _) as [all|e|] eqn:E; [| |by intros ?%elem_of_nil].
    + intros [[= -> -> ->]|H]%elem_of_cons.
      * split; [done|]. split; [left|]. by exists client, all.
      * destruct (IH H) as (? & ? & ?). split; [done|]. split; [by right|done].
    + intros [[=]|H]%elem_of_cons. destruct (IH H) as (? & ? & ?).
      split; [done|]. split; [by right|done].
  - intros [[=]|H]%elem_of_cons. destruct (IH H) as (? & ? & ?).
    split; [done|]. split; [by right|done].
Qed.

Lemma open_chunk_stream_id ctx input_id inputs c chunker stream :
  open_chunk_stream ctx input_id inputs c = Ok (chunker, stream) -> c = chunker.
Proof. unfold open_chunk_stream. by intros (s & _ & [= -> _])%bind_Ok. Qed.

(** The answer of a detector on one chunk, above its threshold. *)
Definition detector_reports (ctx : Context) (headers : Headers) (detector : string * DetectorParams)
    (c : Chunk) : outcome OrchError (list Detection) :=
  '(threshold, params) ← detector_threshold "common/tasks.rs:255" ctx detector.1 detector.2;
  client ← detector_client_of "common/tasks.rs:268" ctx detector.1;
  above threshold <$> detect_text_contents client headers detector.1 params [c] false.

(** Its detections, when it answers. *)
Definition chunk_detections (ctx : Context) (headers : Headers) (detector : string * DetectorParams)
    (p : Z * Chunk) : list Detection :=
  match detector_reports ctx headers detector p.2 with
  | Ok detections => detections
  | _ => []
  end.

(** A detector that keeps up and never panics: an answer or an error for each
    chunk, and the chunker's errors passed on. *)
Lemma detection_stream_in_time ctx headers id params0 th params input_id (chunks : list (outcome OrchError Chunk)) :
  detector_threshold "common/tasks.rs:255" ctx id params0 = Ok (th, params) ->
  Forall (fun o => no_panic (c ← o; detector_reports ctx headers (id, params0) c)) chunks ->
  detection_stream ctx headers id params th input_id ((inl <$> chunks) ++ [inr Closed]) =
  (fun o => c ← o; ds ← detector_reports ctx headers (id, params0) c; Ok (input_id, c, ds)) <$> chunks.
Proof.
  intros Hth. unfold detector_reports. simpl. rewrite Hth. cbn [mbind outcome_bind].
  induction 1 as [|o chunks Ho _ IH]; [done|].
  rewrite !fmap_cons, <- app_comm_cons. cbn [detection_stream]. rewrite IH. clear IH.
  destruct o as [c|e|site]; [|done..]. simpl in *.
  destruct (detector_client_of "common/tasks.rs:268" ctx id) as [client|e|site]; [|done..]. simpl in *.
  by destruct (detect_text_contents client headers id params [c] false).
Qed.

(** Detections on a chunk have spans. *)
Lemma chunk_detections_span ctx headers d p x : x ∈ chunk_detections ctx headers d p -> has_span x.
Proof.
  unfold chunk_detections, detector_reports. destruct (detector_threshold _ _ _ _) as [[th params]| |]; simpl;
    try (by intros ?%elem_of_nil).
  unfold detector_client_of. destruct (client_map_get _ _ _) as [client|]; simpl; [|by intros ?%elem_of_nil].
  destruct (detect_text_contents _ _ _ _ _ _) as [all| |] eqn:E; simpl; try (by intros ?%elem_of_nil).
  intros [_ Hx]%elem_of_above.
  destruct (elem_of_detect_text_contents _ _ _ _ _ _ _ _ E Hx) as (_ & _ & _ & y & _ & _ & _ & ->).
  simpl. apply has_span_from_content.
Qed.

(** A request whose streams work: the detectors are configured with one
    chunker, the chunker and the detectors answer, and there are no more
    inputs and chunks than the broadcast channels retain. *)
Record healthy_pipeline (ctx : Context) (headers : Headers) (dets : gmap string DetectorParams)
    (chunker : string) (inputs : list (Z * string)) (chunks : list Chunk) : Prop := {
  hp_chunker : forall id, is_Some (dets !! id) -> exists config,
    detector (ctx_config ctx) id = Some config /\ detector_chunker_id config = chunker;
  hp_streaming : chunker <> DEFAULT_CHUNKER_ID;
  hp_chunks : exists client, client_map_get KChunker chunker (ctx_clients ctx) = Some client /\
    chunk_stream client chunker ((inl <$> (Ok <$> inputs)) ++ [inr Closed]) = Ok (Ok <$> chunks);
  hp_detectors : forall id, is_Some (dets !! id) -> exists client,
    client_map_get KDetector id (ctx_clients ctx) = Some client /\
    forall q, is_ok (text_contents client id q headers) = true;
  hp_inputs_retained : (length inputs <= broadcast_capacity)%nat;
  hp_chunks_retained : (length chunks <= broadcast_capacity)%nat
}.

Lemma detect_text_contents_is_ok client headers id params cs b :
  (forall q, is_ok (text_contents client id q headers) = true) ->
  exists ds, detect_text_contents client headers id params cs b = Ok ds.
Proof.
  intros H. unfold detect_text_contents. destruct (chunk_text <$> cs) as [|t ts]; [by eexists|].
  specialize (H (t :: ts, params)). destruct (text_contents _ _ _ _); [by eexists|done..].
Qed.

Lemma detection_stream_healthy ctx headers id params0 th params input_id (chunks : list Chunk) :
  detector_threshold "common/tasks.rs:255" ctx id params0 = Ok (th, params) ->
  (exists client, client_map_get KDetector id (ctx_clients ctx) = Some client /\
    forall q, is_ok (text_contents client id q headers) = true) ->
  detection_stream ctx headers id params th input_id ((inl <$> (Ok <$> chunks)) ++ [inr Closed]) =
  (fun c => Ok (input_id, c, chunk_detections ctx headers (id, params0) (input_id, c))) <$> chunks.
Proof.
  intros Hth (client & Hcl & Hok). unfold chunk_detections, detector_reports. simpl. rewrite Hth. simpl.
  unfold detector_client_of. rewrite Hcl. simpl.
  induction chunks as [|c chunks IH]; [done|].
  rewrite !fmap_cons, <- app_comm_cons. cbn [detection_stream]. rewrite IH. clear IH.
  unfold detector_client_of. rewrite Hcl. simpl.
  by destruct (detect_text_contents_is_ok client headers id params [c] false Hok) as [ds ->].
Qed.

Lemma broadcast_in_time {A} receiver (l : list A) :
  (length l <= broadcast_capacity)%nat -> broadcast_stream l receiver = (inl <$> l) ++ [inr Closed].
Proof. apply broadcast_view_short, broadcast_recv_view. Qed.

Lemma hash_collect_constant {V} (l : list (string * V)) k v :
  l <> [] -> Forall (fun kv => kv = (k, v)) l -> hash_collect l !! k = Some v.
Proof.
  intros Hne Hl. assert (Hk : is_Some (hash_collect l !! k)).
  { apply hash_collect_is_Some. destruct l as [|kv l]; [done|]. apply Forall_inv in Hl as ->. left. }
  destruct Hk as [v' Hv']. rewrite Hv'. apply hash_collect_lookup_Some in Hv'.
  rewrite Forall_forall in Hl. by specialize (Hl _ Hv') as [= ->].
Qed.

Lemma open_chunk_stream_healthy ctx headers dets chunker input_id inputs chunks :
  healthy_pipeline ctx headers dets chunker inputs chunks ->
  open_chunk_stream ctx input_id (Ok <$> inputs) chunker = Ok (chunker, Ok <$> chunks).
Proof.
  intros [_ Hne (client & Hcl & Hcs) _ Hlen _]. unfold open_chunk_stream.
  rewrite decide_False by done. rewrite Hcl, broadcast_in_time by (by rewrite length_fmap).
  simpl. by rewrite Hcs.
Qed.

(** Every detector of a healthy request reports on every chunk, in order. *)
Lemma detection_streams_healthy ctx headers dets chunker input_id inputs chunks :
  healthy_pipeline ctx headers dets chunker inputs chunks ->
  text_contents_detection_streams ctx headers dets input_id (Ok <$> inputs) =
  Ok ((fun d => (fun c => Ok (input_id, c, chunk_detections ctx headers d (input_id, c))) <$> chunks)
        <$> hash_iter dets).
Proof.
  intros HP. pose proof (open_chunk_stream_healthy _ _ _ _ input_id _ _ HP) as Hopen.
  destruct HP as [Hch _ _ Hdet _ Hlen]. unfold text_contents_detection_streams, chunk_streams.
  destruct (get_chunker_ids_total ctx dets) as (ids & Eids & Hids).
  { intros id Hid. destruct (Hch id Hid) as (config & -> & _). by eexists. }
  rewrite Eids. cbn [mbind outcome_bind].
  assert (Hall : Forall (fun c => c = chunker) ids).
  { apply Forall_forall. intros c Hc. destruct (Hids c Hc) as (id & d & Hid & Hd & ->).
    destruct (Hch id Hid) as (config & Hd' & <-). by rewrite Hd in Hd'; injection Hd' as ->. }
  assert (Hcol : collect (open_chunk_stream ctx input_id (Ok <$> inputs) <$> ids) =
                 Ok ((fun c => (c, Ok <$> chunks)) <$> ids)).
  { apply collect_Ok. clear -Hall Hopen. induction Hall as [|c ids -> _ IH]; [done|].
    rewrite !fmap_cons, Hopen. by f_equal. }
  rewrite Hcol. cbn [mbind outcome_bind]. apply collect_Ok.
  rewrite <- list_fmap_compose. apply list_fmap_ext. intros n [id params] Hn. simpl.
  assert (Hid : dets !! id = Some params).
  { apply elem_of_hash_iter. by eapply list_elem_of_lookup_2. }
  destruct (Hch id (ex_intro _ _ Hid)) as (config & Hcfg & Hc).
  assert (Hth : exists th params', detector_threshold "common/tasks.rs:255" ctx id params = Ok (th, params')).
  { unfold detector_threshold. rewrite Hcfg. simpl. by eexists _, _. }
  destruct Hth as (th & params' & Hth). rewrite Hth. cbn [mbind outcome_bind].
  assert (Hcid : get_chunker_id (ctx_config ctx) id = Some chunker).
  { unfold get_chunker_id, detector in *. rewrite Hcfg. by rewrite <- Hc. }
  rewrite Hcid. cbn [unwrap mbind outcome_bind].
  rewrite (hash_collect_constant _ chunker (Ok <$> chunks)).
  - cbn [unwrap mbind outcome_bind]. rewrite broadcast_in_time by (by rewrite length_fmap).
    f_equal. apply detection_stream_healthy; [done|]. apply Hdet. by exists params.
  - destruct (get_chunker_ids_Ok _ _ _ Eids id (ex_intro _ _ Hid)) as (d & _ & Hin).
    destruct ids; [by apply elem_of_nil in Hin|done].
  - apply Forall_fmap. eapply Forall_impl; [exact Hall|]. by intros c ->.
Qed.
End streams_lemmas.

(** ** Plans of the two batchers *)
Section plans.
Context {SJ : SerdeJson}.

Definition chunk_lt (c c' : Chunk) : Prop := cmp c c' = Lt.

(** Chunks in strictly increasing order are told apart by their indices. *)
Lemma chunk_lt_distinct (chunks : list Chunk) c c' :
  StronglySorted chunk_lt chunks -> c ∈ chunks -> c' ∈ chunks -> cmp c c' = Eq -> c = c'.
Proof.
  induction 1 as [|c0 chunks _ IH Hlt]; [by intros ?%elem_of_nil|].
  rewrite Forall_forall in Hlt.
  intros [->|Hc]%elem_of_cons [->|Hc']%elem_of_cons E; [done|..].
  - specialize (Hlt _ Hc'). unfold chunk_lt in Hlt. congruence.
  - specialize (Hlt _ Hc). unfold chunk_lt in Hlt. apply cmp_eq_sym in E. congruence.
  - by apply IH.
Qed.

Lemma completion_plan_ok (plan : list (Z * Chunk)) :
  NoDup plan -> (forall i c c', (i, c) ∈ plan -> (i, c') ∈ plan -> cmp c c' = Eq -> c = c') ->
  plan_ok (B := CompletionBatcher) plan.
Proof.
  intros Hnd Hd. split; [done| |by intros [i c]].
  intros [i c] [i' c'] Hp Hq E. unfold plan_key in E. simpl in E.
  apply (prod_cmp_eq (c, i) (c', i')) in E as [E Ei]. simpl in E, Ei.
  apply Z_cmp_eq in Ei as ->. by rewrite (Hd i' c c').
Qed.

Lemma max_plan_ok (chunks : list Chunk) :
  StronglySorted chunk_lt chunks -> plan_ok (B := MaxProcessedIndexBatcher) (pair 0 <$> chunks).
Proof.
  intros Hs. split.
  - apply NoDup_fmap_2; [by intros ?? [= ->]|].
    eapply StronglySorted_irrefl_NoDup; [|exact Hs]. intros c E. unfold chunk_lt in E.
    by rewrite cmp_refl in E.
  - intros p q (c & -> & Hc)%list_elem_of_fmap (c' & -> & Hc')%list_elem_of_fmap E.
    f_equal. by eapply chunk_lt_distinct.
  - by intros p ds (c & -> & _)%list_elem_of_fmap.
Qed.
End plans.

(** ** Delivery of the reports of a request *)
Section request_delivery.
Context {SJ : SerdeJson}.
Notation item := (outcome OrchError Batch).

(** A choice of a request: its input id and the chunks of its inputs. *)
Notation Choice := (Z * list Chunk)%type.

Definition choice_plan (choice : Choice) : list (Z * Chunk) := pair choice.1 <$> choice.2.
Definition request_plan (choices : list Choice) : list (Z * Chunk) := choices ≫= choice_plan.

(** The streams of a choice when the detectors [fs] all report on all its chunks. *)
Definition choice_streams (fs : list (Z * Chunk -> list Detection)) (choice : Choice) : list (list item) :=
  (fun f => (fun c => Ok (choice.1, c, f (choice.1, c))) <$> choice.2) <$> fs.

(** The choice a batch belongs to. *)
Definition item_choice (o : item) : option Z := match o with Ok b => Some b.1.1 | _ => None end.

Lemma items_of_app (l1 l2 : list (list item)) : items_of (l1 ++ l2) = items_of l1 ++ items_of l2.
Proof. unfold items_of. by rewrite fmap_app, join_app. Qed.

Lemma ok_items_Ok {A} (g : A -> Batch) (l : list A) : ok_items ((fun a => Ok (g a)) <$> l) = g <$> l.
Proof. induction l as [|a l IH]; [done|]. rewrite !fmap_cons. cbn. by f_equal. Qed.

Lemma choice_streams_items fs choice :
  items_of (choice_streams fs choice) ≡ₚ planned fs (choice_plan choice).
Proof.
  unfold planned, choice_plan, reports_on. rewrite list_fmap_bind. unfold compose. simpl.
  rewrite <- (bind_fmap_swap (fun f c => (choice.1, c, f (choice.1, c)))).
  apply reflexive_eq. unfold choice_streams, items_of.
  induction fs as [|f fs IH]; [done|]. rewrite !fmap_cons.
  cbn. f_equal; [apply ok_items_Ok|exact IH].
Qed.

Lemma request_streams_items fs (choices : list Choice) :
  items_of (choices ≫= choice_streams fs) ≡ₚ planned fs (request_plan choices).
Proof.
  unfold request_plan. induction choices as [|ch choices IH]; [done|]. simpl.
  rewrite items_of_app, IH, choice_streams_items. unfold planned. by rewrite bind_app.
Qed.

Lemma request_streams_ok fs (choices : list Choice) : all_ok (choices ≫= choice_streams fs).
Proof.
  induction choices as [|ch choices IH]; [constructor|]. apply Forall_app. split; [|done].
  apply Forall_fmap, Forall_true. intros f. apply Forall_fmap, Forall_true. by intros.
Qed.

Lemma request_plan_elem (choices : list Choice) i c :
  (i, c) ∈ request_plan choices <-> exists chunks, (i, chunks) ∈ choices /\ c ∈ chunks.
Proof.
  unfold request_plan, choice_plan. rewrite list_elem_of_bind. split.
  - intros ([i' cs] & (c' & [= -> ->] & Hc)%list_elem_of_fmap & Hin). eauto.
  - intros (cs & Hin & Hc). exists (i, cs). split; [|done]. apply list_elem_of_fmap. eauto.
Qed.

Lemma choice_unique (choices : list Choice) i cs cs' :
  NoDup choices.*1 -> (i, cs) ∈ choices -> (i, cs') ∈ choices -> cs = cs'.
Proof.
  induction choices as [|[j ds] choices IH]; [by intros _ ?%elem_of_nil|].
  rewrite fmap_cons. intros [Hj Hnd]%NoDup_cons. rewrite !elem_of_cons. intros [E|H] [E'|H'].
  - congruence.
  - injection E as -> ->. destruct Hj. apply list_elem_of_fmap. by exists (j, cs').
  - injection E' as -> ->. destruct Hj. apply list_elem_of_fmap. by exists (j, cs).
  - by apply IH.
Qed.

Lemma request_plan_ok (choices : list Choice) :
  NoDup choices.*1 -> Forall (fun ch => StronglySorted chunk_lt ch.2) choices ->
  plan_ok (B := CompletionBatcher) (request_plan choices).
Proof.
  intros Hnd Hs. rewrite Forall_forall in Hs. apply completion_plan_ok.
  - induction choices as [|[i cs] choices IH]; [constructor|].
    rewrite fmap_cons in Hnd. apply NoDup_cons in Hnd as [Hi Hnd].
    apply NoDup_app. split; [|split].
    + apply NoDup_fmap_2; [by intros ?? [= ->]|].
      eapply StronglySorted_irrefl_NoDup; [|exact (Hs (i, cs) (list_elem_of_here _ _))].
      intros c E. unfold chunk_lt in E. by rewrite cmp_refl in E.
    + intros p (c & -> & _)%list_elem_of_fmap (cs' & Hin & _)%request_plan_elem.
      apply Hi, list_elem_of_fmap. by exists (i, cs').
    + apply IH; [done|]. intros ch Hin. apply Hs. by right.
  - intros i c c' (cs & Hin & Hc)%request_plan_elem (cs' & Hin' & Hc')%request_plan_elem E.
    rewrite <- (choice_unique _ _ _ _ Hnd Hin Hin') in Hc'.
    eapply chunk_lt_distinct; [exact (Hs _ Hin)|done..].
Qed.

(** In the batcher's order the chunks of a choice keep their own order. *)
Lemma plan_order (choices : list Choice) (plan : list (Z * Chunk)) i cs :
  NoDup choices.*1 -> Forall (fun ch => StronglySorted chunk_lt ch.2) choices ->
  plan ≡ₚ request_plan choices ->
  StronglySorted (fun p q => cmp (plan_key (B := CompletionBatcher) p) (plan_key q) = Lt) plan ->
  (i, cs) ∈ choices ->
  filter (fun p => p.1 = i) plan = pair i <$> cs.
Proof.
  intros Hnd Hs HP Hsort Hin.
  apply (StronglySorted_unique_strong (fun p q => cmp (plan_key (B := CompletionBatcher) p) (plan_key q) = Lt)).
  - intros p q _ _ E1 E2. apply cmp_gt_lt in E2. congruence.
  - clear -Hsort. induction Hsort as [|p plan _ IH Hlt]; [constructor|].
    rewrite filter_cons. destruct (decide _); [|done]. constructor; [done|].
    apply Forall_forall. intros q [_ Hq]%list_elem_of_filter. rewrite Forall_forall in Hlt. by apply Hlt.
  - rewrite Forall_forall in Hs. eapply StronglySorted_fmap; [|exact (Hs _ Hin)].
    intros c c' L. unfold plan_key. simpl. unfold chunk_lt in L.
    unfold cmp at 1, prod_ord. simpl. by rewrite L.
  - apply NoDup_Permutation.
    + apply NoDup_filter. rewrite HP. by apply (request_plan_ok choices).
    + apply NoDup_fmap_2; [by intros ?? [= ->]|]. rewrite Forall_forall in Hs.
      eapply StronglySorted_irrefl_NoDup; [|exact (Hs _ Hin)].
      intros c E. unfold chunk_lt in E. by rewrite cmp_refl in E.
    + intros [j c]. rewrite list_elem_of_filter, HP, request_plan_elem, list_elem_of_fmap. simpl.
      split.
      * intros [-> (cs' & Hin' & Hc)]. exists c. split; [done|].
        by rewrite (choice_unique _ _ _ _ Hnd Hin Hin').
      * intros (c' & [= -> ->] & Hc). split; [done|]. by exists cs.
Qed.
End request_delivery.

(** ** Properties *)
Section streams_properties.
Context {SJ : SerdeJson} {RT : Runtime} {RL : RuntimeLaws RT} {CN : Connector} {SV : Services}.

(** What a detector is asked about a chunk, with its parameters but the
    threshold, and what is kept of the answer: the detections with a score of at
    least the threshold, its default where the request names none, in order and
    under the detector's name. *)
Definition detector_found (ctx : Context) (headers : Headers) (dets : gmap string DetectorParams) (id : string)
    (c : Chunk) (ds : list Detection) : Prop :=
  exists params config client all th,
    dets !! id = Some params /\ detector (ctx_config ctx) id = Some config /\
    client_map_get KDetector id (ctx_clients ctx) = Some client /\
    th = default (default_threshold config) (params !! THRESHOLD_PARAM ≫= value_as_f64) /\
    detect_text_contents client headers id (delete THRESHOLD_PARAM params) [c] false = Ok all /\
    ds = filter (fun x => f64_ge (det_score x) th = true) all /\
    forall x, x ∈ ds -> det_detector_id x = Some id /\ meets_threshold ctx dets x.

Lemma detection_stream_found ctx headers dets id params th params' input_id rx i c ds :
  dets !! id = Some params -> detector_threshold "common/tasks.rs:255" ctx id params = Ok (th, params') ->
  Ok (i, c, ds) ∈ detection_stream ctx headers id params' th input_id rx ->
  i = input_id /\ inl (Ok c) ∈ rx /\ detector_found ctx headers dets id c ds.
Proof.
  intros Hid Hth (-> & Hc & client & all & Hcl & Hdt & ->)%elem_of_detection_stream. split; [done|]. split; [done|].
  apply detector_threshold_Ok in Hth as (config & Hcfg & -> & ->).
  exists params, config, client, all, (default (default_threshold config) (pop_threshold params).1).
  do 6 (split; [done|]). intros x [Hge Hx]%elem_of_above.
  destruct (elem_of_detect_text_contents _ _ _ _ _ _ _ _ Hdt Hx) as (_ & _ & _ & y & _ & _ & _ & ->).
  split; [done|]. eexists id, _. split; [done|]. split; [|exact Hge]. by exists params, config.
Qed.

Lemma detection_streams_sound_at ctx headers dets input_id inputs streams :
  text_contents_detection_streams ctx headers dets input_id inputs = Ok streams ->
  Forall2 (fun d stream => exists chunker chunks,
      get_chunker_id (ctx_config ctx) d.1 = Some chunker /\
      open_chunk_stream ctx input_id inputs chunker = Ok (chunker, chunks) /\
      (forall i c ds, Ok (i, c, ds) ∈ stream ->
        i = input_id /\ Ok c ∈ chunks /\ detector_found ctx headers dets d.1 c ds) /\
      ((length chunks <= broadcast_capacity)%nat ->
       Forall (fun o => no_panic (c ← o; detector_reports ctx headers d c)) chunks ->
       stream = (fun o => c ← o; ds ← detector_reports ctx headers d c; Ok (input_id, c, ds)) <$> chunks))
    (hash_iter dets) streams.
Proof.
  unfold text_contents_detection_streams, chunk_streams.
  intros (ids & _ & (m & (opened & Hopened%collect_Ok & [= <-])%bind_Ok & Hcol%collect_Ok)%bind_Ok)%bind_Ok.
  apply Forall2_same_length_lookup. split.
  { by rewrite <- (length_fmap (Ok (E := OrchError)) streams), <- Hcol, length_fmap. }
  intros n [id params] stream Hd Hs. simpl.
  assert (Hn : (Ok <$> streams) !! n = Some (Ok (E := OrchError) stream)).
  { by rewrite list_lookup_fmap, Hs. }
  rewrite <- Hcol, list_lookup_fmap, Hd in Hn. simpl in Hn. injection Hn as Hn.
  apply bind_Ok in Hn as ([th params'] & Hth & Hn). apply bind_Ok in Hn as (chunker & Hch & Hn).
  apply bind_Ok in Hn as (chunks & Hcs & [= <-]).
  unfold unwrap in Hch, Hcs. destruct (get_chunker_id _ _) as [?|] eqn:Ech; [|done]. injection Hch as ->.
  destruct (hash_collect opened !! chunker) as [?|] eqn:Ecs; [|done]. injection Hcs as ->.
  apply hash_collect_lookup_Some in Ecs.
  exists chunker, chunks. split; [done|]. split; [|split].
  - assert (Hin : Ok (E := OrchError) (chunker, chunks) ∈ Ok (E := OrchError) <$> opened).
    { apply list_elem_of_fmap. by exists (chunker, chunks). }
    rewrite <- Hopened in Hin. apply list_elem_of_fmap in Hin as (c & E & _).
    symmetry in E. by rewrite <- (open_chunk_stream_id _ _ _ _ _ _ E) at 1.
  - intros i c ds Hin. apply list_elem_of_lookup_2, elem_of_hash_iter in Hd.
    destruct (detection_stream_found _ _ _ _ _ _ _ _ _ _ _ _ Hd Hth Hin) as (-> & Hc & Hf).
    split; [done|]. split; [|done]. eapply broadcast_view_elem, Hc. apply broadcast_recv_view.
  - intros Hlen Hnp. rewrite broadcast_in_time by done. by apply detection_stream_in_time.
Qed.

(** C18. The detection streams report what was found: there is a stream per
    requested detector, and each of its reports is on a chunk the detector's own
    chunker made of the inputs, under the right input id, with exactly the
    detections the detector returned for that chunk that reach its threshold, in
    order - whatever the broadcast channels drop and whichever services fail.
    And nothing is left out: when there are no more chunks than the channel
    retains and no query panics, the stream has one item per item of the chunker,
    in order: the report on a chunk, the detector's error, or the chunker's. *)
Theorem detection_streams_sound ctx headers dets input_id inputs streams :
  text_contents_detection_streams ctx headers dets input_id inputs = Ok streams ->
  Forall2 (fun d stream => exists chunker chunks,
      get_chunker_id (ctx_config ctx) d.1 = Some chunker /\
      open_chunk_stream ctx input_id inputs chunker = Ok (chunker, chunks) /\
      (forall i c ds, Ok (i, c, ds) ∈ stream ->
        i = input_id /\ Ok c ∈ chunks /\ detector_found ctx headers dets d.1 c ds) /\
      ((length chunks <= broadcast_capacity)%nat ->
       Forall (fun o => no_panic (c ← o; detector_reports ctx headers d c)) chunks ->
       stream = (fun o => c ← o; ds ← detector_reports ctx headers d c; Ok (input_id, c, ds)) <$> chunks))
    (hash_iter dets) streams.
Proof. apply detection_streams_sound_at. Qed.

(** What the streams of a request with several choices can yield, in general. *)
Lemma request_yields (fs : list (Z * Chunk -> list Detection)) (choices : list (Z * list Chunk)) :
  fs <> [] -> NoDup choices.*1 -> Forall (fun ch => StronglySorted chunk_lt ch.2) choices ->
  exists out plan,
    batch_stream_yields (choices ≫= choice_streams fs)
      (completion_batcher_new (Z.of_nat (length fs))) out /\
    plan ≡ₚ request_plan choices /\
    StronglySorted (fun p q => cmp (plan_key (B := CompletionBatcher) p) (plan_key q) = Lt) plan /\
    Forall2 (delivers fs) plan out.
Proof.
  intros Hfs Hnd Hs.
  pose proof (plan_delivers (B := CompletionBatcher) fs (request_plan choices)
    (choices ≫= choice_streams fs) Hfs (request_plan_ok _ Hnd Hs) (request_streams_ok _ _)
    (request_streams_items _ _)) as (ls & s & plan & Hrun & Hr & HP & Hsort & H2).
  destruct (choices ≫= choice_streams fs) as [|st [|st' sts]] eqn:E.
  1, 3: exists (sent s), plan; split; [by exists ls, s|done].
  (* a single stream is forwarded *)
  destruct choices as [|[i cs] choices]; [done|]. destruct fs as [|f fs]; [done|].
  destruct fs as [|f' fs]; [|done]. destruct choices as [|ch' choices]; [|by destruct ch'].
  simpl in E. injection E as <-.
  exists ((fun c => Ok (i, c, f (i, c))) <$> cs), (pair i <$> cs).
  assert (Hplan : request_plan [(i, cs)] = pair i <$> cs) by apply app_nil_r.
  rewrite Hplan in *. split; [|split; [done|split]].
  - simpl. clear. induction cs as [|c cs IH]; [done|]. rewrite fmap_cons. simpl. by f_equal.
  - apply Forall_inv in Hs. eapply StronglySorted_fmap; [|exact Hs].
    intros c c' L. unfold plan_key. simpl. unfold chunk_lt in L. simpl in L.
    unfold cmp at 1, prod_ord. simpl. by rewrite L.
  - clear. induction cs as [|c cs IH]; [constructor|]. rewrite !fmap_cons. constructor; [|exact IH].
    exists (f (i, c)). split; [done|]. simpl. by rewrite app_nil_r.
Qed.

(** The streams of a request with a single input, merged by the batcher that
    does not tell inputs apart: one batch per chunk, in the chunks' order. *)
Lemma max_streams_deliver ctx headers dets chunker inputs chunks :
  dets <> ∅ -> StronglySorted chunk_lt chunks ->
  healthy_pipeline ctx headers dets chunker inputs chunks ->
  exists streams bs,
    text_contents_detection_streams ctx headers dets 0 (Ok <$> inputs) = Ok streams /\
    batch_stream_yields streams (max_batcher_new (Z.of_nat (size dets))) (Ok <$> bs) /\
    Forall2 (fun c b => exists ds, b = (0, c, ds) /\
      ds ≡ₚ (chunk_detections ctx headers <$> hash_iter dets) ≫= (fun f => f (0, c))) chunks bs.
Proof.
  intros Hne Hs Hh. set (fs := chunk_detections ctx headers <$> hash_iter dets).
  assert (Hlen : length fs = size dets).
  { unfold fs. rewrite length_fmap, (Permutation_length (hash_iter_perm dets)). apply length_map_to_list. }
  assert (Hfs : fs <> []).
  { intros E. apply Hne. rewrite E in Hlen. symmetry in Hlen. by apply map_size_empty_iff in Hlen. }
  assert (Hst : text_contents_detection_streams ctx headers dets 0 (Ok <$> inputs) =
                Ok (choice_streams fs (0, chunks))).
  { rewrite (detection_streams_healthy _ _ _ _ 0 _ _ Hh). f_equal. unfold choice_streams, fs.
    by rewrite <- list_fmap_compose. }
  assert (Hdel : forall bs, Forall2 (delivers fs) (pair 0 <$> chunks) (Ok <$> bs) ->
    Forall2 (fun c b => exists ds, b = (0, c, ds) /\ ds ≡ₚ fs ≫= (fun f => f (0, c))) chunks bs).
  { intros bs H%Forall2_fmap_1. eapply Forall2_impl; [exact H|].
    intros c b (ds & [= ->] & Hds). by exists ds. }
  exists (choice_streams fs (0, chunks)). destruct (decide (length fs = 1%nat)) as [E1|N1].
  { (* a single stream is forwarded *)
    destruct fs as [|f [|f' fs']]; try done.
    exists ((fun c => (0, c, f (0, c))) <$> chunks). split; [done|]. split.
    - simpl. clear. induction chunks as [|c chunks IH]; [done|]. rewrite !fmap_cons. simpl. by f_equal.
    - apply Hdel. clear. induction chunks as [|c chunks IH]; [constructor|]. rewrite !fmap_cons.
      constructor; [|exact IH]. exists (f (0, c)). split; [done|]. simpl. by rewrite app_nil_r. }
  pose proof (plan_delivers (B := MaxProcessedIndexBatcher) fs (pair 0 <$> chunks)
    (choice_streams fs (0, chunks)) Hfs (max_plan_ok _ Hs)) as Hplan.
  destruct Hplan as (ls & s & plan & Hrun & Hr & HP & Hsort & H2).
  { apply Forall_fmap, Forall_true. intros f. apply Forall_fmap, Forall_true. by intros. }
  { apply choice_streams_items. }
  assert (Ep : plan = pair 0 <$> chunks).
  { apply (StronglySorted_unique_strong (fun p q => cmp (plan_key (B := MaxProcessedIndexBatcher) p) (plan_key q) = Lt));
      [|done| |done].
    - intros p q _ _ E1 E2. apply cmp_gt_lt in E2. congruence.
    - eapply StronglySorted_fmap; [|exact Hs]. by intros c c' L. }
  subst plan.
  assert (Hbs : exists bs, sent s = Ok <$> bs).
  { clear -H2. induction H2 as [|p o ps os (ds & -> & _) _ [bs ->]]; [by exists []|].
    by exists ((p.1, p.2, ds) :: bs). }
  destruct Hbs as [bs Ebs]. rewrite Ebs in H2. exists bs. split; [done|]. split; [|by apply Hdel].
  rewrite Hlen in Hrun. unfold batch_stream_yields.
  assert (Hl : length (choice_streams fs (0, chunks)) <> 1%nat) by (unfold choice_streams; by rewrite length_fmap).
  destruct (choice_streams fs (0, chunks)) as [|st [|st' sts]]; [|done|]; exists ls, s; by rewrite <- Ebs.
Qed.

Lemma completion_streams_deliver_at ctx headers dets chunker
    (choices : list (Z * list Chunk)) (inputs : Z -> list (Z * string)) :
  dets <> ∅ -> NoDup choices.*1 -> Forall (fun ch => StronglySorted chunk_lt ch.2) choices ->
  (forall i chunks, (i, chunks) ∈ choices ->
     healthy_pipeline ctx headers dets chunker (inputs i) chunks) ->
  exists streams out,
    collect ((fun ch => text_contents_detection_streams ctx headers dets ch.1 (Ok <$> inputs ch.1))
               <$> choices) = Ok streams /\
    batch_stream_yields (mjoin streams) (completion_batcher_new (Z.of_nat (size dets))) out /\
    (forall i chunks, (i, chunks) ∈ choices ->
       Forall2 (delivers (chunk_detections ctx headers <$> hash_iter dets)) (pair i <$> chunks)
         (filter (fun o => item_choice o = Some i) out)) /\
    forall o, o ∈ out -> exists i, i ∈ choices.*1 /\ item_choice o = Some i.
Proof.
  intros Hne Hnd Hs Hh. set (fs := chunk_detections ctx headers <$> hash_iter dets).
  assert (Hlen : length fs = size dets).
  { unfold fs. rewrite length_fmap. rewrite (Permutation_length (hash_iter_perm dets)).
    apply length_map_to_list. }
  assert (Hfs : fs <> []).
  { intros E. apply Hne. rewrite E in Hlen. symmetry in Hlen. by apply map_size_empty_iff in Hlen. }
  destruct (request_yields fs choices Hfs Hnd Hs) as (out & plan & Hy & HP & Hsort & H2).
  exists (choice_streams fs <$> choices), out. rewrite <- Hlen. split; [|split; [|split]].
  - apply collect_Ok. rewrite <- list_fmap_compose. apply list_fmap_ext.
    intros n [i chunks] Hn. simpl. apply list_elem_of_lookup_2 in Hn.
    rewrite (detection_streams_healthy _ _ _ _ i _ _ (Hh _ _ Hn)). f_equal.
    unfold choice_streams, fs. by rewrite <- list_fmap_compose.
  - assert (E : mjoin (choice_streams fs <$> choices) = choices ≫= choice_streams fs); [|by rewrite E].
    clear. induction choices as [|ch choices IH]; [done|]. rewrite fmap_cons. simpl. by f_equal.
  - intros i chunks Hin. rewrite <- (plan_order choices plan i chunks) by done.
    eapply Forall2_filter; [|exact H2]. intros p o (ds & -> & _). simpl. split; congruence.
  - intros o Ho. apply list_elem_of_lookup in Ho as [n Hn].
    destruct (Forall2_lookup_r _ _ _ _ _ H2 Hn) as ([i c] & Hp & ds & -> & _).
    apply list_elem_of_lookup_2 in Hp. rewrite HP in Hp.
    apply request_plan_elem in Hp as (cs & Hin & _). exists i. split; [|done].
    apply list_elem_of_fmap. by exists (i, cs).
Qed.

(** C17. From texts to batches: when all detectors of a request use one
    chunker, and the chunker and the detectors answer, the streams of all its
    choices can be merged into a stream that ends normally and has, for every
    choice, exactly one batch for each of its chunks, in the chunks' order,
    each with the detections of every detector on that chunk. *)
Theorem completion_streams_deliver ctx headers dets chunker
    (choices : list (Z * list Chunk)) (inputs : Z -> list (Z * string)) :
  dets <> ∅ -> NoDup choices.*1 -> Forall (fun ch => StronglySorted chunk_lt ch.2) choices ->
  (forall i chunks, (i, chunks) ∈ choices ->
     healthy_pipeline ctx headers dets chunker (inputs i) chunks) ->
  exists streams out,
    collect ((fun ch => text_contents_detection_streams ctx headers dets ch.1 (Ok <$> inputs ch.1))
               <$> choices) = Ok streams /\
    batch_stream_yields (mjoin streams) (completion_batcher_new (Z.of_nat (size dets))) out /\
    (forall i chunks, (i, chunks) ∈ choices ->
       Forall2 (delivers (chunk_detections ctx headers <$> hash_iter dets)) (pair i <$> chunks)
         (filter (fun o => item_choice o = Some i) out)) /\
    forall o, o ∈ out -> exists i, i ∈ choices.*1 /\ item_choice o = Some i.
Proof. apply completion_streams_deliver_at. Qed.

(** The streaming variant of the whole-document chunker works backwards:
    its receiver's end is unwrapped, so inputs that end normally kill the task
    and no chunk is ever sent, whereas an error among the inputs ends the loop
    and the texts before it become the chunk. *)
Theorem whole_doc_chunk_stream_inverted ctx input_id (inputs : list (Z * string)) e rest :
  open_chunk_stream ctx input_id (Ok <$> inputs) DEFAULT_CHUNKER_ID = Ok (DEFAULT_CHUNKER_ID, []) /\
  ((length inputs + S (length rest) <= broadcast_capacity)%nat ->
   open_chunk_stream ctx input_id ((Ok <$> inputs) ++ Err e :: rest) DEFAULT_CHUNKER_ID =
   Ok (DEFAULT_CHUNKER_ID,
       [Ok {| input_start_index := 0; input_end_index := default 0 (last inputs.*1);
              chunk_start := 0; chunk_end := char_count (concat inputs.*2);
              chunk_text := concat inputs.*2 |}])).
Proof.
  unfold open_chunk_stream. rewrite decide_True by done. unfold whole_doc_chunk_stream. split.
  - assert (Hp : exists site, collect_inputs (E := OrchError)
      (broadcast_stream (Ok (E := OrchError) <$> inputs) (input_id, DEFAULT_CHUNKER_ID)) = Panic site);
      [|by destruct Hp as [site ->]].
    pose proof (broadcast_recv_view (input_id, DEFAULT_CHUNKER_ID) (Ok (E := OrchError) <$> inputs)) as Hv.
    unfold broadcast_stream. remember (Ok <$> inputs) as l eqn:El.
    revert inputs El. induction Hv as [|x l view _ IH|skipped l view _ _ _ _]; intros inputs El.
    + by eexists.
    + destruct inputs as [|input inputs]; [done|]. rewrite fmap_cons in El. injection El as -> ->.
      destruct (IH inputs eq_refl) as [site E]. exists site. simpl. by rewrite E.
    + by eexists.
  - intros Hlen. rewrite broadcast_in_time by (rewrite length_app, length_fmap; simpl; lia).
    assert (Hc : collect_inputs (E := OrchError)
      ((inl <$> ((Ok <$> inputs) ++ Err e :: rest)) ++ [inr Closed]) = Ok inputs); [|by rewrite Hc].
    clear. induction inputs as [|input inputs IH]; [done|].
    rewrite fmap_cons, <- app_comm_cons, fmap_cons, <- app_comm_cons. cbn [collect_inputs].
    by rewrite IH.
Qed.
End streams_properties.

(** ** Witnesses *)
Section witnesses.
#[local] Existing Instance fifo_runtime.
#[local] Existing Instance fifo_runtime_laws.
#[local] Existing Instance simple_json.
#[local] Existing Instance settings_connector.
#[local] Existing Instance ex_services.

Definition ex_headers : @Headers _ _ ex_services := tt.

(** Two detectors on the sentence chunker, and one on another chunker. *)
Definition ex_stream_config : OrchestratorConfig :=
  {| generation := None; openai := None;
     chunkers := Some {[ "sentence" := {| chunker_type := Sentence; chunker_service := ex_service None |};
                         "paragraph" := {| chunker_type := Sentence; chunker_service := ex_service None |} ]};
     detectors := {[ "hap" := ex_detector TextContents "sentence" (f64_of_Z 0) None;
                     "pii" := ex_detector TextContents "sentence" (f64_of_Z 0) None;
                     "toxic" := ex_detector TextContents "paragraph" (f64_of_Z 0) None ]};
     tls_configs := None; router := None; passthrough_headers := ∅;
     rewrite_forwarded_access_header := false;
     detector_concurrent_requests := default_detector_concurrent_requests;
     chunker_concurrent_requests := default_chunker_concurrent_requests |}.
Definition ex_stream_ctx : Context :=
  {| ctx_config := ex_stream_config;
     ctx_clients := match create_clients ex_stream_config with Ok m => m | _ => ∅ end |}.
Definition ex_stream_dets : gmap string DetectorParams := {[ "hap" := ∅; "pii" := ∅ ]}.

(** The messages of two choices, and the chunks the example chunker makes. *)
Definition ex_inputs (i : Z) : list (Z * string) :=
  if i =? 0 then [(0, "Hello. "); (2, "Bye.")] else [(1, "Hi.")].
Definition ex_chunks (i : Z) : list Chunk :=
  match open_chunk_stream ex_stream_ctx i (Ok <$> ex_inputs i) "sentence" with
  | Ok (_, l) => omap (fun o => match o with Ok c => Some c | _ => None end) l
  | _ => []
  end.

Lemma ex_text_contents_ok client id q h : is_ok (text_contents client id q h) = true.
Proof. done. Qed.

Lemma ex_healthy i : i = 0 \/ i = 1 ->
  healthy_pipeline ex_stream_ctx ex_headers ex_stream_dets "sentence" (ex_inputs i) (ex_chunks i).
Proof.
  intros Hi. split; [|done| | | |].
  - intros id [p Hp]. unfold ex_stream_dets in Hp.
    apply lookup_insert_Some in Hp as [[<- _]|[_ [<- _]%lookup_singleton_Some]];
      eexists; (split; [vm_compute; reflexivity|reflexivity]).
  - destruct Hi as [-> | ->]; eexists; (split; [vm_compute; reflexivity|vm_compute; reflexivity]).
  - intros id [p Hp]. unfold ex_stream_dets in Hp.
    apply lookup_insert_Some in Hp as [[<- _]|[_ [<- _]%lookup_singleton_Some]];
      eexists; (split; [vm_compute; reflexivity|intros q; apply ex_text_contents_ok]).
  - destruct Hi as [-> | ->]; vm_compute; lia.
  - destruct Hi as [-> | ->]; vm_compute; lia.
Qed.

Definition ex_choices : list (Z * list Chunk) := [(0, ex_chunks 0); (1, ex_chunks 1)].

Lemma completion_streams_deliver_witness :
  chunk_text <$> ex_chunks 0 = ["Hello. "; "Bye."] /\
  exists streams out,
    batch_stream_yields (mjoin streams) (completion_batcher_new 2) out /\
    Forall2 (delivers (chunk_detections ex_stream_ctx ex_headers <$> hash_iter ex_stream_dets))
      (pair 0 <$> ex_chunks 0) (filter (fun o => item_choice o = Some 0) out).
Proof.
  split; [vm_compute; reflexivity|].
  destruct (completion_streams_deliver ex_stream_ctx ex_headers ex_stream_dets "sentence" ex_choices ex_inputs)
    as (streams & out & _ & Hy & Hd & _).
  - apply insert_non_empty.
  - apply (bool_decide_unpack _). vm_compute. exact I.
  - unfold chunk_lt. apply (bool_decide_unpack _). vm_compute. exact I.
  - intros i chunks H. apply elem_of_cons in H as [E|H].
    + apply pair_equal_spec in E as [-> ->]. apply ex_healthy. left. reflexivity.
    + apply list_elem_of_singleton in H. apply pair_equal_spec in H as [-> ->].
      apply ex_healthy. right. reflexivity.
  - exists streams, out. exact (conj Hy (Hd 0 (ex_chunks 0) (list_elem_of_here _ _))).
Defined.

Lemma detection_streams_sound_witness :
  exists streams,
    text_contents_detection_streams ex_stream_ctx ex_headers ex_stream_dets 0 (Ok <$> ex_inputs 0) =
      Ok streams /\
    Forall2 (fun d stream => forall i c ds, Ok (i, c, ds) ∈ stream -> i = 0 /\
      detector_found ex_stream_ctx ex_headers ex_stream_dets d.1 c ds) (hash_iter ex_stream_dets) streams.
Proof.
  pose proof (detection_streams_healthy ex_stream_ctx ex_headers ex_stream_dets "sentence" 0 _ _
    (ex_healthy 0 (or_introl eq_refl))) as E.
  eexists. split; [exact E|].
  refine (Forall2_impl _ _ _ _ (detection_streams_sound _ _ _ _ _ _ E) _).
  intros d stream (chunker & chunks & _ & _ & Hs & _) i c ds Ho.
  destruct (Hs i c ds Ho) as (Hi & _ & Hf). exact (conj Hi Hf).
Defined.

Lemma whole_doc_chunk_stream_inverted_witness :
  open_chunk_stream ex_stream_ctx 0 ((Ok <$> ex_inputs 0) ++ [Err (Validation "stop")]) DEFAULT_CHUNKER_ID =
  Ok (DEFAULT_CHUNKER_ID,
      [Ok {| input_start_index := 0; input_end_index := 2; chunk_start := 0; chunk_end := 11;
             chunk_text := "Hello. Bye." |}]).
Proof.
  exact (proj2 (whole_doc_chunk_stream_inverted ex_stream_ctx 0 (ex_inputs 0) (Validation "stop") [])
    ltac:(vm_compute; lia)).
Defined.
End witnesses.
