(* ===== verification/DetectionHandlers.v ===== *)
(** * Detection endpoints

    The handlers that run detectors on a text, a chat, a context or a
    generation (src/orchestrator/handlers/: text_content_detection.rs,
    chat_detection.rs, context_docs_detection.rs, detection_on_generation.rs,
    generation_with_detection.rs).  A task carries the request and its headers;
    the trace id only labels log lines and is left out. *)
From S2P Require Import Prelude Collections External Errors Utf8 Config Detection Chunk.
From S2P Require Import Clients OpenAi Models Utils Tasks.
#[local] Open Scope string_scope.
#[local] Open Scope list_scope.
#[local] Open Scope Z_scope.

Section handlers.
Context {SJ : SerdeJson} {RT : Runtime} {CN : Connector} {SV : Services}.

(** ** Text contents *)
Record TextContentDetectionTask := {
  tct_content : string;
  tct_detectors : gmap string DetectorParams;
  tct_headers : Headers
}.
Definition text_content_task_new (request : TextContentDetectionHttpRequest) (headers : Headers)
    : TextContentDetectionTask :=
  {| tct_content := tc_content request; tct_detectors := tc_detectors request;
     tct_headers := headers |}.

Definition handle_text_content (ctx : Context) (task : TextContentDetectionTask)
    : outcome OrchError TextContentDetectionResult :=
  validate_detectors (hash_iter (tct_detectors task)) (detectors (ctx_config ctx))
    [TextContents] true ≫= fun _ =>
  detections ← text_contents_detections ctx (tct_headers task) (tct_detectors task)
                 [(0, tct_content task)];
  detections ← collect (content_analysis_from <$> (detections : list Detection));
  Ok {| tcd_detections := detections |}.

(** ** Chats *)
Record ChatDetectionTask := {
  cht_detectors : gmap string DetectorParams;
  cht_messages : list Message;
  cht_tools : list Tool;
  cht_headers : Headers
}.
Definition chat_detection_task_new (request : ChatDetectionHttpRequest) (headers : Headers)
    : ChatDetectionTask :=
  {| cht_detectors := ch_detectors request; cht_messages := ch_messages request;
     cht_tools := ch_tools request; cht_headers := headers |}.

Definition handle_chat_detection (ctx : Context) (task : ChatDetectionTask)
    : outcome OrchError ChatDetectionResult :=
  validate_detectors (hash_iter (cht_detectors task)) (detectors (ctx_config ctx))
    [TextChat] true ≫= fun _ =>
  detections ← text_chat_detections ctx (cht_headers task) (cht_detectors task)
                 (cht_messages task) (cht_tools task);
  Ok {| chr_detections := detection_result_from <$> (detections : list Detection) |}.

(** ** Context documents *)
Record ContextDocsDetectionTask := {
  cdt_content : string;
  cdt_context_type : ContextType;
  cdt_context : list string;
  cdt_detectors : gmap string DetectorParams;
  cdt_headers : Headers
}.
Definition context_docs_task_new (request : ContextDocsHttpRequest) (headers : Headers)
    : ContextDocsDetectionTask :=
  {| cdt_content := cd_content request; cdt_context_type := cd_context_type request;
     cdt_context := cd_context request; cdt_detectors := cd_detectors request;
     cdt_headers := headers |}.

Definition handle_context_docs (ctx : Context) (task : ContextDocsDetectionTask)
    : outcome OrchError ContextDocsResult :=
  validate_detectors (hash_iter (cdt_detectors task)) (detectors (ctx_config ctx))
    [TextContextDoc] true ≫= fun _ =>
  detections ← text_context_detections ctx (cdt_headers task) (cdt_detectors task)
                 (cdt_content task) (cdt_context_type task) (cdt_context task);
  Ok {| cdr_detections := detection_result_from <$> (detections : list Detection) |}.

(** ** Generated texts *)
Record DetectionOnGenerationTask := {
  dgt_prompt : string;
  dgt_generated_text : string;
  dgt_detectors : gmap string DetectorParams;
  dgt_headers : Headers
}.
Definition detection_on_generation_task_new (request : DetectionOnGeneratedHttpRequest)
    (headers : Headers) : DetectionOnGenerationTask :=
  {| dgt_prompt := dg_prompt request; dgt_generated_text := dg_generated_text request;
     dgt_detectors := dg_detectors request; dgt_headers := headers |}.

Definition handle_detection_on_generation (ctx : Context) (task : DetectionOnGenerationTask)
    : outcome OrchError DetectionOnGenerationResult :=
  validate_detectors (hash_iter (dgt_detectors task)) (detectors (ctx_config ctx))
    [TextGeneration] true ≫= fun _ =>
  detections ← text_generation_detections ctx (dgt_headers task) (dgt_detectors task)
                 (dgt_prompt task) (dgt_generated_text task);
  Ok {| dgr_detections := detection_result_from <$> (detections : list Detection) |}.

(** ** Generation, then detection *)
Record GenerationWithDetectionTask := {
  gdt_model_id : string;
  gdt_prompt : string;
  gdt_detectors : gmap string DetectorParams;
  gdt_text_gen_parameters : option GuardrailsTextGenerationParameters;
  gdt_headers : Headers
}.
Definition generation_with_detection_task_new (request : GenerationWithDetectionHttpRequest)
    (headers : Headers) : GenerationWithDetectionTask :=
  {| gdt_model_id := gd_model_id request; gdt_prompt := gd_prompt request;
     gdt_detectors := gd_detectors request;
     gdt_text_gen_parameters := gd_text_gen_parameters request; gdt_headers := headers |}.

Definition handle_generation_with_detection (ctx : Context) (task : GenerationWithDetectionTask)
    : outcome OrchError GenerationWithDetectionResult :=
  validate_detectors (hash_iter (gdt_detectors task)) (detectors (ctx_config ctx))
    [TextGeneration] true ≫= fun _ =>
  client ← unwrap "handlers/generation_with_detection.rs:58"
             (client_map_get KGeneration "generation" (ctx_clients ctx));
  generation ← generate client (gdt_headers task) (gdt_model_id task) (gdt_prompt task)
                 (gdt_text_gen_parameters task);
  let generated_text := default "" (cg_generated_text generation) in
  detections ← text_generation_detections ctx (gdt_headers task) (gdt_detectors task)
                 (gdt_prompt task) generated_text;
  Ok {| gdr_generated_text := generated_text;
        gdr_input_token_count := cg_input_token_count generation;
        gdr_detections := detection_result_from <$> (detections : list Detection) |}.
End handlers.

(** ** Lemmas *)
Section handlers_lemmas.
Context {SJ : SerdeJson} {RT : Runtime} {RL : RuntimeLaws RT} {CN : Connector} {SV : Services}.

(** Every configured detector has a client. *)
Definition clients_ready (ctx : Context) : Prop :=
  forall id d, detector (ctx_config ctx) id = Some d ->
    is_Some (client_map_get KDetector id (ctx_clients ctx)).

(** The requested detectors are configured with one of the types. *)
Definition detectors_of_types (ctx : Context) (types : list DetectorType)
    (dets : gmap string DetectorParams) : Prop :=
  forall id, is_Some (dets !! id) ->
    exists d, detector (ctx_config ctx) id = Some d /\ detector_type d ∈ types.

Lemma validated_types ctx dets types whole :
  validate_detectors (hash_iter dets) (detectors (ctx_config ctx)) types whole = Ok () ->
  detectors_of_types ctx types dets.
Proof.
  rewrite validate_detectors_Ok. intros H id [params Hp].
  destruct (H id params) as (d & Hd & Ht & _); [by apply elem_of_hash_iter|]. by exists d.
Qed.

Lemma types_available ctx dets types :
  clients_ready ctx -> detectors_of_types ctx types dets -> detectors_available ctx dets.
Proof.
  intros Hc H id Hid. destruct (H id Hid) as (d & Hd & _). exists d. split; [done|]. by eapply Hc.
Qed.

(** A handler that validates its detectors and goes on with available ones. *)
Lemma validated_no_panic {A} ctx dets types whole (k : unit -> outcome OrchError A) :
  clients_ready ctx ->
  (detectors_of_types ctx types dets -> detectors_available ctx dets -> no_panic (k ())) ->
  no_panic (validate_detectors (hash_iter dets) (detectors (ctx_config ctx)) types whole ≫= k).
Proof.
  intros Hc Hk. apply no_panic_bind.
  - apply for_each_no_panic. intros [id params] _. destruct (_ !! id); [|done].
    destruct (negb _); [done|]. by destruct (_ && _).
  - intros [] Hv. pose proof (validated_types _ _ _ _ Hv). apply Hk; [done|].
    by eapply types_available.
Qed.

Lemma content_analysis_no_panic (l : list Detection) :
  (forall d, d ∈ l -> has_span d) -> no_panic (collect (content_analysis_from <$> l)).
Proof.
  intros H. apply collect_no_panic, Forall_fmap, Forall_forall. intros d Hd. simpl.
  destruct (has_span_content_ok d (H d Hd)) as [c ->]. done.
Qed.

Lemma elem_of_content_analysis (l : list Detection) r c :
  collect (content_analysis_from <$> l) = Ok r -> c ∈ r ->
  exists d, d ∈ l /\ content_analysis_from d = Ok c.
Proof.
  intros H%collect_Ok Hc.
  assert (Hin : Ok c ∈ content_analysis_from <$> l) by (rewrite H; apply list_elem_of_fmap; by exists c).
  apply list_elem_of_fmap in Hin as (d & ? & ?). by exists d.
Qed.

Lemma content_analysis_exact text d c :
  exact_span text d -> content_analysis_from d = Ok c ->
  span_of text (car_start c) (car_end c) (car_text c) /\
  car_detector_id c = det_detector_id d /\ car_score c = det_score d /\
  det_start d = Some (car_start c).
Proof.
  intros (s & e & t & Hs & He & Ht & Hsp). unfold content_analysis_from.
  rewrite Hs, He, Ht. simpl. by intros [= <-].
Qed.

Lemma content_analysis_sorted (l : list Detection) r :
  (forall d, d ∈ l -> is_Some (det_start d)) ->
  StronglySorted (key_le det_start) l ->
  collect (content_analysis_from <$> l) = Ok r ->
  StronglySorted (fun a b => car_start a <= car_start b) r.
Proof.
  intros Hsome Hs H. revert r H. induction Hs as [|d l Hs IH Hd]; intros r H.
  { injection H as <-. constructor. }
  rewrite fmap_cons in H. simpl in H. apply bind_Ok in H as (c & Hc & (r' & Hr & [= <-])%bind_Ok).
  constructor; [apply IH; [intros; apply Hsome; by right|done]|].
  apply Forall_forall. intros c' Hc'. destruct (elem_of_content_analysis _ _ _ Hr Hc') as (d' & Hd' & E).
  rewrite Forall_forall in Hd. specialize (Hd d' Hd'). unfold key_le in Hd.
  assert (Hst : forall x y, content_analysis_from x = Ok y -> det_start x = Some (car_start y)).
  { intros x y. unfold content_analysis_from. intros (s & Hx & Hx')%bind_Ok.
    apply bind_Ok in Hx' as (e & _ & (t & _ & [= <-])%bind_Ok).
    destruct (det_start x); [|done]. by injection Hx as <-. }
  rewrite (Hst _ _ Hc), (Hst _ _ E) in Hd. exact Hd.
Qed.
End handlers_lemmas.

(** ** Properties *)
Section handlers_properties.
Context {SJ : SerdeJson} {RT : Runtime} {RL : RuntimeLaws RT} {CN : Connector} {SV : Services}.

Lemma handle_text_content_no_panic ctx sendable task :
  services_no_panic ctx sendable -> clients_ready ctx -> concurrency_positive ctx -> no_panic (handle_text_content ctx task).
Proof.
  intros Hsv Hcl Hcc. apply validated_no_panic; [done|]. intros _ Hav.
  apply no_panic_bind; [by eapply text_contents_detections_no_panic|]. intros ds Hds.
  apply no_panic_bind; [|done]. apply content_analysis_no_panic.
  intros d Hd. by apply (text_contents_detections_has_span _ _ _ _ _ _ Hcc Hds Hd).
Qed.

(** C19. The text contents endpoint, whatever the services answer in whatever
    order: it never panics, only runs detectors configured for text contents,
    and reports, sorted by start, detections whose start and end are code point
    indices of the submitted content, whose text is exactly that slice of it,
    and whose score reaches the threshold of the requested detector they
    name. *)
Theorem handle_text_content_correct ctx sendable task :
  services_no_panic ctx sendable -> clients_ready ctx -> concurrency_positive ctx ->
  chunkers_faithful -> detectors_faithful ->
  aligned (tct_content task) -> char_count (tct_content task) < 2 ^ 63 ->
  no_panic (handle_text_content ctx task) /\
  forall res, handle_text_content ctx task = Ok res ->
    detectors_of_types ctx [TextContents] (tct_detectors task) /\
    StronglySorted (fun a b => car_start a <= car_start b) (tcd_detections res) /\
    forall c, c ∈ tcd_detections res ->
      span_of (tct_content task) (car_start c) (car_end c) (car_text c) /\
      exists id th, car_detector_id c = Some id /\
        threshold_of ctx (tct_detectors task) id th /\ f64_ge (car_score c) th = true.
Proof.
  intros Hsv Hcl Hcc HCF HDF Ha Hn. unfold handle_text_content. split.
  - by eapply handle_text_content_no_panic.
  - intros res ([] & Hv & (ds & Hds & (cs & Hcs & [= <-])%bind_Ok)%bind_Ok)%bind_Ok. simpl.
    split; [by eapply validated_types|]. split.
    + apply (content_analysis_sorted ds); [|by eapply text_contents_detections_sorted|done].
      intros d Hd. by apply (text_contents_detections_has_span _ _ _ _ _ _ Hcc Hds Hd).
    + intros c Hc. destruct (elem_of_content_analysis _ _ _ Hcs Hc) as (d & Hd & Hdc).
      destruct (text_contents_detections_spans _ _ _ _ _ _ _ HCF HDF Hcc Ha Hn
                  (inputs_of_whole _ Hn) Hds Hd) as [Hspan (id & th & Hid & Hth & Hge)].
      destruct (content_analysis_exact _ _ _ Hspan Hdc) as (Hs & -> & -> & _).
      split; [exact Hs|]. by exists id, th.
Qed.

(** The detection endpoints never panic, whatever the services answer: a
    request naming an unknown detector, or one of another type, is refused
    with an error instead.  (Generation with detection needs the
    generation service to be configured.) *)
Lemma detection_handlers_no_panic ctx sendable :
  services_no_panic ctx sendable -> clients_ready ctx -> concurrency_positive ctx ->
  (forall task, no_panic (handle_text_content ctx task)) /\
  (forall task, no_panic (handle_chat_detection ctx task)) /\
  (forall task, no_panic (handle_context_docs ctx task)) /\
  (forall task, no_panic (handle_detection_on_generation ctx task)) /\
  (is_Some (client_map_get KGeneration "generation" (ctx_clients ctx)) ->
   forall task, sendable (gdt_model_id task) -> no_panic (handle_generation_with_detection ctx task)).
Proof.
  intros Hsv Hcl Hcc.
  assert (HT : forall s1 s2 dets Q service (body : DetectorParams -> Q),
    (forall c id q, client_map_get KDetector id (ctx_clients ctx) = Some c -> no_panic (service c id q)) ->
    detectors_available ctx dets ->
    no_panic (detection_tasks s1 s2 ctx dets (result_request service body))).
  { intros * Hs Hav. apply detection_tasks_no_panic; [done..|]. intros client id params Hc.
    apply no_panic_bind; [by apply no_panic_map_err, Hs|done]. }
  split; [|split; [|split; [|split]]].
  - intros task. by eapply handle_text_content_no_panic.
  - intros task. apply validated_no_panic; [done|]. intros _ Hav. apply no_panic_bind; [|done].
    apply (HT _ _ _ _ (fun c id q => text_chat c id q (cht_headers task))); [|done].
    intros. by eapply snp_text_chat.
  - intros task. apply validated_no_panic; [done|]. intros _ Hav. apply no_panic_bind; [|done].
    apply (HT _ _ _ _ (fun c id q => text_context_doc c id q (cdt_headers task))); [|done].
    intros. by eapply snp_text_context_doc.
  - intros task. apply validated_no_panic; [done|]. intros _ Hav. apply no_panic_bind; [|done].
    apply (HT _ _ _ _ (fun c id q => text_generation c id q (dgt_headers task))); [|done].
    intros. by eapply snp_text_generation.
  - intros [client Hg] task Hm. apply validated_no_panic; [done|]. intros _ Hav. rewrite Hg. simpl.
    apply no_panic_bind; [by eapply no_panic_map_err, snp_generation_generate|].
    intros g _. apply no_panic_bind; [|done].
    apply (HT _ _ _ _ (fun c id q => text_generation c id q (gdt_headers task))); [|done].
    intros. by eapply snp_text_generation.
Qed.

(** Generation with detection returns the text the generation service
    generated for the prompt, unchanged, with exactly the detections that the
    requested generation detectors reported on that prompt and text with a
    score of at least their threshold. *)
Theorem handle_generation_with_detection_spec ctx task res :
  concurrency_positive ctx ->
  handle_generation_with_detection ctx task = Ok res ->
  detectors_of_types ctx [TextGeneration] (gdt_detectors task) /\
  exists client generation answers,
    client_map_get KGeneration "generation" (ctx_clients ctx) = Some client /\
    generation_generate client (gdt_model_id task) (gdt_prompt task)
      (gdt_text_gen_parameters task) (gdt_headers task) = Ok generation /\
    gdr_generated_text res = default "" (cg_generated_text generation) /\
    gdr_input_token_count res = cg_input_token_count generation /\
    answered ctx (gdt_detectors task) (fun c id q => text_generation c id q (gdt_headers task))
      (fun params => (gdt_prompt task, gdr_generated_text res, params)) answers /\
    gdr_detections res ≡ₚ detection_result_from <$> reported answers.
Proof.
  intros Hcc ([] & Hv & H)%bind_Ok. split; [by eapply validated_types|].
  apply bind_Ok in H as (client & Hcl & (g & Hg & (ds & Hds & [= <-])%bind_Ok)%bind_Ok).
  destruct (client_map_get _ _ _) as [client'|] eqn:Ecl; [|done]. injection Hcl as ->.
  unfold generate in Hg. destruct (generation_generate _ _ _ _ _) as [g'| |] eqn:Eg; try done.
  injection Hg as ->.
  destruct (detection_tasks_spec _ _ ctx (gdt_detectors task)
    (fun c id q => text_generation c id q (gdt_headers task))
    (fun params => (gdt_prompt task, default "" (cg_generated_text g), params))
    ds Hcc Hds) as (answers & Han & Hrep).
  exists client, g, answers. simpl. rewrite Hrep. done.
Qed.
End handlers_properties.

(** ** Witnesses *)
Section witnesses.
#[local] Existing Instance fifo_runtime.
#[local] Existing Instance simple_json.
#[local] Existing Instance settings_connector.

(** The example services with a model that always answers "All good". *)
Definition ex_generation : ClassifiedGeneratedTextResult :=
  {| cg_generated_text := Some "All good";
     cg_token_classification_results := {| tgr_input := None; tgr_output := None |};
     cg_finish_reason := None; cg_generated_token_count := Some 2; cg_seed := None;
     cg_input_token_count := 3; cg_warnings := None; cg_tokens := None; cg_input_tokens := None |}.
Definition ex_model_services : Services :=
  with_generation ex_services (fun _ _ _ _ _ => Ok ex_generation).

Lemma ex_clients_ready : clients_ready ex_ctx.
Proof.
  assert (H : map_Forall (fun id _ => is_Some (client_map_get KDetector id (ctx_clients ex_ctx)))
    (detectors (ctx_config ex_ctx))) by (apply (bool_decide_unpack _); vm_compute; exact I).
  intros id d Hd. exact (H id d Hd).
Qed.

Lemma ex_concurrency : concurrency_positive ex_ctx.
Proof. split; vm_compute; lia. Qed.

Lemma ex_model_services_no_panic ctx sendable : @services_no_panic _ _ ex_model_services ctx sendable.
Proof. split; intros; simpl; by try destruct (_ <? _). Qed.

Definition ex_content_task : @TextContentDetectionTask _ _ ex_services :=
  {| tct_content := ex_text; tct_detectors := ex_dets; tct_headers := (() : @Headers _ _ ex_services) |}.

Lemma handle_text_content_correct_witness :
  exists res, @handle_text_content _ _ _ ex_services ex_ctx ex_content_task = Ok res /\
    (fun c => (car_start c, car_end c, car_text c)) <$> tcd_detections res = [(0, 16, ex_text)] /\
    StronglySorted (fun a b => car_start a <= car_start b) (tcd_detections res).
Proof.
  destruct (@handle_text_content_correct simple_json fifo_runtime fifo_runtime_laws
    settings_connector ex_services ex_ctx (fun _ => True) ex_content_task) as [_ H].
  - apply ex_services_no_panic.
  - exact ex_clients_ready.
  - exact ex_concurrency.
  - exact ex_chunkers_faithful.
  - exact ex_detectors_faithful.
  - vm_compute. reflexivity.
  - vm_compute. reflexivity.
  - destruct (@handle_text_content simple_json fifo_runtime settings_connector ex_services
      ex_ctx ex_content_task) as [res| |] eqn:E; [|by vm_compute in E..].
    exists res. split; [reflexivity|]. split; [|exact (proj1 (proj2 (H res eq_refl)))].
    vm_compute in E. injection E as <-. vm_compute. reflexivity.
Defined.

Definition ex_unknown_task : @ChatDetectionTask _ _ ex_services :=
  {| cht_detectors := {[ "unknown" := ∅ ]}; cht_messages := [message_default]; cht_tools := [];
     cht_headers := (() : @Headers _ _ ex_services) |}.

Definition ex_gen_task : @GenerationWithDetectionTask _ _ ex_model_services :=
  {| gdt_model_id := "model"; gdt_prompt := "Is all well?"; gdt_detectors := {[ "grounded" := ∅ ]};
     gdt_text_gen_parameters := None; gdt_headers := (() : @Headers _ _ ex_model_services) |}.

Lemma handle_generation_with_detection_spec_witness :
  exists res answers,
    @handle_generation_with_detection _ _ _ ex_model_services ex_ctx ex_gen_task = Ok res /\
    gdr_generated_text res = "All good" /\
    gdr_detections res ≡ₚ detection_result_from <$> reported answers.
Proof.
  destruct (@handle_generation_with_detection simple_json fifo_runtime settings_connector
    ex_model_services ex_ctx ex_gen_task) as [res| |] eqn:E; [|by vm_compute in E..].
  destruct (@handle_generation_with_detection_spec simple_json fifo_runtime fifo_runtime_laws
    settings_connector ex_model_services ex_ctx ex_gen_task res ex_concurrency E)
    as (_ & client & g & answers & _ & Hg & Ht & _ & _ & Hd).
  exists res, answers. split; [reflexivity|]. split; [|exact Hd].
  rewrite Ht. vm_compute in Hg. injection Hg as <-. vm_compute. reflexivity.
Defined.
End witnesses.
