(* ===== verification/Classification.v ===== *)
(** * Generation with classification

    The handler that guards a text generation on both sides
    (src/orchestrator/handlers/classification_with_gen.rs): detections on the
    input end the task, detections on the output are added to the
    generation. *)
From S2P Require Import Prelude Collections External Errors Utf8 Config Detection Chunk.
From S2P Require Import Clients OpenAi Models Utils Tasks DetectionHandlers.
#[local] Open Scope string_scope.
#[local] Open Scope list_scope.
#[local] Open Scope Z_scope.

Section classification.
Context {SJ : SerdeJson} {RT : Runtime} {CN : Connector} {SV : Services}.

Record ClassificationWithGenTask {H : Type} := {
  cgt_model_id : string;
  cgt_inputs : string;
  cgt_guardrails_config : GuardrailsConfig;
  cgt_text_gen_parameters : option GuardrailsTextGenerationParameters;
  cgt_headers : H
}.
Definition classification_task_new (request : GuardrailsHttpRequest) (headers : Headers)
    : ClassificationWithGenTask (H := Headers) :=
  {| cgt_model_id := gr_model_id request; cgt_inputs := gr_inputs request;
     cgt_guardrails_config := default guardrails_config_default (gr_guardrail_config request);
     cgt_text_gen_parameters := gr_text_gen_parameters request; cgt_headers := headers |}.

Definition generation_client (site : string) (ctx : Context) : outcome OrchError GenerationClient :=
  unwrap site (client_map_get KGeneration "generation" (ctx_clients ctx)).

Definition classification_input_detection (ctx : Context) (task : ClassificationWithGenTask (H := Headers))
    (dets : gmap string DetectorParams) : outcome OrchError (option ClassifiedGeneratedTextResult) :=
  let inputs := apply_masks (cgt_inputs task) (input_masks (cgt_guardrails_config task)) in
  detections ← text_contents_detections ctx (cgt_headers task) dets inputs;
  match detections with
  | [] => Ok None
  | _ =>
      client ← generation_client "handlers/classification_with_gen.rs:123" ctx;
      '(input_token_count, _) ← tokenize client (cgt_headers task) (cgt_model_id task)
                                  (cgt_inputs task);
      results ← collect (token_classification_from <$> (detections : list Detection));
      Ok (Some {| cg_input_token_count := input_token_count;
                  cg_token_classification_results :=
                    {| tgr_input := Some results; tgr_output := None |};
                  cg_warnings := Some [unsuitable_input];
                  cg_generated_text := cg_generated_text classified_default;
                  cg_finish_reason := cg_finish_reason classified_default;
                  cg_generated_token_count := cg_generated_token_count classified_default;
                  cg_seed := cg_seed classified_default; cg_tokens := cg_tokens classified_default;
                  cg_input_tokens := cg_input_tokens classified_default |})
  end.

(** [response.token_classification_results.output = o; response.warnings = w] *)
Definition with_output (g : ClassifiedGeneratedTextResult)
    (o : option (list TokenClassificationResult)) (w : option (list DetectionWarning))
    : ClassifiedGeneratedTextResult :=
  {| cg_generated_text := cg_generated_text g;
     cg_token_classification_results :=
       {| tgr_input := tgr_input (cg_token_classification_results g); tgr_output := o |};
     cg_finish_reason := cg_finish_reason g;
     cg_generated_token_count := cg_generated_token_count g; cg_seed := cg_seed g;
     cg_input_token_count := cg_input_token_count g; cg_warnings := w; cg_tokens := cg_tokens g;
     cg_input_tokens := cg_input_tokens g |}.

Definition classification_output_detection (ctx : Context) (task : ClassificationWithGenTask (H := Headers))
    (dets : gmap string DetectorParams) (generation : ClassifiedGeneratedTextResult)
    : outcome OrchError ClassifiedGeneratedTextResult :=
  let generated_text := default "" (cg_generated_text generation) in
  detections ← text_contents_detections ctx (cgt_headers task) dets [(0, generated_text)];
  match detections with
  | [] => Ok generation
  | _ =>
      results ← collect (token_classification_from <$> (detections : list Detection));
      Ok (with_output generation (Some results) (Some [unsuitable_output]))
  end.

Definition handle_classification (ctx : Context) (task : ClassificationWithGenTask (H := Headers))
    : outcome OrchError ClassifiedGeneratedTextResult :=
  let input_dets := input_detectors (cgt_guardrails_config task) in
  let output_dets := output_detectors (cgt_guardrails_config task) in
  validate_detectors (hash_iter input_dets ++ hash_iter output_dets) (detectors (ctx_config ctx))
    [TextContents] true ≫= fun _ =>
  blocked ← (if bool_decide (input_dets = ∅) then Ok None
             else classification_input_detection ctx task input_dets);
  match blocked with
  | Some response => Ok response
  | None =>
      client ← generation_client "handlers/classification_with_gen.rs:78" ctx;
      generation ← generate client (cgt_headers task) (cgt_model_id task) (cgt_inputs task)
                     (cgt_text_gen_parameters task);
      if bool_decide (output_dets = ∅) then Ok generation
      else classification_output_detection ctx task output_dets generation
  end.
End classification.

(** ** Lemmas *)
Section classification_lemmas.
Context {SJ : SerdeJson} {RT : Runtime} {RL : RuntimeLaws RT} {CN : Connector} {SV : Services}.

(** Masks within the code points of the text. *)
Definition masks_within (text : string) (masks : option (list (Z * Z))) : Prop :=
  forall s e, (s, e) ∈ default [] masks -> 0 <= s <= e /\ e <= char_count text.

Lemma apply_masks_inputs_of text masks :
  aligned text -> char_count text < 2 ^ 63 -> masks_within text masks ->
  inputs_of text (apply_masks text masks).
Proof.
  intros Ha Hn Hm. unfold apply_masks.
  destruct masks as [[|m masks]|]; try by apply inputs_of_whole.
  intros off t ([s e] & [= -> ->] & Hin)%list_elem_of_fmap.
  destruct (Hm s e Hin) as [H1 H2]. rewrite slice_char_count by (done || lia).
  split; [lia|]. split; [lia|]. f_equal. lia.
Qed.

Lemma apply_masks_not_nil text masks : apply_masks text masks <> [].
Proof. by destruct masks as [[]|]. Qed.

(** The result reports a part of [text]. *)
Definition token_span (text : string) (c : TokenClassificationResult) : Prop :=
  span_of text (tcr_start c) (tcr_end c) (tcr_word c).

(** The results are the detections, one by one: the span, text, kind, score and
    detector of each, a part of [text]. *)
Definition classified (text : string) (ds : list Detection) (results : list TokenClassificationResult) : Prop :=
  Forall2 (fun d c =>
    det_start d = Some (tcr_start c) /\ det_end d = Some (tcr_end c) /\ det_text d = Some (tcr_word c) /\
    tcr_entity c = det_detection d /\ tcr_entity_group c = det_detection_type d /\
    tcr_detector_id c = det_detector_id d /\ tcr_score c = det_score d /\ tcr_token_count c = None /\
    token_span text c) ds results.

Lemma token_classification_exact text (ds : list Detection) results :
  char_count text < 2 ^ 32 -> (forall d, d ∈ ds -> exact_span text d) ->
  collect (token_classification_from <$> ds) = Ok results -> classified text ds results.
Proof.
  intros Hn Hds H%collect_Ok. apply Forall2_same_length_lookup. split.
  { by rewrite <- (length_fmap (Ok (E := OrchError)) results), <- H, length_fmap. }
  intros n d c Hd Hc.
  assert (E : (Ok <$> results) !! n = Some (Ok (E := OrchError) c)) by (by rewrite list_lookup_fmap, Hc).
  rewrite <- H, list_lookup_fmap, Hd in E. simpl in E. injection E as E.
  destruct (Hds d (list_elem_of_lookup_2 _ _ _ Hd)) as (s & e & t & Hs & He & Ht & Hsp).
  unfold token_classification_from in E. rewrite Hs, He, Ht in E. simpl in E. injection E as <-.
  unfold token_span. simpl. pose proof Hsp as (H1 & H2 & _). unfold as_u32.
  by rewrite !wrap_id by (unfold in_width; lia).
Qed.

Lemma token_classification_no_panic (l : list Detection) :
  (forall d, d ∈ l -> has_span d) -> no_panic (collect (token_classification_from <$> l)).
Proof.
  intros H. apply collect_no_panic, Forall_fmap, Forall_forall. intros d Hd. simpl.
  destruct (has_span_token_ok d (H d Hd)) as [c ->]. done.
Qed.

(** Validation of the two chained detector maps. *)
Lemma validated_chain ctx d1 d2 types whole :
  validate_detectors (hash_iter d1 ++ hash_iter d2) (detectors (ctx_config ctx)) types whole = Ok () ->
  detectors_of_types ctx types d1 /\ detectors_of_types ctx types d2.
Proof.
  rewrite validate_detectors_Ok. intros H. split; intros id [params Hp];
    (destruct (H id params) as (d & Hd & Ht & _); [|by exists d]);
    rewrite elem_of_app, !elem_of_hash_iter; naive_solver.
Qed.
End classification_lemmas.

(** ** Properties *)
Section classification_properties.
Context {SJ : SerdeJson} {RT : Runtime} {RL : RuntimeLaws RT} {CN : Connector} {SV : Services}.

(** What the model generates is text, of fewer than 2^32 code points. *)
Definition models_bounded : Prop :=
  forall client model inputs params headers g text,
    generation_generate client model inputs params headers = Ok g ->
    cg_generated_text g = Some text -> aligned text /\ char_count text < 2 ^ 32.

(** The response to inputs on which [ds] is found: the number of their tokens,
    the detections, a warning, and nothing else. *)
Definition blocked_response (inputs : string) (count : Z) (ds : list Detection)
    (r : ClassifiedGeneratedTextResult) : Prop :=
  exists results, classified inputs ds results /\
    cg_token_classification_results r = {| tgr_input := Some results; tgr_output := None |} /\
    cg_warnings r = Some [unsuitable_input] /\ cg_input_token_count r = count /\
    cg_generated_text r = None /\ cg_finish_reason r = None /\ cg_generated_token_count r = None /\
    cg_seed r = None /\ cg_tokens r = None /\ cg_input_tokens r = None.

(** The response to a generation [g] on whose text [ds] is found: the generation
    as it is when that is nothing, and else with the detections and a warning. *)
Definition guarded_response (g : ClassifiedGeneratedTextResult) (ds : list Detection)
    (r : ClassifiedGeneratedTextResult) : Prop :=
  match ds with
  | [] => r = g
  | _ => exists results, classified (default "" (cg_generated_text g)) ds results /\
      r = with_output g (Some results) (Some [unsuitable_output])
  end.

(** C5. A guarded generation ends in one of two ways.  If the input detectors
    report anything on the (masked) inputs, the response holds exactly these
    detections, each a slice of the inputs, with a warning and the number of
    tokens of the inputs, and no generated text.  Otherwise it is the model's
    generation for the whole inputs: as it is without output detectors or when
    they report nothing on its text, and else with exactly the detections they
    report, each a slice of the generated text, and a warning, and nothing else
    of the generation changed. *)
Theorem handle_classification_spec ctx (task : ClassificationWithGenTask (H := Headers)) r :
  let config := cgt_guardrails_config task in
  let detected dets inputs := text_contents_detections ctx (cgt_headers task) dets inputs in
  chunkers_faithful -> detectors_faithful -> models_bounded -> concurrency_positive ctx ->
  aligned (cgt_inputs task) -> char_count (cgt_inputs task) < 2 ^ 32 ->
  masks_within (cgt_inputs task) (input_masks config) ->
  handle_classification ctx task = Ok r ->
  detectors_of_types ctx [TextContents] (input_detectors config) /\
  detectors_of_types ctx [TextContents] (output_detectors config) /\
  exists client, client_map_get KGeneration "generation" (ctx_clients ctx) = Some client /\
  ((exists ds count tokens, ds <> [] /\ input_detectors config <> ∅ /\
      detected (input_detectors config) (apply_masks (cgt_inputs task) (input_masks config)) = Ok ds /\
      generation_tokenize client (cgt_model_id task) (cgt_inputs task) (cgt_headers task) = Ok (count, tokens) /\
      blocked_response (cgt_inputs task) count ds r) \/
   (exists g,
      (input_detectors config <> ∅ ->
       detected (input_detectors config) (apply_masks (cgt_inputs task) (input_masks config)) = Ok []) /\
      generation_generate client (cgt_model_id task) (cgt_inputs task)
        (cgt_text_gen_parameters task) (cgt_headers task) = Ok g /\
      (output_detectors config = ∅ -> r = g) /\
      (output_detectors config <> ∅ -> exists ds,
         detected (output_detectors config) [(0, default "" (cg_generated_text g))] = Ok ds /\
         guarded_response g ds r))).
Proof.
  intros config detected HCF HDF HM Hcc Ha Hn Hm. unfold handle_classification.
  intros ([] & Hv & H)%bind_Ok. apply validated_chain in Hv as [Hv1 Hv2].
  split; [exact Hv1|]. split; [exact Hv2|].
  assert (Hn' : char_count (cgt_inputs task) < 2 ^ 63) by lia.
  pose proof (apply_masks_inputs_of _ _ Ha Hn' Hm) as Hin.
  assert (Hclient : forall site client, generation_client site ctx = Ok client ->
    client_map_get KGeneration "generation" (ctx_clients ctx) = Some client).
  { unfold generation_client. intros site client E. destruct (client_map_get _ _ _); [|done]. by injection E as ->. }
  apply bind_Ok in H as ([resp|] & Hb & H).
  - injection H as <-. case_bool_decide as Hne; [done|].
    unfold classification_input_detection in Hb. apply bind_Ok in Hb as (ds & Hds & Hb).
    destruct ds as [|d ds]; [done|]. apply bind_Ok in Hb as (client & Hcl%Hclient & Hb).
    exists client. split; [done|]. left.
    apply bind_Ok in Hb as ([count toks] & Htk & Hb). apply bind_Ok in Hb as (results & Hr & [= <-]).
    exists (d :: ds), count, toks. do 3 (split; [done|]). split.
    { unfold tokenize in Htk. destruct (generation_tokenize _ _ _ _); [|done..]. by injection Htk as ->. }
    exists results. split; [|done]. apply token_classification_exact; [done| |done].
    intros d' Hd'. by eapply text_contents_detections_spans.
  - apply bind_Ok in H as (client & Hcl%Hclient & (g & Hg & H)%bind_Ok). exists client. split; [done|]. right.
    unfold generate in Hg. destruct (generation_generate _ _ _ _ _) as [g'| |] eqn:Eg; try done. injection Hg as ->.
    exists g. split; [|split; [done|split]].
    + intros Hne. rewrite bool_decide_eq_false_2 in Hb by done.
      unfold classification_input_detection in Hb. apply bind_Ok in Hb as (ds & Hds & Hb).
      destruct ds as [|d ds]; [exact Hds|]. exfalso.
      apply bind_Ok in Hb as (? & _ & Hb). apply bind_Ok in Hb as ([] & _ & Hb).
      by apply bind_Ok in Hb as (? & _ & [=]).
    + intros He. rewrite bool_decide_eq_true_2 in H by done. by injection H as <-.
    + intros He. rewrite bool_decide_eq_false_2 in H by done.
      unfold classification_output_detection in H. apply bind_Ok in H as (ds & Hds & H).
      exists ds. split; [exact Hds|]. destruct ds as [|d ds]; [by injection H as <-|].
      apply bind_Ok in H as (results & Hr & [= <-]).
      set (text := default "" (cg_generated_text g)) in *.
      assert (Ht : aligned text /\ char_count text < 2 ^ 32).
      { unfold text. destruct (cg_generated_text g) eqn:Et; [by eapply HM|done]. }
      destruct Ht as [Hta Htn]. assert (Htn' : char_count text < 2 ^ 63) by lia. exists results. split; [|done]. apply token_classification_exact; [done| |done].
      intros d' Hd'. eapply text_contents_detections_spans; try done. by apply inputs_of_whole.
Qed.

(** C6. A blocked prompt never reaches the model: when the input detection
    does not come back empty - it reports something, or fails - the answer is
    the same whatever the model would do, even if calling it would panic. *)
Theorem blocked_prompt_never_generated ctx (task : ClassificationWithGenTask (H := @Headers _ _ SV))
    (g g' : GenerationClient -> string -> string -> option GuardrailsTextGenerationParameters ->
            Headers -> outcome ClientError ClassifiedGeneratedTextResult) :
  let config := cgt_guardrails_config task in
  input_detectors config <> ∅ ->
  text_contents_detections ctx (cgt_headers task) (input_detectors config)
    (apply_masks (cgt_inputs task) (input_masks config)) <> Ok [] ->
  @handle_classification _ _ _ (with_generation SV g) ctx task =
  @handle_classification _ _ _ (with_generation SV g') ctx task.
Proof.
  intros config Hne Hds. unfold handle_classification. fold config.
  rewrite !(bool_decide_eq_false_2 (input_detectors config = ∅)) by done.
  destruct (validate_detectors _ _ _ _) as [[]| |]; [|done..].
  unfold classification_input_detection. fold config. simpl.
  change (@text_contents_detections SJ RT CN (with_generation SV g))
    with (@text_contents_detections SJ RT CN SV).
  change (@text_contents_detections SJ RT CN (with_generation SV g'))
    with (@text_contents_detections SJ RT CN SV).
  destruct (text_contents_detections _ _ _ _) as [[|d ds]| |]; [by destruct Hds| |done..].
  destruct (generation_client "handlers/classification_with_gen.rs:123" ctx) as [client| |]; [|done..].
  cbn [mbind outcome_bind].
  change (@tokenize SJ CN (with_generation SV g)) with (@tokenize SJ CN SV).
  change (@tokenize SJ CN (with_generation SV g')) with (@tokenize SJ CN SV).
  destruct (tokenize _ _ _ _) as [[count toks]| |]; [|done..].
  cbn [mbind outcome_bind]. by destruct (collect _).
Qed.

(** A guarded generation never panics, whatever the services answer, once
    the generation service is configured: unusable detectors are refused and
    the results of detectors always have the span the response needs. *)
Lemma handle_classification_no_panic ctx sendable (task : ClassificationWithGenTask (H := Headers)) :
  services_no_panic ctx sendable -> clients_ready ctx -> concurrency_positive ctx ->
  sendable (cgt_model_id task) -> is_Some (client_map_get KGeneration "generation" (ctx_clients ctx)) ->
  no_panic (handle_classification ctx task).
Proof.
  intros Hsv Hcl Hcc Hm [client Hgen]. unfold handle_classification, generation_client.
  apply no_panic_bind.
  { apply for_each_no_panic. intros [id params] _. destruct (_ !! id); [|done].
    destruct (negb _); [done|]. by destruct (_ && _). }
  intros [] [Hv1 Hv2]%validated_chain.
  assert (HT : forall dets inputs h, detectors_of_types ctx [TextContents] dets -> inputs <> [] ->
    no_panic (text_contents_detections ctx h dets inputs)).
  { intros. eapply text_contents_detections_no_panic; [done..| |done]. by eapply types_available. }
  apply no_panic_bind.
  { case_bool_decide; [done|]. unfold classification_input_detection, generation_client.
    apply no_panic_bind; [apply HT, apply_masks_not_nil; done|]. intros ds Hds.
    destruct ds as [|d ds]; [done|]. rewrite Hgen. cbn [unwrap mbind outcome_bind].
    apply no_panic_bind; [by eapply no_panic_map_err, snp_generation_tokenize|].
    intros [count toks] _. apply no_panic_bind; [|done]. apply token_classification_no_panic.
    intros d' Hd'. by apply (text_contents_detections_has_span _ _ _ _ _ _ Hcc Hds Hd'). }
  intros [r|] _; [done|]. rewrite Hgen. simpl.
  apply no_panic_bind; [by eapply no_panic_map_err, snp_generation_generate|]. intros g _.
  case_bool_decide; [done|]. unfold classification_output_detection.
  apply no_panic_bind; [by apply HT|]. intros ds Hds. destruct ds as [|d ds]; [done|].
  apply no_panic_bind; [|done]. apply token_classification_no_panic.
  intros d' Hd'. by apply (text_contents_detections_has_span _ _ _ _ _ _ Hcc Hds Hd').
Qed.
End classification_properties.

(** ** Witnesses *)
Section witnesses.
#[local] Existing Instance fifo_runtime.
#[local] Existing Instance simple_json.
#[local] Existing Instance settings_connector.

Definition ex_guarded_task : @ClassificationWithGenTask simple_json (@Headers _ _ ex_services) :=
  {| cgt_model_id := "model"; cgt_inputs := ex_text;
     cgt_guardrails_config :=
       {| gc_input := Some {| gci_models := ex_dets; gci_masks := Some [(0, 5); (6, 16)] |};
          gc_output := Some {| gco_models := ex_dets |} |};
     cgt_text_gen_parameters := None; cgt_headers := (() : @Headers _ _ ex_services) |}.
Definition ex_blocked : ClassifiedGeneratedTextResult :=
  match @handle_classification _ _ _ ex_services ex_ctx ex_guarded_task with
  | Ok r => r
  | _ => classified_default
  end.

Lemma ex_masks_within :
  masks_within (cgt_inputs ex_guarded_task) (input_masks (cgt_guardrails_config ex_guarded_task)).
Proof.
  intros s e Hin. simpl in Hin.
  apply elem_of_cons in Hin as [[= -> ->]|[= -> ->]%list_elem_of_singleton];
    (split; [lia|vm_compute; discriminate]).
Qed.

Lemma handle_classification_spec_witness :
  @handle_classification _ _ _ ex_services ex_ctx ex_guarded_task = Ok ex_blocked /\
  cg_warnings ex_blocked = Some [unsuitable_input] /\
  detectors_of_types ex_ctx [TextContents] (output_detectors (cgt_guardrails_config ex_guarded_task)).
Proof.
  assert (E : @handle_classification _ _ _ ex_services ex_ctx ex_guarded_task = Ok ex_blocked)
    by (vm_compute; reflexivity).
  destruct (@handle_classification_spec simple_json fifo_runtime fifo_runtime_laws
    settings_connector ex_services ex_ctx ex_guarded_task ex_blocked) as (_ & Hout & client & _ & Hcases).
  - exact ex_chunkers_faithful.
  - exact ex_detectors_faithful.
  - by intros ???????.
  - exact ex_concurrency.
  - vm_compute. reflexivity.
  - vm_compute. reflexivity.
  - exact ex_masks_within.
  - exact E.
  - split; [exact E|]. split; [|exact Hout].
    destruct Hcases as [(ds & count & tokens & _ & _ & _ & _ & results & _ & _ & Hw & _)|(g & _ & Hg & _)];
      [exact Hw|]. by vm_compute in Hg.
Defined.

Lemma blocked_prompt_never_generated_witness :
  @handle_classification _ _ _ (with_generation ex_services (fun _ _ _ _ _ => Panic "unreachable"))
    ex_ctx ex_guarded_task =
  @handle_classification _ _ _ (with_generation ex_services (fun _ _ _ _ _ => Ok ex_generation))
    ex_ctx ex_guarded_task.
Proof.
  apply (@blocked_prompt_never_generated simple_json fifo_runtime settings_connector ex_services).
  - apply map_non_empty_singleton.
  - intros E. vm_compute in E. discriminate.
Defined.

End witnesses.
