(* ===== verification/Completions.v ===== *)
(** * Guarded (chat) completions, unary

    The unary handlers of the OpenAI-compatible endpoints
    (src/orchestrator/handlers/chat_completions_detection/unary.rs and
    completions_detection/unary.rs): detections on the prompt end the task;
    otherwise the completion of the model is returned with the detections on
    each of its choices and warnings.  The id and the time stamped on a
    blocked completion are the environment's ([Stamp]). *)
From stdpp Require Import pretty.
From S2P Require Import Prelude Collections External Errors Utf8 Hostname Config Detection.
From S2P Require Import Chunk Clients OpenAi Models Utils Tasks DetectionHandlers.
#[local] Open Scope string_scope.
#[local] Open Scope list_scope.
#[local] Open Scope Z_scope.

(** [Uuid::new_v4().simple().to_string()] and [current_timestamp().as_secs()]. *)
Class Stamp := { new_v4_simple : string; timestamp_secs : Z }.

Section completions.
Context {SJ : SerdeJson} {RT : Runtime} {CN : Connector} {SV : Services} {ST : Stamp}.

(** Joining the tasks spawned for the choices, each with its tag. *)
Definition join_tagged {T A} (tasks : list (T * outcome OrchError A))
    : outcome OrchError (list (T * A)) :=
  joined ← try_join_all tasks.*2;
  collect (zip_with (fun tag result => a ← result; Ok (tag, a)) tasks.*1 joined).

Definition openai_client (site : string) (ctx : Context) : outcome OrchError OpenAiClient :=
  unwrap site (client_map_get KOpenAi "openai" (ctx_clients ctx)).

Definition unsuitable_input_warning : CompletionDetectionWarning :=
  completion_detection_warning_new UnsuitableInput UNSUITABLE_INPUT_MESSAGE.
Definition unsuitable_output_warning : CompletionDetectionWarning :=
  completion_detection_warning_new UnsuitableOutput UNSUITABLE_OUTPUT_MESSAGE.

(** [detections.iter().any(|(_, ty, ds)| matches!(ty, TextContents) && !ds.is_empty())] *)
Definition has_contents_detections (results : list (Z * DetectorType * list Detection)) : bool :=
  existsb (fun '(_, ty, ds) =>
    match ty, ds with TextContents, _ :: _ => true | _, _ => false end) results.

(** How the joined results update the warnings and the detections of a
    completion. *)
Definition update_output (results : list (Z * DetectorType * list Detection))
    (warnings : list CompletionDetectionWarning) (detections : option CompletionDetections)
    : list CompletionDetectionWarning * option CompletionDetections :=
  match results with
  | [] => (warnings, detections)
  | _ =>
      let warnings := if has_contents_detections results
                      then warnings ++ [unsuitable_output_warning] else warnings in
      let output := (fun '(choice_index, detections) =>
          {| cod_choice_index := choice_index; cod_results := detections |})
        <$> hash_iter (group_detections_by_choice results) in
      (warnings, match output with
                 | [] => detections
                 | _ => Some {| cds_input := cds_input completion_detections_default;
                                cds_output := output |}
                 end)
  end.

(** The tasks of all choices for all groups of detectors, in order. *)
Definition spawn_all {C} (choices : list C) (groups : gmap DetectorType (gmap string DetectorParams))
    (spawn : C -> DetectorType -> gmap string DetectorParams ->
             outcome OrchError (list (Z * DetectorType * outcome OrchError (list Detection))))
    : outcome OrchError (list (Z * DetectorType * outcome OrchError (list Detection))) :=
  tasks ← collect ((fun choice =>
    collect ((fun '(ty, dets) => spawn choice ty dets) <$> hash_iter groups)) <$> choices);
  Ok (mjoin (mjoin <$> (tasks : list (list (list (Z * DetectorType * outcome OrchError (list Detection))))))).

(** ** Chat completions *)
Record ChatCompletionsDetectionTask {H : Type} := {
  ccdt_request : ChatCompletionsRequest;
  ccdt_headers : H
}.

Definition input_usage (response : TokenizeResponse) : Usage :=
  {| prompt_tokens := tks_count response; total_tokens := total_tokens usage_default;
     completion_tokens := completion_tokens usage_default;
     prompt_token_details := None; completion_token_details := None |}.

Definition input_tokenize_request (model_id prompt : string) : TokenizeRequest :=
  {| tkr_model := model_id; tkr_prompt := Some prompt; tkr_messages := None; tkr_extra := ∅ |}.

Definition input_detections (message_index : Z) (detections : list Detection)
    : CompletionDetections :=
  {| cds_input := [ {| cid_message_index := message_index; cid_results := detections |} ];
     cds_output := cds_output completion_detections_default |}.

(** The last message and whether input detection is defined on its role. *)
Definition last_chat_message (request : ChatCompletionsRequest) : outcome OrchError ChatMessage :=
  message ← ok_or (Validation "No messages provided") (last (chat_request_messages request));
  match cm_role message with
  | Some User | Some Assistant | Some System => Ok message
  | _ => Err (Validation "Last message role must be user, assistant, or system")
  end.

Definition chat_input_detection (ctx : Context)
    (task : ChatCompletionsDetectionTask (H := Headers)) (dets : gmap string DetectorParams)
    : outcome OrchError (option ChatCompletion) :=
  let model_id := ccr_model (ccdt_request task) in
  message ← last_chat_message (ccdt_request task);
  let input_text := default "" (cm_text message) in
  detections ← text_contents_detections ctx (ccdt_headers task) dets [(0, input_text)];
  match detections with
  | [] => Ok None
  | _ =>
      client ← openai_client "chat_completions_detection/unary.rs:142" ctx;
      tokenize_response ← tokenize_openai client (ccdt_headers task)
                            (input_tokenize_request model_id input_text);
      Ok (Some {| cc_id := new_v4_simple; cc_object := cc_object chat_completion_default;
                  cc_created := as_i64 timestamp_secs; cc_model := model_id; cc_choices := [];
                  cc_usage := input_usage tokenize_response; cc_prompt_logprobs := None;
                  cc_system_fingerprint := None; cc_service_tier := None;
                  cc_detections := Some (input_detections (cm_index message) detections);
                  cc_warnings := [unsuitable_input_warning] |})
  end.

Definition chat_empty_warning (choice : ChatCompletionChoice) : CompletionDetectionWarning :=
  completion_detection_warning_new EmptyOutput
    ("Choice of index " +:+ pretty (ccc_index choice) +:+ " has no content").

(** The completion with its warnings and detections replaced. *)
Definition chat_with (c : ChatCompletion) (warnings : list CompletionDetectionWarning)
    (detections : option CompletionDetections) : ChatCompletion :=
  {| cc_id := cc_id c; cc_object := cc_object c; cc_created := cc_created c;
     cc_model := cc_model c; cc_choices := cc_choices c; cc_usage := cc_usage c;
     cc_prompt_logprobs := cc_prompt_logprobs c;
     cc_system_fingerprint := cc_system_fingerprint c; cc_service_tier := cc_service_tier c;
     cc_detections := detections; cc_warnings := warnings |}.

(** The task spawned for a choice and a group of detectors, if any. *)
Definition chat_spawn (ctx : Context) (task : ChatCompletionsDetectionTask (H := Headers))
    (choice : ChatCompletionChoice) (ty : DetectorType) (dets : gmap string DetectorParams)
    : outcome OrchError (list (Z * DetectorType * outcome OrchError (list Detection))) :=
  match ty with
  | TextContents =>
      match message_text (ccc_message choice) with
      | Some content_text =>
          Ok [(ccc_index choice, ty,
               text_contents_detections ctx (ccdt_headers task) dets [(0, content_text)])]
      | None => Ok []
      end
  | TextChat =>
      Ok [(ccc_index choice, ty,
           text_chat_detections ctx (ccdt_headers task) dets
             (ccr_messages (ccdt_request task) ++ [ccc_message choice])
             (default [] (ccr_tools (ccdt_request task))))]
  | _ => Panic "chat_completions_detection/unary.rs:230"
  end.

Definition chat_output_detection (ctx : Context)
    (task : ChatCompletionsDetectionTask (H := Headers)) (dets : gmap string DetectorParams)
    (completion : ChatCompletion) : outcome OrchError ChatCompletion :=
  groups ← group_detectors_by_type ctx dets;
  tasks ← spawn_all (cc_choices completion) groups (chat_spawn ctx task);
  let warnings := cc_warnings completion ++
    (chat_empty_warning <$> filter (fun choice => has_content (ccc_message choice) = false)
                              (cc_choices completion)) in
  results ← join_tagged tasks;
  let '(warnings, detections) := update_output results warnings (cc_detections completion) in
  Ok (chat_with completion warnings detections).

Definition handle_chat_unary (ctx : Context) (task : ChatCompletionsDetectionTask (H := Headers))
    : outcome OrchError ChatCompletionsResponse :=
  let request := ccdt_request task in
  let input_dets := rd_input (ccr_detectors request) in
  let output_dets := rd_output (ccr_detectors request) in
  validate_detectors (hash_iter input_dets) (detectors (ctx_config ctx)) [TextContents] true ≫= fun _ =>
  validate_detectors (hash_iter output_dets) (detectors (ctx_config ctx))
    [TextContents; TextChat] true ≫= fun _ =>
  blocked ← (if bool_decide (input_dets = ∅) then Ok None
             else chat_input_detection ctx task input_dets);
  match blocked with
  | Some completion => Ok (ChatUnary completion)
  | None =>
      client ← openai_client "chat_completions_detection/unary.rs:78" ctx;
      response ← chat_completion client (ccdt_headers task) request;
      match response with
      | ChatStreaming _ => Panic "chat_completions_detection/unary.rs:82"
      | ChatUnary completion =>
          if bool_decide (output_dets = ∅) then Ok (ChatUnary completion)
          else ChatUnary <$> chat_output_detection ctx task output_dets completion
      end
  end.

(** ** Completions *)
Record CompletionsDetectionTask {H : Type} := {
  cmdt_request : CompletionsRequest;
  cmdt_headers : H
}.

Definition completions_input_detection (ctx : Context)
    (task : CompletionsDetectionTask (H := Headers)) (dets : gmap string DetectorParams)
    : outcome OrchError (option Completion) :=
  let model_id := cr_model (cmdt_request task) in
  let inputs := apply_masks (cr_prompt (cmdt_request task)) (cr_prompt_masks (cmdt_request task)) in
  detections ← text_contents_detections ctx (cmdt_headers task) dets inputs;
  match detections with
  | [] => Ok None
  | _ =>
      client ← openai_client "completions_detection/unary.rs:124" ctx;
      tokenize_response ← tokenize_openai client (cmdt_headers task)
        (input_tokenize_request model_id (cr_prompt (cmdt_request task)));
      Ok (Some {| cp_id := new_v4_simple; cp_object := cp_object completion_default;
                  cp_created := as_i64 timestamp_secs; cp_model := model_id; cp_choices := [];
                  cp_usage := Some (input_usage tokenize_response);
                  cp_system_fingerprint := None;
                  cp_detections := Some (input_detections 0 detections);
                  cp_warnings := [unsuitable_input_warning] |})
  end.

Definition completion_empty_warning (choice : CompletionChoice) : CompletionDetectionWarning :=
  completion_detection_warning_new EmptyOutput
    ("Choice of index " +:+ pretty (cch_index choice)
     +:+ " has no content. Output detection was not executed").

Definition completion_with (c : Completion) (warnings : list CompletionDetectionWarning)
    (detections : option CompletionDetections) : Completion :=
  {| cp_id := cp_id c; cp_object := cp_object c; cp_created := cp_created c;
     cp_model := cp_model c; cp_choices := cp_choices c; cp_usage := cp_usage c;
     cp_system_fingerprint := cp_system_fingerprint c; cp_detections := detections;
     cp_warnings := warnings |}.

(** No task is spawned for a choice without text. *)
Definition completion_spawn (ctx : Context) (task : CompletionsDetectionTask (H := Headers))
    (choice : CompletionChoice) (ty : DetectorType) (dets : gmap string DetectorParams)
    : outcome OrchError (list (Z * DetectorType * outcome OrchError (list Detection))) :=
  if str_is_empty (cch_text choice) then Ok []
  else
    match ty with
    | TextContents =>
        Ok [(cch_index choice, ty,
             text_contents_detections ctx (cmdt_headers task) dets [(0, cch_text choice)])]
    | TextGeneration =>
        Ok [(cch_index choice, ty,
             text_generation_detections ctx (cmdt_headers task) dets
               (cr_prompt (cmdt_request task)) (cch_text choice))]
    | _ => Panic "completions_detection/unary.rs:210"
    end.

Definition completions_output_detection (ctx : Context)
    (task : CompletionsDetectionTask (H := Headers)) (dets : gmap string DetectorParams)
    (completion : Completion) : outcome OrchError Completion :=
  groups ← group_detectors_by_type ctx dets;
  tasks ← spawn_all (cp_choices completion) groups (completion_spawn ctx task);
  let warnings := cp_warnings completion ++
    (completion_empty_warning <$> filter (fun choice => str_is_empty (cch_text choice) = true)
                                    (cp_choices completion)) in
  results ← join_tagged tasks;
  let '(warnings, detections) := update_output results warnings (cp_detections completion) in
  Ok (completion_with completion warnings detections).

Definition handle_completions_unary (ctx : Context) (task : CompletionsDetectionTask (H := Headers))
    : outcome OrchError CompletionsResponse :=
  let request := cmdt_request task in
  let input_dets := rd_input (cr_detectors request) in
  let output_dets := rd_output (cr_detectors request) in
  validate_detectors (hash_iter input_dets) (detectors (ctx_config ctx)) [TextContents] true ≫= fun _ =>
  validate_detectors (hash_iter output_dets) (detectors (ctx_config ctx))
    [TextContents; TextGeneration] true ≫= fun _ =>
  blocked ← (if bool_decide (input_dets = ∅) then Ok None
             else completions_input_detection ctx task input_dets);
  match blocked with
  | Some completion => Ok (CompletionUnary completion)
  | None =>
      client ← openai_client "completions_detection/unary.rs:77" ctx;
      response ← completion client (cmdt_headers task) request;
      match response with
      | CompletionStreaming _ => Panic "completions_detection/unary.rs:81"
      | CompletionUnary completion =>
          if bool_decide (output_dets = ∅) then Ok (CompletionUnary completion)
          else CompletionUnary <$> completions_output_detection ctx task output_dets completion
      end
  end.
End completions.

(** ** Lemmas *)
Section completions_lemmas.
Context {SJ : SerdeJson} {RT : Runtime} {RL : RuntimeLaws RT} {CN : Connector} {SV : Services}
  {ST : Stamp}.

(** The requested detectors of one type. *)
Definition of_type (ctx : Context) (dets : gmap string DetectorParams) (ty : DetectorType)
    : gmap string DetectorParams :=
  filter (fun kv => detector_type <$> detector (ctx_config ctx) kv.1 = Some ty) dets.

Lemma group_detectors_lookup ctx dets groups ty :
  group_detectors_by_type ctx dets = Ok groups ->
  groups !! ty = if decide (of_type ctx dets ty = ∅) then None else Some (of_type ctx dets ty).
Proof.
  intros H.
  assert (Hat : forall id p, groups_at groups ty id = Some p <-> of_type ctx dets ty !! id = Some p).
  { intros id p. unfold of_type. rewrite map_lookup_filter_Some. simpl.
    rewrite (group_detectors_fold ctx (hash_iter dets) groups H)
      by (rewrite (hash_iter_perm dets); apply NoDup_fst_map_to_list).
    rewrite elem_of_hash_iter.
    destruct (detector (ctx_config ctx) id) as [d|]; simpl; naive_solver. }
  destruct (groups !! ty) as [g|] eqn:Eg.
  - assert (Hg : g = of_type ctx dets ty).
    { apply map_eq. intros id. apply option_eq. intros p. rewrite <- Hat. unfold groups_at.
      by rewrite Eg. }
    rewrite decide_False; [by rewrite Hg|]. rewrite <- Hg.
    intros ->. by apply (group_detectors_nonempty ctx (hash_iter dets) groups H ty).
  - rewrite decide_True; [done|]. apply map_eq. intros id. apply option_eq. intros p.
    rewrite <- Hat, lookup_empty. unfold groups_at. by rewrite Eg.
Qed.

Lemma join_tagged_Ok {T A} (tasks : list (T * outcome OrchError A)) l :
  join_tagged tasks = Ok l -> tasks = (fun p => (p.1, Ok p.2)) <$> l.
Proof.
  unfold join_tagged. intros (joined & ->%try_join_all_Ok & H%collect_Ok)%bind_Ok.
  revert l H. induction tasks as [|[t r] tasks IH]; intros [|[t' a] l]; simpl; try done.
  destruct r; simpl; try done. intros [= <- <- H]. by rewrite (IH l H).
Qed.

Lemma join_tagged_no_panic {T A} (tasks : list (T * outcome OrchError A)) :
  no_panic (join_tagged tasks).
Proof.
  unfold join_tagged. apply no_panic_bind; [apply try_join_all_no_panic|].
  intros joined H. pose proof (try_join_all_results _ _ H) as Hr. apply collect_no_panic.
  clear H. generalize (tasks.*1) as tags. induction Hr as [|r rs Hr _ IH]; intros [|t tags];
    simpl; constructor; [|apply IH]. by destruct r.
Qed.

Lemma elem_of_spawn_all {C} (choices : list C) groups spawn tasks x :
  spawn_all choices groups spawn = Ok tasks ->
  (x ∈ tasks <-> exists choice ty dets l, choice ∈ choices /\ groups !! ty = Some dets /\
     spawn choice ty dets = Ok l /\ x ∈ l).
Proof.
  unfold spawn_all. intros (tss & H%collect_Ok & [= <-])%bind_Ok.
  assert (Hc : forall choice, choice ∈ choices -> exists ls,
    ls ∈ tss /\ (fun '(ty, dets) => spawn choice ty dets) <$> hash_iter groups = Ok <$> ls).
  { intros choice Hin.
    assert (Hin' : collect ((fun '(ty, dets) => spawn choice ty dets) <$> hash_iter groups)
      ∈ Ok (E := OrchError) <$> tss) by (rewrite <- H; apply list_elem_of_fmap; by exists choice).
    apply list_elem_of_fmap in Hin' as (ls & E & Hls). exists ls. split; [done|]. by apply collect_Ok. }
  split.
  - intros (ts & Hx & (ls & -> & Hls)%list_elem_of_fmap)%list_elem_of_join.
    apply list_elem_of_join in Hx as (l & Hx & Hl).
    assert (Hin : Ok ls ∈ Ok (E := OrchError) <$> tss) by (apply list_elem_of_fmap; by exists ls).
    rewrite <- H in Hin. apply list_elem_of_fmap in Hin as (choice & E & Hch).
    symmetry in E. apply collect_Ok in E.
    assert (Hin : Ok l ∈ Ok (E := OrchError) <$> ls) by (apply list_elem_of_fmap; by exists l).
    rewrite <- E in Hin. apply list_elem_of_fmap in Hin as ([ty dets] & El & Hg).
    apply elem_of_hash_iter in Hg. by exists choice, ty, dets, l.
  - intros (choice & ty & dets & l & Hch & Hg & Hs & Hx).
    destruct (Hc choice Hch) as (ls & Hls & E). apply list_elem_of_join. exists (mjoin ls).
    split; [|by apply list_elem_of_fmap; exists ls]. apply list_elem_of_join. exists l. split; [done|].
    assert (Hin : Ok l ∈ Ok (E := OrchError) <$> ls).
    { rewrite <- E. apply list_elem_of_fmap. exists (ty, dets).
      split; [by rewrite Hs|by apply elem_of_hash_iter]. }
    by apply list_elem_of_fmap in Hin as (? & [= ->] & ?).
Qed.

Lemma spawn_all_no_panic {C} (choices : list C) groups spawn :
  (forall choice ty dets, groups !! ty = Some dets -> no_panic (spawn choice ty dets)) ->
  no_panic (spawn_all choices groups spawn).
Proof.
  intros H. unfold spawn_all. apply no_panic_bind; [|done].
  apply collect_no_panic, Forall_fmap, Forall_forall. intros choice _. simpl.
  apply collect_no_panic, Forall_fmap, Forall_forall. intros [ty dets] Hg%elem_of_hash_iter. by apply H.
Qed.

(** The results hold detection [d] of type [ty] for choice [i]. *)
Definition found (results : list (Z * DetectorType * list Detection)) (i : Z) (ty : DetectorType)
    (d : Detection) : Prop :=
  exists ds, (i, ty, ds) ∈ results /\ d ∈ ds.

Lemma has_contents_detections_spec results :
  has_contents_detections results = true <-> exists i d, found results i TextContents d.
Proof.
  unfold has_contents_detections, found. rewrite existsb_exists. setoid_rewrite <- list_elem_of_In.
  split.
  - intros ([[i ty] ds] & Hin & H). destruct ty, ds as [|d ds]; try done.
    exists i, d, (d :: ds). split; [done|left].
  - intros (i & d & ds & Hin & Hd). exists (i, TextContents, ds). split; [done|].
    destruct ds; [by apply elem_of_nil in Hd|done].
Qed.

Lemma group_detections_found results i d :
  (exists ds, group_detections_by_choice results !! i = Some ds /\ d ∈ ds) <->
  exists ty, found results i ty d.
Proof.
  destruct (group_detections_by_choice_lookup results i) as [E _].
  trans (d ∈ default [] (group_detections_by_choice results !! i)).
  { destruct (_ !! i) as [ds|]; simpl; [naive_solver|].
    split; [by intros (? & [=] & _)|by intros ?%elem_of_nil]. }
  rewrite E, list_elem_of_join. unfold found. split.
  - intros (l & Hd & ([[j ty] ds] & -> & Hin)%list_elem_of_fmap). simpl in Hd.
    case_decide; [|by apply elem_of_nil in Hd]. subst. by exists ty, ds.
  - intros (ty & ds & Hin & Hd). exists ds. split; [done|]. apply list_elem_of_fmap.
    exists (i, ty, ds). simpl. by rewrite decide_True.
Qed.

(** The detections of a completion after output detection: [P i d] says that
    [d] was detected on choice [i]. *)
Definition output_report (P : Z -> Detection -> Prop) (before after : option CompletionDetections)
    : Prop :=
  (after = before /\ forall i d, ~ P i d) \/
  exists output, after = Some {| cds_input := []; cds_output := output |} /\ output <> [] /\
    NoDup (cod_choice_index <$> output) /\
    (forall o, o ∈ output -> cod_results o <> []) /\
    forall i d, (exists o, o ∈ output /\ cod_choice_index o = i /\ d ∈ cod_results o) <-> P i d.

Lemma update_output_spec results w d0 w' d' :
  update_output results w d0 = (w', d') ->
  w' = w ++ (if has_contents_detections results then [unsuitable_output_warning] else []) /\
  output_report (fun i d => exists ty, found results i ty d) d0 d'.
Proof.
  unfold update_output. destruct results as [|x l].
  { intros [= <- <-]. split; [by rewrite app_nil_r|]. left. split; [done|].
    by intros i d (ty & ds & ?%elem_of_nil & _). }
  set (results := x :: l). set (b := has_contents_detections results).
  set (m := group_detections_by_choice results). intros [= <- <-].
  split; [by destruct b; rewrite ?app_nil_r|]. clearbody b.
  set (mk := fun '(choice_index, detections) =>
     {| cod_choice_index := choice_index; cod_results := detections |}).
  assert (Hm : forall o, o ∈ mk <$> hash_iter m <-> m !! cod_choice_index o = Some (cod_results o)).
  { intros o. rewrite list_elem_of_fmap, <- elem_of_hash_iter. split.
    - by intros ([i ds] & -> & Hin).
    - intros Hin. exists (cod_choice_index o, cod_results o). by destruct o. }
  assert (HP : forall i d, (exists o, o ∈ mk <$> hash_iter m /\ cod_choice_index o = i /\
      d ∈ cod_results o) <-> exists ty, found results i ty d).
  { intros i d. rewrite <- group_detections_found. split.
    - intros (o & Ho%Hm & <- & Hd). by exists (cod_results o).
    - intros (ds & Hi & Hd). exists (mk (i, ds)). by rewrite Hm. }
  destruct (mk <$> hash_iter m) as [|o os] eqn:E.
  - left. split; [done|]. intros i d (o & ?%elem_of_nil & _)%HP. done.
  - right. exists (o :: os). split; [done|]. split; [done|]. split; [|split; [|exact HP]].
    + rewrite <- E, <- list_fmap_compose.
      assert (E1 : (hash_iter m).*1 = (cod_choice_index ∘ mk) <$> hash_iter m).
      { apply list_fmap_ext. by intros _ [i ds] _. }
      rewrite <- E1, (hash_iter_perm m). apply NoDup_fst_map_to_list.
    + intros o' Ho%Hm Hnil. rewrite Hnil in Ho.
      by apply (group_detections_by_choice_lookup results (cod_choice_index o')).
Qed.

Lemma run_tasks_nil {A} n : (0 < n)%nat -> run_tasks n ([] : list (outcome OrchError A)) = Ok [].
Proof.
  intros Hn. destruct (run_tasks_total n ([] : list A) Hn) as (r & H & HP).
  by apply Permutation_nil_r in HP as ->.
Qed.

(** Without detectors there is nothing to report. *)
Lemma text_contents_detections_empty ctx headers inputs ds :
  concurrency_positive ctx -> text_contents_detections ctx headers ∅ inputs = Ok ds -> ds = [].
Proof.
  intros [Hn _]. unfold text_contents_detections.
  rewrite (proj2 (hash_iter_nil (∅ : gmap string DetectorParams)) eq_refl).
  intros (ids & _ & (m & _ & H)%bind_Ok)%bind_Ok. simpl in H. rewrite run_tasks_nil in H by done.
  by injection H as <-.
Qed.

Lemma detection_tasks_empty s1 s2 ctx request ds :
  concurrency_positive ctx -> detection_tasks s1 s2 ctx ∅ request = Ok ds -> ds = [].
Proof.
  intros [Hn _]. unfold detection_tasks.
  rewrite (proj2 (hash_iter_nil (∅ : gmap string DetectorParams)) eq_refl). simpl.
  rewrite run_tasks_nil by done. by intros [= <-].
Qed.

(** What the joined tasks found, when the task of a choice and a type, if there is
    one, is [task_of]. *)
Lemma results_found {C} ctx dets (choices : list C) groups spawn tasks results (index : C -> Z)
    (task_of : C -> DetectorType -> gmap string DetectorParams ->
               option (outcome OrchError (list Detection))) :
  (forall choice ty g, match task_of choice ty g with
     | Some t => spawn choice ty g = Ok [(index choice, ty, t)]
     | None => forall l, spawn choice ty g = Ok l -> l = []
     end) ->
  (forall choice ty ds, task_of choice ty ∅ = Some (Ok ds) -> ds = []) ->
  group_detectors_by_type ctx dets = Ok groups ->
  spawn_all choices groups spawn = Ok tasks -> join_tagged tasks = Ok results ->
  forall i ty d, found results i ty d <->
    exists choice ds, choice ∈ choices /\ index choice = i /\
      task_of choice ty (of_type ctx dets ty) = Some (Ok ds) /\ d ∈ ds.
Proof.
  intros Hshape Hempty Hg Hs Hj%join_tagged_Ok i ty d.
  assert (Hin : forall ds, (i, ty, ds) ∈ results <-> (i, ty, Ok ds) ∈ tasks).
  { intros ds. rewrite Hj, list_elem_of_fmap. split.
    - intros H. by exists (i, ty, ds).
    - by intros ([[? ?] ?] & [= -> -> ->] & H). }
  unfold found. setoid_rewrite Hin.
  setoid_rewrite (elem_of_spawn_all _ _ _ _ _ Hs). split.
  - intros (ds & (choice & ty' & g & l & Hc & Hgr & Hsp & Hx) & Hd).
    specialize (Hshape choice ty' g). destruct (task_of choice ty' g) as [t|] eqn:Et.
    + rewrite Hsp in Hshape. injection Hshape as ->.
      apply list_elem_of_singleton in Hx as [= -> -> <-].
      rewrite (group_detectors_lookup _ _ _ _ Hg) in Hgr. case_decide; [done|].
      injection Hgr as <-. by exists choice, ds.
    + rewrite (Hshape l Hsp) in Hx. by apply elem_of_nil in Hx.
  - intros (choice & ds & Hc & <- & Ht & Hd). exists ds. split; [|done].
    exists choice, ty, (of_type ctx dets ty), [(index choice, ty, Ok ds)].
    split; [done|]. split; [|split; [|by left]].
    + rewrite (group_detectors_lookup _ _ _ _ Hg), decide_False; [done|]. intros E.
      rewrite E in Ht. apply Hempty in Ht as ->. by apply elem_of_nil in Hd.
    + specialize (Hshape choice ty (of_type ctx dets ty)). by rewrite Ht in Hshape.
Qed.

(** The task of a choice and a type of detectors. *)
Definition chat_task (ctx : Context) (task : ChatCompletionsDetectionTask (H := Headers))
    (choice : ChatCompletionChoice) (ty : DetectorType) (dets : gmap string DetectorParams)
    : option (outcome OrchError (list Detection)) :=
  match ty with
  | TextContents =>
      (fun text => text_contents_detections ctx (ccdt_headers task) dets [(0, text)])
        <$> message_text (ccc_message choice)
  | TextChat =>
      Some (text_chat_detections ctx (ccdt_headers task) dets
              (ccr_messages (ccdt_request task) ++ [ccc_message choice])
              (default [] (ccr_tools (ccdt_request task))))
  | _ => None
  end.
Definition completion_task (ctx : Context) (task : CompletionsDetectionTask (H := Headers))
    (choice : CompletionChoice) (ty : DetectorType) (dets : gmap string DetectorParams)
    : option (outcome OrchError (list Detection)) :=
  if decide (cch_text choice = "") then None
  else match ty with
       | TextContents =>
           Some (text_contents_detections ctx (cmdt_headers task) dets [(0, cch_text choice)])
       | TextGeneration =>
           Some (text_generation_detections ctx (cmdt_headers task) dets
                   (cr_prompt (cmdt_request task)) (cch_text choice))
       | _ => None
       end.

(** [d] is reported by the requested detectors of a type on a choice. *)
Definition chat_reported ctx task dets choice ty (d : Detection) : Prop :=
  exists ds, chat_task ctx task choice ty (of_type ctx dets ty) = Some (Ok ds) /\ d ∈ ds.
Definition completion_reported ctx task dets choice ty (d : Detection) : Prop :=
  exists ds, completion_task ctx task choice ty (of_type ctx dets ty) = Some (Ok ds) /\ d ∈ ds.

Lemma chat_spawn_shape ctx task choice ty g :
  match chat_task ctx task choice ty g with
  | Some t => chat_spawn ctx task choice ty g = Ok [(ccc_index choice, ty, t)]
  | None => forall l, chat_spawn ctx task choice ty g = Ok l -> l = []
  end.
Proof.
  unfold chat_task, chat_spawn. destruct ty; try done.
  destruct (message_text _); simpl; [done|]. by intros l [= <-].
Qed.

Lemma completion_spawn_shape ctx task choice ty g :
  match completion_task ctx task choice ty g with
  | Some t => completion_spawn ctx task choice ty g = Ok [(cch_index choice, ty, t)]
  | None => forall l, completion_spawn ctx task choice ty g = Ok l -> l = []
  end.
Proof.
  unfold completion_task, completion_spawn. destruct (cch_text choice) as [|c s] eqn:E.
  - rewrite decide_True by done. simpl. by intros l [= <-].
  - rewrite decide_False by done. simpl. by destruct ty.
Qed.

Lemma chat_task_empty ctx task choice ty ds :
  concurrency_positive ctx -> chat_task ctx task choice ty ∅ = Some (Ok ds) -> ds = [].
Proof.
  intros Hc. unfold chat_task. destruct ty; try done.
  - destruct (message_text _); [|done]. intros [= H]. by eapply text_contents_detections_empty.
  - intros [= H]. by eapply detection_tasks_empty.
Qed.

Lemma completion_task_empty ctx task choice ty ds :
  concurrency_positive ctx -> completion_task ctx task choice ty ∅ = Some (Ok ds) -> ds = [].
Proof.
  intros Hc. unfold completion_task. destruct (decide _); [done|]. destruct ty; try done.
  - intros [= H]. by eapply text_contents_detections_empty.
  - intros [= H]. by eapply detection_tasks_empty.
Qed.

(** The warnings added for a model's completion: one for each choice without
    content, then one when a contents detector reported something. *)
Definition warnings_added {C} (choices : list C) (empty : C -> bool)
    (warning : C -> CompletionDetectionWarning) (P : C -> Detection -> Prop)
    (before after : list CompletionDetectionWarning) : Prop :=
  exists unsuitable, after = before
    ++ (warning <$> filter (fun choice => empty choice = true) choices)
    ++ (if (unsuitable : bool) then [unsuitable_output_warning] else []) /\
  (unsuitable = true <-> exists choice d, choice ∈ choices /\ P choice d).

(** How a guarded chat completion [r] relates to the model's completion [g]. *)
Definition chat_guarded ctx task dets (g r : ChatCompletion) : Prop :=
  r = chat_with g (cc_warnings r) (cc_detections r) /\
  warnings_added (cc_choices g) (fun choice => negb (has_content (ccc_message choice)))
    chat_empty_warning (fun choice => chat_reported ctx task dets choice TextContents)
    (cc_warnings g) (cc_warnings r) /\
  output_report (fun i d => exists choice ty, choice ∈ cc_choices g /\ ccc_index choice = i /\
      chat_reported ctx task dets choice ty d) (cc_detections g) (cc_detections r).

Definition completion_guarded ctx task dets (g r : Completion) : Prop :=
  r = completion_with g (cp_warnings r) (cp_detections r) /\
  warnings_added (cp_choices g) (fun choice => str_is_empty (cch_text choice))
    completion_empty_warning (fun choice => completion_reported ctx task dets choice TextContents)
    (cp_warnings g) (cp_warnings r) /\
  output_report (fun i d => exists choice ty, choice ∈ cp_choices g /\ cch_index choice = i /\
      completion_reported ctx task dets choice ty d) (cp_detections g) (cp_detections r).

Lemma output_report_ext P Q before after :
  (forall i d, P i d <-> Q i d) -> output_report P before after -> output_report Q before after.
Proof.
  intros HPQ [[-> H]|(out & -> & H1 & H2 & H3 & H4)]; [left|right].
  - split; [done|]. intros i d. by rewrite <- HPQ.
  - exists out. split; [done|]. split; [done|]. split; [done|]. split; [done|].
    intros i d. by rewrite <- HPQ.
Qed.

Lemma filter_negb {C} (f : C -> bool) (l : list C) :
  filter (fun c => f c = false) l = filter (fun c => negb (f c) = true) l.
Proof. apply list_filter_iff. intros c. by rewrite negb_true_iff. Qed.

Lemma chat_output_detection_guarded ctx task dets g r :
  concurrency_positive ctx -> chat_output_detection ctx task dets g = Ok r ->
  chat_guarded ctx task dets g r.
Proof.
  intros Hc (groups & Hg & (tasks & Hs & (results & Hj & H)%bind_Ok)%bind_Ok)%bind_Ok.
  destruct (update_output _ _ _) as [w d'] eqn:Eu. injection H as <-.
  apply update_output_spec in Eu as [-> Hd].
  pose proof (results_found ctx dets _ groups _ tasks results ccc_index (chat_task ctx task)
    (chat_spawn_shape ctx task) (fun c ty ds => chat_task_empty ctx task c ty ds Hc) Hg Hs Hj) as HF.
  split; [done|]. split.
  - exists (has_contents_detections results). simpl. rewrite filter_negb, app_assoc. split; [done|].
    rewrite has_contents_detections_spec. setoid_rewrite HF. unfold chat_reported. naive_solver.
  - eapply output_report_ext; [|exact Hd]. intros i d. cbn beta. setoid_rewrite HF.
    unfold chat_reported. naive_solver.
Qed.

Lemma completions_output_detection_guarded ctx task dets g r :
  concurrency_positive ctx -> completions_output_detection ctx task dets g = Ok r ->
  completion_guarded ctx task dets g r.
Proof.
  intros Hc (groups & Hg & (tasks & Hs & (results & Hj & H)%bind_Ok)%bind_Ok)%bind_Ok.
  destruct (update_output _ _ _) as [w d'] eqn:Eu. injection H as <-.
  apply update_output_spec in Eu as [-> Hd].
  pose proof (results_found ctx dets _ groups _ tasks results cch_index (completion_task ctx task)
    (completion_spawn_shape ctx task) (fun c ty ds => completion_task_empty ctx task c ty ds Hc)
    Hg Hs Hj) as HF.
  split; [done|]. split.
  - exists (has_contents_detections results). simpl. rewrite app_assoc. split; [done|].
    rewrite has_contents_detections_spec. setoid_rewrite HF. unfold completion_reported. naive_solver.
  - eapply output_report_ext; [|exact Hd]. intros i d. cbn beta. setoid_rewrite HF.
    unfold completion_reported. naive_solver.
Qed.
End completions_lemmas.

(** ** Properties *)
Section completions_properties.
Context {SJ : SerdeJson} {RT : Runtime} {RL : RuntimeLaws RT} {CN : Connector} {SV : Services}
  {ST : Stamp}.

(** What input detection runs on: the text of a last message of a suitable
    role, and the masked prompt. *)
Definition chat_inputs (request : ChatCompletionsRequest) : outcome OrchError (Z * list (Z * string)) :=
  m ← last_chat_message request; Ok (cm_index m, [(0, default "" (cm_text m))]).
Definition completion_inputs (request : CompletionsRequest) : list (Z * string) :=
  apply_masks (cr_prompt request) (cr_prompt_masks request).

(** C3. A guarded chat completion ends in one of two ways.  If the input
    detectors report anything on the last message, the response has no
    choices, holds exactly these detections under that message's index, and
    warns of unsuitable input.  Otherwise the response is the model's
    completion, choices and all; if output detectors are requested, it also
    lists, once for each choice and never empty, exactly the detections that
    the contents and chat detectors report on that choice, and adds a warning
    for every choice without content and one when a contents detector
    reported something. *)
Theorem handle_chat_unary_spec ctx (task : ChatCompletionsDetectionTask (H := Headers)) response :
  let request := ccdt_request task in
  let dets := ccr_detectors request in
  concurrency_positive ctx -> handle_chat_unary ctx task = Ok response ->
  exists r, response = ChatUnary r /\
  ((exists i inputs ds, chat_inputs request = Ok (i, inputs) /\ ds <> [] /\
      text_contents_detections ctx (ccdt_headers task) (rd_input dets) inputs = Ok ds /\
      cc_choices r = [] /\ cc_model r = ccr_model request /\
      cc_detections r = Some {| cds_input := [{| cid_message_index := i; cid_results := ds |}];
                                cds_output := [] |} /\
      cc_warnings r = [unsuitable_input_warning]) \/
   (exists client g,
      (rd_input dets <> ∅ -> exists i inputs, chat_inputs request = Ok (i, inputs) /\
         text_contents_detections ctx (ccdt_headers task) (rd_input dets) inputs = Ok []) /\
      chat_completions client request (append_json_content_type (ccdt_headers task))
        = Ok (ChatUnary g) /\
      if decide (rd_output dets = ∅) then r = g
      else chat_guarded ctx task (rd_output dets) g r)).
Proof.
  intros request dets Hc. unfold handle_chat_unary. fold request. fold dets.
  intros ([] & _ & ([] & _ & (blocked & Hb & H)%bind_Ok)%bind_Ok)%bind_Ok.
  assert (Hin : rd_input dets <> ∅ -> exists m ds, last_chat_message request = Ok m /\
    text_contents_detections ctx (ccdt_headers task) (rd_input dets)
      [(0, default "" (cm_text m))] = Ok ds /\
    match ds with
    | [] => blocked = None
    | _ => exists count, blocked = Some
        {| cc_id := new_v4_simple; cc_object := ""; cc_created := as_i64 timestamp_secs;
           cc_model := ccr_model request; cc_choices := []; cc_usage := input_usage count;
           cc_prompt_logprobs := None; cc_system_fingerprint := None; cc_service_tier := None;
           cc_detections := Some (input_detections (cm_index m) ds);
           cc_warnings := [unsuitable_input_warning] |}
    end).
  { intros Hne. rewrite bool_decide_eq_false_2 in Hb by done. unfold chat_input_detection in Hb.
    apply bind_Ok in Hb as (m & Hm & (ds & Hds & Hb)%bind_Ok). exists m, ds.
    split; [done|]. split; [done|]. destruct ds as [|d ds]; [by injection Hb as <-|].
    apply bind_Ok in Hb as (client & _ & (count & _ & [= <-])%bind_Ok). by exists count. }
  destruct blocked as [c|].
  - injection H as <-. exists c. split; [done|]. left.
    case_bool_decide as He; [done|]. destruct (Hin He) as (m & ds & Hm & Hds & Hd).
    exists (cm_index m), [(0, default "" (cm_text m))], ds. unfold chat_inputs. rewrite Hm.
    destruct ds as [|d ds]; [done|]. destruct Hd as (count & [= ->]). done.
  - apply bind_Ok in H as (client & _ & (resp & Hr & H)%bind_Ok).
    unfold chat_completion in Hr. destruct (chat_completions _ _ _) as [resp'| |] eqn:Er; try done.
    injection Hr as ->. destruct resp as [g|]; [|done].
    assert (Hgate : rd_input dets <> ∅ -> exists i inputs, chat_inputs request = Ok (i, inputs) /\
       text_contents_detections ctx (ccdt_headers task) (rd_input dets) inputs = Ok []).
    { intros Hne. destruct (Hin Hne) as (m & ds & Hm & Hds & Hd).
      exists (cm_index m), [(0, default "" (cm_text m))]. unfold chat_inputs. rewrite Hm.
      split; [done|]. destruct ds; [done|]. by destruct Hd. }
    case_bool_decide as Eo.
    + injection H as <-. exists g. split; [done|]. right. exists client, g.
      split; [done|]. split; [done|]. by rewrite decide_True.
    + apply fmap_Ok in H as (r & Hr & ->). exists r. split; [done|]. right. exists client, g.
      split; [done|]. split; [done|]. rewrite decide_False by done.
      by apply chat_output_detection_guarded.
Qed.

(** C20. The same for completions of a prompt: detections on the masked prompt
    give a response without choices; otherwise the model's choices are all
    returned, with exactly the detections of the contents and generation
    detectors on each choice that has text. *)
Theorem handle_completions_unary_spec ctx (task : CompletionsDetectionTask (H := Headers)) response :
  let request := cmdt_request task in
  let dets := cr_detectors request in
  concurrency_positive ctx -> handle_completions_unary ctx task = Ok response ->
  exists r, response = CompletionUnary r /\
  ((exists ds, ds <> [] /\
      text_contents_detections ctx (cmdt_headers task) (rd_input dets)
        (completion_inputs request) = Ok ds /\
      cp_choices r = [] /\ cp_model r = cr_model request /\
      cp_detections r = Some {| cds_input := [{| cid_message_index := 0; cid_results := ds |}];
                                cds_output := [] |} /\
      cp_warnings r = [unsuitable_input_warning]) \/
   (exists client g,
      (rd_input dets <> ∅ ->
       text_contents_detections ctx (cmdt_headers task) (rd_input dets)
         (completion_inputs request) = Ok []) /\
      completions client request (append_json_content_type (cmdt_headers task))
        = Ok (CompletionUnary g) /\
      if decide (rd_output dets = ∅) then r = g
      else completion_guarded ctx task (rd_output dets) g r)).
Proof.
  intros request dets Hc. unfold handle_completions_unary. fold request. fold dets.
  intros ([] & _ & ([] & _ & (blocked & Hb & H)%bind_Ok)%bind_Ok)%bind_Ok.
  destruct blocked as [c|].
  - injection H as <-. exists c. split; [done|]. left. case_bool_decide as He; [done|].
    unfold completions_input_detection in Hb. apply bind_Ok in Hb as (ds & Hds & Hb).
    exists ds. destruct ds as [|d ds]; [done|].
    by apply bind_Ok in Hb as (client & _ & (count & _ & [= <-])%bind_Ok).
  - apply bind_Ok in H as (client & _ & (resp & Hr & H)%bind_Ok).
    unfold completion in Hr. destruct (completions _ _ _) as [resp'| |] eqn:Er; try done.
    injection Hr as ->. destruct resp as [g|]; [|done].
    assert (Hgate : rd_input dets <> ∅ ->
      text_contents_detections ctx (cmdt_headers task) (rd_input dets)
        (completion_inputs request) = Ok []).
    { intros Hne. rewrite bool_decide_eq_false_2 in Hb by done.
      unfold completions_input_detection in Hb. apply bind_Ok in Hb as (ds & Hds & Hb).
      destruct ds; [done|]. by apply bind_Ok in Hb as (? & _ & (? & _ & [=])%bind_Ok). }
    case_bool_decide as Eo.
    + injection H as <-. exists g. split; [done|]. right. exists client, g.
      split; [done|]. split; [done|]. by rewrite decide_True.
    + apply fmap_Ok in H as (r & Hr & ->). exists r. split; [done|]. right. exists client, g.
      split; [done|]. split; [done|]. rewrite decide_False by done.
      by apply completions_output_detection_guarded.
Qed.

(** C4. A blocked prompt never reaches the models behind the OpenAI client:
    when input detection reports something or fails, the answer of either
    endpoint is the same whatever the models would do, even if calling them
    would panic. *)
Theorem blocked_prompt_never_completed ctx chat compl chat' compl' :
  (forall task : ChatCompletionsDetectionTask (H := @Headers _ _ SV),
   let dets := rd_input (ccr_detectors (ccdt_request task)) in
   dets <> ∅ ->
   (forall i inputs, chat_inputs (ccdt_request task) = Ok (i, inputs) ->
      text_contents_detections ctx (ccdt_headers task) dets inputs <> Ok []) ->
   @handle_chat_unary _ _ _ (with_openai SV chat compl) _ ctx task =
   @handle_chat_unary _ _ _ (with_openai SV chat' compl') _ ctx task) /\
  (forall task : CompletionsDetectionTask (H := @Headers _ _ SV),
   let dets := rd_input (cr_detectors (cmdt_request task)) in
   dets <> ∅ ->
   text_contents_detections ctx (cmdt_headers task) dets (completion_inputs (cmdt_request task))
     <> Ok [] ->
   @handle_completions_unary _ _ _ (with_openai SV chat compl) _ ctx task =
   @handle_completions_unary _ _ _ (with_openai SV chat' compl') _ ctx task).
Proof.
  split; intros task dets Hne Hds.
  - unfold handle_chat_unary. rewrite !(bool_decide_eq_false_2 (rd_input _ = ∅)) by done.
    destruct (validate_detectors _ _ [TextContents] _) as [[]| |]; [|done..].
    destruct (validate_detectors _ _ _ _) as [[]| |]; [|done..].
    change (@chat_input_detection _ _ _ (with_openai SV chat compl))
      with (@chat_input_detection _ _ _ SV).
    change (@chat_input_detection _ _ _ (with_openai SV chat' compl'))
      with (@chat_input_detection _ _ _ SV).
    assert (Hi : forall r, @chat_input_detection _ _ _ SV _ ctx task dets <> Ok r \/ r <> None).
    { intros r. destruct (decide (r = None)) as [->|]; [left|by right]. unfold chat_input_detection.
      intros (m & Hm & (ds & Hd & H)%bind_Ok)%bind_Ok. destruct ds as [|d ds].
      - apply (Hds (cm_index m) [(0, default "" (cm_text m))]); [|done].
        unfold chat_inputs. by rewrite Hm.
      - by apply bind_Ok in H as (? & _ & (? & _ & [=])%bind_Ok). }
    subst dets. destruct (chat_input_detection _ _ _) as [[c|]| |]; try done.
    by destruct (Hi None).
  - unfold handle_completions_unary. rewrite !(bool_decide_eq_false_2 (rd_input _ = ∅)) by done.
    destruct (validate_detectors _ _ [TextContents] _) as [[]| |]; [|done..].
    destruct (validate_detectors _ _ _ _) as [[]| |]; [|done..].
    change (@completions_input_detection _ _ _ (with_openai SV chat compl))
      with (@completions_input_detection _ _ _ SV).
    change (@completions_input_detection _ _ _ (with_openai SV chat' compl'))
      with (@completions_input_detection _ _ _ SV).
    assert (Hi : @completions_input_detection _ _ _ SV _ ctx task dets <> Ok None).
    { unfold completions_input_detection. intros (ds & Hd & H)%bind_Ok. destruct ds as [|d ds].
      - by apply Hds.
      - by apply bind_Ok in H as (? & _ & (? & _ & [=])%bind_Ok). }
    subst dets. by destruct (completions_input_detection _ _ _) as [[c|]| |].
Qed.

(** A completion is answered in the kind it was asked for. *)
Definition answers_in_kind : Prop :=
  (forall client q h r, ccr_stream q <> Some true -> chat_completions client q h = Ok r ->
     exists g, r = ChatUnary g) /\
  (forall client q h r, cr_stream q <> Some true -> completions client q h = Ok r ->
     exists g, r = CompletionUnary g).

Lemma text_contents_validated_no_panic ctx sendable dets types inputs h :
  services_no_panic ctx sendable -> clients_ready ctx -> concurrency_positive ctx ->
  detectors_of_types ctx types dets -> inputs <> [] ->
  no_panic (text_contents_detections ctx h dets inputs).
Proof.
  intros. eapply text_contents_detections_no_panic; [done..| |done]. by eapply types_available.
Qed.

Lemma last_chat_message_no_panic request : no_panic (last_chat_message request).
Proof.
  unfold last_chat_message. destruct (last _) as [m|]; [|done]. simpl.
  by destruct (cm_role m) as [[]|].
Qed.

(** Output detection never panics on the types its detectors were validated
    for, whichever tasks fail. *)
Lemma output_tasks_no_panic {C A} ctx dets types (choices : list C) groups spawn
    (k : list (Z * DetectorType * list Detection) -> outcome OrchError A) :
  detectors_of_types ctx types dets -> group_detectors_by_type ctx dets = Ok groups ->
  (forall choice ty g, ty ∈ types -> no_panic (spawn choice ty g)) ->
  (forall results, no_panic (k results)) ->
  no_panic (tasks ← spawn_all choices groups spawn; results ← join_tagged tasks; k results).
Proof.
  intros Ht Hg Hsp Hk. apply no_panic_bind.
  - apply spawn_all_no_panic. intros choice ty g Hgr. apply Hsp.
    rewrite (group_detectors_lookup _ _ _ _ Hg) in Hgr. case_decide as Hne; [done|].
    apply map_choose in Hne as (id & p & Hid).
    unfold of_type in Hid. apply map_lookup_filter_Some in Hid as [Hid Hty]. simpl in Hty.
    destruct (Ht id ltac:(by eexists)) as (d & Hd & Hin). rewrite Hd in Hty. by injection Hty as <-.
  - intros tasks _. apply no_panic_bind; [apply join_tagged_no_panic|]. intros results _. apply Hk.
Qed.

(** The unary completion endpoints never panic, whatever the services
    answer, once the OpenAI service is configured: the detector types they
    accept are the ones they have tasks for, and a panic inside a detection
    task comes back as an error. *)
Lemma completions_no_panic ctx sendable :
  services_no_panic ctx sendable -> answers_in_kind -> clients_ready ctx -> concurrency_positive ctx ->
  is_Some (client_map_get KOpenAi "openai" (ctx_clients ctx)) ->
  (forall task, ccr_stream (ccdt_request task) <> Some true -> no_panic (handle_chat_unary ctx task)) /\
  (forall task, cr_stream (cmdt_request task) <> Some true ->
     no_panic (handle_completions_unary ctx task)).
Proof.
  intros Hsv [Hk1 Hk2] Hcl Hcc [client Ho].
  split; intros task Hs; apply validated_no_panic; try done; intros Hin _;
    apply validated_no_panic; try done; intros Hout Hav; apply no_panic_bind.
  - case_bool_decide; [done|]. unfold chat_input_detection, openai_client.
    apply no_panic_bind; [apply last_chat_message_no_panic|]. intros m _.
    apply no_panic_bind; [by eapply text_contents_validated_no_panic|].
    intros [|d ds] _; [done|]. rewrite Ho. cbn [unwrap mbind outcome_bind].
    apply no_panic_bind; [by eapply no_panic_map_err, snp_openai_tokenize|done].
  - intros [c|] _; [done|]. unfold openai_client. rewrite Ho. cbn [unwrap mbind outcome_bind].
    apply no_panic_bind; [by eapply no_panic_map_err, snp_chat_completions|].
    intros r Hr. unfold chat_completion in Hr.
    destruct (chat_completions _ _ _) as [r'| |] eqn:Er; try done. injection Hr as ->.
    destruct (Hk1 _ _ _ _ Hs Er) as [g ->]. case_bool_decide; [done|].
    destruct (group_detectors_total ctx _ (detectors_available_configured _ _ Hav)) as [groups Hg].
    enough (HH : no_panic (chat_output_detection ctx task
      (rd_output (ccr_detectors (ccdt_request task))) g)) by by destruct (chat_output_detection _ _ _ _).
    unfold chat_output_detection. rewrite Hg. cbn [mbind outcome_bind].
    eapply output_tasks_no_panic; [exact Hout|exact Hg| |].
    + intros choice ty dets Hty. unfold chat_spawn.
      destruct ty; try done; [by destruct (message_text _)|set_solver..].
    + intros results. by destruct (update_output _ _ _).
  - case_bool_decide; [done|]. unfold completions_input_detection, openai_client.
    apply no_panic_bind; [eapply text_contents_validated_no_panic; try done|].
    { by destruct (cr_prompt_masks _) as [[]|]. }
    intros [|d ds] _; [done|]. rewrite Ho. cbn [unwrap mbind outcome_bind].
    apply no_panic_bind; [by eapply no_panic_map_err, snp_openai_tokenize|done].
  - intros [c|] _; [done|]. unfold openai_client. rewrite Ho. cbn [unwrap mbind outcome_bind].
    apply no_panic_bind; [by eapply no_panic_map_err, snp_completions|].
    intros r Hr. unfold completion in Hr.
    destruct (completions _ _ _) as [r'| |] eqn:Er; try done. injection Hr as ->.
    destruct (Hk2 _ _ _ _ Hs Er) as [g ->]. case_bool_decide; [done|].
    destruct (group_detectors_total ctx _ (detectors_available_configured _ _ Hav)) as [groups Hg].
    enough (HH : no_panic (completions_output_detection ctx task
      (rd_output (cr_detectors (cmdt_request task))) g)) by by destruct (completions_output_detection _ _ _ _).
    unfold completions_output_detection. rewrite Hg. cbn [mbind outcome_bind].
    eapply output_tasks_no_panic; [exact Hout|exact Hg| |].
    + intros choice ty dets Hty. unfold completion_spawn. destruct (str_is_empty _); [done|].
      destruct ty; try done; set_solver.
    + intros results. by destruct (update_output _ _ _).
Qed.
End completions_properties.

(** ** Witnesses *)
Section witnesses.
#[local] Existing Instance fifo_runtime.
#[local] Existing Instance simple_json.
#[local] Existing Instance settings_connector.
Definition ex_stamp : Stamp := {| new_v4_simple := "0123456789abcdef"; timestamp_secs := 1700000000 |}.
#[local] Existing Instance ex_stamp.

Definition ex_message (role : Role) (text : string) : Message :=
  {| msg_role := role; msg_content := Some (Text text); msg_name := None; msg_refusal := None;
     msg_tool_calls := None; msg_tool_call_id := None; msg_reasoning_content := None |}.
Definition ex_chat_choice (i : Z) (text : string) : ChatCompletionChoice :=
  {| ccc_index := i; ccc_message := ex_message Assistant text; ccc_logprobs := None;
     ccc_finish_reason := "stop"; ccc_stop_reason := None |}.
Definition ex_choice (i : Z) (text : string) : CompletionChoice :=
  {| cch_index := i; cch_text := text; cch_logprobs := None; cch_finish_reason := Some "stop";
     cch_stop_reason := None; cch_prompt_logprobs := None |}.

(** Models that answer with one choice that has content and one that has none. *)
Definition ex_openai_services : Services :=
  with_openai ex_services
    (fun _ _ _ => Ok (ChatUnary
      {| cc_id := "id"; cc_object := "chat.completion"; cc_created := 0; cc_model := "model";
         cc_choices := [ex_chat_choice 0 "Hello"; ex_chat_choice 1 ""]; cc_usage := usage_default;
         cc_prompt_logprobs := None; cc_system_fingerprint := None; cc_service_tier := None;
         cc_detections := None; cc_warnings := [] |}))
    (fun _ _ _ => Ok (CompletionUnary
      {| cp_id := "id"; cp_object := "text_completion"; cp_created := 0; cp_model := "model";
         cp_choices := [ex_choice 0 "Hello"; ex_choice 1 ""]; cp_usage := None;
         cp_system_fingerprint := None; cp_detections := None; cp_warnings := [] |})).

Definition ex_chat_task (input output : gmap string DetectorParams)
    : @ChatCompletionsDetectionTask simple_json (@Headers _ _ ex_services) :=
  {| ccdt_request :=
       {| ccr_detectors := {| rd_input := input; rd_output := output |}; ccr_stream := None;
          ccr_model := "model"; ccr_messages := [ex_message User ex_text]; ccr_tools := None;
          ccr_extra := ∅ |};
     ccdt_headers := (() : @Headers _ _ ex_services) |}.
Definition ex_completion_task (input output : gmap string DetectorParams)
    : @CompletionsDetectionTask simple_json (@Headers _ _ ex_services) :=
  {| cmdt_request :=
       {| cr_detectors := {| rd_input := input; rd_output := output |};
          cr_prompt_masks := Some [(0, 5)]; cr_stream := None; cr_model := "model";
          cr_prompt := ex_text; cr_extra := ∅ |};
     cmdt_headers := (() : @Headers _ _ ex_services) |}.

Definition ex_chat_response : ChatCompletionsResponse :=
  match @handle_chat_unary _ _ _ ex_openai_services _ ex_ctx (ex_chat_task ∅ ex_dets) with
  | Ok r => r
  | _ => ChatStreaming []
  end.

(** One choice has detections and the other a warning. *)
Lemma handle_chat_unary_spec_witness :
  match ex_chat_response with
  | ChatUnary r =>
      cdw_type <$> cc_warnings r = [EmptyOutput; UnsuitableOutput] /\
      (fun o => (cod_choice_index o, det_text <$> cod_results o))
        <$> default [] (cds_output <$> cc_detections r) = [(0, [Some "Hello"])]
  | ChatStreaming _ => False
  end /\
  exists r g, ex_chat_response = ChatUnary r /\
    @chat_guarded _ fifo_runtime _ ex_openai_services ex_ctx (ex_chat_task ∅ ex_dets) ex_dets g r.
Proof.
  split; [vm_compute; split; reflexivity|].
  assert (E : @handle_chat_unary _ _ _ ex_openai_services _ ex_ctx (ex_chat_task ∅ ex_dets)
    = Ok ex_chat_response) by (vm_compute; reflexivity).
  destruct (@handle_chat_unary_spec simple_json fifo_runtime fifo_runtime_laws settings_connector
    ex_openai_services ex_stamp ex_ctx (ex_chat_task ∅ ex_dets) ex_chat_response ex_concurrency E)
    as (r & Hr & [(i & inputs & ds & _ & Hne & Hds & _)|(client & g & _ & _ & Hg)]).
  - exfalso. apply Hne. by eapply (@text_contents_detections_empty simple_json fifo_runtime
      fifo_runtime_laws settings_connector ex_openai_services); [exact ex_concurrency|exact Hds].
  - exists r, g. split; [exact Hr|]. rewrite decide_False in Hg; [exact Hg|].
    apply map_non_empty_singleton.
Defined.

Definition ex_completion_response : CompletionsResponse :=
  match @handle_completions_unary _ _ _ ex_openai_services _ ex_ctx (ex_completion_task ex_dets ∅) with
  | Ok r => r
  | _ => CompletionStreaming []
  end.

(** The masked prompt is blocked. *)
Lemma handle_completions_unary_spec_witness :
  exists r, ex_completion_response = CompletionUnary r /\ cp_choices r = [] /\
    cp_warnings r = [unsuitable_input_warning].
Proof.
  assert (E : @handle_completions_unary _ _ _ ex_openai_services _ ex_ctx
    (ex_completion_task ex_dets ∅) = Ok ex_completion_response) by (vm_compute; reflexivity).
  destruct (@handle_completions_unary_spec simple_json fifo_runtime fifo_runtime_laws
    settings_connector ex_openai_services ex_stamp ex_ctx (ex_completion_task ex_dets ∅)
    ex_completion_response ex_concurrency E)
    as (r & Hr & [(ds & _ & _ & Hc & _ & _ & Hw)|(client & g & Hgate & _)]).
  - exists r. exact (conj Hr (conj Hc Hw)).
  - exfalso. assert (Hne : ex_dets <> ∅) by apply map_non_empty_singleton.
    specialize (Hgate Hne). by vm_compute in Hgate.
Defined.

Lemma blocked_prompt_never_completed_witness :
  @handle_chat_unary _ _ _
    (with_openai ex_services (fun _ _ _ => Panic "unreachable") (fun _ _ _ => Panic "unreachable"))
    _ ex_ctx (ex_chat_task ex_dets ∅) =
  @handle_chat_unary _ _ _
    (with_openai ex_services (fun _ _ _ => Err ex_unavailable) (fun _ _ _ => Err ex_unavailable))
    _ ex_ctx (ex_chat_task ex_dets ∅).
Proof.
  apply (proj1 (@blocked_prompt_never_completed simple_json fifo_runtime settings_connector
    ex_services ex_stamp ex_ctx _ _ _ _)).
  - apply map_non_empty_singleton.
  - intros i inputs E. vm_compute in E. injection E as <- <-. intros H. vm_compute in H. discriminate.
Defined.

Lemma ex_openai_no_panic ctx sendable : @services_no_panic _ _ ex_openai_services ctx sendable.
Proof. split; intros; simpl; by try destruct (_ <? _). Qed.

End witnesses.
