(* ===== verification/Streaming.v ===== *)
(** * Streaming tasks

    What the streaming handlers of the two OpenAI-compatible endpoints share
    (src/orchestrator/handlers/chat_completions_detection/streaming.rs and
    completions_detection/streaming.rs): a task that sends messages to the
    response channel and looks at the completion state that another task, the
    consumer of the model's stream, updates concurrently.

    The consumer is the sequence of the atomic updates and sends it makes
    ([consumer_event]); an observation of the shared state sees what the first
    [k] of them made of it.  Which observation sees how many, and the order in
    which the batch stream yields its batches, are the scheduler's
    ([Schedule]); statements quantify over both. *)
From Stdlib Require Import Sorted.
From S2P Require Import Prelude Collections External Errors Hostname Config Detection.
From S2P Require Import Chunk Batcher.
From S2P Require Import BatchStream BatchGroups Clients OpenAi CompletionState Utils Tasks Streams.
#[local] Open Scope string_scope.
#[local] Open Scope list_scope.
#[local] Open Scope Z_scope.

(** ** Tasks

    A task has its half of the response channel and the observations it will
    make ([io_reads]: how far the consumer has come at each; those not listed
    are made when it has finished).  It returns, fails or panics; messages sent
    before stay sent. *)
Record Io (M : Type) := {
  io_tx : Sender M;
  io_reads : list nat
}.
Arguments io_tx {M}.
Arguments io_reads {M}.
Arguments Build_Io {M}.

Definition Task (M A : Type) : Type := Io M -> outcome OrchError A * Io M.

Definition task_ret {M A} (a : A) : Task M A := fun io => (Ok a, io).
Definition task_bind {M A B} (m : Task M A) (k : A -> Task M B) : Task M B := fun io =>
  match m io with
  | (Ok a, io) => k a io
  | (Err e, io) => (Err e, io)
  | (Panic site, io) => (Panic site, io)
  end.

Declare Scope task_scope.
Delimit Scope task_scope with task.
Notation "'do!' x <- m ; k" := (task_bind m (fun x => k))
  (at level 100, x binder, m at next level, k at level 200, right associativity) : task_scope.
Notation "m ;! k" := (task_bind m (fun _ => k))
  (at level 100, k at level 200, right associativity) : task_scope.
#[local] Open Scope task_scope.

(** [x?] and [x.unwrap()] in a task. *)
Definition lift {M A} (r : outcome OrchError A) : Task M A := fun io => (r, io).
(** [match m { Ok(a) => .., Err(e) => .. }] *)
Definition attempt {M A} (m : Task M A) : Task M (A + OrchError) := fun io =>
  match m io with
  | (Ok a, io) => (Ok (inl a), io)
  | (Err e, io) => (Ok (inr e), io)
  | (Panic site, io) => (Panic site, io)
  end.
(** [response_tx.send(m).await.is_ok()] *)
Definition tell_ok {M} (m : M) : Task M bool := fun io =>
  let '(sent, tx) := send m (io_tx io) in (Ok sent, Build_Io tx (io_reads io)).
(** [let _ = response_tx.send(m).await;] *)
Definition tell {M} (m : M) : Task M () := fun io =>
  (Ok (), Build_Io (send_ m (io_tx io)) (io_reads io)).

(** What the client's side of the channel receives of a spawned task. *)
Definition spawn {M} (reader : option nat) (task : Task M ()) : list M :=
  tx_sent (io_tx (task (Build_Io (Build_Sender [] reader) [])).2).

(** ** The consumer of a model's stream *)
Inductive consumer_event (T : Type) :=
| SetMetadata (m : CompletionMetadata)
| SetUsage (u : Usage)
| InsertCompletion (choice_index message_index : Z) (t : T)
| SetEmptyOutput
| SendInput (choice_index : Z) (input : outcome OrchError (Z * string)).
Arguments SetMetadata {T}.
Arguments SetUsage {T}.
Arguments InsertCompletion {T}.
Arguments SetEmptyOutput {T}.
Arguments SendInput {T}.

(** What the handlers read of a message of the model: [m.id], [m.created] and
    [m.model]; [m.usage]; the index and the text of [m.choices.first()]. *)
Class StreamedMessage (T : Type) := {
  sm_metadata : T -> CompletionMetadata;
  sm_usage : T -> option Usage;
  sm_choice : T -> option (Z * string)
}.

(** The channels of the choices' inputs; only who holds them matters. *)
Definition InputTxs := gmap Z ().

Section consumer.
Context {T : Type} {SM : StreamedMessage T}.
Implicit Types (m : T) (events : list (consumer_event T)).

(** The updates made for a message: a message with usage and no choices sets
    the usage; the first message sets the metadata; a message's first choice is
    recorded. *)
Definition state_updates (message_index : Z) m : list (consumer_event T) :=
  match sm_usage m, sm_choice m with
  | Some usage, None => [SetUsage usage]
  | _, choice =>
      (if decide (message_index = 0) then [SetMetadata (sm_metadata m)] else []) ++
      (match choice with
       | Some (choice_index, _) => [InsertCompletion choice_index message_index m]
       | None => []
       end)
  end.

(** The text sent to the input channel of the message's choice, if any. *)
Definition input_sends (input_txs : option InputTxs) (message_index : Z) m : list (consumer_event T) :=
  match input_txs, sm_choice m with
  | Some txs, Some (choice_index, text) =>
      match txs !! choice_index with
      | Some _ => if str_is_empty text then [] else [SendInput choice_index (Ok (message_index, text))]
      | None => []
      end
  | _, _ => []
  end.

(** [for input_tx in input_txs.values() { input_tx.send(Err(error)) }] *)
Definition error_sends {RT : Runtime} (input_txs : option InputTxs) (e : OrchError)
    : list (consumer_event T) :=
  match input_txs with
  | Some txs => (fun choice_index => SendInput choice_index (Err e)) <$> hash_keys txs
  | None => []
  end.

Definition apply_event (state : CompletionState T) (event : consumer_event T) : CompletionState T :=
  match event with
  | SetMetadata m => set_metadata (cmd_id m) (cmd_created m) (cmd_model m) state
  | SetUsage u => set_usage u state
  | InsertCompletion c i t => insert_completion c i t state
  | SetEmptyOutput | SendInput _ _ => state
  end.
Definition state_of events : CompletionState T := foldl apply_event completion_state_new events.
Definition empty_output_of events : bool :=
  existsb (fun event => match event with SetEmptyOutput => true | _ => false end) events.

(** What is sent to the input channel of a choice. *)
Definition inputs_for (choice_index : Z) events : list (outcome OrchError (Z * string)) :=
  omap (fun event => match event with
                     | SendInput c input => if decide (c = choice_index) then Some input else None
                     | _ => None
                     end) events.

(** Observing what the consumer shares. *)
Definition observe {M E} (events : list E) : Task M (list E) := fun io =>
  match io_reads io with
  | k :: reads => (Ok (take k events), Build_Io (io_tx io) reads)
  | [] => (Ok events, io)
  end.
Definition read_state {M} events : Task M (CompletionState T) :=
  do! seen <- observe events; task_ret (state_of seen).
End consumer.

(** ** The pipeline of an output detection *)

(** The batches the merged detection streams yield before they end, with either
    batcher, and the observations made meanwhile by the task that awaits them. *)
Class Schedule `{SJ : SerdeJson} := {
  batches : list (list (outcome OrchError Batch)) -> CompletionBatcher -> list (outcome OrchError Batch);
  max_batches : list (list (outcome OrchError Batch)) -> MaxProcessedIndexBatcher ->
                list (outcome OrchError Batch);
  reads : list nat
}.

(** The documented behaviour of the batch stream: whatever it has yielded, it
    may have yielded. *)
Class ScheduleLaws `{SJ : SerdeJson} (SC : Schedule) := {
  batches_emitted : forall streams n,
    batch_stream_emits streams (completion_batcher_new n) (batches streams (completion_batcher_new n));
  max_batches_emitted : forall streams n,
    batch_stream_emits streams (max_batcher_new n) (max_batches streams (max_batcher_new n))
}.

(** From here on the consumer runs concurrently. *)
Definition consumer_spawned {M} (reads : list nat) : Task M () := fun io =>
  (Ok (), Build_Io (io_tx io) reads).

Section pipeline.
Context {SJ : SerdeJson} {RT : Runtime} {CN : Connector} {SV : Services}.

(** [detectors.into_iter().partition(..)]: those run on chunks as the text is
    generated, and those run on all of it. *)
Definition is_chunk_detector (site : string) (ctx : Context) (detector_id : string)
    : outcome OrchError bool :=
  config ← unwrap site (detector (ctx_config ctx) detector_id);
  Ok (bool_decide (detector_type config = TextContents /\
                   detector_chunker_id config <> "whole_doc_chunker")).
Definition partition_detectors (site : string) (ctx : Context) (dets : gmap string DetectorParams)
    : outcome OrchError (gmap string DetectorParams * gmap string DetectorParams) :=
  marked ← collect ((fun '(detector_id, params) =>
    b ← is_chunk_detector site ctx detector_id; Ok (detector_id, params, b)) <$> hash_iter dets);
  Ok (hash_collect (filter (fun kvb => kvb.2 = true) (marked : list (string * DetectorParams * bool))).*1,
      hash_collect (filter (fun kvb => kvb.2 = false) marked).*1).

(** [request.extra.get("n").and_then(|v| v.as_i64()).unwrap_or(1) as usize] *)
Definition choice_count (extra : gmap string Value) : Z :=
  as_usize (default 1 (v ← extra !! "n"; value_as_i64 v)).

(** [HashMap::with_capacity(n)], as the standard library's table is laid out: the buckets
    are a power of two of which seven in eight are used, an entry here takes 16 bytes,
    each bucket one byte of control more, and there is a group of 16 of these after the last. A table
    whose size does not fit [isize] is a panic; memory that cannot be had is not
    modelled. *)
Definition capacity_to_buckets (n : Z) : option Z :=
  if n <? 4 then Some 4 else if n <? 8 then Some 8 else if n <? 15 then Some 16
  else if n * 8 <=? usize_max then Some (2 ^ Z.log2_up (n * 8 / 7)) else None.
Definition table_bytes (buckets : Z) : Z := 16 * buckets + (buckets + 16).
Definition with_capacity {E} (site : string) (n : Z) : outcome E () :=
  match capacity_to_buckets n with
  | Some buckets => if table_bytes buckets <=? 2 ^ 63 - 1 - 15 then Ok () else Panic site
  | None => Panic site
  end.

(** The input channels of the choices [0..n]. *)
Definition input_channels {E} (site : string) (n : Z) : outcome E InputTxs :=
  with_capacity site n ≫= fun _ =>
  Ok (hash_collect ((fun choice_index => (as_u32 choice_index, ())) <$> seqZ 0 n)).

(** The detection streams of all choices, given what each channel will carry;
    an error to create those of one is sent, and the loop goes on. *)
Fixpoint detection_streams_of {T} (ctx : Context) (headers : Headers) (dets : gmap string DetectorParams)
    (inputs : Z -> list (outcome OrchError (Z * string))) (choices : list Z)
    : Task (outcome OrchError T) (list (list (outcome OrchError Batch))) :=
  match choices with
  | [] => task_ret []
  | choice_index :: choices =>
      do! streams <- attempt (lift (text_contents_detection_streams ctx headers dets choice_index
                                      (inputs choice_index)));
      match streams with
      | inl streams =>
          do! rest <- detection_streams_of ctx headers dets inputs choices;
          task_ret (streams ++ rest)
      | inr error => tell (Err error) ;! detection_streams_of ctx headers dets inputs choices
      end
  end.
End pipeline.

(** ** Lemmas *)

(** *** Tables *)

(** A table of up to [7 * 2 ^ 55] choices can be asked for; a larger one, as for any
    negative [n] of a request, is a panic. *)
Lemma with_capacity_spec {E} site n :
  0 <= n -> with_capacity (E := E) site n = if n <=? 7 * 2 ^ 55 then Ok () else Panic site.
Proof.
  intros Hn. unfold with_capacity, capacity_to_buckets, usize_max.
  destruct (Z.ltb_spec n 4); [by rewrite (proj2 (Z.leb_le n _)) by lia|].
  destruct (Z.ltb_spec n 8); [by rewrite (proj2 (Z.leb_le n _)) by lia|].
  destruct (Z.ltb_spec n 15); [by rewrite (proj2 (Z.leb_le n _)) by lia|].
  unfold table_bytes. destruct (Z.leb_spec n (7 * 2 ^ 55)) as [Hs|Hs].
  - rewrite (proj2 (Z.leb_le (n * 8) _)) by lia.
    assert (Hb : 2 ^ Z.log2_up (n * 8 / 7) <= 2 ^ 58).
    { apply Z.pow_le_mono_r; [lia|]. rewrite <- (Z.log2_up_pow2 58) by lia. apply Z.log2_up_le_mono.
      apply Z.div_le_upper_bound; lia. }
    by rewrite (proj2 (Z.leb_le _ _)) by lia.
  - destruct (Z.leb_spec (n * 8) (2 ^ 64 - 1)); [|done].
    assert (Hd : 2 ^ 58 < n * 8 / 7) by (apply Z.lt_le_trans with (2 ^ 58 + 1); [lia|apply Z.div_le_lower_bound; lia]).
    assert (Hb : 2 ^ 59 <= 2 ^ Z.log2_up (n * 8 / 7)).
    { apply Z.pow_le_mono_r; [lia|]. apply Z.lt_pred_le. apply Z.lt_le_trans with (Z.log2_up (2 ^ 58 + 1)); [done|].
      apply Z.log2_up_le_mono. lia. }
    by rewrite (proj2 (Z.leb_gt _ _)) by lia.
Qed.
Lemma with_capacity_negative {E} site n :
  - 2 ^ 63 <= n < 0 -> with_capacity (E := E) site (as_usize n) = Panic site.
Proof.
  intros Hn. unfold as_usize, wrap. rewrite <- (Z.mod_add n 1) by lia. rewrite Z.mod_small by lia.
  rewrite with_capacity_spec by lia. by rewrite (proj2 (Z.leb_gt _ _)) by lia.
Qed.

(** *** Tasks of a client that stays connected *)
Section connected.
Context {M : Type}.
Implicit Types (sent : list M) (rs : list nat).

Definition io_of sent rs : Io M := Build_Io (Build_Sender sent None) rs.

Lemma task_bind_Ok {A B} (m : Task M A) (k : A -> Task M B) io a io' :
  m io = (Ok a, io') -> task_bind m k io = k a io'.
Proof. unfold task_bind. by intros ->. Qed.

Lemma tell_io m sent rs : tell m (io_of sent rs) = (Ok (), io_of (sent ++ [m]) rs).
Proof. done. Qed.

Lemma tell_ok_io m sent rs : tell_ok m (io_of sent rs) = (Ok true, io_of (sent ++ [m]) rs).
Proof. done. Qed.

Lemma attempt_lift {A} (r : outcome OrchError A) (io : Io M) :
  no_panic r -> attempt (lift r) io = (Ok (match r with Ok a => inl a | Err e => inr e | Panic _ => inr (Other "") end), io).
Proof. by destruct r. Qed.

Lemma spawn_io (task : Task M ()) r sent rs :
  task (io_of [] []) = (r, io_of sent rs) -> spawn None task = sent.
Proof. unfold spawn, io_of. by intros ->. Qed.

Lemma observe_io {E} (events : list E) sent rs :
  observe events (io_of sent rs) =
  (Ok (take (hd (length events) rs) events), io_of sent (tl rs)).
Proof. destruct rs; [|done]. unfold observe. simpl. by rewrite firstn_all. Qed.
End connected.

(** The items of a model's stream that are forwarded to the client. *)
Definition is_message {T} (r : outcome OrchError (option T)) : bool :=
  match r with Ok (Some _) | Err _ => true | _ => false end.
Definition forwarded {T} (stream : list (Z * outcome OrchError (option T)))
    : list (outcome OrchError (option T)) :=
  filter (fun r => is_message r = true) stream.*2.

(** *** What the consumer has recorded *)
Section recorded.
Context {T : Type}.
Implicit Types (e : consumer_event T) (events : list (consumer_event T)).

Definition insert_of e : option (Z * Z * T) :=
  match e with InsertCompletion c i t => Some (c, i, t) | _ => None end.
Definition inserts events : list (Z * Z * T) := omap insert_of events.

(** The message an event is about. *)
Definition event_position e : option Z :=
  match e with
  | InsertCompletion _ i _ => Some i
  | SendInput _ (Ok (i, _)) => Some i
  | _ => None
  end.

(** Messages are recorded in order, and after what was sent for them no more
    of them is recorded. *)
Definition event_before e e' : Prop :=
  forall i c j t, event_position e = Some i -> insert_of e' = Some (c, j, t) -> i < j.
Definition in_order events : Prop := StronglySorted event_before events.

Lemma inserts_app l1 l2 : inserts (l1 ++ l2) = inserts l1 ++ inserts l2.
Proof. apply omap_app. Qed.

Lemma in_order_app l1 l2 :
  in_order (l1 ++ l2) <->
  in_order l1 /\ in_order l2 /\ forall e e', e ∈ l1 -> e' ∈ l2 -> event_before e e'.
Proof.
  unfold in_order. induction l1 as [|e l1 IH].
  - split; [|by intros (_ & ? & _)]. intros H. split; [constructor|]. split; [done|].
    by intros ? ? ?%elem_of_nil.
  - rewrite <- app_comm_cons. split.
    + intros [H1 H2]%StronglySorted_inv. apply IH in H1 as (H1 & H3 & H4). rewrite Forall_forall in H2.
      split; [|split; [done|]].
      * constructor; [done|]. apply Forall_forall. intros e' He'. apply H2, elem_of_app. by left.
      * intros e1 e2 [->|He]%elem_of_cons He2; [|by apply H4]. apply H2, elem_of_app. by right.
    + intros ([H1 H2]%StronglySorted_inv & H3 & H4). constructor.
      * apply IH. split; [done|]. split; [done|]. intros e1 e2 He. apply H4. by right.
      * apply Forall_app. split; [done|]. apply Forall_forall. intros e2. apply H4. left.
Qed.

Lemma in_order_take k events : in_order events -> in_order (take k events).
Proof. rewrite <- (take_drop k events) at 1. by intros (? & _)%in_order_app. Qed.

Lemma elem_of_inserts events c i t : (c, i, t) ∈ inserts events <-> InsertCompletion c i t ∈ events.
Proof.
  unfold inserts. rewrite list_elem_of_omap. split.
  - intros (e & He & H). destruct e; try done. by injection H as -> -> ->.
  - intros H. by exists (InsertCompletion c i t).
Qed.

(** The entry of a choice: the messages recorded for it, by position. *)
Lemma state_of_lookup events c :
  in_order events ->
  completions_by_choice (state_of events) !! c = entry_of (inserted_for c (inserts events)).
Proof.
  revert c. induction events as [|e events IH] using rev_ind; intros c H; [apply lookup_empty|].
  apply in_order_app in H as (H1 & _ & H2). specialize (fun c => IH c H1).
  unfold state_of in *. rewrite foldl_app, inserts_app. simpl.
  destruct e as [m|u|c' i t| |c' r]; simpl; try (rewrite app_nil_r; apply IH).
  apply insert_completion_lookup; [done|]. apply Forall_forall. intros [[c1 j] t1] Hin. simpl.
  apply elem_of_inserts in Hin. by eapply (H2 _ (InsertCompletion c' i t) Hin (list_elem_of_here _ _)).
Qed.

(** Position [i] of choice [c] has been passed on to the detectors. *)
Definition passed_on events (c i : Z) : Prop := exists t, SendInput c (Ok (i, t)) ∈ events.

(** What is recorded up to a position that has been passed on is final. *)
Lemma recorded_up_to events k c i :
  in_order events -> passed_on (take k events) c i ->
  filter (fun kv => kv.1 <= i) (inserted_for c (inserts (take k events))) =
  filter (fun kv => kv.1 <= i) (inserted_for c (inserts events)).
Proof.
  intros H [t Ht]. rewrite <- (take_drop k events) in H at 1.
  apply in_order_app in H as (_ & _ & H).
  rewrite <- (take_drop k events) at 2. rewrite inserts_app, inserted_for_app, filter_app.
  rewrite (filter_none (fun kv : Z * T => kv.1 <= i) (inserted_for c (inserts (drop k events)))).
  { by rewrite app_nil_r. }
  apply Forall_forall. intros [j t'] Hin%inserted_for_elem%elem_of_inserts. simpl.
  assert (i < j); [|lia]. by eapply (H _ _ Ht Hin).
Qed.

(** Events made in groups, one group per message. *)
Lemma in_order_groups {A} (f : Z * A -> list (consumer_event T)) (stream : list (Z * A)) :
  StronglySorted Z.lt stream.*1 ->
  (forall m, in_order (f m)) ->
  (forall m e i, e ∈ f m -> event_position e = Some i -> i = m.1) ->
  in_order (stream ≫= f).
Proof.
  intros Hs Ho Hp. induction stream as [|m stream IH]; [constructor|].
  rewrite fmap_cons in Hs. apply StronglySorted_inv in Hs as [Hs Hlt].
  simpl. apply in_order_app. split; [done|]. split; [by apply IH|].
  intros e e' He (m' & He' & Hm')%list_elem_of_bind i c j t Hi Hj.
  rewrite (Hp m e i He Hi), (Hp m' e' j He') by (by destruct e'; simplify_eq/=).
  rewrite Forall_forall in Hlt. apply Hlt, list_elem_of_fmap. by exists m'.
Qed.
End recorded.

(** Message positions. *)
Lemma enumerate_sorted {A} (l : list A) : StronglySorted Z.lt (imap (fun i m => (Z.of_nat i, m)) l).*1.
Proof.
  assert (H : forall n, StronglySorted Z.lt (imap (fun i m => (Z.of_nat (n + i), m)) l).*1);
    [|exact (H 0%nat)].
  induction l as [|a l IH]; intros n; [constructor|]. rewrite imap_cons, fmap_cons. simpl.
  assert (E : imap ((fun i m => (Z.of_nat (n + i), m)) ∘ S) l = imap (fun i m => (Z.of_nat (S n + i), m)) l).
  { apply imap_ext. intros i x _. unfold compose. f_equal. lia. }
  rewrite E. constructor; [apply IH|].
  apply Forall_fmap, Forall_forall. intros [z x] (i & y & [= -> ->] & _)%elem_of_lookup_imap. simpl. lia.
Qed.

Section message_events.
Context {T : Type} {SM : StreamedMessage T} {RT : Runtime}.
Implicit Types (m : T) (txs : option InputTxs) (l : list (consumer_event T)).

Lemma input_sends_elem txs i m e :
  e ∈ input_sends txs i m <->
  exists c text tx, e = SendInput c (Ok (i, text)) /\ sm_choice m = Some (c, text) /\ text <> "" /\
    txs = Some tx /\ is_Some (tx !! c).
Proof.
  unfold input_sends. split.
  - destruct txs as [tx|], (sm_choice m) as [[c text]|]; try by intros ?%elem_of_nil.
    destruct (tx !! c) as [u|] eqn:E; [|by intros ?%elem_of_nil].
    destruct text as [|a text]; [by intros ?%elem_of_nil|].
    intros ->%list_elem_of_singleton. by exists c, (String a text), tx.
  - intros (c & text & tx & -> & -> & Ht & -> & [u ->]).
    destruct text; [done|]. left.
Qed.

Lemma state_updates_elem i m e :
  e ∈ state_updates i m ->
  (event_position e = None /\ insert_of e = None) \/
  exists c text, e = InsertCompletion c i m /\ sm_choice m = Some (c, text).
Proof.
  unfold state_updates.
  destruct (sm_usage m), (sm_choice m) as [[c text]|]; destruct (decide (i = 0)); simpl;
    rewrite ?elem_of_cons, elem_of_nil; naive_solver.
Qed.

Lemma state_updates_in_order i m : in_order (state_updates i m).
Proof.
  unfold in_order, state_updates.
  destruct (sm_usage m), (sm_choice m) as [[c text]|]; destruct (decide (i = 0));
    repeat constructor; by intros ????.
Qed.

(** What is done for one message is about it, and in order. *)
Lemma message_events_in_order (b : bool) txs i m :
  in_order ((if b then state_updates i m else []) ++ input_sends txs i m).
Proof.
  apply in_order_app. split; [|split].
  - destruct b; [apply state_updates_in_order|constructor].
  - unfold input_sends. destruct txs as [tx|], (sm_choice m) as [[c text]|]; try constructor.
    destruct (tx !! c); [|constructor]. destruct (str_is_empty text); repeat constructor.
  - intros e e' _ (c & text & tx & -> & _)%input_sends_elem ????. done.
Qed.

Lemma message_events_position (b : bool) txs i m e j :
  e ∈ (if b then state_updates i m else []) ++ input_sends txs i m ->
  event_position e = Some j -> j = i.
Proof.
  intros [He|(c & text & tx & -> & _)%input_sends_elem]%elem_of_app; [|by intros [= <-]].
  destruct b; [|by apply elem_of_nil in He].
  apply state_updates_elem in He as [[-> _]|(c & text & -> & _)]; [done|by intros [= <-]].
Qed.

Lemma error_sends_elem txs err e :
  e ∈ error_sends (T := T) txs err -> exists c, e = SendInput c (Err err).
Proof.
  unfold error_sends. destruct txs as [tx|]; [|by intros ?%elem_of_nil].
  intros (c & -> & _)%list_elem_of_fmap. by exists c.
Qed.

Lemma error_sends_in_order txs err : in_order (error_sends (T := T) txs err).
Proof.
  unfold error_sends. destruct txs as [tx|]; [|constructor].
  generalize (hash_keys tx) as ks. induction ks as [|c ks IH]; constructor; [done|].
  apply Forall_fmap, Forall_true. by intros ?????.
Qed.

(** What is passed on was recorded before. *)
Lemma message_events_recorded txs i m c text :
  SendInput c (Ok (i, text)) ∈ input_sends txs i m -> InsertCompletion c i m ∈ state_updates i m.
Proof.
  intros (c' & text' & tx & [= -> ->] & Hc & _)%input_sends_elem. unfold state_updates. rewrite Hc.
  destruct (sm_usage m); apply elem_of_app; right; left.
Qed.
End message_events.

(** *** What an observation sees of a choice *)
Section observations.
Context {SJ : SerdeJson} {T : Type}.
Implicit Types (events : list (consumer_event T)) (entry : list (Z * T)).

(** The entry of a choice in the end. *)
Definition final_entry events (c : Z) : list (Z * T) := inserted_for c (inserts events).

Lemma final_entry_sorted events c :
  in_order events -> StronglySorted Z.lt (final_entry events c).*1.
Proof.
  unfold final_entry. induction events as [|e events IH]; intros H; [constructor|].
  apply StronglySorted_inv in H as [H Hlt]. specialize (IH H).
  destruct e as [m|u|c' i t| |c' r]; try exact IH.
  change (inserts (InsertCompletion c' i t :: events)) with ([(c', i, t)] ++ inserts events).
  rewrite inserted_for_app. unfold inserted_for at 1. rewrite filter_cons. cbn [fst snd].
  destruct (decide (c' = c)) as [->|N]; [|exact IH]. rewrite filter_nil. simpl.
  constructor; [exact IH|]. apply Forall_fmap, Forall_forall. intros [j t'] Hin. simpl.
  apply inserted_for_elem, elem_of_inserts in Hin. rewrite Forall_forall in Hlt.
  by eapply (Hlt _ Hin).
Qed.

Lemma final_entry_lookup events c :
  in_order events -> completions_by_choice (state_of events) !! c = entry_of (final_entry events c).
Proof. apply state_of_lookup. Qed.

(** An observation sees a prefix of the final entry ... *)
Lemma final_entry_prefix events k c :
  exists rest, final_entry events c = final_entry (take k events) c ++ rest.
Proof.
  exists (final_entry (drop k events) c). unfold final_entry.
  by rewrite <- inserted_for_app, <- inserts_app, take_drop.
Qed.

(** ... and below what has been passed on, all of it. *)
Lemma bt_range_at {E} site events k c lo i :
  in_order events -> passed_on (take k events) c i ->
  bt_range (E := E) site lo i (final_entry (take k events) c) =
  bt_range site lo i (final_entry events c).
Proof.
  intros H Hp.
  assert (Hr : forall l : list (Z * T), bt_range (E := E) site lo i l =
    if decide (lo <= i) then Ok (filter (fun kv => lo <= kv.1) (filter (fun kv => kv.1 <= i) l)) else Panic site).
  { intros l. rewrite list_filter_filter. destruct (decide (lo <= i)) as [L|N].
    - apply bt_range_Z. split; [done|]. apply list_filter_iff. intros x. lia.
    - unfold bt_range, cmp, Z_ord. destruct (Z.compare_spec lo i); try lia. done. }
  rewrite !Hr. unfold final_entry. by rewrite (recorded_up_to events k c i).
Qed.

Lemma take_passed_on events k c i : passed_on (take k events) c i -> passed_on events c i.
Proof. intros [t Ht]. exists t. rewrite <- (take_drop k events). apply elem_of_app. by left. Qed.

(** Each of the observations made for the batches that arrive sees what the
    batches are about: a batch is reported after its input was passed on. *)
Fixpoint causal (per_batch : nat) events (batches : list Batch) (rs : list nat) : Prop :=
  match batches with
  | [] => True
  | (c, chunk, _) :: batches =>
      Forall (fun k => passed_on (take k events) c (input_end_index chunk)) (take per_batch rs) /\
      causal per_batch events batches (drop per_batch rs)
  end.

(** With nothing left to observe but the end, a read is of everything. *)
Lemma passed_on_hd events rs c i :
  passed_on events c i -> Forall (fun k => passed_on (take k events) c i) (take 1 rs) ->
  passed_on (take (hd (length events) rs) events) c i.
Proof.
  intros H. destruct rs as [|k rs]; simpl; [by rewrite firstn_all|].
  rewrite take_0. by intros Hk%Forall_inv.
Qed.
End observations.

(** ** What a task sends

    [sends P t Q]: whatever the client does and the task observes, all
    messages that [t] sends satisfy [P], and what it returns satisfies [Q]; a
    client that stays connected still is afterwards. *)
Section sends.
Context {M : Type}.

(** The messages sent between two states of a task. *)
Record sent_between (P : M -> Prop) (io io' : Io M) (l : list M) : Prop := {
  sb_sent : tx_sent (io_tx io') = tx_sent (io_tx io) ++ l;
  sb_all : Forall P l;
  sb_reader : tx_reader (io_tx io) = None -> tx_reader (io_tx io') = None
}.
Definition sends {A} (P : M -> Prop) (t : Task M A) (Q : A -> Prop) : Prop := forall io,
  exists l, sent_between P io (t io).2 l /\ forall a, (t io).1 = Ok a -> Q a.

Implicit Types P : M -> Prop.

Lemma sent_nothing P io io' : io_tx io' = io_tx io -> sent_between P io io' [].
Proof. intros E. split; [by rewrite E, app_nil_r|done|by rewrite E]. Qed.

Lemma sent_between_trans P io io1 io2 l1 l2 :
  sent_between P io io1 l1 -> sent_between P io1 io2 l2 -> sent_between P io io2 (l1 ++ l2).
Proof.
  intros [E1 H1 R1] [E2 H2 R2]. split; [by rewrite E2, E1, app_assoc|by apply Forall_app|tauto].
Qed.

Lemma sends_ret {A} P (a : A) (Q : A -> Prop) : Q a -> sends P (task_ret a) Q.
Proof. intros H io. exists []. split; [by apply sent_nothing|]. by intros ? [= <-]. Qed.

Lemma sends_bind {A B} P (t : Task M A) (k : A -> Task M B) R Q :
  sends P t R -> (forall a, R a -> sends P (k a) Q) -> sends P (task_bind t k) Q.
Proof.
  intros Ht Hk io. destruct (Ht io) as (l & Hl & HR). unfold task_bind.
  destruct (t io) as [[a|e|site] io']; simpl in *.
  2, 3: exists l; by split.
  destruct (Hk a (HR a eq_refl) io') as (l' & Hl' & HQ).
  exists (l ++ l'). split; [by eapply sent_between_trans|done].
Qed.

Lemma sends_consequence {A} P P' (t : Task M A) (Q Q' : A -> Prop) :
  sends P t Q -> (forall m, P m -> P' m) -> (forall a, Q a -> Q' a) -> sends P' t Q'.
Proof.
  intros H HP HQ io. destruct (H io) as (l & [El Hl Hr] & Ha). exists l.
  split; [split; [done|by eapply Forall_impl|done]|]. naive_solver.
Qed.

Lemma sends_lift {A} P (r : outcome OrchError A) (Q : A -> Prop) :
  (forall a, r = Ok a -> Q a) -> sends P (lift r) Q.
Proof. intros H io. exists []. split; [by apply sent_nothing|done]. Qed.

Lemma sends_attempt {A} P (t : Task M A) (Q : A -> Prop) :
  sends P t Q -> sends P (attempt t) (fun r => match r with inl a => Q a | inr _ => True end).
Proof.
  intros H io. destruct (H io) as (l & Hl & Ha). exists l. unfold attempt.
  destruct (t io) as [[a|e|site] io']; simpl in *; (split; [done|]).
  - intros ? [= <-]. by apply Ha.
  - by intros ? [= <-].
  - by intros ? [=].
Qed.

Lemma sends_tell_ok P m : P m -> sends P (tell_ok m) (fun _ => True).
Proof.
  intros Hm [[l [[|n]|]] rs]; cbn; unfold tell_ok, send; cbn.
  - exists []. split; [by apply sent_nothing|done].
  - exists [m]. split; [split; [done|by constructor|done]|done].
  - exists [m]. split; [split; [done|by constructor|done]|done].
Qed.

Lemma sends_tell P m : P m -> sends P (tell m) (fun _ => True).
Proof.
  intros Hm io. destruct (sends_tell_ok P m Hm io) as (l & Hl & _). exists l. split; [|done].
  revert Hl. unfold tell, tell_ok, send_. by destruct (send m (io_tx io)).
Qed.

(** An observation sees a prefix of what is done. *)
Lemma sends_observe {E} P (events : list E) :
  sends P (observe events) (fun seen => exists k, seen = take k events).
Proof.
  intros [tx [|k rs]]; exists []; (split; [by apply sent_nothing|]); cbn;
    intros ? [= <-]; [exists (length events); by rewrite firstn_all|by exists k].
Qed.

Lemma sends_read_state {T} P (events : list (consumer_event T)) :
  sends P (read_state events) (fun s => exists k, s = state_of (take k events)).
Proof.
  eapply sends_bind; [apply sends_observe|]. intros seen [k ->]. apply sends_ret. by exists k.
Qed.

Lemma sends_spawned P rs : sends P (consumer_spawned rs) (fun _ => True).
Proof. intros io. exists []. split; [by apply sent_nothing|done]. Qed.

Lemma sends_spawn P (t : Task M ()) reader Q : sends P t Q -> Forall P (spawn reader t).
Proof.
  intros H. unfold spawn. destruct (H (Build_Io (Build_Sender [] reader) [])) as (l & [-> Hl _] & _).
  exact Hl.
Qed.


(** A task that ends by sending [m] has sent it last. *)
Lemma spawn_last P (t : Task M ()) m Q :
  sends P t Q -> (task_bind t (fun _ => tell m) (io_of [] [])).1 = Ok () ->
  exists l, spawn None (task_bind t (fun _ => tell m)) = l ++ [m] /\ Forall P l.
Proof.
  intros H. unfold spawn, task_bind, io_of.
  destruct (H (Build_Io (Build_Sender [] None) [])) as (l & [El Hl Hr] & _).
  destruct (t _) as [[[]|e|site] [[l' r] rs]]; cbn in *; try done. intros _.
  specialize (Hr eq_refl) as ->. subst l'. by exists l.
Qed.
End sends.

(** Results that do not matter. *)
Section sends_any.
Context {M : Type}.
Implicit Types P : M -> Prop.

Lemma sends_any {A} P (t : Task M A) Q : sends P t Q -> sends P t (fun _ => True).
Proof. intros H. by eapply sends_consequence. Qed.
Lemma sends_bind_any {A B} P (t : Task M A) (k : A -> Task M B) Q :
  sends P t (fun _ => True) -> (forall a, sends P (k a) Q) -> sends P (task_bind t k) Q.
Proof. intros Ht Hk. by eapply sends_bind; [exact Ht|intros a _]. Qed.
Lemma sends_lift_any {A} P (r : outcome OrchError A) : sends P (lift r) (fun _ => True).
Proof. by apply sends_lift. Qed.
Lemma sends_attempt_any {A} P (t : Task M A) :
  sends P t (fun _ => True) -> sends P (attempt t) (fun _ => True).
Proof. intros H. by eapply sends_any, sends_attempt. Qed.
Lemma sends_read_state_any {T} P (events : list (consumer_event T)) :
  sends P (read_state events) (fun _ => True).
Proof. eapply sends_any, sends_read_state. Qed.
Lemma sends_observe_any {E} P (events : list E) :
  sends P (observe events) (fun _ => True).
Proof. eapply sends_any, sends_observe. Qed.
End sends_any.

Create HintDb sends.
#[export] Hint Resolve sends_lift_any sends_attempt_any sends_read_state_any sends_observe_any
  sends_spawned : sends.

(** *** The last message *)
Section ends_with.
Context {M : Type}.

(** A client that stays connected receives [m] last when [t] does not panic. *)
Definition ends_with (m : M) (t : Task M ()) : Prop := forall io,
  tx_reader (io_tx io) = None -> (t io).1 = Ok () -> exists l, tx_sent (io_tx (t io).2) = l ++ [m].

Lemma ends_with_tell m : ends_with m (tell m).
Proof. intros [[l r] rs] Hr _. simpl in Hr. subst r. by exists l. Qed.

Lemma ends_with_bind {A} m (t : Task M A) k :
  sends (fun _ => True) t (fun _ => True) -> (forall a, ends_with m (k a)) ->
  ends_with m (task_bind t k).
Proof.
  intros Ht Hk io Hr. destruct (Ht io) as (l & [_ _ Hr'] & _). unfold task_bind.
  destruct (t io) as [[a|e|site] io']; simpl in *; [|done|done]. intros H. by apply Hk; [apply Hr'|].
Qed.

Lemma spawn_ends_with m (t : Task M ()) :
  ends_with m t -> (t (io_of [] [])).1 = Ok () -> exists l, spawn None t = l ++ [m].
Proof. intros H Hok. by apply (H (io_of [] [])). Qed.
End ends_with.

(** Follows the structure of a task, up to the messages that are not plainly
    allowed. *)
Ltac walk_sends :=
  repeat match goal with
  | |- sends _ (task_bind _ _) _ => apply sends_bind_any; [|intros ?]
  | |- sends _ (task_ret _) _ => apply sends_ret; exact I
  | |- sends _ (tell _) _ => apply sends_tell; try done
  | |- sends _ (tell_ok _) _ => apply sends_tell_ok; try done
  | |- sends _ (match ?x with _ => _ end) _ => destruct x
  | |- sends _ _ _ => solve [eauto with sends]
  end.

(** ** Screening

    What a batch vouches for: its chunk is one that the chunker of a requested
    detector made of the texts passed on for its choice; its detections are
    those of requested detectors that reach their thresholds; and none is left
    out: they are what as many reports as there are detectors say about the
    chunk, each a report of a detection stream of the choice - all that every
    detector found on the chunk, when the detectors use one working chunker and
    answer. *)
Section screening.
Context {SJ : SerdeJson} {RT : Runtime} {RL : RuntimeLaws RT} {CN : Connector} {SV : Services}
  {SC : Schedule} {SL : ScheduleLaws SC}.

Definition reported (ctx : Context) (headers : Headers) (dets : gmap string DetectorParams)
    (inputs : Z -> list (outcome OrchError (Z * string))) (batch : Batch) : Prop :=
  exists streams reports,
    text_contents_detection_streams ctx headers dets batch.1.1 (inputs batch.1.1) = Ok streams /\
    reports ⊆+ items_of streams /\ length reports = size dets /\
    (forall r, r ∈ reports -> r.1.1 = batch.1.1 /\ cmp r.1.2 batch.1.2 = Eq) /\
    batch.1 ∈ reports.*1 /\ batch.2 = mjoin reports.*2.

Definition screens (ctx : Context) (headers : Headers) (dets : gmap string DetectorParams)
    (inputs : Z -> list (outcome OrchError (Z * string))) (batch : Batch) : Prop :=
  (exists detector_id chunker chunks, is_Some (dets !! detector_id) /\
     get_chunker_id (ctx_config ctx) detector_id = Some chunker /\
     open_chunk_stream ctx batch.1.1 (inputs batch.1.1) chunker = Ok (chunker, chunks) /\
     Ok batch.1.2 ∈ chunks) /\
  (forall x, x ∈ batch.2 -> exists detector_id, det_detector_id x = Some detector_id /\
    is_Some (dets !! detector_id) /\ meets_threshold ctx dets x) /\
  reported ctx headers dets inputs batch /\
  (forall chunker ins chunks, inputs batch.1.1 = Ok <$> ins -> StronglySorted chunk_lt chunks ->
     healthy_pipeline ctx headers dets chunker ins chunks ->
     batch.2 ≡ₚ hash_iter dets ≫= (fun d => chunk_detections ctx headers d batch.1)).

(** The streams created for a choice. *)
Lemma stream_report ctx headers dets inputs c streams r :
  text_contents_detection_streams ctx headers dets c inputs = Ok streams -> r ∈ items_of streams ->
  r.1.1 = c /\ exists id chunker chunks, is_Some (dets !! id) /\
    get_chunker_id (ctx_config ctx) id = Some chunker /\
    open_chunk_stream ctx c inputs chunker = Ok (chunker, chunks) /\ Ok r.1.2 ∈ chunks /\
    detector_found ctx headers dets id r.1.2 r.2.
Proof.
  intros H (stream & Hin & Hr)%elem_of_items_of.
  pose proof (detection_streams_sound_at _ _ _ _ _ _ H) as HF.
  apply list_elem_of_lookup in Hin as [n Hn].
  destruct (Forall2_lookup_r _ _ _ _ _ HF Hn) as ([id params] & Hd & chunker & chunks & Hc & Hop & Hs & _).
  apply list_elem_of_lookup_2, elem_of_hash_iter in Hd.
  destruct r as [[i ch] ds]. destruct (Hs i ch ds Hr) as (-> & Hch & Hf). simpl in *.
  split; [done|]. exists id, chunker, chunks. split; [by eexists|done].
Qed.

Lemma streams_length ctx headers dets inputs c streams :
  text_contents_detection_streams ctx headers dets c inputs = Ok streams -> length streams = size dets.
Proof.
  intros H%detection_streams_sound_at%Forall2_length. rewrite <- H.
  rewrite (Permutation_length (hash_iter_perm dets)). apply length_map_to_list.
Qed.

(** With a working pipeline the reports on a chunk are everything found on it. *)
Lemma reported_healthy ctx headers dets inputs batch chunker ins chunks :
  reported ctx headers dets inputs batch -> inputs batch.1.1 = Ok <$> ins ->
  StronglySorted chunk_lt chunks -> healthy_pipeline ctx headers dets chunker ins chunks ->
  batch.2 ≡ₚ hash_iter dets ≫= (fun d => chunk_detections ctx headers d batch.1).
Proof.
  intros (streams & reports & Hst & Hsub & Hlen & Hk & Hin & Hb) Hins Hs Hh.
  rewrite Hins in Hst. rewrite (detection_streams_healthy _ _ _ _ _ _ _ Hh) in Hst. injection Hst as <-.
  set (fs := chunk_detections ctx headers <$> hash_iter dets). set (i := batch.1.1).
  assert (Hitems : items_of (choice_streams fs (i, chunks)) ≡ₚ planned fs (request_plan [(i, chunks)])).
  { rewrite (choice_streams_items fs (i, chunks)). unfold request_plan. simpl. by rewrite app_nil_r. }
  assert (Hmade : made_of (B := CompletionBatcher) (Z.of_nat (length fs))
    (items_of (choice_streams fs (i, chunks))) batch).
  { exists reports. split; [|split; [|split; [done|split; [done|]]]].
    - unfold choice_streams, fs. by rewrite <- list_fmap_compose.
    - unfold fs. rewrite length_fmap, (Permutation_length (hash_iter_perm dets)), Hlen.
      by rewrite length_map_to_list.
    - intros r Hr. destruct (Hk r Hr) as [E1 E2]. simpl. rewrite E1.
      unfold cmp, prod_ord. simpl. rewrite E2. apply cmp_refl. }
  assert (Hplan : plan_ok (B := CompletionBatcher) (request_plan [(i, chunks)])).
  { apply request_plan_ok; [apply NoDup_singleton|by constructor]. }
  destruct (made_of_planned fs _ _ _ Hplan Hitems Hmade) as [_ ->].
  apply reflexive_eq. unfold fs. by rewrite list_fmap_bind.
Qed.

Lemma reported_screens ctx headers dets inputs batch :
  reported ctx headers dets inputs batch -> screens ctx headers dets inputs batch.
Proof.
  intros H. pose proof H as (streams & reports & Hst & Hsub & Hlen & Hk & Hin & Hb).
  assert (Hr : forall r, r ∈ reports -> r ∈ items_of streams).
  { intros r Hr. by eapply elem_of_submseteq. }
  split; [|split; [|split; [done|intros; by eapply reported_healthy]]].
  - apply list_elem_of_fmap in Hin as (r & Er & Hin%Hr).
    destruct (stream_report _ _ _ _ _ _ _ Hst Hin) as (Ei & id & chunker & chunks & Hid & Hc & Hop & Hch & _).
    exists id, chunker, chunks. do 3 (split; [done|]). by rewrite Er.
  - intros x Hx. rewrite Hb in Hx. apply list_elem_of_join in Hx as (l & Hx & (r & -> & Hin'%Hr)%list_elem_of_fmap).
    destruct (stream_report _ _ _ _ _ _ _ Hst Hin') as (_ & id & _ & _ & Hid & _ & _ & _ & Hf).
    destruct Hf as (params & config & client & all & th & _ & _ & _ & _ & _ & _ & Hf).
    exists id. destruct (Hf x Hx). done.
Qed.

(** The streams of a request: those of the choices whose streams could be
    created. *)
Definition opened_streams (ctx : Context) (headers : Headers) (dets : gmap string DetectorParams)
    (inputs : Z -> list (outcome OrchError (Z * string))) (choices : list Z)
    (streams : list (list (outcome OrchError Batch))) : Prop :=
  exists parts : list (Z * list (list (outcome OrchError Batch))),
    parts.*1 `sublist_of` choices /\ streams = mjoin parts.*2 /\
    Forall (fun part => text_contents_detection_streams ctx headers dets part.1 (inputs part.1) = Ok part.2) parts.

Lemma detection_streams_of_opened {T} ctx headers dets inputs choices (P : outcome OrchError T -> Prop) :
  (forall e, P (Err e)) ->
  sends P (detection_streams_of ctx headers dets inputs choices) (opened_streams ctx headers dets inputs choices).
Proof.
  intros HP. induction choices as [|c choices IH]; simpl.
  { apply sends_ret. by exists []. }
  eapply sends_bind.
  { apply sends_attempt, (sends_lift _ _ (fun streams =>
      text_contents_detection_streams ctx headers dets c (inputs c) = Ok streams)). done. }
  intros [streams|e] H; simpl in H.
  - eapply sends_bind; [exact IH|]. intros rest (parts & Hsub & -> & HF). apply sends_ret.
    exists ((c, streams) :: parts). split; [by constructor|]. split; [done|by constructor].
  - eapply sends_bind; [apply sends_tell, HP|]. intros _ _.
    eapply sends_consequence; [exact IH|done|]. intros rest (parts & Hsub & -> & HF).
    exists parts. split; [by constructor|done].
Qed.

(** The reports on a choice are those of its own streams. *)
Lemma opened_choice ctx headers dets inputs (parts : list (Z * list (list (outcome OrchError Batch)))) c :
  NoDup parts.*1 ->
  Forall (fun part => text_contents_detection_streams ctx headers dets part.1 (inputs part.1) = Ok part.2) parts ->
  filter (fun r : Batch => r.1.1 = c) (items_of (mjoin parts.*2)) <> [] ->
  exists streams, text_contents_detection_streams ctx headers dets c (inputs c) = Ok streams /\
    filter (fun r : Batch => r.1.1 = c) (items_of (mjoin parts.*2)) = items_of streams.
Proof.
  intros Hnd HF. induction HF as [|[i streams] parts Hi HF IH]; [done|].
  rewrite !fmap_cons in *. apply NoDup_cons in Hnd as [Hni Hnd]. cbn [fst snd] in *.
  change (mjoin (streams :: parts.*2)) with (streams ++ mjoin parts.*2).
  rewrite items_of_app, filter_app. destruct (decide (i = c)) as [->|Hne].
  - intros _. exists streams. split; [done|].
    rewrite (filter_all _ (items_of streams)), (filter_none _ (items_of (mjoin parts.*2))); [by rewrite app_nil_r|..].
    + apply Forall_forall. intros r (stream & Hs & Hr)%elem_of_items_of E.
      apply list_elem_of_join in Hs as (l & Hs & ([j st] & -> & Hin)%list_elem_of_fmap).
      rewrite Forall_forall in HF. specialize (HF _ Hin). simpl in *.
      destruct (stream_report _ _ _ _ _ _ r HF) as [Ej _]; [apply elem_of_items_of; by exists stream|].
      apply Hni, list_elem_of_fmap. exists (j, st). simpl. split; [congruence|done].
    + apply Forall_forall. intros r Hr. by destruct (stream_report _ _ _ _ _ _ r Hi Hr).
  - rewrite (filter_none _ (items_of streams)); [by apply IH|].
    apply Forall_forall. intros r Hr E. destruct (stream_report _ _ _ _ _ _ r Hi Hr). congruence.
Qed.

(** Every batch the merged streams yield is vouched for. *)
Lemma batches_screen ctx headers dets inputs choices streams b :
  NoDup choices -> opened_streams ctx headers dets inputs choices streams ->
  Ok b ∈ batches streams (completion_batcher_new (Z.of_nat (size dets))) -> screens ctx headers dets inputs b.
Proof.
  intros Hnd (parts & Hsub & -> & HF) Hb. apply reported_screens.
  pose proof (batches_emitted (mjoin parts.*2) (Z.of_nat (size dets))) as He.
  assert (Hone : length (mjoin parts.*2) = 1%nat -> Z.of_nat (size dets) = 1).
  { clear -HF RL. induction HF as [|[i st] parts Hi _ IH]; [done|]. rewrite fmap_cons. cbn [fst snd] in *.
    change (mjoin (st :: parts.*2)) with (st ++ mjoin parts.*2). rewrite length_app.
    rewrite (streams_length _ _ _ _ _ _ Hi). destruct (decide (size dets = 0%nat)); [|lia].
    intros Hl. apply IH. lia. }
  assert (Hkeys : keys_named (B := CompletionBatcher) (items_of (mjoin parts.*2))) by (by intros [[] ?] ? _).
  destruct (emitted_batch (B := CompletionBatcher) (Z.of_nat (size dets)) (mjoin parts.*2)
    (batches (mjoin parts.*2) (completion_batcher_new (Z.of_nat (size dets)))) b Hkeys Hone He Hb)
    as (reports & Hr & Hlen & Hin & Hb2 & Hk). clear He Hkeys Hone.
  assert (Hk' : forall r, r ∈ reports -> r.1.1 = b.1.1 /\ cmp r.1.2 b.1.2 = Eq).
  { intros r Hr'. destruct (proj1 (prod_cmp_eq (r.1.2, r.1.1) (b.1.2, b.1.1)) (Hk r Hr')) as [E1 E2%Z_cmp_eq].
    done. }
  assert (Hfil : reports ⊆+ filter (fun r : Batch => r.1.1 = b.1.1) (items_of (mjoin parts.*2))).
  { rewrite <- (filter_all (fun r : Batch => r.1.1 = b.1.1) reports) by
      (apply Forall_forall; intros r Hr'; by apply Hk').
    destruct (submseteq_Permutation _ _ Hr) as [rest ->]. rewrite filter_app. by apply submseteq_inserts_r. }
  destruct (opened_choice ctx headers dets inputs parts b.1.1) as (streams & Hst & Ef); [|done|..].
  - by eapply sublist_NoDup.
  - intros E. rewrite E in Hfil. apply submseteq_nil_r in Hfil as ->. by apply elem_of_nil in Hin.
  - rewrite Ef in Hfil. exists streams, reports. split; [done|]. split; [done|]. split; [lia|done].
Qed.

(** A batch the batch stream of a request has yielded, and what it vouches for. *)
Definition vouched (ctx : Context) (headers : Headers) (dets : gmap string DetectorParams)
    (inputs : Z -> list (outcome OrchError (Z * string))) (choices : list Z) (batch : Batch) : Prop :=
  (exists streams, opened_streams ctx headers dets inputs choices streams /\
     Ok batch ∈ batches streams (completion_batcher_new (Z.of_nat (size dets)))) /\
  screens ctx headers dets inputs batch.

(** The other batcher does not tell inputs apart; there is only one. *)
Lemma max_batches_screen ctx headers dets inputs streams b :
  text_contents_detection_streams ctx headers dets 0 (inputs 0) = Ok streams ->
  Ok b ∈ max_batches streams (max_batcher_new (Z.of_nat (size dets))) -> screens ctx headers dets inputs b.
Proof.
  intros Hst Hb. apply reported_screens.
  pose proof (max_batches_emitted streams (Z.of_nat (size dets))) as He.
  assert (H0 : forall r, r ∈ items_of streams -> r.1.1 = 0).
  { intros r Hr. by destruct (stream_report _ _ _ _ _ _ r Hst Hr). }
  destruct (emitted_batch (B := MaxProcessedIndexBatcher) (Z.of_nat (size dets)) streams
    (max_batches streams (max_batcher_new (Z.of_nat (size dets)))) b) as (reports & Hr & Hlen & Hin & Hb2 & Hk); try done.
  { intros [[i c] d] ds Hr. pose proof (H0 _ Hr) as E. simpl in E. by subst i. }
  { rewrite (streams_length _ _ _ _ _ _ Hst). by intros ->. }
  assert (Hr0 : forall r, r ∈ reports -> r.1.1 = 0).
  { intros r Hr'. by eapply H0, elem_of_submseteq. }
  assert (Hb0 : b.1.1 = 0).
  { apply list_elem_of_fmap in Hin as (r & -> & Hr'). by apply Hr0. }
  exists streams, reports. rewrite Hb0. split; [done|]. split; [done|]. split; [lia|]. split; [|done].
  intros r Hr'. split; [by apply Hr0|exact (Hk r Hr')].
Qed.
End screening.

(** ** Partitioning the output detectors *)
Section partition.
Context {SJ : SerdeJson} {RT : Runtime} {RL : RuntimeLaws RT} {CN : Connector} {SV : Services}.

(** Every requested detector ends up on exactly one side. *)
Lemma partition_detectors_lookup site ctx dets chunked whole :
  partition_detectors site ctx dets = Ok (chunked, whole) ->
  forall id p,
    (chunked !! id = Some p <-> dets !! id = Some p /\ is_chunk_detector site ctx id = Ok true) /\
    (whole !! id = Some p <-> dets !! id = Some p /\ is_chunk_detector site ctx id = Ok false).
Proof.
  unfold partition_detectors. intros (marked & Hm%collect_Ok & [= <- <-])%bind_Ok.
  assert (Hel : forall id p b, (id, p, b) ∈ marked <->
    dets !! id = Some p /\ is_chunk_detector site ctx id = Ok b).
  { intros id p b. rewrite <- elem_of_hash_iter. split.
    - intros Hin. assert (Hok : Ok (id, p, b) ∈ Ok (E := OrchError) <$> marked).
      { apply list_elem_of_fmap. by exists (id, p, b). }
      rewrite <- Hm in Hok. apply list_elem_of_fmap in Hok as ([id' p'] & E & Hin').
      symmetry in E. apply bind_Ok in E as (b' & Hb & [= -> -> ->]). done.
    - intros [Hin Hb]. assert (Hok : Ok (id, p, b) ∈ Ok (E := OrchError) <$> marked).
      { rewrite <- Hm. apply list_elem_of_fmap. exists (id, p). split; [by rewrite Hb|done]. }
      by apply list_elem_of_fmap in Hok as (? & [= <-] & ?). }
  assert (Hnd : NoDup marked.*1.*1).
  { assert (E : marked.*1 = hash_iter dets).
    { clear Hel. revert marked Hm. induction (hash_iter dets) as [|[id p] l IH]; intros [|m marked] H; try done.
      injection H as H1 H2. apply bind_Ok in H1 as (b & _ & [= <-]).
      rewrite fmap_cons. simpl. f_equal. by apply IH. }
    rewrite E, (hash_iter_perm dets). apply NoDup_fst_map_to_list. }
  assert (Hside : forall bb id p, hash_collect (filter (fun kvb => kvb.2 = bb) marked).*1 !! id = Some p <->
    dets !! id = Some p /\ is_chunk_detector site ctx id = Ok bb).
  { intros bb id p. rewrite hash_collect_nodup.
    - rewrite list_elem_of_fmap, <- Hel. split.
      + intros ([[id' p'] b'] & [= -> ->] & [E Hin]%list_elem_of_filter). simpl in E. by subst.
      + intros Hin. exists (id, p, bb). split; [done|]. by apply list_elem_of_filter.
    - eapply sublist_NoDup; [exact Hnd|]. do 2 apply fmap_sublist. apply sublist_filter. }
  intros id p. split; apply Hside.
Qed.

Lemma partition_detectors_total site ctx dets parts :
  partition_detectors site ctx dets = Ok parts ->
  forall id, is_Some (dets !! id) -> exists b, is_chunk_detector site ctx id = Ok b.
Proof.
  unfold partition_detectors. intros (marked & Hm%collect_Ok & _)%bind_Ok id [p Hid%elem_of_hash_iter].
  assert (Hin : (b ← is_chunk_detector site ctx id; Ok (id, p, b)) ∈ Ok (E := OrchError) <$> marked).
  { rewrite <- Hm. apply list_elem_of_fmap. by exists (id, p). }
  apply list_elem_of_fmap in Hin as (m & E & _). apply bind_Ok in E as (b & Hb & _). by exists b.
Qed.
End partition.

(** ** A concrete schedule

    A single stream is forwarded; the tasks observe what [rs] says. *)
Section example_schedule.
#[local] Existing Instance simple_json.

Definition ex_schedule (rs : list nat) : Schedule := {|
  batches streams _ := match streams with [stream] => forward stream | _ => [] end;
  max_batches streams _ := match streams with [stream] => forward stream | _ => [] end;
  reads := rs
|}.
Lemma ex_schedule_laws rs : ScheduleLaws (ex_schedule rs).
Proof.
  split; intros streams n; unfold batch_stream_emits; simpl;
    (destruct streams as [|st [|st' sts]]; [|done|]; eexists []; by eexists).
Qed.
End example_schedule.
