(* ===== verification/ChatStreaming.v ===== *)
(** * Guarded chat completions, streaming

    src/orchestrator/handlers/chat_completions_detection.rs and
    chat_completions_detection/streaming.rs: the chunks of a streamed chat
    completion are screened while they arrive.  With detectors that run on
    chunks of the text, each batch of detections is answered with a message
    carrying the chunk's text; without them the model's own messages are
    forwarded.  Detections on the whole text and the usage follow in a final
    message. *)
From stdpp Require Import pretty.
From S2P Require Import Prelude Collections External Errors Utf8 Hostname Config Detection.
From S2P Require Import Chunk Batcher BatchStream BatchGroups Clients OpenAi CompletionState.
From S2P Require Import Models Utils Tasks Streams DetectionHandlers Completions Streaming.
#[local] Open Scope string_scope.
#[local] Open Scope list_scope.
#[local] Open Scope Z_scope.
#[local] Open Scope task_scope.

(** What is read of a chunk: its first choice's index and content. *)
#[export] Instance chat_streamed `{SJ : SerdeJson} : StreamedMessage ChatCompletionChunk := {
  sm_metadata m := {| cmd_id := cck_id m; cmd_created := cck_created m; cmd_model := cck_model m |};
  sm_usage := cck_usage;
  sm_choice m := (fun choice => (ckc_index choice, default "" (delta_content (ckc_delta choice))))
                   <$> head (cck_choices m)
}.

(** ** Merging the chunks of a choice *)
Section merging.
Context {SJ : SerdeJson}.

Definition chat_logprobs (chunk : ChatCompletionChunk) : option ChatCompletionLogprobs :=
  choice ← head (cck_choices chunk); ckc_logprobs choice.

Definition merge_logprobs (chunks : list ChatCompletionChunk) : option ChatCompletionLogprobs :=
  let logprobs := omap chat_logprobs chunks in
  match mjoin (clps_content <$> logprobs), mjoin (clps_refusal <$> logprobs) with
  | [], [] => None
  | content, refusal => Some {| clps_content := content; clps_refusal := refusal |}
  end.

Definition merge_content (chunks : list ChatCompletionChunk) : option Content :=
  let content_text := concat (omap (fun chunk =>
    choice ← head (cck_choices chunk); delta_content (ckc_delta choice)) chunks) in
  if str_is_empty content_text then None else Some (Text content_text).

Definition tool_call_default (index : Z) : ToolCall :=
  {| tool_call_index := Some index; tool_call_id := ""; tool_call_type := "";
     tool_call_function := None; tool_call_custom := None |}.

(** [entry.function.get_or_insert_default()] and the appends to it. *)
Definition merge_function (entry : ToolCall) (function : Function_) : ToolCall :=
  let f := default {| function_name := ""; function_arguments := "" |} (tool_call_function entry) in
  let named := negb (str_is_empty (function_name function)) in
  {| tool_call_index := tool_call_index entry;
     tool_call_id := tool_call_id entry;
     tool_call_type := if named then "function" else tool_call_type entry;
     tool_call_function := Some {|
       function_name := if named then function_name function else function_name f;
       function_arguments := function_arguments f +:+ function_arguments function |};
     tool_call_custom := tool_call_custom entry |}.
Definition merge_custom (entry : ToolCall) (custom : Custom) : ToolCall :=
  let c := default {| custom_name := ""; custom_input := "" |} (tool_call_custom entry) in
  let named := negb (str_is_empty (custom_name custom)) in
  {| tool_call_index := tool_call_index entry;
     tool_call_id := tool_call_id entry;
     tool_call_type := if named then "custom" else tool_call_type entry;
     tool_call_function := tool_call_function entry;
     tool_call_custom := Some {|
       custom_name := if named then custom_name custom else custom_name c;
       custom_input := custom_input c +:+ custom_input custom |} |}.
Definition merge_id (entry : ToolCall) (id : string) : ToolCall :=
  if str_is_empty id then entry
  else {| tool_call_index := tool_call_index entry; tool_call_id := id;
          tool_call_type := tool_call_type entry;
          tool_call_function := tool_call_function entry;
          tool_call_custom := tool_call_custom entry |}.

(** What one tool call chunk adds to its entry. *)
Definition merge_tool_call (entry tc : ToolCall) : ToolCall :=
  let entry := merge_id entry (tool_call_id tc) in
  let entry := match tool_call_function tc with
               | Some function => merge_function entry function | None => entry end in
  match tool_call_custom tc with Some custom => merge_custom entry custom | None => entry end.

Fixpoint add_tool_calls {E} (tcs : list ToolCall) (tool_calls : gmap Z ToolCall)
    : outcome E (gmap Z ToolCall) :=
  match tcs with
  | [] => Ok tool_calls
  | tc :: tcs =>
      index ← unwrap "chat_completions_detection/streaming.rs:668" (tool_call_index tc);
      let entry := default (tool_call_default index) (tool_calls !! index) in
      add_tool_calls tcs (<[index := merge_tool_call entry tc]> tool_calls)
  end.

Definition first_tool_calls (chunk : ChatCompletionChunk) : list ToolCall :=
  match cck_choices chunk with
  | choice :: _ => delta_tool_calls (ckc_delta choice)
  | [] => []
  end.
End merging.

Section chat_streaming.
Context {SJ : SerdeJson} {RT : Runtime} {CN : Connector} {SV : Services} {ST : Stamp} {SC : Schedule}.

Definition merge_tool_calls {E} (chunks : list ChatCompletionChunk) : outcome E (option (list ToolCall)) :=
  tool_calls ← add_tool_calls (chunks ≫= first_tool_calls) ∅;
  Ok (match (hash_iter tool_calls).*2 with [] => None | tool_calls => Some tool_calls end).

(** A message of the response channel. *)
Notation ChatMsg := (outcome OrchError (option ChatCompletionChunk)).
Notation ChatEvents := (list (consumer_event ChatCompletionChunk)).
Notation ChatTask := (ChatCompletionsDetectionTask (H := Headers)).

(** ** Input detection *)
Definition chat_stream_input_detection (ctx : Context) (task : ChatTask) (dets : gmap string DetectorParams)
    : outcome OrchError (option ChatCompletionChunk) :=
  let model_id := ccr_model (ccdt_request task) in
  message ← last_chat_message (ccdt_request task);
  let input_text := default "" (cm_text message) in
  detections ← text_contents_detections ctx (ccdt_headers task) dets [(0, input_text)];
  match detections with
  | [] => Ok None
  | _ =>
      client ← openai_client "chat_completions_detection/streaming.rs:198" ctx;
      tokenize_response ← tokenize_openai client (ccdt_headers task)
                            (input_tokenize_request model_id input_text);
      Ok (Some {| cck_id := new_v4_simple; cck_object := cck_object chat_completion_chunk_default;
                  cck_created := as_i64 timestamp_secs; cck_model := model_id;
                  cck_system_fingerprint := None; cck_choices := []; cck_service_tier := None;
                  cck_usage := Some (input_usage tokenize_response);
                  cck_detections := Some (input_detections (cm_index message) detections);
                  cck_warnings := [unsuitable_input_warning] |})
  end.

(** ** The consumer *)

(** What is done for a message, apart from forwarding it. *)
Definition chat_message_events (has_state : bool) (input_txs : option InputTxs)
    (message : Z * ChatMsg) : ChatEvents :=
  match message with
  | (message_index, Ok (Some chat_completion)) =>
      (if has_state then state_updates message_index chat_completion else []) ++
      input_sends input_txs message_index chat_completion
  | (_, Err error) => error_sends input_txs error
  | _ => []
  end.

(** [has_state], [input_txs] and [forward] say which of its optional
    arguments are given; the result is what it did to the first two. *)
Fixpoint process_chat_completion_stream (has_state : bool) (input_txs : option InputTxs)
    (forward : bool) (chat_completion_stream : list (Z * ChatMsg)) : Task ChatMsg ChatEvents :=
  match chat_completion_stream with
  | [] => task_ret []
  | (message_index, result) :: stream =>
      do! connected <- (match result with
                        | Ok (Some _) => if forward then tell_ok result else task_ret true
                        | Err _ => (if forward then tell result else task_ret ()) ;! task_ret true
                        | _ => task_ret true
                        end);
      if connected : bool then
        do! events <- process_chat_completion_stream has_state input_txs forward stream;
        task_ret (chat_message_events has_state input_txs (message_index, result) ++ events)
      else task_ret []
  end.

(** ** Responses to batches *)

(** [chat_completion.choices[0]] is replaced. *)
Definition with_first_choice {E} (site : string)
    (f : ChatCompletionChunkChoice -> ChatCompletionChunkChoice) (c : ChatCompletionChunk)
    : outcome E ChatCompletionChunk :=
  match cck_choices c with
  | choice :: choices =>
      Ok {| cck_id := cck_id c; cck_object := cck_object c; cck_created := cck_created c;
            cck_model := cck_model c; cck_system_fingerprint := cck_system_fingerprint c;
            cck_choices := f choice :: choices; cck_service_tier := cck_service_tier c;
            cck_usage := cck_usage c; cck_detections := cck_detections c;
            cck_warnings := cck_warnings c |}
  | [] => Panic site
  end.

Definition with_role (choice : ChatCompletionChunkChoice) : ChatCompletionChunkChoice :=
  {| ckc_index := ckc_index choice;
     ckc_delta := {| delta_role := Some Assistant; delta_content := delta_content (ckc_delta choice);
                     delta_refusal := delta_refusal (ckc_delta choice);
                     delta_tool_calls := delta_tool_calls (ckc_delta choice) |};
     ckc_logprobs := ckc_logprobs choice; ckc_finish_reason := ckc_finish_reason choice;
     ckc_stop_reason := ckc_stop_reason choice |}.
Definition with_content (content : option string) (logprobs : option ChatCompletionLogprobs)
    (choice : ChatCompletionChunkChoice) : ChatCompletionChunkChoice :=
  {| ckc_index := ckc_index choice;
     ckc_delta := {| delta_role := delta_role (ckc_delta choice); delta_content := content;
                     delta_refusal := delta_refusal (ckc_delta choice);
                     delta_tool_calls := delta_tool_calls (ckc_delta choice) |};
     ckc_logprobs := logprobs; ckc_finish_reason := ckc_finish_reason choice;
     ckc_stop_reason := ckc_stop_reason choice |}.
Definition chunk_with (c : ChatCompletionChunk) (usage : option Usage)
    (detections : option CompletionDetections) (warnings : list CompletionDetectionWarning)
    : ChatCompletionChunk :=
  {| cck_id := cck_id c; cck_object := cck_object c; cck_created := cck_created c;
     cck_model := cck_model c; cck_system_fingerprint := cck_system_fingerprint c;
     cck_choices := cck_choices c; cck_service_tier := cck_service_tier c;
     cck_usage := usage; cck_detections := detections; cck_warnings := warnings |}.

(** The detections of a batch. *)
Definition batch_detections (choice_index : Z) (detections : list Detection) : CompletionDetections :=
  {| cds_input := cds_input completion_detections_default;
     cds_output := [ {| cod_choice_index := choice_index; cod_results := detections |} ] |}.

(** The response, once the choice's entry has been obtained. *)
Definition chat_batch_response (entry : list (Z * ChatCompletionChunk)) (choice_index : Z)
    (chunk : Chunk) (detections : list Detection) : outcome OrchError ChatCompletionChunk :=
  range ← bt_range "chat_completions_detection/streaming.rs:603"
            (input_start_index chunk) (input_end_index chunk) entry;
  let chat_completions := (range : list (Z * ChatCompletionChunk)).*2 in
  let logprobs := merge_logprobs chat_completions in
  match last chat_completions with
  | Some chat_completion =>
      c ← with_first_choice "chat_completions_detection/streaming.rs:612"
            (fun choice => with_content (Some (chunk_text chunk)) logprobs (with_role choice))
            chat_completion;
      Ok (chunk_with c (cck_usage c) (Some (batch_detections choice_index detections))
            (match detections with [] => cck_warnings c | _ => [unsuitable_output_warning] end))
  | None => Err (Other "no chat completions found for chunk")
  end.

(** The wait for the entry ends when it is there or after 30 seconds; the
    observation is made when it ends. *)
Definition output_detection_response (events : ChatEvents) (choice_index : Z) (chunk : Chunk)
    (detections : list Detection) : Task ChatMsg ChatCompletionChunk :=
  do! completion_state <- read_state events;
  match completions_by_choice completion_state !! choice_index with
  | Some entry => lift (chat_batch_response entry choice_index chunk detections)
  | None => lift (Err (Other ("completion entry for choice_index " +:+ pretty choice_index
                              +:+ " not ready after 30s timeout")))
  end.

(** The message with the finish reason, if it comes right after the batch. *)
Definition finish_message (entry : list (Z * ChatCompletionChunk)) (input_end_index : Z)
    : option (outcome OrchError ChatCompletionChunk) :=
  match bt_keys_rev_nth 1 entry, bt_last_key_value entry with
  | Some index, Some (_, chat_completion) =>
      if decide (index = input_end_index) then
        match cck_choices chat_completion with
        | choice :: _ =>
            match ckc_finish_reason choice with
            | Some _ => Some (with_first_choice "chat_completions_detection/streaming.rs:781"
                                with_role chat_completion)
            | None => None
            end
        | [] => None
        end
      else None
  | _, _ => None
  end.

Fixpoint process_detection_batch_stream (events : ChatEvents)
    (detection_batch_stream : list (outcome OrchError Batch)) : Task ChatMsg () :=
  match detection_batch_stream with
  | Ok (choice_index, chunk, detections) :: stream =>
      do! response <- attempt (output_detection_response events choice_index chunk detections);
      match response with
      | inl chat_completion =>
          do! connected <- tell_ok (Ok (Some chat_completion));
          if connected : bool then
            do! completion_state <- read_state events;
            match completions_by_choice completion_state !! choice_index with
            | Some entry =>
                (match finish_message entry (input_end_index chunk) with
                 | Some message => do! chat_completion <- lift message; tell (Ok (Some chat_completion))
                 | None => task_ret ()
                 end) ;!
                process_detection_batch_stream events stream
            | None => task_ret ()
            end
          else task_ret ()
      | inr error => tell (Err error) ;! tell (Ok None)
      end
  | Err error :: _ => tell (Err error) ;! tell (Ok None)
  | _ => task_ret ()
  end.

(** ** Detection on the whole text *)
Definition choice_message (entry : list (Z * ChatCompletionChunk)) : outcome OrchError Message :=
  let chunks := entry.*2 in
  tool_calls ← merge_tool_calls chunks;
  Ok {| msg_role := Assistant; msg_content := merge_content chunks;
        msg_name := msg_name message_default; msg_refusal := msg_refusal message_default;
        msg_tool_calls := tool_calls; msg_tool_call_id := msg_tool_call_id message_default;
        msg_reasoning_content := msg_reasoning_content message_default |}.

Definition chat_stream_spawn (ctx : Context) (task : ChatTask) (choice : Z * Message)
    (ty : DetectorType) (dets : gmap string DetectorParams)
    : outcome OrchError (list (Z * DetectorType * outcome OrchError (list Detection))) :=
  match ty with
  | TextContents =>
      match message_text choice.2 with
      | Some content_text =>
          Ok [(choice.1, ty, text_contents_detections ctx (ccdt_headers task) dets [(0, content_text)])]
      | None => Ok []
      end
  | TextChat =>
      Ok [(choice.1, ty,
           text_chat_detections ctx (ccdt_headers task) dets
             (ccr_messages (ccdt_request task) ++ [choice.2])
             (default [] (ccr_tools (ccdt_request task))))]
  | _ => Panic "chat_completions_detection/streaming.rs:528"
  end.

Definition no_content_warning (choice : Z * Message) : CompletionDetectionWarning :=
  completion_detection_warning_new EmptyOutput
    ("Choice of index " +:+ pretty choice.1 +:+ " has no content").

(** The detections and warnings of the joined results. *)
Definition whole_doc_output (results : list (Z * DetectorType * list Detection)) : CompletionDetections :=
  {| cds_input := cds_input completion_detections_default;
     cds_output := (fun '(choice_index, _, detections) =>
       {| cod_choice_index := choice_index; cod_results := detections |}) <$> results |}.
Definition whole_doc_warnings (results : list (Z * DetectorType * list Detection))
    : list CompletionDetectionWarning :=
  if has_contents_detections results then [unsuitable_output_warning] else [].

(** [state] is what the iteration over the completions sees. *)
Definition handle_whole_doc_detection (ctx : Context) (task : ChatTask)
    (dets : gmap string DetectorParams) (state : CompletionState ChatCompletionChunk)
    : outcome OrchError (CompletionDetections * list CompletionDetectionWarning) :=
  groups ← group_detectors_by_type ctx dets;
  choices ← collect ((fun '(choice_index, entry) =>
    message ← choice_message entry; Ok (choice_index, message))
      <$> hash_iter (completions_by_choice state));
  tasks ← spawn_all choices groups (chat_stream_spawn ctx task);
  let warnings := no_content_warning <$>
    filter (fun choice => has_content choice.2 = false) (choices : list (Z * Message)) in
  results ← join_tagged tasks;
  Ok (whole_doc_output results, warnings ++ whole_doc_warnings results).

(** ** Output detection *)
Definition final_chunk (m : CompletionMetadata) (usage : option Usage) : ChatCompletionChunk :=
  let d := chat_completion_chunk_default in
  {| cck_id := cmd_id m; cck_object := cck_object d; cck_created := cmd_created m;
     cck_model := cmd_model m; cck_system_fingerprint := cck_system_fingerprint d;
     cck_choices := cck_choices d; cck_service_tier := cck_service_tier d; cck_usage := usage;
     cck_detections := cck_detections d; cck_warnings := cck_warnings d |}.

(** The final message.  [OnceLock]s keep their value, so that the metadata is
    read at once. *)
Definition chat_final_message (ctx : Context) (task : ChatTask) (whole_doc : gmap string DetectorParams)
    (events : ChatEvents) : Task ChatMsg () :=
  do! wanted <- (if bool_decide (whole_doc = ∅)
                 then do! s <- read_state events; task_ret (bool_decide (is_Some (state_usage s)))
                 else task_ret true);
  if wanted : bool then
    do! s <- read_state events;
    do! m <- lift (unwrap "chat_completions_detection/streaming.rs:337" (metadata s));
    do! s <- read_state events;
    let chat_completion := final_chunk m (state_usage s) in
    if bool_decide (whole_doc = ∅) then tell (Ok (Some chat_completion))
    else
      do! s <- read_state events;
      do! result <- attempt (lift (handle_whole_doc_detection ctx task whole_doc s));
      match result with
      | inl (detections, warnings) =>
          tell (Ok (Some (chunk_with chat_completion (cck_usage chat_completion)
                            (Some detections) warnings)))
      | inr error => tell (Err error) ;! tell (Ok None)
      end
  else task_ret ().

Definition handle_output_detection (ctx : Context) (task : ChatTask)
    (dets : gmap string DetectorParams) (chat_completion_stream : list (Z * ChatMsg))
    : Task ChatMsg () :=
  do! parts <- lift (partition_detectors "chat_completions_detection/streaming.rs:257" ctx dets);
  let '(chunk_detectors, whole_doc_detectors) := parts in
  if bool_decide (chunk_detectors = ∅) then
    do! events <- process_chat_completion_stream true None true chat_completion_stream;
    chat_final_message ctx task whole_doc_detectors events
  else
    let n := choice_count (ccr_extra (ccdt_request task)) in
    do! input_txs <- lift (input_channels "chat_completions_detection/streaming.rs:270" n);
    (* the consumer is spawned once the detection streams are there *)
    do! events <- process_chat_completion_stream true (Some input_txs) false chat_completion_stream;
    do! streams <- detection_streams_of ctx (ccdt_headers task) chunk_detectors
                     (fun choice_index => inputs_for choice_index events) (hash_keys input_txs);
    consumer_spawned reads ;!
    process_detection_batch_stream events
      (batches streams (completion_batcher_new (Z.of_nat (size chunk_detectors)))) ;!
    chat_final_message ctx task whole_doc_detectors events.

(** ** The handler *)
Definition chat_streaming_task (ctx : Context) (task : ChatTask) : Task ChatMsg () :=
  let request := ccdt_request task in
  let input_dets := rd_input (ccr_detectors request) in
  let output_dets := rd_output (ccr_detectors request) in
  let fail error := tell (Err error) ;! tell (Ok None) in
  do! valid <- attempt (lift (
    validate_detectors (hash_iter input_dets) (detectors (ctx_config ctx)) [TextContents] true ≫= fun _ =>
    validate_detectors (hash_iter output_dets) (detectors (ctx_config ctx))
      [TextContents; TextChat] true));
  match valid with
  | inr error => fail error
  | inl _ =>
      do! blocked <- attempt (lift (if bool_decide (input_dets = ∅) then Ok None
                                    else chat_stream_input_detection ctx task input_dets));
      match blocked with
      | inr error => fail error
      | inl (Some chunk) => tell (Ok (Some chunk)) ;! tell (Ok None)
      | inl None =>
          do! client <- lift (openai_client "chat_completions_detection/streaming.rs:117" ctx);
          do! stream <- attempt (lift (chat_completion_stream client (ccdt_headers task) request));
          match stream with
          | inr error => fail error
          | inl stream =>
              (if bool_decide (output_dets = ∅)
               then process_chat_completion_stream false None true stream ;! task_ret ()
               else handle_output_detection ctx task output_dets stream) ;!
              tell (Ok None)
          end
      end
  end.

(** [reader] is how many messages the client takes. *)
Definition handle_chat_streaming (reader : option nat) (ctx : Context) (task : ChatTask)
    : outcome OrchError ChatCompletionsResponse :=
  Ok (ChatStreaming (spawn reader (chat_streaming_task ctx task))).

(** chat_completions_detection.rs *)
Definition handle_chat (reader : option nat) (ctx : Context) (task : ChatTask)
    : outcome OrchError ChatCompletionsResponse :=
  match ccr_stream (ccdt_request task) with
  | Some true => handle_chat_streaming reader ctx task
  | _ => handle_chat_unary ctx task
  end.
End chat_streaming.

(** ** Lemmas *)
Section chat_streaming_lemmas.
Context {SJ : SerdeJson} {RT : Runtime} {CN : Connector} {SV : Services} {ST : Stamp} {SC : Schedule}.
Notation ChatMsg := (outcome OrchError (option ChatCompletionChunk)).
Notation ChatEvents := (list (consumer_event ChatCompletionChunk)).
Notation ChatTask := (ChatCompletionsDetectionTask (H := Headers)).
Implicit Types (stream : list (Z * ChatMsg)) (events : ChatEvents).

Definition chat_events (has_state : bool) (input_txs : option InputTxs) stream : ChatEvents :=
  stream ≫= chat_message_events has_state input_txs.

Lemma process_chat_forward b txs stream sent rs :
  process_chat_completion_stream b txs true stream (io_of sent rs) =
  (Ok (chat_events b txs stream), io_of (sent ++ forwarded stream) rs).
Proof.
  revert sent. induction stream as [|[i r] stream IH]; intros sent; [by rewrite app_nil_r|].
  unfold forwarded. rewrite fmap_cons, filter_cons. cbn [snd].
  destruct r as [[c|]|e|]; cbn [process_chat_completion_stream]; unfold task_bind at 1.
  - rewrite tell_ok_io. cbn iota beta. unfold task_bind at 1. rewrite IH, <- app_assoc. done.
  - cbn. unfold task_bind at 1. by rewrite IH.
  - cbn. unfold task_bind at 1. unfold send_, send, io_of at 1. cbn.
    change (Build_Io (Build_Sender (sent ++ [Err e]) None) rs) with (io_of (sent ++ [Err e]) rs).
    rewrite IH, <- app_assoc. done.
  - cbn. unfold task_bind at 1. by rewrite IH.
Qed.

Lemma process_chat_quiet b txs stream io :
  process_chat_completion_stream b txs false stream io = (Ok (chat_events b txs stream), io).
Proof.
  induction stream as [|[i r] stream IH]; [done|].
  destruct r as [[c|]|e|]; cbn; unfold task_bind at 1; by rewrite IH.
Qed.

Lemma chat_message_events_elem b txs i r e :
  e ∈ chat_message_events b txs (i, r) ->
  (exists c err, e = SendInput c (Err err)) \/
  exists m, r = Ok (Some m) /\ e ∈ (if b then state_updates i m else []) ++ input_sends txs i m.
Proof.
  destruct r as [[m|]|err|]; simpl; [|by intros ?%elem_of_nil| |by intros ?%elem_of_nil].
  - intros He. right. by exists m.
  - intros [c ->]%error_sends_elem. left. by exists c, err.
Qed.

(** What the consumer of an enumerated stream does is in order. *)
Lemma chat_events_in_order b txs stream :
  StronglySorted Z.lt stream.*1 -> in_order (chat_events b txs stream).
Proof.
  intros Hs. apply in_order_groups; [done|..].
  - intros [i [[m|]|err|]]; simpl; try constructor; [apply message_events_in_order|].
    apply error_sends_in_order.
  - intros [i r] e j [(c & err & ->)|(m & -> & He)]%chat_message_events_elem; [done|].
    by eapply message_events_position.
Qed.

(** What has been passed on has been recorded, and has text. *)
Lemma chat_passed_on b txs stream c i :
  passed_on (chat_events b txs stream) c i ->
  exists m choice choices text, (b = true -> InsertCompletion c i m ∈ chat_events b txs stream) /\
    cck_choices m = choice :: choices /\ ckc_index choice = c /\
    delta_content (ckc_delta choice) = Some text /\ text <> "".
Proof.
  intros (text & ([j r] & He & Hin)%list_elem_of_bind).
  destruct (chat_message_events_elem _ _ _ _ _ He) as [(c' & err & [=])|(m & -> & Hm)].
  assert (Hs : SendInput c (Ok (i, text)) ∈ input_sends txs j m).
  { apply elem_of_app in Hm as [Hm|Hm]; [|done]. destruct b; [|by apply elem_of_nil in Hm].
    apply state_updates_elem in Hm as [[[=] _]|(? & ? & [=] & _)]. }
  pose proof Hs as (c' & text' & tx & [= -> -> ->] & Hc & Hne & _)%input_sends_elem.
  apply message_events_recorded in Hs. simpl in Hc.
  destruct (cck_choices m) as [|choice choices] eqn:Em; [done|]. injection Hc as <- Ht.
  exists m, choice, choices, text'. split; [|split; [done|split; [done|]]].
  - intros ->. apply list_elem_of_bind. exists (j, Ok (Some m)). split; [|done].
    simpl. apply elem_of_app. by left.
  - destruct (delta_content _); simpl in Ht; [|by subst]. by subst.
Qed.

Lemma chat_inserted b txs stream c i m :
  InsertCompletion c i m ∈ chat_events b txs stream ->
  (i, Ok (Some m)) ∈ stream /\
  exists choice choices, cck_choices m = choice :: choices /\ ckc_index choice = c.
Proof.
  intros ([j r] & He & Hin)%list_elem_of_bind.
  destruct (chat_message_events_elem _ _ _ _ _ He) as [(c' & err & [=])|(m' & -> & Hm)].
  apply elem_of_app in Hm as [Hm|(? & ? & ? & [=] & _)%input_sends_elem].
  destruct b; [|by apply elem_of_nil in Hm].
  apply state_updates_elem in Hm as [[_ [=]]|(c' & text & [= <- <- <-] & Hc)]. split; [done|].
  simpl in Hc. destruct (cck_choices m) as [|choice choices]; [done|]. injection Hc as <- _.
  by exists choice, choices.
Qed.

(** The message that follows position [i] and is the last one, as it is sent on:
    it has a finish reason, and its role is set. *)
Definition finishes (entry : list (Z * ChatCompletionChunk)) (i : Z) (f : ChatCompletionChunk) : Prop :=
  exists l m0 j m choice, entry = l ++ [(i, m0); (j, m)] /\
    head (cck_choices m) = Some choice /\ is_Some (ckc_finish_reason choice) /\
    with_first_choice (E := OrchError) "chat_completions_detection/streaming.rs:781" with_role m = Ok f.

(** What is sent for a batch when [events] have happened in the end, and the
    first [k] of them when the entry is read again: the response to the batch,
    with the merged log probabilities of all the messages it spans; and then the
    message that finishes the choice, exactly when it is what follows the batch
    at that time. *)
Definition chat_answer (events : ChatEvents) (k : nat) (batch : Batch) (l : list ChatMsg) : Prop :=
  let '(c, chunk, ds) := batch in
  let due f := finishes (final_entry (take k events) c) (input_end_index chunk) f in
  exists r, chat_batch_response (final_entry events c) c chunk ds = Ok r /\
    ((exists f, due f /\ l = [Ok (Some r); Ok (Some f)]) \/ (~ (exists f, due f) /\ l = [Ok (Some r)])).

(** How many events have happened at the [n]-th read. *)
Definition read_at (events : ChatEvents) (rs : list nat) (n : nat) : nat := default (length events) (rs !! n).

(** The batches a consumer's events can lead to: their input range is a range
    and its last input was passed on. *)
Definition answerable (events : ChatEvents) (batch : Batch) : Prop :=
  input_start_index batch.1.2 <= input_end_index batch.1.2 /\
  passed_on events batch.1.1 (input_end_index batch.1.2).

Lemma final_entry_inserted events c i m :
  (i, m) ∈ final_entry events c <-> InsertCompletion c i m ∈ events.
Proof. unfold final_entry. by rewrite inserted_for_elem, elem_of_inserts. Qed.

Lemma with_first_choice_Ok {E} site f (m : ChatCompletionChunk) choice choices :
  cck_choices m = choice :: choices ->
  exists r, with_first_choice (E := E) site f m = Ok r /\ cck_choices r = f choice :: choices.
Proof. intros H. unfold with_first_choice. rewrite H. by eexists. Qed.

(** A batch whose input has been recorded is answered. *)
Lemma chat_batch_response_Ok txs stream c chunk ds :
  answerable (chat_events true txs stream) (c, chunk, ds) ->
  exists r, chat_batch_response (final_entry (chat_events true txs stream) c) c chunk ds = Ok r.
Proof.
  intros [Hle Hp]. simpl in *.
  destruct (chat_passed_on _ _ _ _ _ Hp) as (m & choice & choices & text & Hin & _).
  specialize (Hin eq_refl). apply final_entry_inserted in Hin.
  unfold chat_batch_response. set (entry := final_entry _ c) in *.
  destruct (bt_range _ _ _ entry) as [range|e|site] eqn:E.
  2, 3: by rewrite (proj2 (bt_range_Z _ _ _ entry _) (conj Hle eq_refl)) in E.
  apply bt_range_Z in E as [_ ->].
  set (range := filter _ entry).
  assert (Hr : (input_end_index chunk, m) ∈ range).
  { apply list_elem_of_filter. simpl. split; [lia|done]. }
  cbn [mbind outcome_bind]. destruct (last range.*2) as [m'|] eqn:El.
  2: { apply last_None, fmap_nil_inv in El. rewrite El in Hr. by apply elem_of_nil in Hr. }
  apply last_Some_elem_of, list_elem_of_fmap in El as ([j m''] & -> & Hm).
  apply list_elem_of_filter in Hm as [_ Hm%final_entry_inserted].
  destruct (chat_inserted _ _ _ _ _ _ Hm) as (_ & choice' & choices' & Hc & _). simpl.
  destruct (with_first_choice_Ok (E := OrchError) "chat_completions_detection/streaming.rs:612"
    (fun choice => with_content (Some (chunk_text chunk)) (merge_logprobs range.*2) (with_role choice))
    m'' choice' choices' Hc) as (r & -> & _).
  by eexists.
Qed.

Lemma app_snoc2 {A} (l : list A) x y : l ++ [x; y] = (l ++ [x]) ++ [y].
Proof. by rewrite <- app_assoc. Qed.

Lemma finishes_functional entry i f f' : finishes entry i f -> finishes entry i f' -> f = f'.
Proof.
  intros (l & m0 & j & m & choice & -> & _ & _ & Hf) (l' & m0' & j' & m' & choice' & E & _ & _ & Hf').
  rewrite !(app_snoc2 _ (i, _)) in E.
  apply app_inj_tail in E as [_ [= _ <-]]. congruence.
Qed.

Lemma finish_message_spec entry i :
  match finish_message entry i with
  | Some message => exists f, message = Ok f /\ finishes entry i f
  | None => ~ exists f, finishes entry i f
  end.
Proof.
  assert (Hlast : forall f, finishes entry i f -> exists l m0 j m choice choices reason,
    entry = l ++ [(i, m0); (j, m)] /\ cck_choices m = choice :: choices /\ ckc_finish_reason choice = Some reason).
  { intros f (l & m0 & j & m & choice & E & Hc & [reason Hr] & _).
    destruct (cck_choices m) as [|choice' choices] eqn:Em; [done|]. injection Hc as ->.
    by exists l, m0, j, m, choice, choices, reason. }
  unfold finish_message, bt_keys_rev_nth, bt_last_key_value.
  destruct entry as [|[j m] entry _] using rev_ind.
  { intros [f (l & m0 & j & m & _ & _ & _ & E & _)%Hlast]. by destruct l. }
  destruct entry as [|[i' m0] entry _] using rev_ind.
  { intros [f (l & m0 & j' & m' & _ & _ & _ & E & _)%Hlast]. by destruct l as [|? [|? []]]. }
  assert (Hinv : forall f, finishes ((entry ++ [(i', m0)]) ++ [(j, m)]) i f -> i' = i /\
    exists choice choices reason, cck_choices m = choice :: choices /\ ckc_finish_reason choice = Some reason).
  { intros f (l & m1 & j' & m' & choice & choices & reason & E & Hc & Hr)%Hlast.
    rewrite (app_snoc2 l) in E.
    apply app_inj_tail in E as [[_ [= -> _]]%app_inj_tail [= _ <-]]. split; [done|]. by exists choice, choices, reason. }
  rewrite last_snoc, !fmap_app, !reverse_app. simpl.
  destruct (decide (i' = i)) as [->|Hne]; [|intros [f [? _]%Hinv]; done].
  destruct (cck_choices m) as [|choice choices] eqn:Em.
  { intros [f [_ (? & ? & ? & [=] & _)]%Hinv]. }
  destruct (ckc_finish_reason choice) as [reason|] eqn:Er.
  2: { intros [f [_ (? & ? & ? & [= <- _] & Hr)]%Hinv]. congruence. }
  destruct (with_first_choice_Ok (E := OrchError) "chat_completions_detection/streaming.rs:781"
    with_role m choice choices Em) as (f & Hf & _).
  exists f. split; [done|]. exists entry, m0, j, m, choice. rewrite <- app_assoc, Em, Er. by repeat split.
Qed.

(** What is seen of an entry when its last input has been passed on. *)
Lemma read_entry txs stream events rs c i :
  events = chat_events true txs stream -> in_order events -> passed_on events c i ->
  Forall (fun k => passed_on (take k events) c i) (take 1 rs) ->
  let seen := final_entry (take (hd (length events) rs) events) c in
  completions_by_choice (state_of (take (hd (length events) rs) events)) !! c = Some seen /\
  forall E site lo, bt_range (E := E) site lo i seen = bt_range site lo i (final_entry events c).
Proof.
  intros Ev Ho Hp Hk. set (k := hd (length events) rs).
  pose proof (passed_on_hd events rs c i Hp Hk) as Hpk. fold k in Hpk. split.
  - rewrite final_entry_lookup by (by apply in_order_take). apply entry_of_Some. split; [done|].
    intros E. destruct (chat_passed_on true txs stream c i) as (m & ? & ? & ? & Hin & _); [by rewrite <- Ev|].
    specialize (Hin eq_refl). rewrite <- Ev, <- final_entry_inserted in Hin.
    assert (Hf : (i, m) ∈ filter (fun kv : Z * ChatCompletionChunk => kv.1 <= i)
                            (inserted_for c (inserts (take k events)))).
    { rewrite (recorded_up_to events k c i) by done. apply list_elem_of_filter. simpl. split; [lia|done]. }
    unfold final_entry in E. rewrite E in Hf. by apply elem_of_nil in Hf.
  - intros E site lo. by apply bt_range_at.
Qed.

(** The batches that are answerable are answered, whatever comes after them. *)
Lemma process_batches_answered txs stream bs more sent rs :
  let events := chat_events true txs stream in
  StronglySorted Z.lt stream.*1 -> Forall (answerable events) bs -> causal 2 events bs rs ->
  exists answers,
    process_detection_batch_stream events ((Ok <$> bs) ++ more) (io_of sent rs) =
      process_detection_batch_stream events more (io_of (sent ++ mjoin answers) (drop (2 * length bs) rs)) /\
    length answers = length bs /\
    forall n batch l, bs !! n = Some batch -> answers !! n = Some l ->
      chat_answer events (read_at events rs (2 * n + 1)) batch l.
Proof.
  intros events Hs. pose proof (chat_events_in_order true txs stream Hs) as Ho. fold events in Ho.
  revert sent rs. induction bs as [|[[c chunk] ds] bs IH]; intros sent rs Hb Hc.
  { exists []. cbn [length Nat.mul fmap list_fmap app]. by rewrite drop_0, app_nil_r. }
  apply Forall_cons in Hb as [Ha Hb]. destruct Hc as [Hk Hc].
  pose proof Ha as [Hle Hp]. simpl in Hp.
  destruct (chat_batch_response_Ok txs stream c chunk ds Ha) as [r Hr]. fold events in Hr.
  assert (Hk1 : Forall (fun k => passed_on (take k events) c (input_end_index chunk)) (take 1 rs)).
  { destruct rs as [|k rs]; [done|]. simpl in *. rewrite take_0. constructor; [by apply Forall_inv in Hk|done]. }
  assert (Hk2 : Forall (fun k => passed_on (take k events) c (input_end_index chunk)) (take 1 (tl rs))).
  { destruct rs as [|k [|k' rs]]; [done|done|]. simpl in *. rewrite take_0 in *.
    apply Forall_inv_tail in Hk. done. }
  destruct (read_entry txs stream events rs c _ eq_refl Ho Hp Hk1) as [Hl1 Hr1].
  destruct (read_entry txs stream events (tl rs) c _ eq_refl Ho Hp Hk2) as [Hl2 _].
  set (seen1 := final_entry (take (hd (length events) rs) events) c) in *.
  set (seen2 := final_entry (take (hd (length events) (tl rs)) events) c) in *.
  assert (Hresp : chat_batch_response seen1 c chunk ds = Ok r).
  { rewrite <- Hr. unfold chat_batch_response. by rewrite Hr1. }
  pose proof (finish_message_spec seen2 (input_end_index chunk)) as Hfin.
  (* one round of the loop *)
  set (extra := match finish_message seen2 (input_end_index chunk) with
                | Some (Ok f) => [Ok (Some f)] | _ => [] end : list ChatMsg).
  assert (Hround : process_detection_batch_stream events ((Ok <$> (c, chunk, ds) :: bs) ++ more) (io_of sent rs) =
    process_detection_batch_stream events ((Ok <$> bs) ++ more)
      (io_of (sent ++ Ok (Some r) :: extra) (drop 2 rs))).
  { rewrite fmap_cons, <- app_comm_cons. cbn [process_detection_batch_stream].
    unfold output_detection_response, read_state, task_bind, attempt, lift, task_ret.
    rewrite observe_io, Hl1. cbn iota beta. rewrite Hresp, tell_ok_io, observe_io, Hl2.
    assert (E2 : tl (tl rs) = drop 2 rs) by (destruct rs as [|? [|? ?]]; reflexivity).
    rewrite E2. unfold extra. destruct (finish_message seen2 _) as [msg|] eqn:Ef; [|done].
    destruct Hfin as (f & -> & _). rewrite tell_io, <- app_assoc. done. }
  rewrite Hround. destruct (IH (sent ++ Ok (Some r) :: extra) (drop 2 rs) Hb Hc) as (answers & E & Hlen & H2).
  exists ((Ok (Some r) :: extra) :: answers). rewrite E. split; [|split].
  - rewrite <- app_assoc, drop_drop. do 2 f_equal. simpl length. f_equal. lia.
  - simpl. by rewrite Hlen.
  - intros [|n] batch l; simpl.
    + intros [= <-] [= <-]. exists r. split; [done|].
      assert (E1 : take (read_at events rs 1) events = take (hd (length events) (tl rs)) events)
        by (by destruct rs as [|? []]).
      rewrite E1. fold seen2. unfold extra. destruct (finish_message seen2 _) as [msg|].
      * destruct Hfin as (f & -> & Hf). left. by exists f.
      * by right.
    + intros Hn Hl. specialize (H2 n batch l Hn Hl). unfold read_at in H2. rewrite lookup_drop in H2.
      replace (read_at events rs _) with (read_at events rs (2 + (2 * n + 1))) by (f_equal; lia). exact H2.
Qed.

(** *** The handler, step by step *)

(** Both kinds of detectors are supported. *)
Definition chat_validated (ctx : Context) (task : ChatTask) : outcome OrchError () :=
  let dets := ccr_detectors (ccdt_request task) in
  validate_detectors (hash_iter (rd_input dets)) (detectors (ctx_config ctx)) [TextContents] true ≫= fun _ =>
  validate_detectors (hash_iter (rd_output dets)) (detectors (ctx_config ctx)) [TextContents; TextChat] true.

(** ... and the input detectors, if there are any, report nothing. *)
Definition chat_admitted (ctx : Context) (task : ChatTask) : Prop :=
  chat_validated ctx task = Ok () /\
  (if bool_decide (rd_input (ccr_detectors (ccdt_request task)) = ∅) then Ok None
   else chat_stream_input_detection ctx task (rd_input (ccr_detectors (ccdt_request task)))) = Ok None.

Lemma chat_streaming_run ctx (task : ChatTask) sent rs :
  chat_validated ctx task = Ok () ->
  chat_streaming_task ctx task (io_of sent rs) =
  (let request := ccdt_request task in
   let input_dets := rd_input (ccr_detectors request) in
   let output_dets := rd_output (ccr_detectors request) in
   let fail error := tell (Err error) ;! tell (Ok None) in
   do! blocked <- attempt (lift (if bool_decide (input_dets = ∅) then Ok None
                                 else chat_stream_input_detection ctx task input_dets));
   match blocked with
   | inr error => fail error
   | inl (Some chunk) => tell (Ok (Some chunk)) ;! tell (Ok None)
   | inl None =>
       do! client <- lift (openai_client "chat_completions_detection/streaming.rs:117" ctx);
       do! opened <- attempt (lift (chat_completion_stream client (ccdt_headers task) request));
       match opened with
       | inr error => fail error
       | inl stream =>
           (if bool_decide (output_dets = ∅)
            then process_chat_completion_stream false None true stream ;! task_ret ()
            else handle_output_detection ctx task output_dets stream) ;!
           tell (Ok None)
       end
   end) (io_of sent rs).
Proof.
  unfold chat_validated. intros H. unfold chat_streaming_task.
  unfold task_bind at 1, attempt at 1, lift at 1. by rewrite H.
Qed.

(** *** Detection on the whole text *)

(** The text of a choice: what its messages add up to. *)
Definition choice_text (entry : list (Z * ChatCompletionChunk)) : string :=
  concat (omap (fun chunk => choice ← head (cck_choices chunk); delta_content (ckc_delta choice)) entry.*2).

Lemma choice_message_text entry message :
  choice_message entry = Ok message ->
  message_text message = nonempty (Some (choice_text entry)) /\
  has_content message = negb (str_is_empty (choice_text entry)).
Proof.
  unfold choice_message. intros (calls & _ & [= <-])%bind_Ok.
  unfold message_text, has_content, merge_content. simpl. fold (choice_text entry).
  by destruct (choice_text entry).
Qed.

(** The messages of all recorded choices. *)
Definition choice_messages (state : CompletionState ChatCompletionChunk) : outcome OrchError (list (Z * Message)) :=
  collect ((fun '(choice_index, entry) =>
    message ← choice_message entry; Ok (choice_index, message)) <$> hash_iter (completions_by_choice state)).

Lemma choice_messages_keys state choices :
  choice_messages state = Ok choices -> choices.*1 = (hash_iter (completions_by_choice state)).*1.
Proof.
  unfold choice_messages. intros Hch%collect_Ok. revert choices Hch.
  induction (hash_iter _) as [|[i entry] l IH]; intros [|ch choices] H; try done.
  injection H as H1 H2. apply bind_Ok in H1 as (m & _ & [= <-]). rewrite !fmap_cons. f_equal. by apply IH.
Qed.

Lemma choice_messages_elem {RL : RuntimeLaws RT} state choices :
  choice_messages state = Ok choices -> forall i message, (i, message) ∈ choices <->
    exists entry, completions_by_choice state !! i = Some entry /\ choice_message entry = Ok message.
Proof.
  unfold choice_messages. intros Hch%collect_Ok i message. split.
  - intros Hin. assert (Hok : Ok (i, message) ∈ Ok (E := OrchError) <$> choices).
    { apply list_elem_of_fmap. by exists (i, message). }
    rewrite <- Hch in Hok. apply list_elem_of_fmap in Hok as ([i' entry] & E & Hin').
    symmetry in E. apply bind_Ok in E as (m & Hm & [= -> ->]). apply elem_of_hash_iter in Hin'. by exists entry.
  - intros (entry & Hi%elem_of_hash_iter & Hm).
    assert (Hok : Ok (i, message) ∈ Ok (E := OrchError) <$> choices).
    { rewrite <- Hch. apply list_elem_of_fmap. exists (i, entry). split; [by rewrite Hm|done]. }
    by apply list_elem_of_fmap in Hok as (? & [= <-] & ?).
Qed.

(** The choices that get a warning are those whose text is empty, each once. *)
Lemma no_content_choices {RL : RuntimeLaws RT} state choices :
  choice_messages state = Ok choices ->
  let empty := filter (fun choice : Z * Message => has_content choice.2 = false) choices in
  NoDup empty.*1 /\ forall i, i ∈ empty.*1 <->
    exists entry, completions_by_choice state !! i = Some entry /\ choice_text entry = "".
Proof.
  intros H empty. pose proof (choice_messages_elem _ _ H) as Hel. pose proof (choice_messages_keys _ _ H) as Hkeys.
  split.
  { eapply sublist_NoDup; [|apply fmap_sublist, sublist_filter].
    rewrite Hkeys, (hash_iter_perm (completions_by_choice state)). apply NoDup_fst_map_to_list. }
  intros i. rewrite list_elem_of_fmap. split.
  - intros ([i' message] & -> & [Hn Hin]%list_elem_of_filter). apply Hel in Hin as (entry & Hi & Hm).
    exists entry. split; [done|]. destruct (choice_message_text _ _ Hm) as [_ Hcon].
    simpl in Hn. rewrite Hn in Hcon. by destruct (choice_text entry).
  - intros (entry & Hi & Ht).
    assert (Hin : i ∈ choices.*1).
    { rewrite Hkeys. apply list_elem_of_fmap. exists (i, entry). by rewrite elem_of_hash_iter. }
    apply list_elem_of_fmap in Hin as ([i' message] & -> & Hin). exists (i', message). split; [done|].
    apply list_elem_of_filter. split; [|done]. apply Hel in Hin as (entry' & Hi' & Hm).
    simpl in Hi. rewrite Hi in Hi'. injection Hi' as <-. destruct (choice_message_text _ _ Hm) as [_ Hcon].
    simpl. by rewrite Hcon, Ht.
Qed.

(** The task of a choice's message and a type of detectors. *)
Definition chat_stream_text_task (ctx : Context) (task : ChatTask) (choice : Z * Message)
    (ty : DetectorType) (dets : gmap string DetectorParams)
    : option (outcome OrchError (list Detection)) :=
  match ty with
  | TextContents =>
      (fun text => text_contents_detections ctx (ccdt_headers task) dets [(0, text)])
        <$> message_text choice.2
  | TextChat =>
      Some (text_chat_detections ctx (ccdt_headers task) dets
              (ccr_messages (ccdt_request task) ++ [choice.2])
              (default [] (ccr_tools (ccdt_request task))))
  | _ => None
  end.

Lemma chat_stream_spawn_shape ctx task choice ty g :
  match chat_stream_text_task ctx task choice ty g with
  | Some t => chat_stream_spawn ctx task choice ty g = Ok [(choice.1, ty, t)]
  | None => forall l, chat_stream_spawn ctx task choice ty g = Ok l -> l = []
  end.
Proof.
  unfold chat_stream_text_task, chat_stream_spawn. destruct ty; try (by intros l [=]); [|done].
  destruct (message_text choice.2); simpl; [done|]. by intros l [= <-].
Qed.

Lemma chat_stream_text_task_empty {RL : RuntimeLaws RT} ctx task choice ty ds :
  concurrency_positive ctx -> chat_stream_text_task ctx task choice ty ∅ = Some (Ok ds) -> ds = [].
Proof.
  intros Hc. unfold chat_stream_text_task. destruct ty; try done.
  - destruct (message_text choice.2); simpl; [|done]. intros [= H].
    by eapply text_contents_detections_empty.
  - intros [= H]. by eapply detection_tasks_empty.
Qed.

(** *** What a client of a screened stream receives *)

(** The message that answers a batch: the text of its chunk under its choice,
    with its detections, and a warning if there are any. *)
Definition batch_message (batch : Batch) (r : ChatCompletionChunk) : Prop :=
  let '(c, chunk, ds) := batch in
  exists choice, cck_choices r = [choice] /\ ckc_index choice = c /\
    delta_role (ckc_delta choice) = Some Assistant /\
    delta_content (ckc_delta choice) = Some (chunk_text chunk) /\
    cck_detections r = Some (batch_detections c ds) /\
    (ds <> [] -> cck_warnings r = [unsuitable_output_warning]).

(** A message of the model with a finish reason, its role set. *)
Definition finish_of stream (r : ChatCompletionChunk) : Prop :=
  exists i m choice, (i, Ok (Some m)) ∈ stream /\ head (cck_choices m) = Some choice /\
    is_Some (ckc_finish_reason choice) /\
    with_first_choice (E := OrchError) "chat_completions_detection/streaming.rs:781" with_role m = Ok r.

Definition screened_message (vouched : Batch -> Prop) stream (r : ChatCompletionChunk) : Prop :=
  cck_choices r = [] \/ (exists batch, vouched batch /\ batch_message batch r) \/ finish_of stream r.
Definition screened (vouched : Batch -> Prop) stream (msg : ChatMsg) : Prop :=
  match msg with Ok (Some r) => screened_message vouched stream r | _ => True end.

Definition single_choice stream : Prop :=
  forall i m, (i, Ok (Some m)) ∈ stream -> (length (cck_choices m) <= 1)%nat.

(** What is observed of a choice has been recorded. *)
Lemma observed_entry txs stream k c entry :
  StronglySorted Z.lt stream.*1 ->
  completions_by_choice (state_of (take k (chat_events true txs stream))) !! c = Some entry ->
  forall i m, (i, m) ∈ entry -> InsertCompletion c i m ∈ chat_events true txs stream.
Proof.
  intros Hs H i m Hin. rewrite final_entry_lookup in H by (by apply in_order_take, chat_events_in_order).
  apply entry_of_Some in H as [<- _]. apply final_entry_inserted in Hin.
  rewrite <- (take_drop k (chat_events true txs stream)). apply elem_of_app. by left.
Qed.

Lemma chat_batch_response_message stream c chunk ds entry r :
  single_choice stream ->
  (forall i m, (i, m) ∈ entry -> (i, Ok (Some m)) ∈ stream /\
     exists choice choices, cck_choices m = choice :: choices /\ ckc_index choice = c) ->
  chat_batch_response entry c chunk ds = Ok r -> batch_message (c, chunk, ds) r.
Proof.
  intros Hone He. unfold chat_batch_response. intros (range & Hr & H)%bind_Ok.
  apply bt_range_Z in Hr as [_ ->]. destruct (last _) as [m|] eqn:El; [|done].
  apply last_Some_elem_of, list_elem_of_fmap in El as ([i m'] & -> & Hm).
  apply list_elem_of_filter in Hm as [_ Hm]. destruct (He _ _ Hm) as (Hin & choice & choices & Hc & Hi).
  specialize (Hone _ _ Hin). cbn [snd] in H. rewrite Hc in Hone.
  destruct choices; [|simpl in Hone; lia]. unfold with_first_choice in H. rewrite Hc in H.
  cbn in H. injection H as <-. eexists. cbn. split; [reflexivity|]. cbn.
  repeat (split; [done|]). by destruct ds.
Qed.

Lemma process_batches_screened vouched txs stream out :
  StronglySorted Z.lt stream.*1 -> single_choice stream ->
  (forall b, Ok b ∈ out -> vouched b) ->
  sends (screened vouched stream)
    (process_detection_batch_stream (chat_events true txs stream) out) (fun _ => True).
Proof.
  intros Hs Hone. set (events := chat_events true txs stream).
  induction out as [|[[[c chunk] ds]|e|site] out IH]; intros Hv; simpl.
  1, 4: by apply sends_ret.
  2: { eapply sends_bind; [by apply sends_tell|]. intros _ _. by apply sends_tell. }
  assert (He : forall k entry i m, completions_by_choice (state_of (take k events)) !! c = Some entry ->
    (i, m) ∈ entry -> (i, Ok (Some m)) ∈ stream /\
    exists choice choices, cck_choices m = choice :: choices /\ ckc_index choice = c).
  { intros k entry i m Hl Hin. eapply chat_inserted. by eapply observed_entry. }
  eapply sends_bind.
  { eapply sends_attempt. unfold output_detection_response.
    eapply sends_bind; [apply sends_read_state|]. intros s [k ->].
    apply (sends_consequence (screened vouched stream) _ _ (batch_message (c, chunk, ds)) _);
      [|done|intros r Hr; exact Hr].
    destruct (completions_by_choice _ !! c) as [entry|] eqn:El; apply sends_lift; [|done].
    intros r Hr. eapply (chat_batch_response_message stream); [done| |exact Hr]. intros i m. by apply (He k). }
  intros [r|e] Hr; [|eapply sends_bind; [by apply sends_tell|]; intros _ _; by apply sends_tell].
  eapply sends_bind.
  { apply sends_tell_ok. right. left. exists (c, chunk, ds). split; [apply Hv; left|done]. }
  intros [] _; [|by apply sends_ret]. eapply sends_bind; [apply sends_read_state|]. intros s [k ->].
  destruct (completions_by_choice _ !! c) as [entry|] eqn:El; [|by apply sends_ret].
  apply sends_bind with (R := fun _ => True); [|intros _ _; apply IH; intros b Hb; apply Hv; by right].
  pose proof (finish_message_spec entry (input_end_index chunk)) as Hfin.
  destruct (finish_message entry _) as [message|]; [|by apply sends_ret].
  destruct Hfin as (f & -> & l & m0 & j & m & choice & -> & Hch & Hfr & Hf).
  eapply sends_bind; [apply (sends_lift _ _ (eq f)); by intros ? [= ->]|]. intros ? <-.
  apply sends_tell. right. right. destruct (He k _ j m El) as [Hin _].
  { apply elem_of_app. right. right. left. }
  by exists j, m, choice.
Qed.

(** The final message has no choices. *)
Lemma chat_final_message_screened vouched ctx task whole_doc stream events :
  sends (screened vouched stream) (chat_final_message ctx task whole_doc events) (fun _ => True).
Proof.
  unfold chat_final_message. walk_sends; by left.
Qed.

(** *** A task that does not panic runs to its end *)
Notation any := (fun _ : ChatMsg => True).

Lemma process_chat_any b txs forward stream :
  sends any (process_chat_completion_stream b txs forward stream) (fun _ => True).
Proof.
  induction stream as [|[i r] stream IH]; simpl; [by apply sends_ret|].
  apply sends_bind_any; [destruct r as [[m|]|e|]; walk_sends|intros []; walk_sends; exact IH].
Qed.

Lemma process_batches_any events out :
  sends any (process_detection_batch_stream events out) (fun _ => True).
Proof.
  induction out as [|[[[c chunk] ds]|e|site] out IH]; simpl; try (by walk_sends).
  unfold output_detection_response. walk_sends; try exact IH.
  apply sends_attempt_any. walk_sends.
Qed.

Lemma detection_streams_of_any ctx headers dets inputs choices :
  sends any (detection_streams_of ctx headers dets inputs choices) (fun _ => True).
Proof.
  induction choices as [|c choices IH]; simpl; [by apply sends_ret|]. walk_sends; try exact IH.
Qed.

Lemma handle_output_detection_any ctx task dets stream :
  sends any (handle_output_detection ctx task dets stream) (fun _ => True).
Proof.
  unfold handle_output_detection, chat_final_message.
  walk_sends; first [apply process_chat_any | apply process_batches_any
                    | apply detection_streams_of_any | apply sends_attempt_any; walk_sends].
Qed.
End chat_streaming_lemmas.

(** ** Properties *)
Section chat_streaming_properties.
Context {SJ : SerdeJson} {RT : Runtime} {CN : Connector} {SV : Services} {ST : Stamp} {SC : Schedule}.
Notation ChatMsg := (outcome OrchError (option ChatCompletionChunk)).
Notation ChatTask := (ChatCompletionsDetectionTask (H := Headers)).

(** C7. The responses to the batches do not depend on how the task that answers
    them interleaves with the one that consumes the model's stream: as long as
    a batch arrives after its input was passed on, every batch is answered, in
    order, with the response computed from what will have been recorded in the
    end.  One thing does depend on it: right after the response the message that
    finishes the choice is sent, exactly when it is what follows the batch's
    input at the second time the task looks (for the [n]-th batch, the read
    [2 * n + 1]).  Nothing else is sent. *)
Theorem chat_batches_answered txs stream bs sent rs :
  let events := chat_events true txs stream in
  StronglySorted Z.lt stream.*1 ->
  Forall (answerable events) bs -> causal 2 events bs rs ->
  exists answers,
    process_detection_batch_stream events (Ok <$> bs) (io_of sent rs) =
      (Ok (), io_of (sent ++ mjoin answers) (drop (2 * length bs) rs)) /\
    length answers = length bs /\
    forall n batch l, bs !! n = Some batch -> answers !! n = Some l ->
      chat_answer events (read_at events rs (2 * n + 1)) batch l.
Proof.
  intros events Hs Hb Hc. destruct (process_batches_answered txs stream bs [] sent rs Hs Hb Hc) as (answers & E & H).
  rewrite app_nil_r in E. exists answers. by split.
Qed.

(** C9. The message with the finish reason gets ahead of its own screening: when
    it is what follows a batch at the second time the batch's task looks, it is
    sent to the client right after the response to that batch, with its own text
    and without detections and warnings of ours - although the batch ends before
    it, and no matter which batches come later ([more]), among them the one that
    screens its text. *)
Theorem finish_message_unscreened txs stream bs c chunk ds more sent rs l m0 j m choice text :
  let events := chat_events true txs stream in
  StronglySorted Z.lt stream.*1 ->
  Forall (answerable events) (bs ++ [(c, chunk, ds)]) -> causal 2 events (bs ++ [(c, chunk, ds)]) rs ->
  final_entry (take (read_at events rs (2 * length bs + 1)) events) c = l ++ [(input_end_index chunk, m0); (j, m)] ->
  head (cck_choices m) = Some choice -> is_Some (ckc_finish_reason choice) ->
  delta_content (ckc_delta choice) = Some text ->
  exists answers r f,
    process_detection_batch_stream events ((Ok <$> bs ++ [(c, chunk, ds)]) ++ more) (io_of sent rs) =
      process_detection_batch_stream events more
        (io_of (sent ++ mjoin answers ++ [Ok (Some r); Ok (Some f)]) (drop (2 * length bs + 2) rs)) /\
    length answers = length bs /\
    chat_batch_response (final_entry events c) c chunk ds = Ok r /\
    input_end_index chunk < j /\ (j, Ok (Some m)) ∈ stream /\
    with_first_choice (E := OrchError) "chat_completions_detection/streaming.rs:781" with_role m = Ok f /\
    (choice' ← head (cck_choices f); delta_content (ckc_delta choice')) = Some text /\
    cck_detections f = cck_detections m /\ cck_warnings f = cck_warnings m.
Proof.
  intros events Hs Hb Hc Hseen Hch Hfr Htext.
  destruct (process_batches_answered txs stream (bs ++ [(c, chunk, ds)]) more sent rs Hs Hb Hc)
    as (answers & E & Hlen & Ha). fold events in E, Ha.
  rewrite length_app in Hlen, E. simpl in Hlen.
  destruct answers as [|answer answers _] using rev_ind; [simpl in Hlen; lia|].
  rewrite length_app in Hlen. simpl in Hlen. assert (Hl : length answers = length bs) by lia.
  destruct (Ha (length bs) (c, chunk, ds) answer) as (r & Hr & Hfin).
  { by rewrite lookup_app_r, Nat.sub_diag. }
  { by rewrite <- Hl, lookup_app_r, Nat.sub_diag. }
  rewrite Hseen in Hfin. destruct (cck_choices m) as [|choice' choices] eqn:Em; [done|]. injection Hch as ->.
  destruct (with_first_choice_Ok (E := OrchError) "chat_completions_detection/streaming.rs:781"
    with_role m choice choices Em) as (f & Hf & Hfc).
  assert (Hdue : finishes (l ++ [(input_end_index chunk, m0); (j, m)]) (input_end_index chunk) f).
  { exists l, m0, j, m, choice. by rewrite Em. }
  assert (Hans : answer = [Ok (Some r); Ok (Some f)]).
  { destruct Hfin as [(f' & Hdue' & ->)|[Hno _]]; [|by destruct Hno; exists f].
    by rewrite (finishes_functional _ _ _ _ Hdue' Hdue). }
  subst answer. exists answers, r, f. split; [|split; [done|split; [done|]]].
  { rewrite E, join_app. cbn [mjoin list_join app length].
    replace (2 * (length bs + 1))%nat with (2 * length bs + 2)%nat by lia. done. }
  assert (Hin : forall i m', (i, m') ∈ [(input_end_index chunk, m0); (j, m)] ->
    (i, m') ∈ final_entry (take (read_at events rs (2 * length bs + 1)) events) c).
  { intros i m' Hi. rewrite Hseen. apply elem_of_app. by right. }
  pose proof (final_entry_sorted _ c (in_order_take (read_at events rs (2 * length bs + 1)) _
    (chat_events_in_order true txs stream Hs))) as Hsort. fold events in Hsort. rewrite Hseen in Hsort.
  rewrite fmap_app in Hsort. apply StronglySorted_app_1_r in Hsort.
  apply StronglySorted_inv in Hsort as [_ Hlt%Forall_inv].
  split; [exact Hlt|]. split.
  { apply (chat_inserted true txs stream c), final_entry_inserted. fold events. destruct (final_entry_prefix events
      (read_at events rs (2 * length bs + 1)) c) as [rest ->]. apply elem_of_app. left. apply Hin. right. left. }
  split; [done|]. rewrite Hfc. simpl. split; [done|].
  unfold with_first_choice in Hf. rewrite Em in Hf. by injection Hf as <-.
Qed.

(** C2. With output detectors that run on chunks, nothing the model says
    reaches the client as it is: whatever the schedule, the failures and the
    client, every message sent has no choices (the final message), or answers a
    batch that the batch stream of the request has yielded - with the text of a
    chunk that the chunker of a requested detector made of what was passed on
    for that choice, under the choice's index, with exactly the detections of
    the batch, and with a warning if there are any - or is a message of the
    model with a finish reason.  The detections of a batch are all by requested
    detectors and reach their thresholds, and none is left out: they are those
    of as many reports on the chunk as there are detectors, and all that every
    detector finds on the chunk when the detectors use one working chunker. *)
Theorem chat_stream_screened {RL : RuntimeLaws RT} {SL : ScheduleLaws SC} reader ctx (task : ChatTask)
    dets chunk_dets whole_doc stream n txs msg :
  StronglySorted Z.lt stream.*1 -> single_choice stream ->
  partition_detectors "chat_completions_detection/streaming.rs:257" ctx dets = Ok (chunk_dets, whole_doc) ->
  chunk_dets <> ∅ -> n = choice_count (ccr_extra (ccdt_request task)) ->
  input_channels (E := OrchError) "chat_completions_detection/streaming.rs:270" n = Ok txs ->
  msg ∈ spawn reader (handle_output_detection ctx task dets stream) ->
  let inputs c := inputs_for c (chat_events true (Some txs) stream) in
  screened (vouched ctx (ccdt_headers task) chunk_dets inputs (hash_keys txs)) stream msg.
Proof.
  intros Hs Hone Hp Hne -> Htx Hin inputs. set (vouched := vouched _ _ _ _ _).
  assert (H : sends (screened vouched stream) (handle_output_detection ctx task dets stream) (fun _ => True)).
  2: { pose proof (sends_spawn _ _ reader _ H) as HF. rewrite Forall_forall in HF. by apply HF. }
  unfold handle_output_detection. rewrite Hp, Htx.
  eapply sends_bind; [apply (sends_lift _ _ (eq (chunk_dets, whole_doc))); by intros ? [= ->]|].
  intros ? <-. rewrite bool_decide_eq_false_2 by done.
  eapply sends_bind; [apply (sends_lift _ _ (eq txs)); by intros ? [= ->]|]. intros ? <-.
  eapply (sends_bind _ _ _ (eq (chat_events true (Some txs) stream))).
  { intros io. rewrite process_chat_quiet. exists []. split; [by apply sent_nothing|]. by intros ? [= <-]. }
  intros events <-.
  eapply sends_bind; [by apply detection_streams_of_opened|]. intros streams Hst.
  eapply sends_bind; [apply sends_spawned|]. intros _ _.
  eapply sends_bind; [|intros _ _; apply chat_final_message_screened].
  apply process_batches_screened; [done|done|]. intros b Hb.
  split; [by exists streams|]. eapply batches_screen; [|exact Hst|exact Hb]. unfold hash_keys. rewrite (hash_iter_perm txs). apply NoDup_fst_map_to_list.
Qed.

(** A streamed request whose input detectors report something on its last
    message is answered without the model: the client receives exactly one
    message - no choices, these detections under that message's index, a
    warning of unsuitable input and the prompt's token count - and the end of
    the stream. *)
Theorem chat_stream_blocked ctx (task : ChatTask) m d ds client count :
  let request := ccdt_request task in
  let input := rd_input (ccr_detectors request) in
  chat_validated ctx task = Ok () -> input <> ∅ -> last_chat_message request = Ok m ->
  text_contents_detections ctx (ccdt_headers task) input [(0, default "" (cm_text m))] = Ok (d :: ds) ->
  openai_client "chat_completions_detection/streaming.rs:198" ctx = Ok client ->
  tokenize_openai client (ccdt_headers task)
    (input_tokenize_request (ccr_model request) (default "" (cm_text m))) = Ok count ->
  handle_chat_streaming None ctx task = Ok (ChatStreaming
    [Ok (Some {| cck_id := new_v4_simple; cck_object := "chat.completion.chunk";
                 cck_created := as_i64 timestamp_secs; cck_model := ccr_model request;
                 cck_system_fingerprint := None; cck_choices := []; cck_service_tier := None;
                 cck_usage := Some {| prompt_tokens := tks_count count; total_tokens := 0;
                                      completion_tokens := 0; prompt_token_details := None;
                                      completion_token_details := None |};
                 cck_detections := Some {| cds_input := [{| cid_message_index := cm_index m;
                                                            cid_results := d :: ds |}];
                                           cds_output := [] |};
                 cck_warnings := [unsuitable_input_warning] |});
     Ok None]).
Proof.
  intros request input Hv Hne Hm Hds Hcl Htk. unfold handle_chat_streaming.
  do 2 f_equal. eapply (spawn_io _ (Ok ()) _ []). rewrite (chat_streaming_run _ _ _ _ Hv).
  cbv zeta. fold request input. rewrite bool_decide_eq_false_2 by done.
  unfold chat_stream_input_detection. fold request. rewrite Hm. cbn [mbind outcome_bind].
  fold input. rewrite Hds. cbn [mbind outcome_bind]. rewrite Hcl. cbn [mbind outcome_bind].
  rewrite Htk. reflexivity.
Qed.

(** Without detectors that run on chunks the client receives the model's
    stream as it is, every message and error in order, and then the end of the
    stream; with detectors on the whole text, one message is added before the
    end, with the metadata and usage of the stream and what these detectors
    report, or the error they fail with (after which the end is signalled
    twice).  When the stream recorded no metadata - it was empty, or failed at
    once - that message makes the task panic: the client's stream just stops. *)
Theorem chat_stream_unchunked {RL : RuntimeLaws RT} ctx (task : ChatTask) client stream :
  let dets := rd_output (ccr_detectors (ccdt_request task)) in
  let state := state_of (chat_events true None stream) in
  chat_admitted ctx task ->
  openai_client "chat_completions_detection/streaming.rs:117" ctx = Ok client ->
  chat_completion_stream client (ccdt_headers task) (ccdt_request task) = Ok stream ->
  (dets = ∅ ->
   handle_chat_streaming None ctx task = Ok (ChatStreaming (forwarded stream ++ [Ok None]))) /\
  (forall whole, dets <> ∅ ->
   partition_detectors "chat_completions_detection/streaming.rs:257" ctx dets = Ok (∅, whole) ->
   handle_chat_streaming None ctx task = Ok (ChatStreaming (forwarded stream ++
     match metadata state with
     | Some m =>
         match handle_whole_doc_detection ctx task whole state with
         | Ok (ds, warnings) =>
             [Ok (Some (chunk_with (final_chunk m (state_usage state)) (state_usage state)
                          (Some ds) warnings)); Ok None]
         | Err e => [Err e; Ok None; Ok None]
         | Panic _ => []
         end
     | None => []
     end))).
Proof.
  intros dets state [Hv Hin] Hcl Hst. unfold handle_chat_streaming. split.
  - intros He. do 2 f_equal. eapply (spawn_io _ (Ok ()) _ []).
    rewrite (chat_streaming_run _ _ _ _ Hv). cbv zeta. rewrite Hin. unfold task_bind, attempt, lift.
    rewrite Hcl, Hst. fold dets. rewrite bool_decide_eq_true_2 by done.
    rewrite process_chat_forward. cbn [task_ret]. unfold task_ret. by rewrite tell_io.
  - intros whole Hne Hp.
    assert (Hw : whole <> ∅).
    { intros ->. apply Hne, map_eq. intros id. rewrite lookup_empty. apply eq_None_not_Some. intros [p Hid].
      destruct (partition_detectors_lookup _ _ _ _ _ Hp id p) as [H1 H2].
      rewrite lookup_empty in H1, H2.
      destruct (partition_detectors_total _ _ _ _ Hp id (ex_intro _ _ Hid)) as [[] Hb]; naive_solver. }
    do 2 f_equal.
    assert (Hrun : chat_streaming_task ctx task (io_of [] []) =
      task_bind (chat_final_message ctx task whole (chat_events true None stream))
        (fun _ => tell (Ok None)) (io_of (forwarded stream) [])).
    { rewrite (chat_streaming_run _ _ _ _ Hv). cbv zeta. rewrite Hin. unfold task_bind, attempt, lift.
      rewrite Hcl, Hst. fold dets. rewrite bool_decide_eq_false_2 by done.
      unfold handle_output_detection, task_bind, lift.
      rewrite Hp, bool_decide_eq_true_2 by done. by rewrite process_chat_forward. }
    unfold spawn. change (Build_Io (Build_Sender [] None) []) with (io_of ([] : list ChatMsg) []).
    rewrite Hrun. unfold chat_final_message. rewrite bool_decide_eq_false_2 by done.
    unfold task_bind, task_ret, lift, read_state, attempt, observe, task_bind. cbn [io_reads io_of].
    unfold task_ret. fold state. destruct (metadata state) as [m|]; cbn; [|by rewrite app_nil_r].
    destruct (handle_whole_doc_detection _ _ _ _) as [[ds ws]|e|site]; cbn;
      rewrite <- ?app_assoc, ?app_nil_r; done.
Qed.

(** C33. Detection on the whole text of a stream reports, for every choice that
    was recorded, exactly what the contents detectors find in the
    concatenation of the choice's deltas - if it is not empty - and the chat
    detectors in the conversation with that text as the last message; it warns
    once for each choice without content, and once more when a contents
    detector found something. *)
Theorem chat_whole_doc_spec {RL : RuntimeLaws RT} ctx (task : ChatTask) dets state out warnings :
  concurrency_positive ctx ->
  handle_whole_doc_detection ctx task dets state = Ok (out, warnings) ->
  let finds i ty d := exists entry message ds,
    completions_by_choice state !! i = Some entry /\ choice_message entry = Ok message /\
    message_text message = nonempty (Some (choice_text entry)) /\
    chat_stream_text_task ctx task (i, message) ty (of_type ctx dets ty) = Some (Ok ds) /\ d ∈ ds in
  cds_input out = [] /\
  (forall i d, (exists o, o ∈ cds_output out /\ cod_choice_index o = i /\ d ∈ cod_results o) <->
               exists ty, finds i ty d) /\
  exists empty rest, warnings = (no_content_warning <$> empty) ++ rest /\
    (forall i, i ∈ empty.*1 <->
       exists entry, completions_by_choice state !! i = Some entry /\ choice_text entry = "") /\
    NoDup empty.*1 /\
    (rest = [unsuitable_output_warning] /\ (exists i d, finds i TextContents d) \/
     rest = [] /\ ~ exists i d, finds i TextContents d).
Proof.
  intros Hc H finds. unfold handle_whole_doc_detection in H. fold (choice_messages state) in H.
  apply bind_Ok in H as (groups & Hg & H). apply bind_Ok in H as (choices & Hch & H).
  apply bind_Ok in H as (tasks & Hs & H). apply bind_Ok in H as (results & Hj & [= <- <-]).
  pose proof (results_found ctx dets choices groups (chat_stream_spawn ctx task) tasks results fst
    (chat_stream_text_task ctx task) (chat_stream_spawn_shape ctx task)
    (fun choice ty ds => chat_stream_text_task_empty ctx task choice ty ds Hc) Hg Hs Hj) as Hf.
  assert (Hfinds : forall i ty d, found results i ty d <-> finds i ty d).
  { intros i ty d. rewrite Hf. split.
    - intros ([i' message] & ds & Hin & <- & Ht & Hd).
      apply (choice_messages_elem _ _ Hch) in Hin as (entry & Hi & Hm).
      exists entry, message, ds. simpl. destruct (choice_message_text _ _ Hm). done.
    - intros (entry & message & ds & Hi & Hm & _ & Ht & Hd). exists (i, message), ds.
      split; [|done]. apply (choice_messages_elem _ _ Hch). by exists entry. }
  split; [done|]. split.
  - intros i d. setoid_rewrite <- Hfinds. unfold found, whole_doc_output. simpl. split.
    + intros (o & ([[j ty] ds] & -> & Hin)%list_elem_of_fmap & <- & Hd). by exists ty, ds.
    + intros (ty & ds & Hin & Hd). exists {| cod_choice_index := i; cod_results := ds |}.
      split; [|done]. apply list_elem_of_fmap. by exists (i, ty, ds).
  - destruct (no_content_choices _ _ Hch) as [Hnd Hempty].
    eexists _, _. split; [reflexivity|]. split; [exact Hempty|]. split; [exact Hnd|].
    unfold whole_doc_warnings. destruct (has_contents_detections results) eqn:E.
    + left. split; [done|]. apply has_contents_detections_spec in E as (i & d & H%Hfinds). by exists i, d.
    + right. split; [done|]. intros (i & d & H%Hfinds).
      assert (Ht : has_contents_detections results = true); [|congruence].
      apply has_contents_detections_spec. by exists i, d.
Qed.

Lemma chat_stream_end ctx (task : ChatTask) :
  (chat_streaming_task ctx task (io_of [] [])).1 = Ok () ->
  exists l, spawn None (chat_streaming_task ctx task) = l ++ [Ok None].
Proof.
  intros H. apply (spawn_ends_with (Ok None) (chat_streaming_task ctx task)); [|done].
  unfold chat_streaming_task.
  repeat match goal with
  | |- ends_with _ (tell _) => apply ends_with_tell
  | |- ends_with _ (task_bind _ _) => apply ends_with_bind; [|intros ?]
  | |- ends_with _ (match ?x with _ => _ end) => destruct x
  end; walk_sends; first [apply process_chat_any | apply handle_output_detection_any].
Qed.

(** A streaming task that does not panic signals the end to a client that
    stays connected: whatever happened before, the last message of the stream
    is the one without content. *)
Theorem chat_stream_ends ctx (task : ChatTask) :
  (chat_streaming_task ctx task (io_of [] [])).1 = Ok () ->
  exists l, handle_chat_streaming None ctx task = Ok (ChatStreaming (l ++ [Ok None])).
Proof.
  intros [l E]%chat_stream_end. exists l. unfold handle_chat_streaming. by rewrite E.
Qed.
End chat_streaming_properties.

(** ** Witnesses *)
Section witnesses.
#[local] Existing Instance fifo_runtime.
#[local] Existing Instance fifo_runtime_laws.
#[local] Existing Instance simple_json.
#[local] Existing Instance settings_connector.
#[local] Existing Instance ex_stamp.

(** A model that says "Hello. " and, in the message that also finishes,
    "Bye."; the last message has the usage. *)
Definition ex_delta_choice (text : string) (finish : option string) : ChatCompletionChunkChoice :=
  {| ckc_index := 0;
     ckc_delta := {| delta_role := None; delta_content := Some text; delta_refusal := None;
                     delta_tool_calls := [] |};
     ckc_logprobs := None; ckc_finish_reason := finish; ckc_stop_reason := None |}.
Definition ex_delta_chunk (text : string) (finish : option string) : ChatCompletionChunk :=
  {| cck_id := "id"; cck_object := "chat.completion.chunk"; cck_created := 7; cck_model := "model";
     cck_system_fingerprint := None;
     cck_choices := [ex_delta_choice text finish];
     cck_service_tier := None; cck_usage := None; cck_detections := None; cck_warnings := [] |}.
Definition ex_usage_chunk : ChatCompletionChunk :=
  {| cck_id := "id"; cck_object := "chat.completion.chunk"; cck_created := 7; cck_model := "model";
     cck_system_fingerprint := None; cck_choices := []; cck_service_tier := None;
     cck_usage := Some usage_default; cck_detections := None; cck_warnings := [] |}.
Definition ex_chat_messages : list (outcome OrchError (option ChatCompletionChunk)) :=
  [Ok (Some (ex_delta_chunk "Hello. " None)); Ok (Some (ex_delta_chunk "Bye." (Some "stop")));
   Ok (Some ex_usage_chunk); Ok None].
Definition ex_stream_services : Services :=
  with_openai ex_services (fun _ _ _ => Ok (ChatStreaming ex_chat_messages)) (fun _ _ _ => Err ex_unavailable).
#[local] Existing Instance ex_stream_services.

Definition ex_enumerated : list (Z * outcome OrchError (option ChatCompletionChunk)) :=
  imap (fun i m => (Z.of_nat i, m)) ex_chat_messages.

(** What the client makes of a message: its text, how many detections it
    brings, and its warnings. *)
Definition received_text (msg : outcome OrchError (option ChatCompletionChunk))
    : option (option string * nat * list DetectionWarningReason) :=
  match msg with
  | Ok (Some r) =>
      Some (choice ← head (cck_choices r); delta_content (ckc_delta choice),
            length (mjoin (cod_results <$> default [] (cds_output <$> cck_detections r))),
            cdw_type <$> cck_warnings r)
  | _ => None
  end.
Definition received_texts (r : outcome OrchError ChatCompletionsResponse) :=
  match r with Ok (ChatStreaming rx) => received_text <$> rx | _ => [] end.

(** At the client of the handler: the model's last text comes with the finish
    reason and is received without detections, and then again with them. *)
Example ex_finish_message_unscreened :
  received_texts (@handle_chat_streaming _ _ _ ex_stream_services _ (ex_schedule []) None ex_ctx (ex_chat_task ∅ ex_dets)) =
  [ Some (Some "Hello. ", 1%nat, [UnsuitableOutput]);
    Some (Some "Bye.", 0%nat, []);
    Some (Some "Bye.", 1%nat, [UnsuitableOutput]);
    Some (None, 0%nat, []);
    None ].
Proof. vm_compute. reflexivity. Qed.

(** Tool call chunks add up. *)
Example ex_merge_tool_calls :
  let call id name arguments := {| tool_call_index := Some 0; tool_call_id := id; tool_call_type := "";
    tool_call_function := Some {| function_name := name; function_arguments := arguments |};
    tool_call_custom := None |} in
  add_tool_calls (E := OrchError) [call "tool-17" "get_current_weather" ""; call "" "" "{location: ";
                                  call "" "" "Boston}"] ∅ =
  Ok {[ 0 := {| tool_call_index := Some 0; tool_call_id := "tool-17"; tool_call_type := "function";
                tool_call_function := Some {| function_name := "get_current_weather";
                                              function_arguments := "{location: Boston}" |};
                tool_call_custom := None |} ]}.
Proof. vm_compute. reflexivity. Qed.

Definition ex_txs : InputTxs := {[ 0 := () ]}.
Definition ex_chat_events : list (consumer_event ChatCompletionChunk) :=
  chat_events true (Some ex_txs) ex_enumerated.

(** A batch on each of the two messages. *)
Definition ex_batch (i : Z) (text : string) : Batch :=
  (0, {| input_start_index := i; input_end_index := i; chunk_start := 0; chunk_end := 0;
         chunk_text := text |}, []).
Definition ex_batches : list Batch := [ex_batch 0 "Hello. "; ex_batch 1 "Bye."].

Lemma ex_enumerated_sorted : StronglySorted Z.lt ex_enumerated.*1.
Proof. apply enumerate_sorted. Qed.

Lemma ex_passed_on k i : (3 <= k)%nat /\ i = 0 \/ (5 <= k)%nat /\ i = 1 ->
  passed_on (take k ex_chat_events) 0 i.
Proof.
  assert (E : ex_chat_events = [SetMetadata {| cmd_id := "id"; cmd_created := 7; cmd_model := "model" |};
    InsertCompletion 0 0 (ex_delta_chunk "Hello. " None); SendInput 0 (Ok (0, "Hello. "));
    InsertCompletion 0 1 (ex_delta_chunk "Bye." (Some "stop")); SendInput 0 (Ok (1, "Bye."));
    SetUsage usage_default]) by (vm_compute; reflexivity).
  rewrite E. intros [[Hk ->]|[Hk ->]].
  - exists "Hello. ". destruct k as [|[|[|k]]]; [lia..|]. right. right. left.
  - exists "Bye.". destruct k as [|[|[|[|[|k]]]]]; [lia..|]. right. right. right. right. left.
Qed.

Lemma ex_answerable : Forall (answerable ex_chat_events) ex_batches.
Proof.
  pose proof (ex_passed_on 6 0 ltac:(lia)) as H0. pose proof (ex_passed_on 6 1 ltac:(lia)) as H1.
  repeat constructor; simpl; try lia; assumption.
Qed.

(** The first batch is seen when only its message has been recorded, and again
    when the next one has. *)
Lemma chat_batches_answered_witness :
  exists answers, length answers = 2%nat /\ forall n batch l, ex_batches !! n = Some batch ->
    answers !! n = Some l -> chat_answer ex_chat_events (read_at ex_chat_events [3; 4; 6]%nat (2 * n + 1)) batch l.
Proof.
  destruct (@chat_batches_answered simple_json fifo_runtime (Some ex_txs) ex_enumerated ex_batches
    [] [3; 4; 6]%nat ex_enumerated_sorted ex_answerable) as (answers & _ & H).
  - split; [|split; [|exact I]]; repeat constructor; apply ex_passed_on; simpl; lia.
  - exists answers. exact H.
Defined.

(** "Bye." is recorded when the batch on "Hello. " looks again. *)
Lemma finish_message_unscreened_witness :
  exists answers r f,
    (process_detection_batch_stream ex_chat_events ((Ok <$> [ex_batch 0 "Hello. "]) ++ [Ok (ex_batch 1 "Bye.")])
      (io_of [] [3; 6]%nat)).2 =
    (process_detection_batch_stream ex_chat_events [Ok (ex_batch 1 "Bye.")]
      (io_of (mjoin answers ++ [Ok (Some r); Ok (Some f)]) [])).2 /\
    (choice ← head (cck_choices f); delta_content (ckc_delta choice)) = Some "Bye." /\
    cck_detections f = None.
Proof.
  destruct (@finish_message_unscreened simple_json fifo_runtime (Some ex_txs) ex_enumerated [] 0
    (ex_batch 0 "Hello. ").1.2 [] [Ok (ex_batch 1 "Bye.")] [] [3; 6]%nat [] (ex_delta_chunk "Hello. " None) 1
    (ex_delta_chunk "Bye." (Some "stop")) (ex_delta_choice "Bye." (Some "stop")) "Bye." ex_enumerated_sorted)
    as (answers & r & f & E & _ & _ & _ & _ & _ & Ht & Hd & _).
  - constructor; [exact (proj1 (proj1 (Forall_cons _ _ _) ex_answerable))|constructor].
  - split; [|exact I]. repeat constructor; apply ex_passed_on; simpl; lia.
  - vm_compute. reflexivity.
  - reflexivity.
  - eexists. reflexivity.
  - reflexivity.
  - exists answers, r, f. split; [|split; [exact Ht|exact Hd]]. unfold ex_chat_events. f_equal. exact E.
Defined.

Lemma chat_stream_blocked_witness :
  exists chunk, @handle_chat_streaming _ _ _ ex_stream_services _ (ex_schedule []) None ex_ctx
    (ex_chat_task ex_dets ∅) = Ok (ChatStreaming [Ok (Some chunk); Ok None]) /\ cck_choices chunk = [].
Proof.
  destruct (text_contents_detections (SV := ex_stream_services) ex_ctx () ex_dets [(0, ex_text)])
    as [[|d ds]| |] eqn:E; [by vm_compute in E| |by vm_compute in E..].
  destruct (openai_client "chat_completions_detection/streaming.rs:198" ex_ctx) as [client| |] eqn:Ec;
    [|by vm_compute in Ec..].
  eexists. split.
  - eapply (@chat_stream_blocked simple_json fifo_runtime settings_connector ex_stream_services ex_stamp
      (ex_schedule []) ex_ctx (ex_chat_task ex_dets ∅)).
    + vm_compute. reflexivity.
    + apply map_non_empty_singleton.
    + reflexivity.
    + exact E.
    + exact Ec.
    + reflexivity.
  - reflexivity.
Defined.

(** A detector on the whole text. *)
Lemma chat_stream_unchunked_witness :
  received_texts (@handle_chat_streaming _ _ _ ex_stream_services _ (ex_schedule []) None ex_ctx
    (ex_chat_task ∅ ∅)) = [Some (Some "Hello. ", 0%nat, []); Some (Some "Bye.", 0%nat, []);
                           Some (None, 0%nat, []); None].
Proof.
  destruct (openai_client "chat_completions_detection/streaming.rs:117" ex_ctx) as [client| |] eqn:Ec;
    [|by vm_compute in Ec..].
  assert (Ha : @chat_admitted _ _ _ ex_stream_services ex_stamp ex_ctx (ex_chat_task ∅ ∅))
    by (split; vm_compute; reflexivity).
  rewrite (proj1 (@chat_stream_unchunked simple_json fifo_runtime settings_connector ex_stream_services
    ex_stamp (ex_schedule []) fifo_runtime_laws ex_ctx (ex_chat_task ∅ ∅) client ex_enumerated
    Ha Ec eq_refl) eq_refl).
  vm_compute. reflexivity.
Defined.

Lemma chat_stream_screened_witness :
  Forall (screened (vouched (SV := ex_stream_services) (SC := ex_schedule []) ex_ctx () ex_dets
                      (fun c => inputs_for c ex_chat_events) (hash_keys ex_txs)) ex_enumerated)
    (spawn None (@handle_output_detection _ _ _ ex_stream_services (ex_schedule []) ex_ctx
       (ex_chat_task ∅ ex_dets) ex_dets ex_enumerated)).
Proof.
  apply Forall_forall. intros msg. eapply (@chat_stream_screened simple_json fifo_runtime settings_connector ex_stream_services
    (ex_schedule []) fifo_runtime_laws (ex_schedule_laws []) None ex_ctx (ex_chat_task ∅ ex_dets)
    ex_dets ex_dets ∅ ex_enumerated _ ex_txs).
  - exact ex_enumerated_sorted.
  - intros i m Hin. unfold ex_enumerated in Hin.
    apply elem_of_lookup_imap in Hin as (n & y & E & Hy). apply pair_equal_spec in E as [_ E].
    subst y. destruct n as [|[|[|[|n]]]]; simpl in Hy; try done; injection Hy as <-; simpl; lia.
  - vm_compute. reflexivity.
  - apply map_non_empty_singleton.
  - reflexivity.
  - vm_compute. reflexivity.
Defined.

Definition ex_state : CompletionState ChatCompletionChunk := state_of ex_chat_events.

Lemma chat_whole_doc_spec_witness :
  exists out warnings, handle_whole_doc_detection (SV := ex_stream_services) ex_ctx (ex_chat_task ∅ ex_dets)
    ex_dets ex_state = Ok (out, warnings) /\ cds_input out = [] /\
    (fun o => (cod_choice_index o, det_text <$> cod_results o)) <$> cds_output out =
      [(0, [Some "Hello. Bye."])].
Proof.
  destruct (handle_whole_doc_detection (SV := ex_stream_services) ex_ctx (ex_chat_task ∅ ex_dets) ex_dets
    ex_state) as [[out warnings]| |] eqn:E; [|by vm_compute in E..].
  destruct (@chat_whole_doc_spec simple_json fifo_runtime settings_connector ex_stream_services
    fifo_runtime_laws ex_ctx (ex_chat_task ∅ ex_dets) ex_dets ex_state out warnings ex_concurrency E)
    as (H1 & _).
  exists out, warnings. split; [reflexivity|]. split; [exact H1|].
  vm_compute in E. injection E as <- _. reflexivity.
Defined.

Lemma chat_stream_ends_witness :
  exists l, @handle_chat_streaming _ _ _ ex_stream_services _ (ex_schedule [2; 0; 9]%nat) None ex_ctx
    (ex_chat_task ∅ ex_dets) = Ok (ChatStreaming (l ++ [Ok None])).
Proof.
  apply (@chat_stream_ends simple_json fifo_runtime settings_connector ex_stream_services ex_stamp
    (ex_schedule [2; 0; 9]%nat) ex_ctx (ex_chat_task ∅ ex_dets)).
  vm_compute. reflexivity.
Defined.
End witnesses.
