(* ===== verification/CompletionsStreaming.v ===== *)
(** * Guarded completions, streaming

    src/orchestrator/handlers/completions_detection.rs and
    completions_detection/streaming.rs: the completions counterpart of
    ChatStreaming.v.  It differs in what it does at the margins: choices that
    produced no text get an empty input and an [EmptyOutput] warning, the last
    message of a choice is sent after all batches, and a choice that was never
    recorded is a panic instead of a wait. *)
From Stdlib Require Import Sorted.
From S2P Require Import Prelude Collections External Errors Utf8 Hostname Config Detection.
From S2P Require Import Chunk Batcher BatchStream BatchGroups Clients OpenAi CompletionState.
From S2P Require Import Models Utils Tasks Streams DetectionHandlers Completions Streaming.
#[local] Open Scope string_scope.
#[local] Open Scope list_scope.
#[local] Open Scope Z_scope.
#[local] Open Scope task_scope.

(** What is read of a message: its first choice's index and text. *)
#[export] Instance completion_streamed `{SJ : SerdeJson} : StreamedMessage Completion := {
  sm_metadata m := {| cmd_id := cp_id m; cmd_created := cp_created m; cmd_model := cp_model m |};
  sm_usage := cp_usage;
  sm_choice m := (fun choice => (cch_index choice, cch_text choice)) <$> head (cp_choices m)
}.

Section completions_streaming.
Context {SJ : SerdeJson} {RT : Runtime} {CN : Connector} {SV : Services} {ST : Stamp} {SC : Schedule}.

Notation Msg := (outcome OrchError (option Completion)).
Notation Events := (list (consumer_event Completion)).
Notation CTask := (CompletionsDetectionTask (H := Headers)).

(** ** Input detection *)
Definition completions_stream_input_detection (ctx : Context) (task : CTask)
    (dets : gmap string DetectorParams) : outcome OrchError (option Completion) :=
  let model_id := cr_model (cmdt_request task) in
  let inputs := apply_masks (cr_prompt (cmdt_request task)) (cr_prompt_masks (cmdt_request task)) in
  detections ← text_contents_detections ctx (cmdt_headers task) dets inputs;
  match detections with
  | [] => Ok None
  | _ =>
      client ← openai_client "completions_detection/streaming.rs:174" ctx;
      tokenize_response ← tokenize_openai client (cmdt_headers task)
        (input_tokenize_request model_id (cr_prompt (cmdt_request task)));
      Ok (Some {| cp_id := new_v4_simple; cp_object := cp_object completion_default;
                  cp_created := as_i64 timestamp_secs; cp_model := model_id; cp_choices := [];
                  cp_usage := Some (input_usage tokenize_response); cp_system_fingerprint := None;
                  cp_detections := Some (input_detections 0 detections);
                  cp_warnings := [unsuitable_input_warning] |})
  end.

(** ** The consumer *)

(** The text of the message's choice goes to its input channel; a message
    without text that has a finish reason sets the flag instead. *)
Definition completion_input_sends (input_txs : option InputTxs) (message_index : Z) (m : Completion)
    : Events :=
  match input_txs, cp_choices m with
  | Some txs, choice :: _ =>
      match txs !! cch_index choice with
      | Some _ =>
          if str_is_empty (cch_text choice)
          then match cch_finish_reason choice with Some _ => [SetEmptyOutput] | None => [] end
          else [SendInput (cch_index choice) (Ok (message_index, cch_text choice))]
      | None => []
      end
  | _, _ => []
  end.

(** Without state there is no flag either. *)
Definition completion_message_events (has_state : bool) (input_txs : option InputTxs)
    (message : Z * Msg) : Events :=
  match message with
  | (message_index, Ok (Some completion)) =>
      (if has_state then state_updates message_index completion else []) ++
      completion_input_sends input_txs message_index completion
  | (_, Err error) => error_sends input_txs error
  | _ => []
  end.

(** The choice a message counts as data of. *)
Definition data_choice (input_txs : option InputTxs) (message : Z * Msg) : option Z :=
  match message, input_txs with
  | (_, Ok (Some completion)), Some txs =>
      match cp_choices completion with
      | choice :: _ =>
          match txs !! cch_index choice with
          | Some _ => if str_is_empty (cch_text choice) then None else Some (cch_index choice)
          | None => None
          end
      | [] => None
      end
  | _, _ => None
  end.

(** After the stream, the channels that were sent no text get an empty one. *)
Definition empty_sends (input_txs : option InputTxs) (choices_with_data : list Z) : Events :=
  match input_txs with
  | Some txs =>
      (fun choice_index => SendInput choice_index (Ok (0, ""))) <$>
        filter (fun choice_index => choice_index ∉ choices_with_data) (hash_keys txs)
  | None => []
  end.

Fixpoint process_completion_stream (has_state : bool) (input_txs : option InputTxs)
    (forward : bool) (choices_with_data : list Z) (completion_stream : list (Z * Msg)) : Task Msg Events :=
  match completion_stream with
  | [] => task_ret (empty_sends input_txs choices_with_data)
  | (message_index, result) :: stream =>
      do! connected <- (match result with
                        | Ok (Some _) => if forward then tell_ok result else task_ret true
                        | Err _ => (if forward then tell result else task_ret ()) ;! task_ret true
                        | _ => task_ret true
                        end);
      if connected : bool then
        let choices_with_data :=
          match data_choice input_txs (message_index, result) with
          | Some choice_index => choice_index :: choices_with_data
          | None => choices_with_data
          end in
        do! events <- process_completion_stream has_state input_txs forward choices_with_data stream;
        task_ret (completion_message_events has_state input_txs (message_index, result) ++ events)
      else task_ret []
  end.

(** ** Responses to batches *)
Definition merge_completion_logprobs (completions : list Completion) : option CompletionLogprobs :=
  let logprobs := omap (fun completion => choice ← head (cp_choices completion); cch_logprobs choice)
                    completions in
  match mjoin (cl_tokens <$> logprobs), mjoin (cl_token_logprobs <$> logprobs),
        mjoin (cl_top_logprobs <$> logprobs), mjoin (cl_text_offset <$> logprobs) with
  | [], [], [], [] => None
  | tokens, token_logprobs, top_logprobs, text_offset =>
      Some {| cl_tokens := tokens; cl_token_logprobs := token_logprobs;
              cl_top_logprobs := top_logprobs; cl_text_offset := text_offset |}
  end.

Definition with_text (text : string) (logprobs : option CompletionLogprobs) (choice : CompletionChoice)
    : CompletionChoice :=
  {| cch_index := cch_index choice; cch_text := text; cch_logprobs := logprobs;
     cch_finish_reason := cch_finish_reason choice; cch_stop_reason := cch_stop_reason choice;
     cch_prompt_logprobs := cch_prompt_logprobs choice |}.

Definition completion_batch_response (entry : list (Z * Completion)) (choice_index : Z) (chunk : Chunk)
    (detections : list Detection) : outcome OrchError Completion :=
  range ← bt_range "completions_detection/streaming.rs:584"
            (input_start_index chunk) (input_end_index chunk) entry;
  let completions := (range : list (Z * Completion)).*2 in
  let logprobs := merge_completion_logprobs completions in
  match last completions with
  | Some completion =>
      match cp_choices completion with
      | choice :: choices =>
          Ok {| cp_id := cp_id completion; cp_object := cp_object completion;
                cp_created := cp_created completion; cp_model := cp_model completion;
                cp_choices := with_text (chunk_text chunk) logprobs choice :: choices;
                cp_usage := cp_usage completion;
                cp_system_fingerprint := cp_system_fingerprint completion;
                cp_detections := Some {| cds_input := cds_input completion_detections_default;
                  cds_output := [ {| cod_choice_index := choice_index; cod_results := detections |} ] |};
                cp_warnings := match detections with
                               | [] => cp_warnings completion
                               | _ => [unsuitable_output_warning]
                               end |}
      | [] => Panic "completions_detection/streaming.rs:592"
      end
  | None => Err (Other "no completions found for chunk")
  end.

Definition completion_output_response (events : Events) (choice_index : Z) (chunk : Chunk)
    (detections : list Detection) : Task Msg Completion :=
  do! completion_state <- read_state events;
  do! entry <- lift (unwrap "completions_detection/streaming.rs:581"
                       (completions_by_choice completion_state !! choice_index));
  lift (completion_batch_response entry choice_index chunk detections).

(** The indices of the batches answered, per choice. *)
Definition track (choice_index : Z) (indices : Z * Z) (batch_tracker : gmap Z (list (Z * Z)))
    : gmap Z (list (Z * Z)) :=
  match batch_tracker !! choice_index with
  | Some entry => <[choice_index := entry ++ [indices]]> batch_tracker
  | None => <[choice_index := [indices]]> batch_tracker
  end.

(** The loop over the tracker: the last message of a choice is sent unless the
    last batch included it. *)
Fixpoint send_last_messages (events : Events) (batch_tracker : list (Z * list (Z * Z))) : Task Msg () :=
  match batch_tracker with
  | [] => task_ret ()
  | (choice_index, indices) :: batch_tracker =>
      do! completion_state <- read_state events;
      do! entry <- lift (unwrap "completions_detection/streaming.rs:697"
                           (completions_by_choice completion_state !! choice_index));
      do! last_entry <- lift (unwrap "completions_detection/streaming.rs:701" (bt_last_key_value entry));
      do! last_indices <- lift (unwrap "completions_detection/streaming.rs:703" (last indices));
      let '(last_index, completion) := last_entry in
      let '(_, end_index) := last_indices in
      if decide (last_index = end_index) then send_last_messages events batch_tracker
      else
        do! connected <- tell_ok (Ok (Some completion));
        if connected : bool then send_last_messages events batch_tracker else task_ret ()
  end.

Fixpoint process_batches (events : Events) (batch_tracker : gmap Z (list (Z * Z)))
    (detection_batch_stream : list (outcome OrchError Batch)) : Task Msg () :=
  match detection_batch_stream with
  | Ok (choice_index, chunk, detections) :: stream =>
      let indices := (input_start_index chunk, input_end_index chunk) in
      do! response <- attempt (completion_output_response events choice_index chunk detections);
      match response with
      | inl completion =>
          let batch_tracker := track choice_index indices batch_tracker in
          do! connected <- tell_ok (Ok (Some completion));
          if connected : bool then process_batches events batch_tracker stream else task_ret ()
      | inr error => tell (Err error)
      end
  | Err error :: _ => tell (Err error)
  | _ => send_last_messages events (hash_iter batch_tracker)
  end.

(** ** Detection on the whole text *)
Definition completion_choice_text (entry : list (Z * Completion)) : string :=
  concat ((fun chunk => default "" (cch_text <$> head (cp_choices chunk))) <$> entry.*2).

Definition completion_stream_spawn (ctx : Context) (task : CTask) (choice : Z * string)
    (ty : DetectorType) (dets : gmap string DetectorParams)
    : outcome OrchError (list (Z * DetectorType * outcome OrchError (list Detection))) :=
  match ty with
  | TextContents =>
      Ok [(choice.1, ty, text_contents_detections ctx (cmdt_headers task) dets [(0, choice.2)])]
  | TextGeneration =>
      Ok [(choice.1, ty, text_generation_detections ctx (cmdt_headers task) dets
                           (cr_prompt (cmdt_request task)) choice.2)]
  | _ => Panic "completions_detection/streaming.rs:528"
  end.

Definition completion_whole_doc_detection (ctx : Context) (task : CTask)
    (dets : gmap string DetectorParams) (state : CompletionState Completion)
    : outcome OrchError (CompletionDetections * list CompletionDetectionWarning) :=
  groups ← group_detectors_by_type ctx dets;
  let choices := (fun '(choice_index, entry) => (choice_index, completion_choice_text entry))
                   <$> hash_iter (completions_by_choice state) in
  tasks ← spawn_all choices groups (completion_stream_spawn ctx task);
  results ← join_tagged tasks;
  Ok ({| cds_input := cds_input completion_detections_default;
         cds_output := (fun '(choice_index, _, detections) =>
           {| cod_choice_index := choice_index; cod_results := detections |})
             <$> (results : list (Z * DetectorType * list Detection)) |},
      if has_contents_detections results then [unsuitable_output_warning] else []).

(** ** Output detection *)
Definition empty_output_warning : CompletionDetectionWarning :=
  completion_detection_warning_new EmptyOutput
    "One or more choices have no content. Output detection was not executed for those choices".

Definition final_completion (m : CompletionMetadata) (usage : option Usage)
    (detections : option CompletionDetections) (warnings : list CompletionDetectionWarning) : Completion :=
  let d := completion_default in
  {| cp_id := cmd_id m; cp_object := cp_object d; cp_created := cmd_created m; cp_model := cmd_model m;
     cp_choices := cp_choices d; cp_usage := usage;
     cp_system_fingerprint := cp_system_fingerprint d;
     cp_detections := detections; cp_warnings := warnings |}.

Definition read_empty_output {M} (events : Events) : Task M bool :=
  do! seen <- observe events; task_ret (empty_output_of seen).

Definition completion_final_message (ctx : Context) (task : CTask) (whole_doc : gmap string DetectorParams)
    (events : Events) : Task Msg () :=
  do! wanted <- (if bool_decide (whole_doc = ∅)
                 then do! s <- read_state events;
                      if bool_decide (is_Some (state_usage s)) then task_ret true
                      else read_empty_output events
                 else task_ret true);
  if wanted : bool then
    do! s <- read_state events;
    do! m <- lift (unwrap "completions_detection/streaming.rs:319" (metadata s));
    do! s <- read_state events;
    let usage := state_usage s in
    do! empty <- read_empty_output events;
    let warnings := if empty : bool then [empty_output_warning] else [] in
    if bool_decide (whole_doc = ∅) then tell (Ok (Some (final_completion m usage None warnings)))
    else
      do! s <- read_state events;
      do! result <- attempt (lift (completion_whole_doc_detection ctx task whole_doc s));
      match result with
      | inl (detections, warnings) =>
          tell (Ok (Some (final_completion m usage (Some detections) warnings)))
      | inr error => tell (Err error)
      end
  else task_ret ().

Definition completions_handle_output (ctx : Context) (task : CTask) (dets : gmap string DetectorParams)
    (completion_stream : list (Z * Msg)) : Task Msg () :=
  do! parts <- lift (partition_detectors "completions_detection/streaming.rs:233" ctx dets);
  let '(chunk_detectors, whole_doc_detectors) := parts in
  if bool_decide (chunk_detectors = ∅) then
    do! events <- process_completion_stream true None true [] completion_stream;
    completion_final_message ctx task whole_doc_detectors events
  else
    let n := choice_count (cr_extra (cmdt_request task)) in
    do! input_txs <- lift (input_channels "completions_detection/streaming.rs:247" n);
    (* the consumer is spawned once the detection streams are there *)
    do! events <- process_completion_stream true (Some input_txs) false [] completion_stream;
    do! streams <- detection_streams_of ctx (cmdt_headers task) chunk_detectors
                     (fun choice_index => inputs_for choice_index events) (hash_keys input_txs);
    consumer_spawned reads ;!
    process_batches events ∅
      (batches streams (completion_batcher_new (Z.of_nat (size chunk_detectors)))) ;!
    completion_final_message ctx task whole_doc_detectors events.

(** ** The handler *)
Definition completions_streaming_task (ctx : Context) (task : CTask) : Task Msg () :=
  let request := cmdt_request task in
  let input_dets := rd_input (cr_detectors request) in
  let output_dets := rd_output (cr_detectors request) in
  (do! valid <- attempt (lift (
    validate_detectors (hash_iter input_dets) (detectors (ctx_config ctx)) [TextContents] true ≫= fun _ =>
    validate_detectors (hash_iter output_dets) (detectors (ctx_config ctx))
      [TextContents; TextGeneration] true));
  match valid with
  | inr error => tell (Err error)
  | inl _ =>
      do! blocked <- attempt (lift (if bool_decide (input_dets = ∅) then Ok None
                                    else completions_stream_input_detection ctx task input_dets));
      match blocked with
      | inr error => tell (Err error)
      | inl (Some chunk) => tell (Ok (Some chunk))
      | inl None =>
          do! client <- lift (openai_client "completions_detection/streaming.rs:108" ctx);
          do! stream <- attempt (lift (completion_stream client (cmdt_headers task) request));
          match stream with
          | inr error => tell (Err error)
          | inl stream =>
              if bool_decide (output_dets = ∅)
              then process_completion_stream false None true [] stream ;! task_ret ()
              else completions_handle_output ctx task output_dets stream
          end
      end
  end) ;!
  (* every path but a panic signals completion *)
  tell (Ok None).

Definition handle_completions_streaming (reader : option nat) (ctx : Context) (task : CTask)
    : outcome OrchError CompletionsResponse :=
  Ok (CompletionStreaming (spawn reader (completions_streaming_task ctx task))).

(** completions_detection.rs *)
Definition handle_completions (reader : option nat) (ctx : Context) (task : CTask)
    : outcome OrchError CompletionsResponse :=
  match cr_stream (cmdt_request task) with
  | Some true => handle_completions_streaming reader ctx task
  | _ => handle_completions_unary ctx task
  end.
End completions_streaming.

(** ** Lemmas *)
Section completions_streaming_lemmas.
Context {SJ : SerdeJson} {RT : Runtime} {CN : Connector} {SV : Services} {ST : Stamp} {SC : Schedule}.
Notation Msg := (outcome OrchError (option Completion)).
Notation Events := (list (consumer_event Completion)).
Notation CTask := (CompletionsDetectionTask (H := Headers)).
Implicit Types (stream : list (Z * Msg)) (events : Events).

(** *** The consumer *)

(** The choices that were sent text. *)
Definition choices_with_text (txs : option InputTxs) stream : list Z := omap (data_choice txs) stream.

Definition completion_events (has_state : bool) (txs : option InputTxs) stream : Events :=
  (stream ≫= completion_message_events has_state txs) ++ empty_sends txs (choices_with_text txs stream).

Lemma empty_sends_same txs l l' : (forall c, c ∈ l <-> c ∈ l') -> empty_sends txs l = empty_sends txs l'.
Proof.
  intros H. unfold empty_sends. destruct txs as [tx|]; [|done]. f_equal.
  apply list_filter_iff. intros c. by rewrite H.
Qed.

Lemma completion_rest b txs i r (stream : list (Z * Msg)) data :
  completion_message_events b txs (i, r) ++
    ((stream ≫= completion_message_events b txs) ++
     empty_sends txs (choices_with_text txs stream ++
       match data_choice txs (i, r) with Some c => c :: data | None => data end)) =
  (((i, r) :: stream) ≫= completion_message_events b txs) ++
     empty_sends txs (choices_with_text txs ((i, r) :: stream) ++ data).
Proof.
  rewrite bind_cons, <- app_assoc. do 2 f_equal. apply empty_sends_same. intros c.
  unfold choices_with_text. cbn [omap list_omap].
  destruct (data_choice txs (i, r)); set_solver.
Qed.

Lemma process_completion_forward b txs data stream sent rs :
  process_completion_stream b txs true data stream (io_of sent rs) =
  (Ok ((stream ≫= completion_message_events b txs) ++
       empty_sends txs (choices_with_text txs stream ++ data)),
   io_of (sent ++ forwarded stream) rs).
Proof.
  revert sent data. induction stream as [|[i r] stream IH]; intros sent data; [by rewrite app_nil_r|].
  rewrite <- completion_rest. unfold forwarded. rewrite fmap_cons, filter_cons. cbn [snd].
  destruct r as [[c|]|e|]; cbn [process_completion_stream]; unfold task_bind at 1.
  - rewrite tell_ok_io. cbn iota beta. unfold task_bind at 1. rewrite IH, <- app_assoc. done.
  - cbn. unfold task_bind at 1. by rewrite IH.
  - cbn. unfold task_bind at 1. unfold send_, send, io_of at 1. cbn.
    change (Build_Io (Build_Sender (sent ++ [Err e]) None) rs) with (io_of (sent ++ [Err e]) rs).
    rewrite IH, <- app_assoc. done.
  - cbn. unfold task_bind at 1. by rewrite IH.
Qed.

Lemma process_completion_quiet b txs stream io :
  process_completion_stream b txs false [] stream io = (Ok (completion_events b txs stream), io).
Proof.
  unfold completion_events. rewrite <- (app_nil_r (choices_with_text txs stream)).
  generalize (@nil Z) as data.
  induction stream as [|[i r] stream IH]; intros data; [done|]. rewrite <- completion_rest.
  destruct r as [[c|]|e|]; cbn [process_completion_stream]; unfold task_bind, task_ret; by rewrite IH.
Qed.

Lemma completion_input_sends_elem txs i m e :
  e ∈ completion_input_sends txs i m ->
  e = SetEmptyOutput \/
  exists choice choices, cp_choices m = choice :: choices /\ cch_text choice <> "" /\
    e = SendInput (cch_index choice) (Ok (i, cch_text choice)).
Proof.
  unfold completion_input_sends.
  destruct txs as [tx|], (cp_choices m) as [|choice choices]; try by intros ?%elem_of_nil.
  destruct (tx !! _); [|by intros ?%elem_of_nil].
  destruct (str_is_empty (cch_text choice)) eqn:Et.
  - destruct (cch_finish_reason choice); [|by intros ?%elem_of_nil].
    intros ->%list_elem_of_singleton. by left.
  - intros ->%list_elem_of_singleton. right. exists choice, choices. split; [done|]. split; [|done].
    intros E. by rewrite E in Et.
Qed.

Lemma completion_message_events_elem b txs i r e :
  e ∈ completion_message_events b txs (i, r) ->
  (exists c err, e = SendInput c (Err err)) \/
  exists m, r = Ok (Some m) /\
    (e ∈ (if b then state_updates i m else []) \/ e ∈ completion_input_sends txs i m).
Proof.
  destruct r as [[m|]|err|]; simpl; [|by intros ?%elem_of_nil| |by intros ?%elem_of_nil].
  - intros He%elem_of_app. right. by exists m.
  - intros [c ->]%error_sends_elem. left. by exists c, err.
Qed.

Lemma empty_sends_elem txs data e :
  e ∈ empty_sends txs data -> exists c, e = SendInput c (Ok (0, "")) /\ c ∉ data.
Proof.
  unfold empty_sends. destruct txs as [tx|]; [|by intros ?%elem_of_nil].
  intros (c & -> & [Hc _]%list_elem_of_filter)%list_elem_of_fmap. by exists c.
Qed.

Lemma no_inserts_in_order (l : Events) : (forall e, e ∈ l -> insert_of e = None) -> in_order l.
Proof.
  induction l as [|e l IH]; intros H; [constructor|]. constructor.
  - apply IH. intros e' He. apply H. by right.
  - apply Forall_forall. intros e' He i c j t _. rewrite (H e') by (by right). done.
Qed.

Lemma completion_events_in_order b txs stream :
  StronglySorted Z.lt stream.*1 -> in_order (completion_events b txs stream).
Proof.
  intros Hs. apply in_order_app. split; [|split].
  - apply in_order_groups; [done|..].
    + intros [i [[m|]|err|]]; simpl; try constructor; [|apply error_sends_in_order].
      apply in_order_app. split; [destruct b; [apply state_updates_in_order|constructor]|]. split.
      * apply no_inserts_in_order.
        by intros e [->|(choice & choices & _ & _ & ->)]%completion_input_sends_elem.
      * by intros e e' _ [->|(choice & choices & _ & _ & ->)]%completion_input_sends_elem ????.
    + intros [i r] e j [(c & err & ->)|(m & -> & [He|He])]%completion_message_events_elem; [done|..].
      * destruct b; [|by apply elem_of_nil in He].
        apply state_updates_elem in He as [[-> _]|(c & text & -> & _)]; [done|by intros [= <-]].
      * apply completion_input_sends_elem in He as [->|(choice & choices & _ & _ & ->)]; [done|].
        by intros [= <-].
  - apply no_inserts_in_order. by intros e (c & -> & _)%empty_sends_elem.
  - by intros e e' _ (c & -> & _)%empty_sends_elem ????.
Qed.

Lemma completion_inserted b txs stream c i m :
  InsertCompletion c i m ∈ completion_events b txs stream ->
  (i, Ok (Some m)) ∈ stream /\
  exists choice choices, cp_choices m = choice :: choices /\ cch_index choice = c.
Proof.
  intros [([j r] & He & Hin)%list_elem_of_bind|(c' & [=] & _)%empty_sends_elem]%elem_of_app.
  destruct (completion_message_events_elem _ _ _ _ _ He) as [(c' & err & [=])|(m' & -> & [Hm|Hm])].
  - destruct b; [|by apply elem_of_nil in Hm].
    apply state_updates_elem in Hm as [[_ [=]]|(c' & text & [= <- <- <-] & Hc)]. split; [done|].
    simpl in Hc. destruct (cp_choices m) as [|choice choices]; [done|]. injection Hc as <- _.
    by exists choice, choices.
  - by apply completion_input_sends_elem in Hm as [[=]|(? & ? & _ & _ & [=])].
Qed.

Lemma final_completion_inserted events c i m :
  (i, m) ∈ final_entry events c <-> InsertCompletion c i m ∈ events.
Proof. unfold final_entry. by rewrite inserted_for_elem, elem_of_inserts. Qed.

(** *** Batches *)

(** A batch whose input has been passed on and spans a recorded message. *)
Definition completion_answerable (events : Events) (batch : Batch) : Prop :=
  let '(c, chunk, _) := batch in
  passed_on events c (input_end_index chunk) /\
  exists i m, InsertCompletion c i m ∈ events /\ input_start_index chunk <= i <= input_end_index chunk.

Lemma completion_batch_response_Ok txs stream c chunk ds :
  completion_answerable (completion_events true txs stream) (c, chunk, ds) ->
  exists r, completion_batch_response (final_entry (completion_events true txs stream) c) c chunk ds = Ok r.
Proof.
  intros (_ & i & m & Hin & Hi). simpl in *. apply final_completion_inserted in Hin.
  unfold completion_batch_response. set (entry := final_entry _ c) in *.
  destruct (bt_range _ _ _ entry) as [range|e|site] eqn:E.
  2, 3: by rewrite (proj2 (bt_range_Z _ _ _ entry _) (conj (Z.le_trans _ _ _ (proj1 Hi) (proj2 Hi)) eq_refl)) in E.
  apply bt_range_Z in E as [_ ->]. set (range := filter _ entry).
  assert (Hr : (i, m) ∈ range) by (by apply list_elem_of_filter).
  cbn [mbind outcome_bind]. destruct (last range.*2) as [m'|] eqn:El.
  2: { apply last_None, fmap_nil_inv in El. rewrite El in Hr. by apply elem_of_nil in Hr. }
  apply last_Some_elem_of, list_elem_of_fmap in El as ([j m''] & -> & Hm).
  apply list_elem_of_filter in Hm as [_ Hm%final_completion_inserted].
  destruct (completion_inserted _ _ _ _ _ _ Hm) as (_ & choice & choices & Hc & _). simpl.
  rewrite Hc. by eexists.
Qed.

(** What the response to a batch says. *)
Lemma completion_batch_response_text entry c chunk ds r :
  completion_batch_response entry c chunk ds = Ok r ->
  cch_text <$> head (cp_choices r) = Some (chunk_text chunk) /\
  cp_detections r = Some {| cds_input := [];
    cds_output := [ {| cod_choice_index := c; cod_results := ds |} ] |} /\
  (ds <> [] -> cp_warnings r = [unsuitable_output_warning]).
Proof.
  unfold completion_batch_response. intros (range & _ & H)%bind_Ok.
  destruct (last range.*2) as [m|]; [|done]. destruct (cp_choices m) as [|choice choices]; [done|].
  injection H as <-. simpl. split; [done|]. split; [done|]. by destruct ds.
Qed.

(** The tracker holds, per choice, the indices of its batches. *)
Definition tracked (bs : list Batch) : gmap Z (list (Z * Z)) :=
  foldl (fun m b => track b.1.1 (input_start_index b.1.2, input_end_index b.1.2) m) ∅ bs.
Definition batch_indices (c : Z) (bs : list Batch) : list (Z * Z) :=
  (fun b => (input_start_index b.1.2, input_end_index b.1.2)) <$> filter (fun b => b.1.1 = c) bs.

Lemma tracked_lookup bs c :
  tracked bs !! c = match batch_indices c bs with [] => None | l => Some l end.
Proof.
  unfold tracked. induction bs as [|b bs IH] using rev_ind; [apply lookup_empty|].
  rewrite foldl_app. simpl. unfold batch_indices in *. rewrite filter_app, fmap_app.
  set (m := foldl _ ∅ bs) in *. rewrite filter_cons, filter_nil. unfold track.
  destruct (decide (b.1.1 = c)) as [->|N].
  - rewrite IH. destruct (_ <$> filter _ bs); by rewrite lookup_insert_eq.
  - rewrite app_nil_r. destruct (m !! b.1.1); by rewrite lookup_insert_ne.
Qed.

(** The tracked choices are those of the batches, each once. *)
Lemma tracked_keys {RL : RuntimeLaws RT} bs :
  NoDup (hash_keys (tracked bs)) /\ forall c, c ∈ hash_keys (tracked bs) <-> exists b, b ∈ bs /\ b.1.1 = c.
Proof.
  split. { unfold hash_keys. rewrite (hash_iter_perm (tracked bs)). apply NoDup_fst_map_to_list. }
  intros c. rewrite elem_of_hash_keys, tracked_lookup. unfold batch_indices. split.
  - intros [l H]. destruct (filter _ bs) as [|b bs'] eqn:Ef; [done|].
    assert (Hin : b ∈ filter (fun b => b.1.1 = c) bs) by (rewrite Ef; left).
    apply list_elem_of_filter in Hin as [Hbc Hin]. by exists b.
  - intros (b & Hin & Hbc). destruct (filter (fun b => b.1.1 = c) bs) as [|b' bs'] eqn:Ef; [|by eexists].
    assert (Hf : b ∈ filter (fun b => b.1.1 = c) bs) by by apply list_elem_of_filter.
    rewrite Ef in Hf. by apply elem_of_nil in Hf.
Qed.

(** The last message of a choice, unless its last batch included it. *)
Definition last_message (events : Events) (bs : list Batch) (c : Z) : list Msg :=
  match last (final_entry events c), last (batch_indices c bs) with
  | Some (last_index, m), Some (_, end_index) =>
      if decide (last_index = end_index) then [] else [Ok (Some m)]
  | _, _ => []
  end.

Lemma send_last_messages_run events bs sent (l : list (Z * list (Z * Z))) :
  in_order events ->
  (forall c indices, (c, indices) ∈ l -> indices = batch_indices c bs /\ indices <> [] /\ final_entry events c <> []) ->
  send_last_messages events l (io_of sent []) = (Ok (), io_of (sent ++ (l.*1 ≫= last_message events bs)) []).
Proof.
  intros Ho. revert sent. induction l as [|[c indices] l IH]; intros sent H; [by rewrite app_nil_r|].
  destruct (H c indices (list_elem_of_here _ _)) as (Hi & Hne & Hf).
  assert (HIH := fun sent => IH sent (fun c i Hin => H c i (list_elem_of_further _ _ _ Hin))). clear IH.
  cbn [send_last_messages]. unfold read_state, task_bind, lift, task_ret.
  rewrite observe_io. cbn [hd tl length]. rewrite firstn_all, final_entry_lookup by done.
  rewrite (proj2 (entry_of_Some _ (final_entry events c)) (conj eq_refl Hf)). cbn [unwrap].
  rewrite fmap_cons, bind_cons. cbn [fst]. unfold last_message at 1, bt_last_key_value. rewrite <- Hi.
  destruct (last (final_entry events c)) as [[j m]|] eqn:El; [|by apply last_None in El].
  destruct (last indices) as [[s e]|] eqn:Ei; [|by apply last_None in Ei]. cbn [unwrap].
  destruct (decide (j = e)) as [->|N]; [by rewrite HIH|].
  rewrite tell_ok_io. cbn iota. by rewrite HIH, <- app_assoc.
Qed.

(** An observation made after the last input of a batch was passed on sees
    what the batch spans. *)
Lemma read_completion_entry txs stream events rs c chunk ds :
  events = completion_events true txs stream -> in_order events ->
  completion_answerable events (c, chunk, ds) ->
  Forall (fun k => passed_on (take k events) c (input_end_index chunk)) (take 1 rs) ->
  exists seen,
    completions_by_choice (state_of (take (hd (length events) rs) events)) !! c = Some seen /\
    forall E site, bt_range (E := E) site (input_start_index chunk) (input_end_index chunk) seen =
      bt_range site (input_start_index chunk) (input_end_index chunk) (final_entry events c).
Proof.
  intros Ev Ho (Hp & i & m & Hin & Hi) Hk. set (k := hd (length events) rs).
  pose proof (passed_on_hd events rs c _ Hp Hk) as Hpk. fold k in Hpk.
  exists (final_entry (take k events) c). split; [|intros E site; by apply bt_range_at].
  rewrite final_entry_lookup by (by apply in_order_take). apply entry_of_Some. split; [done|].
  intros E. rewrite <- final_completion_inserted in Hin.
  assert (Hf : (i, m) ∈ filter (fun kv : Z * Completion => kv.1 <= input_end_index chunk)
                          (inserted_for c (inserts (take k events)))).
  { rewrite (recorded_up_to events k c _) by done. apply list_elem_of_filter. simpl. split; [lia|done]. }
  unfold final_entry in E. rewrite E in Hf. by apply elem_of_nil in Hf.
Qed.

Lemma process_batches_run {RL : RuntimeLaws RT} txs stream bs0 bs sent rs :
  let events := completion_events true txs stream in
  in_order events ->
  Forall (completion_answerable events) bs -> Forall (completion_answerable events) bs0 ->
  causal 1 events bs rs -> (length rs <= length bs)%nat ->
  exists answers,
    process_batches events (tracked bs0) (Ok <$> bs) (io_of sent rs) =
      (Ok (), io_of (sent ++ ((fun r => Ok (Some r)) <$> answers) ++
                     (hash_keys (tracked (bs0 ++ bs)) ≫= last_message events (bs0 ++ bs))) []) /\
    Forall2 (fun b r => completion_batch_response (final_entry events b.1.1) b.1.1 b.1.2 b.2 = Ok r)
      bs answers.
Proof.
  intros events Ho. revert bs0 sent rs.
  induction bs as [|[[c chunk] ds] bs IH]; intros bs0 sent rs Hb Hb0 Hc Hl.
  { destruct rs; [|simpl in Hl; lia]. exists []. split; [|constructor].
    cbn [process_batches fmap list_fmap]. rewrite app_nil_r. apply send_last_messages_run; [done|].
    intros c indices Hin%elem_of_hash_iter. rewrite tracked_lookup in Hin.
    destruct (batch_indices c bs0) as [|i l] eqn:Ei; [done|]. injection Hin as <-. split; [done|].
    split; [done|]. assert (Hi : i ∈ batch_indices c bs0) by (rewrite Ei; left).
    apply list_elem_of_fmap in Hi as (b & _ & [<- Hin]%list_elem_of_filter).
    rewrite Forall_forall in Hb0. specialize (Hb0 b Hin). destruct b as [[c chunk] ds].
    destruct Hb0 as (_ & j & m & Hm%final_completion_inserted & _). simpl. intros E.
    rewrite E in Hm. by apply elem_of_nil in Hm. }
  apply Forall_cons in Hb as [Ha Hb]. destruct Hc as [Hk Hc].
  destruct (completion_batch_response_Ok txs stream c chunk ds Ha) as [r Hr]. fold events in Hr.
  destruct (read_completion_entry txs stream events rs c chunk ds eq_refl Ho Ha Hk) as (seen & Hseen & Hrange).
  assert (Hresp : completion_batch_response seen c chunk ds = Ok r).
  { rewrite <- Hr. unfold completion_batch_response. by rewrite Hrange. }
  destruct (IH (bs0 ++ [(c, chunk, ds)]) (sent ++ [Ok (Some r)]) (tl rs)) as (answers & E & H2); try done.
  { apply Forall_app. split; [done|by constructor]. }
  { destruct rs; simpl in *; lia. }
  exists (r :: answers). split; [|by constructor].
  rewrite fmap_cons. cbn [process_batches]. unfold completion_output_response, read_state.
  unfold task_bind, attempt, lift, task_ret. rewrite observe_io, Hseen. cbn [unwrap]. rewrite Hresp, tell_ok_io.
  assert (Et : track c (input_start_index chunk, input_end_index chunk) (tracked bs0) =
               tracked (bs0 ++ [(c, chunk, ds)])) by (unfold tracked; by rewrite foldl_app).
  rewrite Et. cbn iota. rewrite E, <- !app_assoc. done.
Qed.

(** *** The handler *)
Definition completions_validated (ctx : Context) (task : CTask) : outcome OrchError () :=
  let dets := cr_detectors (cmdt_request task) in
  validate_detectors (hash_iter (rd_input dets)) (detectors (ctx_config ctx)) [TextContents] true ≫= fun _ =>
  validate_detectors (hash_iter (rd_output dets)) (detectors (ctx_config ctx))
    [TextContents; TextGeneration] true.
Definition completions_admitted (ctx : Context) (task : CTask) : Prop :=
  completions_validated ctx task = Ok () /\
  (if bool_decide (rd_input (cr_detectors (cmdt_request task)) = ∅) then Ok None
   else completions_stream_input_detection ctx task (rd_input (cr_detectors (cmdt_request task)))) = Ok None.

(** An admitted request with output detectors runs output detection on the
    model's stream and then signals the end. *)
Lemma completions_streaming_admitted ctx (task : CTask) client stream io :
  completions_admitted ctx task ->
  openai_client "completions_detection/streaming.rs:108" ctx = Ok client ->
  completion_stream client (cmdt_headers task) (cmdt_request task) = Ok stream ->
  rd_output (cr_detectors (cmdt_request task)) <> ∅ ->
  completions_streaming_task ctx task io =
  task_bind (completions_handle_output ctx task (rd_output (cr_detectors (cmdt_request task))) stream)
    (fun _ => tell (Ok None)) io.
Proof.
  intros [Hv Hin] Hcl Hst Hne. unfold completions_validated in Hv.
  unfold completions_streaming_task. unfold task_bind at 1 2, attempt, lift at 1. rewrite Hv.
  unfold task_bind at 2, lift at 1. rewrite Hin. unfold task_bind at 2, lift at 1. rewrite Hcl.
  unfold task_bind at 2, lift at 1. rewrite Hst, bool_decide_eq_false_2 by done. done.
Qed.

(** The streams of all choices, when none fails. *)
Lemma detection_streams_of_Ok {T} ctx headers dets inputs choices streams (io : Io (outcome OrchError T)) :
  collect ((fun c => text_contents_detection_streams ctx headers dets c (inputs c)) <$> choices) = Ok streams ->
  detection_streams_of ctx headers dets inputs choices io = (Ok (mjoin streams), io).
Proof.
  revert streams io. induction choices as [|c choices IH]; intros streams io H.
  { by injection H as <-. }
  apply collect_Ok in H. destruct streams as [|st streams]; [done|]. injection H as H1 H2.
  simpl. unfold task_bind, attempt, lift. rewrite H1.
  rewrite (IH streams io) by (by apply collect_Ok). reflexivity.
Qed.

(** The final message when no detector runs on the whole text. *)
Definition completion_tail (events : Events) (m : CompletionMetadata) : list Msg :=
  let usage := state_usage (state_of events) in
  let empty := empty_output_of events in
  if bool_decide (is_Some usage) || empty
  then [Ok (Some (final_completion m usage None (if empty then [empty_output_warning] else [])))]
  else [].

Lemma completion_final_message_run ctx task events m sent :
  metadata (state_of events) = Some m ->
  completion_final_message ctx task ∅ events (io_of sent []) =
  (Ok (), io_of (sent ++ completion_tail events m) []).
Proof.
  intros Hm. unfold completion_final_message, completion_tail.
  rewrite bool_decide_eq_true_2 by done. unfold read_empty_output, read_state, observe, task_bind, lift, task_ret.
  cbn. destruct (bool_decide (is_Some _)); cbn; [rewrite Hm; cbn; by destruct (empty_output_of events)|].
  destruct (empty_output_of events) eqn:E; cbn; [by rewrite Hm; cbn; rewrite E|by rewrite app_nil_r].
Qed.

(** The response to a batch keeps the choice's index. *)
Lemma completion_batch_response_index txs stream c chunk ds r :
  completion_batch_response (final_entry (completion_events true txs stream) c) c chunk ds = Ok r ->
  cch_index <$> head (cp_choices r) = Some c.
Proof.
  unfold completion_batch_response. intros (range & Hr & H)%bind_Ok.
  apply bt_range_Z in Hr as [_ ->]. destruct (last _) as [m|] eqn:El; [|done].
  apply last_Some_elem_of, list_elem_of_fmap in El as ([i m'] & -> & Hm).
  apply list_elem_of_filter in Hm as [_ Hm%final_completion_inserted].
  destruct (completion_inserted _ _ _ _ _ _ Hm) as (_ & choice & choices & Hc & Hi).
  cbn [snd] in H. rewrite Hc in H. injection H as <-. simpl. by rewrite Hi.
Qed.

(** What every path but a panic ends with. *)
Notation not_end := (fun m : Msg => m <> Ok None).

Lemma process_completion_not_end b txs forward data stream :
  sends not_end (process_completion_stream b txs forward data stream) (fun _ => True).
Proof.
  revert data. induction stream as [|[i r] stream IH]; intros data; simpl; [by apply sends_ret|].
  apply sends_bind_any; [destruct r as [[m|]|e|]; walk_sends|intros []; walk_sends; apply IH].
Qed.

Lemma send_last_messages_not_end events l :
  sends not_end (send_last_messages events l) (fun _ => True).
Proof. induction l as [|[c indices] l IH]; simpl; walk_sends; exact IH. Qed.

Lemma process_batches_not_end events m out :
  sends not_end (process_batches events m out) (fun _ => True).
Proof.
  revert m. induction out as [|[[[c chunk] ds]|e|site] out IH]; intros m; simpl;
    try apply send_last_messages_not_end; unfold completion_output_response; walk_sends; try apply IH.
  apply sends_attempt_any. walk_sends.
Qed.

Lemma detection_streams_of_not_end ctx headers dets inputs choices :
  sends not_end (detection_streams_of ctx headers dets inputs choices) (fun _ => True).
Proof. induction choices as [|c choices IH]; simpl; [by apply sends_ret|]. walk_sends; exact IH. Qed.

Lemma completions_handle_output_not_end ctx task dets stream :
  sends not_end (completions_handle_output ctx task dets stream) (fun _ => True).
Proof.
  unfold completions_handle_output, completion_final_message, read_empty_output.
  walk_sends; first [apply process_completion_not_end | apply process_batches_not_end
                    | apply detection_streams_of_not_end | apply sends_attempt_any; walk_sends].
Qed.
End completions_streaming_lemmas.

(** ** Properties *)
Section completions_streaming_properties.
Context {SJ : SerdeJson} {RT : Runtime} {RL : RuntimeLaws RT} {CN : Connector} {SV : Services}
  {ST : Stamp} {SC : Schedule}.
Notation Msg := (outcome OrchError (option Completion)).
Notation CTask := (CompletionsDetectionTask (H := Headers)).

(** C8. The answers to the batches of a completions stream do not depend on the
    interleaving: as long as each batch arrives after its input was passed on
    and the batch stream ends after the model's, the client receives one
    response per batch, in order, computed from what was recorded in the end,
    and then, once per choice that had a batch, the last message of the choice
    unless the choice's last batch reached it. *)
Theorem completion_batches_answered txs stream bs sent rs :
  let events := completion_events true txs stream in
  StronglySorted Z.lt stream.*1 ->
  Forall (completion_answerable events) bs -> causal 1 events bs rs -> (length rs <= length bs)%nat ->
  exists answers order,
    process_batches events ∅ (Ok <$> bs) (io_of sent rs) =
      (Ok (), io_of (sent ++ ((fun r => Ok (Some r)) <$> answers) ++ (order ≫= last_message events bs)) []) /\
    Forall2 (fun b r => completion_batch_response (final_entry events b.1.1) b.1.1 b.1.2 b.2 = Ok r)
      bs answers /\
    NoDup order /\ forall c, c ∈ order <-> exists b, b ∈ bs /\ b.1.1 = c.
Proof.
  intros events Hs Hb Hc Hl.
  destruct (process_batches_run txs stream [] bs sent rs) as (answers & E & H2); try done.
  { by apply completion_events_in_order. }
  exists answers, (hash_keys (tracked bs)). split; [exact E|]. split; [exact H2|]. apply tracked_keys.
Qed.

Lemma completions_stream_end ctx (task : CTask) :
  (completions_streaming_task ctx task (io_of [] [])).1 = Ok () ->
  exists l, spawn None (completions_streaming_task ctx task) = l ++ [Ok None] /\
    Forall (fun m => m <> Ok None) l.
Proof.
  intros H. unfold completions_streaming_task in *.
  apply (spawn_last (fun m : Msg => m <> Ok None) _ (Ok None) (fun _ => True)) in H.
  - destruct H as (l & E & Hl). by exists l.
  - walk_sends; first [apply process_completion_not_end | apply completions_handle_output_not_end].
Qed.

(** The end of a completions stream is signalled exactly once, last, to a
    client that stays connected, unless the task panics. *)
Theorem completions_stream_ends_once ctx (task : CTask) :
  (completions_streaming_task ctx task (io_of [] [])).1 = Ok () ->
  exists l, handle_completions_streaming None ctx task = Ok (CompletionStreaming (l ++ [Ok None])) /\
    Forall (fun m => m <> Ok None) l.
Proof.
  intros (l & E & Hl)%completions_stream_end. exists l. unfold handle_completions_streaming. by rewrite E.
Qed.

(** A request whose output detectors all run on chunks, whose services work,
    and whose model's stream is the given one: the channels of its choices
    carry [inputs], of which the chunker makes the chunks in [choices]. *)
Record working_request (ctx : Context) (task : CTask) (dets : gmap string DetectorParams)
    (chunker : string) (stream : list (Z * Msg)) (txs : InputTxs) (choices : list (Z * list Chunk))
    (inputs : Z -> list (Z * string)) (m : CompletionMetadata) : Prop := {
  wr_admitted : completions_admitted ctx task;
  wr_stream : exists client, openai_client "completions_detection/streaming.rs:108" ctx = Ok client /\
    completion_stream client (cmdt_headers task) (cmdt_request task) = Ok stream;
  wr_sorted : StronglySorted Z.lt stream.*1;
  wr_detectors : dets <> ∅ /\ rd_output (cr_detectors (cmdt_request task)) <> ∅ /\
    partition_detectors "completions_detection/streaming.rs:233" ctx
      (rd_output (cr_detectors (cmdt_request task))) = Ok (dets, ∅);
  wr_channels : input_channels (E := OrchError) "completions_detection/streaming.rs:247"
    (choice_count (cr_extra (cmdt_request task))) = Ok txs /\ choices.*1 = hash_keys txs;
  wr_choices : forall i chunks, (i, chunks) ∈ choices ->
    let events := completion_events true (Some txs) stream in
    inputs_for i events = Ok <$> inputs i /\
    healthy_pipeline ctx (cmdt_headers task) dets chunker (inputs i) chunks /\
    StronglySorted chunk_lt chunks /\
    (forall chunk, chunk ∈ chunks -> completion_answerable events (i, chunk, []));
  wr_metadata : metadata (state_of (completion_events true (Some txs) stream)) = Some m
}.

(** The response to a chunk of choice [i]: its text, and the detections of all
    detectors on it, with a warning if there are any. *)
Definition answers_chunk (fs : list (Z * Chunk -> list Detection)) (i : Z) (chunk : Chunk) (r : Completion)
    : Prop :=
  exists ds, ds ≡ₚ fs ≫= (fun f => f (i, chunk)) /\
    cch_text <$> head (cp_choices r) = Some (chunk_text chunk) /\
    cp_detections r = Some {| cds_input := [];
      cds_output := [ {| cod_choice_index := i; cod_results := ds |} ] |} /\
    (ds <> [] -> cp_warnings r = [unsuitable_output_warning]).

(** The batches of a request, when every chunk of every choice has one. *)
Lemma delivered_batch fs (choices : list (Z * list Chunk)) (bs : list Batch) :
  (forall i chunks, (i, chunks) ∈ choices ->
     Forall2 (delivers fs) (pair i <$> chunks) (filter (fun o => item_choice o = Some i) (Ok <$> bs))) ->
  (forall o, o ∈ Ok (E := OrchError) <$> bs -> exists i, i ∈ choices.*1 /\ item_choice o = Some i) ->
  forall b, b ∈ bs -> exists chunks, (b.1.1, chunks) ∈ choices /\ b.1.2 ∈ chunks.
Proof.
  intros Hd Hall b Hb.
  assert (Ho : Ok b ∈ Ok (E := OrchError) <$> bs) by (apply list_elem_of_fmap; by exists b).
  destruct (Hall _ Ho) as (i & ([i' chunks] & -> & Hin)%list_elem_of_fmap & [= Hi]).
  exists chunks. rewrite Hi. split; [done|].
  assert (Hf : Ok b ∈ filter (fun o => item_choice o = Some i') (Ok (E := OrchError) <$> bs)).
  { apply list_elem_of_filter. split; [simpl; congruence|done]. }
  apply list_elem_of_lookup in Hf as [n Hn].
  destruct (Forall2_lookup_r _ _ _ _ _ (Hd _ _ Hin) Hn) as (p & Hp & ds & [= ->] & _).
  apply list_elem_of_lookup_2, list_elem_of_fmap in Hp as (c & -> & Hc). done.
Qed.

Lemma delivered_choices fs (choices : list (Z * list Chunk)) (bs : list Batch) c :
  (forall i chunks, (i, chunks) ∈ choices ->
     Forall2 (delivers fs) (pair i <$> chunks) (filter (fun o => item_choice o = Some i) (Ok <$> bs))) ->
  (forall o, o ∈ Ok (E := OrchError) <$> bs -> exists i, i ∈ choices.*1 /\ item_choice o = Some i) ->
  (exists b, b ∈ bs /\ b.1.1 = c) <-> exists chunks, (c, chunks) ∈ choices /\ chunks <> [].
Proof.
  intros Hd Hall. split.
  - intros (b & Hb & <-). destruct (delivered_batch fs choices bs Hd Hall b Hb) as (chunks & Hin & Hc).
    exists chunks. split; [done|]. intros ->. by apply elem_of_nil in Hc.
  - intros ([|chunk chunks] & Hin & Hne); [done|]. specialize (Hd _ _ Hin). rewrite fmap_cons in Hd.
    apply Forall2_cons_inv_l in Hd as (o & os & _ & _ & Eo).
    assert (Ho : o ∈ filter (fun o => item_choice o = Some c) (Ok (E := OrchError) <$> bs)) by (rewrite Eo; left).
    apply list_elem_of_filter in Ho as [Hc (b & -> & Hb)%list_elem_of_fmap].
    exists b. split; [done|]. by injection Hc.
Qed.

(** The answers of a choice, when its batches deliver its chunks. *)
Lemma choice_answers fs txs stream bs answers i chunks :
  Forall2 (fun b r => completion_batch_response (final_entry (completion_events true txs stream) b.1.1)
             b.1.1 b.1.2 b.2 = Ok r) bs answers ->
  Forall2 (delivers fs) (pair i <$> chunks) (filter (fun o => item_choice o = Some i) (Ok <$> bs)) ->
  Forall2 (answers_chunk fs i) chunks
    (filter (fun r : Completion => cch_index <$> head (cp_choices r) = Some i) answers).
Proof.
  intros Hr Hd.
  assert (Hf : Forall2 (fun b r => completion_batch_response
      (final_entry (completion_events true txs stream) b.1.1) b.1.1 b.1.2 b.2 = Ok r)
    (filter (fun b : Batch => b.1.1 = i) bs)
    (filter (fun r : Completion => cch_index <$> head (cp_choices r) = Some i) answers)).
  { eapply Forall2_filter; [|exact Hr]. intros b r H. simpl in H.
    rewrite (completion_batch_response_index _ _ _ _ _ _ H). split; congruence. }
  assert (Ef : filter (fun o => item_choice o = Some i) (Ok (E := OrchError) <$> bs) =
               Ok <$> filter (fun b : Batch => b.1.1 = i) bs).
  { clear. induction bs as [|b bs IH]; [done|]. rewrite fmap_cons, !filter_cons. simpl.
    destruct (decide (b.1.1 = i)) as [E|N].
    - rewrite decide_True by congruence. by rewrite fmap_cons, IH.
    - rewrite decide_False by congruence. done. }
  rewrite Ef in Hd. apply Forall2_fmap_1 in Hd.
  eapply Forall2_compose; [|exact Hd|exact Hf].
  intros c b r (ds & [= Hb] & Hds) Hresp. simpl in *. subst b. simpl in *.
  destruct (completion_batch_response_text _ _ _ _ _ Hresp) as (H1 & H2 & H3).
  exists ds. done.
Qed.

(** C1. A working completions stream, from the model's messages to the client's:
    the detection streams can be merged into batches such that, however the
    tasks interleave, the client receives, for each choice, exactly one message
    per chunk of the choice's text, in order, with that chunk's text and the
    detections of every requested detector on it; then, once for each choice
    that has chunks and for no other, the last message of the choice unless its
    last batch reached it; the final message if there is something to say in it;
    and the end of the stream, once.  Nothing else is sent. *)
Theorem completions_stream_delivers ctx (task : CTask) dets chunker stream txs choices inputs m :
  working_request ctx task dets chunker stream txs choices inputs m ->
  let events := completion_events true (Some txs) stream in
  exists streams bs,
    collect ((fun ch => text_contents_detection_streams ctx (cmdt_headers task) dets ch.1 (Ok <$> inputs ch.1))
               <$> choices) = Ok streams /\
    batch_stream_yields (mjoin streams) (completion_batcher_new (Z.of_nat (size dets))) (Ok <$> bs) /\
    forall rs, causal 1 events bs rs -> (length rs <= length bs)%nat ->
    exists answers order,
      handle_completions_streaming (SC := {| batches _ _ := Ok <$> bs; max_batches _ _ := []; reads := rs |}) None ctx task =
        Ok (CompletionStreaming (((fun r => Ok (Some r)) <$> answers) ++ (order ≫= last_message events bs) ++
                                 completion_tail events m ++ [Ok None])) /\
      (forall i chunks, (i, chunks) ∈ choices ->
        Forall2 (answers_chunk (chunk_detections ctx (cmdt_headers task) <$> hash_iter dets) i) chunks
          (filter (fun r => cch_index <$> head (cp_choices r) = Some i) answers)) /\
      (forall r, r ∈ answers -> exists i, i ∈ choices.*1 /\ cch_index <$> head (cp_choices r) = Some i) /\
      NoDup order /\ (forall c, c ∈ order <-> exists chunks, (c, chunks) ∈ choices /\ chunks <> []).
Proof.
  intros [Ha (client & Hcl & Hst) Hs (Hne & Hout & Hp) [Htx Hk] Hch Hm] events. fold events in Hch, Hm.
  set (fs := chunk_detections ctx (cmdt_headers task) <$> hash_iter dets).
  destruct (completion_streams_deliver_at ctx (cmdt_headers task) dets chunker choices inputs)
    as (streams & out & Hcol & Hy & Hd & Hall); [done|..].
  { rewrite Hk. unfold hash_keys. rewrite (hash_iter_perm txs). apply NoDup_fst_map_to_list. }
  { apply Forall_forall. intros [i chunks] Hin. apply (Hch i chunks Hin). }
  { intros i chunks Hin. apply (Hch i chunks Hin). }
  assert (Hbs : exists bs, out = Ok <$> bs).
  { clear -Hall. induction out as [|o out IH]; [by exists []|].
    destruct IH as [bs ->]; [intros o' Ho; apply Hall; by right|].
    destruct (Hall o (list_elem_of_here _ _)) as (i & _ & Ho). destruct o as [b| |]; try done.
    by exists (b :: bs). }
  destruct Hbs as [bs ->]. exists streams, bs. split; [done|]. split; [done|]. intros rs Hc Hl.
  assert (Hans : Forall (completion_answerable events) bs).
  { apply Forall_forall. intros [[c chunk] ds] Hb.
    destruct (delivered_batch fs choices bs Hd Hall _ Hb) as (chunks & Hin & Hc'). simpl in *.
    destruct (Hch _ _ Hin) as (_ & _ & _ & Hanswer). exact (Hanswer _ Hc'). }
  destruct (process_batches_run (Some txs) stream [] bs [] rs
    (completion_events_in_order _ _ _ Hs) Hans (Forall_nil_2 _) Hc Hl) as (answers & Erun & H2).
  exists answers, (hash_keys (tracked bs)). split.
  2: { split; [|split; [|split; [apply tracked_keys|]]].
       - intros i chunks Hin. eapply choice_answers; [exact H2|]. by apply Hd.
       - intros r Hr. apply list_elem_of_lookup in Hr as [n Hn].
         destruct (Forall2_lookup_r _ _ _ _ _ H2 Hn) as (b & Hb & Hresp).
         apply completion_batch_response_index in Hresp as ->. apply list_elem_of_lookup_2 in Hb.
         destruct (delivered_batch fs choices bs Hd Hall b Hb) as (chunks & Hin & _).
         exists b.1.1. split; [|done]. apply list_elem_of_fmap. by exists (b.1.1, chunks).
       - intros c. rewrite (proj2 (tracked_keys bs)). by apply (delivered_choices fs). }
  unfold handle_completions_streaming. do 2 f_equal. eapply (spawn_io _ (Ok ()) _ []).
  rewrite (completions_streaming_admitted _ _ _ _ _ Ha Hcl Hst Hout).
  unfold completions_handle_output, task_bind, lift, consumer_spawned. rewrite Hp.
  rewrite bool_decide_eq_false_2 by done. rewrite Htx, process_completion_quiet. fold events.
  rewrite (detection_streams_of_Ok _ _ _ _ _ streams).
  2: { rewrite <- Hk, <- Hcol, <- list_fmap_compose. f_equal. apply list_fmap_ext.
       intros n [i chunks] Hn. simpl. apply list_elem_of_lookup_2 in Hn.
       by destruct (Hch _ _ Hn) as [-> _]. }
  cbn [batches reads io_tx io_of]. change (Build_Io (Build_Sender [] None) rs) with (io_of ([] : list Msg) rs).
  fold events in Erun. change (tracked []) with (∅ : gmap Z (list (Z * Z))) in Erun. rewrite Erun.
  rewrite completion_final_message_run with (m := m) by done.
  rewrite tell_io, <- !app_assoc. done.
Qed.

(** A streamed completion whose masked prompt has detections is answered
    without the model: one message - no choices, these detections, a warning of
    unsuitable input, the token count of the whole prompt - and the end. *)
Theorem completions_stream_blocked ctx (task : CTask) d ds client count :
  let request := cmdt_request task in
  let input := rd_input (cr_detectors request) in
  completions_validated ctx task = Ok () -> input <> ∅ ->
  text_contents_detections ctx (cmdt_headers task) input (completion_inputs request) = Ok (d :: ds) ->
  openai_client "completions_detection/streaming.rs:174" ctx = Ok client ->
  tokenize_openai client (cmdt_headers task)
    (input_tokenize_request (cr_model request) (cr_prompt request)) = Ok count ->
  handle_completions_streaming None ctx task = Ok (CompletionStreaming
    [Ok (Some {| cp_id := new_v4_simple; cp_object := "text_completion";
                 cp_created := as_i64 timestamp_secs; cp_model := cr_model request; cp_choices := [];
                 cp_usage := Some {| prompt_tokens := tks_count count; total_tokens := 0;
                                     completion_tokens := 0; prompt_token_details := None;
                                     completion_token_details := None |};
                 cp_system_fingerprint := None;
                 cp_detections := Some {| cds_input := [{| cid_message_index := 0; cid_results := d :: ds |}];
                                          cds_output := [] |};
                 cp_warnings := [unsuitable_input_warning] |});
     Ok None]).
Proof.
  intros request input Hv Hne Hds Hcl Htk. unfold handle_completions_streaming.
  do 2 f_equal. eapply (spawn_io _ (Ok ()) _ []).
  unfold completions_streaming_task, task_bind, attempt, lift.
  unfold completions_validated in Hv. fold request in Hv. cbv zeta in Hv. fold request. fold input in Hv |- *.
  rewrite Hv, bool_decide_eq_false_2 by done.
  unfold completions_stream_input_detection. fold request. fold (completion_inputs request).
  rewrite Hds. cbn [mbind outcome_bind]. rewrite Hcl. cbn [mbind outcome_bind]. rewrite Htk. reflexivity.
Qed.
End completions_streaming_properties.

(** ** Witnesses *)
Section witnesses.
#[local] Existing Instance fifo_runtime.
#[local] Existing Instance fifo_runtime_laws.
#[local] Existing Instance simple_json.
#[local] Existing Instance settings_connector.
#[local] Existing Instance ex_stamp.

Definition ex_text_message (text : string) (finish : option string) : Completion :=
  {| cp_id := "id"; cp_object := "text_completion"; cp_created := 7; cp_model := "model";
     cp_choices := [ {| cch_index := 0; cch_text := text; cch_logprobs := None;
                        cch_finish_reason := finish; cch_stop_reason := None;
                        cch_prompt_logprobs := None |} ];
     cp_usage := None; cp_system_fingerprint := None; cp_detections := None; cp_warnings := [] |}.
(** A model that streams [l]. *)
Definition ex_completion_services (l : list (outcome OrchError (option Completion))) : Services :=
  with_openai ex_services (fun _ _ _ => Err ex_unavailable) (fun _ _ _ => Ok (CompletionStreaming l)).

Definition ex_run (l : list (outcome OrchError (option Completion))) (rs : list nat)
    (output : gmap string DetectorParams) : list (outcome OrchError (option Completion)) :=
  match @handle_completions_streaming _ _ _ (ex_completion_services l) _ (ex_schedule rs) None ex_ctx
          (ex_completion_task ∅ output) with
  | Ok (CompletionStreaming rx) => rx
  | _ => []
  end.
Definition received_completion (msg : outcome OrchError (option Completion))
    : option (option string * nat * list DetectionWarningReason) :=
  match msg with
  | Ok (Some r) =>
      Some (cch_text <$> head (cp_choices r),
            length (mjoin (cod_results <$> default [] (cds_output <$> cp_detections r))),
            cdw_type <$> cp_warnings r)
  | _ => None
  end.

Definition ex_grounded_dets : gmap string DetectorParams := {[ "hap" := ∅; "grounded" := ∅ ]}.

(** The margins of a completions stream.  A model that ends its stream
    without a message for a choice kills the task: the empty input that is
    sent for the choice comes back as a batch, whose entry is missing, and the
    client's stream stops without its end being signalled.  A model that
    finishes a choice without text is reported by an [EmptyOutput] warning in
    the final message - unless there are detectors on the whole text, whose
    warnings replace it. *)
Theorem completions_stream_margins :
  ex_run [] [] ex_dets = [] /\
  received_completion <$> ex_run [Ok (Some (ex_text_message "" (Some "stop")))] [] ex_dets =
    [Some (Some "", 1%nat, [UnsuitableOutput]); Some (None, 0%nat, [EmptyOutput]); None] /\
  received_completion <$> ex_run [Ok (Some (ex_text_message "" (Some "stop")))] [] ex_grounded_dets =
    [Some (Some "", 1%nat, [UnsuitableOutput]); Some (None, 1%nat, []); None].
Proof. split; [|split]; vm_compute; reflexivity. Qed.

#[local] Ltac in_list := repeat first [ left | right ].

Definition ex_texts : list (outcome OrchError (option Completion)) :=
  [Ok (Some (ex_text_message "Hello. " None)); Ok (Some (ex_text_message "Bye." None));
   Ok (Some (ex_text_message "" (Some "stop")))].
Definition ex_text_stream : list (Z * outcome OrchError (option Completion)) :=
  imap (fun i m => (Z.of_nat i, m)) ex_texts.
Definition ex_text_txs : InputTxs := {[ 0 := () ]}.
Definition ex_text_events : list (consumer_event Completion) :=
  completion_events true (Some ex_text_txs) ex_text_stream.
Definition ex_text_chunks : list Chunk :=
  match open_chunk_stream (SV := ex_completion_services ex_texts) ex_ctx 0
          (inputs_for 0 ex_text_events) "sentence" with
  | Ok (_, l) => omap (fun o => match o with Ok c => Some c | _ => None end) l
  | _ => []
  end.

Lemma ex_text_events_eq : ex_text_events =
  [SetMetadata {| cmd_id := "id"; cmd_created := 7; cmd_model := "model" |};
   InsertCompletion 0 0 (ex_text_message "Hello. " None); SendInput 0 (Ok (0, "Hello. "));
   InsertCompletion 0 1 (ex_text_message "Bye." None); SendInput 0 (Ok (1, "Bye."));
   InsertCompletion 0 2 (ex_text_message "" (Some "stop")); SetEmptyOutput].
Proof. vm_compute. reflexivity. Qed.

Lemma ex_text_answerable chunk ds :
  input_start_index chunk = input_end_index chunk -> input_end_index chunk ∈ [0; 1] ->
  completion_answerable ex_text_events (0, chunk, ds).
Proof.
  intros E Hin. unfold completion_answerable, passed_on. rewrite E, ex_text_events_eq.
  apply elem_of_cons in Hin as [->|Hin]; [|apply list_elem_of_singleton in Hin as ->];
    (split; [eexists; in_list|]).
  - exists 0, (ex_text_message "Hello. " None). split; [in_list|lia].
  - exists 1, (ex_text_message "Bye." None). split; [in_list|lia].
Qed.

Definition ex_text_batches : list Batch :=
  (fun p => (0, {| input_start_index := p.1; input_end_index := p.1; chunk_start := 0;
                   chunk_end := char_count p.2; chunk_text := p.2 |}, []))
    <$> [(0, "Hello. "); (1, "Bye.")].

Lemma completion_batches_answered_witness :
  exists answers (order : list Z), Forall2 (fun b r => completion_batch_response (final_entry ex_text_events b.1.1)
      b.1.1 b.1.2 b.2 = Ok r) ex_text_batches answers /\
    forall c, c ∈ order <-> exists b, b ∈ ex_text_batches /\ b.1.1 = c.
Proof.
  destruct (@completion_batches_answered simple_json fifo_runtime fifo_runtime_laws (Some ex_text_txs)
    ex_text_stream ex_text_batches [] [3; 5]%nat (enumerate_sorted _))
    as (answers & order & _ & H1 & _ & H2).
  - apply Forall_fmap, Forall_forall. intros [i text] Hin. apply ex_text_answerable; [reflexivity|].
    simpl. set_solver.
  - fold ex_text_events. split; [|split; [|exact I]]; (constructor; [|constructor]); unfold passed_on;
      rewrite ex_text_events_eq; eexists; simpl; in_list.
  - simpl. lia.
  - exists answers, order. exact (conj H1 H2).
Defined.

Lemma completions_stream_ends_once_witness :
  exists l, @handle_completions_streaming _ _ _ (ex_completion_services ex_texts) _ (ex_schedule [3]%nat)
      None ex_ctx (ex_completion_task ∅ ex_dets) = Ok (CompletionStreaming (l ++ [Ok None])) /\
    Forall (fun m => m <> Ok None) l.
Proof.
  destruct (@completions_stream_ends_once simple_json fifo_runtime settings_connector
    (ex_completion_services ex_texts) ex_stamp (ex_schedule [3]%nat) ex_ctx (ex_completion_task ∅ ex_dets))
    as (l & E & Hl).
  - vm_compute. reflexivity.
  - exists l. exact (conj E Hl).
Defined.

Lemma completions_stream_blocked_witness :
  exists c, @handle_completions_streaming _ _ _ (ex_completion_services []) _ (ex_schedule []) None ex_ctx
    (ex_completion_task ex_dets ∅) = Ok (CompletionStreaming [Ok (Some c); Ok None]) /\ cp_choices c = [].
Proof.
  destruct (text_contents_detections (SV := ex_completion_services []) ex_ctx () ex_dets
    (completion_inputs (cmdt_request (ex_completion_task ex_dets ∅)))) as [[|d ds]| |] eqn:E;
    [by vm_compute in E| |by vm_compute in E..].
  destruct (openai_client "completions_detection/streaming.rs:174" ex_ctx) as [client| |] eqn:Ec;
    [|by vm_compute in Ec..].
  eexists. split.
  - eapply (@completions_stream_blocked simple_json fifo_runtime settings_connector
      (ex_completion_services []) ex_stamp (ex_schedule []) ex_ctx (ex_completion_task ex_dets ∅)).
    + vm_compute. reflexivity.
    + apply map_non_empty_singleton.
    + exact E.
    + exact Ec.
    + reflexivity.
  - reflexivity.
Defined.

Lemma ex_text_healthy :
  healthy_pipeline (SV := ex_completion_services ex_texts) ex_ctx (() : @Headers _ _ ex_services)
    ex_dets "sentence" [(0, "Hello. "); (1, "Bye.")] ex_text_chunks.
Proof.
  assert (Hid : forall id, is_Some (ex_dets !! id) -> id = "hap").
  { intros id [p Hp]. unfold ex_dets in Hp. by apply lookup_singleton_Some in Hp as [-> _]. }
  split; [|done| | | |].
  - intros id ->%Hid. eexists. split; [vm_compute; reflexivity|reflexivity].
  - eexists. split; [vm_compute; reflexivity|vm_compute; reflexivity].
  - intros id ->%Hid. eexists. split; [vm_compute; reflexivity|done].
  - vm_compute. lia.
  - vm_compute. lia.
Qed.

Lemma ex_working :
  @working_request simple_json fifo_runtime settings_connector (ex_completion_services ex_texts) ex_stamp
    ex_ctx (ex_completion_task ∅ ex_dets) ex_dets "sentence" ex_text_stream ex_text_txs
    [(0, ex_text_chunks)] (fun _ => [(0, "Hello. "); (1, "Bye.")])
    {| cmd_id := "id"; cmd_created := 7; cmd_model := "model" |}.
Proof.
  split.
  - split; vm_compute; reflexivity.
  - destruct (openai_client "completions_detection/streaming.rs:108" ex_ctx) as [client| |] eqn:Ec;
      [|by vm_compute in Ec..].
    exists client. split; [reflexivity|reflexivity].
  - apply enumerate_sorted.
  - split; [apply map_non_empty_singleton|]. split; [apply map_non_empty_singleton|]. vm_compute. reflexivity.
  - split; vm_compute; reflexivity.
  - intros i chunks [-> ->]%list_elem_of_singleton%pair_equal_spec. fold ex_text_events.
    split; [vm_compute; reflexivity|]. split; [exact ex_text_healthy|]. split.
    + unfold chunk_lt. apply (bool_decide_unpack _). vm_compute. exact I.
    + intros chunk Hin.
      assert (E : Forall (fun c => input_start_index c = input_end_index c /\ input_end_index c ∈ [0; 1])
        ex_text_chunks) by (apply (bool_decide_unpack _); vm_compute; exact I).
      rewrite Forall_forall in E. destruct (E chunk Hin). by apply ex_text_answerable.
  - fold ex_text_events. rewrite ex_text_events_eq. reflexivity.
Qed.

Lemma completions_stream_delivers_witness :
  exists bs answers lasts final,
    handle_completions_streaming (SV := ex_completion_services ex_texts)
      (SC := {| batches _ _ := Ok <$> bs; max_batches _ _ := []; reads := [] |}) None ex_ctx (ex_completion_task ∅ ex_dets) =
      Ok (CompletionStreaming (((fun r => Ok (Some r)) <$> answers) ++ lasts ++ final ++ [Ok None])) /\
    Forall2 (fun chunk r => cch_text <$> head (cp_choices r) = Some (chunk_text chunk)) ex_text_chunks
      (filter (fun r => cch_index <$> head (cp_choices r) = Some 0) answers).
Proof.
  destruct (@completions_stream_delivers simple_json fifo_runtime fifo_runtime_laws settings_connector
    (ex_completion_services ex_texts) ex_stamp ex_ctx (ex_completion_task ∅ ex_dets) ex_dets "sentence"
    ex_text_stream ex_text_txs _ _ _ ex_working) as (streams & bs & _ & _ & H).
  assert (Hcausal : causal 1 ex_text_events bs []).
  { clear. induction bs as [|[[c chunk] ds] bs IH]; [exact I|]. split; [constructor|exact IH]. }
  destruct (H [] Hcausal (Nat.le_0_l _)) as (answers & order & E & Ha & _).
  exists bs, answers. eexists _, _. split; [exact E|].
  specialize (Ha 0 ex_text_chunks (list_elem_of_here _ _)).
  eapply Forall2_impl; [exact Ha|]. intros chunk r (ds & _ & Ht & _). exact Ht.
Defined.
End witnesses.
