(* ===== verification/StreamingContent.v ===== *)
(** * Detection on a stream of contents

    src/orchestrator/handlers/streaming_content_detection.rs: the client sends
    contents, the first message with the detectors to run, and receives, as
    chunks are completed, the detections on each.  An input stream is the list
    of the messages it yields; that the source numbers them is the positions of
    the list. *)
From Stdlib Require Import Sorted.
From S2P Require Import Prelude Collections External Errors Utf8 Hostname Config Detection.
From S2P Require Import Chunk Batcher BatchStream BatchGroups Clients OpenAi CompletionState.
From S2P Require Import Models Utils Tasks Streams DetectionHandlers Completions Streaming.
#[local] Open Scope string_scope.
#[local] Open Scope list_scope.
#[local] Open Scope Z_scope.
#[local] Open Scope task_scope.

Section streaming_content.
Context {SJ : SerdeJson} {RT : Runtime} {CN : Connector} {SV : Services} {SC : Schedule}.

Notation InMsg := (outcome OrchError StreamingContentDetectionRequest).
Notation OutMsg := (outcome OrchError StreamingContentDetectionResponse).

Record StreamingContentDetectionTask {H : Type} := {
  scdt_headers : H;
  scdt_input_stream : list (Z * InMsg)
}.

(** The detectors are those of the first message, which is only peeked at. *)
Definition extract_detectors (input_stream : list (Z * InMsg)) : outcome OrchError (gmap string DetectorParams) :=
  match input_stream with
  | (_, Ok msg) :: _ =>
      match sc_detectors msg with
      | Some detectors =>
          if bool_decide (detectors = ∅) then Err (Validation "`detectors` must not be empty")
          else Ok detectors
      | None => Err (Validation "`detectors` is required for the first message")
      end
  | (_, Err error) :: _ => Err error
  | _ => Err (Validation "`detectors` is required for the first message")
  end.

(** What the task that consumes the input stream sends on. *)
Definition content_inputs (input_stream : list (Z * InMsg)) : list (outcome OrchError (Z * string)) :=
  omap (fun '(index, result) =>
    match result with
    | Ok message => Some (Ok (index, sc_content message))
    | Err error => Some (Err error)
    | Panic _ => None
    end) input_stream.

Definition content_response (chunk : Chunk) (detections : list Detection)
    : outcome OrchError StreamingContentDetectionResponse :=
  results ← collect (content_analysis_from <$> detections);
  Ok {| scr_detections := results; scr_processed_index := as_u32 (chunk_end chunk);
        scr_start_index := as_u32 (chunk_start chunk) |}.

Fixpoint process_content_batches (detection_batch_stream : list (outcome OrchError Batch))
    : Task OutMsg () :=
  match detection_batch_stream with
  | Ok (_, chunk, detections) :: stream =>
      do! response <- lift (content_response chunk detections);
      do! connected <- tell_ok (Ok response);
      if connected : bool then process_content_batches stream else task_ret ()
  | Err error :: _ => tell (Err error)
  | _ => task_ret ()
  end.

Definition handle_detection (ctx : Context) (headers : Headers) (dets : gmap string DetectorParams)
    (input_stream : list (Z * InMsg)) : Task OutMsg () :=
  do! detection_streams <- attempt (lift (text_contents_detection_streams ctx headers dets 0
                                            (content_inputs input_stream)));
  match detection_streams with
  | inl streams =>
      process_content_batches (max_batches streams (max_batcher_new (Z.of_nat (size dets))))
  | inr error => tell (Err error)
  end.

Definition streaming_content_task (ctx : Context) (task : StreamingContentDetectionTask (H := Headers))
    : Task OutMsg () :=
  do! extracted <- attempt (lift (extract_detectors (scdt_input_stream task)));
  match extracted with
  | inr error => tell (Err error)
  | inl dets =>
      do! valid <- attempt (lift (validate_detectors (hash_iter dets) (detectors (ctx_config ctx))
                                    [TextContents] false));
      match valid with
      | inr error => tell (Err error)
      | inl _ => handle_detection ctx (scdt_headers task) dets (scdt_input_stream task)
      end
  end.

Definition handle_streaming_content (reader : option nat) (ctx : Context)
    (task : StreamingContentDetectionTask (H := Headers)) : outcome OrchError (list OutMsg) :=
  Ok (spawn reader (streaming_content_task ctx task)).
End streaming_content.

(** ** Lemmas *)
Section streaming_content_lemmas.
Context {SJ : SerdeJson} {RT : Runtime} {RL : RuntimeLaws RT} {CN : Connector} {SV : Services}
  {SC : Schedule}.
Notation InMsg := (outcome OrchError StreamingContentDetectionRequest).
Notation OutMsg := (outcome OrchError StreamingContentDetectionResponse).

(** The response to a batch: the chunk's span, and the detections on it. *)
Definition responds (chunk : Chunk) (ds : list Detection) (r : StreamingContentDetectionResponse) : Prop :=
  scr_start_index r = as_u32 (chunk_start chunk) /\ scr_processed_index r = as_u32 (chunk_end chunk) /\
  (detection_from_content_analysis <$> scr_detections r) ≡ₚ ds.

Lemma content_analysis_back d r :
  content_analysis_from d = Ok r -> detection_from_content_analysis r = d.
Proof.
  unfold content_analysis_from. destruct d as [[s|] [e|] [x|] id ty cl sc ev md]; simpl; try done.
  intros [= <-]. unfold detection_from_content_analysis. simpl.
  by rewrite map_or_default_then_some by exact detection_evidence_from_inv.
Qed.

Lemma content_response_responds chunk ds r :
  content_response chunk ds = Ok r -> responds chunk ds r.
Proof.
  unfold content_response. intros (results & H%collect_Ok & [= <-])%bind_Ok.
  split; [done|]. split; [done|]. simpl. apply reflexive_eq.
  revert results H. induction ds as [|d ds IH]; intros [|x results] H; try done.
  injection H as H1 H2. rewrite fmap_cons. rewrite (content_analysis_back d x H1). f_equal. by apply IH.
Qed.

Lemma content_response_total chunk ds :
  (forall d, d ∈ ds -> has_span d) -> exists r, content_response chunk ds = Ok r.
Proof.
  intros H. unfold content_response.
  destruct (collect_total content_analysis_from ds) as [results ->]; [auto with guardrails|by eexists].
Qed.

(** The task sends the responses in order, and at most one error, last. *)
Lemma process_content_batches_run out sent rs :
  exists oks e, io_tx (process_content_batches out (io_of sent rs)).2 =
      Build_Sender (sent ++ (Ok <$> oks) ++ e) None /\
    (e = [] \/ exists err, e = [Err err]) /\
    Forall (fun r => exists b, Ok b ∈ out /\ responds b.1.2 b.2 r) oks.
Proof.
  revert sent rs. induction out as [|[[[c chunk] ds]|err|site] out IH]; intros sent rs.
  - exists [], []. simpl. rewrite app_nil_r. split; [done|]. split; [by left|constructor].
  - simpl. unfold task_bind, lift. destruct (content_response chunk ds) as [r|err|site] eqn:E; simpl.
    + destruct (IH (sent ++ [Ok r]) rs) as (oks & e & Eq & He & Hf).
      exists (r :: oks), e. split; [|split; [done|]].
      * etrans; [exact Eq|]. f_equal. by rewrite fmap_cons, <- !app_assoc.
      * constructor; [exists (c, chunk, ds); split; [left|by apply content_response_responds]|].
        eapply Forall_impl; [exact Hf|]. intros r' (b & Hb & Hr'). exists b. split; [by right|done].
    + exists [], []. rewrite app_nil_r. split; [done|]. split; [by left|constructor].
    + exists [], []. rewrite app_nil_r. split; [done|]. split; [by left|constructor].
  - exists [], [Err err]. split; [done|]. split; [right; by exists err|constructor].
  - exists [], []. simpl. rewrite app_nil_r. split; [done|]. split; [by left|constructor].
Qed.

Lemma process_content_batches_Ok (bs : list Batch) sent rs :
  (forall b d, b ∈ bs -> d ∈ b.2 -> has_span d) ->
  exists oks, process_content_batches (Ok <$> bs) (io_of sent rs) = (Ok (), io_of (sent ++ (Ok <$> oks)) rs) /\
    Forall2 (fun b r => responds b.1.2 b.2 r) bs oks.
Proof.
  revert sent. induction bs as [|[[c chunk] ds] bs IH]; intros sent H.
  { exists []. rewrite app_nil_r. split; [done|constructor]. }
  destruct (content_response_total chunk ds) as [r Hr].
  { intros d Hd. apply (H (c, chunk, ds)); [left|done]. }
  destruct (IH (sent ++ [Ok r])) as (oks & E & H2); [intros b d Hb; apply H; by right|].
  exists (r :: oks). split; [|constructor; [by apply content_response_responds|done]].
  rewrite !fmap_cons. simpl. unfold task_bind, lift. rewrite Hr, tell_ok_io. rewrite E, <- app_assoc. done.
Qed.

(** A stream that starts with supported detectors has its inputs detected. *)
Lemma streaming_content_run ctx (task : StreamingContentDetectionTask (H := Headers)) dets io :
  extract_detectors (scdt_input_stream task) = Ok dets ->
  validate_detectors (hash_iter dets) (detectors (ctx_config ctx)) [TextContents] false = Ok () ->
  streaming_content_task ctx task io = handle_detection ctx (scdt_headers task) dets (scdt_input_stream task) io.
Proof.
  intros H1 H2. unfold streaming_content_task, task_bind, attempt, lift. by rewrite H1, H2.
Qed.
End streaming_content_lemmas.

(** ** Properties *)
Section streaming_content_properties.
Context {SJ : SerdeJson} {RT : Runtime} {RL : RuntimeLaws RT} {CN : Connector} {SV : Services}
  {SC : Schedule}.
Notation InMsg := (outcome OrchError StreamingContentDetectionRequest).
Notation SCTask := (StreamingContentDetectionTask (H := Headers)).

(** C12. What a client of a detection stream receives is sound in every
    schedule: a number of responses and then at most one error, nothing after
    it; each response has the span of a chunk that the chunker of a requested
    detector made of the contents sent, and exactly the detections of a batch
    on it - all by requested detectors and reaching their thresholds. *)
Theorem content_stream_sound {SL : ScheduleLaws SC} ctx (task : SCTask) dets :
  extract_detectors (scdt_input_stream task) = Ok dets ->
  validate_detectors (hash_iter dets) (detectors (ctx_config ctx)) [TextContents] false = Ok () ->
  exists oks e, handle_streaming_content None ctx task = Ok ((Ok <$> oks) ++ e) /\
    (e = [] \/ exists err, e = [Err err]) /\
    Forall (fun r => exists b,
      screens ctx (scdt_headers task) dets (fun _ => content_inputs (scdt_input_stream task)) b /\
      responds b.1.2 b.2 r) oks.
Proof.
  intros H1 H2. unfold handle_streaming_content, spawn.
  change (Build_Io (Build_Sender [] None) []) with (io_of ([] : list (outcome OrchError StreamingContentDetectionResponse)) []).
  rewrite (streaming_content_run _ _ _ _ H1 H2). unfold handle_detection, task_bind, attempt, lift.
  set (inputs := content_inputs (scdt_input_stream task)).
  destruct (text_contents_detection_streams _ _ _ _ _) as [streams|err|site] eqn:E; cycle 1.
  { exists [], [Err err]. split; [done|]. split; [right; by exists err|constructor]. }
  { exists [], []. split; [done|]. split; [by left|constructor]. }
  destruct (process_content_batches_run (max_batches streams (max_batcher_new (Z.of_nat (size dets)))) [] [])
    as (oks & e & Eio & He & Hf).
  exists oks, e. split; [by rewrite Eio|]. split; [done|].
  eapply Forall_impl; [exact Hf|]. intros r (b & Hb & Hr). exists b. split; [|done].
  by eapply max_batches_screen.
Qed.

(** C13. And it is complete: when the detectors use one working chunker and
    work themselves, there is a schedule in which the client receives exactly
    one response per chunk of the contents, in order, with the chunk's span and
    the detections of all detectors on it. *)
Theorem content_stream_delivers ctx (task : SCTask) dets chunker inputs chunks :
  extract_detectors (scdt_input_stream task) = Ok dets ->
  validate_detectors (hash_iter dets) (detectors (ctx_config ctx)) [TextContents] false = Ok () ->
  content_inputs (scdt_input_stream task) = Ok <$> inputs ->
  StronglySorted chunk_lt chunks ->
  healthy_pipeline ctx (scdt_headers task) dets chunker inputs chunks ->
  exists streams bs responses,
    text_contents_detection_streams ctx (scdt_headers task) dets 0 (Ok <$> inputs) = Ok streams /\
    batch_stream_yields streams (max_batcher_new (Z.of_nat (size dets))) (Ok <$> bs) /\
    handle_streaming_content (SC := {| batches _ _ := []; max_batches _ _ := Ok <$> bs; reads := [] |})
      None ctx task = Ok (Ok <$> responses) /\
    Forall2 (fun chunk r => responds chunk
      ((chunk_detections ctx (scdt_headers task) <$> hash_iter dets) ≫= (fun f => f (0, chunk))) r)
      chunks responses.
Proof.
  intros H1 H2 Hin Hs Hh.
  assert (Hne : dets <> ∅).
  { intros ->. unfold extract_detectors in H1. destruct (scdt_input_stream task) as [|[i [m| |]] l]; try done.
    destruct (sc_detectors m); [|done]. case_bool_decide; [done|]. by injection H1 as ->. }
  destruct (max_streams_deliver ctx (scdt_headers task) dets chunker inputs chunks Hne Hs Hh)
    as (streams & bs & Hst & Hy & Hd).
  destruct (process_content_batches_Ok bs [] []) as (responses & E & Hr).
  { intros b x Hb Hx. apply list_elem_of_lookup in Hb as [n Hn].
    destruct (Forall2_lookup_r _ _ _ _ _ Hd Hn) as (c & _ & ds & -> & Hds). simpl in Hx. rewrite Hds in Hx.
    apply list_elem_of_bind in Hx as (f & Hx & (d & -> & _)%list_elem_of_fmap).
    by eapply chunk_detections_span. }
  exists streams, bs, responses. split; [done|]. split; [done|]. split.
  - unfold handle_streaming_content, spawn.
    change (Build_Io (Build_Sender [] None) []) with (io_of ([] : list (outcome OrchError StreamingContentDetectionResponse)) []).
    rewrite (streaming_content_run (SC := {| batches _ _ := []; max_batches _ _ := Ok <$> bs; reads := [] |}) _ _ _ _ H1 H2).
    unfold handle_detection, task_bind, attempt, lift. rewrite Hin, Hst. cbn [max_batches]. by rewrite E.
  - eapply Forall2_compose; [|exact Hd|exact Hr].
    intros c b r (ds & -> & Hds) (E1 & E2 & E3). simpl in *. split; [done|]. split; [done|]. by rewrite E3.
Qed.

(** Why a stream is refused *)
Definition content_refused (ctx : Context) (input_stream : list (Z * InMsg)) (e : OrchError) : Prop :=
  match input_stream with
  | [] => e = Validation "`detectors` is required for the first message"
  | (_, Err error) :: _ => e = error
  | (_, Ok m) :: _ =>
      match sc_detectors m with
      | None => e = Validation "`detectors` is required for the first message"
      | Some dets =>
          dets = ∅ /\ e = Validation "`detectors` must not be empty" \/
          dets <> ∅ /\ validate_detectors (hash_iter dets) (detectors (ctx_config ctx)) [TextContents] false = Err e
      end
  | _ => False
  end.

Lemma content_refused_answer ctx (task : SCTask) e :
  content_refused ctx (scdt_input_stream task) e -> spawn None (streaming_content_task ctx task) = [Err e].
Proof.
  unfold content_refused, streaming_content_task, extract_detectors. intros H.
  destruct (scdt_input_stream task) as [|[i [m|err|]] l]; [by subst e| |by subst e|done].
  destruct (sc_detectors m) as [dets|]; [|by subst e].
  destruct H as [[-> ->]|[Hne Hv]].
  - by rewrite bool_decide_eq_true_2.
  - rewrite bool_decide_eq_false_2 by done. unfold spawn, task_bind, attempt, lift. by rewrite Hv.
Qed.

(** A detection stream is refused, with a single error and before anything
    is sent to a service, when its first message is an error, names no
    detectors or an empty set of them, or names one that is unknown, not a
    contents detector, or without a chunker. *)
Theorem content_stream_refused ctx (task : SCTask) e :
  content_refused ctx (scdt_input_stream task) e ->
  handle_streaming_content None ctx task = Ok [Err e].
Proof. intros H. unfold handle_streaming_content. by rewrite (content_refused_answer _ _ _ H). Qed.
End streaming_content_properties.

(** ** Witnesses *)
Section witnesses.
#[local] Existing Instance fifo_runtime.
#[local] Existing Instance fifo_runtime_laws.
#[local] Existing Instance simple_json.
#[local] Existing Instance settings_connector.
#[local] Existing Instance ex_services.

(** Two contents; the detectors come with the first. *)
Definition ex_content_task (dets : option (gmap string DetectorParams))
    : StreamingContentDetectionTask (H := @Headers _ _ ex_services) :=
  {| scdt_headers := (() : @Headers _ _ ex_services);
     scdt_input_stream := [(0, Ok {| sc_detectors := dets; sc_content := "Hello. " |});
                           (1, Ok {| sc_detectors := None; sc_content := "Bye." |})] |}.
Definition ex_contents : list (Z * string) := [(0, "Hello. "); (1, "Bye.")].
Definition ex_content_chunks : list Chunk :=
  match open_chunk_stream ex_ctx 0 (Ok <$> ex_contents) "sentence" with
  | Ok (_, l) => omap (fun o => match o with Ok c => Some c | _ => None end) l
  | _ => []
  end.

Lemma ex_content_extracted : extract_detectors (scdt_input_stream (ex_content_task (Some ex_dets))) = Ok ex_dets.
Proof.
  unfold extract_detectors. simpl. rewrite bool_decide_eq_false_2; [reflexivity|].
  apply map_non_empty_singleton.
Qed.

Lemma ex_content_healthy :
  healthy_pipeline ex_ctx (() : @Headers _ _ ex_services) ex_dets "sentence" ex_contents ex_content_chunks.
Proof.
  assert (Hid : forall id, is_Some (ex_dets !! id) -> id = "hap").
  { intros id [p Hp]. unfold ex_dets in Hp. by apply lookup_singleton_Some in Hp as [-> _]. }
  split; [|done| | | |].
  - intros id ->%Hid. eexists. split; [vm_compute; reflexivity|reflexivity].
  - eexists. split; [vm_compute; reflexivity|vm_compute; reflexivity].
  - intros id ->%Hid. eexists. split; [vm_compute; reflexivity|done].
  - vm_compute. lia.
  - vm_compute. lia.
Qed.

Lemma content_stream_sound_witness :
  exists oks e, handle_streaming_content (SC := ex_schedule []) None ex_ctx (ex_content_task (Some ex_dets)) =
      Ok ((Ok <$> oks) ++ e) /\ (scr_start_index <$> oks) = [0; 7].
Proof.
  destruct (@content_stream_sound simple_json fifo_runtime fifo_runtime_laws settings_connector ex_services
    (ex_schedule []) (ex_schedule_laws []) ex_ctx (ex_content_task (Some ex_dets)) ex_dets
    ex_content_extracted ltac:(vm_compute; reflexivity)) as (oks & e & E & He & _).
  exists oks, e. split; [exact E|]. vm_compute in E. injection E as E.
  destruct oks as [|r1 [|r2 [|r3 oks]]].
  - destruct He as [->|[err ->]]; discriminate E.
  - destruct He as [->|[err ->]]; simpl in E; injection E as <- E; discriminate E.
  - simpl in E. injection E as <- <- E. reflexivity.
  - simpl in E. injection E as _ _ E. discriminate E.
Defined.

Lemma content_stream_delivers_witness :
  exists bs responses,
    handle_streaming_content (SC := {| batches _ _ := []; max_batches _ _ := Ok <$> bs; reads := [] |})
      None ex_ctx (ex_content_task (Some ex_dets)) = Ok (Ok <$> responses) /\
    length responses = 2%nat.
Proof.
  destruct (@content_stream_delivers simple_json fifo_runtime fifo_runtime_laws settings_connector ex_services
    ex_ctx (ex_content_task (Some ex_dets)) ex_dets "sentence" ex_contents ex_content_chunks)
    as (streams & bs & responses & _ & _ & E & H2).
  - exact ex_content_extracted.
  - vm_compute. reflexivity.
  - reflexivity.
  - unfold chunk_lt. apply (bool_decide_unpack _). vm_compute. exact I.
  - exact ex_content_healthy.
  - exists bs, responses. split; [exact E|]. rewrite <- (Forall2_length _ _ _ H2). vm_compute. reflexivity.
Defined.

Lemma content_stream_refused_witness :
  handle_streaming_content (SC := ex_schedule []) None ex_ctx (ex_content_task None) =
  Ok [Err (Validation "`detectors` is required for the first message")].
Proof.
  apply (@content_stream_refused simple_json fifo_runtime settings_connector ex_services
    (ex_schedule []) ex_ctx (ex_content_task None)).
  reflexivity.
Defined.
End witnesses.
