(* ===== verification/StreamingClassification.v ===== *)
(** * Streamed generation with classification

    src/orchestrator/handlers/streaming_classification_with_gen.rs: the
    streaming form of the guarded generation (Classification.v).  Detections on
    the input end the task; without output detectors the generation is
    forwarded; with them, a message is sent for each batch of detections, with
    the text of its chunk and what the generations it spans said.

    The generations are collected in a shared vector by the task that consumes
    the model's stream; [generation_event] is what that task does, in order. *)
From Stdlib Require Import Sorted.
From S2P Require Import Prelude Collections External Errors Utf8 Hostname Config Detection.
From S2P Require Import Chunk Batcher BatchStream BatchGroups Clients OpenAi CompletionState.
From S2P Require Import Models Utils Tasks Streams DetectionHandlers Classification Streaming.
#[local] Open Scope string_scope.
#[local] Open Scope list_scope.
#[local] Open Scope Z_scope.
#[local] Open Scope task_scope.

Section streaming_classification.
Context {SJ : SerdeJson} {RT : Runtime} {CN : Connector} {SV : Services} {SC : Schedule}.

Notation Generation := ClassifiedGeneratedTextStreamResult.
Notation GMsg := (outcome OrchError Generation).
Notation GTask := (ClassificationWithGenTask (H := Headers)).

(** [ClassifiedGeneratedTextStreamResult::default()] *)
Definition stream_result_default : Generation :=
  {| cs_generated_text := None;
     cs_token_classification_results := {| tgr_input := None; tgr_output := None |};
     cs_finish_reason := None; cs_generated_token_count := None; cs_seed := None;
     cs_input_token_count := 0; cs_warnings := None; cs_tokens := None; cs_input_tokens := None;
     cs_processed_index := None; cs_start_index := None |}.

(** [common::generate_stream] (src/orchestrator/common/client.rs) *)
Definition generate_stream (client : GenerationClient) (headers : Headers) (model_id text : string)
    (params : option GuardrailsTextGenerationParameters) : outcome OrchError (list (Z * GMsg)) :=
  stream ← map_err (GenerateRequestFailed model_id)
             (generation_generate_stream client model_id text params headers);
  Ok (imap (fun i r => (Z.of_nat i, map_err (GenerateRequestFailed model_id) r))
        (stream : list (outcome ClientError Generation))).

(** ** Input detection *)
Definition generation_stream_input_detection (ctx : Context) (task : GTask)
    (dets : gmap string DetectorParams) : outcome OrchError (option Generation) :=
  let inputs := apply_masks (cgt_inputs task) (input_masks (cgt_guardrails_config task)) in
  detections ← text_contents_detections ctx (cgt_headers task) dets inputs;
  match detections with
  | [] => Ok None
  | _ =>
      client ← generation_client "streaming_classification_with_gen.rs:191" ctx;
      '(input_token_count, _) ← tokenize client (cgt_headers task) (cgt_model_id task) (cgt_inputs task);
      results ← collect (token_classification_from <$> (detections : list Detection));
      let d := stream_result_default in
      Ok (Some {| cs_generated_text := cs_generated_text d;
                  cs_token_classification_results := {| tgr_input := Some results; tgr_output := None |};
                  cs_finish_reason := cs_finish_reason d;
                  cs_generated_token_count := cs_generated_token_count d; cs_seed := cs_seed d;
                  cs_input_token_count := input_token_count; cs_warnings := Some [unsuitable_input];
                  cs_tokens := cs_tokens d; cs_input_tokens := cs_input_tokens d;
                  cs_processed_index := cs_processed_index d; cs_start_index := cs_start_index d |})
  end.

(** ** The consumer *)
Inductive generation_event :=
| SendText (input : outcome OrchError (Z * string))
| PushGeneration (generation : Generation).

(** The text is sent first, and the generation pushed then. *)
Definition generation_message_events (message : Z * GMsg) : list generation_event :=
  match message with
  | (index, Ok generation) =>
      [SendText (Ok (index, default "" (cs_generated_text generation))); PushGeneration generation]
  | (_, Err error) => [SendText (Err error)]
  | _ => []
  end.
Definition consume_generations (generation_stream : list (Z * GMsg)) : list generation_event :=
  generation_stream ≫= generation_message_events.

Definition generation_inputs (events : list generation_event) : list (outcome OrchError (Z * string)) :=
  omap (fun event => match event with SendText input => Some input | _ => None end) events.
Definition generations_of (events : list generation_event) : list Generation :=
  omap (fun event => match event with PushGeneration g => Some g | _ => None end) events.

(** [v.get(lo..=hi)] *)
Definition slice_get {A} (lo hi : Z) (v : list A) : option (list A) :=
  if decide (lo <= hi + 1 /\ hi < Z.of_nat (length v))
  then Some (take (Z.to_nat (hi + 1 - lo)) (drop (Z.to_nat lo) v))
  else None.

(** ** Responses *)

Fixpoint forward_generation_stream (generation_stream : list (Z * GMsg)) : Task GMsg () :=
  match generation_stream with
  | (_, Ok generation) :: stream =>
      do! connected <- tell_ok (Ok generation);
      if connected : bool then forward_generation_stream stream else task_ret ()
  | (_, Err error) :: _ => tell (Err error)
  | _ => task_ret ()
  end.

(** [generations] is what the read lock shows. *)
Definition generation_batch_response (generations : list Generation) (chunk : Chunk)
    (detections : list Detection) : outcome OrchError Generation :=
  let generations_slice :=
    default [] (slice_get (input_start_index chunk) (input_end_index chunk) generations) in
  let last := default stream_result_default (last generations_slice) in
  let tokens := mjoin ((fun generation => default [] (cs_tokens generation)) <$> generations_slice) in
  results ← collect (token_classification_from <$> detections);
  '(input_token_count, seed, input_tokens) ←
    (if decide (input_start_index chunk = 0) then
       first ← unwrap "streaming_classification_with_gen.rs:386" (head generations_slice);
       Ok (cs_input_token_count first, cs_seed first,
           match generations_slice !! 1%nat with
           | Some second => cs_input_tokens second
           | None => Some []
           end)
     else Ok (cs_input_token_count last, cs_seed last, cs_input_tokens last));
  Ok {| cs_generated_text := Some (chunk_text chunk);
        cs_token_classification_results :=
          {| tgr_input := tgr_input (cs_token_classification_results last); tgr_output := Some results |};
        cs_finish_reason := cs_finish_reason last;
        cs_generated_token_count := cs_generated_token_count last; cs_seed := seed;
        cs_input_token_count := input_token_count; cs_warnings := cs_warnings last;
        cs_tokens := Some tokens; cs_input_tokens := input_tokens;
        cs_processed_index := Some (as_u32 (chunk_end chunk));
        cs_start_index := Some (as_u32 (chunk_start chunk)) |}.

Fixpoint process_generation_batches (events : list generation_event)
    (detection_batch_stream : list (outcome OrchError Batch)) : Task GMsg () :=
  match detection_batch_stream with
  | Ok (_, chunk, detections) :: stream =>
      do! seen <- observe events;
      do! response <- lift (generation_batch_response (generations_of seen) chunk detections);
      do! connected <- tell_ok (Ok response);
      if connected : bool then process_generation_batches events stream else task_ret ()
  | Err error :: _ => tell (Err error)
  | _ => task_ret ()
  end.

(** ** Output detection *)
Definition generation_output_detection (ctx : Context) (task : GTask) (dets : gmap string DetectorParams)
    (generation_stream : list (Z * GMsg)) : Task GMsg () :=
  let events := consume_generations generation_stream in
  do! detection_streams <- attempt (lift (text_contents_detection_streams ctx (cgt_headers task) dets 0
                                            (generation_inputs events)));
  match detection_streams with
  | inl streams =>
      consumer_spawned reads ;!
      process_generation_batches events (max_batches streams (max_batcher_new (Z.of_nat (size dets))))
  | inr error => tell (Err error)
  end.

(** ** The handler *)
Definition generation_streaming_task (ctx : Context) (task : GTask) : Task GMsg () :=
  let input_dets := input_detectors (cgt_guardrails_config task) in
  let output_dets := output_detectors (cgt_guardrails_config task) in
  do! valid <- attempt (lift (
    validate_detectors (hash_iter input_dets) (detectors (ctx_config ctx)) [TextContents] true ≫= fun _ =>
    validate_detectors (hash_iter output_dets) (detectors (ctx_config ctx)) [TextContents] false));
  match valid with
  | inr error => tell (Err error)
  | inl _ =>
      do! blocked <- attempt (lift (if bool_decide (input_dets = ∅) then Ok None
                                    else generation_stream_input_detection ctx task input_dets));
      match blocked with
      | inr error => tell (Err error)
      | inl (Some response) => tell (Ok response)
      | inl None =>
          do! client <- lift (generation_client "streaming_classification_with_gen.rs:128" ctx);
          do! stream <- attempt (lift (generate_stream client (cgt_headers task) (cgt_model_id task)
                                         (cgt_inputs task) (cgt_text_gen_parameters task)));
          match stream with
          | inr error => tell (Err error)
          | inl stream =>
              if bool_decide (output_dets = ∅) then forward_generation_stream stream
              else generation_output_detection ctx task output_dets stream
          end
      end
  end.

Definition handle_generation_streaming (reader : option nat) (ctx : Context) (task : GTask)
    : outcome OrchError (list GMsg) :=
  Ok (spawn reader (generation_streaming_task ctx task)).
End streaming_classification.

(** ** Lemmas *)
Section streaming_classification_lemmas.
Context {SJ : SerdeJson} {RT : Runtime} {RL : RuntimeLaws RT} {CN : Connector} {SV : Services}
  {SC : Schedule}.
Notation Generation := ClassifiedGeneratedTextStreamResult.
Notation GMsg := (outcome OrchError Generation).
Notation GTask := (ClassificationWithGenTask (H := Headers)).
Implicit Types events : list generation_event.

(** The items forwarded: up to the first error. *)
Fixpoint up_to_error {A} (l : list (outcome OrchError A)) : list (outcome OrchError A) :=
  match l with
  | Ok a :: l => Ok a :: up_to_error l
  | Err e :: _ => [Err e]
  | _ => []
  end.

Lemma forward_generation_run stream sent rs :
  forward_generation_stream stream (io_of sent rs) = (Ok (), io_of (sent ++ up_to_error stream.*2) rs).
Proof.
  revert sent. induction stream as [|[i [g|e|site]] stream IH]; intros sent; simpl.
  - by rewrite app_nil_r.
  - unfold task_bind. rewrite tell_ok_io. rewrite IH, <- app_assoc. done.
  - done.
  - by rewrite app_nil_r.
Qed.

(** The part of a slice below its end does not depend on what is pushed later. *)
Lemma slice_get_prefix {A} lo hi (v rest : list A) :
  0 <= lo <= hi -> hi < Z.of_nat (length v) -> slice_get lo hi (v ++ rest) = slice_get lo hi v.
Proof.
  intros Hlo Hhi. unfold slice_get. rewrite length_app.
  rewrite !decide_True by lia. f_equal. rewrite drop_app_le by lia.
  apply take_app_le. rewrite length_drop. lia.
Qed.

Lemma slice_get_nonempty {A} lo hi (v : list A) :
  0 <= lo <= hi -> hi < Z.of_nat (length v) -> exists a l, slice_get lo hi v = Some (a :: l).
Proof.
  intros Hlo Hhi. unfold slice_get. rewrite decide_True by lia.
  destruct (drop (Z.to_nat lo) v) as [|a l] eqn:E.
  { apply (f_equal length) in E. rewrite length_drop in E. simpl in E. lia. }
  replace (Z.to_nat (hi + 1 - lo)) with (S (Z.to_nat (hi - lo))) by lia. simpl. by eexists _, _.
Qed.

Lemma generations_of_app l1 l2 : generations_of (l1 ++ l2) = generations_of l1 ++ generations_of l2.
Proof. apply omap_app. Qed.

(** What an observation shows of what a chunk spans, once it has been pushed. *)
Lemma generations_seen events k chunk :
  0 <= input_start_index chunk <= input_end_index chunk ->
  input_end_index chunk < Z.of_nat (length (generations_of (take k events))) ->
  slice_get (input_start_index chunk) (input_end_index chunk) (generations_of (take k events)) =
  slice_get (input_start_index chunk) (input_end_index chunk) (generations_of events).
Proof.
  intros Hlo Hhi. rewrite <- (take_drop k events) at 2. rewrite generations_of_app.
  by rewrite slice_get_prefix.
Qed.

(** The response to a batch: the chunk's text and span, the tokens of all the
    generations it spans, and the detections. *)
Definition generation_response (generations : list Generation) (chunk : Chunk) (ds : list Detection)
    (r : Generation) : Prop :=
  cs_generated_text r = Some (chunk_text chunk) /\
  cs_start_index r = Some (as_u32 (chunk_start chunk)) /\
  cs_processed_index r = Some (as_u32 (chunk_end chunk)) /\
  cs_tokens r = Some (mjoin ((fun g => default [] (cs_tokens g)) <$>
    default [] (slice_get (input_start_index chunk) (input_end_index chunk) generations))) /\
  exists results, collect (token_classification_from <$> ds) = Ok results /\
    tgr_output (cs_token_classification_results r) = Some results.

Lemma generation_batch_response_spec generations chunk ds r :
  generation_batch_response generations chunk ds = Ok r -> generation_response generations chunk ds r.
Proof.
  unfold generation_batch_response. intros (results & Hr & H)%bind_Ok.
  apply bind_Ok in H as ([[count seed] toks] & _ & [= <-]).
  repeat (split; [done|]). by exists results.
Qed.

Lemma generation_batch_response_total generations chunk ds :
  0 <= input_start_index chunk <= input_end_index chunk ->
  input_end_index chunk < Z.of_nat (length generations) ->
  (forall d, d ∈ ds -> has_span d) ->
  exists r, generation_batch_response generations chunk ds = Ok r.
Proof.
  intros Hlo Hhi Hds. unfold generation_batch_response.
  destruct (slice_get_nonempty _ _ generations Hlo Hhi) as (g & l & ->). simpl.
  destruct (collect_total token_classification_from ds) as [results ->]; [auto with guardrails|].
  simpl. destruct (decide _); by eexists.
Qed.

(** Only what a response is computed from matters. *)
Lemma generation_batch_response_slice gs gs' chunk ds :
  slice_get (input_start_index chunk) (input_end_index chunk) gs =
  slice_get (input_start_index chunk) (input_end_index chunk) gs' ->
  generation_batch_response gs chunk ds = generation_batch_response gs' chunk ds.
Proof. intros E. unfold generation_batch_response. by rewrite E. Qed.

(** Each observation made for a batch shows the generations it spans: they have
    been pushed. *)
Fixpoint pushed_in_time events (bs : list Batch) (rs : list nat) : Prop :=
  match bs with
  | [] => True
  | (_, chunk, _) :: bs =>
      Forall (fun k => input_end_index chunk < Z.of_nat (length (generations_of (take k events)))) (take 1 rs) /\
      pushed_in_time events bs (drop 1 rs)
  end.

Lemma process_generation_batches_Ok events (bs : list Batch) sent rs :
  Forall (fun b => 0 <= input_start_index b.1.2 <= input_end_index b.1.2 /\
                   input_end_index b.1.2 < Z.of_nat (length (generations_of events)) /\
                   forall d, d ∈ b.2 -> has_span d) bs ->
  pushed_in_time events bs rs ->
  exists rest oks, process_generation_batches events (Ok <$> bs) (io_of sent rs) =
      (Ok (), io_of (sent ++ (Ok <$> oks)) rest) /\
    Forall2 (fun b r => generation_response (generations_of events) b.1.2 b.2 r) bs oks.
Proof.
  revert sent rs. induction bs as [|[[c chunk] ds] bs IH]; intros sent rs Hb Hp.
  { exists rs, []. rewrite app_nil_r. split; [done|constructor]. }
  apply Forall_cons in Hb as [(Hlo & Hhi & Hds) Hb]. destruct Hp as [Hk Hp]. simpl in Hlo, Hhi, Hds.
  destruct (generation_batch_response_total (generations_of events) chunk ds Hlo Hhi Hds) as [r Hr].
  set (k := hd (length events) rs).
  assert (Hseen : input_end_index chunk < Z.of_nat (length (generations_of (take k events)))).
  { unfold k. destruct rs as [|k' rs]; simpl in *; [by rewrite firstn_all|].
    rewrite take_0 in Hk. by apply Forall_inv in Hk. }
  assert (Hr' : generation_batch_response (generations_of (take k events)) chunk ds = Ok r).
  { rewrite <- Hr. apply generation_batch_response_slice. by apply generations_seen. }
  destruct (IH (sent ++ [Ok r]) (tl rs) Hb) as (rest & oks & E & H2); [by destruct rs|].
  exists rest, (r :: oks). split; [|constructor; [by apply generation_batch_response_spec|done]].
  rewrite !fmap_cons. cbn [process_generation_batches]. unfold task_bind, lift.
  rewrite observe_io. fold k. rewrite Hr', tell_ok_io, E, <- app_assoc. done.
Qed.

(** A number of responses and then at most one error. *)
Lemma process_generation_batches_run events out sent rs :
  exists oks e, io_tx (process_generation_batches events out (io_of sent rs)).2 =
      Build_Sender (sent ++ (Ok <$> oks) ++ e) None /\
    (e = [] \/ exists err, e = [Err err]) /\
    Forall (fun r => exists b k, Ok b ∈ out /\ generation_response (generations_of (take k events)) b.1.2 b.2 r) oks.
Proof.
  revert sent rs. induction out as [|[[[c chunk] ds]|err|site] out IH]; intros sent rs.
  - exists [], []. simpl. rewrite app_nil_r. split; [done|]. split; [by left|constructor].
  - simpl. unfold task_bind, lift. rewrite observe_io. set (k := hd (length events) rs).
    destruct (generation_batch_response _ chunk ds) as [r|err|site] eqn:E.
    + rewrite tell_ok_io. destruct (IH (sent ++ [Ok r]) (tl rs)) as (oks & e & Eq & He & Hf).
      exists (r :: oks), e. split; [|split; [done|]].
      * etrans; [exact Eq|]. f_equal. by rewrite fmap_cons, <- !app_assoc.
      * constructor; [exists (c, chunk, ds), k; split; [left|by apply generation_batch_response_spec]|].
        eapply Forall_impl; [exact Hf|]. intros r' (b & k' & Hb & Hr'). exists b, k'. split; [by right|done].
    + exists [], []. rewrite app_nil_r. split; [done|]. split; [by left|constructor].
    + exists [], []. rewrite app_nil_r. split; [done|]. split; [by left|constructor].
  - exists [], [Err err]. split; [done|]. split; [right; by exists err|constructor].
  - exists [], []. simpl. rewrite app_nil_r. split; [done|]. split; [by left|constructor].
Qed.

(** *** The handler *)
Definition generation_validated (ctx : Context) (task : GTask) : outcome OrchError () :=
  validate_detectors (hash_iter (input_detectors (cgt_guardrails_config task)))
    (detectors (ctx_config ctx)) [TextContents] true ≫= fun _ =>
  validate_detectors (hash_iter (output_detectors (cgt_guardrails_config task)))
    (detectors (ctx_config ctx)) [TextContents] false.

(** The detectors are supported and those on the input report nothing. *)
Definition generation_admitted (ctx : Context) (task : GTask) : Prop :=
  generation_validated ctx task = Ok () /\
  (if bool_decide (input_detectors (cgt_guardrails_config task) = ∅) then Ok None
   else generation_stream_input_detection ctx task (input_detectors (cgt_guardrails_config task))) = Ok None.

Definition generation_stream_is (ctx : Context) (task : GTask) (stream : list (Z * GMsg)) : Prop :=
  exists client, generation_client "streaming_classification_with_gen.rs:128" ctx = Ok client /\
    generate_stream client (cgt_headers task) (cgt_model_id task) (cgt_inputs task)
      (cgt_text_gen_parameters task) = Ok stream.

Lemma generation_streaming_admitted ctx (task : GTask) stream io :
  generation_admitted ctx task -> generation_stream_is ctx task stream ->
  generation_streaming_task ctx task io =
  (if bool_decide (output_detectors (cgt_guardrails_config task) = ∅) then forward_generation_stream stream
   else generation_output_detection ctx task (output_detectors (cgt_guardrails_config task)) stream) io.
Proof.
  intros [Hv Hin] (client & Hcl & Hst). unfold generation_validated in Hv.
  unfold generation_streaming_task, task_bind, attempt, lift. cbv zeta.
  by rewrite Hv, Hin, Hcl, Hst.
Qed.
End streaming_classification_lemmas.

(** ** Properties *)
Section streaming_classification_properties.
Context {SJ : SerdeJson} {RT : Runtime} {RL : RuntimeLaws RT} {CN : Connector} {SV : Services}
  {SC : Schedule}.
Notation Generation := ClassifiedGeneratedTextStreamResult.
Notation GMsg := (outcome OrchError Generation).
Notation GTask := (ClassificationWithGenTask (H := Headers)).

(** A streamed generation without output detectors is the model's stream,
    message by message, up to and including its first error.  One whose input
    detectors report something is a single message, without any text, with
    these detections, the token count of the inputs and a warning. *)
Theorem generation_stream_ungated ctx (task : GTask) :
  (forall stream, generation_admitted ctx task -> generation_stream_is ctx task stream ->
   output_detectors (cgt_guardrails_config task) = ∅ ->
   handle_generation_streaming None ctx task = Ok (up_to_error stream.*2)) /\
  (forall d ds results client count tokens,
   generation_validated ctx task = Ok () -> input_detectors (cgt_guardrails_config task) <> ∅ ->
   text_contents_detections ctx (cgt_headers task) (input_detectors (cgt_guardrails_config task))
     (apply_masks (cgt_inputs task) (input_masks (cgt_guardrails_config task))) = Ok (d :: ds) ->
   collect (token_classification_from <$> d :: ds) = Ok results ->
   generation_client "streaming_classification_with_gen.rs:191" ctx = Ok client ->
   tokenize client (cgt_headers task) (cgt_model_id task) (cgt_inputs task) = Ok (count, tokens) ->
   exists r, handle_generation_streaming None ctx task = Ok [Ok r] /\
     cs_generated_text r = None /\ cs_warnings r = Some [unsuitable_input] /\
     cs_input_token_count r = count /\
     cs_token_classification_results r = {| tgr_input := Some results; tgr_output := None |}).
Proof.
  unfold handle_generation_streaming. split.
  - intros stream Ha Hst He. f_equal. eapply (spawn_io _ (Ok ()) _ []).
    rewrite (generation_streaming_admitted _ _ _ _ Ha Hst), bool_decide_eq_true_2 by done.
    apply forward_generation_run.
  - intros d ds results client count tokens Hv Hne Hds Hres Hcl Htk. eexists. split.
    + f_equal. eapply (spawn_io _ (Ok ()) _ []). unfold generation_validated in Hv.
      unfold generation_streaming_task, task_bind, attempt, lift. cbv zeta.
      rewrite Hv, bool_decide_eq_false_2 by done.
      unfold generation_stream_input_detection. rewrite Hds. cbn [mbind outcome_bind]. rewrite Hcl.
      cbn [mbind outcome_bind]. rewrite Htk. cbn [mbind outcome_bind]. rewrite Hres. reflexivity.
    + done.
Qed.

(** C10. With output detectors the generated text a client receives is
    screened, in any schedule: the client receives responses and then at most
    one error, and each response answers a batch the batch stream has yielded:
    its [generated_text] and span are those of the batch's chunk, which the
    chunker of a requested detector made of the generated texts, and its
    detections are exactly the batch's - by requested detectors and reaching
    their thresholds.  The [tokens] of a response are not screened, though: they
    are the model's own tokens of all the generations the chunk touches, also
    the texts of tokens before and after the chunk. *)
Theorem generation_stream_screened {SL : ScheduleLaws SC} ctx (task : GTask) stream :
  let dets := output_detectors (cgt_guardrails_config task) in
  let events := consume_generations stream in
  generation_admitted ctx task -> generation_stream_is ctx task stream -> dets <> ∅ ->
  exists oks e, handle_generation_streaming None ctx task = Ok ((Ok <$> oks) ++ e) /\
    (e = [] \/ exists err, e = [Err err]) /\
    Forall (fun r => exists streams b k,
      text_contents_detection_streams ctx (cgt_headers task) dets 0 (generation_inputs events) = Ok streams /\
      Ok b ∈ max_batches streams (max_batcher_new (Z.of_nat (size dets))) /\
      screens ctx (cgt_headers task) dets (fun _ => generation_inputs events) b /\
      generation_response (generations_of (take k events)) b.1.2 b.2 r /\
      forall token, token ∈ default [] (cs_tokens r) <-> exists g,
        g ∈ default [] (slice_get (input_start_index b.1.2) (input_end_index b.1.2) (generations_of (take k events))) /\
        token ∈ default [] (cs_tokens g)) oks.
Proof.
  intros dets events Ha Hst Hne. unfold handle_generation_streaming, spawn.
  change (Build_Io (Build_Sender [] None) []) with (io_of ([] : list GMsg) []).
  rewrite (generation_streaming_admitted _ _ _ _ Ha Hst). fold dets. rewrite bool_decide_eq_false_2 by done.
  unfold generation_output_detection, task_bind, attempt, lift, consumer_spawned. fold events.
  destruct (text_contents_detection_streams _ _ _ _ _) as [streams|err|site] eqn:E; cycle 1.
  { exists [], [Err err]. split; [done|]. split; [right; by exists err|constructor]. }
  { exists [], []. split; [done|]. split; [by left|constructor]. }
  cbn [io_tx io_of]. change (Build_Io (Build_Sender [] None) reads) with (io_of ([] : list GMsg) reads).
  destruct (process_generation_batches_run events (max_batches streams (max_batcher_new (Z.of_nat (size dets)))) [] reads)
    as (oks & e & Eio & He & Hf).
  exists oks, e. split; [by rewrite Eio|]. split; [done|].
  eapply Forall_impl; [exact Hf|]. intros r (b & k & Hb & Hr). exists streams, b, k.
  do 2 (split; [done|]). split; [by eapply max_batches_screen|]. split; [done|].
  destruct Hr as (_ & _ & _ & -> & _). intros token. simpl. rewrite list_elem_of_join. split.
  - intros (l & Ht & (g & -> & Hg)%list_elem_of_fmap). by exists g.
  - intros (g & Hg & Ht). exists (default [] (cs_tokens g)). split; [done|]. apply list_elem_of_fmap. by exists g.
Qed.

(** C11. And all of it does: when the detectors use one working chunker and work
    themselves, and a batch never overtakes the pushes of the generations it
    spans, there is a schedule in which the client receives exactly one
    response per chunk of the generated text, in order - its text, its span,
    the tokens of all generations it spans, and the detections of every
    detector on it. *)
Theorem generation_stream_delivers ctx (task : GTask) stream chunker inputs chunks :
  let dets := output_detectors (cgt_guardrails_config task) in
  let events := consume_generations stream in
  generation_admitted ctx task -> generation_stream_is ctx task stream -> dets <> ∅ ->
  generation_inputs events = Ok <$> inputs -> StronglySorted chunk_lt chunks ->
  healthy_pipeline ctx (cgt_headers task) dets chunker inputs chunks ->
  (forall c, c ∈ chunks -> 0 <= input_start_index c <= input_end_index c /\
     input_end_index c < Z.of_nat (length (generations_of events))) ->
  exists streams bs,
    text_contents_detection_streams ctx (cgt_headers task) dets 0 (Ok <$> inputs) = Ok streams /\
    batch_stream_yields streams (max_batcher_new (Z.of_nat (size dets))) (Ok <$> bs) /\
    bs.*1.*2 = chunks /\
    forall rs, pushed_in_time events bs rs -> exists responses,
      handle_generation_streaming (SC := {| batches _ _ := []; max_batches _ _ := Ok <$> bs; reads := rs |})
        None ctx task = Ok (Ok <$> responses) /\
      Forall2 (fun chunk r => exists ds, generation_response (generations_of events) chunk ds r /\
        ds ≡ₚ (chunk_detections ctx (cgt_headers task) <$> hash_iter dets) ≫= (fun f => f (0, chunk)))
        chunks responses.
Proof.
  intros dets events Ha Hst Hne Hin Hs Hh Hidx.
  destruct (max_streams_deliver ctx (cgt_headers task) dets chunker inputs chunks Hne Hs Hh)
    as (streams & bs & Hstr & Hy & Hd).
  exists streams, bs. split; [done|]. split; [done|]. split.
  { symmetry. clear - Hd. induction Hd as [|c b l l' (ds & -> & _) _ IH]; [done|]. by rewrite !fmap_cons, IH. }
  intros rs Hp.
  destruct (process_generation_batches_Ok events bs [] rs) as (rest & responses & E & Hr); [|done|].
  { apply Forall_forall. intros b Hb. apply list_elem_of_lookup in Hb as [n Hn].
    destruct (Forall2_lookup_r _ _ _ _ _ Hd Hn) as (c & Hc & ds & -> & Hds). simpl.
    apply list_elem_of_lookup_2 in Hc. destruct (Hidx c Hc) as [H1 H2]. split; [done|]. split; [done|].
    intros x Hx. rewrite Hds in Hx. apply list_elem_of_bind in Hx as (f & Hx & (d & -> & _)%list_elem_of_fmap).
    by eapply chunk_detections_span. }
  exists responses. split.
  - unfold handle_generation_streaming. f_equal. eapply (spawn_io _ (Ok ()) _ rest).
    rewrite (generation_streaming_admitted _ _ _ _ Ha Hst). fold dets. rewrite bool_decide_eq_false_2 by done.
    unfold generation_output_detection, task_bind, attempt, lift, consumer_spawned. fold events.
    rewrite Hin, Hstr. cbn [max_batches reads io_tx io_of].
    change (Build_Io (Build_Sender [] None) rs) with (io_of ([] : list GMsg) rs). exact E.
  - eapply Forall2_compose; [|exact Hd|exact Hr].
    intros c b r (ds & -> & Hds) Hresp. exists ds. split; [exact Hresp|exact Hds].
Qed.

(** A generation is pushed after its text has been sent.  When the batch on
    the first chunk is there before that push, the response looks for a
    generation that is not, and the task panics: the client's stream ends,
    empty and without an error, whatever else the batches hold. *)
Theorem generation_stream_race ctx (task : GTask) i g stream streams c chunk ds out rs :
  let dets := output_detectors (cgt_guardrails_config task) in
  let events := consume_generations ((i, Ok g) :: stream) in
  generation_admitted ctx task -> generation_stream_is ctx task ((i, Ok g) :: stream) -> dets <> ∅ ->
  text_contents_detection_streams ctx (cgt_headers task) dets 0 (generation_inputs events) = Ok streams ->
  batch_stream_yields streams (max_batcher_new (Z.of_nat (size dets))) (Ok (c, chunk, ds) :: out) ->
  input_start_index chunk = 0 -> 0 <= input_end_index chunk -> (forall d, d ∈ ds -> has_span d) ->
  handle_generation_streaming
    (SC := {| batches _ _ := []; max_batches _ _ := Ok (c, chunk, ds) :: out; reads := 1%nat :: rs |})
    None ctx task = Ok [].
Proof.
  intros dets events Ha Hst Hne Hstr _ H0 H1 Hds. unfold handle_generation_streaming, spawn.
  change (Build_Io (Build_Sender [] None) []) with (io_of ([] : list GMsg) []).
  rewrite (generation_streaming_admitted _ _ _ _ Ha Hst). fold dets. rewrite bool_decide_eq_false_2 by done.
  unfold generation_output_detection, task_bind, attempt, lift, consumer_spawned. fold events.
  rewrite Hstr. cbn [max_batches reads io_tx io_of].
  change (Build_Io (Build_Sender [] None) (1%nat :: rs)) with (io_of ([] : list GMsg) (1%nat :: rs)).
  cbn [process_generation_batches]. unfold task_bind, lift. rewrite observe_io. simpl.
  unfold generation_batch_response. simpl. unfold slice_get. rewrite decide_False by (simpl; lia). simpl.
  destruct (collect_total token_classification_from ds) as [results ->]; [auto with guardrails|].
  simpl. by rewrite decide_True.
Qed.
End streaming_classification_properties.

(** ** Witnesses *)
Section witnesses.
#[local] Existing Instance fifo_runtime.
#[local] Existing Instance fifo_runtime_laws.
#[local] Existing Instance simple_json.
#[local] Existing Instance settings_connector.

(** One message of two sentences: the response to the first sentence carries the
    tokens of both. *)
Definition ex_token (text : string) : GeneratedToken :=
  {| gt_text := text; gt_logprob := None; gt_rank := None |}.
Example ex_tokens_unscreened :
  match generation_batch_response
      [ {| cs_generated_text := Some "Hello. Bye.";
           cs_token_classification_results := {| tgr_input := None; tgr_output := None |};
           cs_finish_reason := None; cs_generated_token_count := None; cs_seed := None;
           cs_input_token_count := 3; cs_warnings := None; cs_tokens := Some [ex_token "Hello. "; ex_token "Bye."];
           cs_input_tokens := None; cs_processed_index := None; cs_start_index := None |} ]
      {| input_start_index := 0; input_end_index := 0; chunk_start := 0; chunk_end := 7; chunk_text := "Hello. " |} [] with
  | Ok r => cs_generated_text r = Some "Hello. " /\ cs_tokens r = Some [ex_token "Hello. "; ex_token "Bye."]
  | _ => False
  end.
Proof. vm_compute. by split. Qed.

(** A model that generates two messages. *)
Definition ex_stream_message (text : string) : ClassifiedGeneratedTextStreamResult :=
  {| cs_generated_text := Some text;
     cs_token_classification_results := {| tgr_input := None; tgr_output := None |};
     cs_finish_reason := None; cs_generated_token_count := None; cs_seed := None;
     cs_input_token_count := 3; cs_warnings := None; cs_tokens := None; cs_input_tokens := None;
     cs_processed_index := None; cs_start_index := None |}.
Definition ex_stream_services : Services :=
  with_generation_stream ex_services
    (fun _ _ _ _ _ => Ok [Ok (ex_stream_message "Hello. "); Ok (ex_stream_message "Bye.")]).
#[local] Existing Instance ex_stream_services.

Definition ex_stream_task (on_input on_output : gmap string DetectorParams)
    : ClassificationWithGenTask (H := Headers) :=
  {| cgt_model_id := "model"; cgt_inputs := ex_text;
     cgt_guardrails_config :=
       {| gc_input := Some {| gci_models := on_input; gci_masks := None |};
          gc_output := Some {| gco_models := on_output |} |};
     cgt_text_gen_parameters := None; cgt_headers := (() : Headers) |}.
Definition ex_generations : list (Z * outcome OrchError ClassifiedGeneratedTextStreamResult) :=
  [(0, Ok (ex_stream_message "Hello. ")); (1, Ok (ex_stream_message "Bye."))].
Definition ex_generated : list (Z * string) := [(0, "Hello. "); (1, "Bye.")].
Definition ex_generated_chunks : list Chunk :=
  match open_chunk_stream ex_ctx 0 (Ok <$> ex_generated) "sentence" with
  | Ok (_, l) => omap (fun o => match o with Ok c => Some c | _ => None end) l
  | _ => []
  end.

Lemma ex_generation_admitted on_output :
  on_output = ∅ \/ on_output = ex_dets -> generation_admitted ex_ctx (ex_stream_task ∅ on_output).
Proof. intros [->| ->]; (split; [vm_compute; reflexivity|reflexivity]). Qed.
Lemma ex_generation_stream on_input on_output :
  generation_stream_is ex_ctx (ex_stream_task on_input on_output) ex_generations.
Proof. eexists. split; [vm_compute; reflexivity|vm_compute; reflexivity]. Qed.

Lemma ex_generated_healthy :
  healthy_pipeline ex_ctx (() : Headers) ex_dets "sentence" ex_generated ex_generated_chunks.
Proof.
  assert (Hid : forall id, is_Some (ex_dets !! id) -> id = "hap").
  { intros id [p Hp]. unfold ex_dets in Hp. by apply lookup_singleton_Some in Hp as [-> _]. }
  split; [|done| | | |].
  - intros id ->%Hid. eexists. split; [vm_compute; reflexivity|reflexivity].
  - eexists. split; [vm_compute; reflexivity|vm_compute; reflexivity].
  - intros id ->%Hid. eexists. split; [vm_compute; reflexivity|done].
  - vm_compute. lia.
  - vm_compute. lia.
Qed.

Definition ex_found_on_input : list Detection :=
  match text_contents_detections ex_ctx (() : Headers) ex_dets (apply_masks ex_text None) with
  | Ok r => r
  | _ => []
  end.
Lemma ex_found : exists d ds results,
  text_contents_detections ex_ctx (() : Headers) ex_dets (apply_masks ex_text None) = Ok (d :: ds) /\
  collect (E := OrchError) (token_classification_from <$> d :: ds) = Ok results.
Proof.
  assert (E : is_ok (text_contents_detections ex_ctx (() : Headers) ex_dets (apply_masks ex_text None)) = true)
    by (vm_compute; reflexivity).
  assert (Hn : length ex_found_on_input = 1%nat) by (vm_compute; reflexivity).
  assert (Hc : is_ok (collect (E := OrchError) (token_classification_from <$> ex_found_on_input)) = true)
    by (vm_compute; reflexivity).
  unfold ex_found_on_input in *. destruct (text_contents_detections _ _ _ _) as [[|d ds]| |]; [done| |done|done].
  exists d, ds. destruct (collect _) as [results| |]; [by exists results|done|done].
Qed.

Lemma generation_stream_ungated_witness :
  handle_generation_streaming (SC := ex_schedule []) None ex_ctx (ex_stream_task ∅ ∅) =
    Ok ex_generations.*2 /\
  exists r, handle_generation_streaming (SC := ex_schedule []) None ex_ctx (ex_stream_task ex_dets ∅) =
      Ok [Ok r] /\ cs_warnings r = Some [unsuitable_input].
Proof.
  split.
  - etrans; [apply (proj1 (@generation_stream_ungated simple_json fifo_runtime settings_connector
      ex_stream_services (ex_schedule []) ex_ctx (ex_stream_task ∅ ∅)) ex_generations)|reflexivity].
    + apply ex_generation_admitted. by left.
    + apply ex_generation_stream.
    + reflexivity.
  - assert (Hcl : exists client, generation_client "streaming_classification_with_gen.rs:191" ex_ctx = Ok client)
      by (eexists; vm_compute; reflexivity).
    destruct Hcl as [client Hcl].
    destruct ex_found as (d & ds & results & Hds & Hres).
    destruct (proj2 (@generation_stream_ungated simple_json fifo_runtime settings_connector
      ex_stream_services (ex_schedule []) ex_ctx (ex_stream_task ex_dets ∅)) d ds results client 3 [])
      as (r & E & _ & Hw & _).
    + vm_compute. reflexivity.
    + apply map_non_empty_singleton.
    + exact Hds.
    + exact Hres.
    + exact Hcl.
    + reflexivity.
    + exists r. split; [exact E|exact Hw].
Defined.

Lemma generation_stream_screened_witness :
  exists oks e, handle_generation_streaming (SC := ex_schedule []) None ex_ctx (ex_stream_task ∅ ex_dets) =
      Ok ((Ok <$> oks) ++ e) /\ (cs_generated_text <$> oks) = [Some "Hello. "; Some "Bye."].
Proof.
  destruct (@generation_stream_screened simple_json fifo_runtime fifo_runtime_laws settings_connector
    ex_stream_services (ex_schedule []) (ex_schedule_laws []) ex_ctx (ex_stream_task ∅ ex_dets) ex_generations)
    as (oks & e & E & He & _).
  - apply ex_generation_admitted. by right.
  - apply ex_generation_stream.
  - apply map_non_empty_singleton.
  - exists oks, e. split; [exact E|]. vm_compute in E. injection E as E.
    destruct oks as [|r1 [|r2 [|r3 oks]]].
    + destruct He as [->|[err ->]]; discriminate E.
    + destruct He as [->|[err ->]]; simpl in E; injection E as <- E; discriminate E.
    + simpl in E. injection E as <- <- E. reflexivity.
    + simpl in E. injection E as _ _ E. discriminate E.
Defined.

Lemma generation_stream_delivers_witness :
  exists bs responses,
    handle_generation_streaming (SC := {| batches _ _ := []; max_batches _ _ := Ok <$> bs; reads := [2; 4]%nat |})
      None ex_ctx (ex_stream_task ∅ ex_dets) = Ok (Ok <$> responses) /\
    length responses = 2%nat.
Proof.
  destruct (@generation_stream_delivers simple_json fifo_runtime fifo_runtime_laws settings_connector
    ex_stream_services ex_ctx
    (ex_stream_task ∅ ex_dets) ex_generations "sentence" ex_generated ex_generated_chunks)
    as (streams & bs & _ & _ & Hbs & H).
  - apply ex_generation_admitted. by right.
  - apply ex_generation_stream.
  - apply map_non_empty_singleton.
  - reflexivity.
  - unfold chunk_lt. apply (bool_decide_unpack _). vm_compute. exact I.
  - exact ex_generated_healthy.
  - apply Forall_forall, (bool_decide_unpack _). vm_compute. exact I.
  - destruct (H [2; 4]%nat) as (responses & E & H2).
    + vm_compute in Hbs.
      destruct bs as [|[[i1 c1] ds1] [|[[i2 c2] ds2] [|b bs]]]; simpl in Hbs; try discriminate Hbs.
      injection Hbs as -> ->.
      split; [|split; [|done]]; (constructor; [vm_compute; reflexivity|constructor]).
    + exists bs, responses. split; [exact E|]. rewrite <- (Forall2_length _ _ _ H2). vm_compute. reflexivity.
Defined.

Lemma generation_stream_race_witness :
  exists c chunk ds out,
    handle_generation_streaming
      (SC := {| batches _ _ := []; max_batches _ _ := Ok (c, chunk, ds) :: out; reads := [1%nat] |})
      None ex_ctx (ex_stream_task ∅ ex_dets) = Ok [].
Proof.
  destruct (max_streams_deliver (SV := ex_stream_services) ex_ctx () ex_dets "sentence" ex_generated ex_generated_chunks)
    as (streams & bs & Hstr & Hy & Hd).
  - apply map_non_empty_singleton.
  - unfold chunk_lt. apply (bool_decide_unpack _). vm_compute. exact I.
  - exact ex_generated_healthy.
  - assert (E : exists chunk chunks, ex_generated_chunks = chunk :: chunks /\
      input_start_index chunk = 0 /\ input_end_index chunk = 0)
      by (do 2 eexists; split; [vm_compute; reflexivity|split; reflexivity]).
    destruct E as (chunk & chunks & E & H0 & H1). rewrite E in Hd.
    inversion Hd as [|x b l l' (ds & -> & Hds) H2]; subst.
    exists 0, chunk, ds, (Ok <$> l').
    apply (@generation_stream_race simple_json fifo_runtime settings_connector
      ex_stream_services ex_ctx (ex_stream_task ∅ ex_dets) 0 (ex_stream_message "Hello. ")
      [(1, Ok (ex_stream_message "Bye."))] streams).
    + apply ex_generation_admitted. by right.
    + apply ex_generation_stream.
    + apply map_non_empty_singleton.
    + exact Hstr.
    + exact Hy.
    + exact H0.
    + rewrite H1. reflexivity.
    + intros x Hx. rewrite Hds in Hx. apply list_elem_of_bind in Hx as (f & Hx & (d & -> & _)%list_elem_of_fmap).
      exact (chunk_detections_span _ _ _ _ _ Hx).
Defined.
End witnesses.
