(* ===== verification/Health.v ===== *)
(** * Start-up and client health

    The [Client::health] of every client type (src/clients/*.rs; the HTTP,
    gRPC-status and chunker results are in Clients.v) and the orchestrator's
    start-up: [Orchestrator::new], [on_start_up] and [client_health]
    (src/orchestrator.rs). *)
From S2P Require Import Prelude Collections External Errors Hostname Config Clients Utils Tasks.
#[local] Open Scope string_scope.
#[local] Open Scope list_scope.
#[local] Open Scope Z_scope.

(** The health calls on the wire: gRPC's [Health/Check], the text generation
    server's [ModelInfo], and an HTTP GET of the health URL - when that is a
    [Uri] - with its status and body. *)
Class Probes {SJ : SerdeJson} {CN : Connector} {SV : Services} := {
  health_check : GrpcClient -> ServingStatus + GrpcCode;
  model_info : GrpcClient -> () + GrpcCode;
  get_health : HttpClient -> Headers -> option (StatusCode * HealthBody + string);
  canonical_reason : StatusCode -> option string
}.

Section health.
Context {SJ : SerdeJson} {RT : Runtime} {CN : Connector} {SV : Services} {PR : Probes}.

(** ** [Client::health] *)
Definition tgis_health (client : TgisClient) : HealthCheckResult :=
  let code := match model_info (tgis_client client) with
              | inl _ => CodeOk
              | inr CodeInvalidArgument | inr CodeNotFound => CodeOk
              | inr c => c
              end in
  {| hc_status := match code with CodeOk => Healthy | _ => Unhealthy end;
     hc_code := grpc_to_http_code code; hc_reason := None |}.

Definition nlp_health (client : NlpClient) : HealthCheckResult :=
  let code := match health_check (nlp_health_client client) with
              | inl _ => CodeOk
              | inr CodeInvalidArgument | inr CodeNotFound => CodeOk
              | inr c => c
              end in
  {| hc_status := match code with CodeOk => Healthy | _ => Unhealthy end;
     hc_code := grpc_to_http_code code; hc_reason := None |}.

Definition generation_health (client : GenerationClient) : outcome OrchError HealthCheckResult :=
  match gen_inner client with
  | Some (InnerTgis client) => Ok (tgis_health client)
  | Some (InnerNlp client) => Ok (nlp_health client)
  | None => Panic "clients/generation.rs:294"
  end.

Definition http_client_health (client : HttpClient) (headers : Headers) : outcome OrchError HealthCheckResult :=
  res ← unwrap "utils.rs:15" (get_health client headers);
  http_health canonical_reason res.

Definition detector_health (client : DetectorClient) (headers : Headers) : outcome OrchError HealthCheckResult :=
  match detector_health_client client with
  | Some health_client => http_client_health health_client headers
  | None => http_client_health (detector_client client) headers
  end.

Definition openai_health (client : OpenAiClient) (headers : Headers) : outcome OrchError HealthCheckResult :=
  match openai_health_client client with
  | Some health_client => http_client_health health_client headers
  | None => http_client_health (openai_client client) headers
  end.

(** [Client::health] of the client an id resolves to *)
Definition health_of (client : AnyClient) (headers : Headers) : outcome OrchError HealthCheckResult :=
  match client with
  | mk_client k c =>
      match k return client_of k -> _ with
      | KGeneration => fun c => generation_health c
      | KOpenAi => fun c => openai_health c headers
      | KChunker => fun c => Ok (chunker_health (health_check (chunker_health_client c)))
      | KDetector => fun c => detector_health c headers
      end c
  end.

(** ** The orchestrator *)
Definition client_health (ctx : Context) (headers : Headers)
    : outcome OrchError (gmap string HealthCheckResult) :=
  health ← collect ((fun '(key, client) => result ← health_of client headers; Ok (key, result))
                      <$> hash_iter (ctx_clients ctx));
  Ok (hash_collect health).

(** Unhealthy clients are logged and no more; [no_headers] is
    [HeaderMap::new()]. *)
Definition on_start_up (ctx : Context) (no_headers : Headers) (health_check : bool) : outcome OrchError () :=
  if health_check then
    client_health ctx no_headers ≫= fun _ => Ok ()
  else Ok ().

Definition orchestrator_new (config : OrchestratorConfig) (no_headers : Headers)
    (start_up_health_check : bool) : outcome OrchError Context :=
  clients ← create_clients config;
  let ctx := {| ctx_config := config; ctx_clients := clients |} in
  on_start_up ctx no_headers start_up_health_check ≫= fun _ => Ok ctx.
End health.

(** ** Lemmas *)
Section health_lemmas.
Context {SJ : SerdeJson} {RT : Runtime} {RL : RuntimeLaws RT} {CN : Connector} {SV : Services} {PR : Probes}.

(** A generation client is always one of a configured service. *)
Definition configured_client (c : AnyClient) : Prop :=
  match c with
  | mk_client k c =>
      match k return client_of k -> Prop with
      | KGeneration => fun c => is_Some (gen_inner c)
      | _ => fun _ => True
      end c
  end.

Lemma insert_all_values {V} (P : AnyClient -> Prop) k new (l : list (string * V)) m m' :
  (forall id v c, new id v = Ok c -> P (mk_client k c)) -> map_Forall (fun _ => P) m ->
  insert_all k new l m = Ok m' -> map_Forall (fun _ => P) m'.
Proof.
  intros HP Hm. unfold insert_all. revert m'. induction l as [|[id v] l IH] using rev_ind; intros m'.
  { by intros [= <-]. }
  rewrite foldl_app. simpl. intros (m1 & E & (c & Hc & [= <-])%bind_Ok)%bind_Ok.
  apply map_Forall_insert_2; [by eapply HP|by apply IH].
Qed.

(** Every client created is configured. *)
Lemma create_clients_configured config m :
  create_clients config = Ok m -> map_Forall (fun _ => configured_client) m.
Proof.
  unfold create_clients. intros H.
  destruct (m1 ← _; _) as [m'| |] eqn:E in H; try done. injection H as ->.
  apply bind_Ok in E as (m1 & E1 & E). apply bind_Ok in E as (m2 & E2 & E).
  apply bind_Ok in E as (m3 & E3 & E4).
  assert (H1 : map_Forall (fun _ => configured_client) m1).
  { unfold insert_generation in E1. destruct (generation config) as [g|].
    - destruct (provider g); apply bind_Ok in E1 as (c & _ & [= <-]);
        (apply map_Forall_insert_2; [by eexists|apply map_Forall_empty]).
    - injection E1 as <-. apply map_Forall_empty. }
  assert (H2 : map_Forall (fun _ => configured_client) m2).
  { unfold insert_openai in E2. destruct (openai config).
    - apply bind_Ok in E2 as (c & _ & [= <-]). by apply map_Forall_insert_2.
    - by injection E2 as <-. }
  assert (H3 : map_Forall (fun _ => configured_client) m3).
  { unfold insert_chunkers in E3. destruct (chunkers config).
    - eapply insert_all_values; [|exact H2|exact E3]. done.
    - by injection E3 as <-. }
  eapply insert_all_values; [|exact H3|exact E4]. done.
Qed.

(** The HTTP client whose health is a detector's or the OpenAI client's *)
Definition health_client (c : AnyClient) : option HttpClient :=
  match c with
  | mk_client k c =>
      match k return client_of k -> option HttpClient with
      | KOpenAi => fun c => Some (default (openai_client c) (openai_health_client c))
      | KDetector => fun c => Some (default (detector_client c) (detector_health_client c))
      | _ => fun _ => None
      end c
  end.
(** Its health URL is a [Uri], and the body of an answer with status 200 can be
    read to its end. *)
Definition health_received (headers : Headers) (c : AnyClient) : Prop :=
  forall client, health_client c = Some client -> exists res, get_health client headers = Some res /\
    res <> inl (OK, Unreadable).

Lemma http_client_health_Ok client headers :
  (exists res, get_health client headers = Some res /\ res <> inl (OK, Unreadable)) <->
  exists r, http_client_health client headers = Ok r.
Proof.
  unfold http_client_health. destruct (get_health client headers) as [[[status body]|e]|]; simpl.
  - destruct (Z.eqb_spec status OK) as [->|N].
    + destruct body; split; try (intros; by eexists); intros (r & H); [|done]; by destruct H as [[= <-] []].
    + split; [by eexists|]. intros _. eexists. split; [done|]. congruence.
  - split; [by eexists|]. intros _. eexists. by split.
  - split; [by intros (? & [=] & _)|by intros (? & [=])].
Qed.

Lemma health_of_Ok c headers :
  configured_client c -> health_received headers c <-> exists r, health_of c headers = Ok r.
Proof.
  unfold health_received. destruct c as [[] c]; simpl.
  - intros [[] Hi]; unfold generation_health; rewrite Hi; (split; [by eexists|done]).
  - intros _. unfold openai_health. destruct (openai_health_client c); rewrite <- http_client_health_Ok; naive_solver.
  - split; [by eexists|done].
  - intros _. unfold detector_health. destruct (detector_health_client c); rewrite <- http_client_health_Ok; naive_solver.
Qed.

Lemma client_health_total ctx headers :
  map_Forall (fun _ => configured_client) (ctx_clients ctx) ->
  map_Forall (fun _ => health_received headers) (ctx_clients ctx) ->
  exists health, client_health ctx headers = Ok health /\
    forall key, (health : gmap string HealthCheckResult) !! key =
      (client ← ctx_clients ctx !! key;
       match health_of client headers with Ok r => Some r | _ => None end).
Proof.
  intros Hc Hrec. unfold client_health.
  destruct (collect_total (fun '(key, client) => result ← health_of client headers; Ok (key, result))
              (hash_iter (ctx_clients ctx))) as [l Hl].
  { intros [key client] Hin%elem_of_hash_iter.
    destruct (proj1 (health_of_Ok client headers (Hc _ _ Hin)) (Hrec _ _ Hin)) as [r ->].
    by eexists. }
  rewrite Hl. eexists. split; [done|]. intros key. apply collect_Ok in Hl.
  assert (Hkeys : l.*1 = (hash_iter (ctx_clients ctx)).*1).
  { clear - Hl. revert l Hl. induction (hash_iter (ctx_clients ctx)) as [|[k c] cs IH]; intros [|[k' r] l]; try done.
    rewrite !fmap_cons. intros [= E Hl]. apply bind_Ok in E as (r' & _ & [= <- _]).
    simpl. f_equal. by apply IH. }
  assert (Hnd : NoDup l.*1).
  { rewrite Hkeys, (hash_iter_perm (ctx_clients ctx)). apply NoDup_fst_map_to_list. }
  apply option_eq. intros r. rewrite hash_collect_nodup by done. split.
  - intros Hin. assert (Hok : Ok (E := OrchError) (key, r) ∈ Ok (E := OrchError) <$> l)
      by (apply list_elem_of_fmap; by exists (key, r)).
    rewrite <- Hl in Hok. apply list_elem_of_fmap in Hok as ([k c] & E & Hin').
    symmetry in E. apply bind_Ok in E as (r' & Er & [= <- <-]).
    apply elem_of_hash_iter in Hin'. rewrite Hin'. simpl. by rewrite Er.
  - intros (c & Hin & E)%bind_Some. destruct (health_of c headers) as [r'| |] eqn:Er; try done.
    injection E as ->. apply elem_of_hash_iter in Hin.
    assert (Hok : Ok (E := OrchError) (key, r) ∈ Ok (E := OrchError) <$> l).
    { rewrite <- Hl. apply list_elem_of_fmap. exists (key, c). split; [|done]. by rewrite Er. }
    by apply list_elem_of_fmap in Hok as (x & [= <-] & Hx).
Qed.

Lemma client_health_received ctx headers health :
  map_Forall (fun _ => configured_client) (ctx_clients ctx) -> client_health ctx headers = Ok health ->
  map_Forall (fun _ => health_received headers) (ctx_clients ctx).
Proof.
  intros Hc (l & Hl%collect_Ok & _)%bind_Ok key client Hk. apply (health_of_Ok client headers (Hc _ _ Hk)).
  assert (Hin : (result ← health_of client headers; Ok (E := OrchError) (key, result)) ∈ Ok (E := OrchError) <$> l).
  { rewrite <- Hl. apply list_elem_of_fmap. exists (key, client). split; [done|]. by apply elem_of_hash_iter. }
  apply list_elem_of_fmap in Hin as (x & (r & Hr & _)%bind_Ok & _). by exists r.
Qed.

Lemma health_of_no_error client headers e : health_of client headers <> Err e.
Proof.
  assert (H : forall c, http_client_health c headers <> Err e).
  { intros c. unfold http_client_health, http_health.
    destruct (get_health c headers) as [[[status body]|]|]; simpl; repeat case_match; congruence. }
  destruct client as [[] c]; simpl; [|unfold openai_health|done|unfold detector_health].
  - unfold generation_health. by repeat case_match.
  - destruct (openai_health_client c); apply H.
  - destruct (detector_health_client c); apply H.
Qed.

Lemma client_health_no_error ctx headers e : client_health ctx headers <> Err e.
Proof.
  unfold client_health. intros H. destruct (collect _) as [l|e'|] eqn:El; [done| |done].
  apply collect_Err_elem, list_elem_of_fmap in El as ([key client] & Ee & _).
  destruct (health_of client headers) as [| e''|] eqn:Eh; [done| |done]. by apply health_of_no_error in Eh.
Qed.
End health_lemmas.

(** ** Properties *)
Section health_properties.
Context {SJ : SerdeJson} {RT : Runtime} {RL : RuntimeLaws RT} {CN : Connector} {SV : Services} {PR : Probes}.

(** C38. Start-up does not depend on the health of a service: without the
    health check the orchestrator comes up exactly when its clients can be
    created, and with it too, whatever the services answer, as long as every
    health URL can be requested and the answers that come with status 200 can be
    read to their end.  The health report then has one entry for each client,
    with that client's own result.  But a request that cannot be built, or an
    answer that breaks off, panics the report, and start-up with it. *)
Theorem orchestrator_new_spec (config : OrchestratorConfig) (no_headers : Headers) :
  let received clients headers := map_Forall (fun _ => health_received headers) (clients : gmap string AnyClient) in
  (orchestrator_new config no_headers false =
     (clients ← create_clients config; Ok {| ctx_config := config; ctx_clients := clients |})) /\
  (forall ctx, orchestrator_new config no_headers true = Ok ctx <->
     ctx_config ctx = config /\ create_clients config = Ok (ctx_clients ctx) /\
     received (ctx_clients ctx) no_headers) /\
  (forall e, orchestrator_new config no_headers true = Err e <-> create_clients config = Err e) /\
  forall clients, create_clients config = Ok clients -> forall headers,
    let health := client_health {| ctx_config := config; ctx_clients := clients |} headers in
    (received clients headers -> exists report, health = Ok report /\
       forall key, (report : gmap string HealthCheckResult) !! key =
         (client ← clients !! key; match health_of client headers with Ok r => Some r | _ => None end)) /\
    (~ received clients headers -> exists site, health = Panic site).
Proof.
  intros received. unfold orchestrator_new. split; [by destruct (create_clients config)|]. split; [|split].
  - intros ctx. split.
    + intros (clients & E & (? & (h & Hh & _)%bind_Ok & [= <-])%bind_Ok)%bind_Ok. split; [done|]. split; [done|].
      by apply client_health_received in Hh; [|eapply create_clients_configured].
    + destruct ctx as [c clients]. cbn [ctx_config ctx_clients]. intros (-> & E & H). rewrite E. simpl.
      by destruct (client_health_total {| ctx_config := config; ctx_clients := clients |} no_headers
        (create_clients_configured _ _ E) H) as (h & -> & _).
  - intros e. destruct (create_clients config) as [clients|e'|] eqn:E; simpl; [|split; by intros [= ->]|done]. split; [|done].
    destruct (client_health _ _) as [h|e'|] eqn:Eh; simpl; [done| |done]. by apply client_health_no_error in Eh.
  - intros clients E headers. cbv zeta. pose proof (create_clients_configured _ _ E) as Hc.
    set (ctx := {| ctx_config := config; ctx_clients := clients |}).
    split; [by apply (client_health_total ctx)|]. intros Hn.
    destruct (client_health ctx headers) as [h|e|site] eqn:Eh; [|by apply client_health_no_error in Eh|by eexists].
    destruct Hn. by apply (client_health_received ctx) in Eh.
Qed.
End health_properties.

(** ** Witnesses *)
Section witnesses.
#[local] Existing Instance fifo_runtime.
#[local] Existing Instance fifo_runtime_laws.
#[local] Existing Instance simple_json.
#[local] Existing Instance settings_connector.
#[local] Existing Instance ex_services.

(** The gRPC services are unavailable, the HTTP ones answer 503. *)
Definition ex_probes : Probes := {|
  health_check _ := inr CodeUnavailable;
  model_info _ := inr CodeUnavailable;
  get_health _ _ := Some (inl (SERVICE_UNAVAILABLE, NoHealthStatus));
  canonical_reason _ := None
|}.
#[local] Existing Instance ex_probes.

Lemma ex_health_received headers : map_Forall (fun _ => health_received headers) (ctx_clients ex_ctx).
Proof. intros key client _ c _. eexists. by split. Qed.

Lemma orchestrator_new_spec_witness :
  orchestrator_new ex_loaded (() : Headers) true = Ok ex_ctx /\
  exists health, client_health ex_ctx (() : Headers) = Ok health /\
    hc_status <$> (health : gmap string HealthCheckResult) !! "hap" = Some Unhealthy.
Proof.
  assert (Ec : create_clients ex_loaded = Ok (ctx_clients ex_ctx)) by (vm_compute; reflexivity).
  destruct (orchestrator_new_spec ex_loaded (() : @Headers _ _ ex_services)) as (_ & E & _ & H). split.
  - apply E. split; [reflexivity|]. split; [exact Ec|exact (ex_health_received _)].
  - destruct (proj1 (H _ Ec (() : @Headers _ _ ex_services)) (ex_health_received _)) as (health & E2 & Hk).
    exists health. split; [exact E2|]. rewrite Hk. vm_compute. reflexivity.
Defined.
End witnesses.
