(* ===== verification/Routes.v ===== *)
(** * The HTTP routes

    src/server/routes.rs and the conversions of src/server/errors.rs that
    belong to it: which endpoints a server offers, what each one makes of a
    request - its headers filtered, its body validated, the handler's answer or
    error - and the server-sent events and JSON lines of the streaming ones.
    JSON bodies are the values they carry; a handler's [Err] is sent with
    its code and itself as the body. *)
From Stdlib Require Import Ascii.
From S2P Require Import Prelude Collections External Errors Utf8 Hostname Config Detection.
From S2P Require Import Chunk Batcher BatchStream BatchGroups Clients OpenAi CompletionState.
From S2P Require Import Models Utils Tasks Streams DetectionHandlers Classification Completions.
From S2P Require Import Http Streaming ChatStreaming CompletionsStreaming StreamingContent StreamingClassification Health.
#[local] Open Scope string_scope.
#[local] Open Scope list_scope.
#[local] Open Scope Z_scope.

(** ** Rejections and events *)

(** A JSON body that axum refused: its status, and its body text or, for a
    body of another shape, the source of the error. *)
Inductive JsonRejection :=
| JsonDataError (status : StatusCode) (source : option string)
| OtherRejection (status : StatusCode) (body_text : string).

Definition server_error_from_rejection (value : JsonRejection) : ServerError :=
  match value with
  | JsonDataError status source => {| code := status; details := default "" source |}
  | OtherRejection status body_text => {| code := status; details := body_text |}
  end.

(** [Event]: data in JSON, an error event, or the [[DONE]] message *)
Inductive SseEvent (A : Type) :=
| EventData (data : A)
| EventError (error : ServerError)
| EventDone.
Arguments EventData {A}. Arguments EventError {A}. Arguments EventDone {A}.

Definition UNSUPPORTED_MEDIA_TYPE : StatusCode := 415.

(** ** Endpoints *)
Inductive Endpoint :=
| ClassificationWithGen | StreamClassificationWithGen | StreamContentDetection
| GenerationWithDetection | DetectionContent | DetectChat | DetectContextDocuments
| DetectGenerated | ChatCompletionsDetection | CompletionsDetection.

Section routes.
Context {SJ : SerdeJson} {RT : Runtime} {CN : Connector} {SV : Services} {ST : Stamp} {SC : Schedule}
  {PR : Probes} {HH : HttpHeaders}.
(** [str::to_lowercase], and a header map as the services get it *)
Context (to_lowercase : string -> string) (headers_of : HeaderMap -> Headers).

(** [guardrails_router]: the paths, all answering to POST *)
Definition guardrails_router (config : OrchestratorConfig) : list (string * Endpoint) :=
  [("/api/v1/task/classification-with-text-generation", ClassificationWithGen);
   ("/api/v1/task/server-streaming-classification-with-text-generation", StreamClassificationWithGen);
   ("/api/v2/text/detection/stream-content", StreamContentDetection);
   ("/api/v2/text/generation-detection", GenerationWithDetection);
   ("/api/v2/text/detection/content", DetectionContent);
   ("/api/v2/text/detection/chat", DetectChat);
   ("/api/v2/text/detection/context", DetectContextDocuments);
   ("/api/v2/text/detection/generated", DetectGenerated)]
  ++ match openai config with
     | Some _ =>
         [("/api/v2/chat/completions-detection", ChatCompletionsDetection);
          ("/api/v2/text/completions-detection", CompletionsDetection)]
     | None => []
     end.

(** *** Headers *)
Definition rewrite_forwarded_access_headers (headers : HeaderMap) : HeaderMap :=
  match header_remove "x-forwarded-access-token" headers with
  | (Some token, headers) =>
      match header_value_from ("Bearer " +:+ header_bytes token) with
      | Some auth_value => header_insert "authorization" auth_value headers
      | None => headers
      end
  | (None, headers) => headers
  end.

Definition filter_headers (passthrough_headers : gset string) (headers : HeaderMap)
    (rewrite_forwarded_access_header : bool) : HeaderMap :=
  let filtered_headers :=
    header_collect (filter (fun h => to_lowercase h.1 ∈ passthrough_headers) (header_iter headers)) in
  if rewrite_forwarded_access_header then rewrite_forwarded_access_headers filtered_headers
  else filtered_headers.

Definition request_headers (ctx : Context) (headers : HeaderMap) : Headers :=
  headers_of (filter_headers (passthrough_headers (ctx_config ctx)) headers
                (rewrite_forwarded_access_header (ctx_config ctx))).

(** *** The health router *)
Definition health (package_name package_version : string) : gmap string string :=
  {[ package_name := package_version ]}.

Definition info (ctx : Context) (headers : HeaderMap) : outcome OrchError (gmap string HealthCheckResult) :=
  client_health ctx (request_headers ctx headers).

(** *** The JSON routes *)

(** A body that axum may have rejected *)
Definition with_rejection {T} (request : T + JsonRejection) : outcome ServerError T :=
  match request with
  | inl request => Ok request
  | inr rejection => Err (server_error_from_rejection rejection)
  end.

(** What the handlers of the JSON routes have in common *)
Definition json_route {T A} (validate : T -> outcome ValidationError ())
    (handle : T -> Headers -> outcome OrchError A) (ctx : Context) (headers : HeaderMap)
    (request : T + JsonRejection) : outcome ServerError A :=
  request ← with_rejection request;
  map_err server_error_from_validation (validate request) ≫= fun _ =>
  map_err server_error_from_orch (handle request (request_headers ctx headers)).

Definition classification_with_gen (ctx : Context) :=
  json_route guardrails_request_validate (fun request headers =>
    handle_classification ctx (classification_task_new request headers)) ctx.
Definition generation_with_detection (ctx : Context) :=
  json_route generation_with_detection_validate (fun request headers =>
    handle_generation_with_detection ctx (generation_with_detection_task_new request headers)) ctx.
Definition detection_content (ctx : Context) :=
  json_route text_content_validate (fun request headers =>
    handle_text_content ctx (text_content_task_new request headers)) ctx.
Definition detect_context_documents (ctx : Context) :=
  json_route context_docs_validate (fun request headers =>
    handle_context_docs ctx (context_docs_task_new request headers)) ctx.
Definition detect_chat (ctx : Context) :=
  json_route validate_for_text (fun request headers =>
    handle_chat_detection ctx (chat_detection_task_new request headers)) ctx.
Definition detect_generated (ctx : Context) :=
  json_route detection_on_generated_validate (fun request headers =>
    handle_detection_on_generation ctx (detection_on_generation_task_new request headers)) ctx.

(** *** Server-sent events *)
Definition error_event {A} (error : OrchError) : SseEvent A := EventError (server_error_from_orch error).

(** The messages of a completion stream: without content, it has ended. *)
Definition completion_event {A} (message : outcome OrchError (option A)) : list (SseEvent A) :=
  match message with
  | Ok (Some chunk) => [EventData chunk]
  | Ok None => [EventDone]
  | Err error => [error_event error]
  | Panic _ => []
  end.

(** [reader]: how many messages the client reads before it disconnects, if it
    does *)
Definition stream_classification_with_gen (reader : option nat) (ctx : Context) (headers : HeaderMap)
    (request : GuardrailsHttpRequest + JsonRejection)
    : outcome ServerError (list (SseEvent ClassifiedGeneratedTextStreamResult)) :=
  request ← with_rejection request;
  match guardrails_request_validate request with
  | Err error => Ok [EventError (server_error_from_validation error)]
  | Panic site => Panic site
  | Ok () =>
      match handle_generation_streaming reader ctx
              (classification_task_new request (request_headers ctx headers)) with
      | Ok response_stream =>
          Ok (response_stream ≫= fun message =>
                match message with
                | Ok response => [EventData response]
                | Err error => [error_event error]
                | Panic _ => []
                end)
      | _ => Panic "server/routes.rs:201"
      end
  end.

Definition chat_completions_detection (reader : option nat) (ctx : Context) (headers : HeaderMap)
    (request : ChatCompletionsRequest + JsonRejection)
    : outcome ServerError (ChatCompletion + list (SseEvent ChatCompletionChunk)) :=
  response ← json_route chat_request_validate (fun request headers =>
    handle_chat reader ctx {| ccdt_request := request; ccdt_headers := headers |}) ctx headers request;
  Ok (match response with
      | ChatUnary response => inl response
      | ChatStreaming response_rx => inr (response_rx ≫= completion_event)
      end).

Definition completions_detection (reader : option nat) (ctx : Context) (headers : HeaderMap)
    (request : CompletionsRequest + JsonRejection)
    : outcome ServerError (Completion + list (SseEvent Completion)) :=
  response ← json_route completions_request_validate (fun request headers =>
    handle_completions reader ctx {| cmdt_request := request; cmdt_headers := headers |}) ctx headers request;
  Ok (match response with
      | CompletionUnary response => inl response
      | CompletionStreaming response_rx => inr (response_rx ≫= completion_event)
      end).

(** *** JSON lines *)

(** The lines of the body, each a request or a parse error, as the input
    stream of the task *)
Definition content_input_stream (json_lines : list (StreamingContentDetectionRequest + string))
    : list (Z * outcome OrchError StreamingContentDetectionRequest) :=
  imap (fun i result => (Z.of_nat i,
    match result with
    | inl message => map_err orch_error_from_validation (streaming_content_validate message) ≫= fun _ => Ok message
    | inr error => Err (Validation error)
    end)) json_lines.

(** The task relaying the responses reads them to the end, also when the
    client has disconnected after [reader] lines. *)
Definition stream_content_detection (reader : option nat) (ctx : Context) (headers : HeaderMap)
    (json_lines : list (StreamingContentDetectionRequest + string))
    : outcome ServerError (list (StreamingContentDetectionResponse + ServerError)) :=
  let content_type := value ← header_get "content-type" headers; header_to_str value in
  if match content_type with Some content_type => String.prefix "application/x-ndjson" content_type | None => false end
  then
    response_stream ← map_err server_error_from_orch
      (handle_streaming_content None ctx
         {| scdt_headers := request_headers ctx headers; scdt_input_stream := content_input_stream json_lines |});
    let lines := response_stream ≫= fun result =>
      match result with
      | Ok msg => [inl msg]
      | Err error => [inr (server_error_from_orch error)]
      | Panic _ => []
      end in
    Ok (match reader with Some n => take n lines | None => lines end)
  else Err {| code := UNSUPPORTED_MEDIA_TYPE; details := "expected application/x-ndjson" |}.
End routes.

(** ** Lemmas *)
Section routes_lemmas.
Context {SJ : SerdeJson} {RT : Runtime} {RL : RuntimeLaws RT} {CN : Connector} {SV : Services}
  {ST : Stamp} {SC : Schedule} {HH : HttpHeaders}.
Context (to_lowercase : string -> string) (headers_of : HeaderMap -> Headers).
(** Header names are in lower case. *)
Definition names_lowercase (m : HeaderMap) : Prop :=
  forall h, h ∈ header_iter m -> to_lowercase h.1 = h.1.

Lemma values_in_filter {V} (P : gset string) (l : list (string * V)) name :
  (forall h, h ∈ l -> to_lowercase h.1 = h.1) ->
  values_in name (filter (fun h => to_lowercase h.1 ∈ P) l) =
  if decide (name ∈ P) then values_in name l else [].
Proof.
  unfold values_in. intros Hl. induction l as [|[n v] l IH]; [by destruct (decide _)|].
  assert (Hn : to_lowercase n = n) by (apply (Hl (n, v)); left).
  specialize (IH ltac:(intros h Hh; apply Hl; by right)).
  rewrite !filter_cons. cbn [fst]. rewrite Hn.
  destruct (decide (n ∈ P)) as [HP|HP]; [rewrite filter_cons; cbn [fst]|];
    (destruct (decide (n = name)) as [->|Hne]; [|exact IH]).
  - rewrite fmap_cons, IH. by rewrite !decide_True.
  - rewrite IH. by rewrite !decide_False.
Qed.

Lemma valid_header_app s1 s2 :
  valid_header_value s1 = true -> valid_header_value s2 = true -> valid_header_value (s1 +:+ s2) = true.
Proof.
  unfold valid_header_value. intros H1 H2. induction s1 as [|c s1 IH]; [done|]. simpl in *.
  apply andb_true_iff in H1 as [-> H1]. by rewrite IH.
Qed.

(** A loaded configuration passes through the headers of the file, in lower
    case. *)
Lemma load_passthrough raw config :
  load to_lowercase (Ok raw) = Ok config ->
  passthrough_headers config =
    set_map to_lowercase (passthrough_headers raw) ∪ list_to_set (to_lowercase <$> DEFAULT_ALLOWED_HEADERS).
Proof.
  unfold load. cbn [mbind outcome_bind]. intros (c2 & Ha & H)%bind_Ok.
  apply bind_Ok in H as ([] & _ & [= ->]). unfold apply_named_tls_configs in Ha. simpl in Ha.
  destruct (tls_configs raw) as [named|]; [|by injection Ha as <-].
  apply bind_Ok in Ha as (g & _ & Ha). apply bind_Ok in Ha as (o & _ & Ha).
  apply bind_Ok in Ha as (ch & _ & Ha). by apply bind_Ok in Ha as (d & _ & [= <-]).
Qed.

(** *** Validation never panics. *)
Lemma require_no_panic name empty : no_panic (require name empty).
Proof. by destruct empty. Qed.
Lemma validate_detector_params_no_panic models : no_panic (validate_detector_params models).
Proof.
  apply for_each_no_panic. intros [id p] _. destruct (_ !! _); [|done]. by destruct (negb _).
Qed.
#[local] Hint Resolve require_no_panic validate_detector_params_no_panic : guardrails.

Ltac walk_validation :=
  repeat match goal with
  | |- no_panic (_ ≫= _) => apply no_panic_bind; [|intros [] _]
  | |- no_panic (if _ then _ else _) => case_match
  | |- no_panic (match _ with _ => _ end) => case_match
  end; try done; auto with guardrails.

Lemma validations_no_panic :
  (forall r, no_panic (guardrails_request_validate r)) /\
  (forall r, no_panic (generation_with_detection_validate r)) /\
  (forall r, no_panic (text_content_validate r)) /\
  (forall r, no_panic (context_docs_validate r)) /\
  (forall r, no_panic (validate_for_text r)) /\
  (forall r, no_panic (detection_on_generated_validate r)) /\
  (forall r, no_panic (chat_request_validate r)) /\
  (forall r, no_panic (completions_request_validate r)).
Proof.
  repeat split; intros r.
  - unfold guardrails_request_validate. walk_validation.
  - unfold generation_with_detection_validate. walk_validation.
  - unfold text_content_validate. walk_validation.
  - unfold context_docs_validate. walk_validation.
  - unfold validate_for_text, chat_detection_validate, validate_messages. walk_validation.
    apply for_each_no_panic. intros m _. unfold validate_content_type.
    destruct (msg_content m) as [[]|]; [done| |by destruct (msg_tool_calls m)].
    apply for_each_no_panic. intros part _. by destruct (decide _).
  - unfold detection_on_generated_validate. walk_validation.
  - unfold chat_request_validate. walk_validation.
  - unfold completions_request_validate. walk_validation.
Qed.

(** *** JSON routes *)

(** The answer to a request: a value, or an error with one of the codes a
    caller can see - or the rejection's. *)
Definition answered {T A} (request : T + JsonRejection) (response : outcome ServerError A) : Prop :=
  match response with
  | Ok _ => True
  | Err e => code e ∈ reported_codes \/
             exists rejection, request = inr rejection /\ e = server_error_from_rejection rejection
  | Panic _ => False
  end.

Lemma json_route_answered {T A} validate handle ctx headers (request : T + JsonRejection) :
  (forall request, no_panic (validate request)) ->
  (forall q h, request = inl q -> no_panic (handle q h)) ->
  answered (A := A) request (json_route to_lowercase headers_of validate handle ctx headers request).
Proof.
  intros Hv Hh. unfold json_route, answered. destruct request as [request|rejection]; simpl.
  - specialize (Hv request). destruct (validate request) as [[]|e|]; simpl; try done.
    + specialize (Hh request (request_headers to_lowercase headers_of ctx headers) eq_refl).
      destruct (handle _ _) as [|e|]; simpl; try done. left. apply server_error_reported.
    + left. set_solver.
  - right. by exists rejection.
Qed.

Lemma answered_map {T A B} (f : A -> B) (request : T + JsonRejection) response :
  answered request response -> answered request (a ← response; Ok (f a)).
Proof. by destruct response. Qed.

(** *** Completion events *)
Lemma completion_events_end {A} (l : list (outcome OrchError (option A))) :
  (l ++ [Ok None]) ≫= completion_event = (l ≫= completion_event) ++ [EventDone].
Proof. by rewrite bind_app. Qed.

Lemma completion_events_not_done {A} (l : list (outcome OrchError (option A))) :
  Forall (fun m => m <> Ok None) l -> EventDone ∉ l ≫= completion_event.
Proof.
  intros Hl (m & Hm & Hin)%list_elem_of_bind. rewrite Forall_forall in Hl. specialize (Hl m Hin).
  destruct m as [[c|]|e|s]; simpl in Hm; try done; set_solver.
Qed.
End routes_lemmas.

(** ** Properties *)
Section headers_properties.
Context {RT : Runtime} {RL : RuntimeLaws RT} {HH : HttpHeaders} {HL : HttpHeadersLaws HH}.
Context (to_lowercase : string -> string).

(** C30. A header of a request reaches the services exactly when the configuration
    file lists its name, in any case, or allows it by default; no other
    one does.  With the forwarded access token rewritten, the first token that
    passes takes the place of every Authorization header, as a bearer token,
    and is not forwarded itself; without one, Authorization passes as usual. *)
Theorem filter_headers_spec raw config (m : HeaderMap) :
  load to_lowercase (Ok raw) = Ok config -> names_lowercase to_lowercase m ->
  let allowed name := name ∈ (set_map to_lowercase (passthrough_headers raw) : gset string) \/
                      name ∈ to_lowercase <$> DEFAULT_ALLOWED_HEADERS in
  let out rewrite := filter_headers to_lowercase (passthrough_headers config) m rewrite in
  let token_name := "x-forwarded-access-token" in
  (forall rewrite name, rewrite = false \/ name <> "authorization" /\ name <> token_name ->
     (allowed name -> header_values name (out rewrite) = header_values name m) /\
     (~ allowed name -> header_values name (out rewrite) = [])) /\
  header_values token_name (out true) = [] /\
  (forall token, allowed token_name -> head (header_values token_name m) = Some token ->
     header_bytes <$> header_values "authorization" (out true) = ["Bearer " +:+ header_bytes token]) /\
  (~ allowed token_name \/ header_values token_name m = [] ->
     header_values "authorization" (out true) = header_values "authorization" (out false)).
Proof.
  intros Hload Hm allowed out token_name. subst token_name. apply load_passthrough in Hload.
  assert (Hal : forall name, name ∈ passthrough_headers config <-> allowed name).
  { intros name. rewrite Hload. unfold allowed. set_solver. }
  assert (Hf : forall name, header_values name (out false) =
    if decide (name ∈ passthrough_headers config) then header_values name m else []).
  { intros name. unfold out, filter_headers. rewrite header_collect_values. by apply values_in_filter. }
  assert (Hr : forall name, name <> "authorization" ->
    header_values name (out true) = if decide (name = "x-forwarded-access-token") then [] else header_values name (out false)).
  { intros name Hn. unfold out, filter_headers, rewrite_forwarded_access_headers.
    set (l := header_collect _). pose proof (header_remove_values "x-forwarded-access-token" name l) as E.
    destruct (header_remove "x-forwarded-access-token" l) as [[token|] l']; simpl in *; [|exact E].
    destruct (header_value_from _); [|exact E]. by rewrite header_insert_values, decide_False. }
  split; [|split; [|split]].
  - intros rewrite name Hn.
    assert (E : header_values name (out rewrite) = header_values name (out false)).
    { destruct rewrite; [|done]. destruct Hn as [|[Hn Ht]]; [done|]. by rewrite Hr, decide_False. }
    rewrite E, Hf. split; intros Ha; [by rewrite decide_True by by apply Hal|].
    by rewrite decide_False by by rewrite Hal.
  - rewrite Hr by done. by rewrite decide_True.
  - intros token Ha Htok. specialize (Hf "x-forwarded-access-token"). rewrite decide_True in Hf by by apply Hal.
    unfold out, filter_headers, rewrite_forwarded_access_headers in *.
    set (l := header_collect _) in *. pose proof (header_removed "x-forwarded-access-token" l) as E.
    rewrite Hf, Htok in E. destruct (header_remove "x-forwarded-access-token" l) as [o l']. simpl in E. subst o.
    destruct (header_value_from_valid ("Bearer " +:+ header_bytes token)) as (v & -> & Ev).
    { apply valid_header_app; [done|apply header_bytes_valid]. }
    rewrite header_insert_values, decide_True by done. simpl. by rewrite Ev.
  - intros Ha. assert (Hn : header_values "x-forwarded-access-token" (out false) = []).
    { rewrite Hf. case_decide as HP; [|done]. apply Hal in HP. by destruct Ha. }
    unfold out, filter_headers, rewrite_forwarded_access_headers in *.
    set (l := header_collect _) in *. pose proof (header_removed "x-forwarded-access-token" l) as E.
    pose proof (header_remove_values "x-forwarded-access-token" "authorization" l) as Ev.
    rewrite Hn in E. destruct (header_remove "x-forwarded-access-token" l) as [o l']. simpl in E, Ev. by subst o.
Qed.

End headers_properties.

Section endpoints_properties.
Context {RT : Runtime} {RL : RuntimeLaws RT} {CN : Connector}.

(** The OpenAI-compatible endpoints are offered exactly when the
    configuration has an OpenAI service, and then the client they unwrap is
    there - unless a detector or a chunker has taken its id. *)
Theorem openai_endpoints_offered config clients :
  create_clients config = Ok clients ->
  (ChatCompletionsDetection ∈ (guardrails_router config).*2 <-> is_Some (openai config)) /\
  (CompletionsDetection ∈ (guardrails_router config).*2 <-> is_Some (openai config)) /\
  (is_Some (openai config) ->
     (is_Some (client_map_get KOpenAi "openai" clients) <->
      detector config "openai" = None /\ chunker config "openai" = None)) /\
  NoDup (guardrails_router config).*1.
Proof.
  intros Hc. unfold guardrails_router. split; [|split; [|split]].
  1, 2: destruct (openai config) as [o|]; [|rewrite app_nil_r]; rewrite ?fmap_app; simpl; split;
    [by eexists|intros _; set_solver
    |intros H; repeat (apply elem_of_cons in H as [H|H]; [discriminate H|]); by apply elem_of_nil in H|by intros []].
  - intros Ho. rewrite client_map_get_kind, (create_clients_kind _ _ _ Hc). unfold expected_kind.
    rewrite !eq_None_not_Some. destruct (decide (is_Some (detector config "openai"))) as [Hd|Hd].
    { split; [done|]. by intros []. }
    destruct (decide (is_Some (chunker config "openai"))) as [Hk|Hk].
    { split; [done|]. by intros []. }
    by rewrite decide_True.
  - apply (bool_decide_unpack _). destruct (openai config); vm_compute; exact I.
Qed.
End endpoints_properties.

Section routes_properties.
Context {SJ : SerdeJson} {RT : Runtime} {RL : RuntimeLaws RT} {CN : Connector} {SV : Services}
  {ST : Stamp} {SC : Schedule} {HH : HttpHeaders}.
Context (to_lowercase : string -> string) (headers_of : HeaderMap -> Headers).

(** Every endpoint answers every request; the unary generation endpoints,
    every request that names a model that is [sendable] to the generation
    service; the streamed detection of contents, with a stream of lines or by
    refusing the request's content type. *)
Definition all_answered (ctx : Context) (sendable : string -> Prop) (headers : HeaderMap) (reader : option nat)
    : Prop :=
  (forall r, (forall q, r = inl q -> sendable (gr_model_id q)) ->
     answered r (classification_with_gen to_lowercase headers_of ctx headers r)) /\
  (forall r, answered r (stream_classification_with_gen to_lowercase headers_of reader ctx headers r)) /\
  (forall r, (forall q, r = inl q -> sendable (gd_model_id q)) ->
     answered r (generation_with_detection to_lowercase headers_of ctx headers r)) /\
  (forall r, answered r (detection_content to_lowercase headers_of ctx headers r)) /\
  (forall r, answered r (detect_chat to_lowercase headers_of ctx headers r)) /\
  (forall r, answered r (detect_context_documents to_lowercase headers_of ctx headers r)) /\
  (forall r, answered r (detect_generated to_lowercase headers_of ctx headers r)) /\
  (forall r, answered r (chat_completions_detection to_lowercase headers_of reader ctx headers r)) /\
  (forall r, answered r (completions_detection to_lowercase headers_of reader ctx headers r)) /\
  (forall lines, match stream_content_detection to_lowercase headers_of reader ctx headers lines with
     | Ok _ => True
     | Err e => code e = UNSUPPORTED_MEDIA_TYPE
     | Panic _ => False
     end).

(** With the OpenAI and the generation service configured and whatever the
    services answer, no request takes the server down. *)
Lemma routes_answered ctx sendable headers reader :
  services_no_panic ctx sendable -> answers_in_kind -> clients_ready ctx -> concurrency_positive ctx ->
  is_Some (client_map_get KGeneration "generation" (ctx_clients ctx)) ->
  is_Some (client_map_get KOpenAi "openai" (ctx_clients ctx)) ->
  all_answered ctx sendable headers reader.
Proof.
  intros Hsv Hk Hcl Hcc Hg Ho.
  destruct validations_no_panic as (V1 & V2 & V3 & V4 & V5 & V6 & V7 & V8).
  destruct (detection_handlers_no_panic ctx sendable Hsv Hcl Hcc) as (D1 & D2 & D3 & D4 & D5).
  destruct (completions_no_panic ctx sendable Hsv Hk Hcl Hcc Ho) as [C1 C2].
  pose proof (fun task Hm => handle_classification_no_panic ctx sendable task Hsv Hcl Hcc Hm Hg) as G1.
  repeat apply conj; intros r;
    try (apply json_route_answered; [done|]; intros request h _; by auto).
  - intros Hm. apply json_route_answered; [done|]. intros request h ->. by apply G1, (Hm request).
  - unfold stream_classification_with_gen. destruct r as [r|rejection]; simpl; [|right; by exists rejection].
    specialize (V1 r). by destruct (guardrails_request_validate r) as [[]| |].
  - intros Hm. apply json_route_answered; [done|]. intros request h ->. by apply D5, (Hm request).
  - apply answered_map, json_route_answered; [done|]. intros request h _. unfold handle_chat. simpl.
    destruct (ccr_stream request) as [[]|] eqn:E; [done|apply C1; simpl; congruence..].
  - apply answered_map, json_route_answered; [done|]. intros request h _. unfold handle_completions. simpl.
    destruct (cr_stream request) as [[]|] eqn:E; [done|apply C2; simpl; congruence..].
  - unfold stream_content_detection, handle_streaming_content. by destruct (match _ with Some _ => _ | None => _ end).
Qed.

(** The generation endpoints are offered to a server without a generation
    service all the same.  There a valid request without detectors
    panics instead of being refused: the unary endpoint never answers, and the
    stream of the streaming one ends without any event. *)
Theorem unconfigured_generation_panics config clients headers request reader :
  create_clients config = Ok clients -> generation config = None ->
  guardrails_request_validate request = Ok () -> gr_guardrail_config request = None ->
  let ctx := {| ctx_config := config; ctx_clients := clients |} in
  ClassificationWithGen ∈ (guardrails_router config).*2 /\
  StreamClassificationWithGen ∈ (guardrails_router config).*2 /\
  ~ no_panic (classification_with_gen to_lowercase headers_of ctx headers (inl request)) /\
  stream_classification_with_gen to_lowercase headers_of reader ctx headers (inl request) = Ok [].
Proof.
  intros Hc Hg Hv Hno ctx.
  assert (Hcl : client_map_get KGeneration "generation" clients = None).
  { apply eq_None_not_Some. rewrite client_map_get_kind, (create_clients_kind _ _ _ Hc). unfold expected_kind.
    rewrite Hg. by repeat case_decide; naive_solver. }
  assert (Hnil : forall V, hash_iter (∅ : gmap string V) = []) by (intros V; by apply hash_iter_nil).
  split; [set_solver|]. split; [set_solver|]. split.
  - unfold classification_with_gen, json_route, handle_classification, classification_task_new, generation_client.
    simpl. rewrite Hv, Hno. cbn. rewrite !Hnil. cbn. rewrite Hcl. simpl. tauto.
  - unfold stream_classification_with_gen. cbn [with_rejection mbind outcome_bind]. rewrite Hv.
    unfold handle_generation_streaming, generation_streaming_task, classification_task_new, generation_client, spawn.
    unfold task_bind, attempt, lift. simpl. rewrite Hno. cbn. rewrite !Hnil. cbn. rewrite Hcl. simpl.
    by destruct reader as [[|n]|].
Qed.

(** C31. A client that stays connected sees the stream of a completion end with
    the [[DONE]] message, whatever went wrong before - short of a panic; for
    text completions it is the only one. *)
Theorem completion_events_done ctx headers :
  (forall request, cr_stream request = Some true -> completions_request_validate request = Ok () ->
   (completions_streaming_task ctx
      {| cmdt_request := request; cmdt_headers := request_headers to_lowercase headers_of ctx headers |}
      (io_of [] [])).1 = Ok () ->
   exists events, completions_detection to_lowercase headers_of None ctx headers (inl request) =
     Ok (inr (events ++ [EventDone])) /\ EventDone ∉ events) /\
  (forall request, ccr_stream request = Some true -> chat_request_validate request = Ok () ->
   (chat_streaming_task ctx
      {| ccdt_request := request; ccdt_headers := request_headers to_lowercase headers_of ctx headers |}
      (io_of [] [])).1 = Ok () ->
   exists events, chat_completions_detection to_lowercase headers_of None ctx headers (inl request) =
     Ok (inr (events ++ [EventDone]))).
Proof.
  split; intros request Hs Hv H.
  - apply completions_stream_end in H as (l & E & Hl). exists (l ≫= completion_event).
    split; [|by apply completion_events_not_done].
    unfold completions_detection, json_route, handle_completions, handle_completions_streaming. simpl.
    rewrite Hv, Hs. simpl. by rewrite E, completion_events_end.
  - apply chat_stream_end in H as (l & E). exists (l ≫= completion_event).
    unfold chat_completions_detection, json_route, handle_chat, handle_chat_streaming. simpl.
    rewrite Hv, Hs. simpl. by rewrite E, completion_events_end.
Qed.

Context {HL : HttpHeadersLaws HH}.

(** A detection stream is refused with a status only for its media type.
    Every other one answers 200, and its errors are lines of the body: a first
    line that does not parse, has no content, or is refused by the task is
    answered with that error alone. *)
Theorem stream_content_route ctx headers lines :
  let ndjson := exists value s, head (header_values "content-type" headers) = Some value /\
    header_to_str value = Some s /\ String.prefix "application/x-ndjson" s = true in
  let answer := stream_content_detection to_lowercase headers_of None ctx headers lines in
  (~ ndjson -> exists e, answer = Err e /\ code e = UNSUPPORTED_MEDIA_TYPE) /\
  (ndjson -> exists body, answer = Ok body /\
     (forall error rest, lines = inr error :: rest ->
        body = [inr {| code := UNPROCESSABLE_ENTITY; details := error |}]) /\
     (forall dets rest, lines = inl {| sc_detectors := dets; sc_content := "" |} :: rest ->
        body = [inr {| code := UNPROCESSABLE_ENTITY; details := "`content` cannot be empty" |}]) /\
     (forall e, content_refused ctx (content_input_stream lines) e ->
        body = [inr (server_error_from_orch e)])).
Proof.
  intros ndjson answer. unfold answer, stream_content_detection. rewrite header_get_values. split.
  - intros Hn. destruct (head _) as [value|] eqn:Ev; [|by eexists]. simpl.
    destruct (header_to_str value) as [s|] eqn:Es; [|by eexists].
    destruct (String.prefix _ s) eqn:Ep; [|by eexists]. destruct Hn. by exists value, s.
  - intros (value & s & Ev & Es & Ep). rewrite Ev. cbn [mbind option_bind]. rewrite Es, Ep.
    unfold handle_streaming_content. cbn [map_err mbind outcome_bind]. eexists. split; [done|].
    assert (H : forall e, content_refused ctx (content_input_stream lines) e ->
      (spawn None (streaming_content_task ctx
        {| scdt_headers := request_headers to_lowercase headers_of ctx headers;
           scdt_input_stream := content_input_stream lines |}) ≫= fun result =>
        match result with
        | Ok msg => [inl msg]
        | Err error => [inr (server_error_from_orch error)]
        | Panic _ => []
        end) = [inr (server_error_from_orch e)]).
    { intros e He. rewrite (content_refused_answer ctx _ e); done. }
    split; [|split]; [intros error rest ->|intros dets rest ->|exact H].
    + by apply (H (Validation error)).
    + by apply (H (Validation "`content` cannot be empty")).
Qed.
End routes_properties.

(** ** Witnesses *)
Section witnesses.
#[local] Existing Instance fifo_runtime.
#[local] Existing Instance fifo_runtime_laws.
#[local] Existing Instance simple_json.
#[local] Existing Instance settings_connector.
#[local] Existing Instance ex_stamp.

(** Header maps as lists. *)
#[local] Existing Instance list_headers.

Definition ascii_lowercase (s : string) : string :=
  String.string_of_list_ascii ((fun c =>
    let n := nat_of_ascii c in if (65 <=? n)%nat && (n <=? 90)%nat then ascii_of_nat (n + 32) else c)
    <$> String.list_ascii_of_string s).
Definition ex_value (s : string) (H : valid_header_value s = true) : HeaderValue := exist _ s H.
Definition ex_header_map : HeaderMap :=
  [("x-trace", ex_value "1" eq_refl); ("authorization", ex_value "secret" eq_refl);
   ("x-trace", ex_value "2" eq_refl); ("content-type", ex_value "application/x-ndjson" eq_refl)].

Lemma filter_headers_spec_witness :
  exists config, load ascii_lowercase (Ok ex_config) = Ok config /\
    header_values "x-trace" (filter_headers ascii_lowercase (passthrough_headers config) ex_header_map true) =
      header_values "x-trace" ex_header_map /\
    header_values "authorization" (filter_headers ascii_lowercase (passthrough_headers config) ex_header_map true) = [].
Proof.
  destruct (load ascii_lowercase (Ok ex_config)) as [config|e|s] eqn:E;
    [|exfalso; vm_compute in E; discriminate E..].
  destruct (@filter_headers_spec fifo_runtime fifo_runtime_laws list_headers list_headers_laws ascii_lowercase
    ex_config config ex_header_map E) as (H & _ & _ & H2).
  { assert (H : Forall (fun h => ascii_lowercase h.1 = h.1) (header_iter ex_header_map)) by (repeat constructor).
    intros h Hh. exact (proj1 (Forall_forall _ _) H h Hh). }
  assert (Hp : passthrough_headers ex_config = {[ "X-Trace" ]}) by reflexivity. rewrite Hp in H.
  exists config. split; [reflexivity|]. split.
  - apply H; [right; split; discriminate|]. left. apply elem_of_map. exists "X-Trace".
    split; [reflexivity|by apply elem_of_singleton].
  - rewrite H2; [|right; reflexivity].
    apply (proj2 (H false "authorization" (or_introl eq_refl))). intros [Hin|Hin%elem_of_nil]; [|exact Hin].
    apply elem_of_map in Hin as (x & Hx & Hin). apply elem_of_singleton in Hin as ->.
    vm_compute in Hx. discriminate Hx.
Defined.

#[local] Existing Instance ex_openai_services.
Definition ex_headers_of : HeaderMap -> @Headers _ _ ex_openai_services := fun _ => ().

Lemma openai_endpoints_offered_witness :
  ChatCompletionsDetection ∈ (guardrails_router ex_loaded).*2 /\
  is_Some (client_map_get KOpenAi "openai" ex_clients).
Proof.
  destruct (@openai_endpoints_offered fifo_runtime fifo_runtime_laws settings_connector ex_loaded ex_clients
    ex_clients_created)
    as (H1 & _ & H3 & _).
  assert (Ho : is_Some (openai ex_loaded)) by (vm_compute; eexists; reflexivity).
  split; [apply H1; exact Ho|]. apply H3; [exact Ho|]. split; vm_compute; reflexivity.
Defined.

Definition ex_generation_request : GuardrailsHttpRequest :=
  {| gr_model_id := "model"; gr_inputs := "Hello"; gr_guardrail_config := None; gr_text_gen_parameters := None |}.

(** A server without a generation service. *)
Lemma ex_stream_clients : create_clients ex_stream_config = Ok (ctx_clients ex_stream_ctx).
Proof. vm_compute. reflexivity. Qed.

Lemma unconfigured_generation_panics_witness :
  stream_classification_with_gen (SC := ex_schedule []) ascii_lowercase ex_headers_of None
    ex_stream_ctx ex_header_map (inl ex_generation_request) = Ok [].
Proof.
  apply (@unconfigured_generation_panics simple_json fifo_runtime fifo_runtime_laws settings_connector
    ex_openai_services (ex_schedule []) list_headers ascii_lowercase ex_headers_of
    ex_stream_config (ctx_clients ex_stream_ctx) ex_header_map ex_generation_request None ex_stream_clients).
  - reflexivity.
  - vm_compute. reflexivity.
  - reflexivity.
Defined.

Definition ex_streamed_request : CompletionsRequest :=
  {| cr_detectors := {| rd_input := ∅; rd_output := ex_dets |}; cr_prompt_masks := None;
     cr_stream := Some true; cr_model := "model"; cr_prompt := ex_text; cr_extra := ∅ |}.

Lemma completion_events_done_witness :
  exists events, completions_detection (SV := ex_completion_services ex_texts) (SC := ex_schedule [3%nat])
      ascii_lowercase (fun _ => ()) None ex_ctx ex_header_map
      (inl ex_streamed_request) =
    Ok (inr (events ++ [EventDone])) /\ EventDone ∉ events.
Proof.
  apply (proj1 (@completion_events_done simple_json fifo_runtime fifo_runtime_laws settings_connector
    (ex_completion_services ex_texts) ex_stamp (ex_schedule [3%nat]) list_headers ascii_lowercase (fun _ => ())
    ex_ctx ex_header_map)).
  - reflexivity.
  - vm_compute. reflexivity.
  - vm_compute. reflexivity.
Defined.

Lemma stream_content_route_witness :
  stream_content_detection (SC := ex_schedule []) ascii_lowercase ex_headers_of None ex_ctx ex_header_map
    [inr "EOF while parsing"] =
  Ok [inr {| code := UNPROCESSABLE_ENTITY; details := "EOF while parsing" |}].
Proof.
  destruct (proj2 (@stream_content_route simple_json fifo_runtime settings_connector ex_openai_services
    (ex_schedule []) list_headers ascii_lowercase ex_headers_of list_headers_laws ex_ctx ex_header_map
    [inr "EOF while parsing"])) as (body & -> & H & _).
  - do 2 eexists. split; [reflexivity|]. split; reflexivity.
  - rewrite (H _ _ eq_refl). reflexivity.
Defined.
End witnesses.
