(* ===== verification/WireServices.v ===== *)
(** * The services on the wire

    The clients' requests (OpenAiWire.v, DetectorWire.v, GenerationWire.v) as
    the services the orchestrator calls, and what the network has to guarantee
    for the server to answer every request. *)
From S2P Require Import Prelude Collections External Errors Utf8 Hostname Config Detection.
From S2P Require Import Chunk Batcher BatchStream BatchGroups Clients OpenAi CompletionState.
From S2P Require Import Models Utils Tasks Streams DetectionHandlers Classification Completions.
From S2P Require Import Http OpenAiWire DetectorWire GenerationWire.
From S2P Require Import Streaming ChatStreaming CompletionsStreaming StreamingContent StreamingClassification.
From S2P Require Import Health Routes.
#[local] Open Scope string_scope.
#[local] Open Scope list_scope.
#[local] Open Scope Z_scope.

Section wire.
Context {SJ : SerdeJson} {CN : Connector} {HH : HttpHeaders} {JS : Json} {TR : Transport} {GR : Grpc}.
Context `{!Deserialize ErrorResponse, !Deserialize ChatCompletion, !Deserialize ChatCompletionChunk,
  !Deserialize Completion, !Deserialize TokenizeResponse, !Deserialize DetectorError,
  !Deserialize (list (list ContentAnalysisResponse)), !Deserialize (list DetectionResult)}.
(** [JSON_CONTENT_TYPE] *)
Context (json_content_type : HeaderValue).

Definition wire_services : Services := {|
  Tasks.Headers := HeaderMap;
  tokenization_task_predict := chunker_tokenization_task_predict;
  bidi_streaming_tokenization_task_predict := chunker_bidi_streaming;
  text_contents client id q headers := let '(contents, params) := q in
    detector_text_contents json_content_type client id
      {| cq_contents := contents; cq_detector_params := params |} headers;
  text_generation client id q headers := let '(prompt, generated_text, params) := q in
    detector_text_generation json_content_type client id
      {| DetectorWire.gdr_prompt := prompt; DetectorWire.gdr_generated_text := generated_text;
         gdr_detector_params := params |} headers;
  text_chat client id q headers := let '(messages, tools, params) := q in
    detector_text_chat json_content_type client id
      {| cdr_messages := messages; cdr_tools := tools; cdr_detector_params := params |} headers;
  text_context_doc client id q headers := let '(content, context_type, context, params) := q in
    detector_text_context_doc json_content_type client id
      {| cxr_content := content; cxr_context_type := context_type; cxr_context := context;
         cxr_detector_params := params |} headers;
  chat_completions := openai_chat_completions;
  completions := openai_completions;
  openai_tokenize := OpenAiWire.tokenize;
  generation_tokenize := generation_client_tokenize;
  generation_generate := generation_client_generate;
  generation_generate_stream := generation_client_generate_stream;
  append_json_content_type := header_append "content-type" json_content_type
|}.
#[local] Existing Instance wire_services.

(** ** When no call panics *)
Definition endpoints : list string :=
  [CONTENTS_DETECTOR_ENDPOINT; CHAT_DETECTOR_ENDPOINT; CONTEXT_DOC_DETECTOR_ENDPOINT;
   GENERATION_DETECTOR_ENDPOINT; CHAT_COMPLETIONS_ENDPOINT; COMPLETIONS_ENDPOINT; TOKENIZE_ENDPOINT;
   ROUTER_HANDLE_ENDPOINT; ROUTER_HANDLE_STREAM_ENDPOINT].

Ltac known_endpoint := unfold endpoints; repeat (first [left | right]).

(** The endpoints can be joined to the base URLs; detectors' ids are header
    values; the bodies of responses can be read to their end; statuses are
    statuses, also those a detector gives in the body of an error; the
    generation calls are not retried for ever; and TGIS answers the one text of
    a batch. *)
Record wire_healthy (ctx : Context) : Prop := {
  wh_endpoints : forall c path, path ∈ endpoints ->
    exists url, endpoint (connection c) path = Ok url /\ is_Some (uri_from url);
  wh_detectors : forall id c, client_map_get KDetector id (ctx_clients ctx) = Some c -> is_Some (header_parse id);
  wh_responses : forall i r status body, call i r = inl (status, body) ->
    is_Some (status_from_u16 status) /\ is_Some (body_collect body);
  wh_detector_codes : forall i r status body data error, call i r = inl (status, body) ->
    body_collect body = Some data -> from_json (T := DetectorError) data = inl error ->
    is_Some (status_from_u16 (detector_error_code error));
  wh_retries : forall c, client_map_get KGeneration "generation" (ctx_clients ctx) = Some c ->
    0 <= gen_max_retries c < usize_max;
  wh_tokenize : forall c metadata q, rpc_tokenize c metadata q <> inl [];
  wh_generate : forall c metadata q, rpc_generate c metadata q <> inl []
}.

Section healthy.
Context (ctx : Context) (Hh : wire_healthy ctx).

(** A response that came over the network. *)
Definition received (r : Response) : Prop :=
  exists i q, call i q = inl (response_status r, response_body r).

Lemma response_json_no_panic {T} `{!Deserialize T} r : received r -> no_panic (response_json (T := T) r).
Proof.
  intros (i & q & H). destruct (wh_responses _ Hh _ _ _ _ H) as [_ [data E]].
  unfold response_json. rewrite E. simpl. by destruct (from_json data).
Qed.

Lemma post_no_panic {T} `{!Serialize T} c url headers (body : T) :
  is_Some (uri_from url) -> no_panic (Http.post c url headers body).
Proof.
  intros [uri E]. unfold Http.post, send. apply no_panic_bind.
  { unfold inject_api_token. destruct (api_token c); [|done]. by destruct (header_parse _). }
  intros h _. rewrite E. simpl. destruct (to_vec _); [|done]. by destruct (call _ _) as [[]|].
Qed.

Lemma post_received {T} `{!Serialize T} c url headers (body : T) r :
  Http.post c url headers body = Ok r -> received r.
Proof.
  unfold Http.post, send. intros (h & _ & (uri & _ & H)%bind_Ok)%bind_Ok.
  destruct (to_vec (to_value body)) as [data|]; [|done].
  destruct (call _ _) as [[status b]|] eqn:E; [|done]. injection H as <-. by eexists _, _.
Qed.

(** The shape of every request: an endpoint, a call, and its answer. *)
Lemma request_no_panic {T A} `{!Serialize T} c path (rest : Url -> outcome ClientError A) :
  path ∈ endpoints -> (forall url, is_Some (uri_from url) -> no_panic (rest url)) ->
  no_panic (url ← endpoint (connection c) path; rest url).
Proof. intros Hp Hr. destruct (wh_endpoints _ Hh c path Hp) as (url & -> & Hu). by apply Hr. Qed.

Lemma post_answer_no_panic {T A} `{!Serialize T} c url headers (body : T) (answer : Response -> outcome ClientError A) :
  is_Some (uri_from url) -> (forall r, received r -> no_panic (answer r)) ->
  no_panic (response ← Http.post c url headers body; answer response).
Proof.
  intros Hu Ha. apply no_panic_bind; [by apply post_no_panic|]. intros r Hr. by eapply Ha, post_received.
Qed.

Lemma http_error_no_panic r : received r -> no_panic (http_error r).
Proof.
  intros Hr. pose proof (response_json_no_panic (T := ErrorResponse) r Hr). unfold http_error.
  by destruct (response_json r).
Qed.

Lemma unary_answer_no_panic {A} `{!Deserialize A} r : received r -> no_panic (unary_answer (A := A) r).
Proof.
  intros Hr. unfold unary_answer. destruct (_ =? _); [by apply response_json_no_panic|].
  by apply no_panic_bind; [apply http_error_no_panic|].
Qed.

Lemma streamed_answer_no_panic {A} `{!Deserialize A} stream r :
  received r -> no_panic (streamed_answer (A := A) stream r).
Proof.
  intros Hr. unfold streamed_answer. destruct (_ =? _); [done|].
  by apply no_panic_bind; [apply http_error_no_panic|].
Qed.

Lemma detector_answer_no_panic {A} `{!Deserialize A} message r :
  received r -> no_panic (detector_answer (A := A) message r).
Proof.
  intros Hr. unfold detector_answer. destruct (_ =? _); [by apply response_json_no_panic|].
  pose proof (response_json_no_panic (T := DetectorError) r Hr) as Hj. destruct Hr as (i & q & H).
  destruct (wh_responses _ Hh _ _ _ _ H) as [[code Hs] [data Hd]].
  destruct (response_json (T := DetectorError) r) as [error|e|] eqn:E; [| |done];
    unfold client_error_from_detector; simpl.
  - unfold response_json in E. rewrite Hd in E. simpl in E.
    destruct (from_json (T := DetectorError) data) as [error'|] eqn:Ef; [|done]. injection E as ->.
    by destruct (wh_detector_codes _ Hh _ _ _ _ _ _ H Hd Ef) as [c ->].
  - by rewrite Hs.
Qed.

Lemma parse_header_no_panic context value : no_panic (parse_header context value).
Proof. unfold parse_header. by destruct (header_parse value). Qed.

Lemma build_router_headers_no_panic config client model method headers :
  no_panic (build_router_headers config client model method headers).
Proof.
  unfold build_router_headers. apply no_panic_bind; [by destruct config|]. intros router _.
  do 3 (apply no_panic_bind; [apply parse_header_no_panic|]; intros ? _).
  apply no_panic_bind.
  { destruct (header_get _ _); [done|]. apply no_panic_bind; [apply parse_header_no_panic|done]. }
  intros [tid h] _. apply no_panic_bind; [apply parse_header_no_panic|]. intros ? _.
  by destruct client.
Qed.

Lemma detector_post_no_panic {A Q} `{!Deserialize A} `{!Serialize Q} self id url headers (request : Q) :
  is_Some (header_parse id) -> is_Some (uri_from url) ->
  no_panic (detector_post (A := A) json_content_type self id url headers request).
Proof.
  intros [v Hv] Hu. unfold detector_post. destruct (use_router self id).
  - unfold post_via_router. apply no_panic_bind; [apply build_router_headers_no_panic|].
    intros [[tid client] h] _. apply no_panic_bind; [by destruct (to_vec _)|]. intros data _.
    apply (request_no_panic (T := Value)); [known_endpoint|]. intros rurl Hru.
    apply post_answer_no_panic; [done|]. intros r. apply detector_answer_no_panic.
  - rewrite Hv. simpl. apply post_answer_no_panic; [done|]. intros r. apply detector_answer_no_panic.
Qed.

Lemma detector_requests_no_panic id client :
  client_map_get KDetector id (ctx_clients ctx) = Some client ->
  (forall q h, no_panic (text_contents client id q h)) /\
  (forall q h, no_panic (text_generation client id q h)) /\
  (forall q h, no_panic (text_chat client id q h)) /\
  (forall q h, no_panic (text_context_doc client id q h)).
Proof.
  intros Hid%(wh_detectors _ Hh).
  repeat apply conj;
    [intros [? ?] h|intros [[? ?] ?] h|intros [[? ?] ?] h|intros [[[? ?] ?] ?] h]; simpl;
    (apply (request_no_panic (T := Value)); [known_endpoint|]); intros url Hu;
    by apply detector_post_no_panic.
Qed.

Lemma route_via_router_no_panic {U S} `{!Deserialize U} `{!Deserialize S} self model request path streamed headers :
  no_panic (route_via_router (U := U) (S := S) self model request path streamed headers).
Proof.
  unfold route_via_router, openai_router_headers. destruct streamed;
    (apply no_panic_bind; [apply build_router_headers_no_panic|]; intros [[tid client] h] _);
    (apply no_panic_bind; [unfold build_router_payload; by destruct (to_vec _)|]; intros payload _);
    (apply (request_no_panic (T := Value)); [known_endpoint|]; intros url Hu);
    (apply no_panic_bind; [|done]); (apply post_answer_no_panic; [done|]); intros r;
    [apply (streamed_answer_no_panic routed_stream)|apply unary_answer_no_panic].
Qed.

Lemma direct_no_panic {Q U A B} `{!Serialize Q} `{!Deserialize U} `{!Deserialize A} (self : OpenAiClient) path
    (streamed : bool) (request : Q) headers (f : list (outcome OrchError (option A)) -> B) (g : U -> B) :
  path ∈ endpoints ->
  no_panic (E := ClientError) (A := B)
    (url ← endpoint (connection (Clients.openai_client self)) path;
     if streamed then handle_streaming (A := A) (Clients.openai_client self) url request headers ≫= fun rx => Ok (f rx)
     else handle_unary (A := U) (Clients.openai_client self) url request headers ≫= fun a => Ok (g a)).
Proof.
  intros Hp. apply (request_no_panic (T := Q)); [done|]. intros url Hu. destruct streamed;
    (apply no_panic_bind; [|done]); (apply post_answer_no_panic; [done|]); intros r;
    [apply (streamed_answer_no_panic direct_stream)|apply unary_answer_no_panic].
Qed.

Lemma openai_requests_no_panic client headers :
  (forall q, no_panic (openai_chat_completions client q headers)) /\
  (forall q, no_panic (openai_completions client q headers)) /\
  (forall q, no_panic (OpenAiWire.tokenize client q headers)).
Proof.
  split; [|split]; intros q.
  - unfold openai_chat_completions, chat_completions_via_router. destruct (router_enabled_for client).
    + apply no_panic_bind; [apply route_via_router_no_panic|]. by intros [] _.
    + apply direct_no_panic. known_endpoint.
  - unfold openai_completions, completions_via_router. destruct (router_enabled_for client).
    + apply no_panic_bind; [apply route_via_router_no_panic|]. by intros [] _.
    + apply direct_no_panic. known_endpoint.
  - unfold OpenAiWire.tokenize, tokenize_via_router. destruct (router_enabled_for client).
    + apply no_panic_bind; [apply build_router_headers_no_panic|]. intros [[tid c] h] _.
      apply no_panic_bind; [unfold build_router_payload; by destruct (to_vec _)|]. intros payload _.
      apply (request_no_panic (T := Value)); [known_endpoint|]. intros url Hu.
      apply post_answer_no_panic; [done|]. intros r. apply unary_answer_no_panic.
    + apply (request_no_panic (T := Value)); [known_endpoint|]. intros url Hu.
      apply post_answer_no_panic; [done|]. intros r. apply unary_answer_no_panic.
Qed.

Lemma retried_no_panic {A} max_retries (answers : Z -> outcome ClientError A) :
  0 <= max_retries < usize_max ->
  (forall n, no_panic (answers n)) -> no_panic (retried max_retries answers).
Proof. intros Hm Ha. by destruct (retried_value max_retries answers Hm) as (n & _ & -> & _). Qed.

Lemma from_status_no_panic {A} (answer : A + status) : no_panic (from_status answer).
Proof. by destruct answer as [|[]]. Qed.

Lemma generation_requests_no_panic client model_id :
  client_map_get KGeneration "generation" (ctx_clients ctx) = Some client ->
  is_Some (metadata_parse model_id) ->
  (forall text headers, no_panic (generation_client_tokenize client model_id text headers)) /\
  (forall text params headers, no_panic (generation_client_generate client model_id text params headers)).
Proof.
  intros Hr%(wh_retries _ Hh) [id Hid]. split.
  - intros text headers. unfold generation_client_tokenize. destruct (gen_inner client) as [[c|c]|]; [| |done].
    + unfold tgis_tokenize.
      destruct (rpc_tokenize _ _ _) as [[|r l]|[]] eqn:E; [by apply (wh_tokenize _ Hh) in E|done..].
    + apply no_panic_bind; [|done]. apply retried_no_panic; [done|]. intros n.
      unfold nlp_tokenization_task_predict, nlp_metadata. rewrite Hid. simpl. apply from_status_no_panic.
  - intros text params headers. unfold generation_client_generate. destruct (gen_inner client) as [[c|c]|]; [| |done].
    + unfold tgis_generate.
      destruct (rpc_generate _ _ _) as [[|r l]|[]] eqn:E; [by apply (wh_generate _ Hh) in E|done..].
    + apply no_panic_bind; [|done]. apply retried_no_panic; [done|]. intros n.
      unfold nlp_text_generation_task_predict, nlp_metadata. rewrite Hid. simpl. apply from_status_no_panic.
Qed.

Lemma wire_services_no_panic : services_no_panic ctx (fun model_id => is_Some (metadata_parse model_id)).
Proof.
  split; intros.
  1-4: by eapply detector_requests_no_panic.
  1-3: by apply openai_requests_no_panic.
  all: by apply generation_requests_no_panic.
Qed.
End healthy.

(** A request gets an answer of its kind. *)
Lemma wire_answers_in_kind : answers_in_kind.
Proof.
  assert (Hs : forall o, o <> Some true -> streams o = false) by (intros [[]|]; done).
  split; intros client q h r Hq%Hs; simpl;
    [unfold openai_chat_completions, chat_completions_via_router
    |unfold openai_completions, completions_via_router];
    rewrite Hq; destruct (router_enabled_for client).
  1, 3: unfold route_via_router; intros (response & Hr & Ha)%bind_Ok;
    apply bind_Ok in Hr as ([[tid c] h'] & _ & Hr); apply bind_Ok in Hr as (payload & _ & Hr);
    apply bind_Ok in Hr as (url & _ & Hr); apply bind_Ok in Hr as (a & _ & [= <-]);
    injection Ha as <-; by eexists.
  all: intros (url & _ & (a & _ & [= <-])%bind_Ok)%bind_Ok; by eexists.
Qed.

End wire.

(** ** Witnesses *)
Section witnesses.
#[local] Existing Instance fifo_runtime.
#[local] Existing Instance settings_connector.
#[local] Existing Instance tree_json.
#[local] Existing Instance tree_values.
#[local] Existing Instance list_headers.
#[local] Existing Instance loopback.
#[local] Existing Instance echo_grpc.
#[local] Existing Instance ex_stamp.
#[local] Existing Instance ex_completion_deserialize.
#[local] Existing Instance ex_chat_deserialize.
#[local] Existing Instance ex_chunk_deserialize.
#[local] Existing Instance ex_error_deserialize.
#[local] Existing Instance ex_analysis_deserialize.
#[local] Existing Instance ex_detector_error_deserialize.
#[local] Instance ex_tokenize_deserialize : Deserialize TokenizeResponse :=
  fun _ => inl {| tks_count := 1; tks_max_model_len := 4096; tks_tokens := [] |}.
#[local] Instance ex_results_deserialize : Deserialize (list DetectionResult) := fun _ => inl [].

Definition ex_network : Services := wire_services ex_content_type.
#[local] Instance first_batches : Schedule := {|
  batches streams _ := match streams with [stream] => forward stream | _ => [] end;
  max_batches streams _ := match streams with [stream] => forward stream | _ => [] end;
  reads := []
|}.

Lemma ex_ids_sendable : map_Forall (fun id _ => visible id = true) (ctx_clients ex_ctx).
Proof. apply (bool_decide_unpack _). vm_compute. exact I. Qed.

Lemma loopback_healthy : wire_healthy ex_ctx.
Proof.
  split.
  - intros c path _. eexists. split; [reflexivity|]. by eexists.
  - intros id c Hc. unfold client_map_get in Hc.
    destruct (ctx_clients ex_ctx !! id) as [client|] eqn:E; [|done].
    apply (@header_parse_visible _ list_headers_laws). exact (ex_ids_sendable id client E).
  - intros i [[[m uri] h] data] status body H. split; [|by eexists]. simpl in H.
    assert (Hs : status = OK); [|by subst; eexists].
    revert H. case_bool_decide; [|by intros [= <- _]].
    unfold ex_sender. destruct (value_from_str data); [|done].
    destruct (value_get _ _ ≫= _); [|done]. by intros [= <- _].
  - intros i r status body data error _ _ [=].
  - intros c Hc. vm_compute in Hc. injection Hc as <-. split; [by vm_compute|reflexivity].
  - done.
  - done.
Qed.

Definition ex_content_request : TextContentDetectionHttpRequest :=
  {| tc_content := "Hello"; tc_detectors := {["hap" := ∅]} |}.

End witnesses.
