(* ===== verification/Relay.v ===== *)
(** * From body to body

    The endpoints of chat completions and completions from the caller's bytes to
    the caller's bytes: the body is read ([RequestJson]), sent on over the wire
    ([WireServices]), the model's answer is read ([ResponseJson]), and what the
    handlers of [Completions] make of it is written.  The lines of the content
    detection stream (utils/json.rs) are read back from the body's text. *)
From Stdlib Require Import Ascii.
From S2P Require Import Prelude Collections External Errors Utf8 Hostname Config Detection.
From S2P Require Import Chunk Batcher BatchStream Clients OpenAi CompletionState Models Utils Tasks Streams.
From S2P Require Import DetectionHandlers Completions Streaming ChatStreaming CompletionsStreaming.
From S2P Require Import Http OpenAiWire DetectorWire Serde RequestJson ResponseJson GenerationWire.
From S2P Require Import Routes WireServices.
#[local] Open Scope string_scope.
#[local] Open Scope list_scope.
#[local] Open Scope Z_scope.

Section relay.
Context {SJ : SerdeJson} {RT : Runtime} {RL : RuntimeLaws RT} {CN : Connector} {HH : HttpHeaders} {JS : Json}
  {TR : Transport} {GR : Grpc} {ST : Stamp} {SC : Schedule}.
Context {JV : JsonView} {JL : JsonViewLaws JS JV} {JF : JsonFloats} {JFL : JsonFloatsLaws JV JF}.
(** the text of serde's error for a value of another shape, and [JSON_CONTENT_TYPE] *)
Context (mismatch : Value -> string) (json_content_type : HeaderValue).
#[local] Instance deserialize_derived {T} `{!FromValue T} : Deserialize T := derived_deserialize mismatch.
#[local] Instance network : Services := wire_services json_content_type.

(** The server of the model answers a request with [fields] directly. *)
Definition model_answers (client : OpenAiClient) (path : string) (headers : HeaderMap)
    (fields : gmap string Value) (status : StatusCode) (answer : Value) : Prop :=
  exists url response text,
    endpoint (connection (Clients.openai_client client)) path = Ok url /\
    Http.post (connection (Clients.openai_client client)) url
      (header_append "content-type" json_content_type headers) fields = Ok response /\
    response_status response = status /\ body_collect (response_body response) = Some text /\
    value_from_str text = inl answer.

(** What is made of the answer. *)
Definition reply {A} `{!FromValue A} (status : StatusCode) (answer : Value) : outcome ClientError A :=
  if status =? OK
  then match from_value answer with
       | Some a => Ok a
       | None => Err (Http INTERNAL_SERVER_ERROR ("client response deserialization failed: " +:+ mismatch answer))
       end
  else Err (Http status (match from_value answer with
                         | Some e => error_response_message e
                         | None => "unknown error occurred"
                         end)).

Lemma unary_answer_read {A} `{!FromValue A} response text answer :
  body_collect (response_body response) = Some text -> value_from_str text = inl answer ->
  unary_answer (A := A) response = reply (response_status response) answer.
Proof.
  intros Hb Ht. unfold unary_answer, http_error, response_json, from_json, deserialize_derived, derived_deserialize, reply.
  rewrite Hb. simpl. rewrite Ht. by destruct (response_status response =? OK), (from_value answer).
Qed.

(** Only what a body is serialised as matters. *)
Lemma post_value {T} `{!Serialize T} c url headers (body : T) fields :
  to_value body = value_object fields -> Http.post c url headers body = Http.post c url headers fields.
Proof. intros E. unfold Http.post, send. by rewrite E. Qed.

Lemma handle_unary_read {R A} `{!Serialize R} `{!FromValue A} client path headers (request : R) fields status answer :
  to_value request = value_object fields -> model_answers client path headers fields status answer ->
  (url ← endpoint (connection (Clients.openai_client client)) path;
   handle_unary (A := A) (Clients.openai_client client) url request
     (header_append "content-type" json_content_type headers)) = reply status answer.
Proof.
  intros Hr (url & response & text & Hu & Hp & <- & Hb & Ht). rewrite Hu. simpl. unfold handle_unary.
  rewrite (post_value _ _ _ _ _ Hr), Hp. simpl. by eapply unary_answer_read.
Qed.

Lemma relayed {R A B} `{!Serialize R} `{!FromValue A} (f : A -> B) client path headers (request : R) fields status
    answer :
  to_value request = value_object fields -> model_answers client path headers fields status answer ->
  (url ← endpoint (connection (Clients.openai_client client)) path;
   a ← handle_unary (A := A) (Clients.openai_client client) url request
         (header_append "content-type" json_content_type headers); Ok (f a)) = f <$> reply status answer.
Proof.
  intros Hr Ha. rewrite <- (handle_unary_read client path headers request fields status answer Hr Ha).
  destruct (endpoint _ _) as [url| |]; simpl; [|done|done]. by destruct (handle_unary _ _ _ _).
Qed.

Lemma chat_completion_answered client headers request fields status answer :
  router_enabled_for client = false -> streams (ccr_stream request) = false ->
  to_value request = value_object fields ->
  model_answers client CHAT_COMPLETIONS_ENDPOINT headers fields status answer ->
  chat_completion client headers request =
    map_err (ChatCompletionRequestFailed (ccr_model request)) (ChatUnary <$> reply status answer).
Proof.
  intros Hrt Hs Hr Ha. unfold chat_completion. f_equal.
  rewrite <- (relayed ChatUnary client _ headers request fields status answer Hr Ha).
  unfold chat_completions, network, wire_services, openai_chat_completions, append_json_content_type.
  by rewrite Hrt, Hs.
Qed.
Lemma completion_answered client headers request fields status answer :
  router_enabled_for client = false -> streams (cr_stream request) = false ->
  to_value request = value_object fields ->
  model_answers client COMPLETIONS_ENDPOINT headers fields status answer ->
  completion client headers request =
    map_err (CompletionRequestFailed (cr_model request)) (CompletionUnary <$> reply status answer).
Proof.
  intros Hrt Hs Hr Ha. unfold completion. f_equal.
  rewrite <- (relayed CompletionUnary client _ headers request fields status answer Hr Ha).
  unfold completions, network, wire_services, openai_completions, append_json_content_type.
  by rewrite Hrt, Hs.
Qed.

Lemma validate_no_detectors dets types b :
  validate_detectors (hash_iter (∅ : gmap string DetectorParams)) dets types b = Ok ().
Proof. by rewrite (proj2 (hash_iter_nil _)). Qed.

(** What the handlers make of it: the answer itself for a request without
    detectors, and otherwise a response without choices, of a blocked prompt,
    or the answer with other warnings and detections. *)
Lemma handle_chat_answered ctx client headers request fields status answer :
  client_map_get KOpenAi "openai" (ctx_clients ctx) = Some client -> router_enabled_for client = false ->
  streams (ccr_stream request) = false -> to_value request = value_object fields ->
  model_answers client CHAT_COMPLETIONS_ENDPOINT headers fields status answer ->
  let result := handle_chat_unary ctx {| ccdt_request := request; ccdt_headers := headers |} in
  (ccr_detectors request = no_detectors ->
   result = map_err (ChatCompletionRequestFailed (ccr_model request)) (ChatUnary <$> reply status answer)) /\
  (forall response, result = Ok response -> exists r, response = ChatUnary r /\
     (cc_choices r = [] \/
      exists c, reply status answer = Ok c /\ r = chat_with c (cc_warnings r) (cc_detections r))).
Proof.
  intros Hc Hrt Hs Hr Ha result. unfold result, handle_chat_unary. simpl.
  pose proof (chat_completion_answered client headers request fields status answer Hrt Hs Hr Ha) as Hreply.
  split.
  - intros ->. simpl. rewrite !validate_no_detectors. simpl. unfold openai_client. rewrite Hc. simpl. rewrite Hreply.
    by destruct (reply status answer).
  - intros response (_ & _ & (_ & _ & (blocked & Hb & H)%bind_Ok)%bind_Ok)%bind_Ok. destruct blocked as [r|].
    { injection H as <-. exists r. split; [done|]. left. case_bool_decide; [done|]. unfold chat_input_detection in Hb.
      apply bind_Ok in Hb as (message & _ & (ds & _ & Hb)%bind_Ok). destruct ds; [done|].
      by apply bind_Ok in Hb as (? & _ & (? & _ & [= <-])%bind_Ok). }
    unfold openai_client in H. rewrite Hc in H. simpl in H. rewrite Hreply in H.
    destruct (reply status answer) as [c| |]; [|done|done]. simpl in H.
    case_bool_decide.
    + injection H as <-. exists c. split; [done|]. right. exists c. split; [done|]. by destruct c.
    + apply fmap_Ok in H as (r & Hout & ->). exists r. split; [done|]. right. exists c. split; [done|].
      unfold chat_output_detection in Hout.
      apply bind_Ok in Hout as (? & _ & (? & _ & (results & _ & Hout)%bind_Ok)%bind_Ok).
      destruct (update_output _ _ _) as [w ds]. by injection Hout as <-.
Qed.
Lemma handle_completions_answered ctx client headers request fields status answer :
  client_map_get KOpenAi "openai" (ctx_clients ctx) = Some client -> router_enabled_for client = false ->
  streams (cr_stream request) = false -> to_value request = value_object fields ->
  model_answers client COMPLETIONS_ENDPOINT headers fields status answer ->
  let result := handle_completions_unary ctx {| cmdt_request := request; cmdt_headers := headers |} in
  (cr_detectors request = no_detectors ->
   result = map_err (CompletionRequestFailed (cr_model request)) (CompletionUnary <$> reply status answer)) /\
  (forall response, result = Ok response -> exists r, response = CompletionUnary r /\
     (cp_choices r = [] \/
      exists c, reply status answer = Ok c /\ r = completion_with c (cp_warnings r) (cp_detections r))).
Proof.
  intros Hc Hrt Hs Hr Ha result. unfold result, handle_completions_unary. simpl.
  pose proof (completion_answered client headers request fields status answer Hrt Hs Hr Ha) as Hreply.
  split.
  - intros ->. simpl. rewrite !validate_no_detectors. simpl. unfold openai_client. rewrite Hc. simpl. rewrite Hreply.
    by destruct (reply status answer).
  - intros response (_ & _ & (_ & _ & (blocked & Hb & H)%bind_Ok)%bind_Ok)%bind_Ok. destruct blocked as [r|].
    { injection H as <-. exists r. split; [done|]. left. case_bool_decide; [done|].
      unfold completions_input_detection in Hb.
      apply bind_Ok in Hb as (ds & _ & Hb). destruct ds; [done|].
      by apply bind_Ok in Hb as (? & _ & (? & _ & [= <-])%bind_Ok). }
    unfold openai_client in H. rewrite Hc in H. simpl in H. rewrite Hreply in H.
    destruct (reply status answer) as [c| |]; [|done|done]. simpl in H.
    case_bool_decide.
    + injection H as <-. exists c. split; [done|]. right. exists c. split; [done|]. by destruct c.
    + apply fmap_Ok in H as (r & Hout & ->). exists r. split; [done|]. right. exists c. split; [done|].
      unfold completions_output_detection in Hout.
      apply bind_Ok in Hout as (? & _ & (? & _ & (results & _ & Hout)%bind_Ok)%bind_Ok).
      destruct (update_output _ _ _) as [w ds]. by injection Hout as <-.
Qed.

(** ** The objects *)

(** The declared fields but for the detections and the warnings. *)
Definition kept (names : list string) : list string :=
  filter (fun name => name <> "detections" /\ name <> "warnings") names.

Lemma agree_kept names a b c : agree (kept names) a b -> agree names c b -> agree (kept names) a c.
Proof.
  unfold agree, kept. rewrite !Forall_forall. intros Hab Hcb name Hn. rewrite (Hab name Hn). symmetry.
  apply Hcb. by apply list_elem_of_filter in Hn as [_ Hn].
Qed.
Lemma chat_with_kept c w ds :
  agree (kept chat_completion_names) (chat_completion_fields (chat_with c w ds)) (chat_completion_fields c).
Proof. unfold chat_completion_fields. simpl. repeat constructor; by lookup_fields. Qed.
Lemma completion_with_kept c w ds :
  agree (kept completion_names) (completion_fields (completion_with c w ds)) (completion_fields c).
Proof. unfold completion_fields. simpl. repeat constructor; by lookup_fields. Qed.

(** What is written has no fields but the declared ones. *)
Definition declared (names : list string) (m : gmap string Value) : Prop :=
  forall name value, m !! name = Some value -> name ∈ names.

Lemma declared_union names m m' : declared names m -> declared names m' -> declared names (m ∪ m').
Proof. intros H H' name value [Hl|[_ Hl]]%lookup_union_Some_raw; eauto. Qed.
Lemma declared_field {T} `{!Serialize T} names name (x : T) : name ∈ names -> declared names (field name x).
Proof. intros H key value. rewrite lookup_field. by case_decide as E; [subst|]. Qed.
Lemma declared_optional_field {T} `{!Serialize T} names name (x : option T) :
  name ∈ names -> declared names (optional_field name x).
Proof. intros H key value. rewrite lookup_optional_field. by case_decide as E; [subst|]. Qed.
Lemma declared_list_field {T} `{!Serialize T} names name (x : list T) :
  name ∈ names -> declared names (list_field name x).
Proof. intros H key value. rewrite lookup_list_field. by case_decide as E; [subst|]. Qed.

Ltac declared_fields :=
  repeat apply declared_union;
  first [apply declared_field|apply declared_optional_field|apply declared_list_field]; by apply (bool_decide_unpack _).
Lemma chat_completion_fields_declared c : declared chat_completion_names (chat_completion_fields c).
Proof. declared_fields. Qed.
Lemma completion_fields_declared c : declared completion_names (completion_fields c).
Proof. declared_fields. Qed.

(** *** What a caller gets *)

(** An answer that is read: without detectors the caller is sent what was read
    of it, and otherwise nothing of it, or all but its detections and
    warnings. *)
Lemma chat_relayed ctx client headers (request : ChatCompletionsRequest) answer (c : ChatCompletion) :
  client_map_get KOpenAi "openai" (ctx_clients ctx) = Some client -> router_enabled_for client = false ->
  ccr_stream request <> Some true -> from_value answer = Some c ->
  model_answers client CHAT_COMPLETIONS_ENDPOINT headers (chat_request_fields request) OK answer ->
  let result := handle_chat_unary ctx {| ccdt_request := request; ccdt_headers := headers |} in
  (ccr_detectors request = no_detectors -> result = Ok (ChatUnary c)) /\
  (forall response, result = Ok response -> exists r, response = ChatUnary r /\
     (cc_choices r = [] \/ agree (kept chat_completion_names) (chat_completion_fields r) (chat_completion_fields c))).
Proof.
  intros Hc Hrt Hs Hb Ha.
  assert (Hst : streams (ccr_stream request) = false) by by destruct (ccr_stream request) as [[]|].
  destruct (handle_chat_answered ctx client headers request _ OK _ Hc Hrt Hst eq_refl Ha) as [Hn Hr].
  assert (E : reply OK answer = Ok c) by (unfold reply; simpl; by rewrite Hb).
  rewrite E in Hn, Hr. split; [exact Hn|]. intros response (r & -> & H)%Hr. exists r. split; [done|].
  destruct H as [|(c' & [= <-] & ->)]; [by left|]. right. apply chat_with_kept.
Qed.
Lemma completions_relayed ctx client headers (request : CompletionsRequest) answer (c : Completion) :
  client_map_get KOpenAi "openai" (ctx_clients ctx) = Some client -> router_enabled_for client = false ->
  cr_stream request <> Some true -> from_value answer = Some c ->
  model_answers client COMPLETIONS_ENDPOINT headers (completions_request_fields request) OK answer ->
  let result := handle_completions_unary ctx {| cmdt_request := request; cmdt_headers := headers |} in
  (cr_detectors request = no_detectors -> result = Ok (CompletionUnary c)) /\
  (forall response, result = Ok response -> exists r, response = CompletionUnary r /\
     (cp_choices r = [] \/ agree (kept completion_names) (completion_fields r) (completion_fields c))).
Proof.
  intros Hc Hrt Hs Hb Ha.
  assert (Hst : streams (cr_stream request) = false) by by destruct (cr_stream request) as [[]|].
  destruct (handle_completions_answered ctx client headers request _ OK _ Hc Hrt Hst eq_refl Ha) as [Hn Hr].
  assert (E : reply OK answer = Ok c) by (unfold reply; simpl; by rewrite Hb).
  rewrite E in Hn, Hr. split; [exact Hn|]. intros response (r & -> & H)%Hr. exists r. split; [done|].
  destruct H as [|(c' & [= <-] & ->)]; [by left|]. right. apply completion_with_kept.
Qed.

(** *** On their routes *)
Context (to_lowercase : string -> string).
(** The headers a route passes on *)
Definition route_headers (ctx : Context) (headers : HeaderMap) : HeaderMap :=
  filter_headers to_lowercase (passthrough_headers (ctx_config ctx)) headers
    (rewrite_forwarded_access_header (ctx_config ctx)).

Lemma json_route_answer {T A} (validate : T -> outcome ValidationError ())
    (handle : T -> HeaderMap -> outcome OrchError A)
    ctx headers request :
  validate request = Ok () ->
  json_route to_lowercase (fun m => m) validate handle ctx headers (inl request) =
    map_err server_error_from_orch (handle request (route_headers ctx headers)).
Proof. intros Hv. unfold json_route. simpl. by rewrite Hv. Qed.
Lemma json_route_Ok {T A} (validate : T -> outcome ValidationError ())
    (handle : T -> HeaderMap -> outcome OrchError A)
    ctx headers request a :
  json_route to_lowercase (fun m => m) validate handle ctx headers (inl request) = Ok a ->
  handle request (route_headers ctx headers) = Ok a.
Proof.
  intros (request' & [= <-] & (_ & _ & H)%bind_Ok)%bind_Ok.
  change (map_err server_error_from_orch (handle request (route_headers ctx headers)) = Ok a) in H.
  destruct (handle request _); by simplify_eq/=.
Qed.

(** A request that does not ask for a stream is answered by the unary
    handler. *)
Lemma chat_route_Ok reader ctx headers request answer :
  ccr_stream request <> Some true ->
  chat_completions_detection to_lowercase (fun m => m) reader ctx headers (inl request) = Ok answer ->
  exists response,
    handle_chat_unary ctx {| ccdt_request := request; ccdt_headers := route_headers ctx headers |} = Ok response /\
    (forall r, response = ChatUnary r -> answer = inl r).
Proof.
  intros Hs (response & Hr%json_route_Ok & H)%bind_Ok. exists response. split.
  - unfold handle_chat in Hr. simpl in Hr. by destruct (ccr_stream request) as [[]|].
  - intros r ->. by injection H.
Qed.
Lemma completions_route_Ok reader ctx headers request answer :
  cr_stream request <> Some true ->
  completions_detection to_lowercase (fun m => m) reader ctx headers (inl request) = Ok answer ->
  exists response,
    handle_completions_unary ctx {| cmdt_request := request; cmdt_headers := route_headers ctx headers |} = Ok response /\
    (forall r, response = CompletionUnary r -> answer = inl r).
Proof.
  intros Hs (response & Hr%json_route_Ok & H)%bind_Ok. exists response. split.
  - unfold handle_completions in Hr. simpl in Hr. by destruct (cr_stream request) as [[]|].
  - intros r ->. by injection H.
Qed.
Lemma chat_route_handled reader ctx headers request result :
  ccr_stream request <> Some true -> chat_request_validate request = Ok () ->
  handle_chat_unary ctx {| ccdt_request := request; ccdt_headers := route_headers ctx headers |} = result ->
  chat_completions_detection to_lowercase (fun m => m) reader ctx headers (inl request) =
    (response ← map_err server_error_from_orch result;
     Ok (match response with ChatUnary r => inl r | ChatStreaming rx => inr (rx ≫= completion_event) end)).
Proof.
  intros Hs Hv <-. unfold chat_completions_detection. rewrite json_route_answer by done. unfold handle_chat. simpl.
  by destruct (ccr_stream request) as [[]|].
Qed.
Lemma completions_route_handled reader ctx headers request result :
  cr_stream request <> Some true -> completions_request_validate request = Ok () ->
  handle_completions_unary ctx {| cmdt_request := request; cmdt_headers := route_headers ctx headers |} = result ->
  completions_detection to_lowercase (fun m => m) reader ctx headers (inl request) =
    (response ← map_err server_error_from_orch result;
     Ok (match response with CompletionUnary r => inl r | CompletionStreaming rx => inr (rx ≫= completion_event) end)).
Proof.
  intros Hs Hv <-. unfold completions_detection. rewrite json_route_answer by done. unfold handle_completions. simpl.
  by destruct (cr_stream request) as [[]|].
Qed.

(** Members that are not declared are not read. *)
Lemma answer_unknown_member body key :
  (key ∉ chat_completion_names ->
     (from_value (value_object (delete key body)) : option ChatCompletion) = from_value (value_object body)) /\
  (key ∉ completion_names ->
     (from_value (value_object (delete key body)) : option Completion) = from_value (value_object body)) /\
  (key ∉ usage_names ->
     (from_value (value_object (delete key body)) : option Usage) = from_value (value_object body)).
Proof.
  split_and!; intros Hk%not_in_names; repeat (apply Forall_cons in Hk as [? Hk]); unfold from_value;
    [unfold chat_completion_from_value|unfold completion_from_value|unfold usage_from_value];
    rewrite !struct_fields_object; cbn [mbind option_bind];
    by rewrite !required_delete, ?optional_delete, ?defaulted_delete.
Qed.

(** A request without detectors is valid if it names a model and, of a chat,
    has messages. *)
Lemma chat_request_valid (r : ChatCompletionsRequest) :
  ccr_detectors r = no_detectors -> ccr_model r <> "" -> ccr_messages r <> [] -> chat_request_validate r = Ok ().
Proof. destruct r as [d s mo ms t x]. simpl. intros -> Hmo Hms. by destruct mo, ms. Qed.
Lemma completions_request_valid (r : CompletionsRequest) :
  cr_detectors r = no_detectors -> cr_model r <> "" -> completions_request_validate r = Ok ().
Proof. destruct r as [d k s mo p x]. simpl. intros -> Hmo. by destruct mo. Qed.

(** C27. What of the model's answer reaches the caller.  The request that is read
    of the body [m] of a chat completion or a completion, and that asks for no
    stream, is sent on to the model's server as the object that [bodies_forwarded]
    describes, with the headers that pass.  An answer with status 200 is what can
    be read of it: a member of it, or of its usage, that is not declared is not
    read, and so lost.  Without detectors the caller is sent what was read, if
    the request has a model and messages; with detectors, a response is either
    one without choices, of a blocked prompt, or has every declared member of
    what was read but for the detections and the warnings.  And where the
    declared members of an answer are written as the program writes them, what is
    read is the answer with these members, so that they reach the caller as they
    were. *)
Theorem answers_relayed reader ctx client headers m :
  client_map_get KOpenAi "openai" (ctx_clients ctx) = Some client -> router_enabled_for client = false ->
  (forall (request : ChatCompletionsRequest) sent answer (c : ChatCompletion),
     from_value (value_object m) = Some request -> ccr_stream request <> Some true ->
     (forall key, sent !! key = m !! key ≫= chat_member key) -> from_value answer = Some c ->
     model_answers client CHAT_COMPLETIONS_ENDPOINT (route_headers ctx headers) sent OK answer ->
     let result := chat_completions_detection to_lowercase (fun m => m) reader ctx headers (inl request) in
     (ccr_detectors request = no_detectors -> ccr_model request <> "" -> ccr_messages request <> [] ->
        result = Ok (inl c)) /\
     (forall response, result = Ok response -> exists r fields,
        response = inl r /\ to_value r = value_object fields /\ declared chat_completion_names fields /\
        (cc_choices r = [] \/ agree (kept chat_completion_names) fields (chat_completion_fields c)))) /\
  (forall (request : CompletionsRequest) sent answer (c : Completion),
     from_value (value_object m) = Some request -> cr_stream request <> Some true ->
     (forall key, sent !! key = m !! key ≫= completions_member key) -> from_value answer = Some c ->
     model_answers client COMPLETIONS_ENDPOINT (route_headers ctx headers) sent OK answer ->
     let result := completions_detection to_lowercase (fun m => m) reader ctx headers (inl request) in
     (cr_detectors request = no_detectors -> cr_model request <> "" -> result = Ok (inl c)) /\
     (forall response, result = Ok response -> exists r fields,
        response = inl r /\ to_value r = value_object fields /\ declared completion_names fields /\
        (cp_choices r = [] \/ agree (kept completion_names) fields (completion_fields c)))) /\
  (forall body (c : ChatCompletion), valid c -> agree chat_completion_names body (chat_completion_fields c) ->
     from_value (value_object body) = Some c) /\
  (forall body (c : Completion), valid c -> agree completion_names body (completion_fields c) ->
     from_value (value_object body) = Some c) /\
  (forall body key,
     (key ∉ chat_completion_names ->
        (from_value (value_object (delete key body)) : option ChatCompletion) = from_value (value_object body)) /\
     (key ∉ completion_names ->
        (from_value (value_object (delete key body)) : option Completion) = from_value (value_object body)) /\
     (key ∉ usage_names ->
        (from_value (value_object (delete key body)) : option Usage) = from_value (value_object body))).
Proof.
  intros Hc Hrt. split; [|split; [|split; [|split; [|exact answer_unknown_member]]]];
    [| |by intros; apply chat_completion_read|by intros; apply completion_read].
  - intros request sent answer c [_ Hq]%chat_read_sent Hs Hk Hb Ha.
    assert (sent = chat_request_fields request) as -> by (apply map_eq; intros key; by rewrite Hk, Hq).
    destruct (chat_relayed _ _ _ _ _ _ Hc Hrt Hs Hb Ha) as [Hn Hr]. split.
    + intros Hd Hmo Hms.
      rewrite (chat_route_handled _ _ _ _ _ Hs (chat_request_valid _ Hd Hmo Hms) (Hn Hd)). done.
    + intros response (r' & Hr' & E)%chat_route_Ok; [|done]. destruct (Hr _ Hr') as (r & -> & H).
      exists r, (chat_completion_fields r). pose proof (chat_completion_fields_declared r). by rewrite (E r eq_refl).
  - intros request sent answer c [_ Hq]%completions_read_sent Hs Hk Hb Ha.
    assert (sent = completions_request_fields request) as -> by (apply map_eq; intros key; by rewrite Hk, Hq).
    destruct (completions_relayed _ _ _ _ _ _ Hc Hrt Hs Hb Ha) as [Hn Hr]. split.
    + intros Hd Hmo. rewrite (completions_route_handled _ _ _ _ _ Hs (completions_request_valid _ Hd Hmo) (Hn Hd)). done.
    + intros response (r' & Hr' & E)%completions_route_Ok; [|done]. destruct (Hr _ Hr') as (r & -> & H).
      exists r, (completion_fields r). pose proof (completion_fields_declared r). by rewrite (E r eq_refl).
Qed.

(** *** The errors of the model *)

(** What the caller is told of an answer with an error status. *)
Definition told (status : StatusCode) : StatusCode := if passed_through status then status else INTERNAL_SERVER_ERROR.

Lemma told_request_failed model status message :
  code (server_error_from_orch (ChatCompletionRequestFailed model (Http status message))) = told status.
Proof. unfold told. simpl. by destruct (passed_through status). Qed.

(** C28. An answer of the model with another status than 200 to a chat completion
    without detectors is an error with that status: its text is the error's
    message when the answer is an error in the format of vLLM, or of OpenAI
    with a number as its code; when its code is a text, as in OpenAI's own
    errors, the text is lost. The caller is told the status only if it is
    400, 404, 422 or 503, and 500 otherwise. *)
Theorem model_errors_relayed reader ctx client headers m stream model messages tools status e :
  client_map_get KOpenAi "openai" (ctx_clients ctx) = Some client -> router_enabled_for client = false ->
  stream <> Some true -> chat_body m no_detectors stream model messages tools -> model <> "" -> messages <> [] ->
  status <> OK ->
  model_answers client CHAT_COMPLETIONS_ENDPOINT (route_headers ctx headers) (delete "detectors" m) status
    (value_object e) ->
  exists (request : ChatCompletionsRequest) message, from_value (value_object m) = Some request /\
    let error := server_error_from_orch (ChatCompletionRequestFailed model (Http status message)) in
    chat_completions_detection to_lowercase (fun m => m) reader ctx headers (inl request) = Err error /\
    code error = told status /\
    (forall v1 : ErrorResponseV1, valid v1 -> agree error_v1_names e (error_v1_fields v1) -> message = v1_message v1) /\
    (e !! "object" = None -> forall i, e !! "error" = Some (value_object i) ->
       (forall info : ErrorInfo, valid info -> agree error_info_names i (error_info_fields info) ->
          message = ei_message info) /\
       (forall text, i !! "code" = Some (value_string text) -> message = "unknown error occurred")).
Proof.
  intros Hc Hrt Hs Hm Hmo Hms Hst Ha. eexists.
  exists (match from_value (value_object e) with
          | Some e => error_response_message e
          | None => "unknown error occurred"
          end).
  split; [by apply chat_body_read|].
  set (request := Build_ChatCompletionsRequest _ _ _ _ _ _).
  assert (Hno : streams (ccr_stream request) = false) by by destruct stream as [[]|].
  assert (Hto : to_value request = value_object (delete "detectors" m)).
  { unfold to_value, chat_request_serialize, request. by erewrite chat_object_forwarded. }
  destruct (handle_chat_answered ctx client _ request _ status _ Hc Hrt Hno Hto Ha) as [Hn _].
  assert (Hvalid : chat_request_validate request = Ok ()) by by destruct model, messages.
  rewrite (chat_route_handled reader ctx headers request _ Hs Hvalid (Hn eq_refl)).
  unfold reply. rewrite (proj2 (Z.eqb_neq _ _) Hst). split; [reflexivity|]. split; [apply told_request_failed|]. split.
  - intros v1 Hv He. by rewrite (error_v1_read _ _ Hv He).
  - intros Ho i Hi. rewrite (error_v2_read _ _ Ho Hi). split.
    + intros info Hv He. by rewrite (error_info_read _ _ Hv He).
    + intros text Ht. by rewrite (error_code_text _ _ Ht).
Qed.
End relay.

(** ** Lines of JSON *)
Section json_lines.
Context {SJ : SerdeJson} {JS : Json} {JLW : JsonLaws JS} {JV : JsonView} {JL : JsonViewLaws JS JV}
  {JF : JsonFloats} {JFL : JsonFloatsLaws JV JF}.

(** A response or error that [Routes.stream_content_detection] yields, as a
    line. *)
Definition content_line (line : StreamingContentDetectionResponse + ServerError) : outcome ServerError string :=
  let text := match line with inl msg => to_nd_string msg | inr error => to_nd_string error end in
  match text with
  | inl line => Ok line
  | inr _ => Panic "server/routes.rs:271"
  end.
(** The body that is sent, and how the task that writes it ends: a panic ends
    the body after the lines before it. *)
Fixpoint content_body (lines : list (StreamingContentDetectionResponse + ServerError))
    : string * outcome ServerError () :=
  match lines with
  | [] => ("", Ok ())
  | line :: rest =>
      match content_line line with
      | Ok text => let '(body, ended) := content_body rest in (text +:+ body, ended)
      | Err e => ("", Err e)
      | Panic site => ("", Panic site)
      end
  end.

(** A caller takes a body apart at the newlines. *)
Fixpoint split_lines (body : string) : list string :=
  match body with
  | "" => []
  | String c rest =>
      if (c =? "010")%char then "" :: split_lines rest
      else match split_lines rest with
           | [] => [String c ""]
           | line :: lines => String c line :: lines
           end
  end.
Definition one_line (text : string) : Prop := "010"%char ∉ String.list_ascii_of_string text.
(** What the lines are: the value of a response or of an error. *)
Definition line_value (line : StreamingContentDetectionResponse + ServerError) : Value :=
  match line with inl msg => to_value msg | inr error => to_value error end.

Lemma split_lines_cons line rest :
  one_line line -> split_lines ((line +:+ newline) +:+ rest) = line :: split_lines rest.
Proof.
  unfold one_line. induction line as [|c line IH]; [done|]. cbn [String.list_ascii_of_string].
  intros [Hc Hl]%not_elem_of_cons.
  change ((String c line +:+ newline) +:+ rest) with (String c ((line +:+ newline) +:+ rest)).
  cbn [split_lines].
  destruct (Ascii.eqb_spec c "010"); [by destruct Hc|]. by rewrite (IH Hl).
Qed.
Lemma content_line_text line :
  exists text, to_vec (line_value line) = inl text /\ content_line line = Ok (text +:+ newline).
Proof.
  destruct (to_vec_value (line_value line)) as [text E]. exists text. split; [done|].
  destruct line; unfold content_line, to_nd_string; simpl in E; by rewrite E.
Qed.

(** A line that loses nothing: a response within the widths of its fields all of
    whose numbers read back, or an error. *)
Definition lossless (line : StreamingContentDetectionResponse + ServerError) : Prop :=
  match line with
  | inl msg => valid msg /\ exact (to_value msg)
  | inr error => 0 <= code error < 2 ^ 16
  end.

Lemma lossless_exact line : lossless line -> exact (line_value line).
Proof.
  destruct line as [msg|error]; [by intros []|]. intros Hc. unfold line_value, to_value, server_error_serialize.
  apply exact_object. intros key v. rewrite lookup_union, !lookup_field.
  repeat case_decide; simpl; intros E; try discriminate E; injection E as <-;
    first [apply exact_string | apply exact_integer; simpl in Hc; lia].
Qed.

(** C32. The body of a content detection stream is always written - the
    serialisation does not panic -, one line for each response or error, in
    order; and a caller that takes it apart at the newlines and reads the lines
    gets every error's code and text, and every response as it was whose floats
    serde_json reads back (which it does not promise for all of them): as long as
    the JSON of a value is on one line, as serde_json writes it. *)
Theorem content_body_reads_back lines :
  (forall v text, to_vec v = inl text -> one_line text) ->
  exists body, content_body lines = (body, Ok ()) /\
    Forall2 (fun line text => to_vec (line_value line) = inl text /\
      (lossless line -> exists v, value_from_str text = inl v /\
        match line with
        | inl msg => from_value v = Some msg
        | inr error => value_get "code" v = Some (value_integer (code error)) /\
                       value_get "details" v ≫= value_as_str = Some (details error)
        end)) lines (split_lines body).
Proof.
  intros Hone. induction lines as [|line lines (body & Hb & IH)]; [by eexists; repeat constructor|].
  destruct (content_line_text line) as (text & Ht & Hl). exists ((text +:+ newline) +:+ body).
  cbn [content_body]. rewrite Hl. cbn iota. rewrite Hb. split; [done|].
  rewrite split_lines_cons by eauto. constructor; [|done]. split; [done|]. intros Hv.
  exists (line_value line). split; [by apply value_from_to_vec; [apply lossless_exact|]|].
  destruct line as [msg|error]; simpl.
  - by apply round_trip, Hv.
  - unfold to_value, server_error_serialize. rewrite !value_get_object, !lookup_union, !lookup_field. simpl.
    split; [done|apply value_as_str_string].
Qed.
End json_lines.

(** ** Witnesses *)
Section witnesses.
#[local] Existing Instances fifo_runtime fifo_runtime_laws settings_connector list_headers ex_stamp echo_grpc.
#[local] Existing Instance first_batches.
#[local] Existing Instances tree_json tree_values tree_values_laws tree_view tree_view_laws tree_floats
  tree_floats_laws.

(** A server that gives the same answer to every request. *)
Definition answering (status : StatusCode) (answer : Value) : Transport := {|
  Url := string; Uri := string; url_path u := u; url_set_path path _ := path;
  url_join u path := Some (u +:+ path); uri_from u := Some u; HttpClientInner := ();
  connection (c : @HttpClient settings_connector) :=
    {| base_url := "/"; health_url := "/health"; api_token := http_api_token c; inner := () |};
  inject_context h := h; Body := string;
  call _ _ := match to_vec answer with inl text => inl (status, text) | inr e => inr e end;
  body_collect body := Some body; eventsource _ := []; base64_encode s := s;
  new_v4 := "0b1f9df8-e2cd-4a3c-8a3b-6f1f2f3f4f5f"
|}.
Definition ex_mismatch (v : Value) : string := "invalid type".
#[local] Instance ex_deserialize {T} `{!FromValue T} : Deserialize T := derived_deserialize ex_mismatch.
Definition ex_model : OpenAiClient :=
  match client_map_get KOpenAi "openai" (ctx_clients ex_ctx) with
  | Some client => client
  | None => ex_routed_client
  end.
Lemma ex_model_configured : client_map_get KOpenAi "openai" (ctx_clients ex_ctx) = Some ex_model.
Proof. vm_compute. reflexivity. Qed.
Lemma ex_model_direct : router_enabled_for ex_model = false.
Proof. vm_compute. reflexivity. Qed.

(** No header passes. *)
Definition ex_headers_passed : HeaderMap := route_headers ascii_lowercase ex_ctx ex_no_headers.
Lemma answering_answers path status answer :
  @model_answers _ _ _ _ (answering status answer) ex_content_type ex_model path ex_headers_passed
    (delete "detectors" ex_body) status answer.
Proof.
  destruct (to_vec_value answer) as [text E]. unfold model_answers. do 3 eexists.
  split; [reflexivity|]. split; [|split; [|split; [reflexivity|]]].
  - unfold post, send. simpl. reflexivity.
  - reflexivity.
  - by apply tree_reads_back.
Qed.

(** The request read of the greeting. *)
Definition ex_request : ChatCompletionsRequest :=
  {| ccr_detectors := no_detectors; ccr_stream := None; ccr_model := "llama"; ccr_messages := [ex_greeting];
     ccr_tools := None; ccr_extra := flatten chat_request_names (object ex_body) |}.
Lemma answers_relayed_witness :
  from_value (value_object ex_body) = Some ex_request /\
  from_value (value_object ex_answer_body) = Some ResponseJson.ex_answer /\
  chat_completions_detection (SV := wire_services (TR := answering OK (value_object ex_answer_body)) ex_content_type)
    ascii_lowercase (fun m => m) None ex_ctx ex_no_headers (inl ex_request) = Ok (inl ResponseJson.ex_answer).
Proof.
  destruct (answers_relayed (TR := answering OK (value_object ex_answer_body)) ex_mismatch ex_content_type
    ascii_lowercase None ex_ctx ex_model ex_no_headers ex_body ex_model_configured ex_model_direct)
    as (H & _ & Hread & _).
  assert (Hr : from_value (value_object ex_body) = Some ex_request) by apply (chat_body_read _ _ _ _ _ _ ex_chat_body).
  assert (Ha : from_value (value_object ex_answer_body) = Some ResponseJson.ex_answer).
  { apply Hread; [exact ex_answer_valid|by repeat constructor]. }
  split; [exact Hr|]. split; [exact Ha|].
  destruct (H ex_request (delete "detectors" ex_body) (value_object ex_answer_body) ResponseJson.ex_answer Hr
    ltac:(discriminate)) as [Hn _].
  - intros key. rewrite <- (proj2 (chat_read_sent _ _ Hr)).
    by rewrite <- (chat_object_forwarded _ _ _ _ _ _ ex_chat_body).
  - exact Ha.
  - apply answering_answers.
  - exact (Hn eq_refl ltac:(discriminate) ltac:(discriminate)).
Defined.

(** A model the server does not have. *)
Definition ex_not_found : ErrorResponseV1 :=
  {| v1_object := "error"; v1_message := "The model `llama` does not exist."; v1_type := "NotFoundError";
     v1_param := None; v1_code := 404 |}.
Lemma ex_not_found_valid : valid ex_not_found.
Proof. by repeat (done || split). Qed.

Lemma model_errors_relayed_witness : exists (request : ChatCompletionsRequest) error,
  chat_completions_detection (SV := wire_services (TR := answering NOT_FOUND (to_value ex_not_found)) ex_content_type)
    ascii_lowercase (fun m => m) None ex_ctx ex_no_headers (inl request) = Err error /\
  code error = NOT_FOUND /\
  error = server_error_from_orch
            (ChatCompletionRequestFailed "llama" (Http NOT_FOUND "The model `llama` does not exist.")).
Proof.
  destruct (model_errors_relayed (TR := answering NOT_FOUND (to_value ex_not_found)) ex_mismatch ex_content_type
    ascii_lowercase None ex_ctx ex_model ex_no_headers ex_body None "llama" [ex_greeting] None NOT_FOUND
    (error_v1_fields ex_not_found) ex_model_configured ex_model_direct ltac:(discriminate) ex_chat_body
    ltac:(discriminate) ltac:(discriminate) ltac:(discriminate)
    (answering_answers _ NOT_FOUND (to_value ex_not_found)))
    as (request & message & _ & Hh & Hc & Hv & _).
  exists request. eexists. split; [exact Hh|]. split; [exact Hc|].
  rewrite (Hv ex_not_found ex_not_found_valid); [reflexivity|]. by repeat constructor.
Defined.

(** A response and then an error. *)
Definition ex_line : StreamingContentDetectionResponse :=
  {| scr_detections := []; scr_processed_index := 6; scr_start_index := 0 |}.
Lemma ex_line_lossless : lossless (inl ex_line).
Proof.
  split; [split; [constructor|]; unfold is_uint; simpl; lia|].
  unfold to_value, content_stream_response_serialize. apply exact_object. intros key v.
  unfold content_stream_response_fields. rewrite !lookup_union, !lookup_field.
  repeat case_decide; simpl; intros E; try discriminate E; injection E as <-;
    first [apply (exact_integer (JS := tree_values) 6); lia | apply (exact_integer (JS := tree_values) 0); lia
          |apply (exact_array (JS := tree_values) []); by intros ? ?%elem_of_nil].
Qed.
Lemma tree_values_one_line v text : to_vec v = inl text -> one_line text.
Proof.
  intros [= <-]. unfold one_line. generalize (encode (v : tree)). intros p.
  induction p; simpl; [by rewrite not_elem_of_cons..|apply not_elem_of_nil].
Qed.
Lemma content_body_reads_back_witness : exists body line rest v,
  content_body [inl ex_line; inr unexpected_error] = (body, Ok ()) /\ split_lines body = line :: rest /\
  value_from_str line = inl v /\ from_value v = Some ex_line.
Proof.
  destruct (content_body_reads_back [inl ex_line; inr unexpected_error] tree_values_one_line) as (body & Hb & Hl).
  inversion Hl as [|line0 line l rest (_ & Hm) H E0 E]. destruct (Hm ex_line_lossless) as (v & Hv & Hr).
  exists body, line, rest, v. split; [exact Hb|]. split; [exact (eq_sym E)|]. split; [exact Hv|exact Hr].
Defined.
End witnesses.
