(* ===== verification/Server.v ===== *)
(** * The process

    src/main.rs and src/server.rs: how the process starts from its arguments -
    checks, telemetry (Telemetry.v), configuration (Config.v), clients and
    start-up checks (Health.v), listeners and TLS (Tls.v) - and the accept loop
    of src/server/tls.rs as a labelled transition system.  Sockets are a
    parameter ([Sockets]); axum's own accept loops, for the health server and
    for connections without TLS, are library code. *)
From S2P Require Import Prelude Collections External Errors Utf8 Hostname Config Detection.
From S2P Require Import Chunk Batcher BatchStream BatchGroups Clients Tls OpenAi Http Args Telemetry CompletionState.
From S2P Require Import Models Utils Tasks Streams DetectionHandlers Classification Completions.
From S2P Require Import Streaming ChatStreaming CompletionsStreaming StreamingContent StreamingClassification.
From S2P Require Import Health Routes.
#[local] Open Scope string_scope.
#[local] Open Scope list_scope.
#[local] Open Scope Z_scope.

(** [TcpListener::bind] on 0.0.0.0 and a port, by a process that listens on the
    ports given: why it fails.  The system chooses a port for port 0. *)
Class Sockets := {
  bind_error : list Z -> Z -> option string
}.
Class SocketsLaws (SO : Sockets) := {
  bind_in_use held port : port ∈ held -> port <> 0 -> is_Some (bind_error held port)
}.

Section server.
Context {SJ : SerdeJson} {RT : Runtime} {CN : Connector} {SV : Services} {PR : Probes}.
Context {HH : HttpHeaders} {TR : Transport} {UT : UrlText} {OT : Otel} {RU : Rustls} {SO : Sockets}.
(** [str::to_lowercase], an empty header map, and what reading and parsing a
    configuration file gives *)
Context (to_lowercase : string -> string) (no_headers : Headers)
  (config_file : string -> outcome ConfigError OrchestratorConfig).

(** What runs once [server::run] has returned. *)
Record Running := {
  health_port : Z;
  guardrails_port : Z;
  guardrails_tls : option ServerConfig;
  guardrails_routes : list (string * Endpoint);
  state : Context
}.

Definition run_health_server (port : Z) : outcome ServerError Z :=
  match bind_error [] port with
  | Some e => Err (server_error_from_io e)
  | None => Ok port
  end.

(** The health server holds its port already. *)
Definition run_guardrails_server (held port : Z) (tls_cert_path tls_key_path tls_client_ca_cert_path : option string)
    (state : Context) : outcome ServerError (Z * list (string * Endpoint) * option ServerConfig) :=
  let router := guardrails_router (ctx_config state) in
  match bind_error [held] port with
  | Some e => Err (server_error_from_io e)
  | None =>
      tls_config ← configure_tls tls_cert_path tls_key_path tls_client_ca_cert_path;
      Ok (port, router, tls_config)
  end.

Definition server_run (guardrails_addr health_addr : Z)
    (tls_cert_path tls_key_path tls_client_ca_cert_path : option string) (orchestrator : Context)
    : outcome ServerError Running :=
  health ← run_health_server health_addr;
  '(guardrails, router, tls) ←
    run_guardrails_server health guardrails_addr tls_cert_path tls_key_path tls_client_ca_cert_path orchestrator;
  Ok {| health_port := health; guardrails_port := guardrails; guardrails_tls := tls;
        guardrails_routes := router; state := orchestrator |}.

(** ** [main] *)
Inductive StartError :=
| InvalidArgs (error : ValidationError)
| TracingFailed (error : string)
| ConfigFailed (error : ConfigError)
| OrchestratorFailed (error : OrchError).

Definition given (path : option string) : bool := match path with Some _ => true | None => false end.

Definition check_tls_args (args : Args) : outcome StartError () :=
  if negb (Bool.eqb (given (tls_key_path args)) (given (tls_cert_path args))) then Panic "main.rs:36"
  else if given (tls_client_ca_cert_path args) && negb (given (tls_cert_path args)) then Panic "main.rs:39"
  else Ok ().

(** [main] until both servers run, and what is left to shut down at its end. *)
Definition main (args : Args) : outcome StartError (Running * Tracing) :=
  check_tls_args args ≫= fun _ =>
  tracing_config ← map_err InvalidArgs (tracing_config_from args);
  tracing ← map_err TracingFailed (init_tracing tracing_config);
  config ← map_err ConfigFailed (load to_lowercase (config_file (config_path args)));
  orchestrator ← map_err OrchestratorFailed (orchestrator_new config no_headers (start_up_health_check args));
  match server_run (arg_http_port args) (arg_health_http_port args) (tls_cert_path args) (tls_key_path args)
          (tls_client_ca_cert_path args) orchestrator with
  | Ok running => Ok (running, tracing)
  | Err _ => Panic "main.rs:67"
  | Panic site => Panic site
  end.
End server.

(** ** The accept loop of [serve_with_tls]

    The loop waits at one of its two [select!]s, for a connection or for a
    handshake; after the signal it waits for the connections it watches.  An
    event is what the future that completes first gives; connections that are
    being served end on their own. *)
Section accept_loop.
Context {Conn : Type} `{EqDecision Conn}.

Inductive Phase := Accepting | Handshaking (cnx : Conn) | Draining | Stopped.
Inductive ServeEvent :=
| Accepted (cnx : Conn)
| AcceptFailed
| HandshakeDone
| HandshakeFailed
| SignalReceived
| ConnectionClosed (cnx : Conn)
| ShutdownCompleted
| TenSecondsElapsed.
Record ServeState := { phase : Phase; watched : list Conn }.

Definition serve_with_tls : ServeState := {| phase := Accepting; watched := [] |}.

Definition serve_step (s : ServeState) (e : ServeEvent) : option ServeState :=
  match phase s, e with
  | _, ConnectionClosed cnx =>
      if decide (cnx ∈ watched s)
      then Some {| phase := phase s; watched := filter (fun c => c <> cnx) (watched s) |} else None
  | Accepting, Accepted cnx => Some {| phase := Handshaking cnx; watched := watched s |}
  | Accepting, AcceptFailed => Some s
  | Accepting, SignalReceived => Some {| phase := Draining; watched := watched s |}
  | Handshaking cnx, HandshakeDone => Some {| phase := Accepting; watched := cnx :: watched s |}
  | Handshaking _, HandshakeFailed => Some {| phase := Accepting; watched := watched s |}
  | Handshaking _, SignalReceived => Some {| phase := Draining; watched := watched s |}
  | Draining, ShutdownCompleted =>
      if decide (watched s = []) then Some {| phase := Stopped; watched := [] |} else None
  | Draining, TenSecondsElapsed => Some {| phase := Stopped; watched := watched s |}
  | _, _ => None
  end.

Fixpoint serve_run (s : ServeState) (l : list ServeEvent) : option ServeState :=
  match l with
  | [] => Some s
  | e :: l => serve_step s e ≫= fun s' => serve_run s' l
  end.

Lemma serve_run_app s l l' : serve_run s (l ++ l') = serve_run s l ≫= fun s' => serve_run s' l'.
Proof.
  revert s. induction l as [|e l IH]; intros s; simpl; [done|]. by destruct (serve_step s e); simpl.
Qed.

(** What an event does to the loop. *)
Lemma serve_step_phase s e s' :
  serve_step s e = Some s' ->
  (exists cnx, e = ConnectionClosed cnx /\ phase s' = phase s) \/
  (exists cnx, phase s = Accepting /\ e = Accepted cnx /\ phase s' = Handshaking cnx) \/
  (phase s = Accepting /\ e = AcceptFailed /\ phase s' = Accepting) \/
  (exists cnx, phase s = Handshaking cnx /\ (e = HandshakeDone \/ e = HandshakeFailed) /\ phase s' = Accepting) \/
  (e = SignalReceived /\ (phase s = Accepting \/ exists cnx, phase s = Handshaking cnx) /\ phase s' = Draining) \/
  (phase s = Draining /\ (e = ShutdownCompleted \/ e = TenSecondsElapsed) /\ phase s' = Stopped).
Proof.
  unfold serve_step. destruct (phase s) eqn:Ep, e; repeat case_decide; try discriminate;
    intros [= <-]; simpl; rewrite ?Ep; eauto 12.
Qed.

Lemma accepted_phase s cnx s' : serve_step s (Accepted cnx) = Some s' -> phase s' = Handshaking cnx.
Proof. unfold serve_step. destruct (phase s); [|done..]. by intros [= <-]. Qed.
Lemma signal_phase s s' : serve_step s SignalReceived = Some s' -> phase s' = Draining.
Proof. unfold serve_step. destruct (phase s); [| |done..]; by intros [= <-]. Qed.

Definition is_handshake_end (e : ServeEvent) : Prop := e = HandshakeDone \/ e = HandshakeFailed.

Lemma shutdown_final s l s' :
  phase s = Draining \/ phase s = Stopped -> serve_run s l = Some s' ->
  (phase s' = Draining \/ phase s' = Stopped) /\
  forall e, e ∈ l -> (exists c, e = ConnectionClosed c) \/ e = ShutdownCompleted \/ e = TenSecondsElapsed.
Proof.
  revert s. induction l as [|e l IH]; intros s Hp; simpl.
  { intros [= <-]. split; [done|]. by intros e ?%elem_of_nil. }
  intros (s1 & Hs & Hr)%bind_Some. apply serve_step_phase in Hs.
  destruct (IH s1) as [H1 H2]; [|done|].
  - destruct Hs as [(? & _ & ->)|[(? & ? & _)|[(? & _)|[(? & ? & _)|[(_ & [?|[? ?]] & _)|(_ & _ & ?)]]]]];
      first [done|by right|destruct Hp; congruence].
  - split; [done|]. intros e' [->|He]%elem_of_cons; [|by apply H2].
    destruct Hs as [(c & ? & _)|[(? & ? & _)|[(? & _)|[(? & ? & _)|[(_ & [?|[? ?]] & _)|(_ & ? & _)]]]]];
      first [by left; exists c|by right|destruct Hp; congruence].
Qed.

Definition only_closings (l : list ServeEvent) : Prop := Forall (fun e => exists c, e = ConnectionClosed c) l.

Lemma closings_keep_phase s l s' : only_closings l -> serve_run s l = Some s' -> phase s' = phase s.
Proof.
  intros Hl. revert s. induction Hl as [|e l [c ->] Hl IH]; intros s; simpl; [by intros [= <-]|].
  intros (s1 & Hs & Hr)%bind_Some. rewrite (IH _ Hr).
  unfold serve_step in Hs. destruct (phase s) eqn:E, (decide (c ∈ watched s)); simplify_eq/=; congruence.
Qed.

(** The connection whose handshake is awaited is the last one accepted, and
    those that are served have been accepted and have completed theirs. *)
Definition accepted_in (l : list ServeEvent) (cnx : Conn) : Prop :=
  exists l1 l2, l = l1 ++ Accepted cnx :: l2 /\ only_closings l2.
Definition served_in (l : list ServeEvent) (cnx : Conn) : Prop :=
  exists l1 l2 l3, l = l1 ++ Accepted cnx :: l2 ++ HandshakeDone :: l3 /\ only_closings l2.

Lemma served_in_snoc l e cnx : served_in l cnx -> served_in (l ++ [e]) cnx.
Proof.
  intros (l1 & l2 & l3 & -> & Hl). exists l1, l2, (l3 ++ [e]). split; [|done].
  by rewrite <- app_assoc, <- app_comm_cons, <- app_assoc.
Qed.

Lemma serve_step_watched s e s' cnx :
  serve_step s e = Some s' -> cnx ∈ watched s' ->
  cnx ∈ watched s \/ phase s = Handshaking cnx /\ e = HandshakeDone.
Proof.
  unfold serve_step. destruct (phase s) eqn:Ep, e; try case_decide; try discriminate;
    intros [= <-]; simpl; try (by left); rewrite ?list_elem_of_filter, ?elem_of_cons, ?elem_of_nil; naive_solver.
Qed.

Lemma serve_run_history l s :
  serve_run serve_with_tls l = Some s ->
  (forall cnx, phase s = Handshaking cnx -> accepted_in l cnx) /\ (forall cnx, cnx ∈ watched s -> served_in l cnx).
Proof.
  revert s. induction l as [|e l IH] using rev_ind; intros s.
  { intros [= <-]. split; [done|]. by intros cnx ?%elem_of_nil. }
  rewrite serve_run_app. intros (s1 & H1 & (s2 & Hs & [= <-])%bind_Some)%bind_Some.
  destruct (IH s1 H1) as [Ha Hw]. split; intros cnx Hc.
  - apply serve_step_phase in Hs as [(d & -> & Hp)|[(d & _ & -> & Hp)|Hs]].
    + destruct (Ha cnx) as (l1 & l2 & -> & Hl); [congruence|]. exists l1, (l2 ++ [ConnectionClosed d]).
      split; [by rewrite <- app_assoc|]. apply Forall_app. split; [done|]. constructor; [by eexists|done].
    + replace d with cnx by congruence. exists l, []. by split; [|constructor].
    + destruct Hs as [(_ & _ & ?)|[(_ & _ & _ & ?)|[(_ & _ & ?)|(_ & _ & ?)]]]; congruence.
  - destruct (serve_step_watched _ _ _ _ Hs Hc) as [Hin|[Hp ->]]; [by apply served_in_snoc, Hw|].
    destruct (Ha cnx Hp) as (l1 & l2 & -> & Hl). exists l1, l2, []. by rewrite <- app_assoc.
Qed.

(** C24. The accept loop handles one connection at a time up to the end of its
    handshake: the connections it serves have completed theirs, and a client
    that does not go on with its handshake keeps all others from being accepted
    for as long as it likes.  The signal is seen at either wait: after it
    nothing is accepted, and ten seconds later at most the loop has stopped. *)
Theorem accept_loop_spec l s :
  serve_run serve_with_tls l = Some s ->
  (forall cnx, cnx ∈ watched s -> served_in l cnx) /\
  (forall l1 stalled l2 e l3, l = l1 ++ Accepted stalled :: l2 ++ e :: l3 -> only_closings l2 ->
     (exists cnx, e = ConnectionClosed cnx) \/ is_handshake_end e \/ e = SignalReceived) /\
  (forall l1 l2, l = l1 ++ SignalReceived :: l2 ->
     (phase s = Draining \/ phase s = Stopped) /\ forall cnx, Accepted cnx ∉ l2 /\ HandshakeDone ∉ l2) /\
  (phase s = Draining -> phase <$> serve_step s TenSecondsElapsed = Some Stopped) /\
  (phase s <> Draining -> phase s <> Stopped -> phase <$> serve_step s SignalReceived = Some Draining).
Proof.
  intros Hl. split; [apply (serve_run_history l s Hl)|]. split; [|split; [|split]].
  - intros l1 stalled l2 e l3 -> Hc. rewrite serve_run_app in Hl. apply bind_Some in Hl as (s1 & _ & Hl).
    apply bind_Some in Hl as (s2 & Hs2 & Hl). rewrite serve_run_app in Hl. apply bind_Some in Hl as (s3 & Hs3 & Hl).
    apply bind_Some in Hl as (s4 & Hs4 & _).
    apply accepted_phase in Hs2. eapply closings_keep_phase in Hs3; [|done]. rewrite Hs2 in Hs3.
    unfold is_handshake_end. apply serve_step_phase in Hs4. rewrite Hs3 in Hs4. 
    destruct Hs4 as [(c & ? & _)|[(? & ? & _)|[(? & _)|[(? & _ & ? & _)|[(? & _)|(? & _)]]]]]; try done; eauto.
  - intros l1 l2 ->. rewrite serve_run_app in Hl. apply bind_Some in Hl as (s1 & _ & Hl).
    apply bind_Some in Hl as (s2 & Hs2 & Hl). apply shutdown_final in Hl as [Hp He].
    + split; [done|]. intros cnx. split; intros Hin; apply He in Hin as [[? ?]|[?|?]]; done.
    + left. by eapply signal_phase.
  - intros Hp. unfold serve_step. by rewrite Hp.
  - intros Hd Hs. unfold serve_step. by destruct (phase s).
Qed.
End accept_loop.

(** ** What the process serves *)
Section start.
Context {SJ : SerdeJson} {RT : Runtime} {CN : Connector} {SV : Services} {PR : Probes}.
Context {HH : HttpHeaders} {TR : Transport} {UT : UrlText} {OT : Otel} {RU : Rustls}.
Context {SO : Sockets} {SL : SocketsLaws SO}.
Context (to_lowercase : string -> string) (no_headers : Headers)
  (config_file : string -> outcome ConfigError OrchestratorConfig).

Lemma check_tls_args_Ok args :
  check_tls_args args = Ok () ->
  (is_Some (tls_key_path args) <-> is_Some (tls_cert_path args)) /\
  (is_Some (tls_client_ca_cert_path args) -> is_Some (tls_cert_path args)).
Proof.
  unfold check_tls_args, given.
  destruct (tls_key_path args), (tls_cert_path args), (tls_client_ca_cert_path args); simpl; try discriminate;
    intros _; unfold is_Some; naive_solver.
Qed.

Lemma orchestrator_new_Ok config health_check ctx :
  orchestrator_new config no_headers health_check = Ok ctx ->
  ctx_config ctx = config /\ create_clients config = Ok (ctx_clients ctx).
Proof. by intros (clients & E & (? & _ & [= <-])%bind_Ok)%bind_Ok. Qed.

Lemma server_run_Ok guardrails health cert key ca ctx r :
  server_run guardrails health cert key ca ctx = Ok r ->
  guardrails_port r = guardrails /\ health_port r = health /\ state r = ctx /\
  guardrails_routes r = guardrails_router (ctx_config ctx) /\
  configure_tls (E := ServerError) cert key ca = Ok (guardrails_tls r) /\
  (guardrails = health -> guardrails = 0).
Proof.
  unfold server_run, run_health_server, run_guardrails_server.
  destruct (bind_error [] health); [done|]. simpl. destruct (bind_error [health] guardrails) eqn:Eb; [done|].
  destruct (configure_tls cert key ca) as [t| |] eqn:Et; [|done..]. simpl. intros [= <-]. simpl.
  do 5 (split; [done|]). intros ->. destruct (decide (health = 0)) as [|Hz]; [done|].
  destruct (bind_in_use [health] health) as [e E]; [left|done|]. congruence.
Qed.

(** C23. The process that starts serves what its arguments ask for: the guardrails
    endpoints over TLS exactly when any TLS argument is given - never in the
    clear because one of them is missing -, with the certificate and the
    first key of the files given, and only to clients with a certificate issued
    under the CA file when there is one; on the ports given, which differ;
    with the validated configuration of the file given and a client for each
    of its services. *)
Theorem main_serves_as_asked args running tracing :
  main to_lowercase no_headers config_file args = Ok (running, tracing) ->
  (guardrails_tls running = None <->
     tls_cert_path args = None /\ tls_key_path args = None /\ tls_client_ca_cert_path args = None) /\
  (forall t, guardrails_tls running = Some t -> exists cert_path key_path,
     tls_cert_path args = Some cert_path /\ tls_key_path args = Some key_path /\
     certs_in cert_path (server_certs t) /\ first_key_of key_path (server_key t) /\
     admits (tls_client_ca_cert_path args) (client_anchors t)) /\
  guardrails_port running = arg_http_port args /\ health_port running = arg_health_http_port args /\
  (arg_http_port args = arg_health_http_port args -> arg_http_port args = 0) /\
  (exists raw, config_file (config_path args) = Ok raw /\
     load to_lowercase (Ok raw) = Ok (ctx_config (state running)) /\
     create_clients (ctx_config (state running)) = Ok (ctx_clients (state running))) /\
  guardrails_routes running = guardrails_router (ctx_config (state running)).
Proof.
  unfold main. intros ([] & Hargs%check_tls_args_Ok & H)%bind_Ok. apply bind_Ok in H as (tc & _ & H).
  apply bind_Ok in H as (tr & _ & H). apply bind_Ok in H as (config & Hload & H).
  apply bind_Ok in H as (ctx & Hctx & H).
  destruct (server_run _ _ _ _ _ _) as [r|e|site] eqn:Er; [|done..]. injection H as <- <-.
  apply server_run_Ok in Er as (Hg & Hh & Hs & Hr & Ht & Hports).
  destruct (orchestrator_new config no_headers _) as [ctx'| |] eqn:En; [|done..]. injection Hctx as ->.
  apply orchestrator_new_Ok in En as [Ec Ecl].
  destruct (config_file (config_path args)) as [raw| |] eqn:Ef; [|done..].
  destruct (load to_lowercase (Ok raw)) as [c| |] eqn:El; [|done..]. injection Hload as ->.
  apply configure_tls_Ok in Ht as [Hnone Hsome]. rewrite Hs, Ec. rewrite Ec in Hr.
  split; [|split]; [| |do 3 (split; [done|]); split; [by exists raw|done]].
  - rewrite Hnone. destruct Hargs as [Ha Hca]. unfold is_Some in *.
    destruct (tls_cert_path args), (tls_key_path args), (tls_client_ca_cert_path args); naive_solver.
  - intros t Et. destruct (Hsome t Et) as (cp & kp & ? & ? & ? & ? & _ & ?). by exists cp, kp.
Qed.
End start.

Section witnesses.
#[local] Existing Instance fifo_runtime.
#[local] Existing Instance fifo_runtime_laws.
#[local] Existing Instance simple_json.
#[local] Existing Instance settings_connector.
#[local] Existing Instance ex_services.
#[local] Existing Instance ex_probes.
#[local] Existing Instance list_headers.
#[local] Existing Instance silent_network.
#[local] Existing Instance origin_text.
#[local] Existing Instance ex_rustls.

(** Exporters that can be built, and ports that are free unless they are held. *)
#[local] Instance ex_otel : Otel := {|
  TracerProvider := string;
  MeterProvider := string;
  build_tracer_provider _ endpoint _ _ := inl endpoint;
  build_meter_provider _ endpoint _ _ _ := inl endpoint;
  set_global_default := true;
  shutdown_tracer _ := None;
  shutdown_meter _ := None
|}.
#[local] Instance ex_sockets : Sockets := {|
  bind_error held port := if bool_decide (port ∈ held /\ port <> 0) then Some "Address already in use" else None
|}.
#[local] Instance ex_sockets_laws : SocketsLaws ex_sockets.
Proof. split. intros held port Hp Hz. simpl. rewrite bool_decide_eq_true_2 by done. by eexists. Qed.

Definition ex_start_args (health_port : Z) (cert key ca : option string) : Args :=
  {| arg_http_port := 8033; arg_health_http_port := health_port; config_path := "config/config.yaml";
     tls_cert_path := cert; tls_key_path := key; tls_client_ca_cert_path := ca; start_up_health_check := true;
     otlp_export := [Traces]; arg_log_format := Full; arg_quiet := false;
     otlp_service_name := "fms_guardrails_orchestr8"; otlp_endpoint := None; otlp_traces_endpoint := None;
     otlp_metrics_endpoint := None; otlp_protocol := Grpc_; otlp_traces_protocol := None;
     otlp_metrics_protocol := None |}.
Definition ex_start (args : Args) : outcome StartError (Running * Tracing) :=
  main (fun s => s) (() : @Headers _ _ ex_services) (fun _ => Ok ex_config) args.
Definition ex_mtls_args : Args := ex_start_args 8034 (Some "server.crt") (Some "server.key") (Some "ca.crt").

Definition panics_at {E A} (m : outcome E A) : option string :=
  match m with Panic site => Some site | _ => None end.
Example ex_key_only : panics_at (ex_start (ex_start_args 8034 None (Some "server.key") None)) = Some "main.rs:36".
Proof. reflexivity. Qed.
Example ex_ca_alone : panics_at (ex_start (ex_start_args 8034 None None (Some "ca.crt"))) = Some "main.rs:39".
Proof. reflexivity. Qed.
Example ex_same_ports : panics_at (ex_start (ex_start_args 8033 None None None)) = Some "main.rs:67".
Proof. vm_compute. reflexivity. Qed.

Lemma main_serves_as_asked_witness : exists running tracing,
  ex_start ex_mtls_args = Ok (running, tracing) /\ guardrails_port running = 8033 /\
  exists t, guardrails_tls running = Some t /\ admits (Some "ca.crt") (client_anchors t).
Proof.
  assert (Hok : is_ok (ex_start ex_mtls_args) = true) by (vm_compute; reflexivity).
  destruct (ex_start ex_mtls_args) as [[running tracing]|e|site] eqn:E; [|discriminate Hok|discriminate Hok].
  pose proof (main_serves_as_asked _ _ _ _ _ _ E) as (Hnone & Hsome & Hport & _).
  exists running, tracing. split; [reflexivity|]. split; [exact Hport|].
  destruct (guardrails_tls running) as [t|].
  - exists t. split; [reflexivity|]. destruct (Hsome t eq_refl) as (cp & kp & _ & _ & _ & _ & Ha). exact Ha.
  - destruct (proj1 Hnone eq_refl) as [Hc _]. discriminate Hc.
Defined.

(** Two clients, the second of which is only accepted after the first's
    handshake, and a signal while the third stalls. *)
Definition ex_events : list (ServeEvent (Conn := nat)) :=
  [Accepted 1; HandshakeDone; Accepted 2; ConnectionClosed 1; HandshakeDone; Accepted 3; SignalReceived]%nat.

Lemma accept_loop_spec_witness : exists s,
  serve_run serve_with_tls ex_events = Some s /\ watched s = [2]%nat /\ served_in ex_events 2%nat /\
  phase <$> serve_step s TenSecondsElapsed = Some Stopped.
Proof.
  assert (E : serve_run serve_with_tls ex_events = Some {| phase := Draining; watched := [2]%nat |}) by reflexivity.
  destruct (accept_loop_spec ex_events _ E) as (Hw & _ & _ & Hd & _).
  eexists. split; [exact E|]. split; [reflexivity|]. split; [apply Hw; left|exact (Hd eq_refl)].
Defined.
End witnesses.
